(* ===== verification/_CoqProject ===== *)
-Q . S2P
Prelude.v
CString.v
Extern.v
WireFormat.v
WireReference.v
GateMsg.v
ClientMsg.v
TimerMgr.v
Config.v
ConfigCenter.v
AppContext.v
Channel.v
ChannelAgentMgr.v
ChannelMsgProxy.v
GateServerHandler.v
GateFraming.v
GateAgentChannelMsgHandler.v
GateInvariant.v
GateProtocol.v
App.v
AppMain.v
AppLifecycle.v
GateServer.v
Knapsack.v
GateClientHandler.v
RgtdClient.v
EventCenter.v
PlayerLogic.v
RedisAgent.v
MysqlMeta.v
MysqlProxy.v
MysqlAgent.v
MetaSerializer.v
DataCommon.v
DBAgent.v
DBTyping.v
ZoneSession.v
ZoneTask.v
ZoneAgentMgr.v
ZoneInvariant.v
ZoneLogin.v
ZoneWitness.v
ShareMemoryCenter.v
ResTableAgent.v
CacheAgent.v
CacheStore.v
AgentApp.v
