(* ===== verification/Prelude.v ===== *)
(** * Verification of the playground game server

    The program is a small online game server: processes (a gate, a zone
    server, tools) that share an application framework, talk to each other over
    named channels, find each other through a configuration center and serve
    game clients over TCP. The zone server keeps the players' roles in MySQL
    and objects in Redis, reads game data from resource tables and keeps
    modules in shared memory. This library models the program's own code and
    proves what makes it correct, or where it is not.

    ** The system and the files that model it

    Foundations:
    - [Prelude] (this file): record update, machine integers, bytes in memory,
      the state-and-failure monad [M] in which every C++ member function is
      written, its weakest preconditions and their tactics, and the lemmas the
      components share. [M S A] is [S -> option (A * S)]: [None] is a failed
      [assert] or undefined behaviour.
    - [CString]: the C string and number functions the sources use.
    - [Extern]: the code outside the repository, one class of operations per
      library (buffers, ZeroMQ, string splitting, Protocol Buffers) with the
      laws the program relies on as separate classes, and reference instances
      that satisfy them. Classes of one component only (iniparser, hiredis, the
      MySQL client, reflection, files) are in the file of the component.

    Messages ([proto/gen/gate], [proto/gen/cs]):
    - [WireFormat]: the code the Protocol Buffers compiler writes for every
      message, as a loop over a table of cases, with the readers and writers of
      fields; the runtime is the class [WireLib] with the laws [WireLaws] of the
      documented wire format, and [WireReference] an instance that satisfies
      them. [GateMsg] and [ClientMsg]: the generated classes of the messages
      between clients, gate and zone servers, which discharge the laws that the
      other files assume of a [Codec].

    Framework:
    - [TimerMgr] ([component/TimerMgr.{h,cpp}]): the multimap of expiry times,
      the map of events, the expiry walk with its re-entrant callbacks, ticks.
    - [Config] ([component/ConfigParser.cpp], [component/IniConfigParser.cpp]),
      [ConfigCenter] ([datacenter/ConfigCenter.cpp]) and [AppContext]
      ([app/AppContext.cpp]): ini files, the shared key-value store and the
      context of a process that is built from both.
    - [Channel] ([channel/Channel.cpp], [channel/ChannelAgent.cpp]),
      [ChannelAgentMgr] ([channel/ChannelAgentMgr.cpp]) and [ChannelMsgProxy]
      ([app/ChannelMsgProxy.cpp], [app/ChannelProxyDispatcher.cpp]): two-part
      messages over sockets, the table of channels with its poll loop, and the
      proxy that frames messages and routes them to subscribed handlers. The
      class [MsgProxy] is the interface that gate and zone server are proved
      against; [ChannelMsgProxy] is its instance.
    - [App] and [AppMain] ([app/App.{hpp,cpp}]): console, signals, ticks and
      the loop; the command line, the initialisation with the lock file, and
      the destruction. A process is a record of hooks. [AppLifecycle] is their
      theory.

    Gate:
    - [GateServerHandler] ([gate/GateServerHandler.cpp], [gate/GateFrame.cpp]):
      the gate's connections; [GateFraming], [GateInvariant] and [GateProtocol]
      are its theory; [GateAgentChannelMsgHandler]
      ([gate/GateAgentChannelMsgHandler.cpp]) is the way back from the agents.
    - [GateServer] ([gate/GateServer.cpp], [gate/GateServerContext.cpp],
      [gate/GateConsoleHandler.cpp]): the gate process.
    - [GateClientHandler] ([client/gate/GateClientHandler.{h,cpp}]): the client
      library, composed there with the gate; [RgtdClient]
      ([client/rgtdClient.cpp]): the game client, from the lines typed at its
      terminal to the answers it prints.

    Data layer ([datacenter], [db]):
    - [MysqlMeta], [MysqlProxy], [MysqlAgent] ([db/Mysql*.{h,cpp}]): statements
      and rows, one connection, and the queues between the main thread and the
      workers as a transition system at the grain of lock operations: the lock
      of the request queue has an owner, and reading the queue without it while
      another thread is in its section is undefined (a data race).
    - [MetaSerializer]: objects by reflection. [DataCommon]: result codes,
      listener calls, callback data. [DBAgent]: objects as rows of tables, and
      [DBTyping] its composition with the MySQL layer.
    - [RedisAgent]: the asynchronous Redis client. [CacheAgent]: objects in
      Redis, and [CacheStore] its composition with the client and the servers
      behind its connections.
    - [ShareMemoryCenter]: modules in a shared block. [ResTableAgent]: tables
      of game data loaded from files.

    Zone server ([rgtd/zone]):
    - [Knapsack], [EventCenter], [PlayerLogic] ([logic]): items, events, the
      parts of a player; [ZoneTask] ([logic/PlayerTaskLogic.cpp]) is the task
      part on the state of the zone server, with the events it fires.
    - [ZoneSession] ([account], [DBProxy.cpp]): sessions, players and roles in
      heaps with their owners; login and logout are coroutines with explicit
      continuations. [ZoneAgentMgr] ([ZoneAgentMgr.cpp], [ZoneAgent.cpp],
      [logic/CSMsgDispatcher.cpp], [cs_handler]): messages of gates and
      clients, answers of the database, timers, as the events of [zone_step].
      [ZoneInvariant] and [ZoneLogin] are their theory, [ZoneWitness] a
      concrete server.
    - [AgentApp] ([AgentApp.cpp]): configuration and hooks of the process, over
      a state that holds the zone server and the agents of the data layer.

    ** What is shown

    - Timers: a new timer gets a fresh id and is stored with its expiry time
      ([AddTimer_correct]); the walk calls exactly the due timers in order
      ([Expired_correct]); a short tick runs none ([UpdateTick_short]).
    - Processes: [App::main] calls the hooks of an application in the order of
      their life cycle ([main_lifecycle]); [InitLockFile] hands the service over
      from one process to the next ([lock_handover]), though a restart only
      stops ([restart_only_stops]) and a stop with nothing to stop starts
      ([stop_without_lock_starts]); the first signal gives the reason to close
      ([first_signal_wins]).
    - Channels: a posted message of fewer than [2 ^ 31] bytes is received
      unchanged ([channel_round_trip]); the search for a channel id ends with a
      free one ([GenerateChannelID_fresh]); the proxy posts exactly one
      well-formed message or refuses, as long as the sizes fit an [int]
      ([SendToAgent_refines]; [SendToAgent_overflow] is the other case). The
      array of poll items is written without a test ([AddChannel_unchecked]). As
      the map from names to ids is never filled, every message counts as one of
      channel 0 ([GetMessage_source_is_zero]).
    - Gate: the connection table is consistent in every reachable state
      ([gate_reachable_inv], by induction over the events of clients, agents and
      timers); outside test mode, whole frames of messages the proxy accepts are
      forwarded in order ([OnClientDataRecv_frames]); a refused one is dropped
      ([OnClientDataRecv_refused]), pieces of one are lost
      ([OnClientDataRecv_fragmented], [fragment_lost]); login
      ([login_authorises]) and the way back ([DispatchMessage_data]). Client and
      gate together: messages read in one piece arrive once, in order and
      unchanged ([client_to_agent], [gate_to_client]).
    - Messages: what the generated classes write they read back, in the
      announced size ([client_message_round_trip], [gate_event_bounds]); their
      parsers end on every input and do what the loop without jumps does
      ([client_parser_plain]); an unknown event is refused
      ([unknown_event_refused]), an unknown field is skipped
      ([newer_event_accepted]).
    - Game client and gate: a request typed at the terminal reaches the gate's
      channel to the agent ([typed_request_reaches_agent]), and an answer is
      printed as it was made ([answer_shown]). (That the agent's handler is
      called is not so: [Polling_calls_no_handler].) The client answers a request
      to log in ([login_request_sent]). It loses a line when two are
      read in one round ([first_of_two_lines_lost]), and handles neither the
      end of the input ([end_of_input_undefined]) nor a request before the
      connection ([request_without_connection]).
    - Zone server: sessions, players, coroutines and maps agree in every
      reachable state, the task part included ([zone_reachable_inv],
      [task_event_pass]); at its first login a client plays with its stored role
      ([login_loads_role]) or a new one ([login_creates_role]), its requests are
      answered ([role_request_answered]), its role is saved when its close is
      reported with the session's index ([logout_saves_role]), a report with
      another index is refused ([logout_refused]), and a save that keeps failing
      ends ([logout_gives_up]). A second login frees the role in use
      ([second_login_frees_role]), and so does a login that was given up
      ([abandoned_login_dangles]).
    - Items: putting and removing keeps the count ([PutItem_count],
      [RemoveItem_count]) and a package in order, while a position is free
      ([PutItem_placed], [RemoveItem_placed]); the last grid has no position
      ([PutItem_overfull]) and huge numbers are accepted ([PutItem_huge]).
    - Database: statements say what the row holds ([GetInsertTableSQL_denotes],
      [GetUpdateTableSQL_denotes]) and values come back ([field_round_trip],
      [Select_row], [object_round_trip]), unless a message of the object lacks a
      required field ([incomplete_object_lost]). With one worker the requests
      are answered in the order they were accepted, and a run is undefined only
      by a data race on the queue ([agent_answers_in_order],
      [queue_tests_race], [DispatchReq_answers]); a lost wake-up leaves a
      request waiting ([lost_wakeup]). Requests for objects of registered types
      are well typed and the proxy runs them ([typed_requests_do_not_go_wrong]).
    - Cache: agent, client and one server together are a map from keys to
      complete objects ([cache_refines_map]; with two servers they are not,
      [two_servers]); distinct keys stay distinct ([object_key_inj]); what
      a broken connection does to commands in flight ([lost_connection]).
    - Shared memory: [Init] finds every module again with its contents and adds
      the new ones ([Init_recovers], [Init_fresh]); names that are cut keep the
      process from starting ([long_name_fails]).
    - Resource tables: loading gives the ordered tables or refuses a repeated
      key ([ReLoad_tables]); lookups are exact ([lookups_exact]); two-part keys
      do not collide ([entry_key_pair]); two files of one name leave dangling
      pointers ([same_name_dangles]).

    ** Bounds and fuel

    Integers are [Z] with the conversions of their C++ types written out. Loops
    that are not structural have fuel, and the theorems show that the fuel used
    is enough: the searches for a free id get one step more than the map has
    entries (pigeonhole, [next_free_total]); the splitting of a line and the
    reading of frames get one step per character or byte, since each step
    consumes at least one; a parser of messages gets one step per byte and one
    for the end ([MergePartial_total]); [Expired] gets one step per node; the
    pass over the tasks one per task and one to stop; the search for a free grid
    one per grid; the loops over modules, files and columns run over the list
    itself. The retries of a logout are the counter of the source. [App.main_loop] and
    [App.OnCoreDump] are loops of the process that need not end: their fuel is
    the number of rounds looked at.

    ** What is not modelled

    Base library, sockets, ZeroMQ, hiredis, iniparser, MySQL client,
    coroutines and the runtime of Protocol Buffers are arguments (see
    [Extern], [WireLib] and the [Context] of each section). Of the generated
    message code, that of the gate and client messages is modelled, with sizes
    as unbounded numbers (the theorems bound them below [2 ^ 31]), without
    [Swap] and descriptors; the program reaches the classes of [proto/gen/db]
    and [proto/gen/res] through reflection, which is a class of operations
    with laws. Log lines are left out; of the log, the console socket and the
    daemon, [AppMain] keeps what they were asked. A listener of the cache
    agent runs after the client has taken the command out of its table, in the
    source just before; this differs only for a listener that sends a command
    when the 32-bit ids wrap around. A change counter of the player
    ([MutableRoleData]) is kept by [PlayerLogic.AutoSync] only. Left aside:
    the Lua bindings (calls of the Lua library without state of their own: they
    give scripts a logger and the registration of a command, so that a script is
    taken not to change sessions and players),
    the tests, the console client ([client/ConsoleClient.cpp], calls of the
    base library only), empty or unused files ([app/Performance],
    [gate/ConsoleControler], [component/ProtoConfigParser]) and the vendored
    code under [dep]. The thirty-odd functions that [datacenter/CacheAgent.h]
    declares and no file defines have nothing to model. *)

From stdpp Require Export prelude gmap list strings.
From Stdlib Require Export ZArith Lia Sorted.

#[export] Set Default Goal Selector "!".
Open Scope Z_scope.

(** ** Record update

    [Setter] is found by instance search: it rebuilds a record from its
    eta-expansion with one projection replaced. *)

Class Eta (R : Type) := eta : R -> R.
Class Setter {R T : Type} (proj : R -> T) := setf : (T -> T) -> R -> R.

Ltac make_setter proj :=
  match type of proj with
  | ?R -> ?T =>
    let e := constr:(_ : Eta R) in
    let e := eval hnf in e in
    let p := eval pattern proj in e in
    match p with
    | ?g _ => exact (fun (f : T -> T) (r : R) => g (fun r0 => f (proj r0)) r)
    end
  end.

#[export] Hint Extern 1 (Setter ?p) => make_setter p : typeclass_instances.

Declare Scope upd_scope.
Delimit Scope upd_scope with upd.
Open Scope upd_scope.
#[warnings="-postfix-notation-not-level-1"]
Notation "r <| p := v |>" := (setf (proj:=p) (fun _ => v) r)
  (at level 12, left associativity, p at level 0, format "r  <| p  :=  v |>") : upd_scope.
#[warnings="-postfix-notation-not-level-1"]
Notation "r <| p ::= f |>" := (setf (proj:=p) f r)
  (at level 12, left associativity, p at level 0, format "r  <| p  ::=  f |>") : upd_scope.

(** ** Machine integers

    A C++ integer of width [w] is a [Z]; a conversion to the type wraps. *)

Definition u8 (z : Z) : Z := z mod 2 ^ 8.
Definition u16 (z : Z) : Z := z mod 2 ^ 16.
Definition u32 (z : Z) : Z := z mod 2 ^ 32.
Definition u64 (z : Z) : Z := z mod 2 ^ 64.
Definition i32 (z : Z) : Z := (z + 2 ^ 31) mod 2 ^ 32 - 2 ^ 31.
Definition i64 (z : Z) : Z := (z + 2 ^ 63) mod 2 ^ 64 - 2 ^ 63.

(** ** Bytes in memory *)

Abbreviation bytes := (list Z).

(** The two bytes of [htons(v)] in memory order, and [ntohs] of the first two
    bytes at an address: network order whatever the host's order is. *)
Definition htons_bytes (v : Z) : bytes := [u16 v / 256; u16 v mod 256].
Definition ntohs_bytes (b0 b1 : Z) : Z := b0 * 256 + b1.

(** [*(uint16_t* )p] followed by [ntohs]: reads two bytes. *)
Definition read_u16 (m : bytes) : option Z :=
  match m with
  | b0 :: b1 :: _ => Some (ntohs_bytes b0 b1)
  | _ => None
  end.

(** [memcpy(dst + off, src, n)] with [n = length src] into an object of [cap]
    bytes: out of the object is undefined behaviour. The bytes that were never
    written read as [0]. *)
Definition memcpy_at (cap off : Z) (src : bytes) (dst : bytes) : option bytes :=
  if (0 <=? off) && (off + Z.of_nat (length src) <=? cap)
  then Some (resize (Z.to_nat off) 0 dst ++ src
             ++ drop (Z.to_nat off + length src) dst)
  else None.

(** The [n] bytes from [off] of a source object: reading past it is undefined
    behaviour. *)
Definition slice (off n : Z) (src : bytes) : option bytes :=
  if (0 <=? off) && (0 <=? n) && (off + n <=? Z.of_nat (length src))
  then Some (take (Z.to_nat n) (drop (Z.to_nat off) src))
  else None.

(** ** Programs

    A C++ member function is a state transformer over the objects it can
    reach. [None] is a failed [assert] or undefined behaviour (an access out of
    a vector, a null dereference): the run has no result. *)

Definition M (S A : Type) : Type := S -> option (A * S).

#[export] Instance M_ret S : MRet (M S) := fun A a s => Some (a, s).
#[export] Instance M_bind S : MBind (M S) :=
  fun A B f m s => match m s with Some (a, s') => f a s' | None => None end.

Definition gets {S A} (f : S -> A) : M S A := fun s => Some (f s, s).
Definition modify {S} (f : S -> S) : M S unit := fun s => Some (tt, f s).
Definition crash {S A} : M S A := fun _ => None.
Definition assert {S} (b : bool) : M S unit := if b then mret tt else crash.
Definition lift {S A} (o : option A) : M S A :=
  match o with Some a => mret a | None => crash end.

(** A program over a component, run inside a state that holds it. *)
Definition zoom {S T A} (get : T -> S) (put : S -> T -> T) (m : M S A) : M T A :=
  fun t => match m (get t) with Some (a, s') => Some (a, put s' t) | None => None end.

(** Total correctness: the program runs to a result that satisfies [Q]. *)
Definition wp {S A} (m : M S A) (Q : A -> S -> Prop) (s : S) : Prop :=
  match m s with Some (a, s') => Q a s' | None => False end.

(** Partial correctness: every result satisfies [Q]. *)
Definition wlp {S A} (m : M S A) (Q : A -> S -> Prop) (s : S) : Prop :=
  match m s with Some (a, s') => Q a s' | None => True end.

Section programs.
Context {S : Type}.

Lemma wp_ret {A} (a : A) (Q : A -> S -> Prop) s : Q a s -> wp (mret a) Q s.
Proof. done. Qed.

Lemma wp_bind {A B} (m : M S A) (f : A -> M S B) Q s :
  wp m (fun a => wp (f a) Q) s -> wp (m ≫= f) Q s.
Proof. unfold wp, mbind, M_bind. by destruct (m s) as [[]|]. Qed.

Lemma wp_gets {A} (f : S -> A) (Q : A -> S -> Prop) s : Q (f s) s -> wp (gets f) Q s.
Proof. done. Qed.

Lemma wp_modify (f : S -> S) (Q : unit -> S -> Prop) s : Q tt (f s) -> wp (modify f) Q s.
Proof. done. Qed.

Lemma wp_assert (b : bool) (Q : unit -> S -> Prop) s :
  b = true -> Q tt s -> wp (assert b) Q s.
Proof. by intros ->. Qed.

Lemma wp_lift {A} (o : option A) (Q : A -> S -> Prop) s a :
  o = Some a -> Q a s -> wp (lift o) Q s.
Proof. by intros ->. Qed.

Lemma wp_mono {A} (m : M S A) (Q Q' : A -> S -> Prop) s :
  wp m Q s -> (forall a s', Q a s' -> Q' a s') -> wp m Q' s.
Proof. unfold wp. destruct (m s) as [[]|]; auto. Qed.

Lemma wp_run {A} (m : M S A) (Q : A -> S -> Prop) s :
  wp m Q s -> exists a s', m s = Some (a, s') /\ Q a s'.
Proof. unfold wp. destruct (m s) as [[a s']|]; [eauto | done]. Qed.

Lemma wp_run_unit (m : M S unit) (Q : S -> Prop) s :
  wp m (fun _ => Q) s -> exists s', m s = Some (tt, s') /\ Q s'.
Proof. unfold wp. destruct (m s) as [[[] s']|]; [eauto | done]. Qed.

Lemma wp_run_ret {A} (a : A) (m : M S A) (Q : S -> Prop) s :
  wp m (fun r s' => r = a /\ Q s') s -> exists s', m s = Some (a, s') /\ Q s'.
Proof. unfold wp. destruct (m s) as [[r s']|]; [|done]. intros [-> ?]. eauto. Qed.

Lemma wp_elim {A} (m : M S A) (Q : A -> S -> Prop) s a s' :
  wp m Q s -> m s = Some (a, s') -> Q a s'.
Proof. unfold wp. intros H E. by rewrite E in H. Qed.

Lemma bind_run {A B} (m : M S A) (f : A -> M S B) s a s' :
  m s = Some (a, s') -> (m ≫= f) s = f a s'.
Proof. unfold mbind, M_bind. by intros ->. Qed.

Lemma wlp_wp {A} (m : M S A) (Q : A -> S -> Prop) s : wp m Q s -> wlp m Q s.
Proof. unfold wp, wlp. by destruct (m s) as [[]|]. Qed.

Lemma wlp_bind {A B} (m : M S A) (f : A -> M S B) Q s :
  wlp m (fun a => wlp (f a) Q) s -> wlp (m ≫= f) Q s.
Proof. unfold wlp, mbind, M_bind. by destruct (m s) as [[]|]. Qed.

Lemma wlp_ret {A} (a : A) (Q : A -> S -> Prop) s : Q a s -> wlp (mret a) Q s.
Proof. done. Qed.
Lemma wlp_gets {A} (f : S -> A) (Q : A -> S -> Prop) s : Q (f s) s -> wlp (gets f) Q s.
Proof. done. Qed.
Lemma wlp_modify (f : S -> S) (Q : unit -> S -> Prop) s : Q tt (f s) -> wlp (modify f) Q s.
Proof. done. Qed.
Lemma wlp_assert (b : bool) (Q : unit -> S -> Prop) s :
  (b = true -> Q tt s) -> wlp (assert b) Q s.
Proof. destruct b; unfold wlp; simpl; auto. Qed.
Lemma wlp_lift {A} (o : option A) (Q : A -> S -> Prop) s :
  (forall a, o = Some a -> Q a s) -> wlp (lift o) Q s.
Proof. destruct o; unfold wlp; simpl; auto. Qed.
Lemma wlp_crash {A} (Q : A -> S -> Prop) s : wlp crash Q s.
Proof. done. Qed.
Lemma wlp_intro {A} (m : M S A) (Q : A -> S -> Prop) s :
  (forall a s', m s = Some (a, s') -> Q a s') -> wlp m Q s.
Proof. unfold wlp. destruct (m s) as [[]|]; auto. Qed.

Lemma wlp_mono {A} (m : M S A) (Q Q' : A -> S -> Prop) s :
  wlp m Q s -> (forall a s', Q a s' -> Q' a s') -> wlp m Q' s.
Proof. unfold wlp. destruct (m s) as [[]|]; auto. Qed.

Lemma wlp_elim {A} (m : M S A) (Q : A -> S -> Prop) s a s' :
  wlp m Q s -> m s = Some (a, s') -> Q a s'.
Proof. unfold wlp. intros H E. by rewrite E in H. Qed.

End programs.

(** A program leaves an observation of the state alone. *)
Definition keeps {S T A} (f : S -> T) (m : M S A) : Prop :=
  forall s a s', m s = Some (a, s') -> f s' = f s.

Section keeps.
Context {S T : Type} (f : S -> T).

Lemma keeps_ret {A} (a : A) : keeps f (mret a : M S A).
Proof. intros s b s' E. unfold mret, M_ret in E. by simplify_eq/=. Qed.
Lemma keeps_crash {A} : keeps f (crash : M S A).
Proof. done. Qed.
Lemma keeps_gets {A} (g : S -> A) : keeps f (gets g).
Proof. intros s b s' E. unfold gets in E. by simplify_eq/=. Qed.
Lemma keeps_lift {A} (o : option A) : keeps f (lift o).
Proof. destruct o; [apply keeps_ret | apply keeps_crash]. Qed.
Lemma keeps_assert b : keeps f (assert b).
Proof. destruct b; [apply keeps_ret | apply keeps_crash]. Qed.
Lemma keeps_modify g : (forall s, f (g s) = f s) -> keeps f (modify g).
Proof. intros H s b s' E. unfold modify in E. by simplify_eq/=. Qed.
Lemma keeps_bind {A B} (m : M S A) (k : A -> M S B) :
  keeps f m -> (forall a, keeps f (k a)) -> keeps f (m ≫= k).
Proof.
  intros Hm Hk s b s'. unfold mbind, M_bind. destruct (m s) as [[a s1]|] eqn:E; [|done].
  intros E2. rewrite (Hk _ _ _ _ E2). by eapply Hm.
Qed.
End keeps.

(** Component operations that symbolic execution opens on its way. *)
Create HintDb wp_unfold.

(** Proves [keeps f m] by the structure of [m]; operations that are not opened
    by [wp_unfold] need a lemma of the [keeps] database. *)
Create HintDb keeps.
#[export] Hint Resolve keeps_ret keeps_crash keeps_gets keeps_lift keeps_assert : keeps.

(** A program preserves an invariant of the state. *)
Definition pres {S A} (I : S -> Prop) (m : M S A) : Prop :=
  forall s a s', I s -> m s = Some (a, s') -> I s'.

Section pres.
Context {S : Type} (I : S -> Prop).

Lemma pres_ret {A} (a : A) : pres I (mret a : M S A).
Proof. intros s b s' Hs E. unfold mret, M_ret in E. by simplify_eq/=. Qed.
Lemma pres_crash {A} : pres I (crash : M S A).
Proof. done. Qed.
Lemma pres_gets {A} (g : S -> A) : pres I (gets g).
Proof. intros s b s' Hs E. unfold gets in E. by simplify_eq/=. Qed.
Lemma pres_lift {A} (o : option A) : pres I (lift o).
Proof. destruct o; [apply pres_ret | apply pres_crash]. Qed.
Lemma pres_assert b : pres I (assert b).
Proof. destruct b; [apply pres_ret | apply pres_crash]. Qed.
Lemma pres_modify g : (forall s, I s -> I (g s)) -> pres I (modify g).
Proof. intros H s b s' Hs E. unfold modify in E. simplify_eq/=. auto. Qed.
Lemma pres_bind {A B} (m : M S A) (k : A -> M S B) :
  pres I m -> (forall a, pres I (k a)) -> pres I (m ≫= k).
Proof.
  intros Hm Hk s b s' Hs. unfold mbind, M_bind. destruct (m s) as [[a s1]|] eqn:E; [|done].
  apply Hk. by eapply Hm.
Qed.
Lemma pres_wlp {A} (m : M S A) s : pres I m -> I s -> wlp m (fun _ => I) s.
Proof. intros Hm Hs. apply wlp_intro. intros a s' E. by eapply Hm. Qed.
Lemma wlp_pres {A} (m : M S A) : (forall s, I s -> wlp m (fun _ => I) s) -> pres I m.
Proof. intros Hm s a s' Hs E. exact (wlp_elim _ _ _ _ _ (Hm s Hs) E). Qed.
Lemma pres_zoom {T A} (get : S -> T) put (m : M T A) :
  (forall t s, I s -> I (put t s)) -> pres I (zoom get put m).
Proof.
  intros Hp s a s' Hs. unfold zoom. destruct (m (get s)) as [[]|]; [|done].
  intros E. simplify_eq. auto.
Qed.
End pres.

Create HintDb pres.
#[export] Hint Resolve pres_ret pres_crash pres_gets pres_lift pres_assert : pres.

Create HintDb wp.
#[export] Hint Resolve wp_ret wp_gets wp_modify : wp.

(** One step of symbolic execution of a goal [wp m Q s]. *)
Ltac wp_step :=
  lazymatch goal with
  | |- wp (_ ≫= _) _ _ => apply wp_bind
  | |- wp (mret _) _ _ => apply wp_ret
  | |- wp (gets _) _ _ => apply wp_gets
  | |- wp (modify _) _ _ => apply wp_modify
  | |- wp (assert _) _ _ => apply wp_assert
  end.
Ltac keeps_step :=
  first
    [ solve [eauto 2 with keeps nocore]
    | apply keeps_bind; [|intros ?]
    | apply keeps_modify; intros ?; reflexivity
    | progress autounfold with wp_unfold
    | lazymatch goal with
      | |- keeps _ (match ?x with _ => _ end) => destruct x
      | |- keeps _ (if ?x then _ else _) => destruct x
      end ].
Ltac keeps_auto := repeat (keeps_step; cbv beta zeta).

Ltac pres_step :=
  first
    [ solve [eauto 2 with pres nocore]
    | apply pres_bind; [|intros ?]
    | lazymatch goal with
      | |- pres _ (match ?x with _ => _ end) => destruct x
      | |- pres _ (if ?x then _ else _) => destruct x
      end ].
Ltac pres_auto := repeat (pres_step; cbv beta zeta).

(** The same for partial correctness. *)
Ltac wlp_step :=
  lazymatch goal with
  | |- wlp (_ ≫= _) _ _ => apply wlp_bind
  | |- wlp (mret _) _ _ => apply wlp_ret
  | |- wlp (gets _) _ _ => apply wlp_gets
  | |- wlp (modify _) _ _ => apply wlp_modify
  | |- wlp (assert _) _ _ => apply wlp_assert; intros ?
  | |- wlp (lift _) _ _ => apply wlp_lift; intros ? ?
  | |- wlp crash _ _ => apply wlp_crash
  end.
Ltac wlp_steps := repeat (first [wlp_step | progress autounfold with wp_unfold]; cbv beta).

Ltac wp_steps := repeat (first [wp_step | progress autounfold with wp_unfold]; cbv beta).

(** ** Lemmas on lists and integers shared by the components *)

Lemma u16_small z : 0 <= z < 65536 -> u16 z = z.
Proof. intros; unfold u16; apply Z.mod_small; lia. Qed.
Lemma u32_small z : 0 <= z < 4294967296 -> u32 z = z.
Proof. intros; unfold u32; apply Z.mod_small; lia. Qed.
Lemma u64_small z : 0 <= z < 18446744073709551616 -> u64 z = z.
Proof. intros; unfold u64; apply Z.mod_small; lia. Qed.
Lemma i32_small z : -2147483648 <= z < 2147483648 -> i32 z = z.
Proof. intros; unfold i32. rewrite Z.mod_small; lia. Qed.

Lemma i64_small z : - 2 ^ 63 <= z < 2 ^ 63 -> i64 z = z.
Proof. intros; unfold i64. rewrite Z.mod_small; lia. Qed.

Lemma u16_bound z : 0 <= u16 z < 65536.
Proof. unfold u16. pose proof (Z.mod_pos_bound z (2 ^ 16)). lia. Qed.
Lemma u32_bound z : 0 <= u32 z < 4294967296.
Proof. unfold u32. pose proof (Z.mod_pos_bound z (2 ^ 32)). lia. Qed.

Lemma u64_bound z : 0 <= u64 z < 2 ^ 64.
Proof. unfold u64. apply Z.mod_pos_bound. lia. Qed.

Lemma i32_bound z : - 2 ^ 31 <= i32 z < 2 ^ 31.
Proof. unfold i32. pose proof (Z.mod_pos_bound (z + 2 ^ 31) (2 ^ 32)). lia. Qed.
Lemma i64_bound z : - 2 ^ 63 <= i64 z < 2 ^ 63.
Proof. unfold i64. pose proof (Z.mod_pos_bound (z + 2 ^ 63) (2 ^ 64)). lia. Qed.

(** Conversions forget the bits above: reading a narrower type from the image of
    a wider one. *)
Lemma u32_u64 z : u32 (u64 z) = u32 z.
Proof. unfold u32, u64. apply Z.mod_mod_divide. by exists (2 ^ 32). Qed.
Lemma i32_u64 z : i32 (u64 z) = i32 z.
Proof.
  unfold i32, u64. rewrite (Zplus_mod (z mod 2 ^ 64)), Z.mod_mod_divide by (by exists (2 ^ 32)).
  by rewrite <- Zplus_mod.
Qed.
Lemma i64_u64 z : i64 (u64 z) = i64 z.
Proof. unfold i64, u64. by rewrite Zplus_mod_idemp_l. Qed.

(** Two halves of a word: [or] is [+] when the low half has room. *)
Lemma lor_shift32 a b : 0 <= b < 2 ^ 32 -> Z.lor (a * 2 ^ 32) b = a * 2 ^ 32 + b.
Proof.
  intros Hb. assert (Z.land (a * 2 ^ 32) b = 0) as Hland.
  { apply Z.bits_inj'. intros n Hn. rewrite Z.land_spec, Z.bits_0. destruct (decide (n < 32)).
    - by rewrite Z.mul_pow2_bits_low.
    - rewrite (Z.bits_above_log2 b); [apply andb_false_r|lia|].
      destruct (decide (b = 0)) as [->|]; [simpl; lia|]. apply Z.log2_lt_pow2; [lia|].
      apply Z.lt_le_trans with (2 ^ 32); [lia|]. apply Z.pow_le_mono_r; lia. }
  pose proof (Z.add_lor_land (a * 2 ^ 32) b). lia.
Qed.

Lemma ntohs_htons v rest :
  0 <= v < 65536 -> read_u16 (htons_bytes v ++ rest) = Some v.
Proof.
  intros H. unfold htons_bytes, read_u16, ntohs_bytes; simpl.
  rewrite u16_small by lia. f_equal.
  pose proof (Z.div_mod v 256). lia.
Qed.


Lemma wp_zoom {S T A} (get : T -> S) put (m : M S A) Q t :
  wp m (fun a s' => Q a (put s' t)) (get t) -> wp (zoom get put m) Q t.
Proof. unfold wp, zoom. by destruct (m (get t)) as [[]|]. Qed.

(** Pigeonhole: some key of a longer duplicate-free list is not in the map. *)
Lemma NoDup_fresh_in_list {V} (l : list Z) (m : gmap Z V) :
  NoDup l -> (size m < length l)%nat -> exists k, k ∈ l /\ m !! k = None.
Proof.
  intros Hnd Hlt.
  destruct (decide (Forall (fun k => is_Some (m !! k)) l)) as [Hall|Hn].
  - exfalso.
    assert (list_to_set l ⊆ dom m) as Hsub.
    { intros k [? Hk]%elem_of_list_to_set%list_elem_of_lookup.
      apply elem_of_dom. eapply (Forall_lookup_1 _ _ _ _ Hall Hk). }
    apply subseteq_size in Hsub.
    rewrite size_list_to_set, size_dom in Hsub by done. lia.
  - apply not_Forall_Exists in Hn; [|apply _].
    apply Exists_exists in Hn as (k & Hk & Hnone).
    exists k. split; [done|]. by apply eq_None_not_Some.
Qed.

Lemma filter_same {A} (P Q : A -> Prop) `{!forall x, Decision (P x), !forall x, Decision (Q x)} (l : list A) :
  (forall x, x ∈ l -> (P x <-> Q x)) -> filter P l = filter Q l.
Proof.
  induction l as [|x l IH]; intros Heq; [done|]. rewrite !filter_cons, IH by (intros y Hy; apply Heq; by right).
  pose proof (Heq x ltac:(left)). repeat case_decide; tauto.
Qed.

Lemma Forall_filter_2 {A} (P Q : A -> Prop) `{!forall x, Decision (Q x)} (l : list A) :
  Forall P l -> Forall P (filter Q l).
Proof. intros Hl. apply Forall_forall. intros x [_ Hx]%list_elem_of_filter. by eapply Forall_forall. Qed.

Lemma filter_none {A} (P : A -> Prop) `{!forall x, Decision (P x)} (l : list A) :
  Forall (fun x => ~ P x) l -> filter P l = [].
Proof. induction 1; [done|]. by rewrite filter_cons_False. Qed.

Lemma filter_every {A} (P : A -> Prop) `{!forall x, Decision (P x)} (l : list A) :
  Forall P l -> filter P l = l.
Proof. induction 1; [done|]. rewrite filter_cons_True by done. by f_equal. Qed.

(** ** Free 32-bit ids of a map *)

(** The loop [while(find(id) != end) ++id] of [TimerMgr::AddTimer] and
    [RedisAgent::Command]. *)
Fixpoint next_free {V} (fuel : nat) (m : gmap Z V) (i : Z) : option Z :=
  match fuel with
  | O => None
  | S fuel => match m !! i with
              | None => Some i
              | Some _ => next_free fuel m (u32 (i + 1))
              end
  end.

(** The id search meets [next + k mod 2^32] after [k] steps. *)
Lemma next_free_spec {V} (m : gmap Z V) fuel i :
  0 <= i < 2 ^ 32 ->
  (exists k, 0 <= k < Z.of_nat fuel /\ m !! (u32 (i + k)) = None) ->
  exists j, next_free fuel m i = Some j /\ m !! j = None /\ 0 <= j < 2 ^ 32.
Proof.
  revert i. induction fuel as [|fuel IH]; intros i Hi (k & Hk & Hnone); [lia|].
  simpl. destruct (m !! i) eqn:E; [|by eauto].
  apply IH; [apply u32_bound|].
  destruct (decide (k = 0)) as [->|].
  - rewrite Z.add_0_r, u32_small in Hnone by lia. congruence.
  - exists (k - 1). split; [lia|].
    replace (u32 (u32 (i + 1) + (k - 1))) with (u32 (i + k)); [done|].
    unfold u32. rewrite Zplus_mod_idemp_l. f_equal. lia.
Qed.

Lemma next_free_total {V} (m : gmap Z V) i :
  0 <= i < 2 ^ 32 -> Z.of_nat (size m) < 2 ^ 32 ->
  exists j, next_free (S (size m)) m i = Some j /\ m !! j = None /\ 0 <= j < 2 ^ 32.
Proof.
  intros Hi Hsz. apply next_free_spec; [done|].
  destruct (NoDup_fresh_in_list
    ((fun k => u32 (i + k)) <$> seqZ 0 (Z.of_nat (S (size m)))) m) as (j & Hj & Hnone).
  - apply NoDup_fmap_2_strong; [|apply NoDup_seqZ].
    intros x y Hx%elem_of_seqZ Hy%elem_of_seqZ. unfold u32. intros E.
    pose proof (Z.div_mod (i + x) (2 ^ 32)). pose proof (Z.div_mod (i + y) (2 ^ 32)). nia.
  - rewrite length_fmap, length_seqZ. lia.
  - apply list_elem_of_fmap in Hj as (k & -> & Hk%elem_of_seqZ). exists k. split; [lia|done].
Qed.

(** ** Removal from a repeated field

    [SwapElements(idx, size - 1)] and [RemoveLast]. *)
Definition swap_remove {A} (idx : nat) (l : list A) : list A :=
  match last l with
  | Some x => removelast (<[idx := x]> l)
  | None => l
  end.

Lemma swap_remove_last {A} (l : list A) y : swap_remove (length l) (l ++ [y]) = l.
Proof.
  unfold swap_remove. rewrite last_snoc. rewrite insert_app_r_alt, Nat.sub_diag by lia.
  apply removelast_last.
Qed.

Lemma swap_remove_mid {A} (l1 l2 : list A) x y :
  swap_remove (length l1) (l1 ++ x :: l2 ++ [y]) = l1 ++ y :: l2.
Proof.
  unfold swap_remove. rewrite app_comm_cons, (assoc_L (++)), last_snoc.
  rewrite insert_app_l by (rewrite length_app; simpl; lia). rewrite removelast_last.
  rewrite insert_app_r_alt, Nat.sub_diag by lia. done.
Qed.

(** Removal at [i] keeps what is before it; what is behind it is permuted. *)
Lemma swap_remove_app {A} (l1 r : list A) x :
  exists r', swap_remove (length l1) (l1 ++ x :: r) = l1 ++ r' /\ r' ≡ₚ r.
Proof.
  destruct r as [|y r _] using rev_ind.
  - exists []. rewrite swap_remove_last, app_nil_r. done.
  - exists (y :: r). rewrite swap_remove_mid. split; [done|]. apply Permutation_cons_append.
Qed.

Lemma swap_remove_split {A} (l : list A) i x :
  l !! i = Some x ->
  take i (swap_remove i l) = take i l /\ drop i (swap_remove i l) ≡ₚ drop (S i) l
  /\ length (swap_remove i l) = pred (length l).
Proof.
  intros Hi. pose proof (lookup_lt_Some _ _ _ Hi) as Hlt.
  assert (length (take i l) = i) as Hl by (rewrite length_take; lia).
  destruct (swap_remove_app (take i l) (drop (S i) l) x) as (r & E & Hr).
  rewrite take_drop_middle, Hl in E by done. rewrite E.
  rewrite take_app_length', drop_app_length' by done.
  split_and!; [done..|]. rewrite length_app, Hl, (Permutation_length Hr), length_drop. lia.
Qed.

Lemma swap_remove_perm {A} (l : list A) i x : l !! i = Some x -> l ≡ₚ x :: swap_remove i l.
Proof.
  intros Hi. destruct (swap_remove_split l i x Hi) as (Ht & Hd & _).
  rewrite <- (take_drop i (swap_remove i l)), Ht, Hd. rewrite <- (take_drop_middle l i x Hi) at 1.
  by rewrite <- Permutation_middle.
Qed.
