(* ===== verification/CString.v ===== *)
(** * C and C++ strings

    What the source uses of [<string>], [<cstring>] and [<cstdio>]: a string
    value is a [string]; on a socket it is the bytes of its characters, with
    the terminating zero where the code sends it. *)

From S2P Require Import Prelude.
From Stdlib Require Export Ascii.
From stdpp Require Export pretty.
Open Scope Z_scope.

(** ** Characters as bytes *)

Definition byte_of (c : Ascii.ascii) : Z := Z.of_N (Ascii.N_of_ascii c).
Definition of_byte (b : Z) : Ascii.ascii := Ascii.ascii_of_N (Z.to_N b).

Fixpoint of_str (s : string) : bytes :=
  match s with
  | EmptyString => []
  | String c s => byte_of c :: of_str s
  end.

Fixpoint to_str (b : bytes) : string :=
  match b with
  | [] => EmptyString
  | c :: b => String (of_byte c) (to_str b)
  end.

(** [std::string(p)] of a [char*]: the bytes up to the terminating zero, which
    must be inside the object. *)
Fixpoint cstr (b : bytes) : option string :=
  match b with
  | [] => None
  | c :: b => if c =? 0 then Some EmptyString else String (of_byte c) <$> cstr b
  end.

(** [std::string::c_str] read up to its first null byte. *)
Fixpoint c_str (s : string) : string :=
  match s with
  | EmptyString => EmptyString
  | String c s => if byte_of c =? 0 then EmptyString else String c (c_str s)
  end.

Definition strlen (s : string) : Z := Z.of_nat (String.length s).

(** [snprintf] into an array of [cap] bytes keeps [cap - 1] characters. *)
Definition snprintf (cap : nat) (s : string) : string := String.substring 0 (cap - 1) s.

(** [strncpy(dst, src, n)] into a zeroed tail. *)
Definition strncpy (n : nat) (s : string) : string := String.substring 0 n s.

(** ** Decimal numbers *)

(** [%d]. *)
Definition print_d (z : Z) : string := pretty z.

Definition digit_val (c : Ascii.ascii) : option Z :=
  let n := byte_of c in if (48 <=? n) && (n <=? 57) then Some (n - 48) else None.

Fixpoint digits (s : string) (acc : Z) : Z :=
  match s with
  | EmptyString => acc
  | String c s => match digit_val c with
                  | Some d => digits s (10 * acc + d)
                  | None => acc
                  end
  end.

(** [isspace]. *)
Definition is_space (c : Ascii.ascii) : bool :=
  let n := byte_of c in (n =? 32) || ((9 <=? n) && (n <=? 13)).

Fixpoint skip_space (s : string) : string :=
  match s with
  | String c r => if is_space c then skip_space r else s
  | EmptyString => s
  end.

(** [strtol(s, NULL, 10)] on a 64-bit [long]. *)
Definition strtol (s : string) : Z :=
  let z := match skip_space s with
           | String "-"%char r => - digits r 0
           | String "+"%char r => digits r 0
           | r => digits r 0
           end in
  Z.max (- 2 ^ 63) (Z.min (2 ^ 63 - 1) z).

Definition atoi (s : string) : Z := i32 (strtol s).

(** ** Searching *)

(** [s.find(c)]: [None] is [string::npos]. *)
Fixpoint find_char (c : Ascii.ascii) (s : string) : option nat :=
  match s with
  | EmptyString => None
  | String d r => if Ascii.eqb c d then Some O else S <$> find_char c r
  end.

(** [s.find(t) == npos]. *)
Fixpoint has_sub (t s : string) : bool :=
  String.prefix t s || match s with EmptyString => false | String _ r => has_sub t r end.

(** ** Lemmas *)

Lemma byte_of_range c : 0 <= byte_of c < 256.
Proof.
  unfold byte_of. pose proof (Ascii.N_ascii_bounded c). lia.
Qed.

Lemma of_byte_of c : of_byte (byte_of c) = c.
Proof. unfold of_byte, byte_of. rewrite N2Z.id. apply Ascii.ascii_N_embedding. Qed.

Lemma byte_of_byte b : 0 <= b < 256 -> byte_of (of_byte b) = b.
Proof. intros. unfold of_byte, byte_of. rewrite Ascii.N_ascii_embedding; lia. Qed.

Lemma to_str_of_str s : to_str (of_str s) = s.
Proof. induction s as [|c s IH]; simpl; [done|]. by rewrite of_byte_of, IH. Qed.

#[global] Instance of_str_inj : Inj (=) (=) of_str.
Proof. intros s t E. by rewrite <- (to_str_of_str s), E, to_str_of_str. Qed.

Lemma of_str_app s t : of_str (s +:+ t) = of_str s ++ of_str t.
Proof. induction s as [|c s IH]; simpl; [done|]. by rewrite IH. Qed.

Lemma length_of_str s : length (of_str s) = String.length s.
Proof. induction s; simpl; auto. Qed.

Lemma app_cons_str c (a b : string) : String c a +:+ b = String c (a +:+ b).
Proof. done. Qed.

Lemma app_assoc_str (a b c : string) : (a +:+ b) +:+ c = a +:+ b +:+ c.
Proof. induction a as [|x a IH]; [done|]. by rewrite !app_cons_str, IH. Qed.

Lemma app_nil_str (a : string) : a +:+ "" = a.
Proof. induction a as [|x a IH]; [done|]. by rewrite app_cons_str, IH. Qed.

Lemma length_app_str (a b : string) :
  String.length (a +:+ b) = (String.length a + String.length b)%nat.
Proof. induction a as [|x a IH]; [done|]. rewrite app_cons_str. simpl. by rewrite IH. Qed.

(** The string holds no zero byte: it is what [strlen] sees. *)
Definition no_nul (s : string) : Prop := 0 ∉ of_str s.

Lemma cstr_of_str s rest : no_nul s -> cstr (of_str s ++ 0 :: rest) = Some s.
Proof.
  unfold no_nul. induction s as [|c s IH]; simpl; [done|]. intros Hn.
  apply not_elem_of_cons in Hn as [Hc Hs].
  destruct (Z.eqb_spec (byte_of c) 0); [congruence|].
  by rewrite (IH Hs), of_byte_of.
Qed.

Lemma substring_all s n : (String.length s <= n)%nat -> String.substring 0 n s = s.
Proof.
  revert n. induction s as [|c s IH]; intros [|n] H; simpl in *; try done; [lia|].
  rewrite IH by lia. done.
Qed.

Lemma snprintf_fits cap s : (String.length s < cap)%nat -> snprintf cap s = s.
Proof. intros. unfold snprintf. apply substring_all. lia. Qed.

Lemma length_substring s n : (String.length (String.substring 0 n s) <= n)%nat.
Proof.
  revert n. induction s as [|c s IH]; intros [|n]; simpl; try lia. specialize (IH n). lia.
Qed.

(** *** [strtol] reads back what [%d] prints *)

Lemma digit_val_pretty x :
  (x < 10)%N -> digit_val (pretty_N_char x) = Some (Z.of_N x).
Proof.
  intros H. assert (x = 0 \/ x = 1 \/ x = 2 \/ x = 3 \/ x = 4 \/ x = 5 \/ x = 6
    \/ x = 7 \/ x = 8 \/ x = 9)%N as Hx by lia.
  repeat destruct Hx as [->|Hx]; try done. by subst.
Qed.

Lemma digits_pretty_N_go (x : N) (s : string) (acc : Z) :
  (0 < x)%N -> exists k, forall a, digits (pretty_N_go x s) a = digits s (a * 10 ^ k + Z.of_N x) /\ 0 <= k.
Proof.
  revert s. induction (N.lt_wf_0 x) as [x _ IH]; intros s Hx.
  rewrite pretty_N_go_step by done.
  pose proof (N.div_mod x 10). pose proof (N.mod_lt x 10).
  destruct (decide (x / 10 = 0)%N) as [E|E].
  - exists 1. intros a. rewrite E, pretty_N_go_0. simpl.
    rewrite digit_val_pretty by lia. split; [f_equal; lia|lia].
  - destruct (IH (x / 10)%N ltac:(apply N.div_lt; lia)
      (String (pretty_N_char (x mod 10)) s) ltac:(lia)) as (k & Hk).
    exists (k + 1). intros a. destruct (Hk a) as [-> ?]. simpl.
    rewrite digit_val_pretty by lia. split; [|lia]. f_equal.
    rewrite Z.pow_add_r by lia. lia.
Qed.

Lemma digits_pretty_N x : digits (pretty x) 0 = Z.of_N x.
Proof.
  destruct (decide (x = 0)%N) as [->|Hx]; [done|].
  unfold pretty, pretty_N. rewrite decide_False by done.
  destruct (digits_pretty_N_go x "" 0 ltac:(lia)) as (k & Hk).
  by destruct (Hk 0) as [-> _].
Qed.

Lemma print_d_nonempty z : print_d z <> "".
Proof.
  destruct z as [|p|p]; [done| |done]. intros E.
  pose proof (digits_pretty_N (Npos p)) as H.
  change (pretty (Npos p)) with (print_d (Zpos p)) in H. by rewrite E in H.
Qed.

(** Every character of a printed number is a digit or the sign. *)
Fixpoint all_chars (P : ascii -> bool) (s : string) : bool :=
  match s with
  | EmptyString => true
  | String c s => P c && all_chars P s
  end.

Definition is_digit (c : ascii) : bool := (48 <=? byte_of c) && (byte_of c <=? 57).
Definition num_char (c : ascii) : bool := is_digit c || (byte_of c =? 45).

Lemma is_digit_pretty x : (x < 10)%N -> is_digit (pretty_N_char x) = true.
Proof.
  intros H. pose proof (digit_val_pretty x H) as E. unfold digit_val in E.
  unfold is_digit. by destruct (_ && _).
Qed.

Lemma all_digits_pretty_N_go x s :
  all_chars is_digit s = true -> all_chars is_digit (pretty_N_go x s) = true.
Proof.
  revert s. induction (N.lt_wf_0 x) as [x _ IH]; intros s Hs.
  destruct (decide (x = 0)%N) as [->|Hx]; [by rewrite pretty_N_go_0|].
  rewrite pretty_N_go_step by lia. apply IH; [apply N.div_lt; lia|].
  cbn [all_chars]. rewrite is_digit_pretty; [done|]. apply N.mod_lt. lia.
Qed.

Lemma all_digits_pretty_N x : all_chars is_digit (pretty (x : N)) = true.
Proof.
  unfold pretty, pretty_N. destruct (decide (x = 0)%N); [done|].
  by apply all_digits_pretty_N_go.
Qed.

Lemma all_chars_impl (P Q : ascii -> bool) s :
  (forall c, P c = true -> Q c = true) -> all_chars P s = true -> all_chars Q s = true.
Proof.
  intros HPQ. induction s as [|c s IH]; simpl; [done|].
  rewrite !andb_true_iff. intros []; auto.
Qed.

Lemma all_num_print_d z : all_chars num_char (print_d z) = true.
Proof.
  assert (forall x : N, all_chars num_char (pretty x) = true) as H.
  { intros x. eapply all_chars_impl; [|apply all_digits_pretty_N].
    intros c Hc. unfold num_char. by rewrite Hc. }
  unfold print_d, pretty, pretty_Z. destruct z; [done|apply H|apply H].
Qed.

Lemma is_digit_not_space c : is_digit c = true -> is_space c = false.
Proof.
  unfold is_digit, is_space. rewrite andb_true_iff, !Z.leb_le. intros [].
  apply orb_false_iff. rewrite Z.eqb_neq. split; [lia|].
  apply andb_false_iff. rewrite !Z.leb_gt. lia.
Qed.

Lemma is_digit_not_sign c : is_digit c = true -> c <> "-"%char /\ c <> "+"%char.
Proof. intros H. by split; intros ->. Qed.

(** [strtol] of a string of digits. *)
Lemma strtol_digits s :
  all_chars is_digit s = true -> - 2 ^ 63 <= digits s 0 < 2 ^ 63 -> strtol s = digits s 0.
Proof.
  intros Hd Hr. unfold strtol.
  assert (skip_space s = s) as ->.
  { destruct s as [|c s]; [done|]. simpl in *. apply andb_true_iff in Hd as [Hc _].
    by rewrite is_digit_not_space. }
  destruct s as [|c s]; [simpl; lia|].
  apply andb_true_iff in Hd as [Hc _].
  destruct (is_digit_not_sign c Hc) as [H1 H2].
  destruct c as [[] [] [] [] [] [] [] []]; try (rewrite Z.min_r, Z.max_r by lia; done);
    congruence.
Qed.

(** [strtol] reads back a number printed by [%d]. *)
Lemma strtol_print_d z : - 2 ^ 63 < z < 2 ^ 63 -> strtol (print_d z) = z.
Proof.
  intros Hz. destruct z as [|p|p]; [done| |]; change (print_d _) with (pretty (Npos p))
    || change (print_d _) with ("-" +:+ pretty (Npos p));
    pose proof (digits_pretty_N (Npos p)) as Hd.
  - rewrite strtol_digits; [|apply all_digits_pretty_N|]; rewrite Hd; lia.
  - change (strtol _) with (Z.max (- 2 ^ 63) (Z.min (2 ^ 63 - 1) (- digits (pretty (Npos p)) 0))).
    rewrite Hd. lia.
Qed.

Lemma atoi_print_d z : - 2 ^ 31 <= z < 2 ^ 31 -> atoi (print_d z) = z.
Proof. intros. unfold atoi. rewrite strtol_print_d by lia. apply i32_small. lia. Qed.

Lemma not_in_num (b : Z) s :
  all_chars num_char s = true -> b < 45 -> b ∉ of_str s.
Proof.
  intros H Hb. induction s as [|c s IH]; simpl in *; [apply not_elem_of_nil|].
  apply andb_true_iff in H as [Hc Hs]. rewrite not_elem_of_cons. split; [|auto].
  unfold num_char, is_digit in Hc. intros ->.
  rewrite orb_true_iff, andb_true_iff, !Z.leb_le, Z.eqb_eq in Hc. lia.
Qed.

Lemma not_in_num_above (b : Z) s :
  all_chars num_char s = true -> 57 < b -> b ∉ of_str s.
Proof.
  intros H Hb. induction s as [|c s IH]; simpl in *; [apply not_elem_of_nil|].
  apply andb_true_iff in H as [Hc Hs]. rewrite not_elem_of_cons. split; [|auto].
  unfold num_char, is_digit in Hc. intros ->.
  rewrite orb_true_iff, andb_true_iff, !Z.leb_le, Z.eqb_eq in Hc. lia.
Qed.

(** A number below [10^k] prints in at most [k] digits. *)
Lemma length_pretty_N_go (k : nat) (x : N) s :
  Z.of_N x < 10 ^ Z.of_nat k ->
  (String.length (pretty_N_go x s) <= k + String.length s)%nat.
Proof.
  revert x s. induction k as [|k IH]; intros x s Hx.
  - simpl in Hx. assert (x = 0%N) as -> by lia. by rewrite pretty_N_go_0.
  - destruct (decide (x = 0)%N) as [->|Hn]; [rewrite pretty_N_go_0; lia|].
    rewrite pretty_N_go_step by lia.
    etrans; [apply IH|simpl; lia].
    rewrite N2Z.inj_div. apply Z.div_lt_upper_bound; [lia|].
    rewrite Nat2Z.inj_succ, Z.pow_succ_r in Hx by lia. done.
Qed.

Lemma length_print_d_le (k : nat) z :
  - 10 ^ Z.of_nat k < z < 10 ^ Z.of_nat k -> (String.length (print_d z) <= S k)%nat.
Proof.
  intros Hz.
  assert (forall p, Z.pos p < 10 ^ Z.of_nat k -> (String.length (pretty (Npos p)) <= k)%nat) as H.
  { intros p Hp. unfold pretty, pretty_N. rewrite decide_False by done.
    pose proof (length_pretty_N_go k (Npos p) "" Hp). simpl in *. lia. }
  destruct z as [|p|p].
  - simpl. lia.
  - change (print_d _) with (pretty (Npos p)). pose proof (H p ltac:(lia)). lia.
  - change (print_d _) with (String "-" (pretty (Npos p))). simpl. pose proof (H p ltac:(lia)). lia.
Qed.

Lemma length_print_d z : - 2 ^ 31 <= z < 2 ^ 31 -> (String.length (print_d z) <= 11)%nat.
Proof. intros Hz. apply length_print_d_le. lia. Qed.
