(* ===== verification/Extern.v ===== *)
(** * Interfaces of the code outside the repository

    The program is built on the [ssukits] base library, ZeroMQ and Protocol
    Buffers, whose sources are not part of it. Each is a class of operations
    here, an argument of every definition that calls it; what the program
    relies on is a separate class of laws, an hypothesis of the theorems that
    need it. [Reference] instances show that the laws can hold. *)

From S2P Require Import Prelude CString.

(** ** [base/Buffer.h]

    [pBuffer] is the memory of the buffer as far as it has been written. *)
Record Buffer := mkBuffer { iCap : Z; iUsed : Z; pBuffer : bytes }.

#[global] Instance eta_Buffer : Eta Buffer := fun r => mkBuffer (iCap r) (iUsed r) (pBuffer r).

(** [Create] returns non-zero ([None]) when there is no memory. *)
Class BufferLib := {
  buffer_Create : Z -> option Buffer;
  buffer_Destroy : Buffer -> Buffer
}.

Class BufferLaws `{BufferLib} : Prop :=
  buffer_Create_cap : forall n b, buffer_Create n = Some b -> iCap b = n /\ iUsed b = 0.

(** The bytes a buffer holds. *)
Definition buffer_data (b : Buffer) : bytes := take (Z.to_nat (iUsed b)) (pBuffer b).

(** ** ZeroMQ

    A send gives its result and the socket after it; a receive gives the frame
    ([None] is a negative result); [zmq_rcvmore] is the result of
    [zmq_getsockopt(ZMQ_RCVMORE)] and the flag it stores. *)
Class Zmq := {
  zsock : Type;
  zmq_msg_send : bytes -> bool -> zsock -> Z * zsock;
  zmq_msg_recv : zsock -> option bytes * zsock;
  zmq_rcvmore : zsock -> Z * Z
}.

(** A connection that accepts every frame and delivers them in order, as a
    PUSH socket below its high-water mark and the PULL socket it is connected
    to do: [sent s] are the frames that [s] accepted, [deliver r q] is a
    receiving socket whose next frames are [q]. *)
Class ZmqLink `{Zmq} (sent : zsock -> list (bytes * bool))
    (deliver : zsock -> list (bytes * bool) -> zsock) : Prop := {
  link_send : forall f more s, 0 <= fst (zmq_msg_send f more s);
  link_sent : forall f more s, sent (snd (zmq_msg_send f more s)) = sent s ++ [(f, more)];
  link_recv : forall r f more q, exists r',
    zmq_msg_recv (deliver r ((f, more) :: q)) = (Some f, deliver r' q) /\
    zmq_rcvmore (deliver r' q) = (0, if more then 1 else 0)
}.

(** ** [base/StringUtil.h] *)
Class StringUtil := { SplitString : string -> string -> list string }.

Definition free_of (c : ascii) (s : string) : Prop := byte_of c ∉ of_str s.

Class StringUtilLaws `{StringUtil} : Prop :=
  SplitString_two : forall (c : ascii) a b,
    free_of c a -> free_of c b -> a <> "" -> b <> "" ->
    SplitString (a +:+ String c "" +:+ b) (String c "") = [a; b].

(** ** Protocol Buffers

    [SerializeToArray] into [cap] bytes and [ParseFromArray] of a message type
    [T]: [None] is [false]. A message is representable when every field is in
    the range of its type. The generated code of the gate's and the clients'
    messages is shown to satisfy the laws in [GateMsg] and
    [ClientMsg]. *)
Class Codec (T : Type) := {
  ByteSize : T -> Z;
  serialize : T -> bytes;
  parse : bytes -> option T;
  representable : T -> Prop
}.

Class CodecLaws (T : Type) `{Codec T} : Prop := {
  parse_serialize : forall x, representable x -> parse (serialize x) = Some x;
  length_serialize : forall x, Z.of_nat (length (serialize x)) = ByteSize x
}.

Definition SerializeToArray {T} `{Codec T} (x : T) (cap : Z) : option bytes :=
  if ByteSize x <=? cap then Some (serialize x) else None.

(** ** Reference instances *)

Module Reference.

#[export] Instance buffer : BufferLib := {
  buffer_Create n := Some (mkBuffer n 0 []);
  buffer_Destroy _ := mkBuffer 0 0 []
}.

#[export] Instance buffer_laws : BufferLaws.
Proof. intros n b E. by simplify_eq/=. Qed.

(** A socket is the queue of frames to receive, with the flag of the last one
    received, and the frames sent. *)
#[export] Instance zmq : Zmq := {
  zsock := list (bytes * bool) * bool * list (bytes * bool);
  zmq_msg_send f more s := (Z.of_nat (length f), (fst s, snd s ++ [(f, more)]));
  zmq_msg_recv s := match fst (fst s) with
                    | [] => (None, s)
                    | (f, more) :: q => (Some f, (q, more, snd s))
                    end;
  zmq_rcvmore s := (0, if snd (fst s) then 1 else 0)
}.

Definition deliver (s : zsock) (q : list (bytes * bool)) : zsock := (q, snd (fst s), snd s).

Definition sent (s : zsock) : list (bytes * bool) := snd s.

#[export] Instance zmq_link : ZmqLink sent deliver.
Proof.
  split; [intros; simpl; lia|done|].
  intros [[q0 m0] o] f more q. by exists ([], more, o).
Qed.

Fixpoint split_at (c : ascii) (s : string) (acc : string) : list string :=
  match s with
  | EmptyString => [acc]
  | String d s => if Ascii.eqb c d then acc :: split_at c s "" else split_at c s (acc +:+ String d "")
  end.

#[export] Instance string_util : StringUtil := {
  SplitString s sep := match sep with String c _ => split_at c s "" | EmptyString => [s] end
}.

Lemma split_at_free c a rest acc :
  free_of c a -> split_at c (a +:+ rest) acc = split_at c rest (acc +:+ a).
Proof.
  revert acc. induction a as [|d a IH]; intros acc Hf.
  - rewrite app_nil_str. done.
  - apply not_elem_of_cons in Hf as [Hd Ha].
    rewrite app_cons_str. simpl.
    destruct (Ascii.eqb_spec c d) as [->|]; [done|].
    rewrite IH by done. by rewrite app_assoc_str.
Qed.

#[export] Instance string_util_laws : StringUtilLaws.
Proof.
  intros c a b Ha Hb _ _. simpl. rewrite split_at_free by done.
  rewrite app_cons_str. simpl. rewrite Ascii.eqb_refl. f_equal.
  change ("" +:+ b) with b. rewrite <- (app_nil_str b) at 1. by rewrite split_at_free.
Qed.

End Reference.
