(* ===== verification/WireFormat.v ===== *)
(** * The skeleton of the generated message code ([proto/gen])

    The compiler of Protocol Buffers writes the same code for every message:
    [SerializeWithCachedSizesToArray] writes the fields that are set,
    [MergePartialFromCodedStream] is a loop over a switch on the field number
    whose cases jump to the next field's case when its tag is the next one.
    [merge] below is that loop for a table of cases; the file of a group of
    messages has their tables and writers. The runtime of Protocol Buffers is
    outside the repository: a class of operations with the laws of the
    documented wire format. *)

From S2P Require Import Prelude CString.

(** ** The runtime *)

(** The result of a parser: [Fuel] is a loop that was cut short. *)
Inductive Res (A : Type) := Ok (a : A) | Failed | Fuel.
Arguments Ok {A}.
Arguments Failed {A}.
Arguments Fuel {A}.

Definition res_bind {A B} (r : Res A) (k : A -> Res B) : Res B :=
  match r with Ok a => k a | Failed => Failed | Fuel => Fuel end.
Definition of_option {A} (o : option A) : Res A := match o with Some a => Ok a | None => Failed end.

(** What [ReadTagWithCutoff] gives: the tag, whether it is a tag up to the
    cutoff, what [ConsumedEntireMessage] says after it, and the rest. *)
Record TagRead := mkTagRead { tr_tag : Z; tr_ok : bool; tr_end : bool; tr_rest : bytes }.

(** A message is written as bytes and read from the bytes left up to the limit.
    [None] is a reader that returns [false]; [ReadDelimited] is the length and
    the limit [ReadMessageNoVirtual] sets, with what follows. That reader and
    [ParseFromArray] call the message's own functions: its parser and
    [IsInitialized] are their arguments. *)
Class WireLib := {
  UnknownFieldSet : Type;
  unknown_new : UnknownFieldSet;
  unknown_empty : UnknownFieldSet -> bool;
  AddVarint : Z -> Z -> UnknownFieldSet -> UnknownFieldSet;
  unknown_MergeFrom : UnknownFieldSet -> UnknownFieldSet -> UnknownFieldSet;
  SerializeUnknownFields : UnknownFieldSet -> bytes;
  ComputeUnknownFieldsSize : UnknownFieldSet -> Z;
  WriteEnum : Z -> Z -> bytes;
  WriteUInt32 : Z -> Z -> bytes;
  WriteUInt64 : Z -> Z -> bytes;
  WriteString : Z -> string -> bytes;
  WriteMessage : Z -> Z -> bytes -> bytes;
  EnumSize : Z -> Z;
  UInt32Size : Z -> Z;
  UInt64Size : Z -> Z;
  StringSize : string -> Z;
  MessageSize : Z -> Z;
  GetTagFieldNumber : Z -> Z;
  GetTagWireType : Z -> Z;
  ReadTagWithCutoff : Z -> bytes -> TagRead;
  ExpectTag : Z -> bytes -> option bytes;
  ExpectAtEnd : bytes -> bool;
  ReadEnum : bytes -> option (Z * bytes);
  ReadUInt32 : bytes -> option (Z * bytes);
  ReadUInt64 : bytes -> option (Z * bytes);
  ReadString : bytes -> option (string * bytes);
  ReadDelimited : bytes -> option (bytes * bytes);
  SkipField : Z -> bytes -> UnknownFieldSet -> option (bytes * UnknownFieldSet);
  ReadMessageNoVirtual : forall {T}, (T -> bytes -> Res (T * bool)) -> T -> bytes -> Res (T * bytes);
  ParseFromArray : forall {T}, T -> (T -> bytes -> Res (T * bool)) -> (T -> bool) -> bytes -> option T
}.

Definition WIRETYPE_VARINT : Z := 0.
Definition WIRETYPE_LENGTH_DELIMITED : Z := 2.
Definition WIRETYPE_END_GROUP : Z := 4.

(** The wire format: a field is its tag (number and wire type) as a varint and
    its value, a varint or a length and that many bytes. [ExpectTag] and
    [ExpectAtEnd] may miss what they look for; they never see what is not
    there. No reader goes backwards. A message in a field is read up to its
    limit; [ParseFromArray] merges into the empty message, and the input must
    be consumed and the required fields set. *)
Class WireLaws `{WireLib} (tag_bytes varint : Z -> bytes) : Prop := {
  tag_number : forall t, GetTagFieldNumber t = Z.shiftr t 3;
  tag_type : forall t, GetTagWireType t = Z.land t 7;
  length_tag_1 : forall t, 0 < t < 2 ^ 7 -> length (tag_bytes t) = 1%nat;
  length_tag_2 : forall t, 2 ^ 7 <= t < 2 ^ 14 -> length (tag_bytes t) = 2%nat;
  length_varint_32 : forall v, 0 <= v < 2 ^ 32 -> (1 <= length (varint v) <= 5)%nat;
  length_varint_64 : forall v, 0 <= v < 2 ^ 64 -> (1 <= length (varint v) <= 10)%nat;
  WriteEnum_wire : forall n v, WriteEnum n v = tag_bytes (8 * n) ++ varint (u64 (i32 v));
  WriteUInt32_wire : forall n v, WriteUInt32 n v = tag_bytes (8 * n) ++ varint (u32 v);
  WriteUInt64_wire : forall n v, WriteUInt64 n v = tag_bytes (8 * n) ++ varint (u64 v);
  WriteString_wire : forall n s, WriteString n s = tag_bytes (8 * n + 2) ++ varint (u32 (strlen s)) ++ of_str s;
  WriteMessage_wire : forall n k b, WriteMessage n k b = tag_bytes (8 * n + 2) ++ varint (u32 k) ++ b;
  EnumSize_wire : forall v, EnumSize v = Z.of_nat (length (varint (u64 (i32 v))));
  UInt32Size_wire : forall v, UInt32Size v = Z.of_nat (length (varint (u32 v)));
  UInt64Size_wire : forall v, UInt64Size v = Z.of_nat (length (varint (u64 v)));
  StringSize_wire : forall s, StringSize s = Z.of_nat (length (varint (u32 (strlen s)))) + strlen s;
  MessageSize_wire : forall k, MessageSize k = Z.of_nat (length (varint (u32 k))) + k;
  ReadTag_end : forall c, ReadTagWithCutoff c [] = mkTagRead 0 false true [];
  ReadTag_tag : forall c t b, 0 < t < 2 ^ 14 ->
    ReadTagWithCutoff c (tag_bytes t ++ b) = mkTagRead t (t <=? c) false b;
  ReadTag_less : forall c b, tr_tag (ReadTagWithCutoff c b) <> 0 \/ tr_ok (ReadTagWithCutoff c b) = true ->
    (length (tr_rest (ReadTagWithCutoff c b)) < length b)%nat;
  ExpectTag_tag : forall t b b', ExpectTag t b = Some b' -> b = tag_bytes t ++ b';
  ExpectAtEnd_end : forall b, ExpectAtEnd b = true -> b = [];
  ReadEnum_wire : forall v b, - 2 ^ 31 <= v < 2 ^ 31 -> ReadEnum (varint (u64 v) ++ b) = Some (v, b);
  ReadUInt32_wire : forall v b, 0 <= v < 2 ^ 32 -> ReadUInt32 (varint v ++ b) = Some (v, b);
  ReadUInt64_wire : forall v b, 0 <= v < 2 ^ 64 -> ReadUInt64 (varint v ++ b) = Some (v, b);
  ReadString_wire : forall s b, strlen s < 2 ^ 31 ->
    ReadString (varint (strlen s) ++ of_str s ++ b) = Some (s, b);
  ReadDelimited_wire : forall m b, Z.of_nat (length m) < 2 ^ 31 ->
    ReadDelimited (varint (Z.of_nat (length m)) ++ m ++ b) = Some (m, b);
  ReadEnum_less : forall b v b', ReadEnum b = Some (v, b') -> (length b' <= length b)%nat;
  ReadUInt32_less : forall b v b', ReadUInt32 b = Some (v, b') -> (length b' <= length b)%nat;
  ReadUInt64_less : forall b v b', ReadUInt64 b = Some (v, b') -> (length b' <= length b)%nat;
  ReadString_less : forall b v b', ReadString b = Some (v, b') -> (length b' <= length b)%nat;
  ReadDelimited_less : forall b v b', ReadDelimited b = Some (v, b') -> (length v <= length b /\ length b' <= length b)%nat;
  SkipField_wire : forall n v b u, 0 < n -> 0 <= v < 2 ^ 64 ->
    exists u', SkipField (8 * n) (varint v ++ b) u = Some (b, u');
  SkipField_less : forall t b u b' u', SkipField t b u = Some (b', u') -> (length b' <= length b)%nat;
  UnknownFieldsSize_wire : forall u, ComputeUnknownFieldsSize u = Z.of_nat (length (SerializeUnknownFields u));
  ReadMessage_wire : forall T (Merge : T -> bytes -> Res (T * bool)) m b,
    ReadMessageNoVirtual Merge m b = res_bind (of_option (ReadDelimited b)) (fun p =>
      res_bind (Merge m (fst p)) (fun q => if snd q : bool then Ok (fst q, snd p) else Failed));
  ParseFromArray_wire : forall T (new : T) Merge IsInitialized b,
    ParseFromArray new Merge IsInitialized b =
      match Merge new b with Ok (m, e) => if e && IsInitialized m then Some m else None | _ => None end;
  unknown_new_empty : unknown_empty unknown_new = true;
  unknown_MergeFrom_new : forall u, unknown_MergeFrom unknown_new u = u
}.

(** ** The loop *)

(** A case of the switch: the field number, the tag it accepts, what it reads,
    the tags it looks for to jump to their cases, and whether it looks for the
    end of the input. *)
Record Case `{WireLib} (T : Type) := mkCase {
  c_number : Z;
  c_tag : Z;
  c_read : T -> bytes -> Res (T * bytes);
  c_next : list Z;
  c_last : bool
}.
Arguments mkCase {_ T}.
Arguments c_number {_ T}.
Arguments c_tag {_ T}.
Arguments c_read {_ T}.
Arguments c_next {_ T}.
Arguments c_last {_ T}.

Section skeleton.
Context `{WireLib} {T : Type}.
(** [mutable_unknown_fields] of the message. *)
Context (unknown : T -> UnknownFieldSet) (set_unknown : UnknownFieldSet -> T -> T).
(** The argument of [ReadTagWithCutoff] and the cases of the switch. *)
Context (cutoff : Z) (cases : list (Case T)).

(** [switch (GetTagFieldNumber(tag))] with the test of the tag in the case. *)
Definition switch (tag : Z) : option (Case T) :=
  c ← list_find (fun c => c_number c = GetTagFieldNumber tag) cases;
  if c_tag (snd c) =? tag then Some (snd c) else None.

(** The tests [if (input->ExpectTag(t)) goto parse_field] of a case. *)
Fixpoint expect (ts : list Z) (b : bytes) : option (Z * bytes) :=
  match ts with
  | [] => None
  | t :: ts => match ExpectTag t b with Some b' => Some (t, b') | None => expect ts b end
  end.

(** [handle_unusual]: the end of the message, or a field that is not known. *)
Definition unusual (r : TagRead) (m : T) : Res (T * option bool * bytes) :=
  if (tr_tag r =? 0) || (GetTagWireType (tr_tag r) =? WIRETYPE_END_GROUP)
  then Ok (m, Some (tr_end r), tr_rest r)
  else res_bind (of_option (SkipField (tr_tag r) (tr_rest r) (unknown m))) (fun p =>
    Ok (set_unknown (snd p) m, None, fst p)).

(** [MergePartialFromCodedStream]: [goto] is the case a jump goes to. The result
    is the message and what [ConsumedEntireMessage] says. *)
Fixpoint merge (fuel : nat) (goto : option Z) (m : T) (b : bytes) : Res (T * bool) :=
  match fuel with
  | O => Fuel
  | S fuel =>
      let run (c : Case T) (m : T) (b : bytes) :=
        res_bind (c_read c m b) (fun p =>
          match expect (c_next c) (snd p) with
          | Some (t, b') => merge fuel (Some t) (fst p) b'
          | None => if c_last c && ExpectAtEnd (snd p) then Ok (fst p, true)
                    else merge fuel None (fst p) (snd p)
          end) in
      match goto with
      | Some t => match switch t with Some c => run c m b | None => Failed end
      | None =>
          let r := ReadTagWithCutoff cutoff b in
          match (if tr_ok r then switch (tr_tag r) else None) with
          | Some c => run c m (tr_rest r)
          | None => res_bind (unusual r m) (fun p =>
              let '(m, fin, b) := p in
              match fin with Some e => Ok (m, e) | None => merge fuel None m b end)
          end
      end
  end.

(** The parser: the loop with a step for every byte and one for the end. *)
Definition MergePartial (m : T) (b : bytes) : Res (T * bool) := merge (S (length b)) None m b.

End skeleton.

(** ** The jumps change nothing

    The loop without the jumps reads the same message: [merge] is
    [merge_plain] whatever [ExpectTag] and [ExpectAtEnd] miss. *)

Section plain.
Context `{WireLib} {T : Type} (unknown : T -> UnknownFieldSet) (set_unknown : UnknownFieldSet -> T -> T).
Context (cutoff : Z) (cases : list (Case T)).

Fixpoint merge_plain (fuel : nat) (m : T) (b : bytes) : Res (T * bool) :=
  match fuel with
  | O => Fuel
  | S fuel =>
      let r := ReadTagWithCutoff cutoff b in
      match (if tr_ok r then switch cases (tr_tag r) else None) with
      | Some c => res_bind (c_read c m (tr_rest r)) (fun p => merge_plain fuel (fst p) (snd p))
      | None => res_bind (unusual unknown set_unknown r m) (fun p =>
          let '(m, fin, b) := p in
          match fin with Some e => Ok (m, e) | None => merge_plain fuel m b end)
      end
  end.

(** A reader that ends, and does not go backwards. *)
Definition reader_ok (read : T -> bytes -> Res (T * bytes)) : Prop := forall m b,
  read m b <> Fuel /\ forall m' b', read m b = Ok (m', b') -> (length b' <= length b)%nat.

(** The jumps of a case go to cases. *)
Definition jump_ok (t : Z) : Prop := 0 < t < 2 ^ 14 /\ t <= cutoff /\ is_Some (switch cases t).
Record table_ok : Prop := {
  ok_jumps : Forall (fun c => Forall jump_ok (c_next c)) cases;
  ok_reads : Forall (fun c => reader_ok (c_read c)) cases
}.

Lemma switch_in t c : switch cases t = Some c -> c ∈ cases /\ c_tag c = t.
Proof.
  unfold switch. destruct (list_find _ cases) as [[i c']|] eqn:E; simpl; [|done].
  destruct (Z.eqb_spec (c_tag c') t); [|done]. intros [= <-]. split; [|done].
  apply list_find_Some in E as (E & _ & _). by eapply list_elem_of_lookup_2.
Qed.

Lemma switch_reader t c : table_ok -> switch cases t = Some c -> reader_ok (c_read c).
Proof. intros Hok [Hc _]%switch_in. exact (proj1 (Forall_forall _ _) (ok_reads Hok) _ Hc). Qed.

Context {tag_bytes varint : Z -> bytes} `{!WireLaws tag_bytes varint}.

Lemma tag_bytes_length t : 0 < t < 2 ^ 14 -> (1 <= length (tag_bytes t))%nat.
Proof.
  intros Ht. destruct (decide (t < 2 ^ 7)); [rewrite length_tag_1 by lia|rewrite length_tag_2 by lia]; lia.
Qed.

Lemma expect_tag ts b t b' : expect ts b = Some (t, b') -> t ∈ ts /\ b = tag_bytes t ++ b'.
Proof.
  induction ts as [|t' ts IH]; simpl; [done|]. destruct (ExpectTag t' b) as [b1|] eqn:E.
  - intros [= <- <-]. split; [left|]. by apply ExpectTag_tag.
  - intros [Hin ->]%IH. split; [by right|done].
Qed.

Lemma expect_jump t c b t' b' :
  table_ok -> switch cases t = Some c -> expect (c_next c) b = Some (t', b') ->
  jump_ok t' /\ b = tag_bytes t' ++ b'.
Proof.
  intros Hok [Hc _]%switch_in [Ht ->]%expect_tag. split; [|done].
  pose proof (proj1 (Forall_forall _ _) (ok_jumps Hok) _ Hc) as Hn. exact (proj1 (Forall_forall _ _) Hn _ Ht).
Qed.

Lemma merge_plain_tag fuel t c m b :
  jump_ok t -> switch cases t = Some c ->
  merge_plain (S fuel) m (tag_bytes t ++ b) = res_bind (c_read c m b) (fun p => merge_plain fuel (fst p) (snd p)).
Proof.
  intros (Ht & Hc & _) Es. cbn [merge_plain]. rewrite ReadTag_tag by done. simpl.
  by rewrite (proj2 (Z.leb_le _ _)), Es by done.
Qed.

Lemma merge_plain_end fuel m : merge_plain (S fuel) m [] = Ok (m, true).
Proof. cbn [merge_plain]. by rewrite ReadTag_end. Qed.

Lemma unusual_less r m m' fin b :
  unusual unknown set_unknown r m = Ok (m', fin, b) -> (length b <= length (tr_rest r))%nat /\ (tr_tag r = 0 -> is_Some fin).
Proof.
  unfold unusual. destruct (Z.eqb_spec (tr_tag r) 0) as [E|E]; simpl; [intros [= <- <- <-]; eauto|].
  destruct (_ =? WIRETYPE_END_GROUP); [intros [= <- <- <-]; eauto|].
  destruct (SkipField _ _ _) as [[b1 u]|] eqn:Es; simpl; [|done]. intros [= <- <- <-].
  apply SkipField_less in Es. done.
Qed.

(** What the loop has before it, with the tag a jump has consumed. *)
Definition before (goto : option Z) (b : bytes) : bytes :=
  match goto with Some t => tag_bytes t ++ b | None => b end.

Lemma merge_jump_plain fuel goto m b :
  table_ok -> (forall t, goto = Some t -> jump_ok t) -> (length (before goto b) < fuel)%nat ->
  merge unknown set_unknown cutoff cases fuel goto m b = merge_plain fuel m (before goto b).
Proof.
  intros Hok. revert goto m b. induction fuel as [|fuel IH]; intros goto m b Hg Hl; [lia|].
  assert (forall t c m0 b0, switch cases t = Some c -> (length b0 < fuel)%nat ->
    res_bind (c_read c m0 b0) (fun p => match expect (c_next c) (snd p) with
      | Some (t', b') => merge unknown set_unknown cutoff cases fuel (Some t') (fst p) b'
      | None => if c_last c && ExpectAtEnd (snd p) then Ok (fst p, true)
                else merge unknown set_unknown cutoff cases fuel None (fst p) (snd p)
      end) = res_bind (c_read c m0 b0) (fun p => merge_plain fuel (fst p) (snd p))) as Hrun.
  { intros t c m0 b0 Es Hb. destruct (switch_reader _ _ Hok Es m0 b0) as [_ Hr].
    destruct (c_read c m0 b0) as [[m1 b1]| |]; simpl; [|done..]. specialize (Hr _ _ eq_refl).
    destruct (expect (c_next c) b1) as [[t' b']|] eqn:Ee.
    - destruct (expect_jump _ _ _ _ _ Hok Es Ee) as [Hj ->].
      apply (IH (Some t')); [by intros ? [= <-]|]. simpl. lia.
    - destruct (c_last c && ExpectAtEnd b1) eqn:El; [|apply (IH None); [done|simpl; lia]].
      apply andb_true_iff in El as [_ ->%ExpectAtEnd_end]. destruct fuel; [lia|]. by rewrite merge_plain_end. }
  destruct goto as [t|]; simpl before in *.
  - destruct (Hg t eq_refl) as (Ht & Hc & c & Es). rewrite (merge_plain_tag _ _ c) by (done || by split_and!).
    cbn [merge]. rewrite Es. apply (Hrun t); [done|]. rewrite length_app in Hl.
    pose proof (tag_bytes_length t Ht). lia.
  - cbn [merge merge_plain]. pose proof (ReadTag_less cutoff b) as Hless.
    set (r := ReadTagWithCutoff cutoff b) in *. destruct (tr_ok r) eqn:Eok.
    + destruct (switch cases (tr_tag r)) as [c|] eqn:Es; [apply (Hrun (tr_tag r)); [done|lia..]|].
      destruct (unusual _ _ r m) as [[[m1 [e|]] b1]| |] eqn:Eu; simpl; [done| |done..].
      apply unusual_less in Eu as [Hu _]. apply (IH None); [done|simpl; lia].
    + destruct (unusual _ _ r m) as [[[m1 [e|]] b1]| |] eqn:Eu; simpl; [done| |done..].
      apply unusual_less in Eu as [Hu H0]. apply (IH None); [done|].
      simpl. destruct (decide (tr_tag r = 0)) as [E|E]; [by destruct (H0 E)|]. lia.
Qed.

(** The parser is the loop without jumps. *)
Theorem MergePartial_plain m b :
  table_ok -> MergePartial unknown set_unknown cutoff cases m b = merge_plain (S (length b)) m b.
Proof. intros Hok. apply (merge_jump_plain _ None); [done|done|simpl; lia]. Qed.

Lemma merge_plain_total fuel m b :
  table_ok -> (length b < fuel)%nat -> merge_plain fuel m b <> Fuel.
Proof.
  intros Hok. revert m b. induction fuel as [|fuel IH]; intros m b Hl; [lia|]. cbn [merge_plain].
  pose proof (ReadTag_less cutoff b) as Hless. set (r := ReadTagWithCutoff cutoff b) in *.
  assert (tr_tag r <> 0 \/ tr_ok r = true \/ tr_tag r = 0) as Hcase by lia.
  destruct (if tr_ok r then switch cases (tr_tag r) else None) as [c|] eqn:Es.
  - destruct (tr_ok r); [|done]. destruct (switch_reader _ _ Hok Es m (tr_rest r)) as [Hf Hr].
    destruct (c_read c m (tr_rest r)) as [[m1 b1]| |]; simpl; [|done..]. apply IH.
    specialize (Hr _ _ eq_refl). lia.
  - destruct (unusual _ _ r m) as [[[m1 [e|]] b1]| |] eqn:Eu; simpl; [done| |done|].
    + apply unusual_less in Eu as [Hu H0]. apply IH.
      destruct (decide (tr_tag r = 0)) as [E|E]; [by destruct (H0 E)|]. lia.
    + revert Eu. unfold unusual. destruct (_ || _); [done|]. by destruct (SkipField _ _ _).
Qed.

(** The parser ends: a step for every byte and one for the end are enough. *)
Theorem MergePartial_total m b : table_ok -> MergePartial unknown set_unknown cutoff cases m b <> Fuel.
Proof. intros Hok. rewrite MergePartial_plain by done. apply merge_plain_total; [done|lia]. Qed.

(** ** Reading what was written *)

(** The loop gets from [m] before [b] to [m'] before [b']. *)
Definition reads (m : T) (b : bytes) (m' : T) (b' : bytes) : Prop :=
  exists k, (k + length b' <= length b)%nat /\ forall f, merge_plain (k + f) m b = merge_plain f m' b'.

Lemma reads_refl m b : reads m b m b.
Proof. exists O. split; [lia|done]. Qed.

Lemma reads_trans m1 b1 m2 b2 m3 b3 : reads m1 b1 m2 b2 -> reads m2 b2 m3 b3 -> reads m1 b1 m3 b3.
Proof.
  intros (k1 & H1 & E1) (k2 & H2 & E2). exists (k1 + k2)%nat. split; [lia|].
  intros f. by rewrite <- Nat.add_assoc, E1, E2.
Qed.

Lemma reads_field t c m b m' b' :
  jump_ok t -> switch cases t = Some c -> c_read c m b = Ok (m', b') -> (length b' <= length b)%nat ->
  reads m (tag_bytes t ++ b) m' b'.
Proof.
  intros Ht Es Er Hl. exists 1%nat. split.
  - rewrite length_app. destruct Ht as (Ht & _). pose proof (tag_bytes_length t Ht). lia.
  - intros f. cbn [Nat.add]. rewrite (merge_plain_tag _ _ c) by done. by rewrite Er.
Qed.

Lemma reads_all m b m' : table_ok -> reads m b m' [] -> MergePartial unknown set_unknown cutoff cases m b = Ok (m', true).
Proof.
  intros Hok (k & Hk & E). rewrite MergePartial_plain by done. simpl in Hk.
  replace (S (length b)) with (k + S (length b - k))%nat by lia. by rewrite E, merge_plain_end.
Qed.

End plain.

(** ** Fields *)

(** [if (has_x()) ...] of a writer and of [ByteSize]. *)
Definition write_if {A} (o : option A) (w : A -> bytes) : bytes := match o with Some a => w a | None => [] end.
Definition size_if {A} (o : option A) (w : A -> Z) : Z := match o with Some a => w a | None => 0 end.
(** [if (from.has_x()) set_x(from.x())]. *)
Definition set_if {A T} (o : option A) (set : A -> T -> T) (m : T) : T := match o with Some a => set a m | None => m end.

(** [mutable_x()->MergeFrom(from.x())]. *)
Definition merge_sub {S T} (MergeFrom : S -> S -> S) (get : T -> option S) (new : S) (set : S -> T -> T) (r : S) (m : T) : T :=
  set (MergeFrom r (default new (get m))) m.

(** The end of every writer and of every [ByteSize]. *)
Definition write_unknown `{WireLib} (u : UnknownFieldSet) : bytes := if unknown_empty u then [] else SerializeUnknownFields u.
Definition unknown_size `{WireLib} (u : UnknownFieldSet) : Z := if unknown_empty u then 0 else ComputeUnknownFieldsSize u.

Section fields.
Context `{WireLib} {T : Type}.

(** [DO_(Read...(input, &field)); set_has_field()]. *)
Definition read_with {A} (read : bytes -> option (A * bytes)) (set : A -> T -> T) (m : T) (b : bytes) : Res (T * bytes) :=
  res_bind (of_option (read b)) (fun p => Ok (set (fst p) m, snd p)).

(** A field of an enumeration: a value it does not have is kept as unknown. *)
Definition read_enum (IsValid : Z -> bool) (set : Z -> T -> T) (unk : Z -> T -> T) (m : T) (b : bytes) : Res (T * bytes) :=
  res_bind (of_option (ReadEnum b)) (fun p => Ok (if IsValid (fst p) then set (fst p) m else unk (fst p) m, snd p)).

(** A message in a field: [mutable_x()] makes it if there is none. *)
Definition read_message {S} (Merge : S -> bytes -> Res (S * bool)) (get : T -> option S) (new : S) (set : S -> T -> T)
    (m : T) (b : bytes) : Res (T * bytes) :=
  res_bind (ReadMessageNoVirtual Merge (default new (get m)) b) (fun p => Ok (set (fst p) m, snd p)).

Context {tag_bytes varint : Z -> bytes} `{!WireLaws tag_bytes varint}.

Lemma reader_ok_with {A} (read : bytes -> option (A * bytes)) set :
  (forall b v b', read b = Some (v, b') -> (length b' <= length b)%nat) -> reader_ok (read_with read set).
Proof.
  intros Hr m b. unfold read_with. destruct (read b) as [[v b1]|] eqn:E; simpl; [|done].
  split; [done|]. intros m' b' [= <- <-]. by eapply Hr.
Qed.

Lemma reader_ok_enum IsValid set unk : reader_ok (read_enum IsValid set unk).
Proof.
  intros m b. unfold read_enum. destruct (ReadEnum b) as [[v b1]|] eqn:E; simpl; [|done].
  split; [done|]. intros m' b' [= <- <-]. by eapply ReadEnum_less.
Qed.

Lemma reader_ok_message {S} (Merge : S -> bytes -> Res (S * bool)) get new set :
  (forall m b, Merge m b <> Fuel) -> reader_ok (read_message Merge get new set).
Proof.
  intros HM m b. unfold read_message. rewrite ReadMessage_wire. destruct (ReadDelimited b) as [[v b1]|] eqn:E; simpl; [|done].
  apply ReadDelimited_less in E as [_ E]. specialize (HM (default new (get m)) v).
  destruct (Merge (default new (get m)) v) as [[s []]| |]; simpl; try done.
  split; [done|]. by intros m' b' [= <- <-].
Qed.

Lemma read_with_run {A} (read : bytes -> option (A * bytes)) set v m b b' :
  read b = Some (v, b') -> read_with read set m b = Ok (set v m, b').
Proof. unfold read_with. by intros ->. Qed.

Lemma read_message_run {S} (Merge : S -> bytes -> Res (S * bool)) get new set m s v b :
  Z.of_nat (length v) < 2 ^ 31 -> Merge (default new (get m)) v = Ok (s, true) ->
  read_message Merge get new set m (varint (Z.of_nat (length v)) ++ v ++ b) = Ok (set s m, b).
Proof. intros Hl E. unfold read_message. rewrite ReadMessage_wire. rewrite ReadDelimited_wire by done. simpl. by rewrite E. Qed.

End fields.

(** ** Fields that were written are read *)

Section written.
Context `{WireLib} {T : Type} (unknown : T -> UnknownFieldSet) (set_unknown : UnknownFieldSet -> T -> T).
Context (cutoff : Z) (cases : list (Case T)).
Context {tag_bytes varint : Z -> bytes} `{!WireLaws tag_bytes varint}.
Abbreviation reads := (reads unknown set_unknown cutoff cases).

(** A case of the switch that is reached with its tag. *)
Definition has_case (t : Z) (read : T -> bytes -> Res (T * bytes)) : Prop :=
  0 < t < 2 ^ 14 /\ t <= cutoff /\ exists c, switch cases t = Some c /\ c_read c = read.

Lemma reads_case t read m b m' b' :
  has_case t read -> read m b = Ok (m', b') -> (length b' <= length b)%nat -> reads m (tag_bytes t ++ b) m' b'.
Proof.
  intros (Ht & Hc & c & Es & <-) Er Hl. apply (reads_field unknown set_unknown cutoff cases t c); (done || by split_and!).
Qed.

Lemma reads_uint32 n set v m b :
  0 <= v < 2 ^ 32 -> has_case (8 * n) (read_with ReadUInt32 set) -> reads m (WriteUInt32 n v ++ b) (set v m) b.
Proof.
  intros Hv Hc. rewrite WriteUInt32_wire, u32_small, <- app_assoc by lia.
  eapply reads_case; [done|by apply read_with_run, ReadUInt32_wire|rewrite length_app; lia].
Qed.

Lemma reads_uint64 n set v m b :
  0 <= v < 2 ^ 64 -> has_case (8 * n) (read_with ReadUInt64 set) -> reads m (WriteUInt64 n v ++ b) (set v m) b.
Proof.
  intros Hv Hc. rewrite WriteUInt64_wire, u64_small, <- app_assoc by lia.
  eapply reads_case; [done|by apply read_with_run, ReadUInt64_wire|rewrite length_app; lia].
Qed.

Lemma reads_enum n IsValid set unk v m b :
  - 2 ^ 31 <= v < 2 ^ 31 -> IsValid v = true -> has_case (8 * n) (read_enum IsValid set unk) ->
  reads m (WriteEnum n v ++ b) (set v m) b.
Proof.
  intros Hv Hval Hc. rewrite WriteEnum_wire, i32_small, <- app_assoc by lia.
  eapply reads_case; [done| |rewrite length_app; lia].
  unfold read_enum. rewrite ReadEnum_wire by done. simpl. by rewrite Hval.
Qed.

Lemma reads_string n set s m b :
  strlen s < 2 ^ 31 -> has_case (8 * n + 2) (read_with ReadString set) -> reads m (WriteString n s ++ b) (set s m) b.
Proof.
  intros Hs Hc. rewrite WriteString_wire, u32_small, <- !app_assoc by (unfold strlen in *; lia).
  eapply reads_case; [done|by apply read_with_run, ReadString_wire|rewrite !length_app; lia].
Qed.

Lemma reads_message {S} n (Merge : S -> bytes -> Res (S * bool)) get new set s v m b :
  Z.of_nat (length v) < 2 ^ 31 -> Merge (default new (get m)) v = Ok (s, true) ->
  has_case (8 * n + 2) (read_message Merge get new set) ->
  reads m (WriteMessage n (Z.of_nat (length v)) v ++ b) (set s m) b.
Proof.
  intros Hl Hm Hc. rewrite WriteMessage_wire, u32_small, <- !app_assoc by lia.
  eapply reads_case; [done|by apply read_message_run|rewrite !length_app; lia].
Qed.

Lemma reads_enum_invalid n IsValid set unk v m b :
  - 2 ^ 31 <= v < 2 ^ 31 -> IsValid v = false -> has_case (8 * n) (read_enum IsValid set unk) ->
  reads m (WriteEnum n v ++ b) (unk v m) b.
Proof.
  intros Hv Hval Hc. rewrite WriteEnum_wire, i32_small, <- app_assoc by lia.
  eapply reads_case; [done| |rewrite length_app; lia].
  unfold read_enum. rewrite ReadEnum_wire by done. simpl. by rewrite Hval.
Qed.

(** A number in a field that the message does not have is skipped. *)
Lemma reads_skip n v m b :
  0 < 8 * n < 2 ^ 14 -> 0 <= v < 2 ^ 32 -> switch cases (8 * n) = None ->
  exists u, reads m (WriteUInt32 n v ++ b) (set_unknown u m) b.
Proof.
  intros Hn Hv Es. destruct (SkipField_wire n v b (unknown m) ltac:(lia) ltac:(lia)) as [u Eu]. exists u, 1%nat.
  rewrite WriteUInt32_wire, u32_small, <- app_assoc by lia. split.
  - rewrite !length_app. pose proof (tag_bytes_length (8 * n) Hn). lia.
  - intros f. cbn [Nat.add merge_plain]. rewrite ReadTag_tag by done. simpl (tr_tag _). simpl (tr_ok _). rewrite Es.
    assert (unusual unknown set_unknown (mkTagRead (8 * n) (8 * n <=? cutoff) false (varint v ++ b)) m
      = Ok (set_unknown u m, None, b)) as Hu.
    { unfold unusual. simpl (tr_tag _). simpl (tr_rest _). rewrite tag_type, Eu.
      replace (Z.land (8 * n) 7) with 0 by (change 7 with (Z.ones 3); rewrite Z.land_ones by lia;
        rewrite Z.mul_comm; symmetry; apply Z.mod_mul; lia).
      destruct (Z.eqb_spec (8 * n) 0); [lia|done]. }
    rewrite Hu. by destruct (8 * n <=? cutoff).
Qed.

Lemma reads_if {A} (o : option A) (w : A -> bytes) set m b m' b' :
  (forall a, o = Some a -> reads m (w a ++ b) (set a m) b) -> reads (set_if o set m) b m' b' ->
  reads m (write_if o w ++ b) m' b'.
Proof.
  intros Hw. apply reads_trans. destruct o as [a|]; simpl; [by apply Hw|apply reads_refl].
Qed.

End written.

(** ** Sizes and ranges *)

Definition in_u32 (v : Z) : Prop := 0 <= v < 2 ^ 32.
Definition in_u64 (v : Z) : Prop := 0 <= v < 2 ^ 64.
Definition all_of {A} (P : A -> Prop) (o : option A) : Prop := forall a, o = Some a -> P a.
Lemma all_of_Some {A} (P : A -> Prop) a : P a -> all_of P (Some a).
Proof. by intros Ha ? [= <-]. Qed.
Lemma all_of_fmap {A B} (P : B -> Prop) (f : A -> B) o : all_of (fun a => P (f a)) o -> all_of P (f <$> o).
Proof. destruct o as [a|]; intros Ha ? E; simplify_eq/=. by apply Ha. Qed.

Section sizes.
Context `{WireLib} {tag_bytes varint : Z -> bytes} `{!WireLaws tag_bytes varint}.

(** The number of bytes of a tag. *)
Definition tag_size (t : Z) : Z := if t <? 2 ^ 7 then 1 else 2.

Lemma length_tag t : 0 < t < 2 ^ 14 -> Z.of_nat (length (tag_bytes t)) = tag_size t.
Proof.
  intros Ht. unfold tag_size. destruct (Z.ltb_spec t (2 ^ 7)); [rewrite length_tag_1 by lia|rewrite length_tag_2 by lia]; done.
Qed.

Lemma length_write_if {A} (o : option A) (w : A -> bytes) (sz : A -> Z) :
  (forall a, Z.of_nat (length (w a)) = sz a) -> Z.of_nat (length (write_if o w)) = size_if o sz.
Proof. destruct o; simpl; auto. Qed.

Lemma length_WriteEnum n v : 0 < 8 * n < 2 ^ 14 -> Z.of_nat (length (WriteEnum n v)) = tag_size (8 * n) + EnumSize v.
Proof. intros. rewrite WriteEnum_wire, EnumSize_wire, length_app. rewrite <- length_tag by lia. lia. Qed.
Lemma length_WriteUInt32 n v : 0 < 8 * n < 2 ^ 14 -> Z.of_nat (length (WriteUInt32 n v)) = tag_size (8 * n) + UInt32Size v.
Proof. intros. rewrite WriteUInt32_wire, UInt32Size_wire, length_app. rewrite <- length_tag by lia. lia. Qed.
Lemma length_WriteUInt64 n v : 0 < 8 * n < 2 ^ 14 -> Z.of_nat (length (WriteUInt64 n v)) = tag_size (8 * n) + UInt64Size v.
Proof. intros. rewrite WriteUInt64_wire, UInt64Size_wire, length_app. rewrite <- length_tag by lia. lia. Qed.
Lemma length_WriteString n s : 0 < 8 * n + 2 < 2 ^ 14 ->
  Z.of_nat (length (WriteString n s)) = tag_size (8 * n + 2) + StringSize s.
Proof.
  intros. rewrite WriteString_wire, StringSize_wire, !length_app, length_of_str. rewrite <- length_tag by lia.
  unfold strlen. lia.
Qed.
Lemma length_WriteMessage n k b : 0 < 8 * n + 2 < 2 ^ 14 -> Z.of_nat (length b) = k ->
  Z.of_nat (length (WriteMessage n k b)) = tag_size (8 * n + 2) + MessageSize k.
Proof. intros. rewrite WriteMessage_wire, MessageSize_wire, !length_app. rewrite <- length_tag by lia. lia. Qed.

Lemma EnumSize_bound v : 1 <= EnumSize v <= 10.
Proof. rewrite EnumSize_wire. pose proof (length_varint_64 (u64 (i32 v)) (u64_bound _)). lia. Qed.
Lemma UInt32Size_bound v : 1 <= UInt32Size v <= 5.
Proof. rewrite UInt32Size_wire. pose proof (length_varint_32 (u32 v) (u32_bound _)). lia. Qed.
Lemma UInt64Size_bound v : 1 <= UInt64Size v <= 10.
Proof. rewrite UInt64Size_wire. pose proof (length_varint_64 (u64 v) (u64_bound _)). lia. Qed.
Lemma StringSize_bound s : 1 + strlen s <= StringSize s <= 5 + strlen s.
Proof. rewrite StringSize_wire. pose proof (length_varint_32 (u32 (strlen s)) (u32_bound _)). lia. Qed.
Lemma MessageSize_bound k : 1 + k <= MessageSize k <= 5 + k.
Proof. rewrite MessageSize_wire. pose proof (length_varint_32 (u32 k) (u32_bound _)). lia. Qed.

Lemma write_unknown_new : write_unknown unknown_new = [].
Proof. unfold write_unknown. by rewrite unknown_new_empty. Qed.
Lemma unknown_size_new : unknown_size unknown_new = 0.
Proof. unfold unknown_size. by rewrite unknown_new_empty. Qed.
Lemma length_write_unknown u : Z.of_nat (length (write_unknown u)) = unknown_size u.
Proof. unfold write_unknown, unknown_size. destruct (unknown_empty u); [done|]. by rewrite UnknownFieldsSize_wire. Qed.

Lemma size_if_bound {A} (o : option A) (sz : A -> Z) k : 0 <= k -> (forall a, 0 <= sz a <= k) -> 0 <= size_if o sz <= k.
Proof. intros. destruct o; simpl; auto. lia. Qed.

End sizes.

(** Jumps and cases of a table are found by computation. *)
Lemma switch_number `{WireLib} {T} {tag_bytes varint} `{!WireLaws tag_bytes varint} (cases : list (Case T)) t :
  switch cases t = (c ← list_find (fun c => c_number c = Z.shiftr t 3) cases;
                    if c_tag (snd c) =? t then Some (snd c) else None).
Proof. unfold switch. by rewrite tag_number. Qed.

(** A field number without a case. *)
Lemma switch_absent `{WireLib} {T} {tag_bytes varint} `{!WireLaws tag_bytes varint} (cases : list (Case T)) n :
  n ∉ c_number <$> cases -> switch cases (8 * n) = None.
Proof.
  intros Hn. rewrite (switch_number (tag_bytes:=tag_bytes) (varint:=varint)).
  replace (Z.shiftr (8 * n) 3) with n by (rewrite Z.shiftr_div_pow2 by lia; change (2 ^ 3) with 8;
    rewrite Z.mul_comm; symmetry; apply Z.div_mul; lia).
  destruct (list_find _ cases) as [[i c]|] eqn:E; [|done].
  apply list_find_Some in E as (E & Ec & _). destruct Hn. rewrite <- Ec.
  apply list_elem_of_fmap_2, (list_elem_of_lookup_2 _ i), E.
Qed.

Ltac solve_case :=
  split; [lia|]; split; [lia|]; eexists; split;
  [match goal with L : WireLaws ?tb ?v |- _ => rewrite (switch_number (tag_bytes:=tb) (varint:=v)) end; reflexivity|reflexivity].
Ltac solve_jump :=
  split; [lia|]; split; [lia|]; eexists;
  match goal with L : WireLaws ?tb ?v |- _ => rewrite (switch_number (tag_bytes:=tb) (varint:=v)) end; reflexivity.

Create HintDb wire.
#[export] Hint Resolve ReadUInt32_less ReadUInt64_less ReadString_less : wire.
#[export] Hint Resolve reader_ok_enum reader_ok_with reader_ok_message : wire.

(** A table is well formed: its jumps by computation, its readers by hints. *)
Ltac solve_table :=
  split; repeat first [apply Forall_nil_2 | apply Forall_cons_2]; cbn [c_read c_next]; repeat first [apply Forall_nil_2 | apply Forall_cons_2];
  first [solve_jump | eauto with wire nocore].

(** A field of a message that is being read back: [Hrange] is its range. *)
Ltac laws := match goal with L : WireLaws _ _ |- _ => exact L end.
Tactic Notation "read_uint32" constr(set) constr(Hrange) :=
  eapply (reads_if _ _ _ _ _ _ set); [let v := fresh in let E := fresh in intros v E;
    eapply reads_uint32; [laws|exact (Hrange v E)|solve_case]|].
Tactic Notation "read_uint64" constr(set) constr(Hrange) :=
  eapply (reads_if _ _ _ _ _ _ set); [let v := fresh in let E := fresh in intros v E;
    eapply reads_uint64; [laws|exact (Hrange v E)|solve_case]|].
Tactic Notation "read_string" constr(set) constr(Hrange) :=
  eapply (reads_if _ _ _ _ _ _ set); [let v := fresh in let E := fresh in intros v E;
    eapply reads_string; [laws|exact (Hrange v E)|solve_case]|].

(** The length of what a writer writes is the sum of the sizes of its fields. *)
Ltac solve_field_size :=
  first
    [ apply length_write_unknown
    | apply length_write_if; intros ?; etransitivity;
      [first [ apply length_WriteUInt32 | apply length_WriteUInt64 | apply length_WriteEnum | apply length_WriteString
             | apply length_WriteMessage ]; [lia|..]; eauto with wire nocore
      | reflexivity] ].
Ltac solve_size :=
  rewrite !length_app, !Nat2Z.inj_add, ?Z.add_assoc; repeat apply (f_equal2 Z.add); solve_field_size.

(** ** Messages inside messages *)

(** What the generated class of a message promises to the classes that have a
    field of it: its parser ends, its size is the one it writes, at most
    [bound] for messages in range, and those are read back. *)
Record MsgOk `{WireLib} {S : Type} (new : S) (Merge : S -> bytes -> Res (S * bool)) (Serialize : S -> bytes)
    (Size : S -> Z) (ranges : S -> Prop) (bound : Z) : Prop := {
  mo_total : forall m b, Merge m b <> Fuel;
  mo_length : forall m, Z.of_nat (length (Serialize m)) = Size m;
  mo_bound : forall m, ranges m -> 0 <= Size m <= bound;
  mo_reads : forall m, ranges m -> Merge new (Serialize m) = Ok (m, true)
}.

Section nested.
Context `{WireLib} {T : Type} (unknown : T -> UnknownFieldSet) (set_unknown : UnknownFieldSet -> T -> T).
Context (cutoff : Z) (cases : list (Case T)).
Context {tag_bytes varint : Z -> bytes} `{!WireLaws tag_bytes varint}.
Abbreviation reads := (reads unknown set_unknown cutoff cases).

Lemma reads_if_message {S} {new : S} {Merge Serialize Size ranges bound} n get set o m b m' b' :
  MsgOk new Merge Serialize Size ranges bound -> bound < 2 ^ 31 -> all_of ranges o -> get m = None ->
  has_case cutoff cases (8 * n + 2) (read_message Merge get new set) ->
  reads (set_if o set m) b m' b' ->
  reads m (write_if o (fun r => WriteMessage n (Size r) (Serialize r)) ++ b) m' b'.
Proof.
  intros Hok Hb Ho Hg Hc Hr. eapply reads_if; [|exact Hr]. intros s E.
  rewrite <- (mo_length _ _ _ _ _ _ Hok). eapply reads_message; [done| | |exact Hc].
  - rewrite (mo_length _ _ _ _ _ _ Hok). pose proof (mo_bound _ _ _ _ _ _ Hok s (Ho s E)). lia.
  - rewrite Hg. apply (mo_reads _ _ _ _ _ _ Hok), Ho, E.
Qed.

Lemma reads_eq m m' b : m = m' -> reads m b m' b.
Proof. intros ->. apply reads_refl. Qed.

Lemma size_u32 k (o : option Z) : 0 <= k -> 0 <= size_if o (fun v => k + UInt32Size v) <= k + 5.
Proof. intros Hk. apply size_if_bound; [lia|]. intros v. pose proof (UInt32Size_bound v). lia. Qed.
Lemma size_u64 k (o : option Z) : 0 <= k -> 0 <= size_if o (fun v => k + UInt64Size v) <= k + 10.
Proof. intros Hk. apply size_if_bound; [lia|]. intros v. pose proof (UInt64Size_bound v). lia. Qed.
Lemma size_string k n (o : option string) : 0 <= k -> 0 <= n -> all_of (fun s => strlen s <= n) o ->
  0 <= size_if o (fun v => k + StringSize v) <= k + 5 + n.
Proof.
  intros Hk Hn Ho. destruct o as [s|]; simpl; [|lia]. pose proof (StringSize_bound s).
  specialize (Ho s eq_refl). simpl in Ho. unfold strlen in *. lia.
Qed.
Lemma size_message {S} {new : S} {Merge Serialize Size ranges bound} k o :
  MsgOk new Merge Serialize Size ranges bound -> 0 <= k -> 0 <= bound -> all_of ranges o ->
  0 <= size_if o (fun r => k + MessageSize (Size r)) <= k + 5 + bound.
Proof.
  intros Hok Hk Hb Ho. destruct o as [s|]; simpl; [|lia]. pose proof (MessageSize_bound (Size s)).
  pose proof (mo_bound _ _ _ _ _ _ Hok s (Ho s eq_refl)). lia.
Qed.

End nested.

(** A field of a message that was set field by field. *)
Lemma set_if_other {A B T} (get : T -> B) (o : option A) set m :
  (forall a m, get (set a m) = get m) -> get (set_if o set m) = get m.
Proof. intros Hs. destruct o; simpl; auto. Qed.
Lemma set_if_own {A T} (get : T -> option A) (o : option A) set m :
  (forall a m, get (set a m) = Some a) -> get m = None -> get (set_if o set m) = o.
Proof. intros Hs Hm. destruct o; simpl; auto. Qed.
Ltac solve_proj :=
  first [ reflexivity | assumption
        | apply set_if_own; [intros; reflexivity|solve_proj]
        | etransitivity; [apply set_if_other; intros; reflexivity|]; solve_proj ].

#[export] Hint Resolve mo_total mo_length : wire.

(** A field that holds a message: [ok] is what its class promises. *)
Tactic Notation "read_sub" constr(set) constr(ok) constr(Hrange) :=
  eapply (reads_if_message _ _ _ _ _ _ set); [exact ok|lia|exact Hrange| |solve_case|]; [solve_proj|].

(** ** Messages of one number

    Many messages have a single field, [uint32], of number 1; their generated
    classes differ in the name and in whether the field is required. *)

Section one_number.
Context `{WireLib}.

Record U32Msg := mkU32Msg { u32_ : option Z; u32_unknown : UnknownFieldSet }.
#[global] Instance eta_U32Msg : Eta U32Msg := fun r => mkU32Msg (u32_ r) (u32_unknown r).

Definition U32Msg_new : U32Msg := mkU32Msg None unknown_new.
Definition set_u32 (v : Z) (m : U32Msg) := m <| u32_ := Some v |>.
Definition u32_set_unknown (u : UnknownFieldSet) (m : U32Msg) := m <| u32_unknown := u |>.

Definition U32Msg_cases : list (Case U32Msg) := [mkCase 1 8 (read_with ReadUInt32 set_u32) [] true].
Definition U32Msg_MergePartial : U32Msg -> bytes -> Res (U32Msg * bool) :=
  MergePartial u32_unknown u32_set_unknown 127 U32Msg_cases.
Definition U32Msg_Serialize (m : U32Msg) : bytes := write_if (u32_ m) (WriteUInt32 1) ++ write_unknown (u32_unknown m).
Definition U32Msg_ByteSize (m : U32Msg) : Z := size_if (u32_ m) (fun v => 1 + UInt32Size v) + unknown_size (u32_unknown m).
Definition U32Msg_MergeFrom (from m : U32Msg) : U32Msg :=
  set_if (u32_ from) set_u32 m <| u32_unknown ::= fun u => unknown_MergeFrom u (u32_unknown from) |>.
Definition U32Msg_IsInitialized (required : bool) (m : U32Msg) : bool := negb required || bool_decide (is_Some (u32_ m)).

Context {tag_bytes varint : Z -> bytes} {L : WireLaws tag_bytes varint}.

Record u32_ranges (m : U32Msg) : Prop := { r_u32 : all_of in_u32 (u32_ m); r_u32_known : u32_unknown m = unknown_new }.

Lemma U32Msg_table : table_ok 127 U32Msg_cases.
Proof. solve_table. Qed.

Lemma U32Msg_ok : MsgOk U32Msg_new U32Msg_MergePartial U32Msg_Serialize U32Msg_ByteSize u32_ranges 6.
Proof.
  split.
  - intros m b. eapply MergePartial_total; [laws|apply U32Msg_table].
  - intros m. unfold U32Msg_Serialize, U32Msg_ByteSize. solve_size.
  - intros m [_ Hk]. unfold U32Msg_ByteSize. rewrite Hk, unknown_size_new. pose proof (size_u32 1 (u32_ m)). lia.
  - intros m [Hr Hk]. eapply reads_all; [laws|apply U32Msg_table|]. unfold U32Msg_Serialize.
    rewrite Hk, write_unknown_new. read_uint32 set_u32 Hr.
    destruct m as [[] u]; simpl in Hk; subst u; apply reads_refl.
Qed.

Lemma U32Msg_copy m : U32Msg_MergeFrom m U32Msg_new = m.
Proof. unfold U32Msg_MergeFrom. destruct m as [[] u]; simpl; unfold setf; simpl; by rewrite unknown_MergeFrom_new. Qed.

End one_number.
