(* ===== verification/WireReference.v ===== *)
(** * A reference instance of the wire format

    Base-128 varints as the documentation of Protocol Buffers describes them. It
    shows that the laws the generated messages rely on can hold, and lets the
    examples of the development run on the generated code. *)

From S2P Require Import Prelude CString WireFormat.

Module Base128.

(** Seven bits a byte, the lowest first; all but the last have the eighth bit. *)
Fixpoint encode (fuel : nat) (v : Z) : bytes :=
  match fuel with
  | O => [v mod 128]
  | S fuel => if v <? 128 then [v] else (v mod 128 + 128) :: encode fuel (v / 128)
  end.
Fixpoint decode (fuel : nat) (b : bytes) : option (Z * bytes) :=
  match fuel, b with
  | S fuel, x :: b =>
      if x <? 128 then Some (x, b)
      else p ← decode fuel b; Some (x - 128 + 128 * fst p, snd p)
  | _, _ => None
  end.

(** Ten bytes hold 64 bits. *)
Definition varint (v : Z) : bytes := encode 9 v.
Definition read_varint (b : bytes) : option (Z * bytes) := decode 10 b.

Lemma decode_encode n v b :
  0 <= v < 128 ^ Z.of_nat (S n) -> decode (S n) (encode n v ++ b) = Some (v, b).
Proof.
  revert v. induction n as [|n IH]; intros v Hv.
  - simpl. rewrite Z.mod_small by lia. destruct (Z.ltb_spec v 128); [done|lia].
  - cbn [encode]. destruct (Z.ltb_spec v 128); [cbn; by rewrite (proj2 (Z.ltb_lt _ _))|].
    cbn [app]. remember (S n) as k eqn:Ek. cbn [decode].
    pose proof (Z.mod_pos_bound v 128 ltac:(lia)). rewrite (proj2 (Z.ltb_ge _ _)) by lia. subst k. rewrite IH.
    + cbn. f_equal. f_equal. pose proof (Z.div_mod v 128 ltac:(lia)). lia.
    + split; [apply Z.div_pos; lia|]. apply Z.div_lt_upper_bound; [lia|].
      replace (128 * 128 ^ Z.of_nat (S n)) with (128 ^ Z.of_nat (S (S n))); [lia|].
      rewrite (Nat2Z.inj_succ (S n)), Z.pow_succ_r by lia. lia.
Qed.

Lemma read_varint_wire v b : 0 <= v < 2 ^ 64 -> read_varint (varint v ++ b) = Some (v, b).
Proof. intros Hv. apply (decode_encode 9). change (128 ^ Z.of_nat 10) with (2 ^ 70). lia. Qed.

Lemma decode_less n b v b' : decode n b = Some (v, b') -> (length b' < length b)%nat.
Proof.
  revert b v b'. induction n as [|n IH]; intros [|x b] v b'; simpl; try done.
  destruct (x <? 128); [by intros [= _ <-]; lia|]. destruct (decode n b) as [[w c]|] eqn:E; simpl; [|done].
  intros [= _ <-]. apply IH in E. lia.
Qed.

Lemma length_encode n k v : (k <= n)%nat -> 0 <= v < 128 ^ Z.of_nat (S k) -> (1 <= length (encode n v) <= S k)%nat.
Proof.
  revert k v. induction n as [|n IH]; intros k v Hk Hv; [simpl; lia|]. cbn [encode].
  destruct (Z.ltb_spec v 128); [simpl; lia|]. destruct k as [|k]; [simpl in Hv; lia|].
  cbn [length]. assert (0 <= v / 128 < 128 ^ Z.of_nat (S k)) as Hd.
  { split; [apply Z.div_pos; lia|]. apply Z.div_lt_upper_bound; [lia|].
    rewrite (Nat2Z.inj_succ (S k)), Z.pow_succ_r in Hv by lia. lia. }
  pose proof (IH k (v / 128) ltac:(lia) Hd). lia.
Qed.

(** Two bytes of a number that does not fit in one. *)
Lemma length_varint_two v : 128 <= v < 2 ^ 14 -> length (varint v) = 2%nat.
Proof.
  intros Hv. unfold varint. cbn [encode]. destruct (Z.ltb_spec v 128); [lia|]. cbn [length].
  assert (v / 128 < 128) by (apply Z.div_lt_upper_bound; lia). by destruct (Z.ltb_spec (v / 128) 128); [|lia].
Qed.

(** A length and that many bytes. *)
Definition delimited (b : bytes) : option (bytes * bytes) :=
  p ← read_varint b;
  if (fst p <? 2 ^ 31) && (0 <=? fst p) && (fst p <=? Z.of_nat (length (snd p)))
  then Some (take (Z.to_nat (fst p)) (snd p), drop (Z.to_nat (fst p)) (snd p)) else None.

(** The value of a field of an unknown number: the bytes it has. *)
Definition skip_value (wire : Z) (b : bytes) : option bytes :=
  if wire =? 0 then snd <$> read_varint b
  else if wire =? 1 then if (8 <=? length b)%nat then Some (drop 8 b) else None
  else if wire =? 2 then snd <$> delimited b
  else if wire =? 5 then if (4 <=? length b)%nat then Some (drop 4 b) else None
  else None.

Definition read_tag (c : Z) (b : bytes) : TagRead :=
  match b with
  | [] => mkTagRead 0 false true []
  | _ => match read_varint b with
         | Some (t, r) => if u32 t =? 0 then mkTagRead 0 false false r else mkTagRead (u32 t) (u32 t <=? c) false r
         | None => mkTagRead 0 false false []
         end
  end.

#[export] Instance wire : WireLib := {
  UnknownFieldSet := bytes;
  unknown_new := [];
  unknown_empty u := bool_decide (u = []);
  AddVarint n v u := u ++ varint (8 * n) ++ varint (u64 v);
  unknown_MergeFrom u u' := u ++ u';
  SerializeUnknownFields u := u;
  ComputeUnknownFieldsSize u := Z.of_nat (length u);
  WriteEnum n v := varint (8 * n) ++ varint (u64 (i32 v));
  WriteUInt32 n v := varint (8 * n) ++ varint (u32 v);
  WriteUInt64 n v := varint (8 * n) ++ varint (u64 v);
  WriteString n s := varint (8 * n + 2) ++ varint (u32 (strlen s)) ++ of_str s;
  WriteMessage n k b := varint (8 * n + 2) ++ varint (u32 k) ++ b;
  EnumSize v := Z.of_nat (length (varint (u64 (i32 v))));
  UInt32Size v := Z.of_nat (length (varint (u32 v)));
  UInt64Size v := Z.of_nat (length (varint (u64 v)));
  StringSize s := Z.of_nat (length (varint (u32 (strlen s)))) + strlen s;
  MessageSize k := Z.of_nat (length (varint (u32 k))) + k;
  GetTagFieldNumber t := Z.shiftr t 3;
  GetTagWireType t := Z.land t 7;
  ReadTagWithCutoff := read_tag;
  ExpectTag t b := if bool_decide (take (length (varint t)) b = varint t) then Some (drop (length (varint t)) b) else None;
  ExpectAtEnd b := bool_decide (b = []);
  ReadEnum b := p ← read_varint b; Some (i32 (fst p), snd p);
  ReadUInt32 b := p ← read_varint b; Some (u32 (fst p), snd p);
  ReadUInt64 b := p ← read_varint b; Some (u64 (fst p), snd p);
  ReadString b := p ← delimited b; Some (to_str (fst p), snd p);
  ReadDelimited := delimited;
  SkipField t b u := r ← skip_value (Z.land t 7) b; Some (r, u ++ varint t ++ take (length b - length r) b);
  ReadMessageNoVirtual T Merge m b := res_bind (of_option (delimited b)) (fun p =>
    res_bind (Merge m (fst p)) (fun q => if snd q : bool then Ok (fst q, snd p) else Failed));
  ParseFromArray T new Merge IsInitialized b :=
    match Merge new b with Ok (m, e) => if e && IsInitialized m then Some m else None | _ => None end
}.

Lemma delimited_wire m b : Z.of_nat (length m) < 2 ^ 31 -> delimited (varint (Z.of_nat (length m)) ++ m ++ b) = Some (m, b).
Proof.
  intros Hm. unfold delimited. rewrite read_varint_wire by lia. cbn [mbind option_bind fst snd].
  rewrite length_app, (proj2 (Z.ltb_lt _ _)), !(proj2 (Z.leb_le _ _)) by lia. cbn [andb].
  by rewrite Nat2Z.id, take_app_length, drop_app_length.
Qed.

Lemma delimited_less b m b' : delimited b = Some (m, b') -> (length m <= length b /\ length b' <= length b)%nat.
Proof.
  unfold delimited. destruct (read_varint b) as [[v c]|] eqn:E; cbn; [|done]. apply decode_less in E.
  destruct (_ && _); [|done]. intros [= <- <-]. rewrite length_take, length_drop. lia.
Qed.

Lemma u64_wraps v : - 2 ^ 31 <= v < 2 ^ 31 -> i32 (u64 v) = v.
Proof.
  intros Hv. unfold i32, u64. destruct (decide (0 <= v)) as [Hp|Hn].
  - rewrite (Z.mod_small v), Z.mod_small; lia.
  - replace (v mod 2 ^ 64) with (v + 2 ^ 64) by (rewrite <- (Z.mod_small (v + 2 ^ 64) (2 ^ 64)) by lia;
      replace (v + 2 ^ 64) with (v + 1 * 2 ^ 64) by lia; by rewrite Z_mod_plus_full).
    replace (v + 2 ^ 64 + 2 ^ 31) with (v + 2 ^ 31 + 2 ^ 32 * 2 ^ 32) by lia.
    rewrite Z_mod_plus_full, Z.mod_small; lia.
Qed.

Lemma skip_less w b r : skip_value w b = Some r -> (length r <= length b)%nat.
Proof.
  unfold skip_value. repeat case_match; try done.
  - destruct (read_varint b) as [[v c]|] eqn:E; [|done]. intros [= <-]. apply decode_less in E. simpl. lia.
  - intros [= <-]. rewrite length_drop. lia.
  - destruct (delimited b) as [[v c]|] eqn:E; [|done]. intros [= <-]. apply delimited_less in E. simpl. lia.
  - intros [= <-]. rewrite length_drop. lia.
Qed.

Lemma mapped_less {A} (f : Z -> A) b v b' :
  (p ← read_varint b; Some (f (fst p), snd p)) = Some (v, b') -> (length b' <= length b)%nat.
Proof. destruct (read_varint b) as [[w c]|] eqn:E; cbn; [|done]. intros [= _ <-]. apply decode_less in E. lia. Qed.

Lemma read_tag_wire c t b : 0 < t < 2 ^ 14 -> read_tag c (varint t ++ b) = mkTagRead t (t <=? c) false b.
Proof.
  intros Ht. unfold read_tag. rewrite read_varint_wire, u32_small by lia.
  destruct (Z.eqb_spec t 0); [lia|]. destruct (varint t ++ b) eqn:E; [|done].
  pose proof (length_encode 9 1 t). apply (f_equal length) in E. rewrite length_app in E. unfold varint in E. simpl in *. lia.
Qed.

#[export] Instance wire_laws : WireLaws varint varint.
Proof.
  split; simpl; try done.
  - intros t Ht. pose proof (length_encode 9 0 t ltac:(lia) ltac:(simpl; lia)). unfold varint. lia.
  - intros t Ht. apply length_varint_two. lia.
  - intros v Hv. apply (length_encode 9 4); [lia|]. change (128 ^ Z.of_nat 5) with (2 ^ 35). lia.
  - intros v Hv. apply (length_encode 9 9); [lia|]. change (128 ^ Z.of_nat 10) with (2 ^ 70). lia.
  - apply read_tag_wire.
  - intros c b. unfold read_tag. destruct b as [|x b]; [by intros [? | ?]|].
    destruct (read_varint (x :: b)) as [[t r]|] eqn:E; [|by intros [? | ?]]. apply decode_less in E.
    by destruct (u32 t =? 0); intros _.
  - intros t b b'. case_bool_decide as E; [|done]. intros [= <-]. rewrite <- E at 1. by rewrite take_drop.
  - intros b. by case_bool_decide.
  - intros v b Hv. rewrite read_varint_wire by apply u64_bound. cbn. by rewrite u64_wraps.
  - intros v b Hv. rewrite read_varint_wire by lia. cbn. by rewrite u32_small by lia.
  - intros v b Hv. rewrite read_varint_wire by lia. cbn. by rewrite u64_small by lia.
  - intros s b Hs. unfold strlen in *. rewrite <- length_of_str in *. rewrite delimited_wire by lia. cbn. by rewrite to_str_of_str.
  - apply delimited_wire.
  - apply mapped_less.
  - apply mapped_less.
  - apply mapped_less.
  - intros b v b'. destruct (delimited b) as [[m c]|] eqn:E; cbn; [|done]. intros [= _ <-]. apply delimited_less in E. lia.
  - apply delimited_less.
  - intros n v b u Hn Hv. replace (Z.land (8 * n) 7) with 0.
    + unfold skip_value. cbn [Z.eqb]. rewrite read_varint_wire by done. cbn. by eexists.
    + symmetry. change 7 with (Z.ones 3). rewrite Z.land_ones by lia. change (2 ^ 3) with 8. rewrite Z.mul_comm. apply Z.mod_mul. lia.
  - intros t b u b' u'. destruct (skip_value _ b) as [r|] eqn:E; cbn; [|done]. intros [= <- _]. apply skip_less in E. lia.
Qed.

End Base128.
