(* ===== verification/GateMsg.v ===== *)
(** * The messages of the gate ([proto/gate], [proto/gen/gate])

    The messages as the gate, its clients and the agents read them, and the
    generated classes that put them on the wire. A field of a generated class
    is an option: whether its has-bit is set, and its value. The two writers of a
    class, to a stream and to an array, write the same bytes: [_Serialize]. *)

From S2P Require Import Prelude CString Extern WireFormat WireReference.

(** ** What the program reads *)

Definition EVENT_CONNECTED : Z := 1.
Definition EVENT_CLOSE : Z := 2.
Definition EVENT_DATA : Z := 3.
Definition CONNECTION_CLOSE_BY_DEFAULT : Z := 0.
Definition CONNECTION_CLOSE_BY_CLIENT : Z := 1.
Definition CONNECTION_CLOSE_STOP_SVR : Z := 2.
Definition CONNECTION_CLOSE_EXCEPTION : Z := 3.

Record GateSSMsg := mkGateSSMsg {
  ss_event : Z; ss_idx : Z; ss_uid : Z; ss_area : Z;
  ss_ip : option Z; ss_port : option Z; ss_reason : option Z
}.

Definition GATE_NEED_AUTH : Z := 1.
Definition GATE_AUTH_REQ : Z := 2.
Definition GATE_AUTH_RSP : Z := 3.

Record AuthReq := mkAuthReq { req_uid : Z; req_auth : Z; req_token : string; req_area : Z }.
Record GateCSMsg := mkGateCSMsg {
  cs_cmd : Z; cs_authreq : option AuthReq; cs_authrsp : option Z
}.
(** [authreq()] of a message without one is the default instance. *)
Definition authreq (m : GateCSMsg) : AuthReq := default (mkAuthReq 0 0 "" 0) (cs_authreq m).

(** ** The generated classes *)

Section generated.
Context `{WireLib}.

(** [GateSSMsg]. *)
Record GateSSMsg_pb := mkGateSSMsg_pb {
  event_ : option Z; idx_ : option Z; uid_ : option Z; area_ : option Z;
  ip_ : option Z; port_ : option Z; reason_ : option Z; ss_unknown : UnknownFieldSet
}.
#[global] Instance eta_GateSSMsg_pb : Eta GateSSMsg_pb := fun r =>
  mkGateSSMsg_pb (event_ r) (idx_ r) (uid_ r) (area_ r) (ip_ r) (port_ r) (reason_ r) (ss_unknown r).

Definition GateSSMsg_EventType_IsValid (value : Z) : bool := (value =? 1) || (value =? 2) || (value =? 3).

Definition GateSSMsg_new : GateSSMsg_pb := mkGateSSMsg_pb None None None None None None None unknown_new.

Definition set_event (v : Z) (m : GateSSMsg_pb) := m <| event_ := Some v |>.
Definition set_idx (v : Z) (m : GateSSMsg_pb) := m <| idx_ := Some v |>.
Definition set_uid (v : Z) (m : GateSSMsg_pb) := m <| uid_ := Some v |>.
Definition set_area (v : Z) (m : GateSSMsg_pb) := m <| area_ := Some v |>.
Definition set_ip (v : Z) (m : GateSSMsg_pb) := m <| ip_ := Some v |>.
Definition set_port (v : Z) (m : GateSSMsg_pb) := m <| port_ := Some v |>.
Definition set_reason (v : Z) (m : GateSSMsg_pb) := m <| reason_ := Some v |>.
Definition ss_set_unknown (u : UnknownFieldSet) (m : GateSSMsg_pb) := m <| ss_unknown := u |>.

Definition GateSSMsg_cases : list (Case GateSSMsg_pb) := [
  mkCase 1 8 (read_enum GateSSMsg_EventType_IsValid set_event
                (fun v m => m <| ss_unknown ::= AddVarint 1 v |>)) [16] false;
  mkCase 2 16 (read_with ReadUInt32 set_idx) [24] false;
  mkCase 3 24 (read_with ReadUInt64 set_uid) [32] false;
  mkCase 4 32 (read_with ReadUInt32 set_area) [160] false;
  mkCase 20 160 (read_with ReadUInt32 set_ip) [168] false;
  mkCase 21 168 (read_with ReadUInt32 set_port) [176] false;
  mkCase 22 176 (read_with ReadUInt32 set_reason) [] true
].
Definition GateSSMsg_MergePartial : GateSSMsg_pb -> bytes -> Res (GateSSMsg_pb * bool) :=
  MergePartial ss_unknown ss_set_unknown 16383 GateSSMsg_cases.

Definition GateSSMsg_Serialize (m : GateSSMsg_pb) : bytes :=
  write_if (event_ m) (WriteEnum 1) ++
  write_if (idx_ m) (WriteUInt32 2) ++
  write_if (uid_ m) (WriteUInt64 3) ++
  write_if (area_ m) (WriteUInt32 4) ++
  write_if (ip_ m) (WriteUInt32 20) ++
  write_if (port_ m) (WriteUInt32 21) ++
  write_if (reason_ m) (WriteUInt32 22) ++
  write_unknown (ss_unknown m).

Definition GateSSMsg_ByteSize (m : GateSSMsg_pb) : Z :=
  size_if (event_ m) (fun v => 1 + EnumSize v) +
  size_if (idx_ m) (fun v => 1 + UInt32Size v) +
  size_if (uid_ m) (fun v => 1 + UInt64Size v) +
  size_if (area_ m) (fun v => 1 + UInt32Size v) +
  size_if (ip_ m) (fun v => 2 + UInt32Size v) +
  size_if (port_ m) (fun v => 2 + UInt32Size v) +
  size_if (reason_ m) (fun v => 2 + UInt32Size v) +
  unknown_size (ss_unknown m).

Definition GateSSMsg_MergeFrom (from m : GateSSMsg_pb) : GateSSMsg_pb :=
  let m := set_if (event_ from) set_event m in
  let m := set_if (idx_ from) set_idx m in
  let m := set_if (uid_ from) set_uid m in
  let m := set_if (area_ from) set_area m in
  let m := set_if (ip_ from) set_ip m in
  let m := set_if (port_ from) set_port m in
  let m := set_if (reason_ from) set_reason m in
  m <| ss_unknown ::= fun u => unknown_MergeFrom u (ss_unknown from) |>.

(** The four required fields. *)
Definition GateSSMsg_IsInitialized (m : GateSSMsg_pb) : bool :=
  bool_decide (is_Some (event_ m)) && bool_decide (is_Some (idx_ m)) && bool_decide (is_Some (uid_ m))
  && bool_decide (is_Some (area_ m)).

Definition GateSSMsg_ParseFromArray : bytes -> option GateSSMsg_pb :=
  ParseFromArray GateSSMsg_new GateSSMsg_MergePartial GateSSMsg_IsInitialized.

(** [AuthReq]. *)
Record AuthReq_pb := mkAuthReq_pb {
  req_uid_ : option Z; auth_ : option Z; token_ : option string; req_area_ : option Z; req_unknown : UnknownFieldSet
}.
#[global] Instance eta_AuthReq_pb : Eta AuthReq_pb := fun r =>
  mkAuthReq_pb (req_uid_ r) (auth_ r) (token_ r) (req_area_ r) (req_unknown r).

Definition AuthReq_new : AuthReq_pb := mkAuthReq_pb None None None None unknown_new.
Definition req_set_uid (v : Z) (m : AuthReq_pb) := m <| req_uid_ := Some v |>.
Definition set_auth (v : Z) (m : AuthReq_pb) := m <| auth_ := Some v |>.
Definition set_token (v : string) (m : AuthReq_pb) := m <| token_ := Some v |>.
Definition req_set_area (v : Z) (m : AuthReq_pb) := m <| req_area_ := Some v |>.
Definition req_set_unknown (u : UnknownFieldSet) (m : AuthReq_pb) := m <| req_unknown := u |>.

(** [VerifyUTF8StringNamedField] only logs. *)
Definition AuthReq_cases : list (Case AuthReq_pb) := [
  mkCase 1 8 (read_with ReadUInt64 req_set_uid) [16] false;
  mkCase 2 16 (read_with ReadUInt32 set_auth) [26] false;
  mkCase 3 26 (read_with ReadString set_token) [32] false;
  mkCase 4 32 (read_with ReadUInt32 req_set_area) [] true
].
Definition AuthReq_MergePartial : AuthReq_pb -> bytes -> Res (AuthReq_pb * bool) :=
  MergePartial req_unknown req_set_unknown 127 AuthReq_cases.

Definition AuthReq_Serialize (m : AuthReq_pb) : bytes :=
  write_if (req_uid_ m) (WriteUInt64 1) ++
  write_if (auth_ m) (WriteUInt32 2) ++
  write_if (token_ m) (WriteString 3) ++
  write_if (req_area_ m) (WriteUInt32 4) ++
  write_unknown (req_unknown m).

Definition AuthReq_ByteSize (m : AuthReq_pb) : Z :=
  size_if (req_uid_ m) (fun v => 1 + UInt64Size v) +
  size_if (auth_ m) (fun v => 1 + UInt32Size v) +
  size_if (token_ m) (fun v => 1 + StringSize v) +
  size_if (req_area_ m) (fun v => 1 + UInt32Size v) +
  unknown_size (req_unknown m).

Definition AuthReq_MergeFrom (from m : AuthReq_pb) : AuthReq_pb :=
  let m := set_if (req_uid_ from) req_set_uid m in
  let m := set_if (auth_ from) set_auth m in
  let m := set_if (token_ from) set_token m in
  let m := set_if (req_area_ from) req_set_area m in
  m <| req_unknown ::= fun u => unknown_MergeFrom u (req_unknown from) |>.

Definition AuthReq_IsInitialized (m : AuthReq_pb) : bool :=
  bool_decide (is_Some (req_uid_ m)) && bool_decide (is_Some (auth_ m)).

(** [AuthRsp]: one number, [result], which is required. *)
Definition AuthRsp_pb : Type := U32Msg.
Definition AuthRsp_new : AuthRsp_pb := U32Msg_new.
Definition AuthRsp_MergePartial : AuthRsp_pb -> bytes -> Res (AuthRsp_pb * bool) := U32Msg_MergePartial.
Definition AuthRsp_Serialize : AuthRsp_pb -> bytes := U32Msg_Serialize.
Definition AuthRsp_ByteSize : AuthRsp_pb -> Z := U32Msg_ByteSize.
Definition AuthRsp_MergeFrom : AuthRsp_pb -> AuthRsp_pb -> AuthRsp_pb := U32Msg_MergeFrom.
Definition AuthRsp_IsInitialized : AuthRsp_pb -> bool := U32Msg_IsInitialized true.

(** [GateCSMsg]. A message written inside another has its size before it. *)
Record GateCSMsg_pb := mkGateCSMsg_pb {
  cmd_ : option Z; authreq_ : option AuthReq_pb; authrsp_ : option AuthRsp_pb; cs_unknown : UnknownFieldSet
}.
#[global] Instance eta_GateCSMsg_pb : Eta GateCSMsg_pb := fun r =>
  mkGateCSMsg_pb (cmd_ r) (authreq_ r) (authrsp_ r) (cs_unknown r).

Definition GateCSMsg_new : GateCSMsg_pb := mkGateCSMsg_pb None None None unknown_new.
Definition set_cmd (v : Z) (m : GateCSMsg_pb) := m <| cmd_ := Some v |>.
Definition set_authreq (v : AuthReq_pb) (m : GateCSMsg_pb) := m <| authreq_ := Some v |>.
Definition set_authrsp (v : AuthRsp_pb) (m : GateCSMsg_pb) := m <| authrsp_ := Some v |>.
Definition cs_set_unknown (u : UnknownFieldSet) (m : GateCSMsg_pb) := m <| cs_unknown := u |>.

Definition GateCSMsg_cases : list (Case GateCSMsg_pb) := [
  mkCase 1 8 (read_with ReadUInt32 set_cmd) [18] false;
  mkCase 2 18 (read_message AuthReq_MergePartial authreq_ AuthReq_new set_authreq) [26] false;
  mkCase 3 26 (read_message AuthRsp_MergePartial authrsp_ AuthRsp_new set_authrsp) [] true
].
Definition GateCSMsg_MergePartial : GateCSMsg_pb -> bytes -> Res (GateCSMsg_pb * bool) :=
  MergePartial cs_unknown cs_set_unknown 127 GateCSMsg_cases.

Definition GateCSMsg_Serialize (m : GateCSMsg_pb) : bytes :=
  write_if (cmd_ m) (WriteUInt32 1) ++
  write_if (authreq_ m) (fun r => WriteMessage 2 (AuthReq_ByteSize r) (AuthReq_Serialize r)) ++
  write_if (authrsp_ m) (fun r => WriteMessage 3 (AuthRsp_ByteSize r) (AuthRsp_Serialize r)) ++
  write_unknown (cs_unknown m).

Definition GateCSMsg_ByteSize (m : GateCSMsg_pb) : Z :=
  size_if (cmd_ m) (fun v => 1 + UInt32Size v) +
  size_if (authreq_ m) (fun r => 1 + MessageSize (AuthReq_ByteSize r)) +
  size_if (authrsp_ m) (fun r => 1 + MessageSize (AuthRsp_ByteSize r)) +
  unknown_size (cs_unknown m).

Definition GateCSMsg_MergeFrom (from m : GateCSMsg_pb) : GateCSMsg_pb :=
  let m := set_if (cmd_ from) set_cmd m in
  let m := set_if (authreq_ from) (merge_sub AuthReq_MergeFrom authreq_ AuthReq_new set_authreq) m in
  let m := set_if (authrsp_ from) (merge_sub AuthRsp_MergeFrom authrsp_ AuthRsp_new set_authrsp) m in
  m <| cs_unknown ::= fun u => unknown_MergeFrom u (cs_unknown from) |>.

Definition GateCSMsg_IsInitialized (m : GateCSMsg_pb) : bool :=
  bool_decide (is_Some (cmd_ m))
  && match authreq_ m with Some r => AuthReq_IsInitialized r | None => true end
  && match authrsp_ m with Some r => AuthRsp_IsInitialized r | None => true end.

Definition GateCSMsg_ParseFromArray : bytes -> option GateCSMsg_pb :=
  ParseFromArray GateCSMsg_new GateCSMsg_MergePartial GateCSMsg_IsInitialized.

End generated.

(** ** They read what they write *)

Section generated_facts.
Context `{WireLib} {tag_bytes varint : Z -> bytes} {L : WireLaws tag_bytes varint}.

Lemma GateSSMsg_table : table_ok 16383 GateSSMsg_cases.
Proof. solve_table. Qed.

(** A message of the gate with its fields in range. *)
Record ss_ranges (m : GateSSMsg_pb) : Prop := {
  r_event : all_of (fun v => GateSSMsg_EventType_IsValid v = true) (event_ m);
  r_idx : all_of in_u32 (idx_ m); r_uid : all_of in_u64 (uid_ m); r_area : all_of in_u32 (area_ m);
  r_ip : all_of in_u32 (ip_ m); r_port : all_of in_u32 (port_ m); r_reason : all_of in_u32 (reason_ m);
  r_known : ss_unknown m = unknown_new
}.

Lemma event_valid v : GateSSMsg_EventType_IsValid v = true -> 1 <= v <= 3.
Proof. unfold GateSSMsg_EventType_IsValid. lia. Qed.

(** The fields after the event. *)
Definition ss_rest (m : GateSSMsg_pb) : bytes :=
  write_if (idx_ m) (WriteUInt32 2) ++ write_if (uid_ m) (WriteUInt64 3) ++ write_if (area_ m) (WriteUInt32 4) ++
  write_if (ip_ m) (WriteUInt32 20) ++ write_if (port_ m) (WriteUInt32 21) ++ write_if (reason_ m) (WriteUInt32 22).

Abbreviation ss_reads := (reads ss_unknown ss_set_unknown 16383 GateSSMsg_cases).

Lemma ss_rest_reads m e u b :
  ss_ranges m -> ss_reads (GateSSMsg_new <| event_ := e |> <| ss_unknown := u |>) (ss_rest m ++ b)
    (m <| event_ := e |> <| ss_unknown := u |>) b.
Proof.
  intros [_ Hi Hu Ha Hip Hpo Hr _]. unfold ss_rest. rewrite <- !app_assoc.
  read_uint32 set_idx Hi.
  read_uint64 set_uid Hu.
  read_uint32 set_area Ha.
  read_uint32 set_ip Hip.
  read_uint32 set_port Hpo.
  read_uint32 set_reason Hr.
  destruct m as [[] [] [] [] [] [] [] w]; apply reads_refl.
Qed.

Lemma GateSSMsg_Serialize_rest m :
  ss_unknown m = unknown_new -> GateSSMsg_Serialize m = write_if (event_ m) (WriteEnum 1) ++ ss_rest m ++ [].
Proof. intros Hk. unfold GateSSMsg_Serialize, ss_rest. by rewrite Hk, write_unknown_new, <- !app_assoc. Qed.

Lemma GateSSMsg_reads_before m b :
  ss_ranges m -> ss_reads GateSSMsg_new (write_if (event_ m) (WriteEnum 1) ++ ss_rest m ++ b) m b.
Proof.
  intros Hm. eapply (reads_if _ _ _ _ _ _ set_event).
  { intros v E. pose proof (r_event _ Hm v E) as Hv. pose proof (event_valid v Hv).
    eapply reads_enum; [laws|lia|exact Hv|solve_case]. }
  pose proof (ss_rest_reads m (event_ m) unknown_new b Hm) as Hrest. destruct Hm as [_ _ _ _ _ _ _ Hk].
  destruct m as [[] i w a ip po re u]; simpl in Hk; subst u; exact Hrest.
Qed.

Lemma GateSSMsg_reads m : ss_ranges m -> GateSSMsg_MergePartial GateSSMsg_new (GateSSMsg_Serialize m) = Ok (m, true).
Proof.
  intros Hm. eapply reads_all; [laws|apply GateSSMsg_table|].
  rewrite GateSSMsg_Serialize_rest by apply Hm. by apply GateSSMsg_reads_before.
Qed.

Lemma GateSSMsg_reads_bad_event m v :
  ss_ranges m -> event_ m = None -> - 2 ^ 31 <= v < 2 ^ 31 -> GateSSMsg_EventType_IsValid v = false ->
  GateSSMsg_MergePartial GateSSMsg_new (GateSSMsg_Serialize (set_event v m))
    = Ok (m <| ss_unknown := AddVarint 1 v unknown_new |>, true).
Proof.
  intros Hm He Hv Hval. eapply reads_all; [laws|apply GateSSMsg_table|].
  rewrite GateSSMsg_Serialize_rest by apply Hm. simpl.
  eapply reads_trans; [eapply reads_enum_invalid; [laws|done|exact Hval|solve_case]|].
  pose proof (ss_rest_reads m None (AddVarint 1 v unknown_new) [] Hm) as Hrest.
  destruct m as [e i w a ip po re u]; simpl in He; subst e. exact Hrest.
Qed.

Lemma GateSSMsg_reads_skip m n v :
  ss_ranges m -> 0 < n < 2 ^ 11 -> in_u32 v -> n ∉ c_number <$> GateSSMsg_cases ->
  exists u, GateSSMsg_MergePartial GateSSMsg_new (GateSSMsg_Serialize m ++ WriteUInt32 n v) = Ok (m <| ss_unknown := u |>, true).
Proof.
  intros Hm Hn Hv Hcase.
  destruct (reads_skip ss_unknown ss_set_unknown 16383 GateSSMsg_cases n v m [] ltac:(lia) Hv) as [u Hu].
  { by apply switch_absent. }
  exists u. eapply reads_all; [laws|apply GateSSMsg_table|].
  rewrite GateSSMsg_Serialize_rest, <- !app_assoc by apply Hm.
  eapply reads_trans; [by apply GateSSMsg_reads_before|]. rewrite app_nil_r in Hu. exact Hu.
Qed.

Lemma AuthReq_table : table_ok 127 AuthReq_cases.
Proof. solve_table. Qed.

Record req_ranges (m : AuthReq_pb) : Prop := {
  rq_uid : all_of in_u64 (req_uid_ m); rq_auth : all_of in_u32 (auth_ m);
  rq_token : all_of (fun s => strlen s <= 2 ^ 30) (token_ m); rq_area : all_of in_u32 (req_area_ m);
  rq_known : req_unknown m = unknown_new
}.

Lemma AuthReq_ok :
  MsgOk AuthReq_new AuthReq_MergePartial AuthReq_Serialize AuthReq_ByteSize req_ranges (2 ^ 30 + 40).
Proof.
  split.
  - intros m b. eapply MergePartial_total; [laws|apply AuthReq_table].
  - intros m. unfold AuthReq_Serialize, AuthReq_ByteSize. solve_size.
  - intros m Hm. unfold AuthReq_ByteSize. rewrite (rq_known _ Hm), unknown_size_new.
    pose proof (size_u64 1 (req_uid_ m)). pose proof (size_u32 1 (auth_ m)). pose proof (size_u32 1 (req_area_ m)).
    pose proof (size_string 1 (2 ^ 30) (token_ m) ltac:(lia) ltac:(lia) (rq_token _ Hm)). lia.
  - intros m [Hu Ha Ht Har Hk]. eapply reads_all; [laws|apply AuthReq_table|]. unfold AuthReq_Serialize.
    rewrite Hk, write_unknown_new.
    assert (all_of (fun s => strlen s < 2 ^ 31) (token_ m)) as Ht' by (intros s E; specialize (Ht s E); simpl in Ht; lia).
    read_uint64 req_set_uid Hu. read_uint32 set_auth Ha. read_string set_token Ht'. read_uint32 req_set_area Har.
    destruct m as [[] [] [] [] u]; simpl in Hk; subst u; apply reads_refl.
Qed.

Lemma AuthRsp_ok : MsgOk AuthRsp_new AuthRsp_MergePartial AuthRsp_Serialize AuthRsp_ByteSize u32_ranges 6.
Proof. exact U32Msg_ok. Qed.

Hint Resolve AuthReq_ok AuthRsp_ok : wire.

Lemma GateCSMsg_table : table_ok 127 GateCSMsg_cases.
Proof. solve_table. Qed.

Record cs_ranges (m : GateCSMsg_pb) : Prop := {
  cr_cmd : all_of in_u32 (cmd_ m); cr_req : all_of req_ranges (authreq_ m); cr_rsp : all_of u32_ranges (authrsp_ m);
  cr_known : cs_unknown m = unknown_new
}.

(** ** They announce the size they write *)

Lemma GateSSMsg_length m : Z.of_nat (length (GateSSMsg_Serialize m)) = GateSSMsg_ByteSize m.
Proof. unfold GateSSMsg_Serialize, GateSSMsg_ByteSize. solve_size. Qed.
Lemma GateCSMsg_length m : Z.of_nat (length (GateCSMsg_Serialize m)) = GateCSMsg_ByteSize m.
Proof. unfold GateCSMsg_Serialize, GateCSMsg_ByteSize. solve_size. Qed.

(** ** Bounds *)

(** A message of the gate without unknown fields is at most 55 bytes long. *)
Lemma GateSSMsg_bound m : ss_unknown m = unknown_new -> 0 <= GateSSMsg_ByteSize m <= 55.
Proof.
  intros Hk. unfold GateSSMsg_ByteSize. rewrite Hk, unknown_size_new.
  assert (0 <= size_if (event_ m) (fun v => 1 + EnumSize v) <= 11).
  { apply size_if_bound; [lia|]. intros v. pose proof (EnumSize_bound v). lia. }
  pose proof (size_u32 1 (idx_ m)). pose proof (size_u64 1 (uid_ m)). pose proof (size_u32 1 (area_ m)).
  pose proof (size_u32 2 (ip_ m)). pose proof (size_u32 2 (port_ m)). pose proof (size_u32 2 (reason_ m)). lia.
Qed.

Lemma GateCSMsg_reads m : cs_ranges m -> GateCSMsg_MergePartial GateCSMsg_new (GateCSMsg_Serialize m) = Ok (m, true).
Proof.
  intros [Hc Hq Hs Hk]. eapply reads_all; [laws|apply GateCSMsg_table|]. unfold GateCSMsg_Serialize.
  rewrite Hk, write_unknown_new. read_uint32 set_cmd Hc.
  read_sub set_authreq AuthReq_ok Hq. read_sub set_authrsp AuthRsp_ok Hs.
  destruct m as [[] [] [] u]; simpl in Hk; subst u; apply reads_refl.
Qed.

(** ** Copies *)

(** [CopyFrom] clears the message and merges the other one into it: it is the
    other one. *)
Lemma GateSSMsg_copy m : GateSSMsg_MergeFrom m GateSSMsg_new = m.
Proof. unfold GateSSMsg_MergeFrom. destruct m as [[] [] [] [] [] [] [] u]; simpl; unfold setf; simpl; by rewrite unknown_MergeFrom_new. Qed.
Lemma AuthReq_copy m : AuthReq_MergeFrom m AuthReq_new = m.
Proof. unfold AuthReq_MergeFrom. destruct m as [[] [] [] [] u]; simpl; unfold setf; simpl; by rewrite unknown_MergeFrom_new. Qed.
Lemma AuthRsp_copy m : AuthRsp_MergeFrom m AuthRsp_new = m.
Proof. apply U32Msg_copy. Qed.
Lemma GateCSMsg_copy m : GateCSMsg_MergeFrom m GateCSMsg_new = m.
Proof.
  unfold GateCSMsg_MergeFrom. destruct m as [[] [q|] [r|] u]; simpl; unfold merge_sub, set_authreq, set_authrsp; simpl;
    rewrite ?AuthReq_copy, ?AuthRsp_copy; unfold setf; simpl; by rewrite ?unknown_MergeFrom_new.
Qed.

End generated_facts.

(** ** The codecs of the program *)

Section codecs.
Context `{WireLib}.

(** The message built with the setters of its fields, and read with the
    accessors: a field that is not set reads as its default. *)
Definition ss_build (x : GateSSMsg) : GateSSMsg_pb :=
  mkGateSSMsg_pb (Some (ss_event x)) (Some (ss_idx x)) (Some (ss_uid x)) (Some (ss_area x))
    (ss_ip x) (ss_port x) (ss_reason x) unknown_new.
Definition ss_view (m : GateSSMsg_pb) : GateSSMsg :=
  mkGateSSMsg (default 1 (event_ m)) (default 0 (idx_ m)) (default 0 (uid_ m)) (default 0 (area_ m))
    (ip_ m) (port_ m) (reason_ m).

Definition req_build (x : AuthReq) : AuthReq_pb :=
  mkAuthReq_pb (Some (req_uid x)) (Some (req_auth x)) (Some (req_token x)) (Some (req_area x)) unknown_new.
Definition req_view (m : AuthReq_pb) : AuthReq :=
  mkAuthReq (default 0 (req_uid_ m)) (default 0 (auth_ m)) (default "" (token_ m)) (default 0 (req_area_ m)).
Definition rsp_build (x : Z) : AuthRsp_pb := mkU32Msg (Some x) unknown_new.
Definition rsp_view (m : AuthRsp_pb) : Z := default 0 (u32_ m).
Definition cs_build (x : GateCSMsg) : GateCSMsg_pb :=
  mkGateCSMsg_pb (Some (cs_cmd x)) (req_build <$> cs_authreq x) (rsp_build <$> cs_authrsp x) unknown_new.
Definition cs_view (m : GateCSMsg_pb) : GateCSMsg :=
  mkGateCSMsg (default 0 (cmd_ m)) (req_view <$> authreq_ m) (rsp_view <$> authrsp_ m).

Definition GateSSMsg_codec : Codec GateSSMsg := {|
  ByteSize x := GateSSMsg_ByteSize (ss_build x);
  serialize x := GateSSMsg_Serialize (ss_build x);
  parse b := ss_view <$> GateSSMsg_ParseFromArray b;
  representable x := 1 <= ss_event x <= 3 /\ in_u32 (ss_idx x) /\ in_u64 (ss_uid x) /\ in_u32 (ss_area x) /\
    all_of in_u32 (ss_ip x) /\ all_of in_u32 (ss_port x) /\ all_of in_u32 (ss_reason x)
|}.

Definition GateCSMsg_codec : Codec GateCSMsg := {|
  ByteSize x := GateCSMsg_ByteSize (cs_build x);
  serialize x := GateCSMsg_Serialize (cs_build x);
  parse b := cs_view <$> GateCSMsg_ParseFromArray b;
  representable x := in_u32 (cs_cmd x) /\ all_of in_u32 (cs_authrsp x) /\
    all_of (fun r => in_u64 (req_uid r) /\ in_u32 (req_auth r) /\ strlen (req_token r) <= 2 ^ 30 /\ in_u32 (req_area r))
      (cs_authreq x)
|}.

Context {tag_bytes varint : Z -> bytes} {L : WireLaws tag_bytes varint}.

Lemma ss_in_range x : @representable _ GateSSMsg_codec x -> ss_ranges (ss_build x).
Proof.
  intros (He & Hi & Hu & Ha & Hip & Hpo & Hr). split; simpl; try apply all_of_Some; try done.
  unfold GateSSMsg_EventType_IsValid. lia.
Qed.

(** The generated code of the messages between gate and agents is a codec:
    what it writes has the announced size, and a representable message is read
    back as it was. *)
Theorem GateSSMsg_codec_laws : @CodecLaws GateSSMsg GateSSMsg_codec.
Proof.
  split; [|intros x; apply GateSSMsg_length].
  intros x Hx. simpl. unfold GateSSMsg_ParseFromArray.
  rewrite ParseFromArray_wire, GateSSMsg_reads by (by apply ss_in_range). by destruct x.
Qed.

(** The generated code of the messages between gate and clients is a codec. *)
Theorem GateCSMsg_codec_laws : @CodecLaws GateCSMsg GateCSMsg_codec.
Proof.
  split; [|intros x; apply GateCSMsg_length].
  intros x (Hc & Hs & Hq). simpl. unfold GateCSMsg_ParseFromArray. rewrite ParseFromArray_wire, GateCSMsg_reads.
  - by destruct x as [c [[]|] [s|]].
  - split; simpl; [by apply all_of_Some| | |done].
    + apply all_of_fmap. intros r Er. destruct (Hq r Er) as (? & ? & ? & ?). split; simpl; try apply all_of_Some; done.
    + apply all_of_fmap. intros r Er. split; simpl; [|done]. apply all_of_Some. by apply Hs.
Qed.

(** The bytes of an event are at most 55; those of an answer to a login at most 18. *)
Lemma ss_size_bound x : 0 <= @ByteSize _ GateSSMsg_codec x <= 55.
Proof. by apply GateSSMsg_bound. Qed.

(** The four required fields have a byte of tag and at least one of value. *)
Lemma GateSSMsg_least x : 8 <= GateSSMsg_ByteSize (ss_build x).
Proof.
  unfold GateSSMsg_ByteSize. simpl. rewrite unknown_size_new. pose proof (EnumSize_bound (ss_event x)).
  pose proof (UInt32Size_bound (ss_idx x)). pose proof (UInt64Size_bound (ss_uid x)).
  pose proof (UInt32Size_bound (ss_area x)). pose proof (size_u32 2 (ss_ip x)).
  pose proof (size_u32 2 (ss_port x)). pose proof (size_u32 2 (ss_reason x)). lia.
Qed.

Lemma cs_answer_bound c r : 0 < @ByteSize _ GateCSMsg_codec (mkGateCSMsg c None (Some r)) <= 18.
Proof.
  simpl. unfold GateCSMsg_ByteSize. simpl. rewrite unknown_size_new. pose proof (UInt32Size_bound c).
  assert (0 <= AuthRsp_ByteSize (rsp_build r) <= 6).
  { unfold AuthRsp_ByteSize, U32Msg_ByteSize. simpl. rewrite unknown_size_new. pose proof (UInt32Size_bound r). lia. }
  pose proof (MessageSize_bound (AuthRsp_ByteSize (rsp_build r))). lia.
Qed.

(** C34. The event of a representable message is read back, its bytes are the
    announced size, and they are at most 55: far below what a frame of the
    channel takes. *)
Theorem gate_event_bounds x :
  @representable _ GateSSMsg_codec x ->
  ss_view <$> GateSSMsg_ParseFromArray (GateSSMsg_Serialize (ss_build x)) = Some x /\
  Z.of_nat (length (GateSSMsg_Serialize (ss_build x))) = GateSSMsg_ByteSize (ss_build x) /\
  8 <= GateSSMsg_ByteSize (ss_build x) <= 55.
Proof.
  intros Hx. split; [exact (parse_serialize (CodecLaws := GateSSMsg_codec_laws) x Hx)|].
  split; [apply GateSSMsg_length|]. split; [|by apply ss_size_bound]. by apply GateSSMsg_least.
Qed.

(** C39. A gate message whose event is none of the three is refused: the reader keeps
    the event as an unknown field, and the message lacks a required one. *)
Theorem unknown_event_refused m v :
  ss_ranges m -> event_ m = None -> - 2 ^ 31 <= v < 2 ^ 31 -> GateSSMsg_EventType_IsValid v = false ->
  GateSSMsg_MergePartial GateSSMsg_new (GateSSMsg_Serialize (set_event v m))
    = Ok (m <| ss_unknown := AddVarint 1 v unknown_new |>, true) /\
  GateSSMsg_ParseFromArray (GateSSMsg_Serialize (set_event v m)) = None.
Proof.
  intros Hm He Hv Hval. assert (GateSSMsg_MergePartial GateSSMsg_new (GateSSMsg_Serialize (set_event v m))
    = Ok (m <| ss_unknown := AddVarint 1 v unknown_new |>, true)) as Hmerge by by apply GateSSMsg_reads_bad_event.
  split; [done|]. unfold GateSSMsg_ParseFromArray. rewrite ParseFromArray_wire, Hmerge. simpl.
  unfold GateSSMsg_IsInitialized. simpl. by rewrite He.
Qed.

(** A gate message with a number in a field this version does not know, as a
    later version of the protocol may have, is read: the field is skipped. *)
Theorem newer_event_accepted x n v :
  @representable _ GateSSMsg_codec x -> 0 < n < 2 ^ 11 -> n ∉ c_number <$> GateSSMsg_cases -> in_u32 v ->
  ss_view <$> GateSSMsg_ParseFromArray (GateSSMsg_Serialize (ss_build x) ++ WriteUInt32 n v) = Some x.
Proof.
  intros Hx Hn Hcase Hv. pose proof (ss_in_range x Hx) as Hr.
  destruct (GateSSMsg_reads_skip (ss_build x) n v Hr ltac:(lia) Hv Hcase) as [u E].
  unfold GateSSMsg_ParseFromArray. rewrite ParseFromArray_wire, E. by destruct x.
Qed.

End codecs.

(** ** Examples on the reference wire format *)

Module GateMsgWitness.
Import Base128.

Definition event_data : GateSSMsg := mkGateSSMsg EVENT_DATA 7 300 2 None None None.

Lemma event_data_ok : @representable _ GateSSMsg_codec event_data.
Proof. simpl. unfold in_u32, in_u64. split_and!; try lia; done. Defined.

(** Nine bytes: four tags, and a number of two bytes among the values. *)
Lemma gate_event_bounds_witness :
  GateSSMsg_Serialize (ss_build event_data) = [8; 3; 16; 7; 24; 172; 2; 32; 2] /\
  ss_view <$> GateSSMsg_ParseFromArray (GateSSMsg_Serialize (ss_build event_data)) = Some event_data /\
  Z.of_nat (length (GateSSMsg_Serialize (ss_build event_data))) = GateSSMsg_ByteSize (ss_build event_data) /\
  8 <= GateSSMsg_ByteSize (ss_build event_data) <= 55.
Proof. split; [vm_compute; reflexivity|]. apply (gate_event_bounds event_data event_data_ok). Defined.

(** An event 9 is no event. *)
Definition no_event : GateSSMsg_pb := mkGateSSMsg_pb None (Some 7) (Some 300) (Some 2) None None None [].

Lemma unknown_event_refused_witness :
  GateSSMsg_MergePartial GateSSMsg_new (GateSSMsg_Serialize (set_event 9 no_event))
    = Ok (no_event <| ss_unknown := AddVarint 1 9 unknown_new |>, true) /\
  GateSSMsg_ParseFromArray (GateSSMsg_Serialize (set_event 9 no_event)) = None.
Proof.
  apply (unknown_event_refused no_event 9); [|reflexivity|lia|reflexivity].
  split; simpl; try done; apply all_of_Some; unfold in_u32, in_u64; lia.
Defined.

(** A field 5 that only a later version knows. *)
Lemma newer_event_accepted_witness :
  ss_view <$> GateSSMsg_ParseFromArray (GateSSMsg_Serialize (ss_build event_data) ++ WriteUInt32 5 1) = Some event_data.
Proof.
  apply (newer_event_accepted event_data 5 1 event_data_ok); [lia| |unfold in_u32; lia].
  vm_compute. intros Hin. repeat (apply elem_of_cons in Hin as [Hin|Hin]; [discriminate Hin|]).
  by apply elem_of_nil in Hin.
Defined.

End GateMsgWitness.
