(* ===== verification/ClientMsg.v ===== *)
(** * The messages of the clients ([proto/cs], [proto/gen/cs])

    The messages as the zone server reads them, and the generated classes that
    put them on the wire. *)

From S2P Require Import Prelude CString Extern WireFormat WireReference.

(** ** What the program reads *)

Definition CSMSG_CMD_ROLE : Z := 2.
Definition CSMSG_ROLE_ALL_INFO_REQ : Z := 1.
Definition CSMSG_ROLE_BASE_INFO_REQ : Z := 2.
Definition CSMSG_ROLE_EXT_INFO_REQ : Z := 3.
Definition CSMSG_ROLE_MISC_INFO_REQ : Z := 4.
Definition CSMSG_ROLE_ALL_INFO_RSP : Z := 5.
Definition CSMSG_ROLE_BASE_INFO_RSP : Z := 6.
Definition CSMSG_ROLE_EXT_INFO_RSP : Z := 7.
Definition CSMSG_ROLE_MISC_INFO_RSP : Z := 8.

Record CSRoleBase := mkCSRoleBase { rb_uid : Z; rb_name : option string; rb_level : option Z }.
Record CSRoleExt := mkCSRoleExt { re_dummy : option Z }.
Record CSRoleMisc := mkCSRoleMisc { rm_dummy : option Z }.
Record CSRole := mkCSRole { r_base : CSRoleBase; r_ext : CSRoleExt; r_misc : CSRoleMisc }.
Record CSMsgRole := mkCSMsgRole {
  role_cmd : Z; allInfoRsp : option CSRole; baseInfoRsp : option CSRoleBase;
  extInfoRsp : option CSRoleExt; miscInfoRsp : option CSRoleMisc
}.
Record CSMsg := mkCSMsg { csm_cmd : Z; csm_err : option Z; csm_role : option CSMsgRole }.

(** ** The generated classes *)

Section generated.
Context `{WireLib}.

(** [if (has_x()) { if (!this->x().IsInitialized()) return false; }]. *)
Definition sub_init {S} (IsInitialized : S -> bool) (o : option S) : bool :=
  match o with Some r => IsInitialized r | None => true end.

(** [TestInfoRsp]: one number, [dummy], which is required. *)
Definition TestInfoRsp_pb : Type := U32Msg.
Definition TestInfoRsp_new : TestInfoRsp_pb := U32Msg_new.
Definition TestInfoRsp_MergePartial : TestInfoRsp_pb -> bytes -> Res (TestInfoRsp_pb * bool) := U32Msg_MergePartial.
Definition TestInfoRsp_Serialize : TestInfoRsp_pb -> bytes := U32Msg_Serialize.
Definition TestInfoRsp_ByteSize : TestInfoRsp_pb -> Z := U32Msg_ByteSize.
Definition TestInfoRsp_MergeFrom : TestInfoRsp_pb -> TestInfoRsp_pb -> TestInfoRsp_pb := U32Msg_MergeFrom.
Definition TestInfoRsp_IsInitialized : TestInfoRsp_pb -> bool := U32Msg_IsInitialized true.

(** [LoginRegNotify]: one number, [dummy], which is optional. *)
Definition LoginRegNotify_pb : Type := U32Msg.
Definition LoginRegNotify_new : LoginRegNotify_pb := U32Msg_new.
Definition LoginRegNotify_MergePartial : LoginRegNotify_pb -> bytes -> Res (LoginRegNotify_pb * bool) :=
  U32Msg_MergePartial.
Definition LoginRegNotify_Serialize : LoginRegNotify_pb -> bytes := U32Msg_Serialize.
Definition LoginRegNotify_ByteSize : LoginRegNotify_pb -> Z := U32Msg_ByteSize.
Definition LoginRegNotify_MergeFrom : LoginRegNotify_pb -> LoginRegNotify_pb -> LoginRegNotify_pb := U32Msg_MergeFrom.
Definition LoginRegNotify_IsInitialized : LoginRegNotify_pb -> bool := U32Msg_IsInitialized false.

(** [LoginRegisterReq]: one number, [dummy], which is optional. *)
Definition LoginRegisterReq_pb : Type := U32Msg.
Definition LoginRegisterReq_new : LoginRegisterReq_pb := U32Msg_new.
Definition LoginRegisterReq_MergePartial : LoginRegisterReq_pb -> bytes -> Res (LoginRegisterReq_pb * bool) :=
  U32Msg_MergePartial.
Definition LoginRegisterReq_Serialize : LoginRegisterReq_pb -> bytes := U32Msg_Serialize.
Definition LoginRegisterReq_ByteSize : LoginRegisterReq_pb -> Z := U32Msg_ByteSize.
Definition LoginRegisterReq_MergeFrom : LoginRegisterReq_pb -> LoginRegisterReq_pb -> LoginRegisterReq_pb :=
  U32Msg_MergeFrom.
Definition LoginRegisterReq_IsInitialized : LoginRegisterReq_pb -> bool := U32Msg_IsInitialized false.

(** [CSMsgTask]: one number, [cmd], which is required. *)
Definition CSMsgTask_pb : Type := U32Msg.
Definition CSMsgTask_new : CSMsgTask_pb := U32Msg_new.
Definition CSMsgTask_MergePartial : CSMsgTask_pb -> bytes -> Res (CSMsgTask_pb * bool) := U32Msg_MergePartial.
Definition CSMsgTask_Serialize : CSMsgTask_pb -> bytes := U32Msg_Serialize.
Definition CSMsgTask_ByteSize : CSMsgTask_pb -> Z := U32Msg_ByteSize.
Definition CSMsgTask_MergeFrom : CSMsgTask_pb -> CSMsgTask_pb -> CSMsgTask_pb := U32Msg_MergeFrom.
Definition CSMsgTask_IsInitialized : CSMsgTask_pb -> bool := U32Msg_IsInitialized true.

(** [CSRank]: one number, [cmd], which is required. *)
Definition CSRank_pb : Type := U32Msg.
Definition CSRank_new : CSRank_pb := U32Msg_new.
Definition CSRank_MergePartial : CSRank_pb -> bytes -> Res (CSRank_pb * bool) := U32Msg_MergePartial.
Definition CSRank_Serialize : CSRank_pb -> bytes := U32Msg_Serialize.
Definition CSRank_ByteSize : CSRank_pb -> Z := U32Msg_ByteSize.
Definition CSRank_MergeFrom : CSRank_pb -> CSRank_pb -> CSRank_pb := U32Msg_MergeFrom.
Definition CSRank_IsInitialized : CSRank_pb -> bool := U32Msg_IsInitialized true.

(** [CSFriend]: one number, [cmd], which is required. *)
Definition CSFriend_pb : Type := U32Msg.
Definition CSFriend_new : CSFriend_pb := U32Msg_new.
Definition CSFriend_MergePartial : CSFriend_pb -> bytes -> Res (CSFriend_pb * bool) := U32Msg_MergePartial.
Definition CSFriend_Serialize : CSFriend_pb -> bytes := U32Msg_Serialize.
Definition CSFriend_ByteSize : CSFriend_pb -> Z := U32Msg_ByteSize.
Definition CSFriend_MergeFrom : CSFriend_pb -> CSFriend_pb -> CSFriend_pb := U32Msg_MergeFrom.
Definition CSFriend_IsInitialized : CSFriend_pb -> bool := U32Msg_IsInitialized true.

(** [CSFamily]: one number, [cmd], which is required. *)
Definition CSFamily_pb : Type := U32Msg.
Definition CSFamily_new : CSFamily_pb := U32Msg_new.
Definition CSFamily_MergePartial : CSFamily_pb -> bytes -> Res (CSFamily_pb * bool) := U32Msg_MergePartial.
Definition CSFamily_Serialize : CSFamily_pb -> bytes := U32Msg_Serialize.
Definition CSFamily_ByteSize : CSFamily_pb -> Z := U32Msg_ByteSize.
Definition CSFamily_MergeFrom : CSFamily_pb -> CSFamily_pb -> CSFamily_pb := U32Msg_MergeFrom.
Definition CSFamily_IsInitialized : CSFamily_pb -> bool := U32Msg_IsInitialized true.

(** [CSKnapsack]: one number, [cmd], which is required. *)
Definition CSKnapsack_pb : Type := U32Msg.
Definition CSKnapsack_new : CSKnapsack_pb := U32Msg_new.
Definition CSKnapsack_MergePartial : CSKnapsack_pb -> bytes -> Res (CSKnapsack_pb * bool) := U32Msg_MergePartial.
Definition CSKnapsack_Serialize : CSKnapsack_pb -> bytes := U32Msg_Serialize.
Definition CSKnapsack_ByteSize : CSKnapsack_pb -> Z := U32Msg_ByteSize.
Definition CSKnapsack_MergeFrom : CSKnapsack_pb -> CSKnapsack_pb -> CSKnapsack_pb := U32Msg_MergeFrom.
Definition CSKnapsack_IsInitialized : CSKnapsack_pb -> bool := U32Msg_IsInitialized true.

(** [CSStage]: one number, [cmd], which is required. *)
Definition CSStage_pb : Type := U32Msg.
Definition CSStage_new : CSStage_pb := U32Msg_new.
Definition CSStage_MergePartial : CSStage_pb -> bytes -> Res (CSStage_pb * bool) := U32Msg_MergePartial.
Definition CSStage_Serialize : CSStage_pb -> bytes := U32Msg_Serialize.
Definition CSStage_ByteSize : CSStage_pb -> Z := U32Msg_ByteSize.
Definition CSStage_MergeFrom : CSStage_pb -> CSStage_pb -> CSStage_pb := U32Msg_MergeFrom.
Definition CSStage_IsInitialized : CSStage_pb -> bool := U32Msg_IsInitialized true.

(** [CSActivity]: one number, [cmd], which is required. *)
Definition CSActivity_pb : Type := U32Msg.
Definition CSActivity_new : CSActivity_pb := U32Msg_new.
Definition CSActivity_MergePartial : CSActivity_pb -> bytes -> Res (CSActivity_pb * bool) := U32Msg_MergePartial.
Definition CSActivity_Serialize : CSActivity_pb -> bytes := U32Msg_Serialize.
Definition CSActivity_ByteSize : CSActivity_pb -> Z := U32Msg_ByteSize.
Definition CSActivity_MergeFrom : CSActivity_pb -> CSActivity_pb -> CSActivity_pb := U32Msg_MergeFrom.
Definition CSActivity_IsInitialized : CSActivity_pb -> bool := U32Msg_IsInitialized true.

(** [CSBattle]: one number, [cmd], which is required. *)
Definition CSBattle_pb : Type := U32Msg.
Definition CSBattle_new : CSBattle_pb := U32Msg_new.
Definition CSBattle_MergePartial : CSBattle_pb -> bytes -> Res (CSBattle_pb * bool) := U32Msg_MergePartial.
Definition CSBattle_Serialize : CSBattle_pb -> bytes := U32Msg_Serialize.
Definition CSBattle_ByteSize : CSBattle_pb -> Z := U32Msg_ByteSize.
Definition CSBattle_MergeFrom : CSBattle_pb -> CSBattle_pb -> CSBattle_pb := U32Msg_MergeFrom.
Definition CSBattle_IsInitialized : CSBattle_pb -> bool := U32Msg_IsInitialized true.

(** [CSRoleExt]: one number, [dummy], which is optional. *)
Definition CSRoleExt_pb : Type := U32Msg.
Definition CSRoleExt_new : CSRoleExt_pb := U32Msg_new.
Definition CSRoleExt_MergePartial : CSRoleExt_pb -> bytes -> Res (CSRoleExt_pb * bool) := U32Msg_MergePartial.
Definition CSRoleExt_Serialize : CSRoleExt_pb -> bytes := U32Msg_Serialize.
Definition CSRoleExt_ByteSize : CSRoleExt_pb -> Z := U32Msg_ByteSize.
Definition CSRoleExt_MergeFrom : CSRoleExt_pb -> CSRoleExt_pb -> CSRoleExt_pb := U32Msg_MergeFrom.
Definition CSRoleExt_IsInitialized : CSRoleExt_pb -> bool := U32Msg_IsInitialized false.

(** [CSRoleMisc]: one number, [dummy], which is optional. *)
Definition CSRoleMisc_pb : Type := U32Msg.
Definition CSRoleMisc_new : CSRoleMisc_pb := U32Msg_new.
Definition CSRoleMisc_MergePartial : CSRoleMisc_pb -> bytes -> Res (CSRoleMisc_pb * bool) := U32Msg_MergePartial.
Definition CSRoleMisc_Serialize : CSRoleMisc_pb -> bytes := U32Msg_Serialize.
Definition CSRoleMisc_ByteSize : CSRoleMisc_pb -> Z := U32Msg_ByteSize.
Definition CSRoleMisc_MergeFrom : CSRoleMisc_pb -> CSRoleMisc_pb -> CSRoleMisc_pb := U32Msg_MergeFrom.
Definition CSRoleMisc_IsInitialized : CSRoleMisc_pb -> bool := U32Msg_IsInitialized false.

(** [CSRoleBase]. *)
Record CSRoleBase_pb := mkCSRoleBase_pb {
  base_uid_ : option Z; base_name_ : option string; base_level_ : option Z; base_unknown : UnknownFieldSet
}.
#[global] Instance eta_CSRoleBase_pb : Eta CSRoleBase_pb := fun r =>
  mkCSRoleBase_pb (base_uid_ r) (base_name_ r) (base_level_ r) (base_unknown r).
Definition CSRoleBase_new : CSRoleBase_pb := mkCSRoleBase_pb None None None unknown_new.
Definition base_set_uid (v : Z) (m : CSRoleBase_pb) := m <| base_uid_ := Some v |>.
Definition base_set_name (v : string) (m : CSRoleBase_pb) := m <| base_name_ := Some v |>.
Definition base_set_level (v : Z) (m : CSRoleBase_pb) := m <| base_level_ := Some v |>.
Definition base_set_unknown (u : UnknownFieldSet) (m : CSRoleBase_pb) := m <| base_unknown := u |>.

Definition CSRoleBase_cases : list (Case CSRoleBase_pb) := [
  mkCase 1 8 (read_with ReadUInt64 base_set_uid) [18] false;
  mkCase 2 18 (read_with ReadString base_set_name) [24] false;
  mkCase 3 24 (read_with ReadUInt32 base_set_level) [] true
].
Definition CSRoleBase_MergePartial : CSRoleBase_pb -> bytes -> Res (CSRoleBase_pb * bool) :=
  MergePartial base_unknown base_set_unknown 127 CSRoleBase_cases.

Definition CSRoleBase_Serialize (m : CSRoleBase_pb) : bytes :=
  write_if (base_uid_ m) (WriteUInt64 1) ++
  write_if (base_name_ m) (WriteString 2) ++
  write_if (base_level_ m) (WriteUInt32 3) ++
  write_unknown (base_unknown m).

Definition CSRoleBase_ByteSize (m : CSRoleBase_pb) : Z :=
  size_if (base_uid_ m) (fun v => 1 + UInt64Size v) +
  size_if (base_name_ m) (fun v => 1 + StringSize v) +
  size_if (base_level_ m) (fun v => 1 + UInt32Size v) +
  unknown_size (base_unknown m).

Definition CSRoleBase_MergeFrom (from m : CSRoleBase_pb) : CSRoleBase_pb :=
  let m := set_if (base_uid_ from) base_set_uid m in
  let m := set_if (base_name_ from) base_set_name m in
  let m := set_if (base_level_ from) base_set_level m in
  m <| base_unknown ::= fun u => unknown_MergeFrom u (base_unknown from) |>.

Definition CSRoleBase_IsInitialized (m : CSRoleBase_pb) : bool :=
  bool_decide (is_Some (base_uid_ m)).

(** [CSRole]. *)
Record CSRole_pb := mkCSRole_pb {
  all_base_ : option CSRoleBase_pb; all_ext_ : option CSRoleExt_pb; all_misc_ : option CSRoleMisc_pb;
  all_unknown : UnknownFieldSet
}.
#[global] Instance eta_CSRole_pb : Eta CSRole_pb := fun r =>
  mkCSRole_pb (all_base_ r) (all_ext_ r) (all_misc_ r) (all_unknown r).
Definition CSRole_new : CSRole_pb := mkCSRole_pb None None None unknown_new.
Definition all_set_base (v : CSRoleBase_pb) (m : CSRole_pb) := m <| all_base_ := Some v |>.
Definition all_set_ext (v : CSRoleExt_pb) (m : CSRole_pb) := m <| all_ext_ := Some v |>.
Definition all_set_misc (v : CSRoleMisc_pb) (m : CSRole_pb) := m <| all_misc_ := Some v |>.
Definition all_set_unknown (u : UnknownFieldSet) (m : CSRole_pb) := m <| all_unknown := u |>.

Definition CSRole_cases : list (Case CSRole_pb) := [
  mkCase 1 10 (read_message CSRoleBase_MergePartial all_base_ CSRoleBase_new all_set_base) [18] false;
  mkCase 2 18 (read_message CSRoleExt_MergePartial all_ext_ CSRoleExt_new all_set_ext) [26] false;
  mkCase 3 26 (read_message CSRoleMisc_MergePartial all_misc_ CSRoleMisc_new all_set_misc) [] true
].
Definition CSRole_MergePartial : CSRole_pb -> bytes -> Res (CSRole_pb * bool) :=
  MergePartial all_unknown all_set_unknown 127 CSRole_cases.

Definition CSRole_Serialize (m : CSRole_pb) : bytes :=
  write_if (all_base_ m) (fun r => WriteMessage 1 (CSRoleBase_ByteSize r) (CSRoleBase_Serialize r)) ++
  write_if (all_ext_ m) (fun r => WriteMessage 2 (CSRoleExt_ByteSize r) (CSRoleExt_Serialize r)) ++
  write_if (all_misc_ m) (fun r => WriteMessage 3 (CSRoleMisc_ByteSize r) (CSRoleMisc_Serialize r)) ++
  write_unknown (all_unknown m).

Definition CSRole_ByteSize (m : CSRole_pb) : Z :=
  size_if (all_base_ m) (fun r => 1 + MessageSize (CSRoleBase_ByteSize r)) +
  size_if (all_ext_ m) (fun r => 1 + MessageSize (CSRoleExt_ByteSize r)) +
  size_if (all_misc_ m) (fun r => 1 + MessageSize (CSRoleMisc_ByteSize r)) +
  unknown_size (all_unknown m).

Definition CSRole_MergeFrom (from m : CSRole_pb) : CSRole_pb :=
  let m := set_if (all_base_ from) (merge_sub CSRoleBase_MergeFrom all_base_ CSRoleBase_new all_set_base) m in
  let m := set_if (all_ext_ from) (merge_sub CSRoleExt_MergeFrom all_ext_ CSRoleExt_new all_set_ext) m in
  let m := set_if (all_misc_ from) (merge_sub CSRoleMisc_MergeFrom all_misc_ CSRoleMisc_new all_set_misc) m in
  m <| all_unknown ::= fun u => unknown_MergeFrom u (all_unknown from) |>.

Definition CSRole_IsInitialized (m : CSRole_pb) : bool :=
  bool_decide (is_Some (all_base_ m))
  && bool_decide (is_Some (all_ext_ m))
  && bool_decide (is_Some (all_misc_ m))
  && sub_init CSRoleBase_IsInitialized (all_base_ m).

(** [CSMsgRole]. *)
Record CSMsgRole_pb := mkCSMsgRole_pb {
  mrole_cmd_ : option Z; mrole_allinforsp_ : option CSRole_pb; mrole_baseinforsp_ : option CSRoleBase_pb;
  mrole_extinforsp_ : option CSRoleExt_pb; mrole_miscinforsp_ : option CSRoleMisc_pb;
  mrole_unknown : UnknownFieldSet
}.
#[global] Instance eta_CSMsgRole_pb : Eta CSMsgRole_pb := fun r =>
  mkCSMsgRole_pb (mrole_cmd_ r) (mrole_allinforsp_ r) (mrole_baseinforsp_ r) (mrole_extinforsp_ r)
    (mrole_miscinforsp_ r) (mrole_unknown r).
Definition CSMsgRole_new : CSMsgRole_pb := mkCSMsgRole_pb None None None None None unknown_new.
Definition mrole_set_cmd (v : Z) (m : CSMsgRole_pb) := m <| mrole_cmd_ := Some v |>.
Definition mrole_set_allinforsp (v : CSRole_pb) (m : CSMsgRole_pb) := m <| mrole_allinforsp_ := Some v |>.
Definition mrole_set_baseinforsp (v : CSRoleBase_pb) (m : CSMsgRole_pb) := m <| mrole_baseinforsp_ := Some v |>.
Definition mrole_set_extinforsp (v : CSRoleExt_pb) (m : CSMsgRole_pb) := m <| mrole_extinforsp_ := Some v |>.
Definition mrole_set_miscinforsp (v : CSRoleMisc_pb) (m : CSMsgRole_pb) := m <| mrole_miscinforsp_ := Some v |>.
Definition mrole_set_unknown (u : UnknownFieldSet) (m : CSMsgRole_pb) := m <| mrole_unknown := u |>.

Definition CSMsgRole_cases : list (Case CSMsgRole_pb) := [
  mkCase 1 8 (read_with ReadUInt32 mrole_set_cmd) [18] false;
  mkCase 2 18 (read_message CSRole_MergePartial mrole_allinforsp_ CSRole_new mrole_set_allinforsp) [26] false;
  mkCase 3 26 (read_message CSRoleBase_MergePartial mrole_baseinforsp_ CSRoleBase_new mrole_set_baseinforsp) [34] false;
  mkCase 4 34 (read_message CSRoleExt_MergePartial mrole_extinforsp_ CSRoleExt_new mrole_set_extinforsp) [42] false;
  mkCase 5 42 (read_message CSRoleMisc_MergePartial mrole_miscinforsp_ CSRoleMisc_new mrole_set_miscinforsp) [] true
].
Definition CSMsgRole_MergePartial : CSMsgRole_pb -> bytes -> Res (CSMsgRole_pb * bool) :=
  MergePartial mrole_unknown mrole_set_unknown 127 CSMsgRole_cases.

Definition CSMsgRole_Serialize (m : CSMsgRole_pb) : bytes :=
  write_if (mrole_cmd_ m) (WriteUInt32 1) ++
  write_if (mrole_allinforsp_ m) (fun r => WriteMessage 2 (CSRole_ByteSize r) (CSRole_Serialize r)) ++
  write_if (mrole_baseinforsp_ m) (fun r => WriteMessage 3 (CSRoleBase_ByteSize r) (CSRoleBase_Serialize r)) ++
  write_if (mrole_extinforsp_ m) (fun r => WriteMessage 4 (CSRoleExt_ByteSize r) (CSRoleExt_Serialize r)) ++
  write_if (mrole_miscinforsp_ m) (fun r => WriteMessage 5 (CSRoleMisc_ByteSize r) (CSRoleMisc_Serialize r)) ++
  write_unknown (mrole_unknown m).

Definition CSMsgRole_ByteSize (m : CSMsgRole_pb) : Z :=
  size_if (mrole_cmd_ m) (fun v => 1 + UInt32Size v) +
  size_if (mrole_allinforsp_ m) (fun r => 1 + MessageSize (CSRole_ByteSize r)) +
  size_if (mrole_baseinforsp_ m) (fun r => 1 + MessageSize (CSRoleBase_ByteSize r)) +
  size_if (mrole_extinforsp_ m) (fun r => 1 + MessageSize (CSRoleExt_ByteSize r)) +
  size_if (mrole_miscinforsp_ m) (fun r => 1 + MessageSize (CSRoleMisc_ByteSize r)) +
  unknown_size (mrole_unknown m).

Definition CSMsgRole_MergeFrom (from m : CSMsgRole_pb) : CSMsgRole_pb :=
  let m := set_if (mrole_cmd_ from) mrole_set_cmd m in
  let m := set_if (mrole_allinforsp_ from)
    (merge_sub CSRole_MergeFrom mrole_allinforsp_ CSRole_new mrole_set_allinforsp) m in
  let m := set_if (mrole_baseinforsp_ from)
    (merge_sub CSRoleBase_MergeFrom mrole_baseinforsp_ CSRoleBase_new mrole_set_baseinforsp) m in
  let m := set_if (mrole_extinforsp_ from)
    (merge_sub CSRoleExt_MergeFrom mrole_extinforsp_ CSRoleExt_new mrole_set_extinforsp) m in
  let m := set_if (mrole_miscinforsp_ from)
    (merge_sub CSRoleMisc_MergeFrom mrole_miscinforsp_ CSRoleMisc_new mrole_set_miscinforsp) m in
  m <| mrole_unknown ::= fun u => unknown_MergeFrom u (mrole_unknown from) |>.

Definition CSMsgRole_IsInitialized (m : CSMsgRole_pb) : bool :=
  bool_decide (is_Some (mrole_cmd_ m))
  && sub_init CSRole_IsInitialized (mrole_allinforsp_ m)
  && sub_init CSRoleBase_IsInitialized (mrole_baseinforsp_ m).

(** [CSMsgTest]. *)
Record CSMsgTest_pb := mkCSMsgTest_pb {
  test_cmd_ : option Z; test_infrsp_ : option TestInfoRsp_pb; test_txtrsp_ : option string;
  test_unknown : UnknownFieldSet
}.
#[global] Instance eta_CSMsgTest_pb : Eta CSMsgTest_pb := fun r =>
  mkCSMsgTest_pb (test_cmd_ r) (test_infrsp_ r) (test_txtrsp_ r) (test_unknown r).
Definition CSMsgTest_new : CSMsgTest_pb := mkCSMsgTest_pb None None None unknown_new.
Definition test_set_cmd (v : Z) (m : CSMsgTest_pb) := m <| test_cmd_ := Some v |>.
Definition test_set_infrsp (v : TestInfoRsp_pb) (m : CSMsgTest_pb) := m <| test_infrsp_ := Some v |>.
Definition test_set_txtrsp (v : string) (m : CSMsgTest_pb) := m <| test_txtrsp_ := Some v |>.
Definition test_set_unknown (u : UnknownFieldSet) (m : CSMsgTest_pb) := m <| test_unknown := u |>.

Definition CSMsgTest_cases : list (Case CSMsgTest_pb) := [
  mkCase 1 8 (read_with ReadUInt32 test_set_cmd) [18] false;
  mkCase 2 18 (read_message TestInfoRsp_MergePartial test_infrsp_ TestInfoRsp_new test_set_infrsp) [26] false;
  mkCase 3 26 (read_with ReadString test_set_txtrsp) [] true
].
Definition CSMsgTest_MergePartial : CSMsgTest_pb -> bytes -> Res (CSMsgTest_pb * bool) :=
  MergePartial test_unknown test_set_unknown 127 CSMsgTest_cases.

Definition CSMsgTest_Serialize (m : CSMsgTest_pb) : bytes :=
  write_if (test_cmd_ m) (WriteUInt32 1) ++
  write_if (test_infrsp_ m) (fun r => WriteMessage 2 (TestInfoRsp_ByteSize r) (TestInfoRsp_Serialize r)) ++
  write_if (test_txtrsp_ m) (WriteString 3) ++
  write_unknown (test_unknown m).

Definition CSMsgTest_ByteSize (m : CSMsgTest_pb) : Z :=
  size_if (test_cmd_ m) (fun v => 1 + UInt32Size v) +
  size_if (test_infrsp_ m) (fun r => 1 + MessageSize (TestInfoRsp_ByteSize r)) +
  size_if (test_txtrsp_ m) (fun v => 1 + StringSize v) +
  unknown_size (test_unknown m).

Definition CSMsgTest_MergeFrom (from m : CSMsgTest_pb) : CSMsgTest_pb :=
  let m := set_if (test_cmd_ from) test_set_cmd m in
  let m := set_if (test_infrsp_ from)
    (merge_sub TestInfoRsp_MergeFrom test_infrsp_ TestInfoRsp_new test_set_infrsp) m in
  let m := set_if (test_txtrsp_ from) test_set_txtrsp m in
  m <| test_unknown ::= fun u => unknown_MergeFrom u (test_unknown from) |>.

Definition CSMsgTest_IsInitialized (m : CSMsgTest_pb) : bool :=
  bool_decide (is_Some (test_cmd_ m))
  && sub_init TestInfoRsp_IsInitialized (test_infrsp_ m).

(** [CSMsgLogin]. *)
Record CSMsgLogin_pb := mkCSMsgLogin_pb {
  login_cmd_ : option Z; login_notifyreq_ : option LoginRegNotify_pb; login_regreq_ : option LoginRegisterReq_pb;
  login_unknown : UnknownFieldSet
}.
#[global] Instance eta_CSMsgLogin_pb : Eta CSMsgLogin_pb := fun r =>
  mkCSMsgLogin_pb (login_cmd_ r) (login_notifyreq_ r) (login_regreq_ r) (login_unknown r).
Definition CSMsgLogin_new : CSMsgLogin_pb := mkCSMsgLogin_pb None None None unknown_new.
Definition login_set_cmd (v : Z) (m : CSMsgLogin_pb) := m <| login_cmd_ := Some v |>.
Definition login_set_notifyreq (v : LoginRegNotify_pb) (m : CSMsgLogin_pb) := m <| login_notifyreq_ := Some v |>.
Definition login_set_regreq (v : LoginRegisterReq_pb) (m : CSMsgLogin_pb) := m <| login_regreq_ := Some v |>.
Definition login_set_unknown (u : UnknownFieldSet) (m : CSMsgLogin_pb) := m <| login_unknown := u |>.

Definition CSMsgLogin_cases : list (Case CSMsgLogin_pb) := [
  mkCase 1 8 (read_with ReadUInt32 login_set_cmd) [18] false;
  mkCase 2 18 (read_message LoginRegNotify_MergePartial login_notifyreq_ LoginRegNotify_new login_set_notifyreq) [26] false;
  mkCase 3 26 (read_message LoginRegisterReq_MergePartial login_regreq_ LoginRegisterReq_new login_set_regreq) [] true
].
Definition CSMsgLogin_MergePartial : CSMsgLogin_pb -> bytes -> Res (CSMsgLogin_pb * bool) :=
  MergePartial login_unknown login_set_unknown 127 CSMsgLogin_cases.

Definition CSMsgLogin_Serialize (m : CSMsgLogin_pb) : bytes :=
  write_if (login_cmd_ m) (WriteUInt32 1) ++
  write_if (login_notifyreq_ m) (fun r => WriteMessage 2 (LoginRegNotify_ByteSize r) (LoginRegNotify_Serialize r)) ++
  write_if (login_regreq_ m) (fun r => WriteMessage 3 (LoginRegisterReq_ByteSize r) (LoginRegisterReq_Serialize r)) ++
  write_unknown (login_unknown m).

Definition CSMsgLogin_ByteSize (m : CSMsgLogin_pb) : Z :=
  size_if (login_cmd_ m) (fun v => 1 + UInt32Size v) +
  size_if (login_notifyreq_ m) (fun r => 1 + MessageSize (LoginRegNotify_ByteSize r)) +
  size_if (login_regreq_ m) (fun r => 1 + MessageSize (LoginRegisterReq_ByteSize r)) +
  unknown_size (login_unknown m).

Definition CSMsgLogin_MergeFrom (from m : CSMsgLogin_pb) : CSMsgLogin_pb :=
  let m := set_if (login_cmd_ from) login_set_cmd m in
  let m := set_if (login_notifyreq_ from)
    (merge_sub LoginRegNotify_MergeFrom login_notifyreq_ LoginRegNotify_new login_set_notifyreq) m in
  let m := set_if (login_regreq_ from)
    (merge_sub LoginRegisterReq_MergeFrom login_regreq_ LoginRegisterReq_new login_set_regreq) m in
  m <| login_unknown ::= fun u => unknown_MergeFrom u (login_unknown from) |>.

Definition CSMsgLogin_IsInitialized (m : CSMsgLogin_pb) : bool :=
  bool_decide (is_Some (login_cmd_ m)).

(** [CSMsg]. *)
Record CSMsg_pb := mkCSMsg_pb {
  csm_cmd_ : option Z; csm_err_ : option Z; csm_login_ : option CSMsgLogin_pb; csm_test_ : option CSMsgTest_pb;
  csm_role_ : option CSMsgRole_pb;
  csm_task_ : option CSMsgTask_pb; csm_rank_ : option CSRank_pb; csm_friend_ : option CSFriend_pb;
  csm_family_ : option CSFamily_pb; csm_knapsack_ : option CSKnapsack_pb; csm_stage_ : option CSStage_pb;
  csm_activity_ : option CSActivity_pb; csm_battle_ : option CSBattle_pb; csm_unknown : UnknownFieldSet
}.
#[global] Instance eta_CSMsg_pb : Eta CSMsg_pb := fun r =>
  mkCSMsg_pb (csm_cmd_ r) (csm_err_ r) (csm_login_ r) (csm_test_ r) (csm_role_ r) (csm_task_ r) (csm_rank_ r)
    (csm_friend_ r) (csm_family_ r) (csm_knapsack_ r) (csm_stage_ r) (csm_activity_ r) (csm_battle_ r)
    (csm_unknown r).
Definition CSMsg_new : CSMsg_pb := mkCSMsg_pb None None None None None None None None None None None None None unknown_new.
Definition csm_set_cmd (v : Z) (m : CSMsg_pb) := m <| csm_cmd_ := Some v |>.
Definition csm_set_err (v : Z) (m : CSMsg_pb) := m <| csm_err_ := Some v |>.
Definition csm_set_login (v : CSMsgLogin_pb) (m : CSMsg_pb) := m <| csm_login_ := Some v |>.
Definition csm_set_test (v : CSMsgTest_pb) (m : CSMsg_pb) := m <| csm_test_ := Some v |>.
Definition csm_set_role (v : CSMsgRole_pb) (m : CSMsg_pb) := m <| csm_role_ := Some v |>.
Definition csm_set_task (v : CSMsgTask_pb) (m : CSMsg_pb) := m <| csm_task_ := Some v |>.
Definition csm_set_rank (v : CSRank_pb) (m : CSMsg_pb) := m <| csm_rank_ := Some v |>.
Definition csm_set_friend (v : CSFriend_pb) (m : CSMsg_pb) := m <| csm_friend_ := Some v |>.
Definition csm_set_family (v : CSFamily_pb) (m : CSMsg_pb) := m <| csm_family_ := Some v |>.
Definition csm_set_knapsack (v : CSKnapsack_pb) (m : CSMsg_pb) := m <| csm_knapsack_ := Some v |>.
Definition csm_set_stage (v : CSStage_pb) (m : CSMsg_pb) := m <| csm_stage_ := Some v |>.
Definition csm_set_activity (v : CSActivity_pb) (m : CSMsg_pb) := m <| csm_activity_ := Some v |>.
Definition csm_set_battle (v : CSBattle_pb) (m : CSMsg_pb) := m <| csm_battle_ := Some v |>.
Definition csm_set_unknown (u : UnknownFieldSet) (m : CSMsg_pb) := m <| csm_unknown := u |>.

Definition CSMsg_cases : list (Case CSMsg_pb) := [
  mkCase 1 8 (read_with ReadUInt32 csm_set_cmd) [16] false;
  mkCase 2 16 (read_with ReadUInt32 csm_set_err) [810] false;
  mkCase 101 810 (read_message CSMsgLogin_MergePartial csm_login_ CSMsgLogin_new csm_set_login) [818] false;
  mkCase 102 818 (read_message CSMsgTest_MergePartial csm_test_ CSMsgTest_new csm_set_test) [826] false;
  mkCase 103 826 (read_message CSMsgRole_MergePartial csm_role_ CSMsgRole_new csm_set_role) [834] false;
  mkCase 104 834 (read_message CSMsgTask_MergePartial csm_task_ CSMsgTask_new csm_set_task) [842] false;
  mkCase 105 842 (read_message CSRank_MergePartial csm_rank_ CSRank_new csm_set_rank) [850] false;
  mkCase 106 850 (read_message CSFriend_MergePartial csm_friend_ CSFriend_new csm_set_friend) [858] false;
  mkCase 107 858 (read_message CSFamily_MergePartial csm_family_ CSFamily_new csm_set_family) [866] false;
  mkCase 108 866 (read_message CSKnapsack_MergePartial csm_knapsack_ CSKnapsack_new csm_set_knapsack) [874] false;
  mkCase 109 874 (read_message CSStage_MergePartial csm_stage_ CSStage_new csm_set_stage) [882] false;
  mkCase 110 882 (read_message CSActivity_MergePartial csm_activity_ CSActivity_new csm_set_activity) [890] false;
  mkCase 111 890 (read_message CSBattle_MergePartial csm_battle_ CSBattle_new csm_set_battle) [] true
].
Definition CSMsg_MergePartial : CSMsg_pb -> bytes -> Res (CSMsg_pb * bool) :=
  MergePartial csm_unknown csm_set_unknown 16383 CSMsg_cases.

Definition CSMsg_Serialize (m : CSMsg_pb) : bytes :=
  write_if (csm_cmd_ m) (WriteUInt32 1) ++
  write_if (csm_err_ m) (WriteUInt32 2) ++
  write_if (csm_login_ m) (fun r => WriteMessage 101 (CSMsgLogin_ByteSize r) (CSMsgLogin_Serialize r)) ++
  write_if (csm_test_ m) (fun r => WriteMessage 102 (CSMsgTest_ByteSize r) (CSMsgTest_Serialize r)) ++
  write_if (csm_role_ m) (fun r => WriteMessage 103 (CSMsgRole_ByteSize r) (CSMsgRole_Serialize r)) ++
  write_if (csm_task_ m) (fun r => WriteMessage 104 (CSMsgTask_ByteSize r) (CSMsgTask_Serialize r)) ++
  write_if (csm_rank_ m) (fun r => WriteMessage 105 (CSRank_ByteSize r) (CSRank_Serialize r)) ++
  write_if (csm_friend_ m) (fun r => WriteMessage 106 (CSFriend_ByteSize r) (CSFriend_Serialize r)) ++
  write_if (csm_family_ m) (fun r => WriteMessage 107 (CSFamily_ByteSize r) (CSFamily_Serialize r)) ++
  write_if (csm_knapsack_ m) (fun r => WriteMessage 108 (CSKnapsack_ByteSize r) (CSKnapsack_Serialize r)) ++
  write_if (csm_stage_ m) (fun r => WriteMessage 109 (CSStage_ByteSize r) (CSStage_Serialize r)) ++
  write_if (csm_activity_ m) (fun r => WriteMessage 110 (CSActivity_ByteSize r) (CSActivity_Serialize r)) ++
  write_if (csm_battle_ m) (fun r => WriteMessage 111 (CSBattle_ByteSize r) (CSBattle_Serialize r)) ++
  write_unknown (csm_unknown m).

Definition CSMsg_ByteSize (m : CSMsg_pb) : Z :=
  size_if (csm_cmd_ m) (fun v => 1 + UInt32Size v) +
  size_if (csm_err_ m) (fun v => 1 + UInt32Size v) +
  size_if (csm_login_ m) (fun r => 2 + MessageSize (CSMsgLogin_ByteSize r)) +
  size_if (csm_test_ m) (fun r => 2 + MessageSize (CSMsgTest_ByteSize r)) +
  size_if (csm_role_ m) (fun r => 2 + MessageSize (CSMsgRole_ByteSize r)) +
  size_if (csm_task_ m) (fun r => 2 + MessageSize (CSMsgTask_ByteSize r)) +
  size_if (csm_rank_ m) (fun r => 2 + MessageSize (CSRank_ByteSize r)) +
  size_if (csm_friend_ m) (fun r => 2 + MessageSize (CSFriend_ByteSize r)) +
  size_if (csm_family_ m) (fun r => 2 + MessageSize (CSFamily_ByteSize r)) +
  size_if (csm_knapsack_ m) (fun r => 2 + MessageSize (CSKnapsack_ByteSize r)) +
  size_if (csm_stage_ m) (fun r => 2 + MessageSize (CSStage_ByteSize r)) +
  size_if (csm_activity_ m) (fun r => 2 + MessageSize (CSActivity_ByteSize r)) +
  size_if (csm_battle_ m) (fun r => 2 + MessageSize (CSBattle_ByteSize r)) +
  unknown_size (csm_unknown m).

Definition CSMsg_MergeFrom (from m : CSMsg_pb) : CSMsg_pb :=
  let m := set_if (csm_cmd_ from) csm_set_cmd m in
  let m := set_if (csm_err_ from) csm_set_err m in
  let m := set_if (csm_login_ from) (merge_sub CSMsgLogin_MergeFrom csm_login_ CSMsgLogin_new csm_set_login) m in
  let m := set_if (csm_test_ from) (merge_sub CSMsgTest_MergeFrom csm_test_ CSMsgTest_new csm_set_test) m in
  let m := set_if (csm_role_ from) (merge_sub CSMsgRole_MergeFrom csm_role_ CSMsgRole_new csm_set_role) m in
  let m := set_if (csm_task_ from) (merge_sub CSMsgTask_MergeFrom csm_task_ CSMsgTask_new csm_set_task) m in
  let m := set_if (csm_rank_ from) (merge_sub CSRank_MergeFrom csm_rank_ CSRank_new csm_set_rank) m in
  let m := set_if (csm_friend_ from) (merge_sub CSFriend_MergeFrom csm_friend_ CSFriend_new csm_set_friend) m in
  let m := set_if (csm_family_ from) (merge_sub CSFamily_MergeFrom csm_family_ CSFamily_new csm_set_family) m in
  let m := set_if (csm_knapsack_ from)
    (merge_sub CSKnapsack_MergeFrom csm_knapsack_ CSKnapsack_new csm_set_knapsack) m in
  let m := set_if (csm_stage_ from) (merge_sub CSStage_MergeFrom csm_stage_ CSStage_new csm_set_stage) m in
  let m := set_if (csm_activity_ from)
    (merge_sub CSActivity_MergeFrom csm_activity_ CSActivity_new csm_set_activity) m in
  let m := set_if (csm_battle_ from) (merge_sub CSBattle_MergeFrom csm_battle_ CSBattle_new csm_set_battle) m in
  m <| csm_unknown ::= fun u => unknown_MergeFrom u (csm_unknown from) |>.

Definition CSMsg_IsInitialized (m : CSMsg_pb) : bool :=
  bool_decide (is_Some (csm_cmd_ m))
  && sub_init CSMsgLogin_IsInitialized (csm_login_ m)
  && sub_init CSMsgTest_IsInitialized (csm_test_ m)
  && sub_init CSMsgRole_IsInitialized (csm_role_ m)
  && sub_init CSMsgTask_IsInitialized (csm_task_ m)
  && sub_init CSRank_IsInitialized (csm_rank_ m)
  && sub_init CSFriend_IsInitialized (csm_friend_ m)
  && sub_init CSFamily_IsInitialized (csm_family_ m)
  && sub_init CSKnapsack_IsInitialized (csm_knapsack_ m)
  && sub_init CSStage_IsInitialized (csm_stage_ m)
  && sub_init CSActivity_IsInitialized (csm_activity_ m)
  && sub_init CSBattle_IsInitialized (csm_battle_ m).

Definition CSMsg_ParseFromArray : bytes -> option CSMsg_pb :=
  ParseFromArray CSMsg_new CSMsg_MergePartial CSMsg_IsInitialized.

End generated.

(** ** They read what they write *)

Section generated_facts.
Context `{WireLib} {tag_bytes varint : Z -> bytes} {L : WireLaws tag_bytes varint}.

(** Text of a client is short. *)
Definition short (s : string) : Prop := strlen s <= 2 ^ 24.
Lemma short_31 o : all_of short o -> all_of (fun s => strlen s < 2 ^ 31) o.
Proof. intros Ho s E. specialize (Ho s E). unfold short in Ho. lia. Qed.

Create HintDb copies.
Hint Resolve U32Msg_copy : copies.
Lemma set_if_merge {S T} (get : T -> option S) (o : option S) (MergeFrom : S -> S -> S) new set m :
  (forall a m, get (set a m) = Some a) -> (forall r, MergeFrom r new = r) -> get m = None ->
  get (set_if o (merge_sub MergeFrom get new set) m) = o.
Proof. intros Hs Hc Hm. destruct o; simpl; [|done]. unfold merge_sub. by rewrite Hs, Hm, Hc. Qed.

(** A field of a copy, and the unknown fields of it. *)
Ltac solve_field_copy :=
  first [ reflexivity
        | apply set_if_own; [intros; reflexivity|solve_field_copy]
        | apply set_if_merge; [intros; reflexivity|eauto with copies nocore|solve_field_copy]
        | etransitivity; [apply set_if_other; intros; reflexivity|]; solve_field_copy ].
Ltac solve_copy :=
  cbv zeta;
  first
    [ match goal with |- ?g (setf _ ?X) = ?r => change (g X = r) end; solve_field_copy
    | match goal with |- ?g (setf ?f ?X) = ?r => change (f (g X) = r);
        etransitivity; [apply (f_equal f); instantiate (1 := unknown_new); solve_field_copy
                       |apply unknown_MergeFrom_new] end ].

Lemma TestInfoRsp_ok :
  MsgOk TestInfoRsp_new TestInfoRsp_MergePartial TestInfoRsp_Serialize TestInfoRsp_ByteSize u32_ranges 6.
Proof. exact U32Msg_ok. Qed.
Lemma LoginRegNotify_ok :
  MsgOk LoginRegNotify_new LoginRegNotify_MergePartial LoginRegNotify_Serialize LoginRegNotify_ByteSize u32_ranges 6.
Proof. exact U32Msg_ok. Qed.
Lemma LoginRegisterReq_ok :
  MsgOk LoginRegisterReq_new LoginRegisterReq_MergePartial LoginRegisterReq_Serialize LoginRegisterReq_ByteSize u32_ranges 6.
Proof. exact U32Msg_ok. Qed.
Lemma CSMsgTask_ok :
  MsgOk CSMsgTask_new CSMsgTask_MergePartial CSMsgTask_Serialize CSMsgTask_ByteSize u32_ranges 6.
Proof. exact U32Msg_ok. Qed.
Lemma CSRank_ok :
  MsgOk CSRank_new CSRank_MergePartial CSRank_Serialize CSRank_ByteSize u32_ranges 6.
Proof. exact U32Msg_ok. Qed.
Lemma CSFriend_ok :
  MsgOk CSFriend_new CSFriend_MergePartial CSFriend_Serialize CSFriend_ByteSize u32_ranges 6.
Proof. exact U32Msg_ok. Qed.
Lemma CSFamily_ok :
  MsgOk CSFamily_new CSFamily_MergePartial CSFamily_Serialize CSFamily_ByteSize u32_ranges 6.
Proof. exact U32Msg_ok. Qed.
Lemma CSKnapsack_ok :
  MsgOk CSKnapsack_new CSKnapsack_MergePartial CSKnapsack_Serialize CSKnapsack_ByteSize u32_ranges 6.
Proof. exact U32Msg_ok. Qed.
Lemma CSStage_ok :
  MsgOk CSStage_new CSStage_MergePartial CSStage_Serialize CSStage_ByteSize u32_ranges 6.
Proof. exact U32Msg_ok. Qed.
Lemma CSActivity_ok :
  MsgOk CSActivity_new CSActivity_MergePartial CSActivity_Serialize CSActivity_ByteSize u32_ranges 6.
Proof. exact U32Msg_ok. Qed.
Lemma CSBattle_ok :
  MsgOk CSBattle_new CSBattle_MergePartial CSBattle_Serialize CSBattle_ByteSize u32_ranges 6.
Proof. exact U32Msg_ok. Qed.
Lemma CSRoleExt_ok :
  MsgOk CSRoleExt_new CSRoleExt_MergePartial CSRoleExt_Serialize CSRoleExt_ByteSize u32_ranges 6.
Proof. exact U32Msg_ok. Qed.
Lemma CSRoleMisc_ok :
  MsgOk CSRoleMisc_new CSRoleMisc_MergePartial CSRoleMisc_Serialize CSRoleMisc_ByteSize u32_ranges 6.
Proof. exact U32Msg_ok. Qed.
Hint Resolve TestInfoRsp_ok LoginRegNotify_ok LoginRegisterReq_ok CSMsgTask_ok CSRank_ok CSFriend_ok CSFamily_ok
    CSKnapsack_ok CSStage_ok CSActivity_ok CSBattle_ok CSRoleExt_ok CSRoleMisc_ok : wire.

(** [CSRoleBase]. *)
Lemma CSRoleBase_ext (m m' : CSRoleBase_pb) :
  base_uid_ m = base_uid_ m' -> base_name_ m = base_name_ m' -> base_level_ m = base_level_ m' ->
  base_unknown m = base_unknown m' -> m = m'.
Proof. destruct m, m'. simpl. intros. by subst. Qed.
Record CSRoleBase_ranges (m : CSRoleBase_pb) : Prop := {
  base_r_uid : all_of in_u64 (base_uid_ m); base_r_name : all_of short (base_name_ m);
  base_r_level : all_of in_u32 (base_level_ m); base_r_known : base_unknown m = unknown_new
}.
Lemma CSRoleBase_table : table_ok 127 CSRoleBase_cases.
Proof. solve_table. Qed.
Lemma CSRoleBase_ok :
  MsgOk CSRoleBase_new CSRoleBase_MergePartial CSRoleBase_Serialize CSRoleBase_ByteSize CSRoleBase_ranges 16777239.
Proof.
  split.
  - intros m b. eapply MergePartial_total; [laws|apply CSRoleBase_table].
  - intros m. unfold CSRoleBase_Serialize, CSRoleBase_ByteSize. solve_size.
  - intros m Hm. unfold CSRoleBase_ByteSize. rewrite (base_r_known _ Hm), unknown_size_new.
    pose proof (size_u64 1 (base_uid_ m) ltac:(lia)).
    pose proof (size_string 1 (2 ^ 24) (base_name_ m) ltac:(lia) ltac:(lia) (base_r_name _ Hm)).
    pose proof (size_u32 1 (base_level_ m) ltac:(lia)).
    lia.
  - intros m Hm. eapply reads_all; [laws|apply CSRoleBase_table|]. unfold CSRoleBase_Serialize.
    rewrite (base_r_known _ Hm), write_unknown_new.
    read_uint64 base_set_uid (base_r_uid _ Hm).
    read_string base_set_name (short_31 _ (base_r_name _ Hm)).
    read_uint32 base_set_level (base_r_level _ Hm).
  apply reads_eq, CSRoleBase_ext; try solve_proj. symmetry. etransitivity; [apply (base_r_known _ Hm)|symmetry;
  solve_proj].
Qed.
Hint Resolve CSRoleBase_ok : wire.

Lemma CSRoleBase_copy m : CSRoleBase_MergeFrom m CSRoleBase_new = m.
Proof. unfold CSRoleBase_MergeFrom. apply CSRoleBase_ext; solve_copy. Qed.
Hint Resolve CSRoleBase_copy : copies.

(** [CSRole]. *)
Lemma CSRole_ext (m m' : CSRole_pb) :
  all_base_ m = all_base_ m' -> all_ext_ m = all_ext_ m' -> all_misc_ m = all_misc_ m' ->
  all_unknown m = all_unknown m' -> m = m'.
Proof. destruct m, m'. simpl. intros. by subst. Qed.
Record CSRole_ranges (m : CSRole_pb) : Prop := {
  all_r_base : all_of CSRoleBase_ranges (all_base_ m); all_r_ext : all_of u32_ranges (all_ext_ m);
  all_r_misc : all_of u32_ranges (all_misc_ m); all_r_known : all_unknown m = unknown_new
}.
Lemma CSRole_table : table_ok 127 CSRole_cases.
Proof. solve_table. Qed.
Lemma CSRole_ok :
  MsgOk CSRole_new CSRole_MergePartial CSRole_Serialize CSRole_ByteSize CSRole_ranges 16777269.
Proof.
  split.
  - intros m b. eapply MergePartial_total; [laws|apply CSRole_table].
  - intros m. unfold CSRole_Serialize, CSRole_ByteSize. solve_size.
  - intros m Hm. unfold CSRole_ByteSize. rewrite (all_r_known _ Hm), unknown_size_new.
    pose proof (size_message 1 (all_base_ m) CSRoleBase_ok ltac:(lia) ltac:(lia) (all_r_base _ Hm)).
    pose proof (size_message 1 (all_ext_ m) CSRoleExt_ok ltac:(lia) ltac:(lia) (all_r_ext _ Hm)).
    pose proof (size_message 1 (all_misc_ m) CSRoleMisc_ok ltac:(lia) ltac:(lia) (all_r_misc _ Hm)).
    lia.
  - intros m Hm. eapply reads_all; [laws|apply CSRole_table|]. unfold CSRole_Serialize.
    rewrite (all_r_known _ Hm), write_unknown_new.
    read_sub all_set_base CSRoleBase_ok (all_r_base _ Hm).
    read_sub all_set_ext CSRoleExt_ok (all_r_ext _ Hm).
    read_sub all_set_misc CSRoleMisc_ok (all_r_misc _ Hm).
  apply reads_eq, CSRole_ext; try solve_proj. symmetry. etransitivity; [apply (all_r_known _ Hm)|symmetry;
  solve_proj].
Qed.
Hint Resolve CSRole_ok : wire.

Lemma CSRole_copy m : CSRole_MergeFrom m CSRole_new = m.
Proof. unfold CSRole_MergeFrom. apply CSRole_ext; solve_copy. Qed.
Hint Resolve CSRole_copy : copies.

(** [CSMsgRole]. *)
Lemma CSMsgRole_ext (m m' : CSMsgRole_pb) :
  mrole_cmd_ m = mrole_cmd_ m' -> mrole_allinforsp_ m = mrole_allinforsp_ m' ->
  mrole_baseinforsp_ m = mrole_baseinforsp_ m' -> mrole_extinforsp_ m = mrole_extinforsp_ m' ->
  mrole_miscinforsp_ m = mrole_miscinforsp_ m' -> mrole_unknown m = mrole_unknown m' -> m = m'.
Proof. destruct m, m'. simpl. intros. by subst. Qed.
Record CSMsgRole_ranges (m : CSMsgRole_pb) : Prop := {
  mrole_r_cmd : all_of in_u32 (mrole_cmd_ m); mrole_r_allinforsp : all_of CSRole_ranges (mrole_allinforsp_ m);
  mrole_r_baseinforsp : all_of CSRoleBase_ranges (mrole_baseinforsp_ m);
  mrole_r_extinforsp : all_of u32_ranges (mrole_extinforsp_ m);
  mrole_r_miscinforsp : all_of u32_ranges (mrole_miscinforsp_ m); mrole_r_known : mrole_unknown m = unknown_new
}.
Lemma CSMsgRole_table : table_ok 127 CSMsgRole_cases.
Proof. solve_table. Qed.
Lemma CSMsgRole_ok :
  MsgOk CSMsgRole_new CSMsgRole_MergePartial CSMsgRole_Serialize CSMsgRole_ByteSize CSMsgRole_ranges 33554550.
Proof.
  split.
  - intros m b. eapply MergePartial_total; [laws|apply CSMsgRole_table].
  - intros m. unfold CSMsgRole_Serialize, CSMsgRole_ByteSize. solve_size.
  - intros m Hm. unfold CSMsgRole_ByteSize. rewrite (mrole_r_known _ Hm), unknown_size_new.
    pose proof (size_u32 1 (mrole_cmd_ m) ltac:(lia)).
    pose proof (size_message 1 (mrole_allinforsp_ m) CSRole_ok ltac:(lia) ltac:(lia) (mrole_r_allinforsp _ Hm)).
    pose proof (size_message 1 (mrole_baseinforsp_ m) CSRoleBase_ok ltac:(lia) ltac:(lia) (mrole_r_baseinforsp _ Hm)).
    pose proof (size_message 1 (mrole_extinforsp_ m) CSRoleExt_ok ltac:(lia) ltac:(lia) (mrole_r_extinforsp _ Hm)).
    pose proof (size_message 1 (mrole_miscinforsp_ m) CSRoleMisc_ok ltac:(lia) ltac:(lia) (mrole_r_miscinforsp _ Hm)).
    lia.
  - intros m Hm. eapply reads_all; [laws|apply CSMsgRole_table|]. unfold CSMsgRole_Serialize.
    rewrite (mrole_r_known _ Hm), write_unknown_new.
    read_uint32 mrole_set_cmd (mrole_r_cmd _ Hm).
    read_sub mrole_set_allinforsp CSRole_ok (mrole_r_allinforsp _ Hm).
    read_sub mrole_set_baseinforsp CSRoleBase_ok (mrole_r_baseinforsp _ Hm).
    read_sub mrole_set_extinforsp CSRoleExt_ok (mrole_r_extinforsp _ Hm).
    read_sub mrole_set_miscinforsp CSRoleMisc_ok (mrole_r_miscinforsp _ Hm).
  apply reads_eq, CSMsgRole_ext; try solve_proj. symmetry. etransitivity; [apply (mrole_r_known _ Hm)|symmetry;
  solve_proj].
Qed.
Hint Resolve CSMsgRole_ok : wire.

Lemma CSMsgRole_copy m : CSMsgRole_MergeFrom m CSMsgRole_new = m.
Proof. unfold CSMsgRole_MergeFrom. apply CSMsgRole_ext; solve_copy. Qed.
Hint Resolve CSMsgRole_copy : copies.

(** [CSMsgTest]. *)
Lemma CSMsgTest_ext (m m' : CSMsgTest_pb) :
  test_cmd_ m = test_cmd_ m' -> test_infrsp_ m = test_infrsp_ m' -> test_txtrsp_ m = test_txtrsp_ m' ->
  test_unknown m = test_unknown m' -> m = m'.
Proof. destruct m, m'. simpl. intros. by subst. Qed.
Record CSMsgTest_ranges (m : CSMsgTest_pb) : Prop := {
  test_r_cmd : all_of in_u32 (test_cmd_ m); test_r_infrsp : all_of u32_ranges (test_infrsp_ m);
  test_r_txtrsp : all_of short (test_txtrsp_ m); test_r_known : test_unknown m = unknown_new
}.
Lemma CSMsgTest_table : table_ok 127 CSMsgTest_cases.
Proof. solve_table. Qed.
Lemma CSMsgTest_ok :
  MsgOk CSMsgTest_new CSMsgTest_MergePartial CSMsgTest_Serialize CSMsgTest_ByteSize CSMsgTest_ranges 16777240.
Proof.
  split.
  - intros m b. eapply MergePartial_total; [laws|apply CSMsgTest_table].
  - intros m. unfold CSMsgTest_Serialize, CSMsgTest_ByteSize. solve_size.
  - intros m Hm. unfold CSMsgTest_ByteSize. rewrite (test_r_known _ Hm), unknown_size_new.
    pose proof (size_u32 1 (test_cmd_ m) ltac:(lia)).
    pose proof (size_message 1 (test_infrsp_ m) TestInfoRsp_ok ltac:(lia) ltac:(lia) (test_r_infrsp _ Hm)).
    pose proof (size_string 1 (2 ^ 24) (test_txtrsp_ m) ltac:(lia) ltac:(lia) (test_r_txtrsp _ Hm)).
    lia.
  - intros m Hm. eapply reads_all; [laws|apply CSMsgTest_table|]. unfold CSMsgTest_Serialize.
    rewrite (test_r_known _ Hm), write_unknown_new.
    read_uint32 test_set_cmd (test_r_cmd _ Hm).
    read_sub test_set_infrsp TestInfoRsp_ok (test_r_infrsp _ Hm).
    read_string test_set_txtrsp (short_31 _ (test_r_txtrsp _ Hm)).
  apply reads_eq, CSMsgTest_ext; try solve_proj. symmetry. etransitivity; [apply (test_r_known _ Hm)|symmetry;
  solve_proj].
Qed.
Hint Resolve CSMsgTest_ok : wire.

Lemma CSMsgTest_copy m : CSMsgTest_MergeFrom m CSMsgTest_new = m.
Proof. unfold CSMsgTest_MergeFrom. apply CSMsgTest_ext; solve_copy. Qed.
Hint Resolve CSMsgTest_copy : copies.

(** [CSMsgLogin]. *)
Lemma CSMsgLogin_ext (m m' : CSMsgLogin_pb) :
  login_cmd_ m = login_cmd_ m' -> login_notifyreq_ m = login_notifyreq_ m' -> login_regreq_ m = login_regreq_ m' ->
  login_unknown m = login_unknown m' -> m = m'.
Proof. destruct m, m'. simpl. intros. by subst. Qed.
Record CSMsgLogin_ranges (m : CSMsgLogin_pb) : Prop := {
  login_r_cmd : all_of in_u32 (login_cmd_ m); login_r_notifyreq : all_of u32_ranges (login_notifyreq_ m);
  login_r_regreq : all_of u32_ranges (login_regreq_ m); login_r_known : login_unknown m = unknown_new
}.
Lemma CSMsgLogin_table : table_ok 127 CSMsgLogin_cases.
Proof. solve_table. Qed.
Lemma CSMsgLogin_ok :
  MsgOk CSMsgLogin_new CSMsgLogin_MergePartial CSMsgLogin_Serialize CSMsgLogin_ByteSize CSMsgLogin_ranges 30.
Proof.
  split.
  - intros m b. eapply MergePartial_total; [laws|apply CSMsgLogin_table].
  - intros m. unfold CSMsgLogin_Serialize, CSMsgLogin_ByteSize. solve_size.
  - intros m Hm. unfold CSMsgLogin_ByteSize. rewrite (login_r_known _ Hm), unknown_size_new.
    pose proof (size_u32 1 (login_cmd_ m) ltac:(lia)).
    pose proof (size_message 1 (login_notifyreq_ m) LoginRegNotify_ok ltac:(lia) ltac:(lia) (login_r_notifyreq _ Hm)).
    pose proof (size_message 1 (login_regreq_ m) LoginRegisterReq_ok ltac:(lia) ltac:(lia) (login_r_regreq _ Hm)).
    lia.
  - intros m Hm. eapply reads_all; [laws|apply CSMsgLogin_table|]. unfold CSMsgLogin_Serialize.
    rewrite (login_r_known _ Hm), write_unknown_new.
    read_uint32 login_set_cmd (login_r_cmd _ Hm).
    read_sub login_set_notifyreq LoginRegNotify_ok (login_r_notifyreq _ Hm).
    read_sub login_set_regreq LoginRegisterReq_ok (login_r_regreq _ Hm).
  apply reads_eq, CSMsgLogin_ext; try solve_proj. symmetry. etransitivity; [apply (login_r_known _ Hm)|symmetry;
  solve_proj].
Qed.
Hint Resolve CSMsgLogin_ok : wire.

Lemma CSMsgLogin_copy m : CSMsgLogin_MergeFrom m CSMsgLogin_new = m.
Proof. unfold CSMsgLogin_MergeFrom. apply CSMsgLogin_ext; solve_copy. Qed.
Hint Resolve CSMsgLogin_copy : copies.

(** [CSMsg]. *)
Lemma CSMsg_ext (m m' : CSMsg_pb) :
  csm_cmd_ m = csm_cmd_ m' -> csm_err_ m = csm_err_ m' -> csm_login_ m = csm_login_ m' -> csm_test_ m = csm_test_ m' ->
  csm_role_ m = csm_role_ m' -> csm_task_ m = csm_task_ m' -> csm_rank_ m = csm_rank_ m' ->
  csm_friend_ m = csm_friend_ m' -> csm_family_ m = csm_family_ m' -> csm_knapsack_ m = csm_knapsack_ m' ->
  csm_stage_ m = csm_stage_ m' -> csm_activity_ m = csm_activity_ m' -> csm_battle_ m = csm_battle_ m' ->
  csm_unknown m = csm_unknown m' -> m = m'.
Proof. destruct m, m'. simpl. intros. by subst. Qed.
Record CSMsg_ranges (m : CSMsg_pb) : Prop := {
  csm_r_cmd : all_of in_u32 (csm_cmd_ m); csm_r_err : all_of in_u32 (csm_err_ m);
  csm_r_login : all_of CSMsgLogin_ranges (csm_login_ m); csm_r_test : all_of CSMsgTest_ranges (csm_test_ m);
  csm_r_role : all_of CSMsgRole_ranges (csm_role_ m); csm_r_task : all_of u32_ranges (csm_task_ m);
  csm_r_rank : all_of u32_ranges (csm_rank_ m); csm_r_friend : all_of u32_ranges (csm_friend_ m);
  csm_r_family : all_of u32_ranges (csm_family_ m); csm_r_knapsack : all_of u32_ranges (csm_knapsack_ m);
  csm_r_stage : all_of u32_ranges (csm_stage_ m); csm_r_activity : all_of u32_ranges (csm_activity_ m);
  csm_r_battle : all_of u32_ranges (csm_battle_ m); csm_r_known : csm_unknown m = unknown_new
}.
Lemma CSMsg_table : table_ok 16383 CSMsg_cases.
Proof. solve_table. Qed.
Lemma CSMsg_ok :
  MsgOk CSMsg_new CSMsg_MergePartial CSMsg_Serialize CSMsg_ByteSize CSMsg_ranges 50331957.
Proof.
  split.
  - intros m b. eapply MergePartial_total; [laws|apply CSMsg_table].
  - intros m. unfold CSMsg_Serialize, CSMsg_ByteSize. solve_size.
  - intros m Hm. unfold CSMsg_ByteSize. rewrite (csm_r_known _ Hm), unknown_size_new.
    pose proof (size_u32 1 (csm_cmd_ m) ltac:(lia)).
    pose proof (size_u32 1 (csm_err_ m) ltac:(lia)).
    pose proof (size_message 2 (csm_login_ m) CSMsgLogin_ok ltac:(lia) ltac:(lia) (csm_r_login _ Hm)).
    pose proof (size_message 2 (csm_test_ m) CSMsgTest_ok ltac:(lia) ltac:(lia) (csm_r_test _ Hm)).
    pose proof (size_message 2 (csm_role_ m) CSMsgRole_ok ltac:(lia) ltac:(lia) (csm_r_role _ Hm)).
    pose proof (size_message 2 (csm_task_ m) CSMsgTask_ok ltac:(lia) ltac:(lia) (csm_r_task _ Hm)).
    pose proof (size_message 2 (csm_rank_ m) CSRank_ok ltac:(lia) ltac:(lia) (csm_r_rank _ Hm)).
    pose proof (size_message 2 (csm_friend_ m) CSFriend_ok ltac:(lia) ltac:(lia) (csm_r_friend _ Hm)).
    pose proof (size_message 2 (csm_family_ m) CSFamily_ok ltac:(lia) ltac:(lia) (csm_r_family _ Hm)).
    pose proof (size_message 2 (csm_knapsack_ m) CSKnapsack_ok ltac:(lia) ltac:(lia) (csm_r_knapsack _ Hm)).
    pose proof (size_message 2 (csm_stage_ m) CSStage_ok ltac:(lia) ltac:(lia) (csm_r_stage _ Hm)).
    pose proof (size_message 2 (csm_activity_ m) CSActivity_ok ltac:(lia) ltac:(lia) (csm_r_activity _ Hm)).
    pose proof (size_message 2 (csm_battle_ m) CSBattle_ok ltac:(lia) ltac:(lia) (csm_r_battle _ Hm)).
    lia.
  - intros m Hm. eapply reads_all; [laws|apply CSMsg_table|]. unfold CSMsg_Serialize.
    rewrite (csm_r_known _ Hm), write_unknown_new.
    read_uint32 csm_set_cmd (csm_r_cmd _ Hm).
    read_uint32 csm_set_err (csm_r_err _ Hm).
    read_sub csm_set_login CSMsgLogin_ok (csm_r_login _ Hm).
    read_sub csm_set_test CSMsgTest_ok (csm_r_test _ Hm).
    read_sub csm_set_role CSMsgRole_ok (csm_r_role _ Hm).
    read_sub csm_set_task CSMsgTask_ok (csm_r_task _ Hm).
    read_sub csm_set_rank CSRank_ok (csm_r_rank _ Hm).
    read_sub csm_set_friend CSFriend_ok (csm_r_friend _ Hm).
    read_sub csm_set_family CSFamily_ok (csm_r_family _ Hm).
    read_sub csm_set_knapsack CSKnapsack_ok (csm_r_knapsack _ Hm).
    read_sub csm_set_stage CSStage_ok (csm_r_stage _ Hm).
    read_sub csm_set_activity CSActivity_ok (csm_r_activity _ Hm).
    read_sub csm_set_battle CSBattle_ok (csm_r_battle _ Hm).
    apply reads_eq, CSMsg_ext; try solve_proj. symmetry. etransitivity; [apply (csm_r_known _ Hm)|symmetry; solve_proj].
Qed.
Hint Resolve CSMsg_ok : wire.

Lemma CSMsg_copy m : CSMsg_MergeFrom m CSMsg_new = m.
Proof. unfold CSMsg_MergeFrom. apply CSMsg_ext; solve_copy. Qed.

End generated_facts.

(** ** The codec of the program *)

Section codec.
Context `{WireLib}.

(** The messages built with the setters and read with the accessors; of the
    parts of [CSMsg] the program uses the role. *)
Definition base_build (x : CSRoleBase) : CSRoleBase_pb :=
  mkCSRoleBase_pb (Some (rb_uid x)) (rb_name x) (rb_level x) unknown_new.
Definition base_view (m : CSRoleBase_pb) : CSRoleBase :=
  mkCSRoleBase (default 0 (base_uid_ m)) (base_name_ m) (base_level_ m).
Definition ext_build (x : CSRoleExt) : CSRoleExt_pb := mkU32Msg (re_dummy x) unknown_new.
Definition ext_view (m : CSRoleExt_pb) : CSRoleExt := mkCSRoleExt (u32_ m).
Definition misc_build (x : CSRoleMisc) : CSRoleMisc_pb := mkU32Msg (rm_dummy x) unknown_new.
Definition misc_view (m : CSRoleMisc_pb) : CSRoleMisc := mkCSRoleMisc (u32_ m).
Definition all_build (x : CSRole) : CSRole_pb :=
  mkCSRole_pb (Some (base_build (r_base x))) (Some (ext_build (r_ext x))) (Some (misc_build (r_misc x))) unknown_new.
Definition all_view (m : CSRole_pb) : CSRole :=
  mkCSRole (base_view (default CSRoleBase_new (all_base_ m))) (ext_view (default CSRoleExt_new (all_ext_ m)))
    (misc_view (default CSRoleMisc_new (all_misc_ m))).
Definition role_build (x : CSMsgRole) : CSMsgRole_pb :=
  mkCSMsgRole_pb (Some (role_cmd x)) (all_build <$> allInfoRsp x) (base_build <$> baseInfoRsp x)
    (ext_build <$> extInfoRsp x) (misc_build <$> miscInfoRsp x) unknown_new.
Definition role_view (m : CSMsgRole_pb) : CSMsgRole :=
  mkCSMsgRole (default 0 (mrole_cmd_ m)) (all_view <$> mrole_allinforsp_ m) (base_view <$> mrole_baseinforsp_ m)
    (ext_view <$> mrole_extinforsp_ m) (misc_view <$> mrole_miscinforsp_ m).
Definition csm_build (x : CSMsg) : CSMsg_pb :=
  CSMsg_new <| csm_cmd_ := Some (csm_cmd x) |> <| csm_err_ := csm_err x |> <| csm_role_ := role_build <$> csm_role x |>.
Definition csm_view (m : CSMsg_pb) : CSMsg :=
  mkCSMsg (default 0 (csm_cmd_ m)) (csm_err_ m) (role_view <$> csm_role_ m).

Definition base_representable (x : CSRoleBase) : Prop :=
  in_u64 (rb_uid x) /\ all_of short (rb_name x) /\ all_of in_u32 (rb_level x).
Definition role_representable (x : CSMsgRole) : Prop :=
  in_u32 (role_cmd x) /\
  all_of (fun r => base_representable (r_base r) /\ all_of in_u32 (re_dummy (r_ext r)) /\ all_of in_u32 (rm_dummy (r_misc r)))
    (allInfoRsp x) /\
  all_of base_representable (baseInfoRsp x) /\ all_of (fun e => all_of in_u32 (re_dummy e)) (extInfoRsp x) /\
  all_of (fun e => all_of in_u32 (rm_dummy e)) (miscInfoRsp x).

Definition CSMsg_codec : Codec CSMsg := {|
  ByteSize x := CSMsg_ByteSize (csm_build x);
  serialize x := CSMsg_Serialize (csm_build x);
  parse b := csm_view <$> CSMsg_ParseFromArray b;
  representable x := in_u32 (csm_cmd x) /\ all_of in_u32 (csm_err x) /\ all_of role_representable (csm_role x)
|}.

Context {tag_bytes varint : Z -> bytes} {L : WireLaws tag_bytes varint}.

Lemma base_in_range x : base_representable x -> CSRoleBase_ranges (base_build x).
Proof. intros (? & ? & ?). split; simpl; [by apply all_of_Some|done..]. Qed.
Lemma number_in_range o : all_of in_u32 o -> u32_ranges (mkU32Msg o unknown_new).
Proof. by split. Qed.

Lemma role_in_range x : role_representable x -> CSMsgRole_ranges (role_build x).
Proof.
  intros (Hc & Ha & Hb & He & Hm). split; simpl; [by apply all_of_Some| | | | |done]; apply all_of_fmap; intros r E.
  - destruct (Ha r E) as (H1 & H2 & H3). split; simpl; [..|done]; apply all_of_Some;
      [by apply base_in_range|by apply number_in_range|by apply number_in_range].
  - apply base_in_range, Hb, E.
  - apply number_in_range, He, E.
  - apply number_in_range, Hm, E.
Qed.

Lemma csm_in_range x : @representable _ CSMsg_codec x -> CSMsg_ranges (csm_build x).
Proof.
  intros (Hc & He & Hr). split; simpl; try done; [by apply all_of_Some|].
  apply all_of_fmap. intros r E. apply role_in_range, Hr, E.
Qed.

Lemma role_view_build x : role_view (role_build x) = x.
Proof. by destruct x as [c [[[] [] []]|] [[]|] [[]|] [[]|]]. Qed.

Lemma role_build_init x : CSMsgRole_IsInitialized (role_build x) = true.
Proof. by destruct x as [c [[[] [] []]|] [[]|] [[]|] [[]|]]. Qed.

Lemma csm_view_build x : csm_view (csm_build x) = x.
Proof. destruct x as [c e [r|]]; [|done]. unfold csm_view. simpl. by rewrite role_view_build. Qed.

Lemma csm_parse_build x :
  @representable _ CSMsg_codec x -> CSMsg_ParseFromArray (CSMsg_Serialize (csm_build x)) = Some (csm_build x).
Proof.
  intros Hx. unfold CSMsg_ParseFromArray.
  rewrite ParseFromArray_wire, (mo_reads _ _ _ _ _ _ CSMsg_ok) by (by apply csm_in_range).
  assert (CSMsg_IsInitialized (csm_build x) = true) as ->; [|done].
  destruct x as [c e [r|]]; [|done]. unfold CSMsg_IsInitialized. simpl. by rewrite role_build_init.
Qed.

(** The generated code of the messages between clients and zone servers is a
    codec: what it writes has the announced size, and a representable message
    is read back as it was. *)
Theorem CSMsg_codec_laws : @CodecLaws CSMsg CSMsg_codec.
Proof.
  split; [|intros x; apply CSMsg_ok].
  intros x Hx. simpl. rewrite csm_parse_build by done. simpl. by rewrite csm_view_build.
Qed.

(** C33. Every complete client message with its fields in range, whatever parts it
    has, is read back as it was written; its bytes are the announced size, which
    fits in an [int], and a copy of it is the same message. *)
Theorem client_message_round_trip m :
  CSMsg_ranges m -> CSMsg_IsInitialized m = true ->
  CSMsg_ParseFromArray (CSMsg_Serialize m) = Some m /\
  Z.of_nat (length (CSMsg_Serialize m)) = CSMsg_ByteSize m /\ 0 <= CSMsg_ByteSize m < 2 ^ 31 /\
  CSMsg_MergeFrom m CSMsg_new = m.
Proof.
  intros Hm Hi. split_and!.
  - unfold CSMsg_ParseFromArray. by rewrite ParseFromArray_wire, (mo_reads _ _ _ _ _ _ CSMsg_ok), Hi.
  - apply CSMsg_ok.
  - by apply CSMsg_ok.
  - pose proof (mo_bound _ _ _ _ _ _ CSMsg_ok m Hm). lia.
  - apply CSMsg_copy.
Qed.

(** C36. On every input, hostile ones too, the reader of client messages ends, and
    it gives what the plain loop without jumps between the cases gives: the
    shortcuts for fields in order change nothing. *)
Theorem client_parser_plain m b :
  CSMsg_MergePartial m b = merge_plain csm_unknown csm_set_unknown 16383 CSMsg_cases (S (length b)) m b /\
  CSMsg_MergePartial m b <> Fuel.
Proof.
  split; [eapply MergePartial_plain|eapply MergePartial_total]; (laws || apply CSMsg_table).
Qed.

End codec.

(** ** Examples on the reference wire format *)

Module ClientMsgWitness.
Import Base128.

(** A message with a part that the zone server does not read, and a role. *)
Definition message : CSMsg_pb :=
  CSMsg_new <| csm_cmd_ := Some 2 |> <| csm_task_ := Some (mkU32Msg (Some 200) []) |>
    <| csm_role_ := Some (role_build (mkCSMsgRole CSMSG_ROLE_BASE_INFO_RSP None
         (Some (mkCSRoleBase 300 (Some "ann") (Some 5))) None None)) |>.

Lemma message_ranges : CSMsg_ranges message.
Proof.
  split; simpl; try done; apply all_of_Some; try (unfold in_u32; lia).
  - apply role_in_range. split_and!; simpl; try done.
    apply all_of_Some. split_and!; simpl; try apply all_of_Some; unfold in_u32, in_u64, short, strlen; simpl; lia.
  - split; [apply all_of_Some; unfold in_u32; simpl; lia|reflexivity].
Defined.

Lemma client_message_round_trip_witness :
  CSMsg_Serialize message
    = [8; 2; 186; 6; 14; 8; 6; 26; 10; 8; 172; 2; 18; 3; 97; 110; 110; 24; 5; 194; 6; 3; 8; 200; 1] /\
  CSMsg_ParseFromArray (CSMsg_Serialize message) = Some message /\
  Z.of_nat (length (CSMsg_Serialize message)) = CSMsg_ByteSize message /\ 0 <= CSMsg_ByteSize message < 2 ^ 31 /\
  CSMsg_MergeFrom message CSMsg_new = message.
Proof.
  split; [vm_compute; reflexivity|]. apply (client_message_round_trip message message_ranges).
  vm_compute; reflexivity.
Defined.

(** Fields out of order, a field twice and an unknown one: the last [cmd] holds. *)
Definition out_of_order : bytes := [16; 4; 8; 1; 24; 9; 8; 2].
Lemma client_parser_plain_witness :
  CSMsg_MergePartial CSMsg_new out_of_order
    = Ok (CSMsg_new <| csm_cmd_ := Some 2 |> <| csm_err_ := Some 4 |> <| csm_unknown := [24; 9] |>, true) /\
  CSMsg_MergePartial CSMsg_new out_of_order
    = merge_plain csm_unknown csm_set_unknown 16383 CSMsg_cases (S (length out_of_order)) CSMsg_new out_of_order /\
  CSMsg_MergePartial CSMsg_new out_of_order <> Fuel.
Proof. split; [reflexivity|]. apply (client_parser_plain CSMsg_new out_of_order). Defined.

End ClientMsgWitness.
