(* ===== verification/TimerMgr.v ===== *)
(** * The timer manager ([component/TimerMgr.h], [component/TimerMgr.cpp])

    [TimerMgr] keeps a multimap from expiry time to timer id and a map from
    timer id to the event to fire. [Expired] walks the multimap from its
    beginning, erases each due node and runs the callback of the event that is
    still registered under the node's id; a callback may itself add or cancel
    timers, so the walk is modelled with the iterator (the address of a node)
    that the code holds across the call.

    The code behind [Time] and the signal helpers is not part of the
    repository: [uspast], [usappend] and the results of the system calls are
    arguments of the operations that use them. *)

From S2P Require Import Prelude.

Record timeval := mkTimeval { tv_sec : Z; tv_usec : Z }.

Section TimerMgr.
(** The code addresses a [TimerCallBackFunc] can hold. *)
Context {CB : Type}.

Record TimerEvent := mkTimerEvent {
  iEvent : Z;
  ulParam : Z;
  cb : option CB;
  ulExpiredTime : Z;
  dwTimerID : Z
}.

(** A node of [m_mpTimers]: key, value and the address an iterator holds. *)
Record TimerNode := mkTimerNode { nkey : Z; nid : Z; naddr : Z }.

Record TimerMgr := mkTimerMgr {
  m_lTickUs : Z;
  m_curTime : timeval;
  m_curMsTime : Z;
  m_lastTime : timeval;
  m_old_sa : bool;            (* [m_old_sa.sa_handler] is not null *)
  m_updatTickHandler : bool;  (* a handler is set *)
  m_mpTimers : list TimerNode;
  m_mpTimerEvents : gmap Z TimerEvent;
  m_mpListeners : gmap Z CB;
  dwNextTimerID : Z;
  nodeAddr : Z                (* the address of the next node allocated *)
}.

#[global] Instance eta_TimerMgr : Eta TimerMgr := fun r =>
  mkTimerMgr (m_lTickUs r) (m_curTime r) (m_curMsTime r) (m_lastTime r)
    (m_old_sa r) (m_updatTickHandler r) (m_mpTimers r) (m_mpTimerEvents r)
    (m_mpListeners r) (dwNextTimerID r) (nodeAddr r).

(** [TimerMgr::TimerMgr]. *)
Definition TimerMgr_new (tv : timeval) (ms : Z) : TimerMgr :=
  mkTimerMgr 0 tv ms tv false false [] ∅ ∅ 1 0.

Definition UpdateMsTime (t : TimerMgr) : TimerMgr :=
  t <| m_curMsTime := u64 (tv_sec (m_curTime t) * 1000 + tv_usec (m_curTime t) / 1000) |>.

Definition AddListener (event : Z) (listener : CB) : M TimerMgr Z :=
  t ← gets id;
  match m_mpListeners t !! event with
  | None => modify (fun t => t <| m_mpListeners ::= <[event := listener]> |>);; mret 0
  | Some _ => mret (-1)
  end.

(** [std::multimap::insert]: after the nodes with an equal key. *)
Fixpoint mm_insert (n : TimerNode) (l : list TimerNode) : list TimerNode :=
  match l with
  | [] => [n]
  | m :: r => if nkey n <? nkey m then n :: m :: r else m :: mm_insert n r
  end.

Definition AddTimer (msLater event : Z) (func : option CB) (param : Z) : M TimerMgr Z :=
  t ← gets id;
  let expiredTime := u64 (m_curMsTime t + msLater) in
  i ← lift (next_free (S (size (m_mpTimerEvents t))) (m_mpTimerEvents t) (dwNextTimerID t));
  modify (fun t => t
    <| m_mpTimers ::= mm_insert (mkTimerNode expiredTime i (nodeAddr t)) |>
    <| nodeAddr ::= Z.succ |>
    <| m_mpTimerEvents ::= <[i := mkTimerEvent event param func expiredTime i]> |>
    <| dwNextTimerID := u32 (i + 1) |>);;
  mret i.

Definition CancelTimer (dwEventHandle : Z) : M TimerMgr unit :=
  modify (fun t => t <| m_mpTimerEvents ::= delete dwEventHandle |>).

(** [TimerMgr::Destroy]: a handler that was saved is restored. *)
Definition Destroy : M TimerMgr unit :=
  t ← gets id;
  if m_old_sa t
  then modify (fun t => t <| m_old_sa := false |> <| m_updatTickHandler := false |>)
  else mret tt.

(** [TimerMgr::Init]: [now] is what both [Time::now] calls store, [sig] the
    result of [SignalAction] with whether a previous handler was saved, and
    [setitimer] the result of the call of that name. *)
Definition Init (now : timeval) (sig : Z * bool) (setitimer : Z)
    (lTickUs : Z) (handler : bool) : M TimerMgr Z :=
  modify (fun t => t <| m_lTickUs := lTickUs |> <| m_curTime := now |> <| m_lastTime := now |>);;
  modify UpdateMsTime;;
  if negb (fst sig =? 0) then mret (-1)
  else
    modify (fun t => t <| m_old_sa := snd sig |>);;
    if negb (setitimer =? 0) then mret (-1)
    else modify (fun t => t <| m_updatTickHandler := handler |>);; mret setitimer.

(** The state around the manager, and the effect of calling a callback. *)
Section Expired.
Context {W : Type} (tm : W -> TimerMgr) (put : TimerMgr -> W -> W).
Context (call : CB -> Z -> Z -> M W unit).

Definition on_tm {A} (m : M TimerMgr A) : M W A := zoom tm put m.

Definition find_node (a : Z) (l : list TimerNode) : option TimerNode :=
  head (filter (fun n => naddr n = a) l).

(** The iterator after the node at [a]. *)
Fixpoint node_next (a : Z) (l : list TimerNode) : option Z :=
  match l with
  | [] => None
  | n :: r => if naddr n =? a then naddr <$> head r else node_next a r
  end.

Definition erase_node (a : Z) (l : list TimerNode) : list TimerNode :=
  filter (fun n => naddr n ≠ a) l.

(** The event registered under the id of an expired node: it is removed and
    its callback, or else the listener of its event code, is called. *)
Definition fire_node (i : Z) : M W unit :=
  t ← gets tm;
  match m_mpTimerEvents t !! i with
  | Some te =>
      on_tm (modify (fun t => t <| m_mpTimerEvents ::= delete i |>));;
      match cb te with
      | Some f => call f (iEvent te) (ulParam te)
      | None => match m_mpListeners t !! iEvent te with
                | Some f => call f (iEvent te) (ulParam te)
                | None => mret tt
                end
      end
  | None => mret tt
  end.

(** The loop of [TimerMgr::Expired]; [it] is the iterator, [None] is [end()]. *)
Fixpoint Expired_loop (fuel : nat) (it : option Z) : M W unit :=
  match fuel with
  | O => crash
  | S fuel =>
      match it with
      | None => mret tt
      | Some a =>
          t ← gets tm;
          n ← lift (find_node a (m_mpTimers t));
          if nkey n <=? m_curMsTime t then
            let it' := node_next a (m_mpTimers t) in
            on_tm (modify (fun t => t <| m_mpTimers ::= erase_node a |>));;
            fire_node (nid n);;
            Expired_loop fuel it'
          else mret tt
      end
  end.

Definition Expired (fuel : nat) : M W unit :=
  t ← gets tm;
  Expired_loop fuel (naddr <$> head (m_mpTimers t)).

(** [TimerMgr::UpdateTick], the handler of [SIGALRM]. *)
Definition UpdateTick (uspast : timeval -> timeval -> Z)
    (usappend : timeval -> Z -> timeval) (tick : timeval -> Z -> M W unit)
    (tvNow : timeval) (fuel : nat) : M W unit :=
  t ← gets tm;
  let lElapseTime := i32 (uspast tvNow (m_lastTime t)) in
  on_tm (modify (fun t => UpdateMsTime (t <| m_curTime := usappend (m_curTime t) lElapseTime |>)
                            <| m_lastTime := tvNow |>));;
  (if 10000 <? lElapseTime then Expired fuel else mret tt);;
  t ← gets tm;
  if m_updatTickHandler t then tick (m_curTime t) lElapseTime else mret tt.

End Expired.
End TimerMgr.

Arguments TimerEvent : clear implicits.
Arguments TimerMgr : clear implicits.

(** ** Invariant *)

(** The multimap is sorted, iterators are distinct and already allocated, and
    every registered event has the node that will expire it. *)
Record TimerInv {CB} (t : TimerMgr CB) : Prop := {
  inv_sorted : StronglySorted (fun a b => nkey a <= nkey b) (m_mpTimers t);
  inv_addr : NoDup (naddr <$> m_mpTimers t);
  inv_alloc : Forall (fun n => naddr n < nodeAddr t) (m_mpTimers t);
  inv_next : 0 <= dwNextTimerID t < 2 ^ 32;
  inv_range : forall i te, m_mpTimerEvents t !! i = Some te -> 0 <= i < 2 ^ 32;
  inv_event : forall i te, m_mpTimerEvents t !! i = Some te ->
    dwTimerID te = i /\
    exists n, n ∈ m_mpTimers t /\ nid n = i /\ nkey n = ulExpiredTime te
}.

Section facts.
Context {CB : Type}.
Implicit Types (t : TimerMgr CB) (l : list TimerNode).

Lemma mm_insert_perm n l : mm_insert n l ≡ₚ n :: l.
Proof.
  induction l as [|x l IH]; simpl; [done|].
  destruct (_ <? _); [done|]. rewrite IH. constructor.
Qed.

Lemma elem_of_mm_insert n m l : m ∈ mm_insert n l <-> m = n \/ m ∈ l.
Proof. by rewrite mm_insert_perm, elem_of_cons. Qed.

Lemma mm_insert_sorted n l :
  StronglySorted (fun a b => nkey a <= nkey b) l ->
  StronglySorted (fun a b => nkey a <= nkey b) (mm_insert n l).
Proof.
  induction 1 as [|x l Hs IH Hx]; simpl; [repeat constructor|].
  destruct (Z.ltb_spec (nkey n) (nkey x)).
  - constructor; [by constructor|]. constructor; [lia|].
    eapply Forall_impl; [exact Hx|]. simpl; lia.
  - constructor; [done|]. rewrite mm_insert_perm. by constructor.
Qed.

Lemma AddTimer_run t ms ev f p :
  TimerInv t -> Z.of_nat (size (m_mpTimerEvents t)) < 2 ^ 32 ->
  wp (AddTimer ms ev f p) (fun i t' =>
    0 <= i < 2 ^ 32 /\ m_mpTimerEvents t !! i = None /\
    let e := u64 (m_curMsTime t + ms) in
    t' = t <| m_mpTimers ::= mm_insert (mkTimerNode e i (nodeAddr t)) |>
           <| nodeAddr ::= Z.succ |>
           <| m_mpTimerEvents ::= <[i := mkTimerEvent ev p f e i]> |>
           <| dwNextTimerID := u32 (i + 1) |>) t.
Proof.
  intros Hinv Hsz. unfold AddTimer. wp_steps.
  destruct (next_free_total (m_mpTimerEvents t) (dwNextTimerID t)) as (j & Hj & Hn & Hr);
    [apply Hinv|done|].
  eapply wp_lift; [exact Hj|]. wp_steps. done.
Qed.

Lemma AddTimer_inv_aux t ms ev f p i :
  TimerInv t -> 0 <= i < 2 ^ 32 -> m_mpTimerEvents t !! i = None ->
  let e := u64 (m_curMsTime t + ms) in
  TimerInv (t <| m_mpTimers ::= mm_insert (mkTimerNode e i (nodeAddr t)) |>
              <| nodeAddr ::= Z.succ |>
              <| m_mpTimerEvents ::= <[i := mkTimerEvent ev p f e i]> |>
              <| dwNextTimerID := u32 (i + 1) |>).
Proof.
  intros [Hs Ha Hl Hn Hrg He] Hi Hnone e. split; simpl.
  - by apply mm_insert_sorted.
  - rewrite mm_insert_perm. simpl. constructor; [|done].
    intros (n & E & Hin)%list_elem_of_fmap.
    pose proof (proj1 (Forall_forall _ _) Hl n Hin). simpl in *. lia.
  - rewrite mm_insert_perm. constructor; simpl; [lia|].
    eapply Forall_impl; [exact Hl|]. simpl; lia.
  - apply u32_bound.
  - intros j te [[<- _]|[_ H]]%lookup_insert_Some; [done|eauto].
  - intros j te [[<- <-]|[Hne H]]%lookup_insert_Some; simpl.
    + split; [done|]. eexists. rewrite elem_of_mm_insert. eauto.
    + destruct (He j te H) as (? & n & ? & ?). split; [done|].
      exists n. rewrite elem_of_mm_insert. eauto.
Qed.

Lemma CancelTimer_inv t i : TimerInv t -> wp (CancelTimer i) (fun _ => TimerInv) t.
Proof.
  intros [Hs Ha Hl Hn Hrg He]. unfold CancelTimer. wp_steps. split; simpl; auto.
  - intros j te [_ H]%lookup_delete_Some. eauto.
  - intros j te [_ H]%lookup_delete_Some. eauto.
Qed.

(** C8. [AddTimer] terminates with an id that no registered event has, records
    exactly the event it was given under that id with the expiry time
    [now + msLater] (as an unsigned 64-bit sum), leaves every other event as it
    was, and keeps the manager's invariant. *)
Theorem AddTimer_correct t ms ev f p :
  TimerInv t -> Z.of_nat (size (m_mpTimerEvents t)) < 2 ^ 32 ->
  exists i t', AddTimer ms ev f p t = Some (i, t') /\
    m_mpTimerEvents t !! i = None /\
    m_mpTimerEvents t' =
      <[i := mkTimerEvent ev p f (u64 (m_curMsTime t + ms)) i]> (m_mpTimerEvents t) /\
    TimerInv t'.
Proof.
  intros Hinv Hsz.
  destruct (wp_run _ _ _ (AddTimer_run t ms ev f p Hinv Hsz)) as (i & t' & E & Hi & Hn & ->).
  eexists i, _. split; [exact E|]. split; [done|]. split; [done|].
  by apply AddTimer_inv_aux.
Qed.

End facts.

(** ** The expiry walk *)

(** The call that expiring node [n] makes: the event's own callback, or else
    the listener of its event code; none when the event was cancelled. *)
Definition node_call {CB} (t : TimerMgr CB) (n : TimerNode) : option (CB * Z * Z) :=
  te ← m_mpTimerEvents t !! nid n;
  f ← match cb te with Some f => Some f | None => m_mpListeners t !! iEvent te end;
  Some (f, iEvent te, ulParam te).

Definition is_due (now : Z) (n : TimerNode) : Prop := nkey n <= now.
#[export] Instance is_due_dec now n : Decision (is_due now n).
Proof. unfold is_due. apply _. Defined.

Lemma lookup_foldl_delete {A} (l : list Z) (m : gmap Z A) i :
  foldl (fun m i => delete i m) m l !! i = if decide (i ∈ l) then None else m !! i.
Proof.
  revert m. induction l as [|j l IH]; intros m; cbn [foldl].
  - rewrite decide_False; [done|apply not_elem_of_nil].
  - rewrite IH. destruct (decide (i ∈ l)).
    + rewrite decide_True; [done|by constructor].
    + destruct (decide (i = j)) as [->|].
      * rewrite lookup_delete_eq, decide_True; [done|constructor].
      * rewrite lookup_delete_ne, decide_False by set_solver. done.
Qed.

Section expired_facts.
Context {CB W : Type} (tm : W -> TimerMgr CB) (put : TimerMgr CB -> W -> W).
Context (call : CB -> Z -> Z -> M W unit) (log : W -> list (CB * Z * Z)).
Hypothesis tm_put : forall t w, tm (put t w) = t.
Hypothesis log_put : forall t w, log (put t w) = log w.
(** The callbacks of this section are observers: a call is logged and leaves
    the timers alone. *)
Hypothesis call_spec : forall f e p w,
  wp (call f e p) (fun _ w' => tm w' = tm w /\ log w' = log w ++ [(f, e, p)]) w.

Lemma fire_node_spec n w :
  wp (fire_node tm put call (nid n)) (fun _ w' =>
    tm w' = tm w <| m_mpTimerEvents ::= delete (nid n) |> /\
    log w' = log w ++ option_list (node_call (tm w) n)) w.
Proof.
  unfold fire_node, node_call. wp_steps.
  destruct (m_mpTimerEvents (tm w) !! nid n) as [te|] eqn:E; simpl.
  - wp_steps. unfold on_tm. apply wp_zoom. wp_steps.
    assert (forall f, wp (call f (iEvent te) (ulParam te))
      (fun _ w' => tm w' = tm w <| m_mpTimerEvents ::= delete (nid n) |> /\
                   log w' = log w ++ [(f, iEvent te, ulParam te)])
      (put (tm w <| m_mpTimerEvents ::= delete (nid n) |>) w)) as Hc.
    { intros f. eapply wp_mono; [apply call_spec|]. simpl.
      intros _ w' [-> ->]. by rewrite tm_put, log_put. }
    destruct (cb te) as [f|]; simpl; [apply Hc|].
    destruct (m_mpListeners (tm w) !! iEvent te) as [f|]; simpl; [apply Hc|].
    wp_steps. by rewrite tm_put, log_put, app_nil_r.
  - wp_steps. rewrite app_nil_r. split; [|done].
    destruct (tm w) eqn:Et; simpl in *. unfold setf. simpl. f_equal.
    by rewrite delete_id.
Qed.

Lemma node_call_delete (t : TimerMgr CB) n m :
  nid n <> nid m -> node_call (t <| m_mpTimerEvents ::= delete (nid n) |>) m = node_call t m.
Proof. intros Hne. unfold node_call. simpl. by rewrite lookup_delete_ne. Qed.

Lemma omap_node_call_delete (t : TimerMgr CB) n l :
  Forall (fun m => nid n <> nid m) l ->
  omap (node_call (t <| m_mpTimerEvents ::= delete (nid n) |>)) l = omap (node_call t) l.
Proof.
  induction 1 as [|m l Hm _ IH]; [done|]. simpl.
  rewrite (node_call_delete t n m Hm). destruct (node_call t m); [f_equal|]; exact IH.
Qed.

Lemma erase_head n l :
  NoDup (naddr <$> n :: l) -> erase_node (naddr n) (n :: l) = l.
Proof.
  intros [Hn Hl]%NoDup_cons. unfold erase_node.
  rewrite filter_cons_False by (intros H; by apply H).
  apply filter_every, Forall_forall. intros x Hx Heq. apply Hn.
  apply list_elem_of_fmap. by exists x.
Qed.

Lemma Expired_loop_spec l w :
  let now := m_curMsTime (tm w) in
  m_mpTimers (tm w) = l ->
  StronglySorted (fun a b => nkey a <= nkey b) l ->
  NoDup (naddr <$> l) -> NoDup (nid <$> l) ->
  wp (Expired_loop tm put call (S (length l)) (naddr <$> head l)) (fun _ w' =>
    log w' = log w ++ omap (node_call (tm w)) (filter (is_due now) l) /\
    tm w' = tm w <| m_mpTimers := filter (fun n => ~ is_due now n) l |>
                 <| m_mpTimerEvents ::= fun ev =>
                      foldl (fun m i => delete i m) ev (nid <$> filter (is_due now) l) |>) w.
Proof.
  revert w. induction l as [|n l IH]; intros w now Hl Hs Ha Hi; cbn [length Expired_loop head].
  - simpl. wp_steps. split; [by rewrite app_nil_r|].
    destruct (tm w) eqn:Et. simpl in *. by subst.
  - simpl fmap. cbv iota. wp_steps. eapply wp_lift.
    { rewrite Hl. unfold find_node. by rewrite filter_cons_True. }
    inversion Hs as [|? ? Hs' Hn]; subst.
    apply NoDup_cons in Hi as [Hni Hi'].
    destruct (Z.leb_spec (nkey n) (m_curMsTime (tm w))) as [Hd|Hd].
    + wp_steps. unfold on_tm at 1. apply wp_zoom. wp_steps.
      eapply wp_mono; [apply fire_node_spec|]. simpl. intros _ w1 [Ht1 Hl1].
      rewrite tm_put in Ht1, Hl1. rewrite log_put in Hl1.
      rewrite Hl. simpl. rewrite Z.eqb_refl.
      specialize (IH w1). rewrite Ht1 in IH. simpl in IH. rewrite Hl in IH.
      eapply wp_mono; [apply IH|].
      * by apply erase_head.
      * done.
      * by apply NoDup_cons in Ha as [_ Ha].
      * done.
      * intros _ w2 [Hl2 Ht2]. rewrite Hl2, Ht2, Hl1.
        rewrite filter_cons_True by done.
        rewrite (filter_cons_False (fun n => ~ is_due now n)) by (intros Hx; apply Hx; exact Hd).
        simpl. split; [|done].
        rewrite <- app_assoc. f_equal.
        change (node_call _ n) with (node_call (tm w) n).
        rewrite <- (omap_node_call_delete (tm w) n (filter (is_due now) l)).
        { by destruct (node_call (tm w) n). }
        rewrite Forall_forall. intros m [_ Hm]%list_elem_of_filter E.
        apply Hni. rewrite E. by apply list_elem_of_fmap_2.
    + wp_steps.
      assert (Forall (fun m => ~ is_due now m) (n :: l)) as Hall.
      { constructor; [unfold is_due, now; lia|]. eapply Forall_impl; [exact Hn|].
        unfold is_due, now; simpl; lia. }
      rewrite (filter_none (is_due now) (n :: l)), (filter_every _ (n :: l)) by done.
      simpl. rewrite app_nil_r. split; [done|].
      destruct (tm w) eqn:Et. simpl in *. by subst.
Qed.

(** C7. With observer callbacks, [Expired] terminates and makes exactly the
    calls of the due nodes, in the order of their expiry times; it leaves
    exactly the nodes that are not due, keeps every event that has such a node
    and drops the events of the nodes it expired. *)
Theorem Expired_correct w :
  TimerInv (tm w) -> NoDup (nid <$> m_mpTimers (tm w)) ->
  let now := m_curMsTime (tm w) in
  let due := filter (is_due now) (m_mpTimers (tm w)) in
  exists w', Expired tm put call (S (length (m_mpTimers (tm w)))) w = Some (tt, w') /\
    log w' = log w ++ omap (node_call (tm w)) due /\
    m_mpTimers (tm w') = filter (fun n => ~ is_due now n) (m_mpTimers (tm w)) /\
    (forall i, m_mpTimerEvents (tm w') !! i =
       if decide (i ∈ nid <$> due) then None else m_mpTimerEvents (tm w) !! i).
Proof.
  intros Hinv Hnd now due.
  destruct (wp_run _ _ _ (Expired_loop_spec (m_mpTimers (tm w)) w eq_refl
    (inv_sorted _ Hinv) (inv_addr _ Hinv) Hnd)) as ([] & w' & E & Hl & Ht).
  exists w'. split; [exact E|]. split; [exact Hl|]. rewrite Ht. split; [done|].
  intros i. apply lookup_foldl_delete.
Qed.

(** A tick of at most 10 ms runs no timer: it only advances the clock. With
    the default tick interval of 100 microseconds a timer fires only after a
    tick that was late by two orders of magnitude. *)
Theorem UpdateTick_short uspast usappend tick now fuel w :
  m_updatTickHandler (tm w) = false ->
  i32 (uspast now (m_lastTime (tm w))) <= 10000 ->
  exists w', UpdateTick tm put call uspast usappend tick now fuel w = Some (tt, w') /\
    log w' = log w /\ m_mpTimers (tm w') = m_mpTimers (tm w) /\
    m_mpTimerEvents (tm w') = m_mpTimerEvents (tm w).
Proof.
  intros Hh He. apply wp_run_unit. unfold UpdateTick. wp_steps.
  apply wp_zoom. wp_steps.
  destruct (Z.ltb_spec 10000 (i32 (uspast now (m_lastTime (tm w))))) as [|_]; [lia|].
  wp_steps. rewrite tm_put. simpl. rewrite Hh. wp_steps. by rewrite tm_put, log_put.
Qed.

End expired_facts.

(** ** Witnesses

    A manager at time 1000 ms with two timers (the first due), whose callbacks
    append to a log beside it. *)

Module TimerWitness.

Definition W : Type := TimerMgr Z * list (Z * Z * Z).
Definition put (t : TimerMgr Z) (w : W) : W := (t, snd w).
Definition call (f e p : Z) : M W unit := modify (fun w => (fst w, snd w ++ [(f, e, p)])).

Definition t0 : TimerMgr Z := TimerMgr_new (mkTimeval 1 0) 1000.
Definition t1 : TimerMgr Z :=
  mkTimerMgr 100 (mkTimeval 1 0) 1000 (mkTimeval 1 0) false false
    [mkTimerNode 900 1 0; mkTimerNode 2000 2 1]
    {[1 := mkTimerEvent 7 70 (Some 5) 900 1; 2 := mkTimerEvent 8 80 None 2000 2]}
    ∅ 3 2.

Lemma t0_inv : TimerInv t0.
Proof. by repeat constructor. Qed.

Lemma t1_inv : TimerInv t1.
Proof.
  split; simpl.
  - repeat constructor; simpl; lia.
  - rewrite !NoDup_cons. repeat split; [set_solver|set_solver|constructor].
  - repeat constructor; simpl; lia.
  - lia.
  - intros i te [[<- _]|[_ [<- _]%lookup_singleton_Some]]%lookup_insert_Some; lia.
  - intros i te [[<- <-]|[_ [<- <-]%lookup_singleton_Some]]%lookup_insert_Some; simpl.
    + split; [done|]. eexists. split; [left|done].
    + split; [done|]. eexists. split; [right; left|done].
Qed.

Lemma AddTimer_correct_witness :
  exists i t', AddTimer 50 7 (Some 5) 70 t0 = Some (i, t') /\
    m_mpTimerEvents t0 !! i = None /\
    m_mpTimerEvents t' = <[i := mkTimerEvent 7 70 (Some 5) (u64 1050) i]> (m_mpTimerEvents t0) /\
    TimerInv t'.
Proof. apply (AddTimer_correct t0 50 7 (Some 5) 70 t0_inv). reflexivity. Defined.

Lemma Expired_correct_witness :
  exists w', Expired fst put call 3 (t1, []) = Some (tt, w') /\
    snd w' = [(5, 7, 70)] /\
    m_mpTimers (fst w') = [mkTimerNode 2000 2 1].
Proof.
  destruct (Expired_correct fst put call snd (fun _ _ => eq_refl) (fun _ _ => eq_refl)
    (fun f e p w => conj eq_refl eq_refl) (t1, []) t1_inv) as (w' & E & Hl & Ht & _).
  - simpl. rewrite !NoDup_cons. repeat split; [set_solver|set_solver|constructor].
  - exists w'. split; [exact E|]. split; [exact Hl|exact Ht].
Defined.

Lemma UpdateTick_short_witness :
  exists w', UpdateTick fst put call (fun a b => tv_usec a - tv_usec b)
      (fun t us => mkTimeval (tv_sec t) (tv_usec t + us)) (fun _ _ => mret tt)
      (mkTimeval 1 100) 0 (t1, []) = Some (tt, w') /\
    snd w' = [] /\ m_mpTimers (fst w') = m_mpTimers t1 /\
    m_mpTimerEvents (fst w') = m_mpTimerEvents t1.
Proof.
  apply (UpdateTick_short fst put call snd (fun _ _ => eq_refl) (fun _ _ => eq_refl)).
  - reflexivity.
  - vm_compute. discriminate.
Defined.

End TimerWitness.
