(* ===== verification/Config.v ===== *)
(** * Configuration ([component/ConfigParser.cpp], [component/IniConfigParser.cpp])

    [ConfigParser] holds a tree of configuration values and renders it;
    [IniConfigParser] reads and writes them through the [iniparser] library,
    putting keys without a section into the section of the root name. The
    library is the class [IniLib]: a dictionary from ["section:key"] entries to
    values. *)

From S2P Require Import Prelude CString Extern.

(** ** [iniparser] *)

Class IniLib := {
  dictionary : Type;
  iniparser_load : string -> option dictionary;
  dictionary_new : option dictionary;
  iniparser_secnames : dictionary -> list string;
  iniparser_find_entry : dictionary -> string -> bool;
  iniparser_getseckeys : dictionary -> string -> list string;
  iniparser_getstring : dictionary -> string -> option string;
  iniparser_getint : dictionary -> string -> Z -> Z;
  iniparser_getdouble : forall R : Type, dictionary -> string -> R -> R;
  iniparser_set : dictionary -> string -> string -> Z * dictionary;
  lowercase : string -> string  (* keys are compared in lower case *)
}.

(** [iniparser_set] stores: a later lookup of the entry gives the value, every
    other entry is as it was. *)
Class IniLaws `{IniLib} : Prop := {
  ini_set_ok : forall d k v, fst (iniparser_set d k v) = 0;
  ini_get_set : forall d k v k',
    iniparser_getstring (snd (iniparser_set d k v)) k' =
    if decide (lowercase k' = lowercase k) then Some v else iniparser_getstring d k'
}.

(** ** [ConfigParser] *)

#[warnings="-register-all"]
Inductive ConfigValue := CV (key value : string) (dic : list ConfigValue).

Definition cv_key (v : ConfigValue) : string := let '(CV k _ _) := v in k.
Definition cv_value (v : ConfigValue) : string := let '(CV _ x _) := v in x.
Definition cv_dic (v : ConfigValue) : list ConfigValue := let '(CV _ _ d) := v in d.

Definition str_concat (l : list string) : string := foldr String.append "" l.

(** [VisualConfig(s, v, level, prefix)] returns [s] with the lines of [v]. *)
Fixpoint VisualConfig (s : string) (v : ConfigValue) (level : nat) (prefix : string) : string :=
  let indent := str_concat (replicate level prefix) in
  match v with
  | CV key value [] => s +:+ indent +:+ key +:+ " <- [" +:+ value +:+ "]" +:+ String "010"%char ""
  | CV key value dic =>
      foldl (fun s c => VisualConfig s c (S level) prefix)
        (s +:+ indent +:+ key +:+ " <- [" +:+ "]" +:+ String "010"%char "") dic
  end.

Section IniConfigParser.
Context {I : IniLib}.

(** [IniConfigParser], with the base class's [rootValue]. *)
Record IniConfigParser := mkIni { rootValue : ConfigValue; ini_dic : option dictionary }.
#[global] Instance eta_IniConfigParser : Eta IniConfigParser := fun r =>
  mkIni (rootValue r) (ini_dic r).

(** [ConfigParser::SetRootName]. *)
Definition SetRootName (pszRootName : option string) (p : IniConfigParser) : IniConfigParser :=
  p <| rootValue := CV (default "root" pszRootName) (cv_value (rootValue p)) (cv_dic (rootValue p)) |>.

Definition IniConfigParser_new : IniConfigParser :=
  SetRootName None (mkIni (CV "" "" []) None).

Definition root_key (p : IniConfigParser) : string := cv_key (rootValue p).

(** The entry a key without section stands for. *)
Definition real_key (root k : string) : string :=
  if negb (String.eqb k root) && bool_decide (find_char ":" k = None)
  then root +:+ ":" +:+ k else k.

(** [GetConfig(v, bIsSec)]; the fuel bounds the nesting of sections. *)
Fixpoint GetConfig (fuel : nat) (d : dictionary) (root : string) (v : ConfigValue)
    (bIsSec : bool) : option (Z * ConfigValue) :=
  match fuel with
  | O => None
  | S fuel =>
    let key := if bIsSec then cv_key v else real_key root (cv_key v) in
    if bool_decide (find_char ":" (cv_key v) = None) && iniparser_find_entry d (cv_key v) then
      dic ← foldl (fun acc k =>
        acc ← acc;
        '(r, cv) ← GetConfig fuel d root (CV k "" []) false;
        if r =? 0 then
          if (String.length k <? String.length (cv_key v) + 1)%nat then None (* substr throws *)
          else Some (acc ++ [CV (String.substring (String.length (cv_key v) + 1) (String.length k) k)
                                (cv_value cv) (cv_dic cv)])
        else Some acc) (Some []) (iniparser_getseckeys d (cv_key v));
      Some (0, CV (cv_key v) (cv_value v) dic)
    else match iniparser_getstring d key with
         | None => Some (-1, v)
         | Some sv => Some (0, CV (cv_key v) sv (cv_dic v))
         end
  end.

(** [ReadConfigFile]. *)
Definition ReadConfigFile (fuel : nat) (file : string) : M IniConfigParser Z :=
  let dic := iniparser_load file in
  modify (fun p => p <| ini_dic := dic |>);;
  match dic with
  | None => mret (-1)
  | Some d =>
      p ← gets (fun p => p);
      r ← lift (GetConfig fuel d (root_key p) (rootValue p) false);
      modify (fun p => p <| rootValue := snd r |>);;
      foldl (fun acc sec =>
        acc;;
        p ← gets (fun p => p);
        if String.eqb (root_key p) sec then mret 0
        else
          r ← lift (GetConfig fuel d (root_key p) (CV sec "" []) true);
          modify (fun p => p <| rootValue ::= fun rv =>
                    CV (cv_key rv) (cv_value rv) (cv_dic rv ++ [snd r]) |>);;
          mret 0) (mret 0) (iniparser_secnames d)
  end.

(** The typed lookups. A null dictionary is dereferenced by the library. *)
Definition GetConfigInt (pszKey : string) (defaultValue : Z) : M IniConfigParser Z :=
  p ← gets (fun p => p);
  d ← lift (ini_dic p);
  mret (iniparser_getint d (real_key (root_key p) pszKey) defaultValue).

Definition GetConfigString (pszKey : string) (pszDefault : option string) : M IniConfigParser string :=
  p ← gets (fun p => p);
  d ← lift (ini_dic p);
  mret (default (default "" pszDefault) (iniparser_getstring d (real_key (root_key p) pszKey))).

Definition GetConfigReal {R : Type} (pszKey : string) (defaultValue : R) : M IniConfigParser R :=
  p ← gets (fun p => p);
  d ← lift (ini_dic p);
  mret (iniparser_getdouble R d (real_key (root_key p) pszKey) defaultValue).

(** The section and the entry [CreateConfig] writes for a leaf. *)
Definition section_of (root k : string) : string :=
  match find_char ":" k with
  | Some idx => String.substring 0 idx k
  | None => root
  end.

Definition entry_of (root k : string) : string :=
  match find_char ":" k with
  | Some _ => k
  | None => root +:+ ":" +:+ k
  end.

(** [CreateConfig]: [key] is the key with its parents' in front. *)
Fixpoint CreateConfig_at (key : string) (v : ConfigValue) : M IniConfigParser Z :=
  match v with
  | CV _ value [] =>
      p ← gets (fun p => p);
      d ← lift (ini_dic p);
      let section := section_of (root_key p) key in
      let d := if iniparser_find_entry d section then d
               else snd (iniparser_set d section "") in
      let '(r, d) := iniparser_set d (entry_of (root_key p) key) value in
      modify (fun p => p <| ini_dic := Some d |>);;
      mret r
  | CV _ _ dic =>
      foldl (fun acc c => acc;; CreateConfig_at (key +:+ ":" +:+ cv_key c) c;; mret 0) (mret 0) dic
  end.

Definition CreateConfig (v : ConfigValue) : M IniConfigParser Z := CreateConfig_at (cv_key v) v.

(** [Create]. *)
Definition Create (pszRootName : option string) : M IniConfigParser Z :=
  p ← gets (fun p => p);
  assert (match ini_dic p with None => true | Some _ => false end);;
  match dictionary_new with
  | None => mret (-1)
  | Some d => modify (fun p => SetRootName pszRootName (p <| ini_dic := Some d |>));; mret 0
  end.

End IniConfigParser.

(** ** Writing a tree and reading its leaves back *)

Fixpoint ConfigValue_ind' (P : ConfigValue -> Prop)
    (H : forall k x dic, Forall P dic -> P (CV k x dic)) (v : ConfigValue) : P v :=
  match v with
  | CV k x dic => H k x dic ((fix go (l : list ConfigValue) : Forall P l :=
      match l with
      | [] => Forall_nil_2 P
      | c :: l => Forall_cons_2 P c l (ConfigValue_ind' P H c) (go l)
      end) dic)
  end.

(** The leaves of a value with their full keys, in the order they are written. *)
Fixpoint leaves (key : string) (v : ConfigValue) : list (string * string) :=
  match v with
  | CV _ value [] => [(key, value)]
  | CV _ _ dic => concat ((fun c => leaves (key +:+ ":" +:+ cv_key c) c) <$> dic)
  end.

Section config_facts.
Context `{!IniLib, !IniLaws}.

Definition write_leaf (root : string) (d : dictionary) (kv : string * string) : dictionary :=
  let section := section_of root (fst kv) in
  let d := if iniparser_find_entry d section then d else snd (iniparser_set d section "") in
  snd (iniparser_set d (entry_of root (fst kv)) (snd kv)).

Lemma CreateConfig_at_run v key p d :
  ini_dic p = Some d ->
  CreateConfig_at key v p =
    Some (0, p <| ini_dic := Some (foldl (write_leaf (root_key p)) d (leaves key v)) |>).
Proof.
  revert key p d. induction v as [k x dic IH] using ConfigValue_ind'; intros key p d Hd.
  destruct dic as [|c dic]; cbn [CreateConfig_at leaves].
  - unfold gets, mbind, M_bind, lift. rewrite Hd. simpl.
    unfold write_leaf. simpl.
    pose proof (ini_set_ok (if iniparser_find_entry d (section_of (root_key p) key) then d
      else snd (iniparser_set d (section_of (root_key p) key) "")) (entry_of (root_key p) key) x) as Hok.
    destruct (iniparser_set _ (entry_of _ _) x) as [r d'].
    simpl in *. by subst.
  - revert IH. generalize (c :: dic) as l. clear c dic. intros l IH.
    assert (forall m p0, m p0 = Some (0, p <| ini_dic := Some d |>) -> 
      foldl (fun acc c => acc;; CreateConfig_at (key +:+ ":" +:+ cv_key c) c;; mret 0) m l p0 =
      Some (0, p <| ini_dic := Some (foldl (write_leaf (root_key p)) d
         (concat ((fun c => leaves (key +:+ ":" +:+ cv_key c) c) <$> l))) |>)) as Hgen.
    { clear Hd. revert d. induction IH as [|c l Hc _ IHl]; intros d m p0 Hm; simpl; [done|].
      rewrite foldl_app. apply IHl.
      rewrite (bind_run _ _ _ _ _ Hm).
      erewrite bind_run; [|by apply Hc]. done. }
    apply Hgen. unfold mret, M_ret. destruct p; simpl in *. by subst.
Qed.

Lemma getstring_write_leaf root d kv k :
  lowercase k <> lowercase (section_of root (fst kv)) ->
  iniparser_getstring (write_leaf root d kv) k =
    if decide (lowercase k = lowercase (entry_of root (fst kv))) then Some (snd kv)
    else iniparser_getstring d k.
Proof.
  intros Hs. unfold write_leaf. rewrite ini_get_set. destruct (decide _); [done|].
  destruct (iniparser_find_entry _ _); [done|]. by rewrite ini_get_set, decide_False.
Qed.

Lemma getstring_write_leaves root l d k :
  Forall (fun kv => lowercase k <> lowercase (section_of root (fst kv))) l ->
  (Forall (fun kv => lowercase k <> lowercase (entry_of root (fst kv))) l ->
     iniparser_getstring (foldl (write_leaf root) d l) k = iniparser_getstring d k).
Proof.
  intros Hs He. revert d. induction Hs as [|kv l Hkv Hs IH]; intros d; simpl; [done|].
  apply Forall_cons in He as [He1 He2]. rewrite IH by done.
  rewrite getstring_write_leaf by done. by rewrite decide_False.
Qed.

Lemma real_key_entry root k : k <> root -> real_key root k = entry_of root k.
Proof.
  intros Hk. unfold real_key, entry_of. destruct (String.eqb_spec k root); [done|].
  simpl. by destruct (find_char ":" k).
Qed.

(** What [CreateConfig] writes, [GetConfigString] reads back: for every
    leaf of the value, at any depth, the lookup of its full key gives its
    value, provided that no two leaves have the same entry and no entry is the
    name of a section (entries are compared as the library does), and that the
    key is not the bare name of the root section. *)
Theorem CreateConfig_GetConfigString (p : IniConfigParser) d v :
  ini_dic p = Some d ->
  let root := root_key p in
  let ls := leaves (cv_key v) v in
  NoDup ((fun kv => lowercase (entry_of root (fst kv))) <$> ls) ->
  (forall kv kv', kv ∈ ls -> kv' ∈ ls ->
     lowercase (entry_of root (fst kv)) <> lowercase (section_of root (fst kv'))) ->
  exists p', CreateConfig v p = Some (0, p') /\
    forall k x dflt, (k, x) ∈ ls -> k <> root -> GetConfigString k dflt p' = Some (x, p').
Proof.
  intros Hd root ls Hnd Hsec. eexists. split; [by apply CreateConfig_at_run|].
  intros k x dflt Hin Hk. unfold GetConfigString, gets, mbind, M_bind, lift. simpl.
  fold root ls. unfold mret, M_ret. do 2 f_equal.
  change (real_key _ k) with (real_key root k). rewrite real_key_entry by done.
  pose proof (fun kv => Hsec _ kv Hin) as Hk'. clear Hsec. revert Hnd Hk'.
  apply list_elem_of_split in Hin as (l1 & l2 & ->). intros Hnd Hk'.
  rewrite foldl_app. simpl. rewrite getstring_write_leaves.
  - rewrite getstring_write_leaf; [by rewrite decide_True|].
    apply (Hk' (k, x)). apply elem_of_app. right. left.
  - apply Forall_forall. intros kv Hkv. apply (Hk' kv), elem_of_app. by do 2 right.
  - apply Forall_forall. intros kv Hkv Heq. rewrite fmap_app, fmap_cons in Hnd.
    apply NoDup_app in Hnd as (_ & _ & [Hn _]%NoDup_cons). apply Hn. simpl. rewrite Heq.
    by apply (list_elem_of_fmap_2 (fun kv => lowercase (entry_of root (fst kv)))).
Qed.

End config_facts.

(** ** Witness *)

Module ConfigWitness.

#[export] Instance ini : IniLib := {
  dictionary := gmap string string;
  iniparser_load _ := Some ∅;
  dictionary_new := Some ∅;
  iniparser_secnames _ := [];
  iniparser_find_entry d k := bool_decide (is_Some (d !! k));
  iniparser_getseckeys _ _ := [];
  iniparser_getstring d k := d !! k;
  iniparser_getint d k z := match d !! k with Some v => strtol v | None => z end;
  iniparser_getdouble R _ _ r := r;
  iniparser_set d k v := (0, <[k := v]> d);
  lowercase k := k
}.

#[export] Instance ini_laws : IniLaws.
Proof.
  split; [done|]. intros d k v k'. simpl. destruct (decide (k' = k)) as [->|].
  - apply lookup_insert_eq.
  - by rewrite lookup_insert_ne.
Qed.

Definition p0 : IniConfigParser := mkIni (CV "root" "" []) (Some ∅).
Definition v0 : ConfigValue := CV "gate" "" [CV "max" "500" []; CV "port" "52100" []].

Lemma CreateConfig_GetConfigString_witness :
  exists p', CreateConfig v0 p0 = Some (0, p') /\
    GetConfigString "gate:port" None p' = Some ("52100", p').
Proof.
  destruct (CreateConfig_GetConfigString p0 ∅ v0 eq_refl) as (p' & E & H).
  - refine (bool_decide_eq_true_1 (NoDup _) _). vm_compute. reflexivity.
  - intros kv kv' Hkv Hkv'. cbn in Hkv, Hkv'.
    rewrite !elem_of_cons, elem_of_nil in Hkv, Hkv'.
    destruct Hkv as [->|[->|[]]], Hkv' as [->|[->|[]]]; vm_compute; discriminate.
  - exists p'. split; [exact E|]. apply H; [|discriminate].
    right. left.
Defined.

End ConfigWitness.
