(* ===== verification/ConfigCenter.v ===== *)
(** * The configuration center ([datacenter/ConfigCenter.cpp])

    A key-value store shared by the processes, kept in a Redis database that is
    reached through [hiredis]. A command is the list of its arguments (the
    format's [%s] never splits an argument). *)

From S2P Require Import Prelude CString Extern.

Inductive ReplyType := REPLY_STRING | REPLY_NIL | REPLY_ERROR | REPLY_STATUS | REPLY_INTEGER.
#[export] Instance ReplyType_eq_dec : EqDecision ReplyType.
Proof. solve_decision. Defined.

Record redisReply := mkReply { rtype : ReplyType; rstr : option string; rinteger : Z }.

(** [hiredis]: a connection attempt gives no context, or one that may carry an
    error; a command gives no reply when the connection is broken. *)
Class Redis := {
  redisContext : Type;
  redisConnect : string -> Z -> option (redisContext * bool);
  redisCommand : list string -> redisContext -> option redisReply * redisContext
}.

(** [STRNCPY(dst, cap, src)] of the base library: the string left in [dst]. *)
Class CommonMacro := { STRNCPY : Z -> string -> string }.

(** The server is a map with the documented meaning of the four commands. *)
Class RedisLaws `{Redis} (store : redisContext -> gmap string string) : Prop := {
  redis_get : forall k c, exists c',
    redisCommand ["GET"; k] c =
      (Some (match store c !! k with
             | Some v => mkReply REPLY_STRING (Some v) 0
             | None => mkReply REPLY_NIL None 0
             end), c') /\ store c' = store c;
  redis_set : forall k v c, exists c',
    redisCommand ["SET"; k; v] c = (Some (mkReply REPLY_STATUS (Some "OK") 0), c') /\
    store c' = <[k := v]> (store c);
  redis_del : forall k c, exists n c',
    redisCommand ["DEL"; k] c = (Some (mkReply REPLY_INTEGER None n), c') /\
    store c' = delete k (store c)
}.

Section ConfigCenter.
Context {R : Redis} {B : BufferLib} {C : CommonMacro}.

(** [m_ctx]: null, a live context or one that was freed. *)
Inductive CtxPtr := CtxNull | CtxLive (c : redisContext) | CtxFreed.

Record ConfigCenter := mkConfigCenter { m_ctx : CtxPtr; m_buffer : Buffer }.
#[global] Instance eta_ConfigCenter : Eta ConfigCenter := fun r =>
  mkConfigCenter (m_ctx r) (m_buffer r).

Definition ConfigCenter_new : option ConfigCenter :=
  Some (mkConfigCenter CtxNull (default (mkBuffer 0 0 []) (buffer_Create (1024 * 1024)))).

(** [redisCommand(m_ctx, ...)]: using a null or freed context is undefined; the
    reply is freed when the caller returns. *)
Definition command (args : list string) : M ConfigCenter (option redisReply) :=
  s ← gets m_ctx;
  match s with
  | CtxLive c => let '(r, c') := redisCommand args c in
                 modify (fun s => s <| m_ctx := CtxLive c' |>);; mret r
  | _ => crash
  end.

Definition Destroy : M ConfigCenter unit :=
  s ← gets m_ctx;
  match s with
  | CtxNull => mret tt
  | CtxLive _ => modify (fun s => s <| m_ctx := CtxNull |>)
  | CtxFreed => crash (* redisFree of a freed context *)
  end;;
  modify (fun s => s <| m_buffer ::= buffer_Destroy |>).

Definition HeartBeat : M ConfigCenter Z :=
  r ← command ["PING"];
  r ← lift r;
  if decide (rtype r = REPLY_ERROR) then mret (-1) else mret 0.

Definition Init (host : string) (port dbidx : Z) : M ConfigCenter Z :=
  modify (fun s => s <| m_ctx := CtxNull |>);;
  match redisConnect host port with
  | None => mret (-1)
  | Some (c, true) => modify (fun s => s <| m_ctx := CtxFreed |>);; mret (-1)
  | Some (c, false) =>
      modify (fun s => s <| m_ctx := CtxLive c |>);;
      command ["SELECT"; print_d dbidx];;
      HeartBeat
  end.

Definition RemoveConfig (pszKey pszConfigName : string) : M ConfigCenter Z :=
  r ← command ["DEL"; pszConfigName +:+ ":" +:+ pszKey];
  r ← lift r;
  if decide (rtype r = REPLY_ERROR) then mret (-1) else mret 0.

Definition GetConfig (pszKey pszConfigName : string) : M ConfigCenter (option string) :=
  r ← command ["GET"; pszConfigName +:+ ":" +:+ pszKey];
  r ← lift r;
  if decide (rtype r = REPLY_NIL) then mret None
  else match rstr r with
       | None => mret None
       | Some str =>
           if decide (rtype r = REPLY_ERROR) then mret None
           else
             b ← gets m_buffer;
             mret (Some (STRNCPY (iCap b) str))
       end.

Definition SetConfig (pszKey pszValue pszConfigName : string) : M ConfigCenter Z :=
  r ← command ["SET"; pszConfigName +:+ ":" +:+ pszKey; pszValue];
  r ← lift r;
  if decide (rtype r = REPLY_ERROR) then mret (-1) else mret 0.

Definition SetConfigInt (pszKey : string) (value : Z) (pszConfigName : string) : M ConfigCenter Z :=
  SetConfig pszKey (snprintf 20 (print_d value)) pszConfigName.

Definition GetConfigInt (pszKey : string) (defaultvalue : Z) (pszConfigName : string)
    : M ConfigCenter Z :=
  pv ← GetConfig pszKey pszConfigName;
  match pv with
  | None => mret defaultvalue
  | Some pv => mret (atoi pv)
  end.

End ConfigCenter.

Section center_facts.
Context {R : Redis} {B : BufferLib} {C : CommonMacro} {store : redisContext -> gmap string string}.
Context `{!RedisLaws store}.
(** The copy into the 1 MB buffer keeps a value that fits. *)
Hypothesis STRNCPY_fits : forall cap s, strlen s < cap -> STRNCPY cap s = s.

Definition center_store (s : ConfigCenter) : option (gmap string string) :=
  match m_ctx s with CtxLive c => Some (store c) | _ => None end.

Lemma SetConfig_run k v n (s : ConfigCenter) m :
  center_store s = Some m ->
  exists s', SetConfig k v n s = Some (0, s') /\
    center_store s' = Some (<[n +:+ ":" +:+ k := v]> m) /\ m_buffer s' = m_buffer s.
Proof.
  unfold center_store. destruct s as [[|c|] b]; intros E; simplify_eq/=.
  destruct (redis_set (n +:+ ":" +:+ k) v c) as (c' & Ec & Hc').
  unfold SetConfig, command, mbind, M_bind, gets. simpl. rewrite Ec. simpl.
  eexists. split; [done|]. simpl. by rewrite Hc'.
Qed.

Lemma GetConfig_run k n (s : ConfigCenter) m :
  center_store s = Some m ->
  exists s', GetConfig k n s = Some (STRNCPY (iCap (m_buffer s)) <$> m !! (n +:+ ":" +:+ k), s') /\
    center_store s' = Some m /\ m_buffer s' = m_buffer s.
Proof.
  unfold center_store. destruct s as [[|c|] b]; intros E; simplify_eq/=.
  destruct (redis_get (n +:+ ":" +:+ k) c) as (c' & Ec & Hc').
  unfold GetConfig, command, mbind, M_bind, gets. simpl. rewrite Ec. simpl.
  destruct (store c !! _); simpl; (eexists; split; [done|]; simpl; by rewrite Hc').
Qed.

(** Round trip through the configuration center: an integer that was set is
    read back, whatever the default, and a key under another configuration name
    or another key keeps what it had. *)
Theorem SetConfigInt_GetConfigInt k n v (s : ConfigCenter) m :
  center_store s = Some m -> - 2 ^ 31 <= v < 2 ^ 31 -> 20 <= iCap (m_buffer s) ->
  exists s', SetConfigInt k v n s = Some (0, s') /\
    (forall d, exists s'', GetConfigInt k d n s' = Some (v, s'')) /\
    (forall k' n', n' +:+ ":" +:+ k' <> n +:+ ":" +:+ k -> exists s'',
       GetConfig k' n' s' = Some (STRNCPY (iCap (m_buffer s)) <$> m !! (n' +:+ ":" +:+ k'), s'')).
Proof.
  intros Hm Hv Hcap. pose proof (length_print_d v Hv) as Hlen.
  unfold SetConfigInt. rewrite snprintf_fits by lia.
  destruct (SetConfig_run k (print_d v) n s m Hm) as (s' & Es & Hs' & Hb).
  exists s'. split; [done|]. split.
  - intros d. destruct (GetConfig_run k n s' _ Hs') as (s'' & Eg & _).
    exists s''. unfold GetConfigInt. rewrite (bind_run _ _ _ _ _ Eg).
    rewrite lookup_insert_eq. simpl. rewrite Hb, STRNCPY_fits by (unfold strlen; lia).
    by rewrite atoi_print_d.
  - intros k' n' Hne. destruct (GetConfig_run k' n' s' _ Hs') as (s'' & Eg & _).
    exists s''. rewrite Eg, lookup_insert_ne by done. by rewrite Hb.
Qed.

End center_facts.

(** A connection attempt that returns a context with an error makes [Init]
    free the context but keep the pointer: the destructor's [Destroy] then
    frees it a second time. *)
Theorem Init_error_double_free {R : Redis} {B : BufferLib} {C : CommonMacro}
    (s : ConfigCenter) host port db c :
  redisConnect host port = Some (c, true) ->
  exists s', Init host port db s = Some (-1, s') /\ Destroy s' = None.
Proof.
  intros E. unfold Init, mbind, M_bind, modify. rewrite E. simpl.
  eexists. split; [done|]. reflexivity.
Qed.

(** ** Witnesses *)

Module CenterWitness.
Import Reference.

#[export] Instance redis : Redis := {
  redisContext := gmap string string;
  redisConnect host _ := Some (∅, String.eqb host "down");
  redisCommand args c :=
    match args with
    | ["GET"; k] => (Some (match c !! k with
                           | Some v => mkReply REPLY_STRING (Some v) 0
                           | None => mkReply REPLY_NIL None 0
                           end), c)
    | ["SET"; k; v] => (Some (mkReply REPLY_STATUS (Some "OK") 0), <[k := v]> c)
    | ["DEL"; k] => (Some (mkReply REPLY_INTEGER None 1), delete k c)
    | _ => (Some (mkReply REPLY_STATUS (Some "PONG") 0), c)
    end
}.
Definition store (c : @redisContext redis) : gmap string string := c.
#[export] Instance redis_laws : RedisLaws store.
Proof. split; [intros k c; by exists c|intros k v c; by eexists|intros k c; by eexists _, _]. Qed.
#[export] Instance macro : CommonMacro := {
  STRNCPY cap s := String.substring 0 (Z.to_nat (cap - 1)) s
}.

Lemma STRNCPY_ok cap s : strlen s < cap -> STRNCPY cap s = s.
Proof. unfold strlen. intros. simpl. apply substring_all. lia. Qed.

Definition s0 : ConfigCenter := mkConfigCenter (CtxLive (∅ : gmap string string)) (mkBuffer 1024 0 []).

Lemma SetConfigInt_GetConfigInt_witness :
  exists s', SetConfigInt "max" 500 "gate" s0 = Some (0, s') /\
    exists s'', GetConfigInt "max" 0 "gate" s' = Some (500, s'').
Proof.
  destruct (SetConfigInt_GetConfigInt (store := store) STRNCPY_ok
    "max" "gate" 500 s0 ∅ eq_refl) as (s' & E & H & _).
  - lia.
  - simpl. lia.
  - exists s'. split; [exact E|]. apply H.
Defined.

Lemma Init_error_double_free_witness :
  exists s', Init "down" 6379 0 s0 = Some (-1, s') /\ Destroy s' = None.
Proof. apply (Init_error_double_free s0 "down" 6379 0 ∅). reflexivity. Defined.

End CenterWitness.
