(* ===== verification/AppContext.v ===== *)
(** * The application context ([app/AppContext.h], [app/AppContext.cpp])

    The common configuration of every process: it is read from an ini file
    through [IniConfigParser], and the addresses of the channels are resolved
    and registered in the [ConfigCenter]. Derived contexts add their own keys
    in [OnInit] and [OnGenerateDefaultConfig], which are arguments here. *)

From S2P Require Import Prelude CString Extern Config ConfigCenter TimerMgr.

Record ChannelConfig := mkChannelConfig { chnl_name : string; channelAddr : string }.
Record ConfigCenterAddr := mkCCAddr { cc_ip : string; cc_port : Z; cc_dbidx : Z }.

Section AppContext.
Context {I : IniLib} {R : Redis} {B : BufferLib} {C : CommonMacro}.

Record AppContext := mkAppContext {
  parser : IniConfigParser;
  channelName : string;
  localChannelName : string;
  localChannelAddr : string;
  channels : list ChannelConfig;
  tickCountUs : Z;
  tickPollCount : Z;
  curTime : timeval;
  uniq_process : Z;
  lockFilePath : string;
  hook_coredump : Z;
  daemon : Z;
  closing : Z;
  runTime : timeval;
  confcenter : ConfigCenterAddr
}.
#[global] Instance eta_AppContext : Eta AppContext := fun r =>
  mkAppContext (parser r) (channelName r) (localChannelName r) (localChannelAddr r)
    (channels r) (tickCountUs r) (tickPollCount r) (curTime r) (uniq_process r)
    (lockFilePath r) (hook_coredump r) (daemon r) (closing r) (runTime r) (confcenter r).

(** The context and the singleton it talks to. *)
Record CtxW := mkCtxW { ctx : AppContext; cc : ConfigCenter }.
#[global] Instance eta_CtxW : Eta CtxW := fun r => mkCtxW (ctx r) (cc r).

Definition on_ctx (f : AppContext -> AppContext) : M CtxW unit := modify (fun w => w <| ctx ::= f |>).
Definition on_cc {A} (m : M ConfigCenter A) : M CtxW A := zoom cc (fun c w => w <| cc := c |>) m.
Definition on_parser {A} (m : M IniConfigParser A) : M CtxW A :=
  zoom (fun w => parser (ctx w)) (fun p w => w <| ctx ::= fun c => c <| parser := p |> |>) m.

Definition cfg_int (k : string) (d : Z) : M CtxW Z := on_parser (Config.GetConfigInt k d).
Definition cfg_str (k : string) (d : option string) : M CtxW string :=
  on_parser (Config.GetConfigString k d).

(** The key ["channel:info#<i+1>:<field>"]. *)
Definition info_key (i : nat) (field : string) : string :=
  snprintf 64 ("channel:info#" +:+ print_d (Z.of_nat i + 1) +:+ ":" +:+ field).

(** The loop over the channels: [n] channels are left, [i] is the index. *)
Fixpoint Init_channels (n i : nat) : M CtxW Z :=
  match n with
  | O => mret 0
  | S n =>
      name ← cfg_str (info_key i "name") None;
      pszChName ← on_cc (ConfigCenter.GetConfig name "");
      cfg_str (info_key i "addr") None;;
      match pszChName with
      | None => mret (-1)
      | Some addr =>
          on_ctx (fun c => c <| channels ::= fun l => l ++ [mkChannelConfig name addr] |>);;
          Init_channels n (S i)
      end
  end.

(** The registration of the process's own channel address. *)
Definition Init_local : M CtxW Z :=
  c ← gets ctx;
  pszLocalChAddr ← on_cc (ConfigCenter.GetConfig (localChannelName c) "");
  match pszLocalChAddr with
  | None =>
      if 0 <? strlen (localChannelAddr c)
      then on_cc (ConfigCenter.SetConfig (localChannelName c) (localChannelAddr c) "");; mret 0
      else mret (-1)
  | Some a => if String.eqb (localChannelAddr c) a then mret 0 else mret (-1)
  end.

Definition Init (fuel : nat) (OnInit : M CtxW Z) (pszConfigFile : option string) : M CtxW Z :=
  match pszConfigFile with
  | None => mret (-1)
  | Some file =>
      r ← on_parser (ReadConfigFile fuel file);
      if negb (r =? 0) then mret (-2)
      else
        ip ← cfg_str "configcenter:ip" None;
        port ← cfg_int "configcenter:port" 0;
        dbidx ← cfg_int "configcenter:dbidx" 0;
        on_ctx (fun c => c <| confcenter := mkCCAddr ip port dbidx |>);;
        ret ← on_cc (ConfigCenter.Init ip port dbidx);
        if negb (ret =? 0) then mret (-1)
        else
          tick ← cfg_int "tick_count_us" 100;
          poll ← cfg_int "tick_poll_num" 1;
          uniq ← cfg_int "uniq_process" 0;
          lock ← cfg_str "file_lock_path" (Some "./lock.file");
          dmn ← cfg_int "daemon" 0;
          hook ← cfg_int "hook_coredump" 0;
          ichnlNum ← cfg_int "channel:num" (-1);
          name ← cfg_str "channel:name" None;
          lname ← cfg_str "channel:local:name" None;
          laddr ← cfg_str "channel:local:addr" None;
          on_ctx (fun c => c <| tickCountUs := tick |> <| tickPollCount := poll |>
            <| uniq_process := uniq |> <| lockFilePath := lock |> <| daemon := dmn |>
            <| hook_coredump := hook |> <| channels := [] |> <| channelName := name |>
            <| localChannelName := lname |> <| localChannelAddr := laddr |>);;
          r ← Init_local;
          if negb (r =? 0) then mret (-1)
          else
            r ← Init_channels (Z.to_nat ichnlNum) 0;
            if negb (r =? 0) then mret (-1)
            else
              on_ctx (fun c => c <| closing := 0 |> <| runTime := mkTimeval 0 0 |>);;
              ret ← OnInit;
              on_cc ConfigCenter.Destroy;;
              mret ret
  end.

(** The default configuration: file names derived from the program's, and the
    table of keys. *)
Definition conf_file (f : string) : string :=
  (if has_sub ".conf" f then f else f +:+ ".conf") +:+ ".default".
Definition log_file (f : string) : string := if has_sub ".log" f then f else f +:+ ".log".
Definition lock_file (f : string) : string := if has_sub ".lock" f then f else f +:+ ".lock".

Definition default_kv (f : string) : list (string * string) :=
  [("log_file", log_file f); ("log_file_size", "10240"); ("log_max_file_num", "20");
   ("log_min_level", "2"); ("daemon", "0"); ("hook_coredump", "0");
   ("tick_count_us", "10000"); ("tick_poll_num", "1"); ("uniq_process", "1");
   ("file_lock_path", lock_file f); ("console:ip", "127.0.0.1"); ("console:port", "51000");
   ("channel:name", "ch"); ("channel:local:addr", "tcp://127.0.0.1:51010");
   ("channel:local:name", "gate:1"); ("channel:num", "1");
   ("channel:info#1:addr", "tcp://127.0.0.1:52010"); ("channel:info#1:name", "agent:1");
   ("configcenter:ip", "127.0.0.1"); ("configcenter:port", "6379"); ("configcenter:dbidx", "0")].

(** The loop [while(kv[i][0])] over a table of defaults. *)
Fixpoint create_all (kv : list (string * string)) : M IniConfigParser unit :=
  match kv with
  | [] => mret tt
  | (k, v) :: kv => CreateConfig (CV k v []);; create_all kv
  end.

(** The result is what [DumpConfig] writes: the file name and the parser. *)
Definition GenerateDefaultConfig (OnGenerateDefaultConfig : M CtxW unit) (pszConfigFile : string)
    : M CtxW (string * IniConfigParser) :=
  on_parser (Config.Create None);;
  on_parser (create_all (default_kv pszConfigFile));;
  OnGenerateDefaultConfig;;
  p ← gets (fun w => parser (ctx w));
  mret (conf_file pszConfigFile, p).

End AppContext.

#[export] Hint Unfold on_ctx on_cc on_parser : wp_unfold.

Section context_facts.
Context {I : IniLib} {R : Redis} {B : BufferLib} {C : CommonMacro}.
Context {store : redisContext -> gmap string string} `{!RedisLaws store}.

(** The value an ini key without default has. *)
Definition cfg_value (w : CtxW) (k : string) : string :=
  match ini_dic (parser (ctx w)) with
  | Some d => default "" (iniparser_getstring d (real_key (root_key (parser (ctx w))) k))
  | None => ""
  end.

(** What the configuration center of [w] answers for a key. *)
Definition center_value (w : CtxW) (m : gmap string string) (k : string) : option string :=
  STRNCPY (iCap (m_buffer (cc w))) <$> m !! ("" +:+ ":" +:+ k).

(** The channels [i .. i+n-1] of the configuration, each with the address that
    the center has for its name. *)
Definition resolve (w : CtxW) (m : gmap string string) (n i : nat) : option (list ChannelConfig) :=
  mapM (fun j => let name := cfg_value w (info_key j "name") in
                 mkChannelConfig name <$> center_value w m name) (seq i n).

Lemma wp_cfg_str w d k Q :
  ini_dic (parser (ctx w)) = Some d -> Q (cfg_value w k) w -> wp (cfg_str k None) Q w.
Proof.
  intros Hd HQ. unfold cfg_str, Config.GetConfigString. autounfold with wp_unfold.
  apply wp_zoom. wp_steps. eapply wp_lift; [exact Hd|]. wp_steps.
  unfold cfg_value in HQ. rewrite Hd in HQ. by destruct w as [[]].
Qed.

Lemma wp_center_get w m k Q :
  center_store (store := store) (cc w) = Some m ->
  (forall w', ctx w' = ctx w -> center_store (store := store) (cc w') = Some m ->
     m_buffer (cc w') = m_buffer (cc w) -> Q (center_value w m k) w') ->
  wp (on_cc (ConfigCenter.GetConfig k "")) Q w.
Proof.
  intros Hm HQ. autounfold with wp_unfold. apply wp_zoom.
  destruct (GetConfig_run (store := store) k "" (cc w) m Hm) as (s' & E & Hs & Hb).
  unfold wp. rewrite E. by apply HQ.
Qed.

(** The loop over [channel:info#i] resolves the channels of the
    configuration: when the center knows every name, the list is extended in
    order by each name with the address the center has for it (the address of
    the ini file is not used); when it does not know one, the result is [-1]. *)
Theorem Init_channels_resolves n i (w : CtxW) d m :
  ini_dic (parser (ctx w)) = Some d -> center_store (store := store) (cc w) = Some m ->
  exists r w', Init_channels n i w = Some (r, w') /\
    match resolve w m n i with
    | Some l => r = 0 /\ channels (ctx w') = channels (ctx w) ++ l
    | None => r = -1
    end.
Proof.
  intros Hd Hm. apply wp_run.
  revert i w Hd Hm. induction n as [|n IH]; intros i w Hd Hm; cbn [Init_channels].
  - wp_steps. unfold resolve. simpl. by rewrite app_nil_r.
  - wp_steps. eapply wp_cfg_str; [exact Hd|]. wp_steps.
    eapply wp_center_get; [exact Hm|]. intros w1 Hc1 Hm1 Hb1. wp_steps.
    eapply wp_cfg_str; [by rewrite Hc1|].
    unfold resolve. cbn [seq mapM].
    destruct (center_value w m (cfg_value w (info_key i "name"))) as [addr|] eqn:Ea; simpl.
    + wp_steps. eapply wp_mono; [apply IH; simpl; [by rewrite Hc1|done]|].
      intros r w2. unfold resolve. 
      rewrite (mapM_ext _ (fun j => mkChannelConfig (cfg_value w (info_key j "name")) <$>
        center_value w m (cfg_value w (info_key j "name")))).
      2:{ intros j. unfold cfg_value, center_value. simpl. by rewrite Hc1, Hb1. }
      destruct (mapM _ (seq (S i) n)) as [l|]; simpl; [|done].
      intros [-> ->]. rewrite Hc1, <- app_assoc. done.
    + by wp_steps.
Qed.

(** Registration of the process's own channel: on success the center holds
    exactly the configured local address under the configured name, and a
    process whose address differs from the registered one is refused. *)
Theorem Init_local_registers (w : CtxW) m :
  center_store (store := store) (cc w) = Some m ->
  let k := "" +:+ ":" +:+ localChannelName (ctx w) in
  (forall a, m !! k = Some a -> STRNCPY (iCap (m_buffer (cc w))) a = a) ->
  exists r w', Init_local w = Some (r, w') /\ ctx w' = ctx w /\
    (r = 0 \/ r = -1) /\
    (r = 0 -> center_store (store := store) (cc w') = Some (<[k := localChannelAddr (ctx w)]> m)) /\
    (forall a, m !! k = Some a -> a <> localChannelAddr (ctx w) -> r = -1).
Proof.
  intros Hm k Hcpy. apply wp_run. unfold Init_local. wp_steps.
  eapply wp_center_get; [exact Hm|]. intros w1 Hc1 Hm1 Hb1.
  unfold center_value. fold k. destruct (m !! k) as [a|] eqn:Ek; simpl.
  - rewrite Hcpy by done. destruct (String.eqb_spec (localChannelAddr (ctx w)) a) as [<-|Hne]; wp_steps.
    + split_and!; [done|by left|intros _; by rewrite insert_id|congruence].
    + split_and!; [done|by right|done|done].
  - destruct (0 <? strlen (localChannelAddr (ctx w))); wp_steps.
    + apply wp_zoom.
      destruct (SetConfig_run (store := store) (localChannelName (ctx w))
        (localChannelAddr (ctx w)) "" (cc w1) m Hm1) as (s' & E & Hs & _).
      unfold wp. rewrite E. split_and!; [done|by left|done|done].
    + split_and!; [done|by right|done|done].
Qed.

End context_facts.

(** ** Witnesses *)

Module AppContextWitness.
Import Reference ConfigWitness CenterWitness.

Definition dic : gmap string string :=
  {[ "channel:info#1:name" := "agent:1"; "channel:info#2:name" := "agent:2" ]}.
Definition reg : gmap string string := {[ ":agent:1" := "tcp://a1"; ":agent:2" := "tcp://a2" ]}.

Definition w0 : CtxW := mkCtxW
  (mkAppContext (mkIni (CV "root" "" []) (Some dic)) "ch" "gate:1" "tcp://g1" [] 100 1
     (mkTimeval 0 0) 0 "" 0 0 0 (mkTimeval 0 0) (mkCCAddr "" 0 0))
  (mkConfigCenter (CtxLive reg) (mkBuffer 1024 0 [])).

Lemma Init_channels_resolves_witness :
  exists w', Init_channels 2 0 w0 = Some (0, w') /\
    channels (ctx w') = [mkChannelConfig "agent:1" "tcp://a1"; mkChannelConfig "agent:2" "tcp://a2"].
Proof.
  destruct (Init_channels_resolves (store := store) 2 0 w0 dic reg eq_refl eq_refl)
    as (r & w' & E & H).
  assert (resolve w0 reg 2 0 = Some [mkChannelConfig "agent:1" "tcp://a1";
    mkChannelConfig "agent:2" "tcp://a2"]) as Hr by (vm_compute; reflexivity).
  rewrite Hr in H. destruct H as [-> H]. by exists w'.
Defined.

Lemma Init_local_registers_witness :
  exists w', Init_local w0 = Some (0, w') /\
    center_store (store := store) (cc w') = Some (<[":gate:1" := "tcp://g1"]> reg).
Proof.
  destruct (Init_local_registers (store := store) w0 reg eq_refl) as (r & w' & E & _ & _ & H & _).
  - intros a Ha. vm_compute in Ha. discriminate.
  - assert (fst <$> Init_local w0 = Some 0) as E0 by (vm_compute; reflexivity).
    rewrite E in E0. injection E0 as ->. exists w'. split; [exact E|]. by apply H.
Defined.

End AppContextWitness.
