(* ===== verification/Channel.v ===== *)
(** * Channels ([channel/Channel.cpp], [channel/ChannelAgent.cpp],
      [channel/ChannelMessage.h])

    A channel is one end of a ZeroMQ connection: a local channel receives, a
    remote one sends. A message is two frames, a head ["name|sequence"] and the
    payload. The channel reads the name of the agent that owns it, so the
    operations act on a [ChannelAgent]. *)

From S2P Require Import Prelude CString Extern.

Definition CHANNEL_MODE_INVALID : Z := 0.
Definition CHANNEL_MODE_LOCAL : Z := 1.
Definition CHANNEL_MODE_REMOTE : Z := 2.

(** [pData] points into the channel's receive buffer: the bytes from there. *)
Record ChannelMessage := mkChannelMessage {
  iSrc : Z;
  msg_seqence : Z;
  dwSize : Z;
  pData : bytes
}.
#[global] Instance eta_ChannelMessage : Eta ChannelMessage := fun r =>
  mkChannelMessage (iSrc r) (msg_seqence r) (dwSize r) (pData r).

(** The two constructors of [ChannelMessage]; the fields they leave
    uninitialised are [0]. *)
Definition ChannelMessage_new : ChannelMessage := mkChannelMessage (-1) 0 0 [].
Definition ChannelMessage_of (buff : Buffer) : ChannelMessage :=
  mkChannelMessage 0 0 (u32 (iUsed buff)) (pBuffer buff).

Definition msg_bytes (m : ChannelMessage) : bytes := take (Z.to_nat (dwSize m)) (pData m).

Section Channel.
Context {Z0 : Zmq} {B0 : BufferLib} {S0 : StringUtil}.

Record Channel := mkChannel {
  mode : Z;
  sender : option zsock;
  receiver : option zsock;
  seqence : Z;
  rcvBuffer : Buffer;
  msg_head : bytes        (* the pending head frame; a sent one is empty *)
}.
#[global] Instance eta_Channel : Eta Channel := fun r =>
  mkChannel (mode r) (sender r) (receiver r) (seqence r) (rcvBuffer r) (msg_head r).

Record ChannelAgent := mkChannelAgent {
  id : Z;
  szName : string;
  szIDName : option string;   (* [None]: the array was never written *)
  channel : Channel
}.
#[global] Instance eta_ChannelAgent : Eta ChannelAgent := fun r =>
  mkChannelAgent (id r) (szName r) (szIDName r) (channel r).

(** [Channel::Channel]. *)
Definition Channel_new : Channel :=
  mkChannel CHANNEL_MODE_INVALID None None 0 (mkBuffer 0 0 []) [].

(** [ChannelAgent::ChannelAgent]. *)
Definition ChannelAgent_new (_id : Z) : ChannelAgent :=
  mkChannelAgent _id "" None Channel_new.

Definition SetBindName (s : string) (a : ChannelAgent) : ChannelAgent :=
  a <| szName := strncpy 127 s |>.
Definition SetIDName (s : string) (a : ChannelAgent) : ChannelAgent :=
  a <| szIDName := Some (strncpy 127 s) |>.

Definition on_channel (f : Channel -> Channel) : M ChannelAgent unit :=
  modify (fun a => a <| channel ::= f |>).

(** [zmq_msg_send] on a socket that may be null ([ENOTSOCK]). *)
Definition zsend (f : bytes) (more : bool) : M ChannelAgent Z :=
  c ← gets channel;
  match sender c with
  | None => mret (-1)
  | Some s => let '(r, s') := zmq_msg_send f more s in
              on_channel (fun c => c <| sender := Some s' |>);; mret r
  end.

Definition zrecv : M ChannelAgent (option bytes) :=
  c ← gets channel;
  match receiver c with
  | None => mret None
  | Some s => let '(r, s') := zmq_msg_recv s in
              on_channel (fun c => c <| receiver := Some s' |>);; mret r
  end.

(** The head frame of the next message. *)
Definition head_frame (name : string) (seq : Z) : bytes :=
  of_str (snprintf 64 (name +:+ "|" +:+ print_d seq)) ++ [0].

(** [Channel::Write]. A successful send of the head nullifies [msg_head]. The
    [int] size of the buffer is a [size_t] to [zmq_msg_init_size] and [memcpy]:
    one that is negative is undefined there. *)
Definition Write (buffer : Buffer) : M ChannelAgent Z :=
  a ← gets (fun a => a);
  (if Z.of_nat (length (msg_head (channel a))) =? 0 then
     name ← lift (szIDName a);
     on_channel (fun c => c <| msg_head := head_frame name (seqence c) |>)
   else mret tt);;
  a ← gets (fun a => a);
  iRet ← zsend (msg_head (channel a)) true;
  if iRet <? 0 then mret (-1)
  else
    on_channel (fun c => c <| msg_head := [] |>);;
    assert (0 <=? iUsed buffer);;
    iRet ← zsend (buffer_data buffer) false;
    if iRet <? 0 then mret (-2)
    else on_channel (fun c => c <| seqence := i32 (seqence c + 1) |>);; mret 0.

(** [Channel::Read(int & rcvMsgID, ChannelMessage & msg)]: [setID] stores
    through the reference [rcvMsgID], which may alias a field of [msg], and
    [GetChannelID] is the lookup in the channel manager. The size of the payload
    is kept in an [int]; [memcpy] with a negative one is undefined. *)
Definition Read (GetChannelID : string -> Z) (setID : Z -> ChannelMessage -> ChannelMessage)
    (msg : ChannelMessage) : M ChannelAgent (Z * ChannelMessage) :=
  let msg := setID (-1) msg in
  part1 ← zrecv;
  match part1 with
  | None => mret (-1, msg)
  | Some part1 =>
    heads ← lift (cstr part1);
    let vecheads := SplitString heads "|" in
    chname ← lift (vecheads !! 0%nat);
    seq ← lift (vecheads !! 1%nat);
    let msg := setID (i32 (strtol seq)) msg <| msg_seqence := i32 (strtol seq) |> in
    let msg := msg <| iSrc := GetChannelID chname |> in
    c ← gets channel;
    r ← lift (receiver c);
    let '(iRet, rcvmore) := zmq_rcvmore r in
    if negb (iRet =? 0) || (rcvmore =? 0) then mret (-1, msg)
    else
      part2 ← zrecv;
      match part2 with
      | None => mret (-1, msg)
      | Some part2 =>
        let msglen := i32 (Z.of_nat (length part2)) in
        c ← gets channel;
        ok ← (if iCap (rcvBuffer c) <? msglen then
                on_channel (fun c => c <| rcvBuffer ::= buffer_Destroy |>);;
                match buffer_Create msglen with
                | None => mret false
                | Some b => on_channel (fun c => c <| rcvBuffer := b |>);; mret true
                end
              else mret true);
        if negb ok then mret (-1, msg)
        else
          c ← gets channel;
          assert (0 <=? msglen);;
          m ← lift (memcpy_at (iCap (rcvBuffer c)) 0 (take (Z.to_nat msglen) part2) (pBuffer (rcvBuffer c)));
          on_channel (fun c => c <| rcvBuffer ::= fun b => b <| pBuffer := m |> <| iUsed := msglen |> |>);;
          mret (0, msg <| dwSize := u32 msglen |> <| pData := m |>)
      end
  end.

(** [Channel::Destroy]. *)
Definition Destroy : M ChannelAgent unit :=
  on_channel (fun c => c <| sender := None |> <| receiver := None |>
                         <| mode := CHANNEL_MODE_INVALID |> <| msg_head := [] |>).

(** [Channel::Create]: [sock] is what [zmq_socket] returns and [zret] the
    result of [zmq_bind] or [zmq_connect]. *)
Definition Create (sock : option zsock) (zret : Z) (mode : Z) (name : string) : M ChannelAgent Z :=
  assert (strlen name <? 24);;
  let senderName := snprintf 32 (name +:+ ":snd:" +:+ print_d mode) in
  let receiverName := snprintf 32 (name +:+ ":rcv:" +:+ print_d mode) in
  on_channel (fun c => c <| sender := None |> <| receiver := None |>);;
  if mode =? CHANNEL_MODE_LOCAL then
    on_channel (fun c => c <| receiver := sock |>);;
    match sock with
    | None => Destroy;; mret (-1)
    | Some _ =>
        if negb (zret =? 0) then Destroy;; mret (-2)
        else modify (SetBindName receiverName);; mret 0
    end
  else
    on_channel (fun c => c <| sender := sock |>);;
    match sock with
    | None => mret (-3)
    | Some _ =>
        if negb (zret =? 0) then Destroy;; mret (-4)
        else modify (SetBindName senderName);; mret 0
    end.

(** [ChannelAgent::Init]. *)
Definition Init (sock : option zsock) (zret : Z) (mode : Z) (pszName : string) : M ChannelAgent Z :=
  iRet ← Create sock zret mode pszName;
  if negb (iRet =? 0) then mret (-1) else mret 0.

(** [ChannelAgent::GetMessage]: [Read] stores the id through [msg.iSrc]. *)
Definition GetMessage (GetChannelID : string -> Z) (msg : ChannelMessage)
    : M ChannelAgent (Z * ChannelMessage) :=
  r ← Read GetChannelID (fun v m => m <| iSrc := v |>) msg;
  if negb (fst r =? 0) then mret (-1, snd r) else mret (0, snd r).

(** [ChannelAgent::PostMessage]: a buffer around the message; its sizes are
    [int]s. *)
Definition PostMessage (msg : ChannelMessage) : M ChannelAgent Z :=
  Write (mkBuffer (i32 (dwSize msg)) (i32 (dwSize msg)) (pData msg)).

End Channel.

#[export] Hint Unfold on_channel : wp_unfold.

(** The agent keeps its id. *)
Section keeps_id.
Context {Z0 : Zmq} {B0 : BufferLib} {S0 : StringUtil}.

Lemma zsend_id f more : keeps id (zsend f more).
Proof. unfold zsend. keeps_auto. Qed.
Lemma zrecv_id : keeps id zrecv.
Proof. unfold zrecv. keeps_auto. Qed.
Hint Resolve zsend_id zrecv_id : keeps.
Lemma Write_id data : keeps id (Write data).
Proof. unfold Write. keeps_auto. Qed.
Lemma Read_id g sid msg : keeps id (Read g sid msg).
Proof. unfold Read. keeps_auto. Qed.
Lemma Create_id sock zret md name : keeps id (Create sock zret md name).
Proof. unfold Create, Destroy. keeps_auto. Qed.
Hint Resolve Write_id Read_id Create_id : keeps.
Lemma Init_id sock zret md name : keeps id (Init sock zret md name).
Proof. unfold Init. keeps_auto. Qed.
Lemma GetMessage_id g msg : keeps id (GetMessage g msg).
Proof. unfold GetMessage. keeps_auto. Qed.
Lemma PostMessage_id msg : keeps id (PostMessage msg).
Proof. apply Write_id. Qed.
End keeps_id.
#[export] Hint Resolve Write_id Read_id Init_id GetMessage_id PostMessage_id : keeps.

Section source.
Context {Z0 : Zmq} {B0 : BufferLib} {S0 : StringUtil}.

Lemma wlp_any {S A} (m : M S A) (Q : A -> S -> Prop) s : (forall a s', Q a s') -> wlp m Q s.
Proof. intros HQ. by apply wlp_intro. Qed.

(** The source of a message that was read is what its name resolves to. *)
Lemma GetMessage_source getid msg (a : ChannelAgent) :
  wlp (GetMessage getid msg) (fun p _ => fst p = 0 -> exists name, iSrc (snd p) = getid name) a.
Proof.
  unfold GetMessage, Read. wlp_steps. apply wlp_any. intros [part1|] a1; wlp_steps; [|done].
  destruct (zmq_rcvmore _) as [iRet more]. destruct (_ || _); wlp_steps; [done|].
  apply wlp_any. intros [part2|] b4; wlp_steps; [|done].
  apply wlp_any. intros [] b5; wlp_steps; [|done]. simpl. wlp_steps. simpl. wlp_steps. simpl. eauto.
Qed.
End source.

(** ** Sending and receiving a message *)

Section channel_facts.
Context {Z0 : Zmq} {B0 : BufferLib} {S0 : StringUtil}.
Context {sent : zsock -> list (bytes * bool)} {deliver : zsock -> list (bytes * bool) -> zsock}.
Context `{!ZmqLink sent deliver, !BufferLaws, !StringUtilLaws}.

(** A name that fits the head frame and does not interfere with its syntax. *)
Definition good_name (name : string) (seq : Z) : Prop :=
  name <> "" /\ free_of "|" name /\ no_nul name /\
  (String.length (name +:+ "|" +:+ print_d seq) < 64)%nat.

Lemma head_frame_parse name seq :
  good_name name seq -> - 2 ^ 31 <= seq < 2 ^ 31 ->
  exists s, cstr (head_frame name seq) = Some s /\
    SplitString s "|" = [name; print_d seq] /\ i32 (strtol (print_d seq)) = seq.
Proof.
  intros (Hne & Hfree & Hnul & Hlen) Hseq. unfold head_frame.
  rewrite snprintf_fits by done. exists (name +:+ "|" +:+ print_d seq). repeat split.
  - apply cstr_of_str. unfold no_nul. rewrite !of_str_app, !elem_of_app.
    intros [Hx|[Hx|Hx]]; [by apply Hnul| |].
    + by apply list_elem_of_singleton in Hx.
    + revert Hx. apply not_in_num; [apply all_num_print_d|lia].
  - apply SplitString_two; [done| |done|apply print_d_nonempty].
    apply not_in_num_above; [apply all_num_print_d|done].
  - rewrite strtol_print_d by lia. apply i32_small. lia.
Qed.

Lemma wp_zsend f more (a : ChannelAgent) s Q :
  sender (channel a) = Some s ->
  (forall r s', 0 <= r -> sent s' = sent s ++ [(f, more)] ->
     Q r (a <| channel ::= fun c => c <| sender := Some s' |> |>)) ->
  wp (zsend f more) Q a.
Proof.
  intros Hs HQ. unfold zsend. wp_steps. rewrite Hs.
  pose proof (link_send f more s) as H1. pose proof (link_sent f more s) as H2.
  destruct (zmq_msg_send f more s) as [r s'] eqn:E. wp_steps. by apply HQ.
Qed.

Lemma wp_zrecv f more q r (a : ChannelAgent) Q :
  receiver (channel a) = Some (deliver r ((f, more) :: q)) ->
  (forall r', zmq_rcvmore (deliver r' q) = (0, if more then 1 else 0) ->
     Q (Some f) (a <| channel ::= fun c => c <| receiver := Some (deliver r' q) |> |>)) ->
  wp zrecv Q a.
Proof.
  intros Hr HQ. unfold zrecv. wp_steps. rewrite Hr.
  destruct (link_recv r f more q) as (r' & -> & Hm). wp_steps. by apply HQ.
Qed.

(** [Write] sends the head frame, then the payload, and counts the message. *)
Lemma Write_spec (a : ChannelAgent) name s buffer :
  0 <= iUsed buffer -> szIDName a = Some name -> sender (channel a) = Some s -> msg_head (channel a) = [] ->
  wp (Write buffer) (fun r a' => r = 0 /\
    (exists s', sender (channel a') = Some s' /\
      sent s' = sent s ++ [(head_frame name (seqence (channel a)), true); (buffer_data buffer, false)]) /\
    seqence (channel a') = i32 (seqence (channel a) + 1) /\
    msg_head (channel a') = [] /\ szIDName a' = Some name) a.
Proof.
  intros Hu Hn Hs Hh. unfold Write. wp_steps. rewrite Hh. change (Z.of_nat (length []) =? 0) with true. cbv iota. wp_steps.
  eapply wp_lift; [done|]. wp_steps. eapply wp_zsend; [done|]. intros r1 s1 Hr1 Hs1.
  destruct (Z.ltb_spec r1 0); [lia|]. wp_steps; [by apply Z.leb_le|].
  eapply wp_zsend; [done|]. intros r2 s2 Hr2 Hs2.
  destruct (Z.ltb_spec r2 0); [lia|]. wp_steps. simpl. split; [done|]. split; [|done].
  exists s2. split; [done|]. by rewrite Hs2, Hs1, <- app_assoc.
Qed.

Lemma memcpy_at_0 cap src dst :
  Z.of_nat (length src) <= cap ->
  exists m, memcpy_at cap 0 src dst = Some m /\ take (length src) m = src.
Proof.
  intros Hl. unfold memcpy_at. rewrite (proj2 (Z.leb_le _ _)) by lia. simpl.
  rewrite (proj2 (Z.leb_le _ _)) by lia. eexists. split; [done|].
  assert (resize (Z.to_nat 0) 0 dst = []) as -> by (by destruct dst). rewrite app_nil_l. apply take_app_length.
Qed.

(** [Read] of a well-formed message returns its parts and consumes it. *)
Lemma Read_spec (a : ChannelAgent) getid setID msg r name seq data q :
  receiver (channel a) =
    Some (deliver r ((head_frame name seq, true) :: (data, false) :: q)) ->
  good_name name seq -> - 2 ^ 31 <= seq < 2 ^ 31 -> Z.of_nat (length data) < 2 ^ 31 ->
  is_Some (buffer_Create (Z.of_nat (length data))) ->
  wp (Read getid setID msg) (fun p a' => fst p = 0 /\
    iSrc (snd p) = getid name /\ msg_seqence (snd p) = seq /\ msg_bytes (snd p) = data /\
    exists r', receiver (channel a') = Some (deliver r' q)) a.
Proof.
  intros Hr Hg Hseq Hd [b Hb]. unfold Read. wp_steps.
  eapply wp_zrecv; [exact Hr|]. intros r1 Hm1.
  destruct (head_frame_parse name seq Hg Hseq) as (s & Es & Ev & Hi). wp_steps.
  eapply wp_lift; [exact Es|]. rewrite Ev. wp_steps. eapply wp_lift; [done|].
  wp_steps. eapply wp_lift; [done|]. wp_steps. eapply wp_lift; [done|].
  rewrite Hm1, Hi. change (negb (0 =? 0) || (1 =? 0)) with false. cbv iota. wp_steps.
  eapply wp_zrecv; [done|]. intros r2 Hm2. wp_steps.
  set (a2 := _ <| channel ::= _ |>). rewrite (i32_small (Z.of_nat (length data))) by lia.
  rewrite Nat2Z.id, firstn_all.
  apply wp_mono with (Q := fun ok a' => ok = true /\
     receiver (channel a') = Some (deliver r2 q) /\
     Z.of_nat (length data) <= iCap (rcvBuffer (channel a'))).
  - destruct (Z.ltb_spec (iCap (rcvBuffer (channel a2))) (Z.of_nat (length data))).
    + wp_steps. rewrite Hb. wp_steps. simpl.
      destruct (buffer_Create_cap _ _ Hb). split_and!; [done|done|lia].
    + wp_steps. done.
  - intros ok a3 (-> & Hr3 & Hc3). simpl. wp_steps; [by apply Z.leb_le; lia|].
    destruct (memcpy_at_0 (iCap (rcvBuffer (channel a3))) data
      (pBuffer (rcvBuffer (channel a3))) Hc3) as (m & Em & Hm).
    eapply wp_lift; [exact Em|]. wp_steps. simpl. repeat split.
    + unfold msg_bytes. simpl. rewrite u32_small by lia. by rewrite Nat2Z.id.
    + by exists r2.
Qed.

(** C3. Round trip through a channel. Over a connection that accepts and
    delivers frames in order, for an agent whose name fits the head frame and
    has no separator in it, and a message of fewer than 2^31 bytes (the sizes
    are [int]s) for which the receiver has memory: [PostMessage] succeeds, and
    for the frames it sends the receiving agent's [GetMessage] succeeds,
    returns exactly the payload posted and the sender's sequence number,
    resolves the sender by its name and leaves the frames behind the message
    in the queue. *)
Theorem channel_round_trip (a b : ChannelAgent) name s msg getid msg0 :
  szIDName a = Some name -> sender (channel a) = Some s -> msg_head (channel a) = [] ->
  good_name name (seqence (channel a)) -> - 2 ^ 31 <= seqence (channel a) < 2 ^ 31 ->
  0 <= dwSize msg < 2 ^ 31 ->
  is_Some (buffer_Create (Z.of_nat (length (msg_bytes msg)))) ->
  exists a' s' frames, PostMessage msg a = Some (0, a') /\
    sender (channel a') = Some s' /\ sent s' = sent s ++ frames /\
    forall r q, receiver (channel b) = Some (deliver r (frames ++ q)) ->
      exists m b' r', GetMessage getid msg0 b = Some ((0, m), b') /\
        msg_bytes m = msg_bytes msg /\ msg_seqence m = seqence (channel a) /\
        iSrc m = getid name /\ receiver (channel b') = Some (deliver r' q).
Proof.
  intros Hn Hs Hh Hg Hseq Hsz Hbuf.
  assert (Z.of_nat (length (msg_bytes msg)) < 2 ^ 31) as Hlen by (unfold msg_bytes; rewrite length_take; lia).
  assert (PostMessage msg = Write (mkBuffer (dwSize msg) (dwSize msg) (pData msg))) as Hpost
    by (unfold PostMessage; by rewrite i32_small by lia).
  destruct (wp_run _ _ _ (Write_spec a name s (mkBuffer (dwSize msg) (dwSize msg) (pData msg)) (proj1 Hsz) Hn Hs Hh))
    as (r0 & a' & E & -> & (s' & Hs' & Hsent) & _).
  rewrite <- Hpost in E. change (buffer_data _) with (msg_bytes msg) in Hsent.
  eexists a', s', _. split; [exact E|]. split; [done|]. split; [exact Hsent|].
  intros r q Hr.
  pose proof (Read_spec b getid (fun v m => m <| iSrc := v |>) msg0 r name _ _ q
    Hr Hg Hseq Hlen Hbuf) as HR.
  destruct (wp_run _ _ _ HR) as ([z m] & b' & Eb & Hz & H1 & H2 & H3 & r' & H4).
  simpl in *. subst z. exists m, b', r'. split; [|by subst].
  unfold GetMessage. by rewrite (bind_run _ _ _ _ _ Eb).
Qed.

End channel_facts.

(** ** Witness *)

Module ChannelWitness.
Import Reference.

Definition sock : zsock := ([], false, []).
Definition tx : ChannelAgent :=
  mkChannelAgent 1 "ch#1" (Some "gate:1")
    (mkChannel 0 (Some sock) None 7 (mkBuffer 0 0 []) []).
Definition msg : ChannelMessage := mkChannelMessage 0 0 3 [10; 20; 30].
Definition frames : list (bytes * bool) := [(head_frame "gate:1" 7, true); ([10; 20; 30], false)].
Definition rx : ChannelAgent :=
  mkChannelAgent 0 "ch#0" (Some "agent:1")
    (mkChannel 0 None (Some (deliver sock frames)) 0 (mkBuffer 0 0 []) []).

Lemma good : good_name "gate:1" 7.
Proof.
  split_and!; [done| | |vm_compute; lia];
    refine (bool_decide_eq_true_1 (_ ∉ _) _); vm_compute; reflexivity.
Qed.

Lemma channel_round_trip_witness :
  exists m b', GetMessage (fun _ => 0) ChannelMessage_new rx = Some ((0, m), b') /\
    msg_bytes m = [10; 20; 30] /\ msg_seqence m = 7.
Proof.
  destruct (channel_round_trip tx rx "gate:1" sock msg (fun _ => 0) ChannelMessage_new
    eq_refl eq_refl eq_refl good) as (a' & s' & fr & E & Hs' & Hsent & Hrx).
  - simpl. lia.
  - simpl. lia.
  - by eexists.
  - assert (fr = frames) as ->.
    { vm_compute in E. injection E as <-. simpl in Hs'. injection Hs' as <-.
      by symmetry in Hsent. }
    destruct (Hrx sock [] eq_refl) as (m & b' & r' & Em & H1 & H2 & _).
    by exists m, b'.
Defined.

End ChannelWitness.
