(* ===== verification/ChannelAgentMgr.v ===== *)
(** * The channel manager ([channel/ChannelAgentMgr.h], [channel/ChannelAgentMgr.cpp])

    A map from channel id to [ChannelAgent], the poll items of the local
    channels, and a map from channel name to id. *)

From S2P Require Import Prelude CString Extern Channel.

Section ChannelAgentMgr.
Context {Z0 : Zmq} {B0 : BufferLib} {S0 : StringUtil}.

(** A poll item: the id of the local channel it polls ([item.fd]). *)
Record ChannelAgentMgr := mkChannelAgentMgr {
  zmq_context : bool;
  m_mpChannelAgent : gmap Z ChannelAgent;
  zpollcap : option Z;            (* the number of items allocated *)
  zpollitems : list Z;            (* the first [nzpollitem] of them *)
  ptrDispatcher : bool;
  m_iNextGenID : Z;
  m_mpNameChnlID : gmap string Z
}.
#[global] Instance eta_ChannelAgentMgr : Eta ChannelAgentMgr := fun r =>
  mkChannelAgentMgr (zmq_context r) (m_mpChannelAgent r) (zpollcap r) (zpollitems r)
    (ptrDispatcher r) (m_iNextGenID r) (m_mpNameChnlID r).

Definition ChannelAgentMgr_new : ChannelAgentMgr :=
  mkChannelAgentMgr false ∅ None [] false 1 ∅.

(** [GetChannel(int)]. *)
Definition GetChannel (i : Z) (m : ChannelAgentMgr) : option ChannelAgent := m_mpChannelAgent m !! i.

(** [GetChannelID(name)]. *)
Definition GetChannelID (m : ChannelAgentMgr) (name : string) : Z :=
  match m_mpNameChnlID m !! name with
  | Some i => i
  | None => 0
  end.

(** [GetChannel(const string &)]. *)
Definition GetChannelByName (name : string) (m : ChannelAgentMgr) : option ChannelAgent :=
  match m_mpNameChnlID m !! name with
  | Some i => GetChannel i m
  | None => None
  end.

(** The loop [while(id == 0 || GetChannel(id)) ++id]; [++] past [INT_MAX] is
    undefined. *)
Fixpoint gen_loop (fuel : nat) (m : gmap Z ChannelAgent) (i : Z) : option Z :=
  match fuel with
  | O => None
  | S fuel =>
      if (i =? 0) || bool_decide (is_Some (m !! i)) then
        if i =? 2 ^ 31 - 1 then None else gen_loop fuel m (i + 1)
      else Some i
  end.

Definition GenerateChannelID (name : string) : M ChannelAgentMgr Z :=
  m ← gets (fun m => m);
  i ← lift (gen_loop (S (S (size (m_mpChannelAgent m)))) (m_mpChannelAgent m) (m_iNextGenID m));
  modify (fun m => m <| m_iNextGenID := i |>);;
  mret i.

(** [zpollitems[nzpollitem++] = ...]: the source does not look at the size of the
    array that [Init] allocated; a write behind it, or to no array at all, is
    undefined. *)
Definition poll_item_put (i : Z) (m : ChannelAgentMgr) : option ChannelAgentMgr :=
  cap ← zpollcap m;
  if Z.of_nat (length (zpollitems m)) <? cap then Some (m <| zpollitems ::= fun l => l ++ [i] |>)
  else None.

(** [AddChannel]; [sock] and [zret] are what ZeroMQ answers to the new channel. *)
Definition AddChannel (sock : option zsock) (zret : Z) (i : Z) (local : bool) (pszName : string)
    : M ChannelAgentMgr Z :=
  assert (local || (0 <? i));;
  m ← gets (fun m => m);
  match m_mpChannelAgent m !! i with
  | Some _ => mret (-1)
  | None =>
      assert (strlen pszName <? 20);;
      let channelName := snprintf 32 (pszName +:+ "#" +:+ print_d i) in
      let chnMode := if local then CHANNEL_MODE_LOCAL else CHANNEL_MODE_REMOTE in
      '(iRet, p) ← lift (Channel.Init sock zret chnMode channelName (ChannelAgent_new i));
      if negb (iRet =? 0) then mret (-2)
      else
        (if local then m ← lift (poll_item_put i m); modify (fun _ => m) else mret tt);;
        modify (fun m => m <| m_mpChannelAgent ::= <[i := p]> |>);;
        mret 0
  end.

(** [Init]; [ctx] is whether [zmq_ctx_new] returns a context. *)
Definition Init (ctx : bool) (sock : option zsock) (zret : Z) (pszName : string)
    (iMaxLocalChannel : Z) : M ChannelAgentMgr Z :=
  m ← gets (fun m => m);
  assert (negb (zmq_context m) && (0 <? iMaxLocalChannel)
          && match zpollcap m with None => true | Some _ => false end);;
  modify (fun m => m <| zmq_context := ctx |>);;
  if negb ctx then mret (-1)
  else
    modify (fun m => m <| zpollcap := Some iMaxLocalChannel |> <| ptrDispatcher := true |>
                       <| zpollitems := [] |>);;
    AddChannel sock zret 0 true pszName.

Definition Destroy : M ChannelAgentMgr unit :=
  modify (fun m => m <| zmq_context := false |> <| zpollcap := None |> <| zpollitems := [] |>).

(** [RemoveChannel] is not supported. *)
Definition RemoveChannel (i : Z) : M ChannelAgentMgr Z := mret (-1).

(** [SetIDName] on a channel of the manager: a null channel is dereferenced. *)
Definition SetChannelIDName (i : Z) (name : string) : M ChannelAgentMgr unit :=
  m ← gets (fun m => m);
  a ← lift (GetChannel i m);
  modify (fun m => m <| m_mpChannelAgent ::= <[i := SetIDName name a]> |>).

(** An operation of the channel [i] of the manager. *)
Definition on_agent {A} (i : Z) (op : M ChannelAgent A) : M ChannelAgentMgr A :=
  m ← gets (fun m => m);
  a ← lift (GetChannel i m);
  '(r, a') ← lift (op a);
  modify (fun m => m <| m_mpChannelAgent ::= <[i := a']> |>);;
  mret r.

(** [Polling]: [n] and [eintr] are the result of [zmq_poll] and whether the
    error is [EINTR], [revents] the poll items with [ZMQ_POLLIN]; [dispatch]
    is [ptrDispatcher->DispatchMessage], which may change everything around the
    manager. *)
Section Polling.
Context {W : Type} (mgr : W -> ChannelAgentMgr) (put : ChannelAgentMgr -> W -> W).
Context (dispatch : Z -> ChannelMessage -> M W Z).

Definition on_mgr {A} (m : M ChannelAgentMgr A) : M W A := zoom mgr put m.

Fixpoint Polling_loop (items : list (Z * bool)) (msg : ChannelMessage) (ievnts : Z) : M W Z :=
  match items with
  | [] => mret ievnts
  | (fd, false) :: items => Polling_loop items msg ievnts
  | (fd, true) :: items =>
      m ← gets mgr;
      match GetChannel fd m with
      | None => Polling_loop items msg ievnts
      | Some _ =>
          '(iRet, msg) ← on_mgr (on_agent fd (GetMessage (GetChannelID m) msg));
          if negb (iRet =? 0) then Polling_loop items msg ievnts
          else dispatch fd msg;; Polling_loop items msg (ievnts + 1)
      end
  end.

Definition Polling (n : Z) (eintr : bool) (revents : list bool) : M W Z :=
  if n <? 0 then mret (if eintr then 0 else -1)
  else
    m ← gets mgr;
    Polling_loop (zip (zpollitems m) revents) ChannelMessage_new 0.
End Polling.

End ChannelAgentMgr.

(** ** Properties *)

Section mgr_facts.
Context {Z0 : Zmq} {B0 : BufferLib} {S0 : StringUtil}.
Implicit Types m : ChannelAgentMgr.

(** The operations of the manager, as steps. *)
Inductive MgrOp :=
  | OpInit (ctx : bool) (sock : option zsock) (zret : Z) (name : string) (maxlocal : Z)
  | OpAdd (sock : option zsock) (zret i : Z) (local : bool) (name : string)
  | OpGenerate (name : string)
  | OpSetIDName (i : Z) (name : string)
  | OpPost (i : Z) (msg : ChannelMessage)
  | OpGet (i : Z) (msg : ChannelMessage)
  | OpDestroy.

Definition run_op (o : MgrOp) : M ChannelAgentMgr unit :=
  match o with
  | OpInit c s z n k => Init c s z n k;; mret tt
  | OpAdd s z i l n => AddChannel s z i l n;; mret tt
  | OpGenerate n => GenerateChannelID n;; mret tt
  | OpSetIDName i n => SetChannelIDName i n
  | OpPost i msg => on_agent i (PostMessage msg);; mret tt
  | OpGet i msg => m ← gets (fun m => m);
                   on_agent i (GetMessage (GetChannelID m) msg);; mret tt
  | OpDestroy => Destroy
  end.

Inductive mgr_reach : ChannelAgentMgr -> Prop :=
  | reach_new : mgr_reach ChannelAgentMgr_new
  | reach_step m o m' : mgr_reach m -> run_op o m = Some (tt, m') -> mgr_reach m'.

(** The id of every channel is the key it is stored under, and no name was ever
    mapped. *)
Record MgrInv m : Prop := {
  mgr_id : forall i a, m_mpChannelAgent m !! i = Some a -> id a = i;
  mgr_names : m_mpNameChnlID m = ∅
}.

Lemma poll_item_put_eq i m m' : poll_item_put i m = Some m' -> m' = m <| zpollitems ::= fun l => l ++ [i] |>.
Proof.
  unfold poll_item_put. destruct (zpollcap m) as [cap|]; [|done]. cbn [mbind option_bind].
  destruct (_ <? cap); [|done]. by intros [= <-].
Qed.

Lemma AddChannel_inv sock zret i local name m :
  MgrInv m -> wlp (AddChannel sock zret i local name) (fun _ => MgrInv) m.
Proof.
  intros [Hid Hn]. unfold AddChannel. wlp_steps.
  destruct (m_mpChannelAgent m !! i); wlp_steps; [done|].
  destruct a as [r p]. match goal with E : Channel.Init _ _ _ _ _ = _ |- _ =>
    pose proof (Init_id _ _ _ _ _ _ _ E) as Hpid end.
  destruct (negb _); wlp_steps; [done|].
  assert (forall m', m_mpNameChnlID m' = ∅ -> m_mpChannelAgent m' = m_mpChannelAgent m ->
    MgrInv (m' <| m_mpChannelAgent ::= <[i := p]> |>)) as Hadd.
  { intros m' Hn' Ha'. split; simpl; [|done]. rewrite Ha'.
    intros j a [[<- <-]|[_ Hj]]%lookup_insert_Some; [by rewrite Hpid|eauto]. }
  destruct local; wlp_steps; [|by apply Hadd].
  match goal with E : poll_item_put _ _ = Some _ |- _ => apply poll_item_put_eq in E as -> end. by apply Hadd.
Qed.

Lemma on_agent_inv {A} i (op : M ChannelAgent A) m :
  keeps id op -> MgrInv m -> wlp (on_agent i op) (fun _ => MgrInv) m.
Proof.
  intros Hop [Hid Hn]. unfold on_agent. wlp_steps.
  match goal with p : A * ChannelAgent |- _ => destruct p as [r a'] end. wlp_steps.
  split; simpl; [|done].
  intros j b [[<- <-]|[_ H1]]%lookup_insert_Some; [|eauto].
  match goal with E : op ?a = _ |- _ => rewrite (Hop _ _ _ E); by apply Hid end.
Qed.

Lemma run_op_inv o m : MgrInv m -> wlp (run_op o) (fun _ => MgrInv) m.
Proof.
  intros Hinv. pose proof Hinv as [Hid Hn].
  destruct o as [ctx sock zret name maxl|sock zret i local name|name|i name|i msg|i msg|];
    simpl; wlp_steps.
  - unfold Init. wlp_steps. destruct ctx; simpl; wlp_steps; [|by split].
    eapply wlp_mono; [apply AddChannel_inv|by intros; wlp_steps]. by split.
  - eapply wlp_mono; [by apply AddChannel_inv|by intros; wlp_steps].
  - unfold GenerateChannelID. wlp_steps. by split.
  - unfold SetChannelIDName. wlp_steps. split; simpl; [|done].
    intros j b [[<- <-]|[_ H1]]%lookup_insert_Some; [|eauto]. simpl. by apply Hid.
  - eapply wlp_mono; [apply on_agent_inv; [apply PostMessage_id|done]|by intros; wlp_steps].
  - eapply wlp_mono; [apply on_agent_inv; [apply GetMessage_id|done]|by intros; wlp_steps].
  - unfold Destroy. wlp_steps. by split.
Qed.

Lemma reach_inv m : mgr_reach m -> MgrInv m.
Proof.
  induction 1 as [|m o m' _ IH E].
  - by split.
  - exact (wlp_elim _ _ _ _ _ (run_op_inv o m IH) E).
Qed.

(** A channel that is bound under a name that is not too long. *)
Lemma Init_binds sock name (a : ChannelAgent) :
  strlen name < 24 ->
  Channel.Init (Some sock) 0 CHANNEL_MODE_LOCAL name a
  = Some (0, SetBindName (snprintf 32 (name +:+ ":rcv:" +:+ print_d CHANNEL_MODE_LOCAL))
               (a <| channel ::= fun c => c <| sender := None |> <| receiver := None |> |>
                  <| channel ::= fun c => c <| receiver := Some sock |> |>)).
Proof. intros Hn. unfold Channel.Init, Create, assert. by rewrite (proj2 (Z.ltb_lt _ _) Hn). Qed.

Lemma name_fits name i : 0 <= i < 100 -> strlen name < 20 -> strlen (snprintf 32 (name +:+ "#" +:+ print_d i)) < 24.
Proof.
  intros Hi Hn. pose proof (length_print_d_le 2 i ltac:(lia)) as Hd. unfold strlen in *.
  rewrite snprintf_fits; rewrite !length_app_str; cbn [String.length]; lia.
Qed.

(** A local channel more than [Init] made room for is written behind the array
    of poll items: [AddChannel] does not test for it. *)
Theorem AddChannel_unchecked sock i name m cap :
  zpollcap m = Some cap -> Z.of_nat (length (zpollitems m)) = cap -> m_mpChannelAgent m !! i = None ->
  0 <= i < 100 -> strlen name < 20 -> AddChannel (Some sock) 0 i true name m = None.
Proof.
  intros Hc Hl Hi Hr Hn. destruct (AddChannel (Some sock) 0 i true name m) as [[r m']|] eqn:E; [|done]. exfalso.
  enough (wlp (AddChannel (Some sock) 0 i true name) (fun _ _ => False) m) as Hw by exact (wlp_elim _ _ _ _ _ Hw E).
  clear r m' E. unfold AddChannel. wlp_steps. rewrite Hi. wlp_steps. destruct a as [r p].
  match goal with E : Channel.Init _ _ _ _ _ = _ |- _ => rewrite Init_binds in E by (by apply name_fits); injection E as <- _ end.
  cbn. wlp_steps. match goal with E : poll_item_put _ _ = Some _ |- _ => revert E end.
  unfold poll_item_put. rewrite Hc. cbn [mbind option_bind]. by rewrite Hl, Z.ltb_irrefl.
Qed.

(** A message that is read from a reachable manager has source 0. *)
Lemma read_source_zero m i msg m' r msg' :
  mgr_reach m ->
  on_agent i (GetMessage (GetChannelID m) msg) m = Some ((r, msg'), m') ->
  r = 0 -> iSrc msg' = 0.
Proof.
  intros Hr%reach_inv E. unfold on_agent in E.
  assert (wlp (on_agent i (GetMessage (GetChannelID m) msg))
    (fun p _ => fst p = 0 -> exists name, iSrc (snd p) = GetChannelID m name) m) as Hw.
  { unfold on_agent. wlp_steps.
    match goal with E : GetMessage _ _ ?a = Some ?p |- _ =>
      destruct p as [p b]; pose proof (wlp_elim _ _ _ _ _ (GetMessage_source _ _ a) E) end.
    wlp_steps. done. }
  intros ->. destruct (wlp_elim _ _ _ _ _ Hw E eq_refl) as [name Hname].
  simpl in Hname. rewrite Hname. unfold GetChannelID. by rewrite (mgr_names _ Hr).
Qed.

(** Every message that is read is attributed to channel 0,
    whichever peer sent it: [GetChannelID] is constantly [0]. *)
Theorem GetMessage_source_is_zero m i msg m' r msg' :
  mgr_reach m ->
  on_agent i (GetMessage (GetChannelID m) msg) m = Some ((r, msg'), m') ->
  r = 0 -> iSrc msg' = 0.
Proof. apply read_source_zero. Qed.

Lemma gen_loop_spec fuel (ag : gmap Z ChannelAgent) i :
  0 <= i -> i + Z.of_nat fuel < 2 ^ 31 ->
  (exists k, 0 <= k < Z.of_nat fuel /\ i + k <> 0 /\ ag !! (i + k) = None) ->
  exists j, gen_loop fuel ag i = Some j /\ ag !! j = None /\ i <= j < i + Z.of_nat fuel /\ j <> 0.
Proof.
  revert i. induction fuel as [|fuel IH]; intros i Hi Hf (k & Hk & Hnz & Hn); [lia|]. simpl.
  destruct (Z.eqb_spec i 0) as [->|Hi0]; simpl.
  - change (0 =? 2 ^ 31 - 1) with false. change (0 + 1) with 1. cbv iota.
    destruct (IH 1) as (j & -> & ? & ? & ?); [lia|lia| |exists j; split_and!; [done|done|lia|lia|done]].
    exists (k - 1). split_and!; [lia|lia|lia|]. by replace (1 + (k - 1)) with (0 + k) by lia.
  - case_bool_decide as Hs; [|exists i; split_and!; [done|by apply eq_None_not_Some|lia|lia|done]].
    destruct (Z.eqb_spec i (2 ^ 31 - 1)); [lia|].
    destruct (IH (i + 1)) as (j & -> & ? & ? & ?); [lia|lia| |exists j; split_and!; [done|done|lia|lia|done]].
    exists (k - 1). assert (k <> 0) by (intros ->; rewrite Z.add_0_r in Hn; destruct Hs; congruence).
    split_and!; [lia|lia|lia|]. by replace (i + 1 + (k - 1)) with (i + k) by lia.
Qed.

(** C29. [GenerateChannelID] terminates with an id that is free. When the
    next id to try is not negative and the channels there are leave room below
    [INT_MAX], its search ends with a positive id that no channel has, which is
    the next one to try from, and the channels stay as they are. *)
Theorem GenerateChannelID_fresh name m :
  0 <= m_iNextGenID m ->
  m_iNextGenID m + Z.of_nat (size (m_mpChannelAgent m)) + 2 < 2 ^ 31 ->
  exists i m', GenerateChannelID name m = Some (i, m') /\ 0 < i < 2 ^ 31 /\
    GetChannel i m = None /\ m_iNextGenID m' = i /\ m_mpChannelAgent m' = m_mpChannelAgent m.
Proof.
  intros Hi Hsz.
  destruct (gen_loop_spec (S (S (size (m_mpChannelAgent m)))) (m_mpChannelAgent m) (m_iNextGenID m))
    as (j & E & Hn & Hj & Hnz); [done|lia| |].
  - destruct (NoDup_fresh_in_list
      (filter (fun z => z <> 0) (seqZ (m_iNextGenID m) (Z.of_nat (S (S (size (m_mpChannelAgent m)))))))
      (m_mpChannelAgent m)) as (k & [Hk Hin%elem_of_seqZ]%list_elem_of_filter & Hn).
    + apply NoDup_filter, NoDup_seqZ.
    + rewrite (seqZ_cons (m_iNextGenID m)) by lia. rewrite filter_cons.
      rewrite (filter_every (fun z => z <> 0) (seqZ (Z.succ _) _)).
      * destruct (decide _); cbn [length]; rewrite length_seqZ; lia.
      * apply Forall_forall. intros z Hz%elem_of_seqZ. lia.
    + exists (k - m_iNextGenID m). replace (m_iNextGenID m + (k - m_iNextGenID m)) with k by lia.
      split_and!; [lia|lia|done|done].
  - eexists j, _. unfold GenerateChannelID, gets, mbind, M_bind. rewrite E. simpl.
    split_and!; [done|lia|lia|done|done|done].
Qed.

End mgr_facts.

(** ** Witnesses *)

Module MgrWitness.
Import Reference.

Definition sock : zsock := ChannelWitness.sock.

(** A manager with its listening channel, on which a message is waiting. *)
Definition listening : zsock := deliver sock ChannelWitness.frames.
Definition m1 : ChannelAgentMgr :=
  default ChannelAgentMgr_new (snd <$> Init true (Some listening) 0 "ch" 1 ChannelAgentMgr_new).

Lemma m1_reach : mgr_reach m1.
Proof.
  apply (reach_step ChannelAgentMgr_new (OpInit true (Some listening) 0 "ch" 1)); [constructor|].
  vm_compute. reflexivity.
Qed.

Lemma GetMessage_source_is_zero_witness :
  exists msg' m', on_agent 0 (GetMessage (GetChannelID m1) ChannelMessage_new) m1
      = Some ((0, msg'), m') /\ iSrc msg' = 0.
Proof.
  destruct (on_agent 0 (GetMessage (GetChannelID m1) ChannelMessage_new) m1) as [[[r msg'] m']|] eqn:E.
  - assert (r = 0) as ->.
    { assert (fst <$> (fst <$> on_agent 0 (GetMessage (GetChannelID m1) ChannelMessage_new) m1)
        = Some 0) as E0 by (vm_compute; reflexivity).
      rewrite E in E0. by injection E0. }
    exists msg', m'. split; [reflexivity|].
    exact (GetMessage_source_is_zero m1 0 ChannelMessage_new m' 0 msg' m1_reach E eq_refl).
  - vm_compute in E. discriminate.
Defined.

Lemma GenerateChannelID_fresh_witness :
  exists i m', GenerateChannelID "agent:1" m1 = Some (i, m') /\ 0 < i < 2 ^ 31 /\
    GetChannel i m1 = None.
Proof.
  destruct (GenerateChannelID_fresh "agent:1" m1) as (i & m' & E & H1 & H2 & _).
  - vm_compute. discriminate.
  - vm_compute. reflexivity.
  - by exists i, m'.
Defined.

End MgrWitness.
