(* ===== verification/ChannelMsgProxy.v ===== *)
(** * The message proxy ([app/ChannelMsgProxy.cpp], [app/ChannelProxyDispatcher.cpp])

    The layer the servers use to talk to each other: it opens the channels of
    the configuration, frames an outgoing message as a two-byte head size and
    the concatenation of the given buffers, and routes an incoming message to
    the handler that subscribed to its source. *)

From S2P Require Import Prelude CString Extern Config ConfigCenter AppContext.
From S2P Require Import Channel ChannelAgentMgr.

Definition PROXY_CHANNEL_MESSAGE_HEAD_SIZE : Z := 2.
Definition MAX_CHANNEL_MESSAGE_SIZE : Z := 65536.

(** What the servers ask of a message proxy. *)
Class MsgProxy (P : Type) := {
  SendToAgent : Z -> list bytes -> Z -> M P Z
}.

Section ChannelMsgProxy.
Context {Z0 : Zmq} {B0 : BufferLib} {S0 : StringUtil}.
Context {I0 : IniLib} {R0 : Redis} {C0 : CommonMacro}.
(** The objects a [ChannelMessageDispatcherPtr] can point to. *)
Context {H : Type}.

Record ChannelMsgProxy := mkChannelMsgProxy {
  m_pCtx : bool;                          (* the context is set *)
  chnMsgSendBuffer : Buffer;
  m_mpHandlerMap : gmap Z H;
  m_vecHandlers : list ((Z * Z) * H)
}.
#[global] Instance eta_ChannelMsgProxy : Eta ChannelMsgProxy := fun r =>
  mkChannelMsgProxy (m_pCtx r) (chnMsgSendBuffer r) (m_mpHandlerMap r) (m_vecHandlers r).

(** The proxy and the manager singleton. *)
Record ProxyW := mkProxyW { proxy : ChannelMsgProxy; mgr : ChannelAgentMgr }.
#[global] Instance eta_ProxyW : Eta ProxyW := fun r => mkProxyW (proxy r) (mgr r).

Definition put_mgr (m : ChannelAgentMgr) (w : ProxyW) : ProxyW := w <| mgr := m |>.
Definition on_mgr {A} (m : M ChannelAgentMgr A) : M ProxyW A := zoom mgr put_mgr m.
Definition on_proxy (f : ChannelMsgProxy -> ChannelMsgProxy) : M ProxyW unit :=
  modify (fun w => w <| proxy ::= f |>).

Definition ChannelMsgProxy_new : ChannelMsgProxy := mkChannelMsgProxy false (mkBuffer 0 0 []) ∅ [].

(** [MatchSegment]. *)
Definition MatchSegment (seg : Z * Z) (i : Z) : bool := (fst seg <=? i) && (i <=? snd seg).

Definition SubscribeSingleMsg (i : Z) (hanlder : H) : M ChannelMsgProxy Z :=
  p ← gets (fun p => p);
  assert (bool_decide (m_mpHandlerMap p !! i = None));;
  modify (fun p => p <| m_mpHandlerMap ::= <[i := hanlder]> |>);;
  mret 0.

Definition SubscribeContinuousMsg (fromid endid : Z) (hanlder : H) : M ChannelMsgProxy Z :=
  p ← gets (fun p => p);
  if existsb (fun sh => MatchSegment (fst sh) fromid || MatchSegment (fst sh) endid) (m_vecHandlers p)
  then mret (-1)
  else
    modify (fun p => p <| m_vecHandlers ::= fun l => l ++ [((fromid, endid), hanlder)] |>);;
    mret 0.

Fixpoint SubscribeScatterMsg (ids : list Z) (hanlder : H) : M ChannelMsgProxy Z :=
  match ids with
  | [] => mret 0
  | i :: ids => SubscribeSingleMsg i hanlder;; SubscribeScatterMsg ids hanlder
  end.

Definition FindHandler (i : Z) (p : ChannelMsgProxy) : option H :=
  match m_mpHandlerMap p !! i with
  | Some h => Some h
  | None => snd <$> List.find (fun sh => MatchSegment (fst sh) i) (m_vecHandlers p)
  end.

(** The copy loop of [SendToAgent]. *)
Fixpoint append_all (vBuff : list bytes) (b : Buffer) : option Buffer :=
  match vBuff with
  | [] => Some b
  | d :: vBuff =>
      m ← memcpy_at (iCap b) (iUsed b) d (pBuffer b);
      append_all vBuff (b <| pBuffer := m |> <| iUsed := iUsed b + Z.of_nat (length d) |>)
  end.

(** [iLength], an [int], over the [int] sizes of the buffers. *)
Definition total_length (vBuff : list bytes) : Z :=
  foldl (fun n d => i32 (n + i32 (Z.of_nat (length d)))) 0 vBuff.

(** [SendToAgent(iDst, vBuff, iHeadSize)]. *)
Definition SendToAgentV (iDst : Z) (vBuff : list bytes) (iHeadSize : Z) : M ProxyW Z :=
  let iLength := total_length vBuff in
  if MAX_CHANNEL_MESSAGE_SIZE <=? i32 (iLength + PROXY_CHANNEL_MESSAGE_HEAD_SIZE) then mret (-1)
  else
    w ← gets (fun w => w);
    match GetChannel iDst (mgr w) with
    | None => mret (-1)
    | Some _ =>
        let b := chnMsgSendBuffer (proxy w) in
        m ← lift (memcpy_at (iCap b) 0 (htons_bytes iHeadSize) (pBuffer b));
        b ← lift (append_all vBuff (b <| pBuffer := m |> <| iUsed := PROXY_CHANNEL_MESSAGE_HEAD_SIZE |>));
        on_proxy (fun p => p <| chnMsgSendBuffer := b |>);;
        on_mgr (on_agent iDst (PostMessage (ChannelMessage_of b)))
    end.

(** [SendToAgent(iDst, buff, iHeadSize)]. *)
Definition SendToAgentB (iDst : Z) (buff : bytes) (iHeadSize : Z) : M ProxyW Z :=
  SendToAgentV iDst [buff] iHeadSize.

(** The channels of the configuration; [socks] is what ZeroMQ answers to each. *)
Fixpoint Init_channels (channelName : string) (chnls : list ChannelConfig)
    (socks : list (option zsock * Z)) : M ProxyW Z :=
  match chnls, socks with
  | [], _ => mret 0
  | _ :: _, [] => crash
  | c :: chnls, (sock, zret) :: socks =>
      chid ← on_mgr (GenerateChannelID (chnl_name c));
      r ← on_mgr (AddChannel sock zret chid false channelName);
      if negb (r =? 0) then mret (-1)
      else
        on_mgr (SetChannelIDName chid (chnl_name c));;
        Init_channels channelName chnls socks
  end.

Definition Init (pCtx : AppContext) (zctx : bool) (lsock : option zsock * Z)
    (socks : list (option zsock * Z)) : M ProxyW Z :=
  w ← gets (fun w => w);
  assert (negb (m_pCtx (proxy w)));;
  on_proxy (fun p => p <| m_pCtx := true |>);;
  match buffer_Create MAX_CHANNEL_MESSAGE_SIZE with
  | None => mret (-1)
  | Some b =>
      on_proxy (fun p => p <| chnMsgSendBuffer := b |>);;
      if strlen (localChannelAddr pCtx) =? 0 then mret 0
      else
        r ← on_mgr (ChannelAgentMgr.Init zctx (fst lsock) (snd lsock) (channelName pCtx) 1);
        if negb (r =? 0) then mret (-1)
        else
          on_mgr (SetChannelIDName 0 (localChannelName pCtx));;
          Init_channels (channelName pCtx) (channels pCtx) socks
  end.

Definition Destroy : M ProxyW unit :=
  on_proxy (fun p => p <| chnMsgSendBuffer ::= buffer_Destroy |>);;
  on_mgr ChannelAgentMgr.Destroy.

(** [ChannelProxyMessageDispatcher::DispatchMessage]: [handle h a msg] is the
    handler's own [DispatchMessage]. *)
Section Dispatch.
Context {W : Type} (pw : W -> ProxyW) (put_pw : ProxyW -> W -> W).
Context (handle : H -> Z -> ChannelMessage -> M W Z).

Definition DispatchMessage (agent : Z) (msg : ChannelMessage) : M W Z :=
  w ← gets pw;
  match FindHandler (iSrc msg) (proxy w) with
  | None => mret (-1)
  | Some handler =>
      match GetChannel (iSrc msg) (mgr w) with
      | None => mret (-1)
      | Some _ => handle handler (iSrc msg) msg;; mret 0
      end
  end.

(** [ChannelMsgProxy::Polling]. *)
Definition Polling (n : Z) (eintr : bool) (revents : list bool) : M W Z :=
  ChannelAgentMgr.Polling (fun w => mgr (pw w)) (fun m w => put_pw (put_mgr m (pw w)) w)
    DispatchMessage n eintr revents.
End Dispatch.

#[export] Instance ChannelMsgProxy_MsgProxy : MsgProxy ProxyW := { SendToAgent := SendToAgentV }.

End ChannelMsgProxy.

Arguments ChannelMsgProxy : clear implicits.
Arguments ProxyW {Z0} H.
#[export] Hint Unfold on_proxy on_mgr : wp_unfold.

(** ** Properties *)

Section proxy_facts.
Context {Z0 : Zmq} {B0 : BufferLib} {S0 : StringUtil} {H : Type}.
Implicit Types (p : ChannelMsgProxy H) (w : ProxyW H).

Lemma find_app {A} (P : A -> bool) (l1 l2 : list A) :
  List.find P (l1 ++ l2) = match List.find P l1 with Some x => Some x | None => List.find P l2 end.
Proof. induction l1 as [|x l1 IH]; simpl; [done|]. by destruct (P x). Qed.

(** Subscribing a range either refuses it and changes nothing, or routes
    every id of the range that had no handler to the new one and leaves every
    id that had a handler with the handler it had. *)
Theorem SubscribeContinuousMsg_routes p fromid endid h :
  exists r p', SubscribeContinuousMsg fromid endid h p = Some (r, p') /\
    ((r = -1 /\ p' = p) \/
     (r = 0 /\ forall i, FindHandler i p' =
        match FindHandler i p with
        | Some h' => Some h'
        | None => if MatchSegment (fromid, endid) i then Some h else None
        end)).
Proof.
  unfold SubscribeContinuousMsg, gets, mbind, M_bind. simpl.
  destruct (existsb _ _); eexists _, _; (split; [done|]); [by left|right].
  split; [done|]. intros i. unfold FindHandler. simpl.
  destruct (m_mpHandlerMap p !! i); [done|].
  rewrite find_app. simpl. destruct (List.find _ _) as [[]|]; simpl; [done|].
  by destruct (MatchSegment (fromid, endid) i).
Qed.

Definition segments_disjoint p : Prop :=
  forall i j s t, m_vecHandlers p !! i = Some s -> m_vecHandlers p !! j = Some t -> i <> j ->
    forall z, MatchSegment (fst s) z = true -> MatchSegment (fst t) z = false.

(** The check for a repeated subscription only tests the two ends of the
    new range: a range that strictly contains a subscribed one is accepted, and
    the table then holds two handlers for the same ids. *)
Theorem SubscribeContinuousMsg_accepts_overlap p a b lo hi h h' :
  m_vecHandlers p = [((a, b), h)] -> lo < a -> a <= b -> b < hi ->
  segments_disjoint p /\
  exists p', SubscribeContinuousMsg lo hi h' p = Some (0, p') /\ ~ segments_disjoint p'.
Proof.
  intros Hv Hlo Hab Hhi. split.
  { intros i j s t Hi Hj Hne. rewrite Hv in Hi, Hj.
    destruct i as [|i], j as [|j]; simpl in *; try done. }
  unfold SubscribeContinuousMsg, gets, mbind, M_bind. simpl. rewrite Hv.
  assert (forall z, z < a \/ b < z -> MatchSegment (a, b) z = false) as Hm.
  { intros z Hz. unfold MatchSegment. apply andb_false_iff. simpl. rewrite !Z.leb_gt. lia. }
  simpl. rewrite !Hm by lia. simpl. eexists. split; [done|]. intros Hd.
  specialize (Hd 0%nat 1%nat ((a, b), h) ((lo, hi), h')). simpl in Hd. rewrite Hv in Hd.
  specialize (Hd eq_refl eq_refl ltac:(done) a). unfold MatchSegment in Hd. simpl in Hd.
  rewrite (proj2 (Z.leb_le a a)), (proj2 (Z.leb_le a b)), (proj2 (Z.leb_le lo a)),
    (proj2 (Z.leb_le a hi)) in Hd by lia. by specialize (Hd eq_refl).
Qed.

(** *** Framing *)

Lemma total_length_concat vBuff :
  Z.of_nat (length (concat vBuff)) < 2 ^ 31 -> total_length vBuff = Z.of_nat (length (concat vBuff)).
Proof.
  assert (forall n, 0 <= n -> n + Z.of_nat (length (concat vBuff)) < 2 ^ 31 ->
    foldl (fun n d => i32 (n + i32 (Z.of_nat (length d)))) n vBuff = n + Z.of_nat (length (concat vBuff))) as Hg;
    [|intros; by apply Hg].
  induction vBuff as [|d v IH]; intros n Hn; simpl; [lia|]. rewrite length_app. intros Hl.
  rewrite (i32_small (Z.of_nat (length d))), i32_small, IH by lia. lia.
Qed.

Lemma memcpy_at_end cap (pre src dst : bytes) :
  take (length pre) dst = pre ->
  Z.of_nat (length pre) + Z.of_nat (length src) <= cap ->
  exists m, memcpy_at cap (Z.of_nat (length pre)) src dst = Some m /\
    take (length (pre ++ src)) m = pre ++ src.
Proof.
  intros Hpre Hcap. unfold memcpy_at.
  rewrite (proj2 (Z.leb_le _ _)), (proj2 (Z.leb_le _ _)) by lia. simpl.
  eexists. split; [done|]. rewrite Nat2Z.id.
  assert (length pre <= length dst)%nat.
  { rewrite <- Hpre at 1. rewrite length_take. lia. }
  rewrite resize_le, Hpre by done.
  rewrite app_assoc. apply take_app_length.
Qed.

Lemma append_all_spec vBuff b (pre : bytes) :
  iUsed b = Z.of_nat (length pre) -> take (length pre) (pBuffer b) = pre ->
  Z.of_nat (length pre) + Z.of_nat (length (concat vBuff)) <= iCap b ->
  exists b', append_all vBuff b = Some b' /\ iCap b' = iCap b /\
    iUsed b' = Z.of_nat (length (pre ++ concat vBuff)) /\
    buffer_data b' = pre ++ concat vBuff.
Proof.
  revert b pre. induction vBuff as [|d v IH]; intros b pre Hu Hp Hc; simpl in *.
  - exists b. rewrite app_nil_r. split_and!; [done|done|done|].
    unfold buffer_data. by rewrite Hu, Nat2Z.id.
  - rewrite length_app in Hc. rewrite Hu.
    destruct (memcpy_at_end (iCap b) pre d (pBuffer b) Hp) as (m & -> & Hm); [lia|]. simpl.
    destruct (IH (b <| pBuffer := m |> <| iUsed := Z.of_nat (length pre) + Z.of_nat (length d) |>)
      (pre ++ d)) as (b' & E & H1 & H2 & H3); simpl.
    + rewrite length_app. lia.
    + done.
    + rewrite length_app. lia.
    + exists b'. rewrite app_assoc. by split_and!.
Qed.

Lemma buffer_data_used b n : iUsed b = n -> 0 <= n < 2 ^ 32 ->
  msg_bytes (ChannelMessage_of b) = buffer_data b.
Proof. intros <- Hn. unfold msg_bytes, ChannelMessage_of, buffer_data. simpl. by rewrite u32_small. Qed.

(** C9. [SendToAgent] refines its contract, for buffers whose sizes together do
    not overflow the [int] they are summed in (fewer than 2^31 - 2 bytes):
    buffers of 65534 bytes or more in all, and unknown destinations, are refused
    without effect; otherwise exactly one message is posted on the destination's
    channel, whose payload is the head size in network order followed by the
    buffers in order, and no copy leaves the 64 KB send buffer. *)
Theorem SendToAgent_refines w iDst vBuff iHeadSize :
  Z.of_nat (length (concat vBuff)) < 2 ^ 31 - 2 ->
  iCap (chnMsgSendBuffer (proxy w)) = MAX_CHANNEL_MESSAGE_SIZE ->
  let payload := htons_bytes iHeadSize ++ concat vBuff in
  match GetChannel iDst (mgr w) with
  | Some a =>
      if decide (Z.of_nat (length payload) < MAX_CHANNEL_MESSAGE_SIZE) then
        exists msg b, msg_bytes msg = payload /\ iCap b = MAX_CHANNEL_MESSAGE_SIZE /\
          SendToAgentV iDst vBuff iHeadSize w =
            (on_mgr (on_agent iDst (PostMessage msg)))
              (w <| proxy ::= fun p => p <| chnMsgSendBuffer := b |> |>)
      else SendToAgentV iDst vBuff iHeadSize w = Some (-1, w)
  | None => SendToAgentV iDst vBuff iHeadSize w = Some (-1, w)
  end.
Proof.
  intros Hint Hcap payload. unfold SendToAgentV, MAX_CHANNEL_MESSAGE_SIZE in *.
  rewrite total_length_concat by lia. unfold PROXY_CHANNEL_MESSAGE_HEAD_SIZE. rewrite i32_small by lia.
  assert (Z.of_nat (length payload) = 2 + Z.of_nat (length (concat vBuff))) as Hlen.
  { unfold payload. rewrite length_app. simpl. lia. }
  destruct (Z.leb_spec 65536 (Z.of_nat (length (concat vBuff)) + 2)) as [Hbig|Hsmall].
  { rewrite decide_False by lia. by destruct (GetChannel iDst (mgr w)). }
  unfold gets, mbind, M_bind. destruct (GetChannel iDst (mgr w)) as [a|] eqn:Ea; [|done].
  rewrite decide_True by lia.
  destruct (memcpy_at_end (iCap (chnMsgSendBuffer (proxy w))) [] (htons_bytes iHeadSize)
    (pBuffer (chnMsgSendBuffer (proxy w)))) as (m & Em & Hm); [done|simpl; lia|].
  change (Z.of_nat (length [])) with 0 in Em. rewrite Em. simpl.
  destruct (append_all_spec vBuff (chnMsgSendBuffer (proxy w) <| pBuffer := m |> <| iUsed := 2 |>)
    (htons_bytes iHeadSize)) as (b & Eb & H1 & H2 & H3); [done|done|simpl; lia|].
  rewrite Eb. simpl. exists (ChannelMessage_of b), b.
  split_and!; [|simpl in *; lia|done].
  erewrite buffer_data_used; [exact H3|exact H2|]. fold payload. lia.
Qed.

Lemma append_all_overflow d v b :
  0 <= iUsed b -> iCap b = MAX_CHANNEL_MESSAGE_SIZE -> MAX_CHANNEL_MESSAGE_SIZE < Z.of_nat (length d) ->
  append_all (d :: v) b = None.
Proof.
  intros Hu Hc Hd. cbn [append_all]. unfold memcpy_at. rewrite Hc.
  rewrite (proj2 (Z.leb_gt (iUsed b + _) _)) by lia. by rewrite andb_false_r.
Qed.

(** Buffers whose sizes add up to 2^31 or more pass the test of the length,
    because the sum is negative, and are copied out of the send buffer. *)
Theorem SendToAgent_overflow w iDst a d1 d2 iHeadSize :
  GetChannel iDst (mgr w) = Some a -> iCap (chnMsgSendBuffer (proxy w)) = MAX_CHANNEL_MESSAGE_SIZE ->
  Z.of_nat (length d1) = 2 ^ 30 -> Z.of_nat (length d2) = 2 ^ 30 ->
  SendToAgentV iDst [d1; d2] iHeadSize w = None.
Proof.
  intros Ha Hcap H1 H2. unfold SendToAgentV, total_length. cbn [foldl]. rewrite H1, H2.
  change (MAX_CHANNEL_MESSAGE_SIZE <=? i32 (i32 (i32 (0 + i32 (2 ^ 30)) + i32 (2 ^ 30)) + PROXY_CHANNEL_MESSAGE_HEAD_SIZE))
    with false. cbv iota.
  unfold gets, mbind, M_bind. rewrite Ha. destruct (memcpy_at _ 0 _ _) as [m|]; [|done].
  cbv beta iota delta [lift mret M_ret]. rewrite append_all_overflow; [done|done|exact Hcap|rewrite H1; done].
Qed.

(** *** Routing of received messages *)

Lemma DispatchMessage_unrouted {W} (pw : W -> ProxyW H) handle agent msg x :
  FindHandler (iSrc msg) (proxy (pw x)) = None ->
  DispatchMessage pw handle agent msg x = Some (-1, x).
Proof. intros E. unfold DispatchMessage, gets, mbind, M_bind. by rewrite E. Qed.

(** Whatever the peers send, a handler subscribed to a channel other than
    0 is never called: as long as nothing is subscribed to id 0, the result of
    [Polling] does not depend on what the handlers do. *)
Theorem Polling_calls_no_handler w handle handle' n eintr revents :
  mgr_reach (mgr w) -> FindHandler 0 (proxy w) = None ->
  Polling (W := ProxyW H) (fun w => w) (fun w _ => w) handle n eintr revents w =
  Polling (W := ProxyW H) (fun w => w) (fun w _ => w) handle' n eintr revents w.
Proof.
  intros Hr Hf. unfold Polling, ChannelAgentMgr.Polling. destruct (n <? 0); [done|].
  unfold gets at 1 2, mbind at 1 2, M_bind at 1 2.
  generalize ChannelMessage_new 0. generalize (zip (zpollitems (mgr w)) revents) as items.
  intros items. revert w Hr Hf.
  induction items as [|[fd []] items IH]; intros w Hr Hf msg k; simpl; [done| |by apply IH].
  rewrite !(bind_run (gets (fun w => mgr w)) _ w _ w eq_refl).
  destruct (GetChannel fd (mgr w)); [|by apply IH].
  unfold mbind, M_bind, ChannelAgentMgr.on_mgr, zoom.
  destruct (on_agent fd (GetMessage (GetChannelID (mgr w)) msg) (mgr w))
    as [[[r msg'] m']|] eqn:E; [|done].
  assert (mgr_reach m') as Hr'.
  { apply (reach_step _ (OpGet fd msg) _ Hr). simpl. unfold gets, mbind, M_bind. by rewrite E. }
  destruct (Z.eqb_spec r 0) as [->|]; simpl; [|by apply IH].
  assert (iSrc msg' = 0) as Hs by exact (read_source_zero _ _ _ _ _ _ Hr E eq_refl).
  rewrite !DispatchMessage_unrouted by (simpl; by rewrite Hs). by apply IH.
Qed.

End proxy_facts.

(** ** Witnesses *)

Module ProxyWitness.
Import Reference MgrWitness.

Definition p0 : ChannelMsgProxy Z :=
  mkChannelMsgProxy true (mkBuffer 65536 0 []) ∅ [((5, 6), 1)].
Definition w0 : ProxyW Z := mkProxyW p0 m1.

Lemma SubscribeContinuousMsg_accepts_overlap_witness :
  exists p', SubscribeContinuousMsg 1 10 2 p0 = Some (0, p') /\ ~ segments_disjoint p'.
Proof. apply (SubscribeContinuousMsg_accepts_overlap p0 5 6 1 10 1 2 eq_refl); lia. Defined.

Lemma SendToAgent_refines_witness :
  exists msg b, msg_bytes msg = [0; 2; 7; 8; 9] /\ iCap b = 65536 /\
    SendToAgentV 0 [[7; 8]; [9]] 2 w0 =
      (on_mgr (on_agent 0 (PostMessage msg)))
        (w0 <| proxy ::= fun p => p <| chnMsgSendBuffer := b |> |>).
Proof.
  pose proof (SendToAgent_refines w0 0 [[7; 8]; [9]] 2 ltac:(simpl; lia) eq_refl) as Hs.
  destruct (GetChannel 0 (mgr w0)) eqn:E; [|vm_compute in E; discriminate].
  rewrite decide_True in Hs by (vm_compute; reflexivity). exact Hs.
Defined.

Lemma Polling_calls_no_handler_witness :
  Polling (W := ProxyW Z) (fun w => w) (fun w _ => w) (fun _ _ _ => crash) 1 false [true] w0 =
  Polling (W := ProxyW Z) (fun w => w) (fun w _ => w) (fun _ _ _ => mret 0) 1 false [true] w0.
Proof. apply (Polling_calls_no_handler w0); [exact m1_reach|reflexivity]. Defined.

End ProxyWitness.
