(* ===== verification/GateServerHandler.v ===== *)
(** * The gate's connections ([gate/GateServerHandler.cpp], [gate/GateFrame.cpp])

    The gate accepts TCP clients, cuts their byte streams into frames (a length
    in network order and the payload), authorises the first message and
    forwards the later ones to the agent server of the client's area. The
    clients live in a table of connections; a map takes a socket's descriptor to
    its slot. A [Connection*] is the slot's index.

    Around the handler are the timers, the message proxy (any [MsgProxy]), the
    configuration and the network: the sockets are outside the repository, so
    what they do is the trace of sends and closes, and a send's result is an
    oracle of the trace. *)

From S2P Require Import Prelude CString Extern GateMsg TimerMgr ChannelMsgProxy.

(** ** Frames *)

Definition MAX_GATE_FRAME_SIZE : Z := 65535.
Definition GATE_MESSAGE_PREFIX_LEN : Z := 2.

(** [GateFrame(p, sz)]: the size is 16 bits wide. *)
Record GateFrame := mkGateFrame { frame_data : bytes; frame_size : Z }.
Definition GateFrame_new (p : bytes) (sz : Z) : GateFrame := mkGateFrame p (u16 sz).

(** ** Connections *)

Definition STATE_INVALID : Z := 0.
Definition STATE_CONNECTED : Z := 1.
Definition STATE_AUTHING : Z := 2.
Definition STATE_AUTHORIZED : Z := 3.
Definition CONNECTION_DEFAULT_RECV_BUFF_SIZE : Z := MAX_GATE_FRAME_SIZE + 4.
Definition CONNECTION_STAT_PERIOD_TIME : Z := 5.

Record Connection := mkConnection {
  iIdx : Z;
  cliSocket : Z;                (* the descriptor of the client's socket *)
  recvBuffer : option Buffer;   (* [None]: the buffer's memory is null *)
  iDstChannel : Z;
  iMsgLen : Z;
  bState : Z;
  ulUid : Z;
  sToken : string;
  iArea : Z;
  tLastActTime : Z;
  dwRecvNum : Z;
  dwSendNum : Z;
  dwLastPeriodRecvNum : Z;
  dwLastPeriodSendNum : Z;
  tLastPeriodTime : Z;
  dwCurrentRecvSpeed : Z;
  dwCurrentSendSpeed : Z;
  dwTimerID : Z;
  tLastCheckTime : Z
}.
#[global] Instance eta_Connection : Eta Connection := fun r =>
  mkConnection (iIdx r) (cliSocket r) (recvBuffer r) (iDstChannel r) (iMsgLen r) (bState r)
    (ulUid r) (sToken r) (iArea r) (tLastActTime r) (dwRecvNum r) (dwSendNum r)
    (dwLastPeriodRecvNum r) (dwLastPeriodSendNum r) (tLastPeriodTime r)
    (dwCurrentRecvSpeed r) (dwCurrentSendSpeed r) (dwTimerID r) (tLastCheckTime r).

(** [Connection::Init]: the socket, the buffer's memory and the area stay. *)
Definition Connection_Init (c : Connection) : Connection :=
  mkConnection (-1) (cliSocket c) ((fun b => b <| iUsed := 0 |>) <$> recvBuffer c)
    0 0 STATE_INVALID 0 "" (iArea c) 0 0 0 0 0 0 0 0 0 0.

(** [Connection::Connection]. *)
Definition Connection_new : Connection :=
  Connection_Init (mkConnection 0 (-1) None 0 0 0 0 "" 0 0 0 0 0 0 0 0 0 0 0).

(** [Connection::UpdateStat] at the application's time [sec]. *)
Definition UpdateStat (sec : Z) (recv : bool) (c : Connection) : Connection :=
  let c := c <| tLastActTime := sec |> in
  let c := if recv then c <| dwRecvNum := u32 (dwRecvNum c + 1) |>
           else c <| dwSendNum := u32 (dwSendNum c + 1) |> in
  if tLastPeriodTime c + CONNECTION_STAT_PERIOD_TIME <=? tLastActTime c then
    c <| dwCurrentRecvSpeed := u32 (dwRecvNum c - dwLastPeriodRecvNum c) / CONNECTION_STAT_PERIOD_TIME |>
      <| dwCurrentSendSpeed := u32 (dwSendNum c - dwLastPeriodSendNum c) / CONNECTION_STAT_PERIOD_TIME |>
      <| dwLastPeriodRecvNum := dwRecvNum c |>
      <| dwLastPeriodSendNum := dwSendNum c |>
      <| tLastPeriodTime := tLastActTime c |>
  else c.

(** ** The handler and the world around it *)

Record GateServerHandler := mkGateServerHandler {
  m_dwLastClosingIdx : Z;
  m_vecConnections : list Connection;
  m_mpConnections : gmap Z Z;
  m_iMaxConnection : Z;
  m_iAlivedConnections : Z;
  m_closing : Z;
  iConnxMaxIdleTime : Z;
  downloadsize : Z;
  uploadsize : Z;
  reqpkgs : Z;
  rsppkgs : Z;
  downpkgs : Z;
  uppkgs : Z
}.
#[global] Instance eta_GateServerHandler : Eta GateServerHandler := fun r =>
  mkGateServerHandler (m_dwLastClosingIdx r) (m_vecConnections r) (m_mpConnections r)
    (m_iMaxConnection r) (m_iAlivedConnections r) (m_closing r) (iConnxMaxIdleTime r)
    (downloadsize r) (uploadsize r) (reqpkgs r) (rsppkgs r) (downpkgs r) (uppkgs r).

(** The part of [GateServerContext] the handler reads. *)
Record GateCfg := mkGateCfg {
  iTestMode : Z;
  iNeedAuth : Z;
  mpAreaID2ChannelID : gmap Z Z;
  iIdleCheckPeriod : Z
}.

(** [GateServerHandler::GateServerHandler]. *)
Definition GateServerHandler_new (cfg : GateCfg) (iMaxConnections : Z) : GateServerHandler :=
  mkGateServerHandler 0 (replicate (Z.to_nat iMaxConnections) Connection_new) ∅
    iMaxConnections 0 0 (u32 (iIdleCheckPeriod cfg)) 0 0 0 0 0 0.

Inductive NetEvt := NSend (fd : Z) (data : bytes) | NClose (fd : Z).

(** The timer callback the gate registers. *)
Inductive GateTimer := CheckConnxFreeCB.

Section Gate.
Context {P : Type} {MP : MsgProxy P}.
Context {B0 : BufferLib} {CSS : Codec GateSSMsg} {CCS : Codec GateCSMsg}.
(** The result of sending on a socket after a history of sends and closes, and
    the address of the peer of a socket. *)
Context (Send_ret : list NetEvt -> Z -> bytes -> Z) (peer : Z -> Z * Z).

Record GateW := mkGateW {
  handler : GateServerHandler;
  timers : TimerMgr GateTimer;
  proxy : P;
  cfg : GateCfg;
  app_sec : Z;        (* [GetApp()->GetTime().tv_sec] *)
  now_sec : Z;        (* [Time::GetTimeStampNow()] *)
  test_buffer : bytes; (* the 1024 bytes of the static [s_b] *)
  trace : list NetEvt
}.
#[global] Instance eta_GateW : Eta GateW := fun r =>
  mkGateW (handler r) (timers r) (proxy r) (cfg r) (app_sec r) (now_sec r) (test_buffer r) (trace r).

Definition on_handler (f : GateServerHandler -> GateServerHandler) : M GateW unit :=
  modify (fun w => w <| handler ::= f |>).
Definition on_timers {A} (m : M (TimerMgr GateTimer) A) : M GateW A :=
  zoom timers (fun t w => w <| timers := t |>) m.
Definition emit (e : NetEvt) : M GateW unit := modify (fun w => w <| trace ::= fun l => l ++ [e] |>).

(** [m_vecConnections[i]]: out of range is undefined. *)
Definition conn (i : Z) : M GateW Connection :=
  w ← gets (fun w => w);
  if i <? 0 then crash else lift (m_vecConnections (handler w) !! Z.to_nat i).
Definition upd_conn (i : Z) (f : Connection -> Connection) : M GateW unit :=
  c ← conn i;
  on_handler (fun h => h <| m_vecConnections ::= <[Z.to_nat i := f c]> |>).

Definition socket_Send (fd : Z) (data : bytes) : M GateW Z :=
  w ← gets (fun w => w);
  emit (NSend fd data);;
  mret (Send_ret (trace w) fd data).

(** [Connection::Close]. *)
Definition Connection_Close (i : Z) : M GateW unit :=
  c ← conn i;
  (if (bState c =? STATE_CONNECTED) || (bState c =? STATE_AUTHING) || (bState c =? STATE_AUTHORIZED)
   then emit (NClose (cliSocket c)) else mret tt);;
  upd_conn i (fun c => c <| bState := STATE_INVALID |> <| iIdx := -1 |>).

(** [GetNextIdx]: the scan [for(i = 1; i < size; ++i)]. *)
Fixpoint first_free (i : Z) (cs : list Connection) : Z :=
  match cs with
  | [] => -1
  | c :: cs => if bState c =? 0 then i else first_free (i + 1) cs
  end.

Definition GetNextIdx (h : GateServerHandler) : Z :=
  if m_iMaxConnection h <=? m_iAlivedConnections h then -1
  else first_free 1 (tail (m_vecConnections h)).

Definition GetConnectionByIdx (idx : Z) (h : GateServerHandler) : option Z :=
  if (idx <=? 0) || (Z.of_nat (length (m_vecConnections h)) <=? idx) then None
  else match m_vecConnections h !! Z.to_nat idx with
       | Some c => if bState c =? STATE_INVALID then None else Some idx
       | None => None
       end.

Definition GetConnectionByFD (fd : Z) (h : GateServerHandler) : option Z :=
  match m_mpConnections h !! fd with
  | Some i => GetConnectionByIdx i h
  | None => None
  end.

(** [SendFrameToClient]. *)
Definition SendFrameToClient (i : Z) (frame : GateFrame) : M GateW Z :=
  w ← gets (fun w => w);
  upd_conn i (UpdateStat (app_sec w) false);;
  c ← conn i;
  r ← socket_Send (cliSocket c) (htons_bytes (frame_size frame));
  if negb (r =? 0) then mret (-1)
  else
    on_handler (fun h => h <| downloadsize := u64 (downloadsize h + frame_size frame) |>);;
    data ← lift (slice 0 (frame_size frame) (frame_data frame));
    socket_Send (cliSocket c) data.

(** A message serialised into a buffer created for it. *)
Definition pack_buffer {T} `{Codec T} (x : T) (b : Buffer) : option bytes :=
  s ← SerializeToArray x (iCap b);
  m ← memcpy_at (iCap b) 0 s (pBuffer b);
  Some (resize (Z.to_nat (iCap b)) 0 m).

(** [SendToClient]. *)
Definition SendToClient (i : Z) (ga : GateCSMsg) : M GateW Z :=
  assert (ByteSize ga <? MAX_GATE_FRAME_SIZE);;
  match buffer_Create (ByteSize ga) with
  | None => mret (-1)
  | Some b =>
      match pack_buffer ga b with
      | None => mret (-2)
      | Some data => SendFrameToClient i (GateFrame_new data (iCap b))
      end
  end.

Definition NotifyNeedAuth (i : Z) : M GateW Z :=
  SendToClient i (mkGateCSMsg GATE_NEED_AUTH None None).

Definition NotifyAuthResult (i : Z) (result : Z) : M GateW Z :=
  SendToClient i (mkGateCSMsg GATE_AUTH_RSP None (Some (u32 result))).

(** [m_mpConnections[fd]]: an absent key is inserted with [0]. *)
Definition map_index (fd : Z) : M GateW Z :=
  w ← gets (fun w => w);
  match m_mpConnections (handler w) !! fd with
  | Some i => mret i
  | None => on_handler (fun h => h <| m_mpConnections ::= <[fd := 0]> |>);; mret 0
  end.

Definition send_to_agent (dst : Z) (bufs : list bytes) (head : Z) : M GateW Z :=
  zoom proxy (fun p w => w <| proxy := p |>) (SendToAgent dst bufs head).

(** [ReportEvent]. *)
Definition ReportEvent (i : Z) (iEvent iParam : Z) (data : option bytes) : M GateW unit :=
  c ← conn i;
  idx ← map_index (cliSocket c);
  assert ((iEvent =? EVENT_CONNECTED) || (iEvent =? EVENT_CLOSE) || (iEvent =? EVENT_DATA));;
  let '(ip, port) := peer (cliSocket c) in
  let gc := mkGateSSMsg iEvent (u32 idx) (ulUid c) (u32 (iArea c))
    (if iEvent =? EVENT_CONNECTED then Some ip else None)
    (if iEvent =? EVENT_CONNECTED then Some port else None)
    (if iEvent =? EVENT_CLOSE then Some (u32 iParam) else None) in
  b ← lift (buffer_Create (ByteSize gc));
  head ← lift (pack_buffer gc b);
  send_to_agent (iDstChannel c) (head :: match data with Some d => [d] | None => [] end) (iCap b);;
  mret tt.

(** [RemoveConnection]. *)
Definition RemoveConnection (i : Z) (iReason : Z) : M GateW unit :=
  c ← conn i;
  on_handler (fun h => h <| m_mpConnections ::= delete (cliSocket c) |>);;
  ReportEvent i EVENT_CLOSE iReason None;;
  on_timers (CancelTimer (dwTimerID c));;
  Connection_Close i.

(** [ForwardData]. *)
Definition ForwardData (i : Z) (buffer : bytes) : M GateW unit :=
  on_handler (fun h => h <| reqpkgs := u64 (reqpkgs h + 1) |>);;
  ReportEvent i EVENT_DATA 0 (Some buffer);;
  w ← gets (fun w => w);
  if negb (iTestMode (cfg w) =? 0)
  then SendFrameToClient i (GateFrame_new (test_buffer w) 1024);; mret tt
  else mret tt.

(** [Authorizing]. The area of the request and the keys and values of the map of
    areas are [uint32]s; the fields [iArea] and [iDstChannel] are [int]s. *)
Definition Authorizing (i : Z) (auth : AuthReq) : M GateW Z :=
  w ← gets (fun w => w);
  match mpAreaID2ChannelID (cfg w) !! req_area auth with
  | None => mret (-1)
  | Some ch =>
      upd_conn i (fun c => c <| iArea := i32 (req_area auth) |> <| iDstChannel := i32 ch |>
        <| ulUid := req_uid auth |> <| sToken := req_token auth |>
        <| tLastActTime := now_sec w |>);;
      if negb (iNeedAuth (cfg w) =? 0) then mret 1 else mret 0
  end.

(** [OnClientMessage]. *)
Definition OnClientMessage (i : Z) (msg : bytes) : M GateW Z :=
  on_handler (fun h => h <| uppkgs := u64 (uppkgs h + 1) |>);;
  w ← gets (fun w => w);
  upd_conn i (UpdateStat (app_sec w) true);;
  c ← conn i;
  if bState c =? STATE_CONNECTED then
    match parse msg with
    | None => mret (-1)
    | Some ga =>
        iRet ← Authorizing i (authreq ga);
        if iRet =? 0 then
          NotifyAuthResult i iRet;;
          upd_conn i (fun c => c <| bState := STATE_AUTHORIZED |>);;
          ReportEvent i EVENT_CONNECTED 0 None;;
          mret 0
        else if 0 <? iRet then
          upd_conn i (fun c => c <| bState := STATE_AUTHING |>);;
          mret 0
        else
          RemoveConnection i CONNECTION_CLOSE_EXCEPTION;;
          mret (-1)
    end
  else if bState c =? STATE_AUTHING then mret 0
  else if bState c =? STATE_AUTHORIZED then ForwardData i msg;; mret 0
  else RemoveConnection i CONNECTION_CLOSE_EXCEPTION;; mret (-1).

(** [memcpy(pConn->recvBuffer.pBuffer + iUsed, src, n)]. *)
Definition recv_copy (i : Z) (src : bytes) : M GateW unit :=
  c ← conn i;
  b ← lift (recvBuffer c);
  m ← lift (memcpy_at (iCap b) (iUsed b) src (pBuffer b));
  upd_conn i (fun c => c <| recvBuffer := Some (b <| pBuffer := m |>) |>).

Definition set_used (i n : Z) : M GateW unit :=
  upd_conn i (fun c => c <| recvBuffer := (fun b => b <| iUsed := n |>) <$> recvBuffer c |>).

Definition recv_used (c : Connection) : Z :=
  match recvBuffer c with Some b => iUsed b | None => 0 end.

(** The first part of [OnClientDataRecv]: the length prefix of the next frame
    is read when none is pending. The result is the offset behind it, or [None]
    when the connection was closed. *)
Definition recv_prefix (i : Z) (data : bytes) : M GateW (option Z) :=
  let n := Z.of_nat (length data) in
  c ← conn i;
  let used := recv_used c in
  if iMsgLen c =? 0 then
    if GATE_MESSAGE_PREFIX_LEN <=? used then
      Connection_Close i;; mret None
    else if GATE_MESSAGE_PREFIX_LEN <=? used + n then
      let off := GATE_MESSAGE_PREFIX_LEN - used in
      src ← lift (slice 0 off data);
      recv_copy i src;;
      c ← conn i;
      b ← lift (recvBuffer c);
      len ← lift (read_u16 (pBuffer b));
      upd_conn i (fun c => c <| iMsgLen := len |>);;
      set_used i 0;;
      mret (Some off)
    else
      recv_copy i data;; mret (Some 0)
  else mret (Some 0).

(** [OnClientDataRecv]: the recursion is on the bytes left, so the number of
    bytes received is enough fuel. *)
Fixpoint OnClientDataRecv (fuel : nat) (fd : Z) (data : bytes) : M GateW Z :=
  match fuel with
  | O => crash
  | S fuel =>
    w ← gets (fun w => w);
    match GetConnectionByFD fd (handler w) with
    | None => emit (NClose fd);; mret (-1)
    | Some i =>
      let n := Z.of_nat (length data) in
      on_handler (fun h => h <| uploadsize := u64 (uploadsize h + n) |>);;
      st ← recv_prefix i data;
      match st with
      | None => mret (-1)
      | Some off =>
        c ← conn i;
        if iMsgLen c =? 0 then mret 0
        else
          let used := recv_used c in
          if iMsgLen c <=? n + used - off then
            src ← lift (slice off (iMsgLen c - used) data);
            recv_copy i src;;
            let off := off + (iMsgLen c - used) in
            c ← conn i;
            b ← lift (recvBuffer c);
            msg ← lift (slice 0 (iMsgLen c) (pBuffer b));
            iMsgRet ← OnClientMessage i msg;
            let iRet := if iMsgRet =? 0 then 0 else 1 in
            upd_conn i (fun c => c <| iMsgLen := 0 |>);;
            set_used i 0;;
            if n <=? off then mret iRet
            else
              rest ← lift (slice off (n - off) data);
              r ← OnClientDataRecv fuel fd rest;
              mret (iRet + r)
          else mret 0
      end
    end
  end.

(** [OnNewConnection]. *)
Definition OnNewConnection (fd : Z) : M GateW Z :=
  on_handler (fun h => h <| m_iAlivedConnections ::= Z.succ |>);;
  w ← gets (fun w => w);
  let i := GetNextIdx (handler w) in
  c ← conn i;
  ok ← (match recvBuffer c with
        | Some _ => mret true
        | None => match buffer_Create CONNECTION_DEFAULT_RECV_BUFF_SIZE with
                  | None => mret false
                  | Some b => upd_conn i (fun c => c <| recvBuffer := Some b |>);; mret true
                  end
        end);
  if negb ok || negb (m_closing (handler w) =? 0) then emit (NClose fd);; mret (-1)
  else
    upd_conn i (fun c => Connection_Init c <| bState := STATE_CONNECTED |> <| cliSocket := fd |>);;
    r ← NotifyNeedAuth i;
    if negb (r =? 0) then Connection_Close i;; mret (-1)
    else
      upd_conn i (fun c => c <| iIdx := i |>);;
      on_handler (fun h => h <| m_mpConnections ::= <[fd := i]> |>);;
      if 0 <? iConnxMaxIdleTime (handler w) then
        t ← on_timers (AddTimer (i32 (iConnxMaxIdleTime (handler w) * 1000)) i (Some CheckConnxFreeCB) 0);
        upd_conn i (fun c => c <| dwTimerID := t |>);;
        mret 0
      else mret 0.

(** [OnConnectionClosed]. *)
Definition OnConnectionClosed (fd : Z) : M GateW Z :=
  on_handler (fun h => h <| m_iAlivedConnections ::= Z.pred |>);;
  w ← gets (fun w => w);
  match GetConnectionByFD fd (handler w) with
  | None => mret (-1)
  | Some i => RemoveConnection i CONNECTION_CLOSE_BY_CLIENT;; mret 0
  end.

(** [CheckConnxFree], the timer callback. *)
Definition CheckConnxFree (cnnxidx : Z) : M GateW unit :=
  w ← gets (fun w => w);
  match GetConnectionByIdx cnnxidx (handler w) with
  | None => mret tt
  | Some i =>
      c ← conn i;
      if tLastActTime c + iIdleCheckPeriod (cfg w) <? app_sec w
      then RemoveConnection i CONNECTION_CLOSE_BY_DEFAULT
      else if tLastCheckTime c + iIdleCheckPeriod (cfg w) <=? app_sec w then
        t ← on_timers (AddTimer (i32 (iConnxMaxIdleTime (handler w) * 1000)) cnnxidx
                         (Some CheckConnxFreeCB) 0);
        upd_conn i (fun c => c <| dwTimerID := t |> <| tLastCheckTime := app_sec w |>)
      else mret tt
  end.

(** [OnClosing]: at most [notifinum] slots a call. *)
Fixpoint OnClosing_loop (notifinum : nat) (reason : Z) : M GateW unit :=
  match notifinum with
  | O => mret tt
  | S k =>
      w ← gets (fun w => w);
      if m_dwLastClosingIdx (handler w) <? Z.of_nat (length (m_vecConnections (handler w))) then
        (match GetConnectionByIdx (m_dwLastClosingIdx (handler w)) (handler w) with
         | None => mret tt
         | Some i => RemoveConnection i reason
         end);;
        on_handler (fun h => h <| m_dwLastClosingIdx ::= Z.succ |>);;
        OnClosing_loop k reason
      else mret tt
  end.

Definition OnClosing (reason : Z) (notifinum : nat) : M GateW Z :=
  w ← gets (fun w => w);
  (if m_closing (handler w) =? 0 then on_handler (fun h => h <| m_closing := reason |>) else mret tt);;
  OnClosing_loop notifinum reason;;
  w ← gets (fun w => w);
  if m_dwLastClosingIdx (handler w) <? Z.of_nat (length (m_vecConnections (handler w)))
  then mret 0 else mret 1.

(** [GateServerHandler::~GateServerHandler]. *)
Fixpoint Destruct_loop (k : nat) (i : Z) : M GateW unit :=
  match k with
  | O => mret tt
  | S k =>
      w ← gets (fun w => w);
      (match GetConnectionByIdx i (handler w) with
       | None => mret tt
       | Some i => RemoveConnection i CONNECTION_CLOSE_STOP_SVR
       end);;
      Destruct_loop k (i + 1)
  end.

Definition GateServerHandler_delete : M GateW unit :=
  w ← gets (fun w => w);
  Destruct_loop (length (m_vecConnections (handler w))) 0.

End Gate.

Arguments GateW : clear implicits.
