(* ===== verification/GateFraming.v ===== *)
(** * Framing in the gate

    What [OnClientDataRecv] makes of the bytes of a client: whole frames are
    cut and forwarded in order, whichever way they are concatenated; a frame
    that arrives in pieces is lost. *)

From S2P Require Import Prelude CString Extern WireFormat WireReference TimerMgr ChannelMsgProxy GateMsg GateServerHandler.

(** The frame of a message on the wire. *)
Definition frame (msg : bytes) : bytes := htons_bytes (Z.of_nat (length msg)) ++ msg.

(** A message a frame can carry. *)
Definition fits (msg : bytes) : Prop := (0 < length msg)%nat /\ Z.of_nat (length msg) <= MAX_GATE_FRAME_SIZE.

Section framing.
Context {P : Type} {MP : MsgProxy P}.
Context {B0 : BufferLib} {CSS : Codec GateSSMsg} {CCS : Codec GateCSMsg}.
Context `{!BufferLaws, !CodecLaws GateSSMsg}.
Context (Send_ret : list NetEvt -> Z -> bytes -> Z) (peer : Z -> Z * Z).
Implicit Types w : GateW P.

(** ** Symbolic execution of the table accesses *)

Definition slot w (i : Z) : option Connection := m_vecConnections (handler w) !! Z.to_nat i.

Lemma wp_conn i c w Q : 0 <= i -> slot w i = Some c -> Q c w -> wp (conn i) Q w.
Proof.
  intros Hi Hc HQ. unfold conn. wp_steps. destruct (Z.ltb_spec i 0); [lia|].
  by eapply wp_lift.
Qed.

Definition set_slot (i : Z) (c : Connection) w : GateW P :=
  w <| handler ::= fun h => h <| m_vecConnections ::= <[Z.to_nat i := c]> |> |>.

Lemma wp_upd_conn i f c w Q :
  0 <= i -> slot w i = Some c -> Q tt (set_slot i (f c) w) -> wp (upd_conn i f) Q w.
Proof.
  intros Hi Hc HQ. unfold upd_conn. wp_steps. eapply wp_conn; [done|done|].
  unfold on_handler. by wp_steps.
Qed.

Lemma slot_set_eq i c c0 w : slot w i = Some c0 -> slot (set_slot i c w) i = Some c.
Proof.
  intros Hc. unfold slot, set_slot in *. simpl. apply list_lookup_insert_eq.
  by eapply lookup_lt_Some.
Qed.

(** ** What a forwarded message leaves alone *)

(** Everything but the connection [i], the statistics and the proxy. *)
Record same_around (i : Z) w w' : Prop := {
  sa_timers : timers w' = timers w;
  sa_cfg : cfg w' = cfg w;
  sa_sec : app_sec w' = app_sec w;
  sa_trace : trace w' = trace w;
  sa_map : m_mpConnections (handler w') = m_mpConnections (handler w);
  sa_len : length (m_vecConnections (handler w')) = length (m_vecConnections (handler w));
  sa_other : forall j, j <> Z.to_nat i ->
    m_vecConnections (handler w') !! j = m_vecConnections (handler w) !! j
}.

Lemma same_around_refl i w : same_around i w w.
Proof. done. Qed.
Lemma same_around_trans i w1 w2 w3 :
  same_around i w1 w2 -> same_around i w2 w3 -> same_around i w1 w3.
Proof.
  intros H1 H2. split; try (destruct H1, H2; congruence).
  intros j Hj. rewrite (sa_other _ _ _ H2 j Hj). by apply (sa_other _ _ _ H1).
Qed.
Lemma same_around_set i c w : same_around i w (set_slot i c w).
Proof.
  split; try done; simpl.
  - apply length_insert.
  - intros j Hj. by rewrite list_lookup_insert_ne.
Qed.

(** The identity of a connection: what frames and reports depend on. *)
Definition ident (c : Connection) : Z * Z * Z * Z * Z * Z :=
  (iIdx c, cliSocket c, iDstChannel c, bState c, ulUid c, iArea c).

Lemma ident_UpdateStat sec r c : ident (UpdateStat sec r c) = ident c.
Proof. unfold UpdateStat. by destruct r, (_ <=? _). Qed.
Lemma recvBuffer_UpdateStat sec r c : recvBuffer (UpdateStat sec r c) = recvBuffer c.
Proof. unfold UpdateStat. by destruct r, (_ <=? _). Qed.
Lemma iMsgLen_UpdateStat sec r c : iMsgLen (UpdateStat sec r c) = iMsgLen c.
Proof. unfold UpdateStat. by destruct r, (_ <=? _). Qed.

(** ** Reports *)

(** The report of event [ev] for connection [c] in slot [idx]. *)
Definition report (c : Connection) (idx ev param : Z) : GateSSMsg :=
  mkGateSSMsg ev (u32 idx) (ulUid c) (u32 (iArea c))
    (if ev =? EVENT_CONNECTED then Some (fst (peer (cliSocket c))) else None)
    (if ev =? EVENT_CONNECTED then Some (snd (peer (cliSocket c))) else None)
    (if ev =? EVENT_CLOSE then Some (u32 param) else None).

Lemma pack_buffer_serialize {T} `{CodecLaws T} (x : T) b :
  buffer_Create (ByteSize x) = Some b -> pack_buffer x b = Some (serialize x) /\ iCap b = ByteSize x.
Proof.
  intros Hb. destruct (buffer_Create_cap _ _ Hb) as [Hcap _]. split; [|done].
  unfold pack_buffer, SerializeToArray. rewrite Hcap, Z.leb_refl. simpl.
  pose proof (length_serialize x) as Hl. unfold memcpy_at.
  rewrite (proj2 (Z.leb_le 0 0)), (proj2 (Z.leb_le _ _)) by lia. simpl. f_equal.
  assert (resize (Z.to_nat 0) 0 (pBuffer b) = []) as -> by (by destruct (pBuffer b)).
  rewrite app_nil_l, <- Hl, Nat2Z.id. by apply resize_app.
Qed.

Lemma wp_ReportEvent i ev param data c idx b w p' r Q :
  0 <= i -> slot w i = Some c -> m_mpConnections (handler w) !! cliSocket c = Some idx ->
  ev = EVENT_CONNECTED \/ ev = EVENT_CLOSE \/ ev = EVENT_DATA ->
  let gc := report c idx ev param in
  buffer_Create (ByteSize gc) = Some b ->
  SendToAgent (iDstChannel c) (serialize gc :: match data with Some d => [d] | None => [] end)
    (ByteSize gc) (proxy w) = Some (r, p') ->
  Q tt (w <| proxy := p' |>) ->
  wp (ReportEvent peer i ev param data) Q w.
Proof.
  intros Hi Hc Hidx Hev gc Hb Hs HQ. unfold ReportEvent. wp_steps.
  eapply wp_conn; [done|done|]. unfold map_index. wp_steps. rewrite Hidx. wp_steps.
  { by destruct Hev as [->|[->| ->]]. }
  destruct (pack_buffer_serialize gc b Hb) as [Hpk Hcap].
  unfold gc, report in Hb, Hpk, Hcap, Hs.
  destruct (peer (cliSocket c)) as [ip port] eqn:Ep. simpl in Hb, Hpk, Hcap, Hs.
  wp_steps. eapply wp_lift; [exact Hb|]. wp_steps. eapply wp_lift; [exact Hpk|]. wp_steps.
  unfold send_to_agent. apply wp_zoom. unfold wp. rewrite Hcap, Hs. exact HQ.
Qed.

(** ** One frame *)

(** The client of descriptor [fd] is the authorised connection [c] of slot [i],
    between two frames. *)
Record ready (i fd : Z) (c : Connection) w : Prop := {
  rd_range : 0 < i < Z.of_nat (length (m_vecConnections (handler w)));
  rd_map : m_mpConnections (handler w) !! fd = Some i;
  rd_slot : slot w i = Some c;
  rd_state : bState c = STATE_AUTHORIZED;
  rd_fd : cliSocket c = fd;
  rd_len : iMsgLen c = 0;
  rd_buf : exists b, recvBuffer c = Some b /\ iCap b = CONNECTION_DEFAULT_RECV_BUFF_SIZE /\ iUsed b = 0;
  rd_test : iTestMode (cfg w) = 0
}.

Lemma ready_ByFD i fd c w : ready i fd c w -> GetConnectionByFD fd (handler w) = Some i.
Proof.
  intros [Hr Hm Hs Hst _ _ _ _]. unfold GetConnectionByFD, GetConnectionByIdx. rewrite Hm.
  destruct (Z.leb_spec i 0), (Z.leb_spec (Z.of_nat (length (m_vecConnections (handler w)))) i);
    try lia. simpl. unfold slot in Hs. by rewrite Hs, Hst.
Qed.

(** The data report of a connection, with its payload, sent through the proxy. *)
Definition forward (c : Connection) (i : Z) (msg : bytes) (p : P) : option (Z * P) :=
  let gc := report c i EVENT_DATA 0 in
  SendToAgent (iDstChannel c) [serialize gc; msg] (ByteSize gc) p.

Lemma forward_ident c c' i msg p : ident c = ident c' -> forward c i msg p = forward c' i msg p.
Proof.
  unfold ident. intros E. injection E as E1 E2 E3 E4 E5 E6.
  unfold forward, report. by rewrite E2, E3, E5, E6.
Qed.

Lemma report_ident c c' i ev param : ident c = ident c' -> report c i ev param = report c' i ev param.
Proof.
  unfold ident. intros E. injection E as E1 E2 E3 E4 E5 E6.
  unfold report. by rewrite E2, E5, E6.
Qed.

(** An authorised connection forwards the message it is given. *)
Lemma OnClientMessage_forward i c msg b w r p' :
  0 < i -> slot w i = Some c -> m_mpConnections (handler w) !! cliSocket c = Some i ->
  bState c = STATE_AUTHORIZED -> iTestMode (cfg w) = 0 ->
  buffer_Create (ByteSize (report c i EVENT_DATA 0)) = Some b ->
  forward c i msg (proxy w) = Some (r, p') ->
  wp (OnClientMessage Send_ret peer i msg) (fun ret w' =>
    ret = 0 /\ proxy w' = p' /\ same_around i w w' /\
    exists c', slot w' i = Some c' /\ ident c' = ident c /\ recvBuffer c' = recvBuffer c) w.
Proof.
  intros Hi Hc Hm Hst Htest Hb Hf. unfold OnClientMessage, on_handler. wp_steps.
  eapply wp_upd_conn; [lia|done|].
  set (w0 := w <| handler ::= fun h => h <| uppkgs := u64 (uppkgs h + 1) |> |>).
  set (c1 := UpdateStat (app_sec w0) true c).
  assert (slot (set_slot i c1 w0) i = Some c1) as Hc1 by (by eapply slot_set_eq).
  wp_steps. eapply wp_conn; [lia|exact Hc1|].
  pose proof (ident_UpdateStat (app_sec w0) true c) as Hid. fold c1 in Hid.
  assert (bState c1 = STATE_AUTHORIZED) as -> by (unfold ident in Hid; congruence).
  assert (cliSocket c1 = cliSocket c) as Hfd by (unfold ident in Hid; congruence).
  change (STATE_AUTHORIZED =? STATE_CONNECTED) with false.
  change (STATE_AUTHORIZED =? STATE_AUTHING) with false.
  change (STATE_AUTHORIZED =? STATE_AUTHORIZED) with true. cbv iota.
  unfold ForwardData, on_handler. wp_steps.
  assert (report c1 i EVENT_DATA 0 = report c i EVENT_DATA 0) as Hrep.
  { by apply report_ident. }
  eapply (wp_ReportEvent i EVENT_DATA 0 (Some msg) c1 i b).
  - lia.
  - exact Hc1.
  - by rewrite Hfd.
  - tauto.
  - by rewrite Hrep.
  - rewrite (forward_ident c c1) in Hf by done. exact Hf.
  - wp_steps. simpl. rewrite Htest. simpl. wp_steps. split_and!; [done|done| |].
    + split; try done; simpl.
      * apply length_insert.
      * intros j Hj. by rewrite list_lookup_insert_ne.
    + exists c1. split_and!; [exact Hc1|done|]. apply recvBuffer_UpdateStat.
Qed.

(** ** Copies *)

Lemma slice_mid (a b c : bytes) off n :
  off = Z.of_nat (length a) -> n = Z.of_nat (length b) -> slice off n (a ++ b ++ c) = Some b.
Proof.
  intros -> ->. unfold slice.
  rewrite !(proj2 (Z.leb_le _ _)) by (rewrite ?length_app; lia). simpl.
  by rewrite !Nat2Z.id, drop_app_length, take_app_length.
Qed.

Lemma memcpy_front cap src dst :
  Z.of_nat (length src) <= cap -> exists tl, memcpy_at cap 0 src dst = Some (src ++ tl).
Proof.
  intros Hc. unfold memcpy_at. rewrite !(proj2 (Z.leb_le _ _)) by lia. simpl.
  assert (resize (Z.to_nat 0) 0 dst = []) as -> by (by destruct dst). eauto.
Qed.

Lemma wp_recv_copy i c b src w Q :
  0 <= i -> slot w i = Some c -> recvBuffer c = Some b -> iUsed b = 0 ->
  Z.of_nat (length src) <= iCap b ->
  (forall tl, Q tt (set_slot i (c <| recvBuffer := Some (b <| pBuffer := src ++ tl |>) |>) w)) ->
  wp (recv_copy i src) Q w.
Proof.
  intros Hi Hc Hb Hu Hl HQ. unfold recv_copy. wp_steps. eapply wp_conn; [done|done|].
  wp_steps. eapply wp_lift; [done|]. wp_steps.
  destruct (memcpy_front (iCap b) src (pBuffer b) Hl) as [tl Htl].
  eapply wp_lift; [rewrite Hu; exact Htl|]. by eapply wp_upd_conn.
Qed.

Lemma length_frame msg : Z.of_nat (length (frame msg)) = 2 + Z.of_nat (length msg).
Proof. unfold frame. rewrite length_app. simpl. lia. Qed.

Lemma length_frames msgs : (length msgs <= length (concat (frame <$> msgs)))%nat.
Proof.
  induction msgs as [|m msgs IH]; [done|]. rewrite fmap_cons. cbn [concat length].
  rewrite length_app. pose proof (length_frame m). lia.
Qed.

(** The prefix of a frame is read and the connection waits for the body. *)
Lemma read_prefix msg tl :
  fits msg -> read_u16 (htons_bytes (Z.of_nat (length msg)) ++ tl) = Some (Z.of_nat (length msg)).
Proof. intros [H1 H2]. apply ntohs_htons. unfold MAX_GATE_FRAME_SIZE in H2. lia. Qed.

(** Between two frames, the prefix of the next one is read. *)
Lemma wp_recv_prefix i fd c msg body w Q :
  ready i fd c w -> fits msg ->
  (forall w1 c1 b1, slot w1 i = Some c1 -> ident c1 = ident c ->
     iMsgLen c1 = Z.of_nat (length msg) -> recvBuffer c1 = Some b1 ->
     iCap b1 = CONNECTION_DEFAULT_RECV_BUFF_SIZE -> iUsed b1 = 0 ->
     same_around i w w1 -> proxy w1 = proxy w -> Q (Some 2) w1) ->
  wp (recv_prefix i (htons_bytes (Z.of_nat (length msg)) ++ body)) Q w.
Proof.
  intros [Hr Hm Hs Hst Hfd Hlen (b0 & Hb0 & Hcap & Hused) Ht] Hfits HQ.
  unfold recv_prefix. wp_steps. eapply wp_conn; [lia|exact Hs|].
  assert (recv_used c = 0) as -> by (unfold recv_used; by rewrite Hb0).
  rewrite Hlen. unfold GATE_MESSAGE_PREFIX_LEN.
  change (0 =? 0) with true. change (2 <=? 0) with false. cbv iota.
  rewrite (proj2 (Z.leb_le 2 _)) by (rewrite length_app; simpl; lia).
  change (2 - 0) with 2. wp_steps. eapply wp_lift; [by apply (slice_mid [])|].
  wp_steps. eapply (wp_recv_copy i c b0); [lia|done|done|done|rewrite Hcap; done|]. intros tl1.
  set (c1 := c <| recvBuffer := _ |>).
  assert (slot (set_slot i c1 w) i = Some c1) as Hs1 by (by eapply slot_set_eq).
  wp_steps. eapply wp_conn; [lia|exact Hs1|]. wp_steps. eapply wp_lift; [done|].
  wp_steps. eapply wp_lift; [by apply read_prefix|].
  wp_steps. eapply wp_upd_conn; [lia|exact Hs1|]. wp_steps.
  unfold set_used. eapply wp_upd_conn; [lia|by eapply slot_set_eq|]. wp_steps.
  eapply HQ.
  - eapply slot_set_eq, slot_set_eq. exact Hs1.
  - done.
  - done.
  - done.
  - done.
  - done.
  - eapply same_around_trans; [|apply same_around_set].
    eapply same_around_trans; apply same_around_set.
  - done.
Qed.

(** ** A frame at the head of the bytes received *)

(** A connection stays ready when its buffer is empty again. *)
Lemma ready_again i fd c w c' w' :
  ready i fd c w -> same_around i w w' -> slot w' i = Some c' -> ident c' = ident c -> iMsgLen c' = 0 ->
  (exists b, recvBuffer c' = Some b /\ iCap b = CONNECTION_DEFAULT_RECV_BUFF_SIZE /\ iUsed b = 0) -> ready i fd c' w'.
Proof.
  intros [] Ha Hs Hid Hl Hb. unfold ident in Hid.
  split; try done; [by rewrite (sa_len _ _ _ Ha)|by rewrite (sa_map _ _ _ Ha)|congruence|congruence|].
  by rewrite (sa_cfg _ _ _ Ha).
Qed.

(** The end of a frame: what is left is read by another turn. *)
Lemma recv_rest fuel fd msg rest w Q :
  let L := Z.of_nat (length msg) in
  let n := 2 + L + Z.of_nat (length rest) in
  (if decide (rest = []) then Q 0 w else wp (OnClientDataRecv Send_ret peer fuel fd rest) Q w) ->
  wp (if n <=? 2 + (L - 0) then mret 0
      else
        rest' ← lift (slice (2 + (L - 0)) (n - (2 + (L - 0))) (htons_bytes L ++ msg ++ rest));
        ret ← OnClientDataRecv Send_ret peer fuel fd rest'; mret (0 + ret)) Q w.
Proof.
  intros L n HQ. destruct (Z.leb_spec n (2 + (L - 0))); destruct (decide (rest = [])) as [->|Hne]; subst n.
  - by wp_steps.
  - exfalso. destruct rest; [done|]. simpl in *. lia.
  - exfalso. simpl in *. lia.
  - wp_steps. eapply wp_lift.
    + rewrite app_assoc, <- (app_nil_r ((htons_bytes L ++ msg) ++ rest)), <- app_assoc.
      apply slice_mid; [rewrite length_app; simpl; lia|lia].
    + wp_steps. eapply wp_mono; [exact HQ|]. intros r1 w7 HQ7. by wp_steps.
Qed.


Lemma recv_frame fuel i fd c msg rest b w r p' Q :
  ready i fd c w -> fits msg ->
  buffer_Create (ByteSize (report c i EVENT_DATA 0)) = Some b ->
  forward c i msg (proxy w) = Some (r, p') ->
  (forall w1 c1, ready i fd c1 w1 -> ident c1 = ident c -> proxy w1 = p' -> same_around i w w1 ->
     if decide (rest = []) then Q 0 w1
     else wp (OnClientDataRecv Send_ret peer fuel fd rest) Q w1) ->
  wp (OnClientDataRecv Send_ret peer (S fuel) fd (frame msg ++ rest)) Q w.
Proof.
  intros Hrd Hfits Hcr Hf HQ. pose proof Hrd as [Hr Hm Hs Hst Hfd _ _ Ht].
  pose proof Hfits as [Hpos Hmax]. unfold MAX_GATE_FRAME_SIZE in Hmax.
  set (L := Z.of_nat (length msg)) in *.
  set (n := Z.of_nat (length (frame msg ++ rest))).
  assert (n = 2 + L + Z.of_nat (length rest)) as Hn.
  { unfold n. rewrite length_app, Nat2Z.inj_add, length_frame. lia. }
  cbn [OnClientDataRecv]. unfold on_handler. wp_steps. rewrite (ready_ByFD _ _ _ _ Hrd).
  fold n. wp_steps. set (w0 := w <| handler ::= _ |>).
  replace (frame msg ++ rest) with (htons_bytes L ++ msg ++ rest) by (unfold frame; by rewrite <- app_assoc).
  eapply (wp_recv_prefix i fd c msg (msg ++ rest) w0); [by destruct Hrd|done|].
  intros w3 c3 b3 Hs3 Hid3 Hl3 Hb3 Hcap3 Hu3 Ha3 Hp3. fold L in Hl3.
  unfold CONNECTION_DEFAULT_RECV_BUFF_SIZE, MAX_GATE_FRAME_SIZE in Hcap3.
  assert (same_around i w w3) as Hw3 by (by eapply same_around_trans; [|exact Ha3]).
  wp_steps. eapply wp_conn; [lia|exact Hs3|]. rewrite Hl3.
  assert (recv_used c3 = 0) as -> by (unfold recv_used; by rewrite Hb3).
  destruct (Z.eqb_spec L 0); [lia|]. rewrite (proj2 (Z.leb_le L (n + 0 - 2))) by lia.
  wp_steps. eapply wp_lift; [apply slice_mid; [done|lia]|].
  wp_steps. eapply (wp_recv_copy i c3 b3); [lia|exact Hs3|done|done|fold L; lia|].
  intros tl2. set (c4 := c3 <| recvBuffer := _ |>). set (w4 := set_slot i c4 w3).
  assert (slot w4 i = Some c4) as Hs4 by (by eapply slot_set_eq).
  wp_steps. eapply wp_conn; [lia|exact Hs4|]. wp_steps. eapply wp_lift; [done|]. wp_steps.
  change (iMsgLen c4) with (iMsgLen c3). rewrite Hl3.
  eapply wp_lift; [by apply (slice_mid [] msg tl2)|]. wp_steps.
  assert (same_around i w w4) as Ha4 by (eapply same_around_trans; [exact Hw3|apply same_around_set]).
  assert (ident c4 = ident c) as Hid4 by exact Hid3.
  assert (bState c4 = STATE_AUTHORIZED) as Hst4 by (unfold ident in Hid4; congruence).
  assert (cliSocket c4 = fd) as Hfd4 by (unfold ident in Hid4; congruence).
  eapply wp_mono.
  { eapply (OnClientMessage_forward i c4 msg b w4 r p'); [lia|exact Hs4| |done| | |].
    - by rewrite (sa_map _ _ _ Ha4), Hfd4.
    - by rewrite (sa_cfg _ _ _ Ha4).
    - by rewrite (report_ident c4 c).
    - change (proxy w4) with (proxy w3). rewrite Hp3. by rewrite (forward_ident c4 c). }
  intros ret w5 (-> & Hp5 & Ha5 & c5 & Hs5 & Hid5 & Hb5).
  wp_steps. eapply wp_upd_conn; [lia|exact Hs5|]. wp_steps.
  unfold set_used. eapply wp_upd_conn; [lia|by eapply slot_set_eq|].
  set (c6 := _ <| recvBuffer := _ |>). set (w6 := set_slot i c6 _).
  assert (same_around i w w6) as Ha6.
  { eapply same_around_trans; [exact Ha4|]. eapply same_around_trans; [exact Ha5|].
    eapply same_around_trans; apply same_around_set. }
  assert (ident c6 = ident c) as Hid6 by (etrans; [exact Hid5|exact Hid4]).
  assert (ready i fd c6 w6) as Hrd6.
  { apply (ready_again i fd c w); try done; [eapply slot_set_eq, slot_set_eq; exact Hs5|].
    simpl. rewrite Hb5. simpl. by eexists. }
  change (0 =? 0) with true. cbv iota. rewrite Hn. apply (recv_rest fuel fd msg rest w6 Q). exact (HQ w6 c6 Hrd6 Hid6 Hp5 Ha6).
Qed.

(** ** Whole frames *)

(** The abstract behaviour of a client's messages: each is reported, in order,
    to the agent, and the proxy accepts each report (result 0). It is undefined
    ([None]) when the proxy refuses one. *)
Fixpoint forward_all (c : Connection) (i : Z) (msgs : list bytes) (p : P) : option P :=
  match msgs with
  | [] => Some p
  | m :: msgs => '(r, p) ← forward c i m p; if r =? 0 then forward_all c i msgs p else None
  end.

Lemma forward_all_ident c c' i msgs p :
  ident c = ident c' -> forward_all c i msgs p = forward_all c' i msgs p.
Proof.
  intros Hid. revert p. induction msgs as [|m msgs IH]; intros p; simpl; [done|].
  rewrite (forward_ident c c' i m p Hid). destruct (forward c' i m p) as [[r p']|]; simpl; [|done]. destruct (r =? 0); auto.
Qed.

Lemma recv_frames msgs fuel i fd c w p' :
  msgs <> [] -> (length msgs <= fuel)%nat -> ready i fd c w -> Forall fits msgs ->
  is_Some (buffer_Create (ByteSize (report c i EVENT_DATA 0))) ->
  forward_all c i msgs (proxy w) = Some p' ->
  wp (OnClientDataRecv Send_ret peer fuel fd (concat (frame <$> msgs))) (fun r w' =>
    r = 0 /\ proxy w' = p' /\ same_around i w w' /\
    exists c', ready i fd c' w' /\ ident c' = ident c) w.
Proof.
  revert fuel c w. induction msgs as [|m msgs IH]; intros fuel c w Hne Hfuel Hrd Hfit [b Hb] Hf; [done|].
  destruct fuel as [|fuel]; [simpl in Hfuel; lia|].
  apply Forall_cons in Hfit as [Hm Hms]. cbn [forward_all] in Hf.
  destruct (forward c i m (proxy w)) as [[r p1]|] eqn:E1; [|done]. simpl in Hf.
  destruct (r =? 0); [|done].
  change (concat (frame <$> m :: msgs)) with (frame m ++ concat (frame <$> msgs)).
  eapply recv_frame; [done|done|exact Hb|exact E1|].
  intros w1 c1 Hrd1 Hid1 Hp1 Ha1.
  destruct (decide (concat (frame <$> msgs) = [])) as [Hnil|Hnn].
  - destruct msgs as [|m2 msgs]; [|done]. simpl in Hf. injection Hf as <-.
    split_and!; [done|done|done|]. by exists c1.
  - eapply wp_mono.
    { apply (IH fuel c1 w1); [by intros ->|simpl in Hfuel; lia|done|done| |].
      - rewrite (report_ident c1 c) by done. by exists b.
      - rewrite Hp1. by rewrite (forward_all_ident c1 c). }
    intros r2 w2 (-> & Hp2 & Ha2 & c2 & Hrd2 & Hid2).
    split_and!; [done|done|by eapply same_around_trans|]. exists c2. by rewrite Hid2.
Qed.

(** C2. Framing is correct on whole frames. The gate is not in test mode (the
    delivered configuration turns it on), and the bytes of one read from an
    authorised client are the frames of a sequence of messages, each of 1 to
    65535 bytes and accepted by the proxy, which refuses a report whose head and
    payload are 65534 bytes or more. Then [OnClientDataRecv] terminates, gives
    the proxy exactly these messages in order for the client's agent (the
    abstract [forward_all], every result 0), writes nothing to any socket,
    touches no other connection, and leaves the client between two frames, ready
    for more. A refused message is dropped ([OnClientDataRecv_refused]). *)
Theorem OnClientDataRecv_frames msgs i fd c w p' :
  msgs <> [] -> ready i fd c w -> Forall fits msgs ->
  is_Some (buffer_Create (ByteSize (report c i EVENT_DATA 0))) ->
  forward_all c i msgs (proxy w) = Some p' ->
  let data := concat (frame <$> msgs) in
  exists w', OnClientDataRecv Send_ret peer (length data) fd data w = Some (0, w') /\
    proxy w' = p' /\ same_around i w w' /\ exists c', ready i fd c' w' /\ ident c' = ident c.
Proof.
  intros Hne Hrd Hfit Hb Hf data.
  pose proof (length_frames msgs : length msgs <= length data)%nat as Hfuel.
  destruct (wp_run _ _ _ (recv_frames msgs (length data) i fd c w p' Hne Hfuel Hrd Hfit Hb Hf))
    as (r & w' & E & -> & H1 & H2 & H3). by exists w'.
Qed.

(** A message the proxy refuses is dropped: [ReportEvent] does not look at the
    result of [SendToAgent], and the gate goes on as after an accepted one. *)
Theorem OnClientDataRecv_refused msg i fd c w r p' :
  ready i fd c w -> fits msg -> is_Some (buffer_Create (ByteSize (report c i EVENT_DATA 0))) ->
  forward c i msg (proxy w) = Some (r, p') -> r <> 0 ->
  forward_all c i [msg] (proxy w) = None /\
  exists w', OnClientDataRecv Send_ret peer (length (frame msg)) fd (frame msg) w = Some (0, w') /\
    proxy w' = p' /\ same_around i w w' /\ exists c', ready i fd c' w' /\ ident c' = ident c.
Proof.
  intros Hrd Hfit [b Hb] Hf Hr. split.
  { cbn [forward_all]. rewrite Hf. simpl. by destruct (Z.eqb_spec r 0). }
  apply wp_run_ret. change (length (frame msg)) with (S (S (length msg))).
  rewrite <- (app_nil_r (frame msg)). eapply recv_frame; [done..|].
  intros w1 c1 Hrd1 Hid1 Hp1 Ha1. rewrite decide_True by done. split_and!; try done. by exists c1.
Qed.

(** ** Frames in pieces *)

(** A connection that has read the prefix of a frame of [L] bytes. *)
Record waiting (i fd L : Z) (c : Connection) w : Prop := {
  wt_range : 0 < i < Z.of_nat (length (m_vecConnections (handler w)));
  wt_map : m_mpConnections (handler w) !! fd = Some i;
  wt_slot : slot w i = Some c;
  wt_state : bState c = STATE_AUTHORIZED;
  wt_len : iMsgLen c = L /\ L <> 0;
  wt_used : recv_used c = 0
}.

(** Less than the body is received: nothing is stored. *)
Lemma recv_short fuel i fd L c part w :
  waiting i fd L c w -> Z.of_nat (length part) < L ->
  wp (OnClientDataRecv Send_ret peer (S fuel) fd part) (fun r w' =>
    r = 0 /\ waiting i fd L c w' /\ same_around i w w' /\ proxy w' = proxy w) w.
Proof.
  intros [Hr Hm Hs Hst [Hl Hnz] Hu] Hpart. cbn [OnClientDataRecv]. unfold on_handler. wp_steps.
  assert (GetConnectionByFD fd (handler w) = Some i) as ->.
  { unfold GetConnectionByFD, GetConnectionByIdx. rewrite Hm.
    destruct (Z.leb_spec i 0), (Z.leb_spec (Z.of_nat (length (m_vecConnections (handler w)))) i);
      try lia. simpl. unfold slot in Hs. by rewrite Hs, Hst. }
  wp_steps. set (w0 := w <| handler ::= _ |>).
  unfold recv_prefix. wp_steps. eapply (wp_conn i c); [lia|done|].
  rewrite Hl. destruct (Z.eqb_spec L 0); [done|]. wp_steps.
  eapply (wp_conn i c); [lia|done|]. rewrite Hl, Hu.
  destruct (Z.eqb_spec L 0); [done|].
  destruct (Z.leb_spec L (Z.of_nat (length part) + 0 - 0)); [lia|]. wp_steps. done.
Qed.

(** C40. A frame whose body arrives in two pieces is lost: the first piece
    (prefix and a proper part of the body) is consumed without being stored,
    and the second, which is shorter than the body, does not complete it. The
    message is never forwarded, although all of its bytes were received, and
    the stream is out of step: the connection takes the following bytes for
    the body. *)
Theorem OnClientDataRecv_fragmented i fd c msg part1 part2 w :
  ready i fd c w -> fits msg -> msg = part1 ++ part2 -> part1 <> [] -> part2 <> [] ->
  exists w1 w2,
    OnClientDataRecv Send_ret peer 1 fd (htons_bytes (Z.of_nat (length msg)) ++ part1) w = Some (0, w1) /\
    OnClientDataRecv Send_ret peer 1 fd part2 w1 = Some (0, w2) /\
    proxy w2 = proxy w /\ trace w2 = trace w /\
    exists c2, waiting i fd (Z.of_nat (length msg)) c2 w2.
Proof.
  intros Hrd Hfits -> Hp1 Hp2. pose proof Hfits as [Hpos _].
  set (msg := part1 ++ part2) in *. set (L := Z.of_nat (length msg)).
  assert (length part1 < length msg)%nat.
  { unfold msg. rewrite length_app. destruct part2; [done|]. simpl. lia. }
  assert (length part2 < length msg)%nat.
  { unfold msg. rewrite length_app. destruct part1; [done|]. simpl. lia. }
  assert (wp (OnClientDataRecv Send_ret peer 1 fd (htons_bytes L ++ part1)) (fun r w1 =>
    r = 0 /\ same_around i w w1 /\ proxy w1 = proxy w /\ exists c1, waiting i fd L c1 w1) w) as Hw.
  { pose proof Hrd as [Hr Hm Hs Hst Hfd _ _ _].
    cbn [OnClientDataRecv]. unfold on_handler. wp_steps. rewrite (ready_ByFD _ _ _ _ Hrd).
    wp_steps. set (w0 := w <| handler ::= _ |>).
    eapply (wp_recv_prefix i fd c msg part1 w0); [by destruct Hrd|done|].
    intros w3 c3 b3 Hs3 Hid3 Hl3 Hb3 Hcap3 Hu3 Ha3 Hp3. fold L in Hl3.
    assert (recv_used c3 = 0) as Hu by (unfold recv_used; by rewrite Hb3).
    wp_steps. eapply wp_conn; [lia|exact Hs3|]. rewrite Hl3, Hu, length_app.
    destruct (Z.eqb_spec L 0); [lia|]. cbn [length htons_bytes].
    destruct (Z.leb_spec L (Z.of_nat (2 + length part1) + 0 - 2)); [lia|]. wp_steps.
    assert (same_around i w w3) as Hw3 by (by eapply same_around_trans; [|exact Ha3]).
    split_and!; [done|done|done|]. exists c3. split; [| |done| |by split|done].
    - by rewrite (sa_len _ _ _ Hw3).
    - by rewrite (sa_map _ _ _ Hw3).
    - unfold ident in Hid3. congruence. }
  destruct (wp_run _ _ _ Hw) as (r1 & w1 & E1 & -> & Ha1 & Hp & c1 & Hw1).
  destruct (wp_run _ _ _ (recv_short 0 i fd L c1 part2 w1 Hw1 ltac:(lia)))
    as (r2 & w2 & E2 & -> & Hw2 & Ha2 & Hp').
  exists w1, w2. split_and!; [done|done|by rewrite Hp'| |by exists c1].
  by rewrite (sa_trace _ _ _ Ha2), (sa_trace _ _ _ Ha1).
Qed.

End framing.

(** ** Witnesses

    A proxy that logs what it is given, the generated messages over the
    reference wire format, and a gate with one authorised client. *)

Module GateWitness.
Export Reference. Import Base128.

#[export] Instance log_proxy : MsgProxy (list (Z * list bytes * Z)) := {
  SendToAgent dst bufs head := fun p => Some (0, p ++ [(dst, bufs, head)])
}.

(** The messages as the generated code writes them. *)
#[export] Instance ss_codec : Codec GateSSMsg := GateSSMsg_codec.
#[export] Instance ss_laws : CodecLaws GateSSMsg := GateSSMsg_codec_laws.
#[export] Instance cs_codec : Codec GateCSMsg := GateCSMsg_codec.
#[export] Instance cs_laws : CodecLaws GateCSMsg := GateCSMsg_codec_laws.

Definition c0 : Connection :=
  mkConnection 1 50 (Some (mkBuffer CONNECTION_DEFAULT_RECV_BUFF_SIZE 0 [])) 9 0 STATE_AUTHORIZED
    1001 "tok" 3 0 0 0 0 0 0 0 0 0 0.
Definition cfg0 : GateCfg := mkGateCfg 0 0 {[3 := 9]} 600.
Definition h0 : GateServerHandler :=
  GateServerHandler_new cfg0 3
    <| m_vecConnections := [Connection_new; c0; Connection_new] |>
    <| m_mpConnections := {[50 := 1]} |> <| m_iAlivedConnections := 1 |>.
Definition w0 : GateW (list (Z * list bytes * Z)) :=
  mkGateW h0 (TimerMgr_new (mkTimeval 0 0) 0) [] cfg0 100 100 [] [].
Definition send_ok (l : list NetEvt) (fd : Z) (d : bytes) : Z := 0.
Definition peer0 (fd : Z) : Z * Z := (2130706433, 4000).

Lemma ready0 : ready 1 50 c0 w0.
Proof. split; try done. by eexists. Qed.

Lemma OnClientDataRecv_frames_witness :
  let head := serialize (report peer0 c0 1 EVENT_DATA 0) in
  exists w', OnClientDataRecv send_ok peer0 9 50 (frame [7] ++ frame [8; 9; 10; 11]) w0 = Some (0, w') /\
    proxy w' = [(9, [head; [7]], 9); (9, [head; [8; 9; 10; 11]], 9)].
Proof.
  destruct (OnClientDataRecv_frames send_ok peer0 [[7]; [8; 9; 10; 11]] 1 50 c0 w0
    [(9, [serialize (report peer0 c0 1 EVENT_DATA 0); [7]], 9);
     (9, [serialize (report peer0 c0 1 EVENT_DATA 0); [8; 9; 10; 11]], 9)])
    as (w' & E & Hp & _).
  - discriminate.
  - exact ready0.
  - repeat constructor; vm_compute; congruence || lia.
  - by eexists.
  - reflexivity.
  - exists w'. split; [exact E|exact Hp].
Defined.

Lemma OnClientDataRecv_fragmented_witness :
  exists w1 w2,
    OnClientDataRecv send_ok peer0 1 50 (htons_bytes 4 ++ [8; 9]) w0 = Some (0, w1) /\
    OnClientDataRecv send_ok peer0 1 50 [10; 11] w1 = Some (0, w2) /\
    proxy w2 = [].
Proof.
  destruct (OnClientDataRecv_fragmented send_ok peer0 1 50 c0 [8; 9; 10; 11] [8; 9] [10; 11] w0)
    as (w1 & w2 & E1 & E2 & Hp & _).
  - exact ready0.
  - split; vm_compute; congruence || lia.
  - reflexivity.
  - discriminate.
  - discriminate.
  - exists w1, w2. split; [exact E1|]. split; [exact E2|exact Hp].
Defined.

End GateWitness.
