(* ===== verification/GateAgentChannelMsgHandler.v ===== *)
(** * Messages from the agents to the gate ([gate/GateAgentChannelMsgHandler.cpp])

    A message from an agent names a connection by its index and closes it or
    carries data for its client. *)

From S2P Require Import Prelude CString Extern TimerMgr Channel ChannelMsgProxy.
From S2P Require Import GateMsg GateServerHandler GateFraming.

Section GateAgent.
Context {P : Type} {MP : MsgProxy P}.
Context {B0 : BufferLib} {CSS : Codec GateSSMsg} {CCS : Codec GateCSMsg}.
Context (Send_ret : list NetEvt -> Z -> bytes -> Z) (peer : Z -> Z * Z).

(** [DispatchMessage]: reading past the data of the message is undefined. *)
Definition DispatchMessage (msg : ChannelMessage) : M (GateW P) Z :=
  ggclen ← lift (read_u16 (pData msg));
  if dwSize msg <? ggclen + PROXY_CHANNEL_MESSAGE_HEAD_SIZE then mret (-1)
  else
    head ← lift (slice PROXY_CHANNEL_MESSAGE_HEAD_SIZE ggclen (pData msg));
    match parse head with
    | None => mret (-1)
    | Some ggc =>
        let csmsglen := dwSize msg - ggclen - PROXY_CHANNEL_MESSAGE_HEAD_SIZE in
        let pcsmsg := drop (Z.to_nat (PROXY_CHANNEL_MESSAGE_HEAD_SIZE + ggclen)) (pData msg) in
        w ← gets (fun w => w);
        match GetConnectionByIdx (i32 (ss_idx ggc)) (handler w) with
        | None => mret (-1)
        | Some i =>
            if ss_event ggc =? EVENT_CLOSE then
              RemoveConnection peer i (i32 (default 0 (ss_reason ggc)));; mret 0
            else if ss_event ggc =? EVENT_DATA then
              on_handler (fun h => h <| downpkgs := u64 (downpkgs h + 1) |>
                                     <| rsppkgs := u64 (rsppkgs h + 1) |>);;
              SendFrameToClient Send_ret i (GateFrame_new pcsmsg csmsglen);; mret 0
            else mret (-1)
        end
    end.

End GateAgent.

Section agent_facts.
Context {P : Type} {MP : MsgProxy P}.
Context {B0 : BufferLib} {CSS : Codec GateSSMsg} {CCS : Codec GateCSMsg}.
Context `{!CodecLaws GateSSMsg}.
Context (Send_ret : list NetEvt -> Z -> bytes -> Z) (peer : Z -> Z * Z).
Implicit Types w : GateW P.

Lemma wp_SendFrameToClient i c data w :
  0 <= i -> slot w i = Some c -> Z.of_nat (length data) <= MAX_GATE_FRAME_SIZE ->
  (forall tr d, Send_ret tr (cliSocket c) d = 0) ->
  wp (SendFrameToClient Send_ret i (GateFrame_new data (Z.of_nat (length data)))) (fun r w' =>
    r = 0 /\ trace w' = trace w ++ [NSend (cliSocket c) (htons_bytes (Z.of_nat (length data)));
                                    NSend (cliSocket c) data] /\ proxy w' = proxy w /\
    exists c', slot w' i = Some c' /\ ident c' = ident c) w.
Proof.
  intros Hi Hc Hl Hsend. unfold MAX_GATE_FRAME_SIZE in Hl.
  assert (u16 (Z.of_nat (length data)) = Z.of_nat (length data)) as Hu by (apply u16_small; lia).
  unfold SendFrameToClient, socket_Send, emit, on_handler. wp_steps.
  eapply wp_upd_conn; [done|done|]. wp_steps.
  eapply wp_conn; [done|by eapply slot_set_eq|]. wp_steps.
  assert (cliSocket (UpdateStat (app_sec w) false c) = cliSocket c) as Hfd.
  { pose proof (ident_UpdateStat (app_sec w) false c) as E. unfold ident in E. congruence. }
  simpl. rewrite Hfd, Hsend. simpl. wp_steps. rewrite Hu.
  eapply wp_lift; [rewrite <- (app_nil_r data) at 2; by apply (slice_mid [] data [])|].
  wp_steps. rewrite Hsend. simpl. split_and!; [done|by rewrite <- app_assoc|done|].
  eexists. split; [by eapply (slot_set_eq i _ c w)|apply ident_UpdateStat].
Qed.

Lemma DispatchMessage_data_run ggc i c payload msg w :
  representable ggc -> ss_event ggc = EVENT_DATA -> 0 < ss_idx ggc < 2 ^ 31 ->
  GetConnectionByIdx (ss_idx ggc) (handler w) = Some i -> slot w i = Some c ->
  ByteSize ggc < 65536 -> Z.of_nat (length payload) <= MAX_GATE_FRAME_SIZE ->
  (forall tr d, Send_ret tr (cliSocket c) d = 0) ->
  pData msg = htons_bytes (ByteSize ggc) ++ serialize ggc ++ payload ->
  dwSize msg = Z.of_nat (length (pData msg)) ->
  exists w', DispatchMessage Send_ret peer msg w = Some (0, w') /\
    trace w' = trace w ++ [NSend (cliSocket c) (htons_bytes (Z.of_nat (length payload)));
                           NSend (cliSocket c) payload] /\
    proxy w' = proxy w.
Proof.
  intros Hrep Hev Hidx Hby Hc Hsz Hpl Hsend Hdata Hdw.
  pose proof (length_serialize ggc) as Hls.
  assert (0 <= i) as Hi.
  { unfold GetConnectionByIdx in Hby. destruct (_ || _); [done|].
    destruct (_ !! _); [|done]. destruct (_ =? _); [done|]. injection Hby as <-. lia. }
  apply (wp_run_ret 0). unfold DispatchMessage. wp_steps.
  eapply wp_lift; [rewrite Hdata; apply ntohs_htons; lia|].
  rewrite Hdw, Hdata, !length_app. cbn [length htons_bytes]. unfold PROXY_CHANNEL_MESSAGE_HEAD_SIZE.
  destruct (Z.ltb_spec (Z.of_nat (2 + (length (serialize ggc) + length payload))) (ByteSize ggc + 2));
    [lia|]. wp_steps.
  eapply wp_lift; [apply slice_mid; [done|lia]|].
  rewrite parse_serialize by done. wp_steps. rewrite i32_small by lia. rewrite Hby, Hev.
  change (EVENT_DATA =? EVENT_CLOSE) with false. change (EVENT_DATA =? EVENT_DATA) with true.
  unfold on_handler. wp_steps.
  replace (drop _ _) with payload.
  2:{ rewrite app_assoc, drop_app_length'; [done|]. rewrite length_app. cbn [length htons_bytes]. lia. }
  replace (Z.of_nat (2 + _) - _ - 2) with (Z.of_nat (length payload)) by lia.
  eapply wp_mono; [by apply wp_SendFrameToClient|]. intros r w' (-> & Ht & Hp & _). by wp_steps.
Qed.

(** C10. Data from an agent reaches the client. A message made of the head size
    and a representable data report for a live connection, followed by a payload of at most
    65535 bytes, is written to that client's socket, and no other, as one
    frame: the payload's length in network order and then the payload. *)
Theorem DispatchMessage_data ggc i c payload msg w :
  representable ggc -> ss_event ggc = EVENT_DATA -> 0 < ss_idx ggc < 2 ^ 31 ->
  GetConnectionByIdx (ss_idx ggc) (handler w) = Some i -> slot w i = Some c ->
  ByteSize ggc < 65536 -> Z.of_nat (length payload) <= MAX_GATE_FRAME_SIZE ->
  (forall tr d, Send_ret tr (cliSocket c) d = 0) ->
  pData msg = htons_bytes (ByteSize ggc) ++ serialize ggc ++ payload ->
  dwSize msg = Z.of_nat (length (pData msg)) ->
  exists w', DispatchMessage Send_ret peer msg w = Some (0, w') /\
    trace w' = trace w ++ [NSend (cliSocket c) (htons_bytes (Z.of_nat (length payload)));
                           NSend (cliSocket c) payload] /\
    proxy w' = proxy w.
Proof. apply DispatchMessage_data_run. Qed.

End agent_facts.

Module GateAgentWitness.
Import GateWitness.

Definition ggc : GateSSMsg := mkGateSSMsg EVENT_DATA 1 1001 3 None None None.
Definition msg : ChannelMessage :=
  mkChannelMessage 1 0 14 (htons_bytes 9 ++ serialize ggc ++ [65; 66; 67]).

Lemma DispatchMessage_data_witness :
  exists w', DispatchMessage send_ok peer0 msg w0 = Some (0, w') /\
    trace w' = [NSend 50 [0; 3]; NSend 50 [65; 66; 67]].
Proof.
  destruct (DispatchMessage_data send_ok peer0 ggc 1 c0 [65; 66; 67] msg w0) as (w' & E & Ht & _);
    try reflexivity.
  - repeat split; done.
  - split; reflexivity.
  - vm_compute. discriminate.
  - exists w'. split; [exact E|exact Ht].
Defined.

End GateAgentWitness.
