(* ===== verification/GateInvariant.v ===== *)
(** * The gate's connection table

    The invariant between the table of connections and the map from descriptors
    to slots, its preservation by every handler, and the behaviours of the
    table that clients and agents observe. *)

From S2P Require Import Prelude CString Extern TimerMgr Channel ChannelMsgProxy.
From S2P Require Import GateMsg GateServerHandler GateFraming GateAgentChannelMsgHandler.

(** Every descriptor is mapped to [0] or to the live slot that serves it; every
    live slot is found through its descriptor; slot 0 is never used; a live
    slot has its receive buffer, which is empty between calls. *)
Record TblInv (h : GateServerHandler) : Prop := {
  t_len : Z.of_nat (length (m_vecConnections h)) = Z.max 0 (m_iMaxConnection h);
  t_zero : forall c, m_vecConnections h !! 0%nat = Some c -> bState c = 0;
  t_map : forall fd i, m_mpConnections h !! fd = Some i ->
    i = 0 \/ exists c, 0 < i /\ m_vecConnections h !! Z.to_nat i = Some c /\
      bState c <> 0 /\ cliSocket c = fd;
  t_live : forall j c, m_vecConnections h !! j = Some c -> bState c <> 0 ->
    m_mpConnections h !! cliSocket c = Some (Z.of_nat j);
  t_buf : forall j c, m_vecConnections h !! j = Some c ->
    match recvBuffer c with
    | Some b => iCap b = CONNECTION_DEFAULT_RECV_BUFF_SIZE /\ iUsed b = 0
    | None => bState c = 0
    end
}.

(** What a change of a connection may not touch. *)
Definition same_slot (c c' : Connection) : Prop :=
  (bState c' = 0 <-> bState c = 0) /\ cliSocket c' = cliSocket c /\
  match recvBuffer c, recvBuffer c' with
  | Some b, Some b' => iCap b' = iCap b /\ iUsed b' = iUsed b
  | None, None => True
  | _, _ => False
  end.

Section table.
Context {P : Type} {MP : MsgProxy P}.
Context {B0 : BufferLib} {CSS : Codec GateSSMsg} {CCS : Codec GateCSMsg}.
Context (Send_ret : list NetEvt -> Z -> bytes -> Z) (peer : Z -> Z * Z).
Implicit Types (w : GateW P) (h : GateServerHandler).

Lemma TblInv_upd h j c c' :
  TblInv h -> m_vecConnections h !! j = Some c -> same_slot c c' ->
  TblInv (h <| m_vecConnections ::= <[j := c']> |>).
Proof.
  intros [Hl Hz Hm Hv Hb] Hj (Hst & Hfd & Hbuf).
  assert (j < length (m_vecConnections h))%nat as Hlt by (by eapply lookup_lt_Some).
  split; simpl.
  - by rewrite length_insert.
  - intros c1 [(-> & <- & _)|[Hne H1]]%list_lookup_insert_Some; [|eauto].
    apply Hst. by apply Hz.
  - intros fd i Hi. destruct (Hm fd i Hi) as [->|(c1 & Hi0 & Hc1 & Hs1 & Hf1)]; [by left|right].
    destruct (decide (Z.to_nat i = j)) as [<-|Hne].
    + exists c'. rewrite list_lookup_insert_eq by done. simplify_eq.
      split_and!; [done|done|by rewrite Hst|done].
    + exists c1. by rewrite list_lookup_insert_ne by done.
  - intros k c1 [(-> & <- & _)|[Hne H1]]%list_lookup_insert_Some Hs1; [|eauto].
    rewrite Hfd. apply Hv; [done|]. by rewrite <- Hst.
  - intros k c1 [(-> & <- & _)|[Hne H1]]%list_lookup_insert_Some; [|by apply (Hb k)].
    specialize (Hb _ _ Hj). destruct (recvBuffer c), (recvBuffer c'); try done.
    + destruct Hbuf as [-> ->]. done.
    + by apply Hst.
Qed.

(** A connection that is closed and whose descriptor now maps to [0]. *)
Lemma TblInv_remove h j c c' :
  TblInv h -> m_vecConnections h !! j = Some c -> bState c <> 0 ->
  bState c' = 0 -> recvBuffer c' = recvBuffer c ->
  TblInv (h <| m_mpConnections ::= <[cliSocket c := 0]> |>
            <| m_vecConnections ::= <[j := c']> |>).
Proof.
  intros [Hl Hz Hm Hv Hb] Hj Hst Hst' Hbuf.
  split; simpl.
  - by rewrite length_insert.
  - intros c1 [(-> & <- & _)|[Hne H1]]%list_lookup_insert_Some; [done|eauto].
  - intros fd i [[<- <-]|[Hne Hi]]%lookup_insert_Some; [by left|].
    destruct (Hm fd i Hi) as [->|(c1 & Hi0 & Hc1 & Hs1 & Hf1)]; [by left|right].
    exists c1. rewrite list_lookup_insert_ne; [done|]. intros ->. simplify_eq.
  - intros k c1 [(-> & <- & _)|[Hne H1]]%list_lookup_insert_Some Hs1; [done|].
    rewrite lookup_insert_ne; [eauto|]. intros E.
    pose proof (Hv _ _ Hj Hst) as E1. rewrite E in E1. rewrite (Hv _ _ H1 Hs1) in E1.
    injection E1 as E1. lia.
  - intros k c1 [(-> & <- & _)|[Hne H1]]%list_lookup_insert_Some; [|by apply (Hb k)].
    specialize (Hb _ _ Hj). rewrite Hbuf. by destruct (recvBuffer c).
Qed.

(** A fresh descriptor takes a free slot. *)
Lemma TblInv_add h j c c' fd :
  TblInv h -> (0 < j)%nat -> m_vecConnections h !! j = Some c -> bState c = 0 ->
  (forall k c1, m_vecConnections h !! k = Some c1 -> bState c1 <> 0 -> cliSocket c1 <> fd) ->
  bState c' <> 0 -> cliSocket c' = fd ->
  (exists b, recvBuffer c' = Some b /\ iCap b = CONNECTION_DEFAULT_RECV_BUFF_SIZE /\ iUsed b = 0) ->
  TblInv (h <| m_mpConnections ::= <[fd := Z.of_nat j]> |>
            <| m_vecConnections ::= <[j := c']> |>).
Proof.
  intros [Hl Hz Hm Hv Hb] Hj0 Hj Hst Hfresh Hst' Hfd (b & Eb & Hcap & Hu).
  assert (j < length (m_vecConnections h))%nat as Hlt by (by eapply lookup_lt_Some).
  split; simpl.
  - by rewrite length_insert.
  - intros c1 [(-> & <- & _)|[Hne H1]]%list_lookup_insert_Some; [lia|eauto].
  - intros fd1 i [[<- <-]|[Hne Hi]]%lookup_insert_Some.
    + right. exists c'. rewrite Nat2Z.id, list_lookup_insert_eq by done. split_and!; [lia|done|done|done].
    + destruct (Hm fd1 i Hi) as [->|(c1 & Hi0 & Hc1 & Hs1 & Hf1)]; [by left|right].
      exists c1. rewrite list_lookup_insert_ne; [done|]. intros ->. by simplify_eq.
  - intros k c1 [(-> & <- & _)|[Hne H1]]%list_lookup_insert_Some Hs1.
    + by rewrite Hfd, lookup_insert_eq.
    + rewrite lookup_insert_ne; [eauto|]. intros E. by apply (Hfresh k c1).
  - intros k c1 [(-> & <- & _)|[Hne H1]]%list_lookup_insert_Some; [|by apply (Hb k)].
    by rewrite Eb.
Qed.

(** An absent descriptor may be mapped to [0]. *)
Lemma TblInv_zero h fd :
  TblInv h -> m_mpConnections h !! fd = None ->
  TblInv (h <| m_mpConnections ::= <[fd := 0]> |>).
Proof.
  intros [Hl Hz Hm Hv Hb] Hn. split; simpl; try done.
  - intros fd1 i [[<- <-]|[Hne Hi]]%lookup_insert_Some; [by left|eauto].
  - intros k c1 H1 Hs1. rewrite lookup_insert_ne; [eauto|]. intros ->.
    by rewrite (Hv _ _ H1 Hs1) in Hn.
Qed.

(** The fields of the handler the invariant does not mention. *)
Lemma TblInv_stat h h' :
  m_vecConnections h' = m_vecConnections h -> m_mpConnections h' = m_mpConnections h ->
  m_iMaxConnection h' = m_iMaxConnection h -> TblInv h -> TblInv h'.
Proof. intros E1 E2 E3 [Hl Hz Hm Hv Hb]. split; rewrite ?E1, ?E2, ?E3; done. Qed.

(** A slot that stays free. *)
Lemma TblInv_dead h j c c' :
  TblInv h -> m_vecConnections h !! j = Some c -> bState c = 0 -> bState c' = 0 ->
  match recvBuffer c' with
  | Some b => iCap b = CONNECTION_DEFAULT_RECV_BUFF_SIZE /\ iUsed b = 0
  | None => True
  end -> TblInv (h <| m_vecConnections ::= <[j := c']> |>).
Proof.
  intros [Hl Hz Hm Hv Hb] Hj Hst Hst' Hbuf.
  split; simpl.
  - by rewrite length_insert.
  - intros c1 [(-> & <- & _)|[Hne H1]]%list_lookup_insert_Some; [done|eauto].
  - intros fd i Hi. destruct (Hm fd i Hi) as [->|(c1 & Hi0 & Hc1 & Hs1 & Hf1)]; [by left|right].
    exists c1. rewrite list_lookup_insert_ne; [done|]. intros ->. by simplify_eq.
  - intros k c1 [(-> & <- & _)|[Hne H1]]%list_lookup_insert_Some Hs1; [done|eauto].
  - intros k c1 [(-> & <- & _)|[Hne H1]]%list_lookup_insert_Some; [|by apply (Hb k)].
    by destruct (recvBuffer c').
Qed.

(** ** Programs that only touch a slot *)

Lemma wlp_conn i w (Q : Connection -> GateW P -> Prop) :
  (forall c, 0 <= i -> slot w i = Some c -> Q c w) -> wlp (conn i) Q w.
Proof.
  intros HQ. unfold conn. wlp_steps. destruct (Z.ltb_spec i 0); wlp_steps. by apply HQ.
Qed.

Lemma wlp_upd_conn i f w (Q : unit -> GateW P -> Prop) :
  (forall c, 0 <= i -> slot w i = Some c -> Q tt (set_slot i (f c) w)) -> wlp (upd_conn i f) Q w.
Proof.
  intros HQ. unfold upd_conn. wlp_steps. apply wlp_conn. intros c Hi Hc.
  unfold on_handler. wlp_steps. by apply HQ.
Qed.

(** The handler's tables are as before, but for slot [j], which keeps what the
    invariant needs of it. *)
Record touch (j : nat) h h' : Prop := {
  tc_map : m_mpConnections h' = m_mpConnections h;
  tc_max : m_iMaxConnection h' = m_iMaxConnection h;
  tc_vec : m_vecConnections h' = m_vecConnections h \/
    exists c c', m_vecConnections h !! j = Some c /\ same_slot c c' /\
      m_vecConnections h' = <[j := c']> (m_vecConnections h)
}.

Lemma same_slot_refl c : same_slot c c.
Proof. repeat split; try done. by destruct (recvBuffer c). Qed.

Lemma same_slot_intro c c' :
  bState c' = bState c -> cliSocket c' = cliSocket c -> recvBuffer c' = recvBuffer c -> same_slot c c'.
Proof. intros E1 E2 E3. unfold same_slot. rewrite E1, E2, E3. split_and!; [done|done|by destruct (recvBuffer c)]. Qed.

Lemma same_slot_trans c1 c2 c3 : same_slot c1 c2 -> same_slot c2 c3 -> same_slot c1 c3.
Proof.
  intros (H1 & H2 & H3) (H4 & H5 & H6). split_and!; [by rewrite H4|by rewrite H5|].
  destruct (recvBuffer c1), (recvBuffer c2), (recvBuffer c3); try done.
  destruct H3 as [E1 E2], H6 as [E3 E4]. by rewrite E3, E4.
Qed.

Lemma touch_stat j h h' :
  m_vecConnections h' = m_vecConnections h -> m_mpConnections h' = m_mpConnections h ->
  m_iMaxConnection h' = m_iMaxConnection h -> touch j h h'.
Proof. intros. split; [done|done|by left]. Qed.

Lemma touch_trans j h1 h2 h3 : touch j h1 h2 -> touch j h2 h3 -> touch j h1 h3.
Proof.
  intros [M1 X1 V1] [M2 X2 V2]. split; [congruence|congruence|].
  destruct V1 as [E1|(c1 & c1' & L1 & S1 & E1)], V2 as [E2|(c2 & c2' & L2 & S2 & E2)].
  - left. congruence.
  - right. exists c2, c2'. by rewrite <- E1.
  - right. exists c1, c1'. by rewrite E2.
  - right. exists c1, c2'. split; [done|]. rewrite E2, E1 in *.
    rewrite list_lookup_insert_eq in L2 by (by eapply lookup_lt_Some). simplify_eq.
    split; [by eapply same_slot_trans|]. by rewrite list_insert_insert_eq.
Qed.

Lemma touch_set i c c' w :
  slot w i = Some c -> same_slot c c' -> touch (Z.to_nat i) (handler w) (handler (set_slot i c' w)).
Proof. intros Hc Hs. split; [done|done|right]. by exists c, c'. Qed.

Lemma TblInv_touch j h h' : touch j h h' -> TblInv h -> TblInv h'.
Proof.
  intros [M X V] Hinv. destruct V as [E|(c & c' & L & S & E)].
  - by eapply TblInv_stat.
  - eapply (TblInv_stat (h <| m_vecConnections ::= <[j := c']> |>)); [done|done|done|].
    by eapply TblInv_upd.
Qed.

Lemma same_slot_UpdateStat sec r c : same_slot c (UpdateStat sec r c).
Proof.
  pose proof (ident_UpdateStat sec r c) as E. unfold ident in E.
  split_and!; [split; congruence|congruence|]. rewrite recvBuffer_UpdateStat.
  by destruct (recvBuffer c).
Qed.

Definition touches {A} (i : Z) (m : M (GateW P) A) : Prop :=
  forall w, wlp m (fun _ w' => touch (Z.to_nat i) (handler w) (handler w')) w.

Lemma touch_refl j h : touch j h h.
Proof. by apply touch_stat. Qed.

Lemma touches_ret {A} i (a : A) : touches i (mret a).
Proof. intros w. apply wlp_ret, touch_refl. Qed.

Lemma touches_bind {A B} i (m : M (GateW P) A) (k : A -> M (GateW P) B) :
  touches i m -> (forall a, touches i (k a)) -> touches i (m ≫= k).
Proof.
  intros Hm Hk w. apply wlp_bind. eapply wlp_mono; [apply Hm|]. intros a w1 H1.
  eapply wlp_mono; [apply Hk|]. intros b w2 H2. exact (touch_trans _ _ _ _ H1 H2).
Qed.

Lemma touches_gets {A} i (f : GateW P -> A) : touches i (gets f).
Proof. intros w. apply wlp_gets, touch_refl. Qed.
Lemma touches_lift {A} i (o : option A) : touches i (lift o).
Proof. intros w. apply wlp_lift. intros. apply touch_refl. Qed.
Lemma touches_assert i b : touches i (assert b).
Proof. intros w. apply wlp_assert. intros. apply touch_refl. Qed.
Lemma touches_crash {A} i : touches i (crash : M (GateW P) A).
Proof. done. Qed.
Lemma touches_conn i j : touches i (conn j).
Proof. intros w. apply wlp_conn. intros. apply touch_refl. Qed.
Lemma touches_upd i f : (forall c, same_slot c (f c)) -> touches i (upd_conn i f).
Proof. intros Hf w. apply wlp_upd_conn. intros c Hi Hc. by eapply touch_set. Qed.
Lemma touches_emit i e : touches i (emit e).
Proof. intros w. apply wlp_modify. by apply touch_stat. Qed.
Lemma touches_handler i f :
  (forall h, m_vecConnections (f h) = m_vecConnections h /\
     m_mpConnections (f h) = m_mpConnections h /\ m_iMaxConnection (f h) = m_iMaxConnection h) ->
  touches i (on_handler f).
Proof. intros Hf w. apply wlp_modify. simpl. by apply touch_stat; apply Hf. Qed.
Lemma touches_zoom {S A} i (get : GateW P -> S) put (m : M S A) :
  (forall s w, handler (put s w) = handler w) -> touches i (zoom get put m).
Proof.
  intros Hp w. unfold wlp, zoom. destruct (m (get w)) as [[]|]; [|done].
  rewrite Hp. apply touch_refl.
Qed.

End table.

(** Proves [touches i m] by the structure of [m]. *)
Create HintDb touches.
#[export] Hint Resolve touches_ret touches_gets touches_lift touches_assert touches_crash
  touches_conn touches_emit : touches.

Ltac touches_step :=
  first
    [ solve [eauto 2 with touches nocore]
    | apply touches_upd; intros ?; first [apply same_slot_UpdateStat | by apply same_slot_intro]
    | apply touches_bind; [|intros ?]
    | apply touches_handler; intros ?; by split_and!
    | apply touches_zoom; reflexivity
    | lazymatch goal with
      | |- touches _ (match ?x with _ => _ end) => destruct x
      | |- touches _ (if ?x then _ else _) => destruct x
      end ].
Ltac touches_auto := repeat (touches_step; cbv beta zeta).

Section table_ops.
Context {P : Type} {MP : MsgProxy P}.
Context {B0 : BufferLib} {CSS : Codec GateSSMsg} {CCS : Codec GateCSMsg}.
Context (Send_ret : list NetEvt -> Z -> bytes -> Z) (peer : Z -> Z * Z).
Implicit Types (w : GateW P) (h : GateServerHandler).

Lemma SendFrameToClient_touches i f : touches (P := P) i (SendFrameToClient Send_ret i f).
Proof. unfold SendFrameToClient, socket_Send. touches_auto. Qed.
Hint Resolve SendFrameToClient_touches : touches.

Lemma SendToClient_touches i m : touches (P := P) i (SendToClient Send_ret i m).
Proof. unfold SendToClient. touches_auto. Qed.
Hint Resolve SendToClient_touches : touches.

Lemma send_to_agent_touches i d bs n : touches (P := P) i (send_to_agent d bs n).
Proof. unfold send_to_agent. touches_auto. Qed.
Hint Resolve send_to_agent_touches : touches.

(** ** Preservation *)

Definition inv_ok {A} (m : M (GateW P) A) : Prop :=
  forall w, TblInv (handler w) -> wlp m (fun _ w' => TblInv (handler w')) w.

Lemma inv_touches {A} i (m : M (GateW P) A) : touches i m -> inv_ok m.
Proof. intros Ht w Hw. eapply wlp_mono; [apply Ht|]. intros a w'. intros Hx. exact (TblInv_touch _ _ _ Hx Hw). Qed.

Lemma inv_bind {A B} (m : M (GateW P) A) (k : A -> M (GateW P) B) :
  inv_ok m -> (forall a, inv_ok (k a)) -> inv_ok (m ≫= k).
Proof.
  intros Hm Hk w Hw. apply wlp_bind. eapply wlp_mono; [by apply Hm|].
  intros a w1 H1. by apply Hk.
Qed.

Lemma inv_map_index fd : inv_ok (map_index fd).
Proof.
  intros w Hw. unfold map_index, on_handler. wlp_steps.
  destruct (m_mpConnections (handler w) !! fd) eqn:E; wlp_steps; [done|].
  by apply TblInv_zero.
Qed.

(** The effect of [ReportEvent] on the handler. *)
Lemma ReportEvent_handler i ev param data w :
  wlp (ReportEvent peer i ev param data) (fun _ w' => exists c, slot w i = Some c /\
    handler w' = match m_mpConnections (handler w) !! cliSocket c with
                 | Some _ => handler w
                 | None => handler w <| m_mpConnections ::= <[cliSocket c := 0]> |>
                 end /\ timers w' = timers w) w.
Proof.
  unfold ReportEvent, map_index, on_handler, send_to_agent. wlp_steps. apply wlp_conn. intros c Hi Hc.
  wlp_steps. destruct (m_mpConnections (handler w) !! cliSocket c) eqn:E; wlp_steps;
    destruct (peer (cliSocket c)); wlp_steps; apply wlp_intro; unfold zoom; intros r w';
    destruct (SendToAgent _ _ _ _) as [[]|]; intros; simplify_eq; wlp_steps; exists c; by rewrite E.
Qed.

Lemma inv_ReportEvent i ev param data : inv_ok (ReportEvent peer i ev param data).
Proof.
  intros w Hw. eapply wlp_mono; [apply ReportEvent_handler|].
  intros _ w' (c & Hc & -> & _). destruct (m_mpConnections (handler w) !! cliSocket c) eqn:E; [done|].
  by apply TblInv_zero.
Qed.

(** [RemoveConnection] of a live slot. *)
Lemma RemoveConnection_handler i reason w c :
  slot w i = Some c ->
  wlp (RemoveConnection peer i reason) (fun _ w' =>
    handler w' = handler w <| m_mpConnections ::= <[cliSocket c := 0]> |>
      <| m_vecConnections ::= <[Z.to_nat i := c <| bState := STATE_INVALID |> <| iIdx := -1 |>]> |>) w.
Proof.
  intros Hc. unfold RemoveConnection, on_handler, on_timers, Connection_Close, emit.
  wlp_steps. apply wlp_conn. intros c1 Hi Hc1. assert (c1 = c) as -> by congruence. wlp_steps.
  eapply wlp_mono; [apply ReportEvent_handler|]. intros _ w1 (c2 & Hc2 & Hh & _).
  assert (c2 = c) as -> by (unfold slot in *; simpl in *; congruence).
  simpl in Hh. rewrite lookup_delete_eq in Hh.
  wlp_steps. apply wlp_intro. intros [] w2 E2. unfold zoom, CancelTimer, modify in E2. simplify_eq/=.
  wlp_steps. apply wlp_conn. intros c3 _ Hc3.
  assert (c3 = c) as -> by (unfold slot in *; simpl in *; rewrite Hh in Hc3; simpl in Hc3; congruence).
  wlp_steps.
  assert (forall w3, handler w3 = handler w1 -> wlp (upd_conn i (fun c => c <| bState := STATE_INVALID |>
     <| iIdx := -1 |>)) (fun _ w' => handler w' = handler w <| m_mpConnections ::= <[cliSocket c := 0]> |>
      <| m_vecConnections ::= <[Z.to_nat i := c <| bState := STATE_INVALID |> <| iIdx := -1 |>]> |>) w3) as Hfin.
  { intros w3 H3. apply wlp_upd_conn. intros c4 _ Hc4.
    assert (c4 = c) as -> by (unfold slot in *; rewrite H3, Hh in Hc4; simpl in Hc4; congruence).
    simpl. rewrite H3, Hh. unfold setf. simpl. by rewrite insert_delete_eq. }
  destruct (_ || _); wlp_steps; by apply Hfin.
Qed.

Lemma inv_RemoveConnection i reason w c :
  TblInv (handler w) -> slot w i = Some c -> bState c <> 0 ->
  wlp (RemoveConnection peer i reason) (fun _ w' => TblInv (handler w')) w.
Proof.
  intros Hw Hc Hst. eapply wlp_mono; [by apply RemoveConnection_handler|].
  intros _ w' ->. by apply TblInv_remove.
Qed.

Lemma ByIdx_slot idx w i :
  GetConnectionByIdx idx (handler w) = Some i ->
  i = idx /\ 0 < i /\ exists c, slot w i = Some c /\ bState c <> 0.
Proof.
  unfold GetConnectionByIdx, slot. destruct (_ || _) eqn:E; [done|].
  apply orb_false_iff in E as [E _]. apply Z.leb_gt in E.
  destruct (_ !! _) as [c|] eqn:Ec; [|done].
  destruct (Z.eqb_spec (bState c) STATE_INVALID); [done|].
  intros [= <-]. split_and!; [done|done|]. by exists c.
Qed.

Lemma ByFD_slot fd w i :
  GetConnectionByFD fd (handler w) = Some i ->
  0 < i /\ exists c, slot w i = Some c /\ bState c <> 0.
Proof.
  unfold GetConnectionByFD. destruct (_ !! fd); [|done].
  intros H%ByIdx_slot. tauto.
Qed.


(** ** The handlers *)

Definition live (i : Z) w : Prop := 0 < i /\ exists c, slot w i = Some c /\ bState c <> 0.

Lemma touch_live i w w' : touch (Z.to_nat i) (handler w) (handler w') -> live i w -> live i w'.
Proof.
  intros [_ _ V] (Hi & c & Hc & Hst). split; [done|]. unfold slot in *.
  destruct V as [->|(c1 & c1' & L & (S1 & _) & ->)]; [by exists c|].
  exists c1'. rewrite list_lookup_insert_eq by (by eapply lookup_lt_Some).
  split; [done|]. rewrite S1. congruence.
Qed.

Lemma wlp_touch_bind {A B} i (m : M (GateW P) A) (k : A -> M (GateW P) B) Q w :
  TblInv (handler w) -> live i w -> touches i m ->
  (forall a w1, TblInv (handler w1) -> live i w1 -> wlp (k a) Q w1) -> wlp (m ≫= k) Q w.
Proof.
  intros Hw Hl Ht HQ. apply wlp_bind. eapply wlp_mono; [apply Ht|]. intros a w1 Hx.
  apply HQ; [exact (TblInv_touch _ _ _ Hx Hw)|exact (touch_live _ _ _ Hx Hl)].
Qed.

Lemma inv_remove_live i reason w :
  TblInv (handler w) -> live i w ->
  wlp (RemoveConnection peer i reason) (fun _ w' => TblInv (handler w')) w.
Proof. intros Hw (_ & c & Hc & Hst). by eapply inv_RemoveConnection. Qed.

Lemma wlp_set_state i st w :
  TblInv (handler w) -> live i w -> st <> 0 ->
  wlp (upd_conn i (fun c => c <| bState := st |>)) (fun _ w' => TblInv (handler w') /\ live i w') w.
Proof.
  intros Hw (Hi & c & Hc & Hst) Hne. apply wlp_upd_conn. intros c1 _ Hc1.
  assert (c1 = c) as -> by congruence. split.
  - simpl. eapply TblInv_upd; [done|exact Hc|].
    split_and!; [by split|done|]. simpl. by destruct (recvBuffer c).
  - split; [done|]. eexists. split; [by eapply slot_set_eq|done].
Qed.

Lemma Authorizing_touches i a : touches (P := P) i (Authorizing i a).
Proof. unfold Authorizing. touches_auto. Qed.
Hint Resolve Authorizing_touches : touches.

Lemma NotifyAuthResult_touches i r : touches (P := P) i (NotifyAuthResult Send_ret i r).
Proof. apply SendToClient_touches. Qed.
Hint Resolve NotifyAuthResult_touches : touches.

Lemma inv_ForwardData i msg : inv_ok (ForwardData Send_ret peer i msg).
Proof.
  unfold ForwardData. apply inv_bind; [apply (inv_touches 0); touches_auto|intros _].
  apply inv_bind; [apply inv_ReportEvent|intros _].
  apply (inv_touches i). touches_auto.
Qed.

Lemma inv_OnClientMessage i msg w :
  TblInv (handler w) -> live i w ->
  wlp (OnClientMessage Send_ret peer i msg) (fun _ w' => TblInv (handler w')) w.
Proof.
  intros Hw Hl. unfold OnClientMessage.
  eapply wlp_touch_bind; [done|done|touches_auto|]. intros ? w1 Hw1 Hl1.
  eapply wlp_touch_bind; [done|done|touches_auto|]. intros x w2 Hw2 Hl2.
  eapply wlp_touch_bind; [done|done|touches_auto|]. intros ? w3 Hw3 Hl3.
  eapply wlp_touch_bind; [done|done|touches_auto|]. intros c w4 Hw4 Hl4.
  destruct (bState c =? STATE_CONNECTED); [|destruct (bState c =? STATE_AUTHING); [by wlp_steps|]].
  - destruct (parse msg) as [ga|]; [|by wlp_steps].
    eapply wlp_touch_bind; [done|done|touches_auto|]. intros r w5 Hw5 Hl5.
    destruct (r =? 0); [|destruct (0 <? r)].
    + eapply wlp_touch_bind; [done|done|touches_auto|]. intros ? w6 Hw6 Hl6.
      apply wlp_bind. eapply wlp_mono; [by apply wlp_set_state|]. intros ? w7 [Hw7 Hl7].
      apply wlp_bind. eapply wlp_mono; [by apply inv_ReportEvent|]. intros ? w8 Hw8. by wlp_steps.
    + apply wlp_bind. eapply wlp_mono; [by apply wlp_set_state|]. intros ? w7 [Hw7 Hl7]. by wlp_steps.
    + apply wlp_bind. eapply wlp_mono; [by apply inv_remove_live|]. intros ? w7 Hw7. by wlp_steps.
  - destruct (bState c =? STATE_AUTHORIZED); apply wlp_bind.
    + eapply wlp_mono; [by apply inv_ForwardData|]. intros ? w7 Hw7. by wlp_steps.
    + eapply wlp_mono; [by apply inv_remove_live|]. intros ? w7 Hw7. by wlp_steps.
Qed.

Lemma recv_copy_touches i src : touches (P := P) i (recv_copy i src).
Proof.
  intros w. unfold recv_copy. wlp_steps. apply wlp_conn. intros c Hi Hc. wlp_steps.
  apply wlp_upd_conn. intros c1 _ Hc1. eapply touch_set; [done|].
  assert (c1 = c) as -> by congruence. split_and!; [done|done|].
  simpl. by match goal with E : recvBuffer c = Some _ |- _ => rewrite E end.
Qed.
Hint Resolve recv_copy_touches : touches.

(** Storing a use count of [0] in an empty buffer. *)
Lemma inv_set_used i : inv_ok (set_used i 0).
Proof.
  intros w Hw. apply wlp_upd_conn. intros c Hi Hc. simpl. eapply TblInv_upd; [done|exact Hc|].
  split_and!; [done|done|]. simpl. pose proof (t_buf _ Hw _ _ Hc) as Hb.
  destruct (recvBuffer c); simpl; [|done]. destruct Hb as [_ ->]. done.
Qed.

Lemma live_set_used i w : live i w -> wlp (set_used i 0) (fun _ w' => live i w') w.
Proof.
  intros (Hi & c & Hc & Hst). apply wlp_upd_conn. intros c1 _ Hc1.
  assert (c1 = c) as -> by congruence. split; [done|]. eexists. split; [by eapply slot_set_eq|done].
Qed.

Lemma wlp_and {A} (m : M (GateW P) A) Q1 Q2 w :
  wlp m Q1 w -> wlp m Q2 w -> wlp m (fun a w' => Q1 a w' /\ Q2 a w') w.
Proof. unfold wlp. destruct (m w) as [[]|]; auto. Qed.

Lemma live_used i w c : TblInv (handler w) -> slot w i = Some c -> recv_used c = 0.
Proof.
  intros Hw Hc. unfold recv_used. pose proof (t_buf _ Hw _ _ Hc) as Hb.
  destruct (recvBuffer c); [|done]. tauto.
Qed.

Lemma inv_recv_prefix i data w :
  TblInv (handler w) -> live i w ->
  wlp (recv_prefix i data) (fun r w' => TblInv (handler w') /\ live i w' /\ r <> None) w.
Proof.
  intros Hw Hl. unfold recv_prefix. wlp_steps. apply wlp_conn. intros c Hi Hc.
  rewrite (live_used i w c Hw Hc).
  destruct (iMsgLen c =? 0); [|by wlp_steps].
  change (GATE_MESSAGE_PREFIX_LEN <=? 0) with false. cbv iota.
  destruct (_ <=? _).
  - eapply wlp_touch_bind; [done|done|touches_auto|]. intros src w1 Hw1 Hl1.
    eapply wlp_touch_bind; [done|done|touches_auto|]. intros ? w2 Hw2 Hl2.
    eapply wlp_touch_bind; [done|done|touches_auto|]. intros c2 w3 Hw3 Hl3.
    eapply wlp_touch_bind; [done|done|touches_auto|]. intros b w4 Hw4 Hl4.
    eapply wlp_touch_bind; [done|done|touches_auto|]. intros len w5 Hw5 Hl5.
    eapply wlp_touch_bind; [done|done|touches_auto|]. intros ? w6 Hw6 Hl6.
    apply wlp_bind. eapply wlp_mono; [apply wlp_and; [by apply inv_set_used|by apply live_set_used]|].
    intros ? w7 [Hw7 Hl7]. by wlp_steps.
  - eapply wlp_touch_bind; [done|done|touches_auto|]. intros ? w2 Hw2 Hl2. by wlp_steps.
Qed.

Lemma inv_upd_plain i f : (forall c, same_slot c (f c)) -> inv_ok (upd_conn i f).
Proof. intros Hf. apply (inv_touches i). by apply touches_upd. Qed.

Lemma inv_OnClientDataRecv fuel fd data : inv_ok (OnClientDataRecv Send_ret peer fuel fd data).
Proof.
  revert data. induction fuel as [|fuel IH]; intros data w Hw; [done|].
  cbn [OnClientDataRecv]. wlp_steps.
  destruct (GetConnectionByFD fd (handler w)) as [i|] eqn:E; [|unfold emit; by wlp_steps].
  assert (live i w) as Hl by (by apply ByFD_slot in E).
  eapply wlp_touch_bind; [done|done|touches_auto|]. intros ? w1 Hw1 Hl1.
  apply wlp_bind. eapply wlp_mono; [by apply inv_recv_prefix|].
  intros st w2 (Hw2 & Hl2 & Hne). destruct st as [off|]; [|done].
  eapply wlp_touch_bind; [done|done|touches_auto|]. intros c w3 Hw3 Hl3.
  destruct (iMsgLen c =? 0); [by wlp_steps|].
  destruct (_ <=? _); [|by wlp_steps].
  eapply wlp_touch_bind; [done|done|touches_auto|]. intros src w4 Hw4 Hl4.
  eapply wlp_touch_bind; [done|done|touches_auto|]. intros ? w5 Hw5 Hl5.
  eapply wlp_touch_bind; [done|done|touches_auto|]. intros c6 w6 Hw6 Hl6.
  eapply wlp_touch_bind; [done|done|touches_auto|]. intros b w7 Hw7 Hl7.
  eapply wlp_touch_bind; [done|done|touches_auto|]. intros msg w8 Hw8 Hl8.
  apply wlp_bind. eapply wlp_mono; [by apply inv_OnClientMessage|]. intros r w9 Hw9.
  apply wlp_bind. eapply wlp_mono; [apply inv_upd_plain; [by intros; apply same_slot_intro|done]|].
  intros ? w10 Hw10. apply wlp_bind. eapply wlp_mono; [by apply inv_set_used|].
  intros ? w11 Hw11. destruct (_ <=? _); [by wlp_steps|].
  wlp_steps. eapply wlp_mono; [by apply IH|]. intros r2 w12 Hw12. by wlp_steps.
Qed.


(** *** New connections *)

Lemma first_free_spec k cs :
  first_free k cs = -1 \/
  exists n c, first_free k cs = k + Z.of_nat n /\ cs !! n = Some c /\ bState c = 0.
Proof.
  revert k. induction cs as [|c cs IH]; intros k; simpl; [by left|].
  destruct (Z.eqb_spec (bState c) 0); [right; exists 0%nat, c; split_and!; [lia|done|done]|].
  destruct (IH (k + 1)) as [->|(n' & c' & -> & H1 & H2)]; [by left|right].
  exists (S n'), c'. split_and!; [lia|done|done].
Qed.

Lemma GetNextIdx_free h :
  0 <= GetNextIdx h ->
  0 < GetNextIdx h /\ exists c, m_vecConnections h !! Z.to_nat (GetNextIdx h) = Some c /\ bState c = 0.
Proof.
  unfold GetNextIdx. destruct (_ <=? _); [lia|]. intros Hi.
  destruct (first_free_spec 1 (tail (m_vecConnections h))) as [E|(n & c & E & Hn & Hc)];
    rewrite E in *; [lia|].
  split; [lia|]. exists c. split; [|done].
  replace (Z.to_nat (1 + Z.of_nat n)) with (S n) by lia.
  by destruct (m_vecConnections h).
Qed.

Definition fresh_fd (fd : Z) h : Prop :=
  forall k c, m_vecConnections h !! k = Some c -> bState c <> 0 -> cliSocket c <> fd.

Lemma Connection_Close_handler i w c :
  slot w i = Some c ->
  wlp (Connection_Close i) (fun _ w' => handler w' = handler w
    <| m_vecConnections ::= <[Z.to_nat i := c <| bState := STATE_INVALID |> <| iIdx := -1 |>]> |>) w.
Proof.
  intros Hc. unfold Connection_Close, emit. wlp_steps. apply wlp_conn. intros c1 Hi Hc1.
  assert (c1 = c) as -> by congruence. wlp_steps.
  destruct (_ || _); wlp_steps; apply wlp_upd_conn; intros c2 _ Hc2;
    (assert (c2 = c) as -> by (unfold slot in *; simpl in *; congruence)); done.
Qed.

(** From a table in which slot [i] is free, the slot is taken for [fd]. *)
Lemma inv_take i fd c0 h0 w c :
  TblInv h0 -> fresh_fd fd h0 -> 0 < i -> m_vecConnections h0 !! Z.to_nat i = Some c0 -> bState c0 = 0 ->
  m_vecConnections (handler w) = <[Z.to_nat i := c]> (m_vecConnections h0) ->
  m_mpConnections (handler w) = m_mpConnections h0 -> m_iMaxConnection (handler w) = m_iMaxConnection h0 ->
  bState c <> 0 -> cliSocket c = fd ->
  (exists b, recvBuffer c = Some b /\ iCap b = CONNECTION_DEFAULT_RECV_BUFF_SIZE /\ iUsed b = 0) ->
  TblInv (handler w <| m_mpConnections ::= <[fd := i]> |>).
Proof.
  intros Hinv Hf Hi Hc0 Hst0 Hv Hm Hx Hst Hfd Hb.
  pose proof (TblInv_add h0 (Z.to_nat i) c0 c fd Hinv ltac:(lia) Hc0 Hst0 Hf Hst Hfd Hb) as Hadd.
  rewrite Z2Nat.id in Hadd by lia.
  eapply TblInv_stat; [..|exact Hadd]; simpl; congruence.
Qed.

Context `{!BufferLaws}.

(** The receive buffer of a free slot, made when it has none. *)
Lemma inv_new_buffer i fd c w :
  TblInv (handler w) -> fresh_fd fd (handler w) -> slot w i = Some c -> bState c = 0 ->
  wlp (match recvBuffer c with
       | Some _ => mret true
       | None => match buffer_Create CONNECTION_DEFAULT_RECV_BUFF_SIZE with
                 | None => mret false
                 | Some b => upd_conn i (fun c => c <| recvBuffer := Some b |>);; mret true
                 end
       end) (fun ok w2 => TblInv (handler w2) /\ fresh_fd fd (handler w2) /\
    exists c2, slot w2 i = Some c2 /\ bState c2 = 0 /\ (ok = true -> exists b, recvBuffer c2 = Some b)) w.
Proof.
  intros Hw Hf Hc Hst. pose proof (t_buf _ Hw _ _ Hc) as Hb. destruct (recvBuffer c) as [b|] eqn:Eb.
  - wlp_steps. split_and!; [done|exact Hf|]. exists c. rewrite Eb. eauto.
  - destruct (buffer_Create _) as [b|] eqn:Ec; wlp_steps.
    + apply wlp_upd_conn. intros c3 _ Hc3. assert (c3 = c) as -> by congruence.
      destruct (buffer_Create_cap _ _ Ec) as [E1 E2]. wlp_steps. split_and!.
      * simpl. by eapply TblInv_dead.
      * intros k c4. simpl. intros [(<- & <- & _)|[_ H1]]%list_lookup_insert_Some; [done|exact (Hf k c4 H1)].
      * eexists. split; [by eapply slot_set_eq|]. simpl. eauto.
    + split_and!; [done|exact Hf|]. exists c. by split_and!.
Qed.

(** A slot that was set and then touched. *)
Lemma touched_slot i c c' w w' :
  slot w i = Some c -> touch (Z.to_nat i) (handler (set_slot i c' w)) (handler w') ->
  exists c2, slot w' i = Some c2 /\ same_slot c' c2 /\
    m_vecConnections (handler w') = <[Z.to_nat i := c2]> (m_vecConnections (handler w)).
Proof.
  intros Hc [_ _ Tv].
  assert (Z.to_nat i < length (m_vecConnections (handler w)))%nat as Hlt by (by eapply lookup_lt_Some).
  unfold slot. simpl in Tv. destruct Tv as [->|(x & x' & Lx & Sx & ->)].
  - exists c'. rewrite list_lookup_insert_eq by done. split_and!; [done|apply same_slot_refl|done].
  - rewrite list_lookup_insert_eq in Lx by done. injection Lx as <-.
    exists x'. rewrite list_insert_insert_eq, list_lookup_insert_eq by done. done.
Qed.

Lemma inv_OnNewConnection fd w :
  TblInv (handler w) -> fresh_fd fd (handler w) ->
  wlp (OnNewConnection Send_ret fd) (fun _ w' => TblInv (handler w')) w.
Proof.
  intros Hw Hf. unfold OnNewConnection. apply wlp_bind, wlp_modify. wlp_steps.
  set (w1 := w <| handler ::= _ |>). set (i := GetNextIdx (handler w1)).
  assert (TblInv (handler w1)) as Hw1 by (by apply (TblInv_stat (handler w))).
  apply wlp_conn. intros c Hi Hc.
  destruct (GetNextIdx_free (handler w1) Hi) as (Hi0 & c' & Hc' & Hst). fold i in Hi0, Hc'.
  assert (c' = c) as -> by (unfold slot in Hc; congruence).
  wlp_steps.
  apply wlp_mono with (Q := fun ok w2 => TblInv (handler w2) /\ fresh_fd fd (handler w2) /\
    exists c2, slot w2 i = Some c2 /\ bState c2 = 0 /\ (ok = true -> exists b, recvBuffer c2 = Some b)).
  { by apply inv_new_buffer. }
  intros ok w2 (Hw2 & Hf2 & c2 & Hc2 & Hst2 & Hb2).
  destruct ok; simpl; [|unfold emit; by wlp_steps].
  destruct (m_closing _ =? 0); simpl; [|unfold emit; by wlp_steps].
  destruct (Hb2 eq_refl) as [b Eb]. pose proof (t_buf _ Hw2 _ _ Hc2) as Hbuf. rewrite Eb in Hbuf.
  wlp_steps. apply wlp_upd_conn. intros c3 _ Hc3. assert (c3 = c2) as -> by congruence. wlp_steps.
  set (c4 := Connection_Init c2 <| bState := _ |> <| cliSocket := _ |>).
  eapply wlp_mono; [apply (SendToClient_touches i)|]. intros r w5 [Tm Tx Tv].
  destruct (touched_slot i c2 c4 w2 w5 Hc2) as (c5 & Hc5 & Hs5 & Hv5); [by split|].
  simpl in Tm, Tx. destruct Hs5 as (Hs51 & Hs52 & Hs53).
  assert (bState c5 <> 0) as Hst5 by (rewrite Hs51; done).
  assert (exists b5, recvBuffer c5 = Some b5 /\ iCap b5 = CONNECTION_DEFAULT_RECV_BUFF_SIZE /\ iUsed b5 = 0) as Hb5.
  { simpl in Hs53. rewrite Eb in Hs53. simpl in Hs53. destruct (recvBuffer c5) as [b5|]; [|done].
    exists b5. destruct Hs53 as [-> ->]. by destruct Hbuf. }
  destruct (r =? 0); simpl.
  - wlp_steps. apply wlp_upd_conn. intros c6 _ Hc6. assert (c6 = c5) as -> by congruence.
    unfold on_handler. wlp_steps.
    set (w7 := _ <| handler ::= fun h => h <| m_mpConnections ::= _ |> |>).
    assert (TblInv (handler w7)) as Hw7.
    { apply (inv_take i fd c2 (handler w2) (set_slot i (c5 <| iIdx := i |>) w5) (c5 <| iIdx := i |>)); try done.
      simpl. rewrite Hv5. by rewrite list_insert_insert_eq. }
    destruct (0 <? _); [|by wlp_steps]. wlp_steps.
    eapply wlp_mono; [apply (touches_zoom i); reflexivity|]. intros t w8 T8.
    wlp_steps. eapply wlp_mono;
      [apply inv_upd_plain; [by intros; apply same_slot_intro|exact (TblInv_touch _ _ _ T8 Hw7)]|].
    intros ? w9 Hw9. by wlp_steps.
  - wlp_steps. eapply wlp_mono; [by apply Connection_Close_handler|]. intros ? w6 E6. wlp_steps.
    eapply (TblInv_stat (handler w2 <| m_vecConnections ::=
      <[Z.to_nat i := c5 <| bState := STATE_INVALID |> <| iIdx := -1 |>]> |>)).
    + rewrite E6. simpl. by rewrite Hv5, list_insert_insert_eq.
    + rewrite E6. simpl. by rewrite Tm.
    + rewrite E6. simpl. by rewrite Tx.
    + eapply TblInv_dead; [done|exact Hc2|done|done|]. simpl.
      destruct Hb5 as (b5 & -> & E1 & E2). by split.
Qed.


(** *** The other handlers *)

Lemma inv_ByIdx_remove idx reason w :
  TblInv (handler w) ->
  wlp (match GetConnectionByIdx idx (handler w) with
       | None => mret tt
       | Some i => RemoveConnection peer i reason
       end) (fun _ w' => TblInv (handler w')) w.
Proof.
  intros Hw. destruct (GetConnectionByIdx idx (handler w)) as [i|] eqn:E; [|by wlp_steps].
  apply ByIdx_slot in E as (-> & Hi & Hc). by apply inv_remove_live.
Qed.

Lemma inv_stat f :
  (forall h, m_vecConnections (f h) = m_vecConnections h /\
     m_mpConnections (f h) = m_mpConnections h /\ m_iMaxConnection (f h) = m_iMaxConnection h) ->
  inv_ok (on_handler f).
Proof. intros Hf. apply (inv_touches 0). by apply touches_handler. Qed.

Lemma inv_OnConnectionClosed fd : inv_ok (OnConnectionClosed peer fd).
Proof.
  unfold OnConnectionClosed. apply inv_bind; [by apply inv_stat|]. intros ? w Hw. wlp_steps.
  destruct (GetConnectionByFD fd (handler w)) as [i|] eqn:E; [|by wlp_steps].
  apply ByFD_slot in E. wlp_steps. eapply wlp_mono; [by apply inv_remove_live|].
  intros ? w' Hw'. by wlp_steps.
Qed.

Lemma inv_CheckConnxFree idx : inv_ok (CheckConnxFree peer idx).
Proof.
  intros w Hw. unfold CheckConnxFree, on_timers. wlp_steps.
  destruct (GetConnectionByIdx idx (handler w)) as [i|] eqn:E; [|by wlp_steps].
  apply ByIdx_slot in E as (-> & Hi & Hc). wlp_steps. apply wlp_conn. intros c _ Hc1.
  destruct (_ <? _); [by apply inv_remove_live|]. destruct (_ <=? _); [|by wlp_steps].
  wlp_steps. eapply wlp_mono; [apply (touches_zoom idx); reflexivity|]. intros t w1 T1.
  apply inv_upd_plain; [intros; by apply same_slot_intro|exact (TblInv_touch _ _ _ T1 Hw)].
Qed.

Lemma inv_OnClosing_loop k reason : inv_ok (OnClosing_loop peer k reason).
Proof.
  induction k as [|k IH]; intros w Hw; cbn [OnClosing_loop]; wlp_steps; [done|].
  destruct (_ <? _); [|by wlp_steps]. wlp_steps.
  eapply wlp_mono; [by apply inv_ByIdx_remove|]. intros ? w1 Hw1. revert w1 Hw1.
  apply inv_bind; [by apply inv_stat|]. intros _. exact IH.
Qed.

Lemma inv_OnClosing reason k : inv_ok (OnClosing peer reason k).
Proof.
  unfold OnClosing. intros w Hw. wlp_steps.
  assert (wlp (if m_closing (handler w) =? 0 then on_handler (fun h => h <| m_closing := reason |>)
    else mret tt) (fun _ w' => TblInv (handler w')) w) as H1.
  { destruct (_ =? _); [by apply inv_stat|by wlp_steps]. }
  eapply wlp_mono; [exact H1|]. intros ? w1 Hw1. wlp_steps.
  eapply wlp_mono; [by apply inv_OnClosing_loop|]. intros ? w2 Hw2. wlp_steps.
  destruct (_ <? _); by wlp_steps.
Qed.

Lemma inv_DispatchMessage msg : inv_ok (DispatchMessage Send_ret peer msg).
Proof.
  intros w Hw. unfold DispatchMessage. wlp_steps. destruct (_ <? _); [by wlp_steps|]. wlp_steps.
  destruct (parse _) as [ggc|]; [|by wlp_steps]. wlp_steps.
  destruct (GetConnectionByIdx _ (handler w)) as [i|] eqn:E; [|by wlp_steps].
  apply ByIdx_slot in E as (_ & Hi & Hc).
  destruct (_ =? EVENT_CLOSE); [|destruct (_ =? EVENT_DATA); [|by wlp_steps]].
  - wlp_steps. eapply wlp_mono; [by apply inv_remove_live|]. intros ? w' Hw'. by wlp_steps.
  - clear Hc. revert w Hw. apply inv_bind; [by apply inv_stat|]. intros _.
    apply inv_bind; [by apply (inv_touches i), SendFrameToClient_touches|].
    intros _. by apply (inv_touches i), touches_ret.
Qed.

(** ** Reachable gates *)

(** The events a gate reacts to. A descriptor is not given to a new connection
    while a live one has it: the operating system reuses a descriptor only
    after it was closed. *)
Inductive GateEvt :=
  | EvNew (fd : Z)
  | EvData (fd : Z) (data : bytes)
  | EvClosed (fd : Z)
  | EvTimer (idx : Z)
  | EvClosing (reason : Z)
  | EvAgent (msg : ChannelMessage)
  | EvTime (app now : Z).

Definition react (e : GateEvt) : M (GateW P) unit :=
  match e with
  | EvNew fd => OnNewConnection Send_ret fd;; mret tt
  | EvData fd data => OnClientDataRecv Send_ret peer (S (length data)) fd data;; mret tt
  | EvClosed fd => OnConnectionClosed peer fd;; mret tt
  | EvTimer idx => CheckConnxFree peer idx
  | EvClosing reason => OnClosing peer reason 200;; mret tt
  | EvAgent msg => DispatchMessage Send_ret peer msg;; mret tt
  | EvTime app now => modify (fun w => w <| app_sec := app |> <| now_sec := now |>)
  end.

Inductive gate_step : GateW P -> GateW P -> Prop :=
  | gate_react e w w' :
      (forall fd, e = EvNew fd -> fresh_fd fd (handler w)) ->
      react e w = Some (tt, w') -> gate_step w w'.

Lemma inv_then {A} (m : M (GateW P) A) : inv_ok m -> inv_ok (m;; mret tt).
Proof. intros Hm. apply inv_bind; [done|]. intros _ w Hw. by wlp_steps. Qed.

Lemma gate_step_inv w w' : gate_step w w' -> TblInv (handler w) -> TblInv (handler w').
Proof.
  intros [e w1 w2 Hf E] Hw.
  assert (wlp (react e) (fun _ w' => TblInv (handler w')) w1) as H1;
    [|exact (wlp_elim _ _ _ _ _ H1 E)].
  destruct e as [fd|fd data|fd|idx|reason|msg|app now]; cbn [react].
  - apply wlp_bind. eapply wlp_mono; [by apply inv_OnNewConnection; eauto|]. intros ? w3 Hw3. by wlp_steps.
  - by apply inv_then; [apply inv_OnClientDataRecv|].
  - by apply inv_then; [apply inv_OnConnectionClosed|].
  - by apply inv_CheckConnxFree.
  - by apply inv_then; [apply inv_OnClosing|].
  - by apply inv_then; [apply inv_DispatchMessage|].
  - by wlp_steps.
Qed.

Lemma TblInv_new cfg n : TblInv (GateServerHandler_new cfg n).
Proof.
  split; simpl.
  - rewrite length_replicate. lia.
  - by intros c [-> _]%lookup_replicate.
  - done.
  - by intros j c [-> _]%lookup_replicate.
  - by intros j c [-> _]%lookup_replicate.
Qed.

(** C1. The connection table is consistent in every state a gate can reach,
    whatever clients, agents and timers do: every descriptor maps to slot 0 or
    to the live slot that serves it, every live slot is found through its
    descriptor, slot 0 stays unused, and every live slot has its 65539-byte
    receive buffer, empty between calls. *)
Theorem gate_reachable_inv w0 w cfg0 n :
  handler w0 = GateServerHandler_new cfg0 n -> rtc gate_step w0 w -> TblInv (handler w).
Proof.
  intros E Hr. assert (TblInv (handler w0)) as Hi by (rewrite E; apply TblInv_new). clear E.
  induction Hr as [|w1 w2 w3 Hs _ IH]; [done|]. apply IH. by eapply gate_step_inv.
Qed.

End table_ops.
