(* ===== verification/GateProtocol.v ===== *)
(** * Sessions of the gate

    Login, the authentication mode, closing, and a full table: what clients and
    agents observe of a connection's life. *)

From S2P Require Import Prelude CString Extern TimerMgr Channel ChannelMsgProxy.
From S2P Require Import GateMsg GateServerHandler GateFraming GateAgentChannelMsgHandler GateInvariant.

Section protocol.
Context {P : Type} {MP : MsgProxy P}.
Context {B0 : BufferLib} {CSS : Codec GateSSMsg} {CCS : Codec GateCSMsg}.
Context `{!BufferLaws, !CodecLaws GateSSMsg, !CodecLaws GateCSMsg}.
Context (Send_ret : list NetEvt -> Z -> bytes -> Z) (peer : Z -> Z * Z).
Implicit Types (w : GateW P) (h : GateServerHandler).

(** ** Login *)

(** [SendToClient] writes one frame when memory and socket allow it. *)
Lemma wp_SendToClient i c ga b w Q :
  0 <= i -> slot w i = Some c -> ByteSize ga < MAX_GATE_FRAME_SIZE ->
  buffer_Create (ByteSize ga) = Some b -> (forall tr d, Send_ret tr (cliSocket c) d = 0) ->
  (forall w1 c1, slot w1 i = Some c1 -> ident c1 = ident c -> sToken c1 = sToken c -> proxy w1 = proxy w -> cfg w1 = cfg w ->
     m_mpConnections (handler w1) = m_mpConnections (handler w) ->
     trace w1 = trace w ++ [NSend (cliSocket c) (htons_bytes (ByteSize ga));
                            NSend (cliSocket c) (serialize ga)] -> Q 0 w1) ->
  wp (SendToClient Send_ret i ga) Q w.
Proof.
  intros Hi Hc Hsz Hb Hsend HQ. unfold SendToClient, MAX_GATE_FRAME_SIZE in *. wp_steps.
  { by apply Z.ltb_lt. }
  rewrite Hb. destruct (pack_buffer_serialize ga b Hb) as [-> Hcap].
  pose proof (length_serialize ga) as Hl.
  unfold GateFrame_new, SendFrameToClient, socket_Send, emit, on_handler. cbn [frame_size frame_data].
  rewrite Hcap, u16_small by lia. wp_steps.
  eapply wp_upd_conn; [done|done|]. wp_steps.
  assert (ident (UpdateStat (app_sec w) false c) = ident c) as Hid by apply ident_UpdateStat.
  assert (cliSocket (UpdateStat (app_sec w) false c) = cliSocket c) as Hfd by (unfold ident in Hid; congruence).
  eapply wp_conn; [done|by eapply slot_set_eq|]. wp_steps. rewrite Hfd, Hsend. simpl. wp_steps.
  eapply wp_lift; [rewrite <- (app_nil_r (serialize ga)); apply (slice_mid [] (serialize ga) []); [done|lia]|].
  wp_steps. rewrite Hsend.
  eapply (HQ _ (UpdateStat (app_sec w) false c)); try done.
  - by eapply (slot_set_eq i _ c w).
  - unfold UpdateStat. by destruct (_ <=? _).
  - simpl. by rewrite <- app_assoc.
Qed.

(** C6. Login. When authentication is off, the first message of a connection,
    a representable authentication request for a known area, authorises it: the
    connection takes the uid and the token of the request, and its area and the
    area's channel (both converted from [uint32] to [int]), the client is sent one frame with a positive authentication response, and the area's agent
    is sent one report, which the proxy accepts, that the connection of this
    slot, uid and peer address has connected. The frame is written whole: every
    send on the client's socket succeeds. *)
Theorem login_authorises i fd c ga b1 b2 w ch p' :
  representable ga -> 0 < i -> slot w i = Some c -> bState c = STATE_CONNECTED -> cliSocket c = fd ->
  m_mpConnections (handler w) !! fd = Some i -> iNeedAuth (cfg w) = 0 ->
  mpAreaID2ChannelID (cfg w) !! req_area (authreq ga) = Some ch ->
  let req := authreq ga in
  let rsp := mkGateCSMsg GATE_AUTH_RSP None (Some 0) in
  let ev := mkGateSSMsg EVENT_CONNECTED (u32 i) (req_uid req) (u32 (i32 (req_area req)))
              (Some (fst (peer fd))) (Some (snd (peer fd))) None in
  ByteSize rsp < MAX_GATE_FRAME_SIZE -> buffer_Create (ByteSize rsp) = Some b1 ->
  buffer_Create (ByteSize ev) = Some b2 -> (forall tr d, Send_ret tr fd d = 0) ->
  SendToAgent (i32 ch) [serialize ev] (ByteSize ev) (proxy w) = Some (0, p') ->
  exists w' c', OnClientMessage Send_ret peer i (serialize ga) w = Some (0, w') /\
    slot w' i = Some c' /\ bState c' = STATE_AUTHORIZED /\ ulUid c' = req_uid req /\
    sToken c' = req_token req /\ iArea c' = i32 (req_area req) /\ iDstChannel c' = i32 ch /\ proxy w' = p' /\
    trace w' = trace w ++ [NSend fd (htons_bytes (ByteSize rsp)); NSend fd (serialize rsp)].
Proof.
  intros Hga Hi Hc Hst Hfd Hm Hna Har req rsp ev Hsz Hb1 Hb2 Hsend Hp.
  assert (wp (OnClientMessage Send_ret peer i (serialize ga)) (fun r0 w' => r0 = 0 /\
    exists c', slot w' i = Some c' /\ bState c' = STATE_AUTHORIZED /\ ulUid c' = req_uid req /\
    sToken c' = req_token req /\ iArea c' = i32 (req_area req) /\ iDstChannel c' = i32 ch /\ proxy w' = p' /\
    trace w' = trace w ++ [NSend fd (htons_bytes (ByteSize rsp)); NSend fd (serialize rsp)]) w) as Hwp.
  2:{ destruct (wp_run_ret _ _ _ _ Hwp) as (w' & E & c' & Hx). by exists w', c'. }
  unfold OnClientMessage, on_handler. wp_steps.
  eapply wp_upd_conn; [lia|done|]. set (w0 := w <| handler ::= _ |>).
  set (c1 := UpdateStat _ true c).
  assert (slot (set_slot i c1 w0) i = Some c1) as Hc1 by (by eapply slot_set_eq).
  assert (ident c1 = ident c) as Hid by apply ident_UpdateStat.
  wp_steps. eapply wp_conn; [lia|exact Hc1|].
  assert (bState c1 = STATE_CONNECTED) as -> by (unfold ident in Hid; congruence).
  change (STATE_CONNECTED =? STATE_CONNECTED) with true. cbv iota.
  rewrite parse_serialize by done. unfold Authorizing. wp_steps. simpl cfg. rewrite Har. wp_steps.
  eapply wp_upd_conn; [lia|exact Hc1|]. wp_steps. simpl cfg. rewrite Hna. simpl. wp_steps.
  set (c2 := c1 <| iArea := _ |> <| iDstChannel := _ |> <| ulUid := _ |> <| sToken := _ |> <| tLastActTime := _ |>).
  assert (cliSocket c2 = fd) as Hfd2 by (unfold ident in Hid; simpl; congruence).
  unfold NotifyAuthResult. change (u32 0) with 0. fold rsp. change (0 =? 0) with true. cbv iota. wp_steps.
  eapply (wp_SendToClient i c2 rsp b1); [lia|by eapply slot_set_eq|done|done|by rewrite Hfd2|].
  intros w3 c3 Hc3 Hid3 Htok Hp3 _ Hm3 Ht3. rewrite Hfd2 in Ht3. wp_steps.
  eapply wp_upd_conn; [lia|exact Hc3|]. set (c4 := c3 <| bState := STATE_AUTHORIZED |>).
  unfold ident in Hid3. injection Hid3 as E1 E2 E3 E4 E5 E6.
  assert (cliSocket c4 = fd) as Hfd4 by (simpl in *; congruence).
  assert (report peer c4 i EVENT_CONNECTED 0 = ev) as Hrep.
  { unfold report, ev. rewrite Hfd4. simpl. by rewrite E5, E6. }
  wp_steps. eapply (wp_ReportEvent peer i EVENT_CONNECTED 0 None c4 i b2 _ p' 0).
  - lia.
  - by eapply slot_set_eq.
  - simpl. rewrite Hm3. simpl in E2. rewrite E2. simpl in *. by rewrite Hfd2.
  - tauto.
  - by rewrite Hrep.
  - rewrite Hrep. simpl. rewrite Hp3. simpl in E3. rewrite E3. exact Hp.
  - wp_steps. split; [done|]. exists c4.
    split_and!; [by eapply (slot_set_eq i c4 c3)|done|exact E5|exact Htok|exact E6|exact E3|done|exact Ht3].
Qed.

(** ** A full table *)

(** A connection that arrives when [m_iMaxConnection - 1] others are alive
    makes [GetNextIdx] return [-1], which [OnNewConnection] uses as an index
    before any check: the access is outside the table. *)
Theorem OnNewConnection_full_undefined fd w :
  m_iMaxConnection (handler w) <= m_iAlivedConnections (handler w) + 1 ->
  OnNewConnection Send_ret fd w = None.
Proof.
  intros Hfull. unfold OnNewConnection, mbind, M_bind, on_handler, modify, gets. simpl.
  unfold conn, mbind, M_bind, gets. simpl. unfold GetNextIdx. simpl.
  rewrite (proj2 (Z.leb_le _ _)) by lia. done.
Qed.

(** While fewer connections are alive than the table allows and some slot
    other than 0 is free, [GetNextIdx] finds the first free slot. *)
Theorem GetNextIdx_first_free h j c :
  m_iAlivedConnections h < m_iMaxConnection h ->
  (0 < j)%nat -> m_vecConnections h !! j = Some c -> bState c = 0 ->
  exists k, GetNextIdx h = Z.of_nat k /\ (0 < k <= j)%nat /\
    (exists ck, m_vecConnections h !! k = Some ck /\ bState ck = 0) /\
    (forall l cl, (0 < l < k)%nat -> m_vecConnections h !! l = Some cl -> bState cl <> 0).
Proof.
  intros Ha Hj Hc Hst. unfold GetNextIdx. destruct (Z.leb_spec (m_iMaxConnection h) (m_iAlivedConnections h)); [lia|].
  destruct (m_vecConnections h) as [|c0 cs]; [done|]. destruct j as [|j]; [lia|]. simpl in *.
  clear Ha Hj. 
  assert (forall z, exists k, first_free z cs = z + Z.of_nat k /\ (k <= j)%nat /\
    (exists ck, cs !! k = Some ck /\ bState ck = 0) /\
    (forall l cl, (l < k)%nat -> cs !! l = Some cl -> bState cl <> 0)) as Hg.
  { revert j Hc. induction cs as [|c1 cs IH]; intros j Hc z; [done|]. simpl.
    destruct (Z.eqb_spec (bState c1) 0).
    - exists 0%nat. split_and!; [lia|lia|by exists c1|lia].
    - destruct j as [|j]; [simpl in Hc; congruence|].
      destruct (IH j Hc (z + 1)) as (k & -> & Hk & Hck & Hl).
      exists (S k). split_and!; [lia|lia|done|].
      intros [|l] cl Hlt Hcl; simpl in Hcl; [congruence|]. apply (Hl l); [lia|done]. }
  destruct (Hg 1) as (k & -> & Hk & Hck & Hl).
  exists (S k). split_and!; [lia|lia|lia|done|].
  intros [|l] cl Hlt Hcl; [lia|]. apply (Hl l); [lia|done].
Qed.

(** ** Closing a connection *)

(** The close report carries no index: [RemoveConnection] erases the
    descriptor from the map before [ReportEvent] looks it up, so the agent is
    told that connection 0 closed, whichever slot it was, and the map keeps a
    stale entry from the descriptor to slot 0. *)
Theorem RemoveConnection_reports_index_zero i c b reason w r p' :
  0 < i -> slot w i = Some c -> bState c <> 0 ->
  let ev := mkGateSSMsg EVENT_CLOSE 0 (ulUid c) (u32 (iArea c)) None None (Some (u32 reason)) in
  buffer_Create (ByteSize ev) = Some b ->
  SendToAgent (iDstChannel c) [serialize ev] (ByteSize ev) (proxy w) = Some (r, p') ->
  exists w', RemoveConnection peer i reason w = Some (tt, w') /\ proxy w' = p' /\
    m_mpConnections (handler w') = <[cliSocket c := 0]> (m_mpConnections (handler w)) /\
    GetConnectionByIdx i (handler w') = None.
Proof.
  intros Hi Hc Hst ev Hb Hp. apply wp_run_unit.
  assert (forall w1, slot w1 i = Some c -> m_mpConnections (handler w1) = <[cliSocket c := 0]> (m_mpConnections (handler w)) ->
    proxy w1 = p' -> wp (Connection_Close i) (fun _ w' => proxy w' = p' /\
      m_mpConnections (handler w') = <[cliSocket c := 0]> (m_mpConnections (handler w)) /\
      GetConnectionByIdx i (handler w') = None) w1) as Hclose.
  { intros w1 Hc1 Hm1 Hp1. unfold Connection_Close, emit. wp_steps. eapply wp_conn; [lia|done|]. wp_steps.
    destruct (_ || _); wp_steps; (eapply wp_upd_conn; [lia|done|]); (split_and!; [done|done|]);
      unfold GetConnectionByIdx; simpl; destruct (_ || _); try done;
      (rewrite list_lookup_insert_eq by (by eapply lookup_lt_Some)); done. }
  unfold RemoveConnection, ReportEvent, map_index, on_handler, send_to_agent, on_timers. wp_steps.
  eapply wp_conn; [lia|done|]. wp_steps. eapply (wp_conn i c); [lia|done|]. wp_steps.
  simpl. rewrite lookup_delete_eq. wp_steps.
  destruct (peer (cliSocket c)) as [ip port]. change (u32 0) with 0. simpl.
  destruct (pack_buffer_serialize ev b Hb) as [Hpk Hcap]. fold ev.
  wp_steps. eapply wp_lift; [exact Hb|]. wp_steps. eapply wp_lift; [exact Hpk|]. wp_steps.
  apply wp_zoom. unfold wp at 1. rewrite Hcap. simpl proxy. rewrite Hp. wp_steps.
  apply wp_zoom. unfold CancelTimer. wp_steps. apply Hclose; [done| |done].
  simpl. by rewrite insert_delete_eq.
Qed.

(** ** Authentication required *)

(** No connection is authorised, and authentication is on. *)
Definition NoAuth w : Prop :=
  Forall (fun c => bState c <> STATE_AUTHORIZED) (m_vecConnections (handler w)) /\ iNeedAuth (cfg w) <> 0.

Lemma pres_upd_conn i f :
  (forall c, bState c <> STATE_AUTHORIZED -> bState (f c) <> STATE_AUTHORIZED) -> pres NoAuth (upd_conn i f).
Proof.
  intros Hf. apply wlp_pres. intros w [Ha Hn]. apply wlp_upd_conn. intros c Hi Hc.
  split; [|done]. simpl. apply Forall_insert; [done|]. apply Hf.
  exact (Forall_lookup_1 _ _ _ _ Ha Hc).
Qed.

Lemma pres_handler f :
  (forall h, m_vecConnections (f h) = m_vecConnections h) -> pres NoAuth (on_handler f).
Proof. intros Hf. apply pres_modify. intros w [Ha Hn]. split; [|done]. simpl. by rewrite Hf. Qed.

Lemma pres_conn i : pres NoAuth (conn i).
Proof. apply wlp_pres. intros w Hw. by apply wlp_conn. Qed.

Lemma pres_emit e : pres NoAuth (emit e).
Proof. by apply pres_modify. Qed.

Lemma pres_gate_zoom {S A} (get : GateW P -> S) put (m : M S A) :
  (forall s w, handler (put s w) = handler w /\ cfg (put s w) = cfg w) -> pres NoAuth (zoom get put m).
Proof. intros Hp. apply pres_zoom. intros s w. unfold NoAuth. by destruct (Hp s w) as [-> ->]. Qed.

Hint Resolve pres_conn pres_emit : pres.

Lemma bState_UpdateStat sec r c : bState (UpdateStat sec r c) = bState c.
Proof. pose proof (ident_UpdateStat sec r c) as E. unfold ident in E. congruence. Qed.

Ltac noauth_step :=
  first
    [ apply pres_upd_conn; intros ?; solve [by rewrite bState_UpdateStat | done]
    | apply pres_handler; done
    | apply pres_gate_zoom; done
    | pres_step ].
Ltac noauth_auto := repeat (noauth_step; cbv beta zeta).

Lemma noauth_SendFrame i f : pres NoAuth (SendFrameToClient Send_ret i f).
Proof. unfold SendFrameToClient, socket_Send. noauth_auto. Qed.
Hint Resolve noauth_SendFrame : pres.
Lemma noauth_SendToClient i m : pres NoAuth (SendToClient Send_ret i m).
Proof. unfold SendToClient. noauth_auto. Qed.
Hint Resolve noauth_SendToClient : pres.
Lemma noauth_ReportEvent i e p d : pres NoAuth (ReportEvent peer i e p d).
Proof. unfold ReportEvent, map_index, send_to_agent. noauth_auto. Qed.
Hint Resolve noauth_ReportEvent : pres.
Lemma noauth_Close i : pres NoAuth (Connection_Close i).
Proof. unfold Connection_Close. noauth_auto. Qed.
Hint Resolve noauth_Close : pres.
Lemma noauth_Remove i r : pres NoAuth (RemoveConnection peer i r).
Proof. unfold RemoveConnection, on_timers. noauth_auto. Qed.
Hint Resolve noauth_Remove : pres.
Lemma noauth_ForwardData i m : pres NoAuth (ForwardData Send_ret peer i m).
Proof. unfold ForwardData. noauth_auto. Qed.
Lemma noauth_set_used i n : pres NoAuth (set_used i n).
Proof. unfold set_used. noauth_auto. Qed.
Lemma noauth_recv_copy i d : pres NoAuth (recv_copy i d).
Proof. unfold recv_copy. noauth_auto. Qed.
Hint Resolve noauth_ForwardData noauth_set_used noauth_recv_copy : pres.

(** With authentication on, [Authorizing] never grants. *)
Lemma noauth_Authorizing i a w :
  NoAuth w -> wlp (Authorizing i a) (fun r w' => NoAuth w' /\ r <> 0) w.
Proof.
  intros Hw. unfold Authorizing. wlp_steps. destruct (_ !! _); [|by wlp_steps].
  apply wlp_bind. eapply wlp_mono; [apply (pres_wlp NoAuth); [by apply pres_upd_conn|done]|].
  intros ? w1 Hw1. destruct (Z.eqb_spec (iNeedAuth (cfg w)) 0); [by destruct Hw|]. by wlp_steps.
Qed.

Lemma noauth_OnClientMessage i m : pres NoAuth (OnClientMessage Send_ret peer i m).
Proof.
  unfold OnClientMessage. noauth_step; [noauth_auto|]. noauth_step; [noauth_auto|].
  noauth_step; [noauth_auto|]. noauth_step; [noauth_auto|].
  destruct (_ =? STATE_CONNECTED); [|noauth_auto].
  destruct (parse m) as [ga|]; [|noauth_auto].
  apply wlp_pres. intros w Hw. apply wlp_bind. eapply wlp_mono; [by apply noauth_Authorizing|].
  intros r w1 [Hw1 Hr]. destruct (Z.eqb_spec r 0); [done|].
  apply (pres_wlp NoAuth); [|done]. noauth_auto.
Qed.
Hint Resolve noauth_OnClientMessage : pres.

Lemma noauth_OnClientDataRecv fuel fd data : pres NoAuth (OnClientDataRecv Send_ret peer fuel fd data).
Proof.
  revert data. induction fuel as [|fuel IH]; intros data; [done|].
  cbn [OnClientDataRecv]. unfold recv_prefix. noauth_auto.
Qed.

Lemma noauth_OnClosing_loop k r : pres NoAuth (OnClosing_loop peer k r).
Proof. induction k as [|k IH]; cbn [OnClosing_loop]; noauth_auto. Qed.
Hint Resolve noauth_OnClosing_loop noauth_OnClientDataRecv : pres.

Lemma noauth_react e : pres NoAuth (react Send_ret peer e).
Proof.
  destruct e; cbn [react]; unfold OnNewConnection, NotifyNeedAuth, OnConnectionClosed, CheckConnxFree,
    OnClosing, DispatchMessage, on_timers; noauth_auto.
  by apply pres_modify.
Qed.

(** The authentication mode has no way through: when [gate:need_auth] is
    set, no connection is ever authorised, in any state reachable from a fresh
    gate; clients that sent their request stay in the authenticating state and
    their data is never forwarded. *)
Theorem need_auth_never_authorises w0 w cfg0 n :
  handler w0 = GateServerHandler_new cfg0 n -> iNeedAuth (cfg w0) <> 0 ->
  rtc (gate_step Send_ret peer) w0 w ->
  forall i c, slot w i = Some c -> bState c <> STATE_AUTHORIZED.
Proof.
  intros E Hn Hr i c Hc.
  assert (NoAuth w) as [Ha _]; [|exact (Forall_lookup_1 _ _ _ _ Ha Hc)].
  assert (NoAuth w0) as H0.
  { split; [|done]. rewrite E. by apply Forall_replicate. }
  clear E Hn Hc. induction Hr as [|w1 w2 w3 [e v1 v2 _ Es] _ IH]; [done|].
  apply IH. by eapply noauth_react.
Qed.

End protocol.

(** ** Witnesses *)

Module ProtocolWitness.
Import GateWitness.

Definition gate (auth : Z) : GateW (list (Z * list bytes * Z)) :=
  let cf := mkGateCfg 0 auth {[3 := 9]} 600 in
  mkGateW (GateServerHandler_new cf 3) (TimerMgr_new (mkTimeval 0 0) 0) [] cf 100 100 [] [].
Definition gate1 (auth : Z) : GateW (list (Z * list bytes * Z)) :=
  default (gate auth) (snd <$> react send_ok peer0 (EvNew 50) (gate auth)).

Lemma step1 auth : gate_step send_ok peer0 (gate auth) (gate1 auth).
Proof.
  apply (gate_react send_ok peer0 (EvNew 50)).
  - intros fd _ k c [-> _]%lookup_replicate. done.
  - vm_compute. reflexivity.
Qed.

Lemma gate_reachable_inv_witness : TblInv (handler (gate1 0)).
Proof.
  apply (gate_reachable_inv send_ok peer0 (gate 0) (gate1 0) (mkGateCfg 0 0 {[3 := 9]} 600) 3 eq_refl).
  exact (rtc_once _ _ (step1 0)).
Defined.

Lemma need_auth_never_authorises_witness :
  exists c, slot (gate1 1) 1 = Some c /\ bState c = STATE_CONNECTED /\ bState c <> STATE_AUTHORIZED.
Proof.
  exists (default Connection_new (slot (gate1 1) 1)). split; [vm_compute; reflexivity|].
  split; [vm_compute; reflexivity|].
  apply (need_auth_never_authorises send_ok peer0 (gate 1) (gate1 1)
    (mkGateCfg 0 1 {[3 := 9]} 600) 3 eq_refl) with (i := 1); [discriminate| |vm_compute; reflexivity].
  exact (rtc_once _ _ (step1 1)).
Defined.

Definition ga : GateCSMsg := mkGateCSMsg GATE_AUTH_REQ (Some (mkAuthReq 1001 0 "tok" 3)) None.
Definition conn1 : Connection := default Connection_new (slot (gate1 0) 1).

Lemma ga_representable : representable ga.
Proof. split; [done|]. split; [done|]. by intros ? [= <-]. Qed.

Lemma login_authorises_witness :
  exists w' c', OnClientMessage send_ok peer0 1 (serialize ga) (gate1 0) = Some (0, w') /\
    slot w' 1 = Some c' /\ bState c' = STATE_AUTHORIZED /\ ulUid c' = 1001 /\
    proxy w' = [(9, [[8; 1; 16; 1; 24; 233; 7; 32; 3; 160; 1; 129; 128; 128; 248; 7; 168; 1; 160; 31]], 20)].
Proof.
  destruct (login_authorises send_ok peer0 1 50 conn1 ga
    (mkBuffer 6 0 []) (mkBuffer 20 0 []) (gate1 0) 9
    [(9, [[8; 1; 16; 1; 24; 233; 7; 32; 3; 160; 1; 129; 128; 128; 248; 7; 168; 1; 160; 31]], 20)])
    as (w' & c' & E & Hc & H1 & H2 & _ & _ & _ & Hp & _); [exact ga_representable|vm_compute; reflexivity..|].
  - exists w', c'. split_and!; [exact E|exact Hc|exact H1|exact H2|exact Hp].
Defined.

Lemma OnNewConnection_full_undefined_witness :
  OnNewConnection send_ok 60 (gate1 0 <| handler ::= fun h => h <| m_iAlivedConnections := 2 |> |>) = None.
Proof. apply OnNewConnection_full_undefined. vm_compute. discriminate. Defined.

Lemma GetNextIdx_first_free_witness :
  exists k, GetNextIdx (handler (gate 0)) = Z.of_nat k /\ (0 < k <= 2)%nat.
Proof.
  destruct (GetNextIdx_first_free (handler (gate 0)) 2 Connection_new) as (k & E & Hk & _).
  - reflexivity.
  - lia.
  - reflexivity.
  - reflexivity.
  - exists k. split; [exact E|lia].
Defined.

Lemma RemoveConnection_reports_index_zero_witness :
  exists w', RemoveConnection peer0 1 4 w0 = Some (tt, w') /\
    proxy w' = [(9, [[8; 2; 16; 0; 24; 233; 7; 32; 3; 176; 1; 4]], 12)] /\
    m_mpConnections (handler w') = <[50 := 0]> (m_mpConnections (handler w0)) /\
    GetConnectionByIdx 1 (handler w') = None.
Proof.
  apply (RemoveConnection_reports_index_zero peer0 1 c0 (mkBuffer 12 0 []) 4 w0 0);
    try reflexivity. discriminate.
Defined.

End ProtocolWitness.
