(* ===== verification/App.v ===== *)
(** * The application framework ([app/App.hpp], [app/App.cpp])

    Every server is an [App]: it is initialised from its context, started, and
    then polled until a command or a signal sets [closing], after which its
    [OnClosing] is called until it reports the end. A derived class supplies the
    hooks; the state it works on is any [W] that holds the context. This file
    has the console, the signals, the ticks and the loop; start-up and shutdown
    of the process are in [AppMain]. *)

From S2P Require Import Prelude CString Extern Config ConfigCenter TimerMgr.
From S2P Require Import AppContext.

Definition APP_CTRL_CLOSING_EXCEPTION : Z := 0.
Definition APP_CTRL_CLOSING_RESTART : Z := 1.
Definition APP_CTRL_CLOSING_STOP : Z := 2.
Definition APP_CTRL_CLOSING_COREDUMP : Z := 3.

(** ** Splitting a command line *)

(** [line.find(t)]. *)
Fixpoint find_sub (t s : string) : option nat :=
  if String.prefix t s then Some O
  else match s with
       | EmptyString => None
       | String _ r => S <$> find_sub t r
       end.

(** The loop of [SplitCMDLine]: [rest] is the line from [start]. *)
Fixpoint split_loop (fuel : nat) (deli rest : string) (acc : list string) : option (list string) :=
  match fuel with
  | O => None
  | S fuel =>
      if (0 <? strlen rest) then
        match find_sub deli rest with
        | None => Some acc
        | Some k =>
            let seg := String.substring 0 k rest in
            let acc := if negb (String.eqb seg deli) && (0 <? Z.of_nat k) then acc ++ [seg] else acc in
            split_loop fuel deli
              (String.substring (k + String.length deli) (String.length rest) rest) acc
        end
      else Some acc
  end.

(** [AppConsoletHandler::SplitCMDLine]: the delimiter is appended first. *)
Definition SplitCMDLine (line deli : string) : option (list string) :=
  let line := line +:+ deli in split_loop (S (String.length line)) deli line [].

(** ** The framework *)

Section App.
Context {I : IniLib}.
Context {W : Type} (actx : W -> AppContext) (put_actx : AppContext -> W -> W).
(** The virtual functions of the derived class. *)
Record AppHooks := mkAppHooks {
  OnInit : M W Z;
  OnStart : M W Z;
  OnCtrl : list string -> M W string;
  OnTick : Z -> M W Z;
  OnPoll : Z -> M W Z;
  OnClosing : Z -> M W Z;
  OnDestroy : M W Z
}.
Context (hooks : AppHooks).

Definition on_actx (f : AppContext -> AppContext) : M W unit := modify (fun w => put_actx (f (actx w)) w).

(** [App::Shutdown]. *)
Definition Shutdown (reason : Z) : M W Z :=
  w ← gets actx;
  if closing w =? 0 then on_actx (fun c => c <| closing := reason |>);; mret 0
  else mret (-1).

(** [OnSignal] for [SIGUSR1] and [SIGUSR2]. *)
Inductive Signal := SIGUSR1 | SIGUSR2 | SIGOTHER.
Definition OnSignal (s : Signal) : M W unit :=
  match s with
  | SIGUSR1 => Shutdown APP_CTRL_CLOSING_RESTART;; mret tt
  | SIGUSR2 => Shutdown APP_CTRL_CLOSING_STOP;; mret tt
  | SIGOTHER => mret tt
  end.

(** [App::Ctrl]: [cmdLine[0]] of an empty line is undefined. *)
Definition Ctrl (ToString : timeval -> string) (cmdLine : list string) : M W string :=
  mainCMD ← lift (head cmdLine);
  let rsp := mainCMD +:+ ":" in
  if String.eqb mainCMD "quit" then
    on_actx (fun c => c <| closing := 1 |>);;
    mret "system is closing ..."
  else if String.eqb mainCMD "time" then
    c ← gets actx; mret (rsp +:+ ToString (curTime c))
  else if String.eqb mainCMD "rtime" then
    c ← gets actx;
    let s := i32 (tv_sec (runTime c)) in
    mret (rsp +:+ snprintf 128 (print_d (Z.quot s 3600) +:+ " hours " +:+
      print_d (Z.quot (Z.rem s 3600) 60) +:+ " min " +:+ print_d (Z.rem s 60) +:+ " seconds"))
  else OnCtrl hooks cmdLine.

(** [AppConsoletHandler::OnDataRecv]: the response to a console datagram. *)
Definition OnDataRecv (ToString : timeval -> string) (data : bytes) : M W string :=
  line ← lift (cstr (data ++ [0]));
  sCMDLine ← lift (SplitCMDLine line " ");
  Ctrl ToString sCMDLine.

(** [App::Poll]; [Loop] is the console driver's. *)
Definition Poll (Loop : M W unit) (iRecommendPollNum : Z) : M W Z :=
  Loop;; OnPoll hooks iRecommendPollNum.

Definition Closing (reason : Z) : M W Z := OnClosing hooks reason.

(** [App::Tick]. *)
Definition Tick (usappend : timeval -> Z -> timeval) (lElapseUsTime : Z) : M W Z :=
  on_actx (fun c => c <| runTime := usappend (runTime c) lElapseUsTime |>);;
  OnTick hooks lElapseUsTime.

(** [App::OnCoreDump]: the loop of the crash handler. *)
Fixpoint OnCoreDump (fuel : nat) : M W bool :=
  match fuel with
  | O => mret false
  | S fuel =>
      r ← Closing APP_CTRL_CLOSING_COREDUMP;
      if 0 <? r then OnCoreDump fuel else mret true
  end.

(** [App::Start]. *)
Definition Start : M W Z :=
  ret ← OnStart hooks;
  if negb (ret =? 0) then mret (-1) else mret 0.

(** The loop of [App::main]: [env k] is what signals and the clock do before the
    [k]-th round. The result is whether the loop was left within the fuel. *)
Fixpoint main_loop (fuel : nat) (Loop : M W unit) (env : nat -> M W unit) : M W bool :=
  match fuel with
  | O => mret false
  | S fuel =>
      env fuel;;
      c ← gets actx;
      if closing c =? 0 then
        Poll Loop (tickPollCount c);;
        main_loop fuel Loop env
      else
        proc ← Closing (closing c);
        if proc <=? 0 then mret true else main_loop fuel Loop env
  end.

End App.

Arguments AppHooks : clear implicits.

(** The hooks of [App] itself, which a derived class may leave as they are. *)
Definition default_hooks (W : Type) : AppHooks W :=
  mkAppHooks (mret 0) (mret 0) (fun _ => mret "not support !") (fun _ => mret 0) (fun _ => mret 0)
    (fun _ => mret 0) (mret 0).

(** ** Properties of the console *)

(** The maximal runs of characters other than the space. *)
Fixpoint words_of (s cur : string) : list string :=
  match s with
  | EmptyString => if String.eqb cur "" then [] else [cur]
  | String c r =>
      if Ascii.eqb c " " then (if String.eqb cur "" then [] else [cur]) ++ words_of r ""
      else words_of r (cur +:+ String c "")
  end.

Definition spaceless (s : string) : Prop := free_of " " s.

Lemma prefix_space_ne c s : c <> " "%char -> String.prefix " " (String c s) = false.
Proof. intros Hc. unfold String.prefix. destruct (ascii_dec " " c); [congruence|done]. Qed.

Lemma prefix_space s : String.prefix " " (String " " s) = true.
Proof. unfold String.prefix. destruct (ascii_dec " " " "); [|done]. by destruct s. Qed.

Lemma find_space a s :
  spaceless a -> find_sub " " (a +:+ String " " s) = Some (String.length a).
Proof.
  induction a as [|c a IH]; intros Ha.
  - change ("" +:+ String " " s) with (String " " s). cbn [find_sub]. by rewrite prefix_space.
  - apply not_elem_of_cons in Ha as [Hc Ha]. rewrite app_cons_str. cbn [find_sub].
    rewrite prefix_space_ne by (by intros ->). by rewrite IH.
Qed.

Lemma substring_prefix a s : String.substring 0 (String.length a) (a +:+ s) = a.
Proof.
  induction a as [|c a IH]; [by destruct s|]. rewrite app_cons_str. simpl. by rewrite IH.
Qed.

Lemma substring_suffix a s n : (String.length s <= n)%nat ->
  String.substring (String.length a) n (a +:+ s) = s.
Proof.
  intros Hn. induction a as [|c a IH]; [by apply substring_all|].
  rewrite app_cons_str. simpl. exact IH.
Qed.

Lemma words_of_space a b cur :
  spaceless a -> words_of (a +:+ String " " b) cur =
    (if String.eqb (cur +:+ a) "" then [] else [cur +:+ a]) ++ words_of b "".
Proof.
  revert cur. induction a as [|c a IH]; intros cur Ha.
  - rewrite app_nil_str. change ("" +:+ String " " b) with (String " " b). done.
  - apply not_elem_of_cons in Ha as [Hc Ha]. rewrite app_cons_str. cbn [words_of].
    destruct (Ascii.eqb_spec c " ") as [->|]; [done|]. rewrite IH by done.
    by rewrite app_assoc_str.
Qed.

Lemma words_of_spaceless a cur :
  spaceless a -> words_of a cur = if String.eqb (cur +:+ a) "" then [] else [cur +:+ a].
Proof.
  revert cur. induction a as [|c a IH]; intros cur Ha; [by rewrite app_nil_str|].
  apply not_elem_of_cons in Ha as [Hc Ha]. cbn [words_of].
  destruct (Ascii.eqb_spec c " ") as [->|]; [done|]. rewrite IH by done. by rewrite app_assoc_str.
Qed.

(** The first word and what follows the space behind it. *)
Lemma first_space s : spaceless s \/ exists a b, s = a +:+ String " " b /\ spaceless a.
Proof.
  induction s as [|c s IH]; [left; apply not_elem_of_nil|].
  destruct (ascii_dec c " ") as [->|Hc].
  - right. exists "", s. split; [done|apply not_elem_of_nil].
  - destruct IH as [IH|(a & b & -> & Ha)].
    + left. apply not_elem_of_cons. split; [|done]. intros E. apply Hc.
      rewrite <- (of_byte_of c), <- E. done.
    + right. exists (String c a), b. rewrite app_cons_str. split; [done|].
      apply not_elem_of_cons. split; [|done]. intros E. apply Hc.
      rewrite <- (of_byte_of c), <- E. done.
Qed.

Lemma split_step fuel a b acc :
  spaceless a ->
  split_loop (S fuel) " " (a +:+ String " " b) acc =
  split_loop fuel " " b (acc ++ if String.eqb a "" then [] else [a]).
Proof.
  intros Ha. cbn [split_loop]. unfold strlen. rewrite length_app_str.
  destruct (Z.ltb_spec 0 (Z.of_nat (String.length a + String.length (String " " b)))); [|simpl in *; lia].
  rewrite find_space, substring_prefix by done. f_equal.
  - replace (String.length a + String.length " ")%nat with (String.length (a +:+ " "))
      by (by rewrite length_app_str).
    replace (a +:+ String " " b) with ((a +:+ " ") +:+ b) by (by rewrite app_assoc_str).
    apply substring_suffix. simpl. lia.
  - destruct a as [|c a]; [by rewrite app_nil_r|].
    assert (String.eqb (String c a) " " = false) as ->; [|done].
    apply String.eqb_neq. intros [= -> ->]. apply Ha. left.
Qed.

Lemma split_loop_words fuel s acc :
  (String.length s < fuel)%nat ->
  split_loop (S fuel) " " (s +:+ " ") acc = Some (acc ++ words_of s "").
Proof.
  revert s acc. induction fuel as [|fuel IH]; intros s acc Hf; [lia|].
  destruct (first_space s) as [Hs|(a & b & -> & Ha)].
  - rewrite split_step by done. cbn [split_loop].
    rewrite words_of_spaceless by done. done.
  - rewrite app_assoc_str, app_cons_str, split_step by done.
    rewrite length_app_str in Hf. simpl in Hf. rewrite IH by lia.
    rewrite words_of_space by done. by rewrite app_assoc.
Qed.

(** Splitting a console line at spaces terminates and gives exactly the
    words of the line, the maximal runs of other characters, in order. *)
Theorem SplitCMDLine_words line : SplitCMDLine line " " = Some (words_of line "").
Proof.
  unfold SplitCMDLine. rewrite length_app_str. simpl (String.length " ").
  replace (S (String.length line + 1)) with (S (S (String.length line))) by lia.
  by rewrite split_loop_words by lia.
Qed.

Section console_facts.
Context {I : IniLib} {W : Type} (actx : W -> AppContext) (put_actx : AppContext -> W -> W).
Context (hooks : AppHooks W).

(** A console datagram without a word, such as an empty one, makes
    [Ctrl] read the first element of an empty vector, whatever the state. *)
Theorem console_blank_undefined ToString n w :
  OnDataRecv actx put_actx hooks ToString (replicate n 32) w = None.
Proof.
  unfold OnDataRecv, mbind, M_bind.
  assert (exists s, cstr (replicate n 32 ++ [0]) = Some s /\ words_of s "" = []) as (s & -> & Hs).
  { induction n as [|n (s & Es & Hs)]; [by exists ""|]. exists (String " " s).
    simpl. rewrite Es. split; [done|]. exact Hs. }
  cbn [lift]. unfold mret, M_ret. change (SplitCMDLine s " ") with (SplitCMDLine s " ").
  assert (SplitCMDLine s " " = Some []) as ->; [|done].
  unfold SplitCMDLine. rewrite length_app_str. simpl (String.length " ").
  replace (S (String.length s + 1)) with (S (S (String.length s))) by lia.
  rewrite split_loop_words by lia. by rewrite Hs.
Qed.

End console_facts.
