(* ===== verification/AppMain.v ===== *)
(** * Start-up and shutdown of a process ([app/App.hpp], [app/App.cpp])

    [App::main] reads the command line, initialises the context and the
    framework (log, lock file, signals, console, channels, timers), starts the
    application, runs its loop and destroys it. The base library (files, log,
    UDP sockets) is outside the repository: a class of operations with laws
    where a theorem needs them; channels, timers and the context are programs
    given as arguments, modelled in their own files. *)

From S2P Require Import Prelude CString Extern Config ConfigCenter TimerMgr.
From S2P Require Import AppContext App.

(** ** The base library *)

(** [File] of the base library: one object, the lock file. *)
Class FileLib := {
  fstate : Type;
  File_Exist : string -> fstate -> bool;
  File_Open : string -> string -> M fstate Z;
  File_Close : M fstate unit;
  File_Unlock : M fstate unit;
  File_Seek : M fstate unit;
  File_GetLine : Z -> M fstate bytes;
  File_Write : bytes -> M fstate Z;
  File_Flush : M fstate unit
}.

Definition total {S A} (m : M S A) : Prop := forall s, is_Some (m s).

(** The calls return, and [GetLine] leaves a terminated string in its buffer. *)
Class FileTotal `{FileLib} : Prop := {
  Open_total : forall p m, total (File_Open p m);
  Close_total : total File_Close;
  Unlock_total : total File_Unlock;
  Seek_total : total File_Seek;
  GetLine_total : forall n s, exists b s' l, File_GetLine n s = Some (b, s') /\ cstr b = Some l;
  Write_total : forall b, total (File_Write b);
  Flush_total : total File_Flush
}.

(** What the files hold, and which one is open at which offset, for paths the
    process may read and write. *)
Class FileLaws `{FileLib} (content : fstate -> string -> option bytes)
    (cursor : fstate -> option (string * nat)) : Prop := {
  Exist_content : forall p f, File_Exist p f = bool_decide (is_Some (content f p));
  Open_new : forall p f, content f p = None ->
    wp (File_Open p "w+") (fun _ f' => content f' p = Some []) f;
  Close_content : forall p f, wp File_Close (fun _ f' => content f' p = content f p) f;
  Open_old : forall p f b, content f p = Some b ->
    wp (File_Open p "r+") (fun r f' => r = 0 /\ content f' p = Some b /\ cursor f' = Some (p, O)) f;
  Seek_content : forall p f n, cursor f = Some (p, n) ->
    wp File_Seek (fun _ f' => content f' p = content f p /\ cursor f' = Some (p, O)) f;
  GetLine_content : forall p f s rest n,
    cursor f = Some (p, O) -> content f p = Some (of_str s ++ 0 :: rest) ->
    no_nul s -> 10 ∉ of_str s -> strlen s < n ->
    wp (File_GetLine n) (fun b f' => cstr b = Some s /\ content f' p = content f p /\
      exists k, cursor f' = Some (p, k)) f;
  Write_content : forall p f old b,
    cursor f = Some (p, O) -> content f p = Some old ->
    wp (File_Write b) (fun _ f' => content f' p = Some (b ++ drop (length b) old)) f;
  Flush_content : forall p f, wp File_Flush (fun _ f' => content f' p = content f p) f
}.

(** ** The state of the framework *)

(** What the process does on a signal. *)
Inductive Disposition := SIG_DFL | SIG_IGN | ON_SIGNAL | ON_COREDUMP.
Record Dispositions := mkDispositions {
  d_pipe : Disposition; d_term : Disposition; d_usr1 : Disposition; d_usr2 : Disposition;
  d_segv : Disposition
}.
#[global] Instance eta_Dispositions : Eta Dispositions := fun r =>
  mkDispositions (d_pipe r) (d_term r) (d_usr1 r) (d_usr2 r) (d_segv r).
Definition all_default : Dispositions := mkDispositions SIG_DFL SIG_DFL SIG_DFL SIG_DFL SIG_DFL.

(** [m_consoleDrv]: the sockets it polls; its handler is the console's. *)
Record Console := mkConsole { drv_size : Z; drv_handler : bool; drv_socks : list Z }.
#[global] Instance eta_Console : Eta Console := fun r => mkConsole (drv_size r) (drv_handler r) (drv_socks r).

(** The arguments of [Log::Init]. *)
Record LogConfig := mkLogConfig { log_file : string; log_level : Z; log_size : Z; log_num : Z }.

(** The UDP socket of the console: the result of [Init] and the descriptor, and
    that of [Bind] to a port and an address. *)
Class UdpLib := { udp_Init : Z * Z; udp_Bind : Z -> string -> Z }.

(** The parts of the process that are modelled elsewhere. *)
Record AppParts (W : Type) := mkAppParts {
  ctx_Init : string -> M W Z;
  ctx_GenerateDefaultConfig : string -> M W Z;
  proxy_Init : M W Z;
  proxy_Destroy : M W unit;
  timer_Init : Z -> M W Z;
  timer_GetCurTime : M W timeval;
  timer_Destroy : M W unit;
  console_Loop : M W unit;
  between : nat -> M W unit
}.
Arguments ctx_Init {W}.
Arguments ctx_GenerateDefaultConfig {W}.
Arguments proxy_Init {W}.
Arguments proxy_Destroy {W}.
Arguments timer_Init {W}.
Arguments timer_GetCurTime {W}.
Arguments timer_Destroy {W}.
Arguments console_Loop {W}.
Arguments between {W}.

Section AppMain.
Context {I : IniLib} {F : FileLib} {U : UdpLib}.
Context {W : Type} (actx : W -> AppContext) (put_actx : AppContext -> W -> W).
Context (hooks : AppHooks W) (parts : AppParts W).
(** [getpid()]. *)
Context (pid : Z).

Record AppState := mkAppState {
  world : W;                          (* the context, the application and its parts *)
  m_pAppCtx : bool;                   (* whether the pointer to the context is set *)
  m_lockFile : fstate;
  m_consoleDrv : Console;
  logger : option LogConfig;
  disps : Dispositions;
  killed : list (Signal * Z);         (* the signals sent to other processes *)
  daemonised : bool
}.
#[global] Instance eta_AppState : Eta AppState := fun r =>
  mkAppState (world r) (m_pAppCtx r) (m_lockFile r) (m_consoleDrv r) (logger r) (disps r)
    (killed r) (daemonised r).

Definition on_world {A} (m : M W A) : M AppState A := zoom world (fun w s => s <| world := w |>) m.
Definition on_file {A} (m : M fstate A) : M AppState A := zoom m_lockFile (fun f s => s <| m_lockFile := f |>) m.
Definition get_ctx : M AppState AppContext := gets (fun s => actx (world s)).
Definition on_conf {A} (m : M IniConfigParser A) : M AppState A :=
  on_world (zoom (fun w => parser (actx w)) (fun p w => put_actx (actx w <| parser := p |>) w) m).
Definition SendProcessSignal (sig : Signal) (p : Z) : M AppState unit :=
  modify (fun s => s <| killed ::= fun l => l ++ [(sig, p)] |>).

(** [App::InitLog]: a string is never a null pointer. *)
Definition InitLog : M AppState Z :=
  sLogFileName ← on_conf (Config.GetConfigString "log_file" None);
  logFileSize ← on_conf (Config.GetConfigInt "log_file_size" 1024);
  maxLogFileNum ← on_conf (Config.GetConfigInt "log_max_file_num" 20);
  loglevel ← on_conf (Config.GetConfigInt "log_min_level" 2);
  modify (fun s => s <| logger := Some (mkLogConfig sLogFileName loglevel logFileSize maxLogFileNum) |>);;
  mret 0.

(** The end of [App::InitLockFile]: the process writes its number. *)
Definition write_pid : M AppState Z :=
  on_file File_Seek;;
  on_file (File_Write (of_str (print_d (u32 pid)) ++ [0]));;
  on_file File_Flush;;
  mret 0.

(** A lock file that does not exist is created first. *)
Definition touch_lock (path : string) (existFile : bool) : M AppState unit :=
  if existFile then mret tt
  else on_file (File_Open path "w+");; on_file File_Close.

(** [App::InitLockFile]. The buffer holds a terminated string where [strlen] is
    defined, so that the byte written at its end changes nothing. *)
Definition InitLockFile (forStop : bool) : M AppState Z :=
  c ← get_ctx;
  if uniq_process c =? 0 then mret 0 else
  let path := lockFilePath c in
  existFile ← gets (fun s => File_Exist path (m_lockFile s));
  touch_lock path existFile;;
  ret ← on_file (File_Open path "r+");
  if negb (ret =? 0) then mret (-1) else
  if (existFile : bool) then
    on_file File_Seek;;
    pidBuffer ← on_file (File_GetLine 64);
    line ← lift (cstr pidBuffer);
    if strlen line =? 0 then on_file File_Close;; mret (-1)
    else if negb forStop then SendProcessSignal SIGUSR1 (atoi line);; write_pid
    else SendProcessSignal SIGUSR2 (atoi line);; mret (-1)
  else write_pid.

(** [App::InitSignal]. *)
Definition InitSignal : M AppState unit :=
  c ← get_ctx;
  modify (fun s => s <| disps ::= fun d =>
    d <| d_pipe := SIG_IGN |> <| d_term := SIG_IGN |> <| d_usr1 := ON_SIGNAL |> <| d_usr2 := ON_SIGNAL |> |>);;
  if negb (hook_coredump c =? 0)
  then modify (fun s => s <| disps ::= fun d => d <| d_segv := ON_COREDUMP |> |>)
  else mret tt.

(** [App::InitConsole]. *)
Definition InitConsole : M AppState Z :=
  sConsoleIP ← on_conf (Config.GetConfigString "console:ip" None);
  console_port ← on_conf (Config.GetConfigInt "console:port" 0);
  modify (fun s => s <| m_consoleDrv := mkConsole 10 true [] |>);;
  if negb (fst udp_Init =? 0) then mret (-1) else
  if negb (udp_Bind console_port sConsoleIP =? 0) then mret (-1) else
  modify (fun s => s <| m_consoleDrv ::= fun d => d <| drv_socks ::= fun l => l ++ [snd udp_Init] |> |>);;
  mret 0.

(** [App::UpdateTick], the callback of the timer manager. *)
Definition UpdateTick (usappend : timeval -> Z -> timeval) (tvNow : timeval) (lElapseTime : Z) : M AppState unit :=
  set ← gets m_pAppCtx;
  if (set : bool) then
    on_world (modify (fun w => put_actx (actx w <| curTime := tvNow |>) w));;
    on_world (Tick actx put_actx hooks usappend lElapseTime);; mret tt
  else mret tt.

(** [App::Init]. *)
Definition Init (forStop : bool) : M AppState Z :=
  modify (fun s => s <| m_pAppCtx := true |>);;
  r ← InitLog;
  if negb (r =? 0) then mret (-1) else
  r ← InitLockFile forStop;
  if negb (r =? 0) then mret (-1) else
  InitSignal;;
  r ← InitConsole;
  if negb (r =? 0) then mret (-1) else
  r ← on_world (proxy_Init parts);
  if negb (r =? 0) then mret (-1) else
  c ← get_ctx;
  r ← on_world (timer_Init parts (tickCountUs c));
  if negb (r =? 0) then mret (-1) else
  now ← on_world (timer_GetCurTime parts);
  on_world (modify (fun w => put_actx (actx w <| curTime := now |>) w));;
  r ← on_world (OnInit hooks);
  if negb (r =? 0) then mret (-1) else mret 0.

(** [App::Destroy]. *)
Definition Destroy : M AppState Z :=
  ret ← on_world (OnDestroy hooks);
  modify (fun s => s <| m_pAppCtx := false |>);;
  on_file File_Unlock;;
  on_file File_Close;;
  on_world (timer_Destroy parts);;
  on_world (proxy_Destroy parts);;
  modify (fun s => s <| m_consoleDrv := mkConsole 0 false [] |>);;
  mret ret.

(** The third argument of the command line: whether it is for stopping. *)
Definition parse_option (rest : list string) : option bool :=
  match rest with
  | [] => Some false
  | a :: _ =>
      if String.eqb a "stop" then Some true
      else if String.eqb a "restart" then Some true
      else None
  end.

(** [App::main] from the start on; [None] is a loop that has not ended within
    the fuel. *)
Definition main_run (fuel : nat) : M AppState (option Z) :=
  on_world (modify (fun w => put_actx (actx w <| closing := 0 |>) w));;
  r ← on_world (Start hooks);
  fin ← (if r =? 0 then on_world (main_loop actx hooks fuel (console_Loop parts) (between parts)) else mret true);
  if (fin : bool) then r ← Destroy; mret (Some r) else mret None.

(** [App::main]; without a program name there is no argument to read. *)
Definition main (fuel : nat) (argv : list string) : M AppState (option Z) :=
  match argv with
  | [] => crash
  | [prog] => on_world (ctx_GenerateDefaultConfig parts prog);; mret (Some (-1))
  | _ :: conf :: rest =>
      match parse_option rest with
      | None => mret (Some (-1))
      | Some forStop =>
          r ← on_world (ctx_Init parts conf);
          if negb (r =? 0) then mret (Some (-1)) else
          c ← get_ctx;
          (if negb (daemon c =? 0) then modify (fun s => s <| daemonised := true |>) else mret tt);;
          r ← Init forStop;
          if negb (r =? 0) then Destroy;; mret (Some (-1))
          else main_run fuel
      end
  end.

(** ** Signals *)

Inductive Signo := S_PIPE | S_TERM | S_USR1 | S_USR2 | S_SEGV.
Definition disposition (d : Dispositions) (s : Signo) : Disposition :=
  match s with
  | S_PIPE => d_pipe d | S_TERM => d_term d | S_USR1 => d_usr1 d | S_USR2 => d_usr2 d
  | S_SEGV => d_segv d
  end.
Definition app_signal (s : Signo) : Signal :=
  match s with S_USR1 => SIGUSR1 | S_USR2 => SIGUSR2 | _ => SIGOTHER end.

(** [OnSignalCoreDump]: the application closes, then the process raises the
    signal again with its default action. *)
Definition OnSignalCoreDump (fuel : nat) : M AppState bool :=
  on_world (OnCoreDump hooks fuel);;
  modify (fun s => s <| disps ::= fun d => d <| d_segv := SIG_DFL |> |>);;
  mret false.

(** A signal arrives: whether the process survives it. *)
Definition deliver (fuel : nat) (s : Signo) : M AppState bool :=
  d ← gets (fun st => disposition (disps st) s);
  match d with
  | SIG_DFL => mret false
  | SIG_IGN => mret true
  | ON_SIGNAL => on_world (OnSignal actx put_actx (app_signal s));; mret true
  | ON_COREDUMP => OnSignalCoreDump fuel
  end.

End AppMain.

(** ** Programs that return *)

Lemma wp_total {S A} (m : M S A) (Q : A -> S -> Prop) s :
  total m -> (forall a s', m s = Some (a, s') -> Q a s') -> wp m Q s.
Proof. intros Hm HQ. destruct (Hm s) as [[a s'] E]. unfold wp. rewrite E. by apply HQ. Qed.

Section total.
Context {S : Type}.
Lemma total_ret {A} (a : A) : total (mret a : M S A).
Proof. intros s. eauto. Qed.
Lemma total_gets {A} (g : S -> A) : total (gets g).
Proof. intros s. unfold gets. eauto. Qed.
Lemma total_modify (g : S -> S) : total (modify g).
Proof. intros s. unfold modify. eauto. Qed.
Lemma total_bind {A B} (m : M S A) (k : A -> M S B) :
  total m -> (forall a, total (k a)) -> total (m ≫= k).
Proof. intros Hm Hk s. destruct (Hm s) as [[a s'] E]. unfold mbind, M_bind. rewrite E. apply Hk. Qed.
Lemma total_zoom {T A} (get : T -> S) put (m : M S A) : total m -> total (zoom get put m).
Proof. intros Hm t. unfold zoom. destruct (Hm (get t)) as [[a s'] ->]. eauto. Qed.
Lemma wp_quiet {A T} (f : S -> T) (m : M S A) (Q : A -> S -> Prop) s :
  total m -> keeps f m -> (forall a s', f s' = f s -> Q a s') -> wp m Q s.
Proof. intros Hm Hk HQ. apply wp_total; [done|]. intros a s' E. apply HQ. by apply Hk in E. Qed.
End total.

Create HintDb total.
#[export] Hint Resolve total_ret total_gets total_modify : total.
#[export] Hint Resolve Open_total Close_total Unlock_total Seek_total Write_total Flush_total : total.

Ltac total_step :=
  first
    [ solve [eauto 3 with total nocore]
    | apply total_bind; [|intros ?]
    | lazymatch goal with
      | |- total (match ?x with _ => _ end) => destruct x
      | |- total (if ?x then _ else _) => destruct x
      end ].
Ltac total_auto := repeat (total_step; cbv beta zeta).

(** The context inside the state of a derived class. *)
Class CtxLens {I : IniLib} {W : Type} (actx : W -> AppContext) (put_actx : AppContext -> W -> W) : Prop := {
  get_put : forall c w, actx (put_actx c w) = c;
  put_get : forall w, put_actx (actx w) w = w
}.

Section parts_of_init.
Context {I : IniLib} {F : FileLib} {U : UdpLib}.
Context {W : Type} (actx : W -> AppContext) (put_actx : AppContext -> W -> W) `{!CtxLens actx put_actx}.
Abbreviation AState := (@AppState F W).

Lemma wp_on_world {A} (m : M W A) Q (s : AState) :
  wp m (fun a w => Q a (s <| world := w |>)) (world s) -> wp (on_world m) Q s.
Proof. unfold on_world. intros Hm. by apply wp_zoom. Qed.

Lemma wp_on_file {A} (m : M fstate A) Q (s : AState) :
  wp m (fun a f => Q a (s <| m_lockFile := f |>)) (m_lockFile s) -> wp (on_file m) Q s.
Proof. unfold on_file. intros Hm. by apply wp_zoom. Qed.

(** Reading the configuration leaves the state as it is. *)
Lemma wp_on_conf_read {A} (m : M IniConfigParser A) v Q (s : AState) :
  m (parser (actx (world s))) = Some (v, parser (actx (world s))) -> Q v s ->
  wp (on_conf actx put_actx m) Q s.
Proof.
  intros E HQ. unfold on_conf. apply wp_on_world, wp_zoom. unfold wp. rewrite E.
  replace (actx (world s) <| parser := parser (actx (world s)) |>) with (actx (world s))
    by (by destruct (actx (world s))).
  rewrite put_get. by destruct s.
Qed.

Definition configured (s : AState) : Prop := is_Some (ini_dic (parser (actx (world s)))).

Lemma wp_GetConfigString k d Q (s : AState) :
  configured s -> (forall v, Q v s) -> wp (on_conf actx put_actx (Config.GetConfigString k d)) Q s.
Proof.
  intros [dic E] HQ. eapply wp_on_conf_read; [|apply HQ].
  unfold Config.GetConfigString, mbind, M_bind, gets, lift. by rewrite E.
Qed.

Lemma wp_GetConfigInt k d Q (s : AState) :
  configured s -> (forall v, Q v s) -> wp (on_conf actx put_actx (Config.GetConfigInt k d)) Q s.
Proof.
  intros [dic E] HQ. eapply wp_on_conf_read; [|apply HQ].
  unfold Config.GetConfigInt, mbind, M_bind, gets, lift. by rewrite E.
Qed.

(** With a configuration the log is set up, and nothing else changes. *)
Lemma wp_InitLog Q (s : AState) :
  configured s -> (forall l, Q 0 (s <| logger := Some l |>)) -> wp (InitLog actx put_actx) Q s.
Proof.
  intros Hc HQ. unfold InitLog.
  apply wp_bind, wp_GetConfigString; [done|]. intros v1.
  apply wp_bind, wp_GetConfigInt; [done|]. intros v2.
  apply wp_bind, wp_GetConfigInt; [done|]. intros v3.
  apply wp_bind, wp_GetConfigInt; [done|]. intros v4.
  by wp_steps.
Qed.

Lemma wp_InitConsole (Q : Z -> AState -> Prop) (s : AState) :
  configured s -> (forall r d, Q r (s <| m_consoleDrv := d |>)) -> wp (InitConsole actx put_actx) Q s.
Proof.
  intros Hc HQ. unfold InitConsole.
  apply wp_bind, wp_GetConfigString; [done|]. intros v1.
  apply wp_bind, wp_GetConfigInt; [done|]. intros v2.
  apply wp_bind, wp_modify. do 2 (case_match; [apply wp_ret, HQ|]).
  apply wp_bind, wp_modify, wp_ret. apply HQ.
Qed.

Lemma wp_InitSignal (Q : unit -> AState -> Prop) (s : AState) :
  (forall d, Q tt (s <| disps := d |>)) -> wp (InitSignal actx) Q s.
Proof.
  intros HQ. unfold InitSignal, get_ctx. apply wp_bind, wp_gets, wp_bind, wp_modify.
  case_match; [apply wp_modify|apply wp_ret]; apply HQ.
Qed.

(** The lock file returns whatever the files hold, and leaves the application
    alone. *)
Lemma total_on_file {A} (m : M fstate A) : total m -> total (on_file m : M AState A).
Proof. apply total_zoom. Qed.
Lemma total_on_world {A} (m : M W A) : total m -> total (on_world m : M AState A).
Proof. apply total_zoom. Qed.
Hint Resolve total_on_file total_on_world : total.

Lemma total_GetLine `{!FileTotal} {A} n (k : string -> M AState A) :
  (forall l, total (k l)) -> total (b ← on_file (File_GetLine n); l ← lift (cstr b); k l).
Proof.
  intros Hk s. destruct (GetLine_total n (m_lockFile s)) as (b & f & l & E & El).
  unfold mbind, M_bind, on_file, zoom. rewrite E, El. apply Hk.
Qed.

Lemma InitLockFile_total `{!FileTotal} pid forStop : total (InitLockFile actx pid forStop).
Proof.
  unfold InitLockFile, touch_lock, write_pid, get_ctx, SendProcessSignal.
  repeat (first [apply total_GetLine; intros ? | total_step]; cbv beta zeta).
Qed.

Lemma keeps_on_file {A} (m : M fstate A) : keeps world (on_file m : M AState A).
Proof. intros s a s'. unfold on_file, zoom. destruct (m _) as [[]|]; [|done]. by intros [= _ <-]. Qed.
Hint Resolve keeps_on_file : keeps.

Lemma InitLockFile_keeps pid forStop : keeps world (InitLockFile (W:=W) actx pid forStop).
Proof. unfold InitLockFile, touch_lock, write_pid, get_ctx, SendProcessSignal. keeps_auto. Qed.

End parts_of_init.
