(* ===== verification/AppLifecycle.v ===== *)
(** * What a process does from its start to its end

    The lock file hands the service over from one process to the next, the
    option of the command line stops the one that runs, and the hooks of an
    application are called in the order of their life cycle. *)

From S2P Require Import Prelude CString Extern Config ConfigCenter TimerMgr.
From S2P Require Import AppContext App AppMain.

(** ** The lock file *)

Section lock_file.
Context {I : IniLib} `{FL : FileLaws content cursor} {U : UdpLib}.
Context {W : Type} (actx : W -> AppContext) (put_actx : AppContext -> W -> W) `{!CtxLens actx put_actx}.
Abbreviation AState := (@AppState H W).
Implicit Types s : AState.

Definition lock_path (s : AState) : string := lockFilePath (actx (world s)).

(** The lock file begins with the number of process [p]. *)
Definition names (f : fstate) (path : string) (p : Z) : Prop :=
  exists rest, content f path = Some (of_str (print_d p) ++ 0 :: rest).

Lemma print_d_no_nul p : no_nul (print_d p).
Proof. apply not_in_num; [apply all_num_print_d|lia]. Qed.

Lemma wp_write_pid pid path old n s :
  0 <= pid < 2 ^ 31 -> cursor (m_lockFile s) = Some (path, n) -> content (m_lockFile s) path = Some old ->
  wp (write_pid (W:=W) pid) (fun r s' => r = 0 /\
    exists f, s' = s <| m_lockFile := f |> /\ names f path pid) s.
Proof.
  intros Hp Hcur Hc. unfold write_pid.
  apply wp_bind, wp_on_file. eapply wp_mono; [by eapply Seek_content|]. intros ? f1 [E1 Hcur1].
  apply wp_bind, wp_on_file. eapply wp_mono; [eapply Write_content; [done|by rewrite <- Hc]|].
  intros ? f2 E2. apply wp_bind, wp_on_file. eapply wp_mono; [apply (Flush_content path)|].
  intros ? f3 E3. apply wp_ret. split; [done|]. exists f3. split; [by destruct s|].
  simpl in E3. rewrite E2, u32_small, <- app_assoc in E3 by lia. by eexists.
Qed.

(** A first start finds no lock file: it creates it and writes its number. *)
Lemma wp_first_start pid forStop s :
  uniq_process (actx (world s)) <> 0 -> 0 <= pid < 2 ^ 31 ->
  content (m_lockFile s) (lock_path s) = None ->
  wp (InitLockFile actx pid forStop) (fun r s' => r = 0 /\
    exists f, s' = s <| m_lockFile := f |> /\ names f (lock_path s) pid) s.
Proof.
  intros Hu Hp Hc. unfold InitLockFile, get_ctx. apply wp_bind, wp_gets.
  destruct (Z.eqb_spec (uniq_process (actx (world s))) 0); [done|]. cbv zeta. fold (lock_path s).
  apply wp_bind, wp_gets. rewrite Exist_content, Hc. simpl (bool_decide _). unfold touch_lock.
  apply wp_bind, wp_bind, wp_on_file. eapply wp_mono; [by apply Open_new|]. intros ? f1 E1.
  apply wp_on_file. eapply wp_mono; [apply (Close_content (lock_path s))|]. intros ? f2 E2.
  apply wp_bind, wp_on_file. eapply wp_mono; [eapply Open_old; rewrite <- E1; exact E2|].
  intros ? f3 (-> & E3 & C3). simpl (negb _). cbv match.
  eapply wp_mono; [by eapply wp_write_pid|]. intros r s' (-> & f & -> & Hn). split; [done|].
  exists f. split; [by destruct s|done].
Qed.

(** A later start signals the process the lock file names; a start that is not
    for stopping puts its own number there. *)
Lemma wp_later_start pid forStop p s :
  uniq_process (actx (world s)) <> 0 -> 0 <= pid < 2 ^ 31 -> 0 <= p < 2 ^ 31 ->
  names (m_lockFile s) (lock_path s) p ->
  wp (InitLockFile actx pid forStop) (fun r s' => r = (if forStop then -1 else 0) /\
    exists f, s' = s <| m_lockFile := f |> <| killed ::= fun l => l ++ [(if forStop then SIGUSR2 else SIGUSR1, p)] |> /\
      names f (lock_path s) (if forStop then p else pid)) s.
Proof.
  intros Hu Hpid Hp [rest Hc]. unfold InitLockFile, get_ctx. apply wp_bind, wp_gets.
  destruct (Z.eqb_spec (uniq_process (actx (world s))) 0); [done|]. cbv zeta. fold (lock_path s).
  apply wp_bind, wp_gets. rewrite Exist_content, Hc. simpl (bool_decide _). unfold touch_lock.
  apply wp_bind, wp_ret. apply wp_bind, wp_on_file. eapply wp_mono; [by eapply Open_old|].
  intros ? f1 (-> & E1 & C1). simpl (negb _). cbv match.
  apply wp_bind, wp_on_file. eapply wp_mono; [by eapply Seek_content|]. intros ? f2 [E2 C2].
  apply wp_bind, wp_on_file. eapply wp_mono; [eapply GetLine_content; [exact C2|simpl in *; rewrite E2; exact E1| | |]|].
  { apply print_d_no_nul. }
  { apply not_in_num; [apply all_num_print_d|lia]. }
  { unfold strlen. pose proof (length_print_d p). lia. }
  intros buf f3 (Eb & E3 & k & C3). apply wp_bind. eapply wp_lift; [done|].
  destruct (Z.eqb_spec (strlen (print_d p)) 0) as [E0|].
  { by pose proof (print_d_nonempty p); destruct (print_d p). }
  rewrite atoi_print_d by lia. simpl in E2, E3.
  destruct forStop; simpl (negb _); cbv match; apply wp_bind, wp_modify.
  - apply wp_ret. split; [done|]. exists f3. split; [by destruct s|]. exists rest.
    by rewrite E3, E2, E1.
  - eapply wp_mono; [eapply wp_write_pid; [done|done|simpl; by rewrite E3, E2, E1]|].
    intros r s' (-> & f & -> & Hn). split; [done|]. exists f. split; [by destruct s|done].
Qed.

(** Processes that start one after the other with the same lock file. *)
Fixpoint start_all (pids : list Z) : M AState (list Z) :=
  match pids with
  | [] => mret []
  | q :: qs => r ← InitLockFile actx q false; rs ← start_all qs; mret (r :: rs)
  end.

Lemma wp_start_all qs q s :
  uniq_process (actx (world s)) <> 0 -> Forall (fun q => 0 <= q < 2 ^ 31) (q :: qs) ->
  names (m_lockFile s) (lock_path s) q ->
  wp (start_all qs) (fun rs s' => Forall (.= 0) rs /\
    killed s' = killed s ++ map (SIGUSR1,.) (removelast (q :: qs)) /\
    names (m_lockFile s') (lock_path s) (List.last (q :: qs) 0)) s.
Proof.
  revert q s. induction qs as [|q' qs IH]; intros q s Hu Hall Hn; cbn [start_all].
  - apply wp_ret. by rewrite app_nil_r.
  - apply Forall_cons in Hall as [Hq Hall]. pose proof (proj1 (Forall_cons_1 _ _ _ Hall)).
    apply wp_bind. eapply wp_mono; [by apply (wp_later_start q' false q)|].
    intros r s' (-> & f & -> & Hn'). apply wp_bind. eapply wp_mono; [by apply (IH q')|].
    intros rs s' (Hrs & Hk & Hl). apply wp_ret. split_and!; [by constructor| |].
    + rewrite Hk. simpl (killed _). by rewrite <- app_assoc.
    + exact Hl.
Qed.

(** C32. The lock file hands the service over. Processes that run [InitLockFile]
    one after the other, with [uniq_process] set, writable files and no lock file
    at first: every call returns 0, each process asks exactly the one that ran it
    before to close, in order, and the lock file names the last. The rest of
    [App::Init] is not part of it: a console whose address the old process still
    holds makes the start fail after the hand-over. *)
Theorem lock_handover q qs s :
  uniq_process (actx (world s)) <> 0 -> Forall (fun q => 0 <= q < 2 ^ 31) (q :: qs) ->
  content (m_lockFile s) (lock_path s) = None ->
  exists rs s', start_all (q :: qs) s = Some (rs, s') /\ Forall (.= 0) rs /\
    killed s' = killed s ++ map (SIGUSR1,.) (removelast (q :: qs)) /\
    names (m_lockFile s') (lock_path s) (List.last (q :: qs) 0).
Proof.
  intros Hu Hall Hc. apply wp_run. cbn [start_all]. apply wp_bind.
  eapply wp_mono; [apply wp_first_start; [done|by apply Forall_cons in Hall as []|done]|].
  intros r s' (-> & f & -> & Hn). apply wp_bind. eapply wp_mono; [by apply (wp_start_all qs q)|].
  intros rs s' (Hrs & Hk & Hl). apply wp_ret. split_and!; [by constructor|done|done].
Qed.

End lock_file.

(** ** The command line *)

Lemma bind_ext_run {S A B} (m : M S A) (f g : A -> M S B) s :
  (forall a s', m s = Some (a, s') -> f a s' = g a s') -> (m ≫= f) s = (m ≫= g) s.
Proof. unfold mbind, M_bind. intros Hfg. destruct (m s) as [[a s']|]; [by apply Hfg|done]. Qed.

Lemma bind_same_run {S A B} (m m' : M S A) (f : A -> M S B) s :
  m s = m' s -> (m ≫= f) s = (m' ≫= f) s.
Proof. unfold mbind, M_bind. by intros ->. Qed.

Section command_line.
Context {I : IniLib} `{FL : FileLaws content cursor} `{!FileTotal} {U : UdpLib}.
Context {W : Type} (actx : W -> AppContext) (put_actx : AppContext -> W -> W) `{!CtxLens actx put_actx}.
Context (hooks : AppHooks W) (parts : AppParts W) (pid : Z).
Abbreviation AState := (@AppState H W).
Implicit Types s : AState.

Lemma wp_Destroy w2 w3 w4 d s :
  OnDestroy hooks (world s) = Some (d, w2) -> timer_Destroy parts w2 = Some (tt, w3) ->
  proxy_Destroy parts w3 = Some (tt, w4) ->
  wp (Destroy hooks parts) (fun r s' => r = d /\ killed s' = killed s /\ world s' = w4 /\ m_pAppCtx s' = false) s.
Proof.
  intros E2 E3 E4. unfold Destroy. apply wp_bind, wp_on_world. unfold wp at 1. rewrite E2.
  apply wp_bind, wp_modify. apply wp_bind, wp_on_file, wp_total; [apply Unlock_total|]. intros ? f1 _.
  apply wp_bind, wp_on_file, wp_total; [apply Close_total|]. intros ? f2 _.
  apply wp_bind, wp_on_world. simpl. unfold wp at 1. rewrite E3.
  apply wp_bind, wp_on_world. simpl. unfold wp at 1. rewrite E4. by wp_steps.
Qed.

(** With a third argument [stop], and just as well with [restart], the process
    asks the one the lock file names to stop, tears itself down and ends: the
    application is neither initialised nor started, and no process takes over. *)
Theorem restart_only_stops fuel prog conf o p s w1 w2 w3 w4 d :
  o = "stop" \/ o = "restart" ->
  ctx_Init parts conf (world s) = Some (0, w1) ->
  uniq_process (actx w1) <> 0 -> is_Some (ini_dic (parser (actx w1))) ->
  0 <= pid < 2 ^ 31 -> 0 <= p < 2 ^ 31 ->
  names (content:=content) (m_lockFile s) (lockFilePath (actx w1)) p ->
  OnDestroy hooks w1 = Some (d, w2) -> timer_Destroy parts w2 = Some (tt, w3) ->
  proxy_Destroy parts w3 = Some (tt, w4) ->
  exists s', main actx put_actx hooks parts pid fuel [prog; conf; o] s = Some (Some (-1), s') /\
    killed s' = killed s ++ [(SIGUSR2, p)] /\ world s' = w4 /\ m_pAppCtx s' = false.
Proof.
  intros Ho E1 Hu Hd Hpid Hp Hn E2 E3 E4. apply wp_run_ret.
  assert (parse_option [o] = Some true) as Hopt by (by destruct Ho as [-> | ->]).
  unfold main. rewrite Hopt. apply wp_bind, wp_on_world. unfold wp at 1. rewrite E1. simpl (negb _). cbv match.
  apply wp_bind, wp_gets.
  apply wp_bind, (wp_mono _ (fun _ s1 => world s1 = w1 /\ m_lockFile s1 = m_lockFile s /\ killed s1 = killed s)).
  { case_match; by wp_steps. }
  intros _ s1 (Ew & Ef & Ek). apply wp_bind. unfold Init. apply wp_bind, wp_modify.
  apply wp_bind. apply wp_InitLog; [done|unfold configured; simpl; by rewrite Ew|]. intros l. simpl (negb _). cbv match.
  apply wp_bind. eapply wp_mono.
  { apply (wp_later_start actx pid true p); unfold lock_path; simpl; rewrite ?Ew, ?Ef; done. }
  intros r s2 (-> & f & -> & _). simpl (negb _). cbv match. apply wp_ret. simpl (negb _). cbv match.
  apply wp_bind. eapply wp_mono; [eapply wp_Destroy; [simpl; rewrite Ew| |]; done|].
  intros r s3 (_ & Ek' & Ew' & Ec). apply wp_ret. rewrite Ek', <- Ek. done.
Qed.

Lemma InitLockFile_absent forStop forStop' s :
  File_Exist (lockFilePath (actx (world s))) (m_lockFile s) = false ->
  InitLockFile actx pid forStop s = InitLockFile actx pid forStop' s.
Proof.
  intros Hx. unfold InitLockFile. apply bind_ext_run. unfold get_ctx, gets. intros c s0 [= <- <-].
  destruct (_ =? _); [done|]. apply bind_ext_run. rewrite Hx. by intros ? ? [= <- <-].
Qed.

Lemma InitLog_run s r s' :
  InitLog actx put_actx s = Some (r, s') -> world s' = world s /\ m_lockFile s' = m_lockFile s.
Proof.
  destruct (ini_dic (parser (actx (world s)))) as [dic|] eqn:E.
  - intros Hr. refine (wp_elim _ (fun _ s' => world s' = world s /\ m_lockFile s' = m_lockFile s) _ _ _ _ Hr).
    apply wp_InitLog; [done|by eexists|done].
  - unfold InitLog, on_conf, on_world, zoom, Config.GetConfigString, mbind, M_bind, gets. by rewrite E.
Qed.

(** With no lock file, [stop] and [restart] start the server, exactly as no
    option does. *)
Theorem stop_without_lock_starts fuel prog conf o s :
  o = "stop" \/ o = "restart" ->
  (forall w1, ctx_Init parts conf (world s) = Some (0, w1) ->
    File_Exist (lockFilePath (actx w1)) (m_lockFile s) = false) ->
  main actx put_actx hooks parts pid fuel [prog; conf; o] s =
  main actx put_actx hooks parts pid fuel [prog; conf] s.
Proof.
  intros Ho Hx. assert (parse_option [o] = Some true) as Hopt by (by destruct Ho as [-> | ->]).
  unfold main. rewrite Hopt. change (parse_option []) with (Some false). cbv match.
  apply bind_ext_run. intros r s1. unfold on_world, zoom at 1.
  destruct (ctx_Init parts conf (world s)) as [[r1 w1]|]; [|done]. intros [= <- <-].
  destruct (Z.eqb_spec r1 0) as [->|]; [|done]. simpl (negb _). cbv match.
  apply bind_ext_run. unfold get_ctx, gets. intros c ? [= <- <-].
  apply bind_ext_run. intros [] s2 E2.
  assert (world s2 = w1 /\ m_lockFile s2 = m_lockFile s) as [Ew Ef].
  { revert E2. by destruct (negb _); intros [= <-]. }
  apply bind_same_run.
  unfold Init. apply bind_ext_run. unfold modify at 1. intros ? s3 [= <- <-].
  apply bind_ext_run. intros r2 s4 EL. destruct (InitLog_run _ _ _ EL) as [E4 F4].
  destruct (negb (r2 =? 0)); [done|].
  apply bind_same_run, InitLockFile_absent. rewrite E4, F4. simpl. rewrite Ew, Ef. by apply Hx.
Qed.

End command_line.

(** ** The life cycle of an application *)

(** A call of a hook, with its result. *)
Inductive Event := EInit (r : Z) | EStart (r : Z) | EPoll (r : Z) | EClosing (r : Z) | EDestroy (r : Z).

(** The calls of a running loop: polls, and closings that are not over. *)
Inductive Running : list Event -> Prop :=
  | run_nil : Running []
  | run_poll r l : Running l -> Running (EPoll r :: l)
  | run_busy r l : 0 < r -> Running l -> Running (EClosing r :: l).

(** The calls of a process from its start to its end. *)
Inductive Lifecycle : list Event -> Prop :=
  | lc_nothing : Lifecycle []
  | lc_refused r : Lifecycle [EDestroy r]
  | lc_not_initialised a r : a <> 0 -> Lifecycle [EInit a; EDestroy r]
  | lc_not_started a r : a <> 0 -> Lifecycle [EInit 0; EStart a; EDestroy r]
  | lc_served l c r : Running l -> c <= 0 ->
      Lifecycle (EInit 0 :: EStart 0 :: l ++ [EClosing c; EDestroy r]).

Create HintDb lifecycle.
#[local] Hint Constructors Running Lifecycle : lifecycle.

Section lifecycle.
Context {I : IniLib} {F : FileLib} `{!FileTotal} {U : UdpLib}.
Context {W : Type} (actx : W -> AppContext) (put_actx : AppContext -> W -> W) `{!CtxLens actx put_actx}.
Abbreviation LW := (W * list Event)%type.

Definition actx_l (p : LW) : AppContext := actx (fst p).
Definition put_actx_l (c : AppContext) (p : LW) : LW := (put_actx c (fst p), snd p).
#[export] Instance lens_l : CtxLens actx_l put_actx_l.
Proof.
  split; unfold actx_l, put_actx_l; [intros c w; simpl; by rewrite get_put|].
  intros [w l]. simpl. by rewrite put_get.
Qed.

(** A program of the application beside the log of calls, and a call that is
    logged with its result. *)
Definition quietly {A} (m : M W A) : M LW A := zoom fst (fun w p => (w, snd p)) m.
Definition note (e : Z -> Event) (m : M W Z) : M LW Z :=
  r ← quietly m; modify (fun p => (fst p, snd p ++ [e r]));; mret r.

Definition logged (h : AppHooks W) : AppHooks LW :=
  mkAppHooks (note EInit (OnInit h)) (note EStart (OnStart h)) (fun l => quietly (OnCtrl h l))
    (fun z => quietly (OnTick h z)) (fun z => note EPoll (OnPoll h z))
    (fun z => note EClosing (OnClosing h z)) (note EDestroy (OnDestroy h)).

Definition quiet_parts (q : AppParts W) : AppParts LW :=
  mkAppParts LW (fun f => quietly (ctx_Init q f)) (fun f => quietly (ctx_GenerateDefaultConfig q f))
    (quietly (proxy_Init q)) (quietly (proxy_Destroy q)) (fun t => quietly (timer_Init q t))
    (quietly (timer_GetCurTime q)) (quietly (timer_Destroy q)) (quietly (console_Loop q))
    (fun k => quietly (between q k)).

(** Every hook and every part returns. *)
Record hooks_total (h : AppHooks W) : Prop := {
  t_init : total (OnInit h); t_start : total (OnStart h); t_poll : forall z, total (OnPoll h z);
  t_closing : forall z, total (OnClosing h z); t_destroy : total (OnDestroy h)
}.
Record parts_total (q : AppParts W) : Prop := {
  t_ctx : forall f, total (ctx_Init q f); t_default : forall f, total (ctx_GenerateDefaultConfig q f);
  t_proxy : total (proxy_Init q); t_proxy_d : total (proxy_Destroy q);
  t_timer : forall t, total (timer_Init q t); t_now : total (timer_GetCurTime q);
  t_timer_d : total (timer_Destroy q); t_loop : total (console_Loop q);
  t_between : forall k, total (between q k);
  (* a context that reports success has read a configuration *)
  t_loads : forall f w w', ctx_Init q f w = Some (0, w') -> is_Some (ini_dic (parser (actx w')))
}.

Lemma wp_quietly {A} (m : M W A) (Q : A -> LW -> Prop) p :
  total m -> (forall a w, Q a (w, snd p)) -> wp (quietly m) Q p.
Proof. intros Hm HQ. apply wp_zoom, wp_total; [done|]. intros. apply HQ. Qed.

Lemma wp_note e (m : M W Z) (Q : Z -> LW -> Prop) p :
  total m -> (forall a w, Q a (w, snd p ++ [e a])) -> wp (note e m) Q p.
Proof. intros Hm HQ. apply wp_bind, wp_quietly; [done|]. intros a w. wp_steps. apply HQ. Qed.

Context (h : AppHooks W) (q : AppParts W) (pid : Z).
Hypothesis (Hh : hooks_total h) (Hq : parts_total q).

Lemma wp_main_loop fuel p :
  wp (main_loop actx_l (logged h) fuel (quietly (console_Loop q)) (fun k => quietly (between q k)))
    (fun b p' => exists l, snd p' = snd p ++ l /\
      if b : bool then exists l' c, l = l' ++ [EClosing c] /\ Running l' /\ c <= 0 else Running l) p.
Proof.
  revert p. induction fuel as [|fuel IH]; intros p; cbn [main_loop].
  { apply wp_ret. exists []. rewrite app_nil_r. auto with lifecycle. }
  apply wp_bind, wp_quietly; [by apply t_between|]. intros [] w1. apply wp_bind, wp_gets.
  destruct (_ =? 0).
  - apply wp_bind. unfold Poll. apply wp_bind, wp_quietly; [by apply t_loop|]. intros [] w2.
    apply wp_note; [by apply t_poll|]. intros r w3. eapply wp_mono; [apply IH|].
    intros b p' (l & E & Hb). exists (EPoll r :: l). rewrite E. simpl (snd _). rewrite <- app_assoc.
    split; [done|]. destruct b; [|auto with lifecycle].
    destruct Hb as (l' & c & -> & Hr & Hc). exists (EPoll r :: l'), c. auto with lifecycle.
  - apply wp_bind. apply wp_note; [by apply t_closing|]. intros r w3.
    destruct (Z.leb_spec r 0).
    { apply wp_ret. exists [EClosing r]. split; [done|]. exists [], r. auto with lifecycle. }
    eapply wp_mono; [apply IH|].
    intros b p' (l & E & Hb). exists (EClosing r :: l). rewrite E. simpl (snd _). rewrite <- app_assoc.
    split; [done|]. destruct b; [|auto with lifecycle].
    destruct Hb as (l' & c & -> & Hr & Hc). exists (EClosing r :: l'), c. auto with lifecycle.
Qed.

Abbreviation St := (@AppState F LW).
Definition calls (s : St) : list Event := snd (world s).

Lemma wp_Destroy_calls (s : St) :
  wp (Destroy (logged h) (quiet_parts q)) (fun r s' => calls s' = calls s ++ [EDestroy r]) s.
Proof.
  unfold Destroy. apply wp_bind, wp_on_world, wp_note; [by apply t_destroy|]. intros r w1.
  apply wp_bind, wp_modify. apply wp_bind, wp_on_file, wp_total; [apply Unlock_total|]. intros ? f1 _.
  apply wp_bind, wp_on_file, wp_total; [apply Close_total|]. intros ? f2 _.
  apply wp_bind, wp_on_world, wp_quietly; [by apply t_timer_d|]. intros ? w2.
  apply wp_bind, wp_on_world, wp_quietly; [by apply t_proxy_d|]. intros ? w3. by wp_steps.
Qed.

Lemma wp_Init_calls forStop (s : St) :
  configured actx_l s ->
  wp (Init actx_l put_actx_l (logged h) (quiet_parts q) pid forStop) (fun r s' =>
    r = 0 /\ calls s' = calls s ++ [EInit 0] \/
    r = -1 /\ (calls s' = calls s \/ exists a, a <> 0 /\ calls s' = calls s ++ [EInit a])) s.
Proof.
  intros Hc. unfold Init. apply wp_bind, wp_modify.
  apply wp_bind. apply wp_InitLog; [apply _|done|]. intros l. simpl (negb _). cbv match.
  apply wp_bind. apply (wp_quiet world); [by apply InitLockFile_total|by apply InitLockFile_keeps|].
  intros r s1 E1. simpl in E1. unfold calls at 2 4 6. rewrite <- E1.
  destruct (negb _); [apply wp_ret; auto|].
  apply wp_bind. apply wp_InitSignal. intros d.
  apply wp_bind. apply wp_InitConsole; [apply _|unfold configured; simpl; by rewrite E1|]. intros r' d'.
  destruct (negb _); [apply wp_ret; auto|].
  apply wp_bind, wp_on_world, wp_quietly; [by apply t_proxy|]. intros r2 w2.
  destruct (negb _); [apply wp_ret; auto|].
  apply wp_bind, wp_gets, wp_bind, wp_on_world, wp_quietly; [by apply t_timer|]. intros r3 w3.
  destruct (negb _); [apply wp_ret; auto|].
  apply wp_bind, wp_on_world, wp_quietly; [by apply t_now|]. intros now w4.
  apply wp_bind, wp_on_world, wp_modify. apply wp_bind, wp_on_world, wp_note; [by apply t_init|].
  intros r5 w5. destruct (Z.eqb_spec r5 0) as [->|Hr]; simpl (negb _); cbv match; apply wp_ret; [by left|].
  right. split; [done|]. right. by exists r5.
Qed.

Lemma wp_main_run_calls fuel (s : St) :
  wp (main_run actx_l put_actx_l (logged h) (quiet_parts q) fuel) (fun r s' => exists l,
    calls s' = calls s ++ l /\
    match r with Some _ => Lifecycle (EInit 0 :: l) | None => exists l', l = EStart 0 :: l' /\ Running l' end) s.
Proof.
  unfold main_run. apply wp_bind, wp_on_world, wp_modify. apply wp_bind, wp_on_world. unfold Start.
  apply wp_bind, wp_note; [by apply t_start|]. intros r w1.
  destruct (Z.eqb_spec r 0) as [->|Hr]; simpl (negb _); cbv match; apply wp_ret; simpl (_ =? _); cbv match.
  - apply wp_bind, wp_on_world. eapply wp_mono; [apply wp_main_loop|]. intros [] p' (l & E & Hb).
    + destruct Hb as (l' & c & -> & Hr & Hc). apply wp_bind. eapply wp_mono; [apply wp_Destroy_calls|].
      intros d s2 E2. apply wp_ret. unfold calls in *. simpl in E, E2. rewrite E in E2.
      exists (EStart 0 :: l' ++ [EClosing c; EDestroy d]). rewrite E2. split; [|by constructor].
      by rewrite <- !app_assoc.
    + apply wp_ret. unfold calls in *. simpl in E |- *. rewrite E. exists (EStart 0 :: l).
      rewrite <- app_assoc. eauto.
  - apply wp_bind, wp_ret, wp_bind. eapply wp_mono; [apply wp_Destroy_calls|].
    intros d s2 E2. apply wp_ret. unfold calls in *. rewrite E2. exists [EStart r; EDestroy d]. simpl.
    rewrite <- app_assoc. split; [done|by constructor].
Qed.

(** C23. Every run of a process calls the hooks of the application in the order of
    its life cycle: started only when it was initialised, polled and closed only
    when it was started, closed until it reports the end, and destroyed exactly
    once and last; a process that is still in its loop has been initialised and
    started once and only polled or closed since. *)
Theorem main_lifecycle fuel argv (s : St) :
  argv <> [] ->
  exists r s' l, main actx_l put_actx_l (logged h) (quiet_parts q) pid fuel argv s = Some (r, s') /\
    calls s' = calls s ++ l /\
    match r with Some _ => Lifecycle l | None => exists l', l = EInit 0 :: EStart 0 :: l' /\ Running l' end.
Proof.
  intros Ha. enough (wp (main actx_l put_actx_l (logged h) (quiet_parts q) pid fuel argv) (fun r s' => exists l,
    calls s' = calls s ++ l /\ match r with Some _ => Lifecycle l
      | None => exists l', l = EInit 0 :: EStart 0 :: l' /\ Running l' end) s) as Hw.
  { apply wp_run in Hw as (r & s' & E & l & Hl). eauto. }
  assert (forall s' : St, calls s' = calls s -> exists l, calls s' = calls s ++ l /\ Lifecycle l) as Hnil.
  { intros s' E. exists []. rewrite app_nil_r. auto with lifecycle. }
  unfold main. destruct argv as [|prog [|conf rest]]; [done| |].
  { apply wp_bind, wp_on_world, wp_quietly; [by apply t_default|]. intros. by apply wp_ret, Hnil. }
  destruct (parse_option rest) as [fs|]; [|by apply wp_ret, Hnil].
  apply wp_bind, wp_on_world, wp_zoom. simpl. apply wp_total; [by apply t_ctx|]. intros r w1 E1.
  destruct (Z.eqb_spec r 0) as [->|]; simpl (negb _); cbv match; [|by apply wp_ret, Hnil].
  apply wp_bind, wp_gets. apply wp_bind, (wp_mono _ (fun _ s1 => world s1 = (w1, calls s))).
  { case_match; by wp_steps. }
  intros [] s1 Ew. assert (calls s1 = calls s) as Ec by (unfold calls; by rewrite Ew).
  apply wp_bind. eapply wp_mono.
  { apply wp_Init_calls. unfold configured, actx_l. rewrite Ew. by eapply (t_loads _ Hq). }
  intros r s2 [[-> E2]|[-> E2]]; simpl (negb _); cbv match.
  - eapply wp_mono; [apply wp_main_run_calls|]. intros r s3 (l & E3 & Hl). exists (EInit 0 :: l).
    rewrite E3, E2, Ec, <- app_assoc. split; [done|]. destruct r; [done|]. destruct Hl as (l' & -> & ?). eauto.
  - apply wp_bind. eapply wp_mono; [apply wp_Destroy_calls|]. intros d s3 E3. apply wp_ret.
    destruct E2 as [E2|(a & Ha' & E2)]; rewrite E3, E2, Ec, <- ?app_assoc;
      eexists; (split; [reflexivity|]); by constructor.
Qed.

End lifecycle.

(** ** Signals *)

Section signals.
Context {I : IniLib} {F : FileLib} {U : UdpLib}.
Context {W : Type} (actx : W -> AppContext) (put_actx : AppContext -> W -> W) `{!CtxLens actx put_actx}.
Context (hooks : AppHooks W).
Abbreviation AState := (@AppState F W).

Definition reason_of (s : Signo) : Z :=
  match s with
  | S_USR1 => APP_CTRL_CLOSING_RESTART
  | S_USR2 => APP_CTRL_CLOSING_STOP
  | _ => 0
  end.

Fixpoint deliver_all (fuel : nat) (l : list Signo) : M AState bool :=
  match l with
  | [] => mret true
  | g :: l => alive ← deliver actx put_actx hooks fuel g; if (alive : bool) then deliver_all fuel l else mret false
  end.

(** The reason recorded before a signal, or else that of the first one that
    asks the process to close. *)
Definition first_reason (c : Z) (l : list Signo) : Z :=
  foldl (fun c g => if c =? 0 then reason_of g else c) c l.

Definition hooked (s : AState) : Prop :=
  d_pipe (disps s) = SIG_IGN /\ d_term (disps s) = SIG_IGN /\
  d_usr1 (disps s) = ON_SIGNAL /\ d_usr2 (disps s) = ON_SIGNAL.

Lemma wp_deliver fuel g (s : AState) :
  hooked s -> g <> S_SEGV ->
  wp (deliver actx put_actx hooks fuel g) (fun b s' => b = true /\ hooked s' /\
    closing (actx (world s')) = if closing (actx (world s)) =? 0 then reason_of g else closing (actx (world s))) s.
Proof.
  intros (Hp & Ht & H1 & H2) Hg. unfold deliver. apply wp_bind, wp_gets.
  destruct g; simpl; rewrite ?Hp, ?Ht, ?H1, ?H2; try done;
    try (apply wp_ret; split_and!; try done; by destruct (Z.eqb_spec (closing (actx (world s))) 0)).
  all: apply wp_bind, wp_on_world; unfold OnSignal, app_signal; apply wp_bind; unfold Shutdown;
    apply wp_bind, wp_gets; destruct (Z.eqb_spec (closing (actx (world s))) 0) as [E|E];
    [apply wp_bind; unfold on_actx; apply wp_modify|]; do 3 apply wp_ret;
    (split_and!; [done|done|]); simpl; rewrite ?get_put; done.
Qed.

(** Once the signals are hooked, whatever terminations, broken pipes and user
    signals arrive, the process survives them, and the reason it closes with is
    that of the first user signal: a later one changes nothing. *)
Theorem first_signal_wins fuel l (s : AState) :
  hooked s -> S_SEGV ∉ l ->
  exists s', deliver_all fuel l s = Some (true, s') /\
    closing (actx (world s')) = first_reason (closing (actx (world s))) l.
Proof.
  revert s. induction l as [|g l IH]; intros s Hh Hl; cbn [deliver_all]; [by eexists|].
  apply not_elem_of_cons in Hl as [Hg Hl].
  destruct (wp_run _ _ _ (wp_deliver fuel g s Hh ltac:(congruence))) as (b & s1 & E1 & -> & Hh1 & Hc1).
  rewrite (bind_run _ _ _ _ _ E1). destruct (IH s1 Hh1 Hl) as (s' & E & Hc).
  exists s'. split; [done|]. rewrite Hc. simpl. by rewrite Hc1.
Qed.

End signals.

(** ** A reference file and runs *)

Module LifecycleWitness.

(** Files by path, and the file that is open with its offset. *)
Record Files := mkFiles { f_data : gmap string bytes; f_open : option (string * nat) }.
#[global] Instance eta_Files : Eta Files := fun r => mkFiles (f_data r) (f_open r).

(** The bytes of a line that fit in [n], terminated. *)
Fixpoint line_of (b : bytes) (n : nat) : bytes :=
  match n, b with
  | S n, c :: b => if c =? 10 then [c] else c :: line_of b n
  | _, _ => []
  end.

#[export] Instance files : FileLib := {
  fstate := Files;
  File_Exist p f := bool_decide (is_Some (f_data f !! p));
  File_Open p m f :=
    if String.eqb m "w+" then Some (0, mkFiles (<[p := []]> (f_data f)) (Some (p, O)))
    else match f_data f !! p with
         | Some _ => Some (0, f <| f_open := Some (p, O) |>)
         | None => Some (-1, f)
         end;
  File_Close f := Some (tt, f <| f_open := None |>);
  File_Unlock f := Some (tt, f);
  File_Seek f := Some (tt, f <| f_open ::= fmap (fun c => (fst c, O)) |>);
  File_GetLine n f :=
    match f_open f with
    | Some (p, k) =>
        let l := line_of (drop k (default [] (f_data f !! p))) (Z.to_nat (n - 1)) in
        Some (l ++ [0], f <| f_open := Some (p, k + length l)%nat |>)
    | None => Some ([0], f)
    end;
  File_Write b f :=
    match f_open f with
    | Some (p, k) =>
        let old := default [] (f_data f !! p) in
        Some (Z.of_nat (length b),
          mkFiles (<[p := take k old ++ b ++ drop (k + length b) old]> (f_data f)) (Some (p, k + length b)%nat))
    | None => Some (-1, f)
    end;
  File_Flush f := Some (tt, f)
}.

Lemma cstr_terminated b : is_Some (cstr (b ++ [0])).
Proof. induction b as [|c b [l E]]; simpl; [by eexists|]. destruct (c =? 0); [by eexists|]. rewrite E. by eexists. Qed.

#[export] Instance files_total : FileTotal.
Proof.
  split; try (intros; intro; simpl; by eexists).
  - intros p m f. simpl. repeat case_match; by eexists.
  - intros n f. simpl. destruct (f_open f) as [[p k]|]; [|by do 3 eexists].
    destruct (cstr_terminated (line_of (drop k (default [] (f_data f !! p))) (Z.to_nat (n - 1)))) as [l E].
    by do 3 eexists.
  - intros b f. simpl. repeat case_match; by eexists.
Qed.

Lemma line_of_str s rest n :
  10 ∉ of_str s -> no_nul s -> (String.length s <= n)%nat ->
  exists t, line_of (of_str s ++ 0 :: rest) n ++ [0] = of_str s ++ 0 :: t.
Proof.
  revert n. induction s as [|c s IH]; intros n H10 H0 Hn.
  - destruct n as [|n]; simpl; [by exists []|]. by eexists.
  - destruct n as [|n]; simpl in *; [lia|]. apply not_elem_of_cons in H10 as [Hc H10].
    apply not_elem_of_cons in H0 as [Hc0 H0]. destruct (Z.eqb_spec (byte_of c) 10); [congruence|].
    destruct (IH n H10 H0 ltac:(lia)) as [t E]. exists t. simpl. by rewrite E.
Qed.

#[export] Instance files_laws : FileLaws (fun f p => f_data f !! p) f_open.
Proof.
  split; unfold wp; simpl; try done.
  - intros p f _. by rewrite lookup_insert_eq.
  - intros p f b E. by rewrite E.
  - intros p f n E. rewrite E. done.
  - intros p f s rest n E Ec H0 H10 Hn. rewrite E, Ec. simpl.
    destruct (line_of_str s rest (Z.to_nat (n - 1)) H10 H0) as [t Et]; [unfold strlen in Hn; lia|].
    rewrite drop_0, Et. split; [by apply cstr_of_str|]. split; [done|]. by eexists.
  - intros p f old b E Ec. rewrite E, Ec. simpl. by rewrite lookup_insert_eq.
Qed.

Import ConfigWitness.

(** A context as its only state, and hooks that close at once. *)
Definition ctx_with (path : string) (c : Z) : AppContext :=
  mkAppContext (mkIni (CV "" "" []) (Some ∅)) "" "" "" [] 100 1 (mkTimeval 0 0) 1 path 0 0 c
    (mkTimeval 0 0) (mkCCAddr "" 0 0).
Definition put_ctx (c : AppContext) (_ : AppContext) : AppContext := c.
#[export] Instance lens_ctx : CtxLens (fun c => c) put_ctx.
Proof. by split. Qed.

Definition done_hooks : AppHooks AppContext := default_hooks AppContext.

(** The second round finds the process asked to close. *)
Definition simple_parts : AppParts AppContext :=
  mkAppParts AppContext (fun f => modify (fun _ => ctx_with f 0);; mret 0) (fun _ => mret 0) (mret 0) (mret tt)
    (fun _ => mret 0) (mret (mkTimeval 5 0)) (mret tt) (mret tt)
    (fun k => if (k <? 2)%nat then modify (fun c => c <| closing := 2 |>) else mret tt).

#[export] Instance udp : UdpLib := { udp_Init := (0, 4); udp_Bind _ _ := 0 }.

Definition state_of {W} (w : W) (f : Files) : AppState :=
  mkAppState (F:=files) w false f (mkConsole 0 false []) None all_default [] false.
Definition running (p : Z) : Files := mkFiles {["lock" := of_str (print_d p) ++ [0]]} None.

(** Three processes start one after the other. *)
Lemma lock_handover_witness :
  exists rs s', start_all (fun c => c) [101; 7; 2003] (state_of (ctx_with "lock" 0) (mkFiles ∅ None)) = Some (rs, s') /\
    killed s' = [(SIGUSR1, 101); (SIGUSR1, 7)].
Proof.
  destruct (lock_handover (fun c => c) 101 [7; 2003] (state_of (ctx_with "lock" 0) (mkFiles ∅ None)))
    as (rs & s' & E & _ & Hk & _); [done|repeat constructor; lia|done|].
  exists rs, s'. split; [exact E|exact Hk].
Defined.

Lemma restart_only_stops_witness :
  exists s', main (fun c => c) put_ctx done_hooks simple_parts 9 3 ["srv"; "lock"; "restart"]
      (state_of (ctx_with "" 0) (running 101)) = Some (Some (-1), s') /\
    killed s' = [(SIGUSR2, 101)].
Proof.
  destruct (restart_only_stops (H:=files) (content:=fun f p => f_data f !! p) (cursor:=f_open) (fun c => c) put_ctx
    done_hooks simple_parts 9 3 "srv" "lock" "restart" 101
    (state_of (ctx_with "" 0) (running 101)) (ctx_with "lock" 0) (ctx_with "lock" 0) (ctx_with "lock" 0)
    (ctx_with "lock" 0) 0) as (s' & E & Hk & _);
    [by right|done|done|by eexists|lia|lia|by exists []|done|done|done|].
  exists s'. split; [exact E|exact Hk].
Defined.

Lemma stop_without_lock_starts_witness :
  main (fun c => c) put_ctx done_hooks simple_parts 9 3 ["srv"; "lock"; "stop"]
    (state_of (ctx_with "" 0) (mkFiles ∅ None)) =
  main (fun c => c) put_ctx done_hooks simple_parts 9 3 ["srv"; "lock"]
    (state_of (ctx_with "" 0) (mkFiles ∅ None)).
Proof.
  apply (stop_without_lock_starts (fun c => c) put_ctx); [by left|]. by intros w1 [= <-].
Defined.

Lemma done_hooks_total : hooks_total done_hooks.
Proof. split; intros; simpl; total_auto. Qed.
Lemma simple_parts_total : parts_total (fun c => c) simple_parts.
Proof.
  split; intros; simpl in *; total_auto.
  match goal with E : _ = Some (0, _) |- _ => injection E as <- end. by eexists.
Qed.

Lemma main_lifecycle_witness :
  exists s', main (actx_l (fun c => c)) (put_actx_l put_ctx) (logged done_hooks) (quiet_parts simple_parts) 9 3
      ["srv"; "lock"] (state_of (ctx_with "" 0, []) (mkFiles ∅ None)) = Some (Some 0, s') /\
    calls s' = [EInit 0; EStart 0; EPoll 0; EClosing 0; EDestroy 0] /\ Lifecycle (calls s').
Proof.
  destruct (main_lifecycle (fun c => c) put_ctx done_hooks simple_parts 9 done_hooks_total simple_parts_total
    3 ["srv"; "lock"] (state_of (ctx_with "" 0, []) (mkFiles ∅ None))) as (r & s' & l & E & Ec & Hl); [done|].
  assert (match main (actx_l (fun c => c)) (put_actx_l put_ctx) (logged done_hooks) (quiet_parts simple_parts) 9 3
      ["srv"; "lock"] (state_of (ctx_with "" 0, []) (mkFiles ∅ None)) with
    | Some (r0, s0) => (r0, calls s0) | None => (None, []) end =
    (Some 0, [EInit 0; EStart 0; EPoll 0; EClosing 0; EDestroy 0])) as Hrun by (vm_compute; reflexivity).
  rewrite E in Hrun |- *. injection Hrun as -> Hrun.
  exists s'. split; [done|]. split; [done|]. change (calls s' = [] ++ l) in Ec. by rewrite Ec.
Defined.

Lemma first_signal_wins_witness :
  exists s', deliver_all (fun c => c) put_ctx done_hooks 1 [S_TERM; S_USR2; S_USR1]
      (state_of (ctx_with "lock" 0) (running 5) <| disps := mkDispositions SIG_IGN SIG_IGN ON_SIGNAL ON_SIGNAL SIG_DFL |>)
      = Some (true, s') /\ closing (world s') = APP_CTRL_CLOSING_STOP.
Proof.
  destruct (first_signal_wins (fun c => c) put_ctx done_hooks 1 [S_TERM; S_USR2; S_USR1]
    (state_of (ctx_with "lock" 0) (running 5) <| disps := mkDispositions SIG_IGN SIG_IGN ON_SIGNAL ON_SIGNAL SIG_DFL |>))
    as (s' & E & Hc); [done|by (intros Hin; repeat (apply elem_of_cons in Hin as [Hin|Hin]; [done|]); by apply elem_of_nil in Hin)|].
  exists s'. split; [exact E|exact Hc].
Defined.

End LifecycleWitness.
