(* ===== verification/GateServer.v ===== *)
(** * The gate server process ([gate/GateServer.cpp], [gate/GateServerContext.cpp],
      [gate/GateConsoleHandler.cpp])

    The gate as an [App]: its configuration, its hooks and its shutdown. *)

From S2P Require Import Prelude CString Extern Config ConfigCenter TimerMgr.
From S2P Require Import AppContext Channel ChannelAgentMgr ChannelMsgProxy GateMsg GateServerHandler GateFraming.
From S2P Require Import GateAgentChannelMsgHandler GateInvariant App.

(** ** Configuration *)

(** [StringUtil::SplitNum(s, areas, 128, " ")] of the base library. *)
Class SplitNumLib := { SplitNum : string -> list Z }.

(** The defaults [OnGenerateDefaultConfig] adds. *)
Definition gate_default_kv : list (string * string) :=
  [("gate:ip", "127.0.0.1"); ("gate:port", "52100"); ("gate:max_clients", "50000");
   ("gate:test_mode", "1"); ("gate:need_auth", "0"); ("gate:agent:num", "1");
   ("gate:agent#1:channel", "1 "); ("gate:agent#1:areas", "1 2 3 4 5"); ("gate:connx_idle", "600");
   ("console:port", "52000"); ("channel:num", "1"); ("channel:local:addr", "tcp://127.0.0.1:52010");
   ("channel:local:name", "name://gate:1"); ("channel:info#1:name", "agent:1");
   ("channel:info#1:addr", "name://agent:1")].

Section GateServerContext.
Context {I : IniLib} {SN : SplitNumLib}.

(** [GateServerContext::OnGenerateDefaultConfig]. *)
Definition OnGenerateDefaultConfig : M IniConfigParser unit := create_all gate_default_kv.

(** The areas of one agent are entered in the map; an area that has a channel
    already is an error ([false]). *)
Fixpoint add_areas (areas : list Z) (chId : Z) (m : gmap Z Z) : bool * gmap Z Z :=
  match areas with
  | [] => (true, m)
  | a :: areas => match m !! u32 a with
                  | Some _ => (false, m)
                  | None => add_areas areas chId (<[u32 a := u32 chId]> m)
                  end
  end.

Definition agent_key (i : nat) (field : string) : string :=
  snprintf 64 ("gate:agent#" +:+ print_d (Z.of_nat i + 1) +:+ ":" +:+ field).

(** The loop over the agents: [n] are left; the result begins with [false] for
    the error returns. *)
Fixpoint load_agents (n i : nat) (m : gmap Z Z) (ids : list Z)
    : M IniConfigParser (bool * gmap Z Z * list Z) :=
  match n with
  | O => mret (true, m, ids)
  | S n =>
      chId ← Config.GetConfigInt (agent_key i "channel") 0;
      if bool_decide (chId ∈ ids) then mret (false, m, ids)
      else
        s ← Config.GetConfigString (agent_key i "areas") None;
        match add_areas (take 128 (SplitNum s)) chId m with
        | (false, m) => mret (false, m, ids)
        | (true, m) => load_agents n (S i) m (ids ++ [chId])
        end
  end.

(** [GateServerContext::OnInit] of a new context: the result, what the handler
    reads and the agents' channels. *)
Definition OnInit : M IniConfigParser (Z * GateCfg * list Z) :=
  iTestMode ← Config.GetConfigInt "gate:test_mode" 0;
  iNeedAuth ← Config.GetConfigInt "gate:need_auth" 0;
  nCount ← Config.GetConfigInt "gate:agent:num" 0;
  iIdle ← Config.GetConfigInt "gate:connx_idle" 0;
  '(ok, m, ids) ← load_agents (Z.to_nat nCount) 0 ∅ [];
  mret (if (ok : bool) then 0 else -1, mkGateCfg iTestMode iNeedAuth m iIdle, ids).

End GateServerContext.

(** ** [GateConsoleHandler] *)

Definition GateConsole_SplitCMDLine : string -> string -> option (list string) := SplitCMDLine.

Definition OnCMD (cmdLine : list string) : string :=
  match cmdLine with
  | [] => "not comannds !"
  | _ => foldl (fun r c => r +:+ "[" +:+ c +:+ "] ")
           (snprintf 32 ("echo:" +:+ print_d (Z.of_nat (length cmdLine)) +:+ String "010"%char "")) cmdLine
  end.

Definition GateConsole_OnDataRecv (data : bytes) : option string :=
  line ← cstr (data ++ [0]);
  cmds ← GateConsole_SplitCMDLine line " ";
  Some (OnCMD cmds).

(** ** The hooks *)

Section GateServer.
Context {I : IniLib} {P : Type} {MP : MsgProxy P}.
Context {B0 : BufferLib} {CSS : Codec GateSSMsg} {CCS : Codec GateCSMsg}.
Context (Send_ret : list NetEvt -> Z -> bytes -> Z) (peer : Z -> Z * Z).

(** The process: its context and the gate. *)
Record GateProc := mkGateProc { gp_ctx : AppContext; gp_gate : GateW P }.
#[global] Instance eta_GateProc : Eta GateProc := fun r => mkGateProc (gp_ctx r) (gp_gate r).
Definition put_ctx (c : AppContext) (w : GateProc) : GateProc := w <| gp_ctx := c |>.
Definition put_gate (g : GateW P) (w : GateProc) : GateProc := w <| gp_gate := g |>.
Definition on_gate {A} (m : M (GateW P) A) : M GateProc A := zoom gp_gate put_gate m.

(** [GateServer::OnInit]: [listen] is the result of [TcpServer::Init]; the
    handler is created for [max] clients and subscribed by [subscribe]. *)
Definition GateServer_OnInit (listen max : Z) (subscribe : M GateProc unit) : M GateProc Z :=
  if negb (listen =? 0) then mret (-1)
  else
    on_gate (modify (fun g => g <| handler := GateServerHandler_new (cfg g) max |>));;
    subscribe;;
    mret 0.

(** [GateServer::OnStart]: [start] is the result of [TcpServer::Start]. *)
Definition GateServer_OnStart (start : Z) : M GateProc Z :=
  if negb (start =? 0) then mret (-1) else mret 0.

(** [GateServer::OnCtrl]: [fmt num den] is the rendering of a quotient by
    [snprintf] with ["%.6f"]; the counters are divided by 1024 as integers in
    the speeds. *)
Definition GateServer_OnCtrl (fmt : Z -> Z -> string) (cmdLine : list string) : M GateProc string :=
  cmd ← lift (head cmdLine);
  w ← gets (fun w => w);
  let rs := i32 (tv_sec (runTime (gp_ctx w))) in
  let rs := if rs =? 0 then 1 else rs in
  let h := handler (gp_gate w) in
  let rsp := cmd +:+ ":" in
  if String.eqb cmd "downspeed" then mret (rsp +:+ fmt (downloadsize h / 1024) rs +:+ " KB/s")
  else if String.eqb cmd "upspeed" then mret (rsp +:+ fmt (uploadsize h / 1024) rs +:+ " KB/s")
  else if String.eqb cmd "downsize" then mret (rsp +:+ fmt (downloadsize h) (1024 * 1024) +:+ " MB")
  else if String.eqb cmd "upsize" then mret (rsp +:+ fmt (uploadsize h) (1024 * 1024) +:+ " MB")
  else if String.eqb cmd "downpkg" then mret (rsp +:+ fmt (downpkgs h) rs +:+ " MB")
  else if String.eqb cmd "uppkg" then mret (rsp +:+ fmt (uppkgs h) rs +:+ " MB")
  else if String.eqb cmd "qps" then mret (rsp +:+ fmt (reqpkgs h) rs +:+ " MB")
  else if String.eqb cmd "tps" then mret (rsp +:+ fmt (rsppkgs h) rs +:+ " MB")
  else mret (rsp +:+ "not supported !").

(** [GateServer::OnPoll]: the TCP server's loop and the channels' polling. *)
Definition GateServer_OnPoll (Loop : Z -> M GateProc Z) (PollChannels : M GateProc Z) (n : Z) : M GateProc Z :=
  iProcMsg ← Loop n;
  w ← gets (fun w => w);
  match channels (gp_ctx w) with
  | [] => mret iProcMsg
  | _ => r ← PollChannels; mret (Z.lor iProcMsg r)
  end.

(** [GateServer::OnClosing]: [notifinum] is the default, 200. *)
Definition GateServer_OnClosing (closingReason : Z) : M GateProc Z :=
  on_gate (GateServerHandler.OnClosing peer closingReason 200).

Definition gate_hooks (listen max start : Z) (subscribe : M GateProc unit) (fmt : Z -> Z -> string)
    (Loop : Z -> M GateProc Z) (PollChannels : M GateProc Z) : AppHooks GateProc :=
  mkAppHooks (GateServer_OnInit listen max subscribe) (GateServer_OnStart start)
    (GateServer_OnCtrl fmt) (fun _ => mret 0) (GateServer_OnPoll Loop PollChannels)
    GateServer_OnClosing (mret 0).

End GateServer.
Arguments GateProc {_} P.

(** ** The area map *)

Section area_facts.
Context {I : IniLib} {SN : SplitNumLib}.

Lemma add_areas_spec areas ch (m m' : gmap Z Z) :
  add_areas areas ch m = (true, m') ->
  (forall a, a ∈ areas -> m' !! u32 a = Some (u32 ch)) /\
  (forall k v, m !! k = Some v -> m' !! k = Some v) /\
  (forall k v, m' !! k = Some v -> m !! k = Some v \/ (v = u32 ch /\ exists a, a ∈ areas /\ k = u32 a)).
Proof.
  revert m. induction areas as [|a areas IH]; intros m; simpl.
  - intros [= ->]. split_and!; [by intros a ?%not_elem_of_nil|done|by left].
  - destruct (m !! u32 a) eqn:E; [done|]. intros (H1 & H2 & H3)%IH. split_and!.
    + intros b [->|Hb]%elem_of_cons; [|by apply H1]. apply H2. apply lookup_insert_eq.
    + intros k v Hk. apply H2. rewrite lookup_insert_ne; [done|congruence].
    + intros k v [[[<- <-]|[_ Hk]]%lookup_insert_Some|(-> & b & Hb & ->)]%H3.
      * right. split; [done|]. exists a. split; [left|done].
      * by left.
      * right. split; [done|]. exists b. split; [by right|done].
Qed.

(** The agents of a configuration: channel and areas of agent [i]. *)
Definition agent_ch (p : IniConfigParser) (d : dictionary) (i : nat) : Z :=
  iniparser_getint d (real_key (root_key p) (agent_key i "channel")) 0.
Definition agent_areas (p : IniConfigParser) (d : dictionary) (i : nat) : list Z :=
  take 128 (SplitNum (default "" (iniparser_getstring d (real_key (root_key p) (agent_key i "areas"))))).

Lemma load_agents_spec n i (m : gmap Z Z) ids p d r p' :
  ini_dic p = Some d -> NoDup ids ->
  load_agents n i m ids p = Some (r, p') -> p' = p /\
  forall m' ids', r = (true, m', ids') ->
    ids' = ids ++ (agent_ch p d <$> seq i n) /\ NoDup ids' /\
    (forall k v, m !! k = Some v -> m' !! k = Some v) /\
    (forall j a, (i <= j < i + n)%nat -> a ∈ agent_areas p d j -> m' !! u32 a = Some (u32 (agent_ch p d j))) /\
    (forall k v, m' !! k = Some v -> m !! k = Some v \/
       exists j a, (i <= j < i + n)%nat /\ a ∈ agent_areas p d j /\ k = u32 a /\ v = u32 (agent_ch p d j)).
Proof.
  intros Hd. revert i m ids. induction n as [|n IH]; intros i m ids Hnd; cbn [load_agents].
  - intros [= <- <-]. split; [done|]. intros m' ids' [= <- <-]. rewrite app_nil_r.
    split_and!; [done|done|done|lia|by left].
  - unfold Config.GetConfigInt, Config.GetConfigString, mbind, M_bind, gets, lift. rewrite Hd.
    cbn -[load_agents add_areas agent_key].
    fold (agent_ch p d i).
    case_bool_decide as Hin; [by intros [= <- <-]|]. rewrite Hd. cbn -[load_agents add_areas agent_key].
    fold (agent_areas p d i).
    destruct (add_areas (agent_areas p d i) (agent_ch p d i) m) as [[] m1] eqn:Ea; [|by intros [= <- <-]].
    apply add_areas_spec in Ea as (A1 & A2 & A3).
    intros (-> & Hr)%IH.
    2:{ apply NoDup_app. split_and!; [done| |apply NoDup_singleton]. set_solver. }
    split; [done|]. intros m' ids' ->. destruct (Hr m' ids' eq_refl) as (-> & Hnd' & H2 & H3 & H4).
    split_and!; [by rewrite <- app_assoc|done|by eauto| |].
    + intros j a Hj Ha. destruct (decide (j = i)) as [->|]; [by apply H2, A1|]. apply H3; [lia|done].
    + intros k v [Hk|(j & a & Hj & Ha & -> & ->)]%H4.
      * apply A3 in Hk as [Hk|(-> & a & Ha & ->)]; [by left|right]. exists i, a. split_and!; [lia|lia|done|done|done].
      * right. exists j, a. split_and!; [lia|lia|done|done|done].
Qed.

(** The area map of a configuration that is accepted: it sends every area
    of every configured agent to that agent's channel, and nothing else; the
    channels are distinct and listed in the order of the configuration. *)
Theorem OnInit_area_map (p : IniConfigParser) d g ids p' :
  ini_dic p = Some d -> OnInit p = Some ((0, g, ids), p') ->
  let n := Z.to_nat (iniparser_getint d (real_key (root_key p) "gate:agent:num") 0) in
  ids = (agent_ch p d <$> seq 0 n) /\ NoDup ids /\
  (forall j a, (j < n)%nat -> a ∈ agent_areas p d j ->
     mpAreaID2ChannelID g !! u32 a = Some (u32 (agent_ch p d j))) /\
  (forall k v, mpAreaID2ChannelID g !! k = Some v ->
     exists j a, (j < n)%nat /\ a ∈ agent_areas p d j /\ k = u32 a /\ v = u32 (agent_ch p d j)).
Proof.
  intros Hd HE n. unfold OnInit in HE.
  assert (forall k z, Config.GetConfigInt k z p = Some (iniparser_getint d (real_key (root_key p) k) z, p)) as Hget.
  { intros k z. unfold Config.GetConfigInt, mbind, M_bind, gets, lift. by rewrite Hd. }
  do 4 (rewrite (bind_run _ _ _ _ _ (Hget _ _)) in HE). fold n in HE.
  unfold mbind, M_bind in HE. destruct (load_agents n 0 ∅ [] p) as [[r p1]|] eqn:El; [|done].
  destruct (load_agents_spec n 0 ∅ [] p d r p1 Hd (NoDup_nil_2) El) as (-> & Hr).
  destruct r as [[[] m] ids1]; unfold mret, M_ret in HE; [|done]. simplify_eq/=.
  destruct (Hr _ _ eq_refl) as (H1 & H2 & _ & H3 & H4).
  split_and!; [done|done|intros j a Hj; apply H3; lia|].
  intros k v [Hk|(j & a & Hj & Ha & -> & ->)]%H4; [done|]. exists j, a. split_and!; [lia|done|done|done].
Qed.

End area_facts.

(** ** Shutdown *)

Section closing_facts.
Context {I : IniLib} {P : Type} {MP : MsgProxy P}.
Context {B0 : BufferLib} {CSS : Codec GateSSMsg} {CCS : Codec GateCSMsg}.
Context (peer : Z -> Z * Z).
Implicit Types (w : GateW P) (g : GateProc P).

(** What [RemoveConnection] of an indexed connection keeps: the progress of
    closing, the size of the table and the other slots. *)
Lemma remove_keeps idx reason w :
  wlp (match GetConnectionByIdx idx (handler w) with
       | None => mret tt
       | Some i => RemoveConnection peer i reason
       end) (fun _ w' =>
    m_dwLastClosingIdx (handler w') = m_dwLastClosingIdx (handler w) /\
    length (m_vecConnections (handler w')) = length (m_vecConnections (handler w)) /\
    forall j, j <> Z.to_nat idx ->
      m_vecConnections (handler w') !! j = m_vecConnections (handler w) !! j) w.
Proof.
  destruct (GetConnectionByIdx idx (handler w)) as [i|] eqn:E; [|by wlp_steps].
  apply ByIdx_slot in E as (-> & Hi & c & Hc & _).
  eapply wlp_mono; [by apply RemoveConnection_handler|]. intros ? w' ->. simpl.
  rewrite length_insert. split_and!; [done|done|]. intros j Hj. by rewrite list_lookup_insert_ne.
Qed.

Lemma OnClosing_loop_progress k reason w :
  0 <= m_dwLastClosingIdx (handler w) <= Z.of_nat (length (m_vecConnections (handler w))) ->
  wlp (OnClosing_loop peer k reason) (fun _ w' =>
    m_dwLastClosingIdx (handler w') =
      Z.min (m_dwLastClosingIdx (handler w) + Z.of_nat k) (Z.of_nat (length (m_vecConnections (handler w)))) /\
    length (m_vecConnections (handler w')) = length (m_vecConnections (handler w)) /\
    forall j, m_dwLastClosingIdx (handler w) + Z.of_nat k <= Z.of_nat j ->
      m_vecConnections (handler w') !! j = m_vecConnections (handler w) !! j) w.
Proof.
  revert w. induction k as [|k IH]; intros w Hr; cbn [OnClosing_loop]; wlp_steps.
  { split_and!; [lia|done|done]. }
  destruct (Z.ltb_spec (m_dwLastClosingIdx (handler w)) (Z.of_nat (length (m_vecConnections (handler w))))).
  2:{ wlp_steps. split_and!; [lia|done|done]. }
  wlp_steps. eapply wlp_mono; [apply remove_keeps|]. intros ? w1 (H1 & H2 & H3).
  unfold on_handler. wlp_steps.
  eapply wlp_mono; [apply IH; simpl; rewrite H1, H2; lia|]. simpl. intros ? w2 (H4 & H5 & H6).
  rewrite H1, H2 in *. split_and!; [lia|done|].
  intros j Hj. rewrite H6 by lia. apply H3. lia.
Qed.

Lemma OnClosing_result reason w :
  0 <= m_dwLastClosingIdx (handler w) <= Z.of_nat (length (m_vecConnections (handler w))) ->
  wlp (GateServerHandler.OnClosing peer reason 200) (fun r w' =>
    let last := Z.min (m_dwLastClosingIdx (handler w) + 200) (Z.of_nat (length (m_vecConnections (handler w)))) in
    m_dwLastClosingIdx (handler w') = last /\
    length (m_vecConnections (handler w')) = length (m_vecConnections (handler w)) /\
    r = (if last <? Z.of_nat (length (m_vecConnections (handler w))) then 0 else 1) /\
    forall j, m_dwLastClosingIdx (handler w) + 200 <= Z.of_nat j ->
      m_vecConnections (handler w') !! j = m_vecConnections (handler w) !! j) w.
Proof.
  intros Hr. unfold GateServerHandler.OnClosing. wlp_steps.
  apply wlp_mono with (Q := fun _ w1 => m_dwLastClosingIdx (handler w1) = m_dwLastClosingIdx (handler w) /\
    m_vecConnections (handler w1) = m_vecConnections (handler w)).
  { unfold on_handler. destruct (_ =? _); by wlp_steps. }
  intros ? w1 [E1 E2]. wlp_steps.
  eapply wlp_mono; [apply OnClosing_loop_progress; rewrite E1, E2; lia|].
  intros ? w2 (H1 & H2 & H3). rewrite E1, E2 in *. change (Z.of_nat 200) with 200 in *. wlp_steps.
  rewrite H1, H2. destruct (_ <? _); wlp_steps; by split_and!.
Qed.

Context (h : AppHooks (GateProc P)).
(** The process closes through [GateServer::OnClosing]. *)
Hypothesis h_closing : forall r, App.OnClosing h r = GateServer_OnClosing peer r.

(** A gate whose table has at most 200 slots never ends: [OnClosing]
    returns [1] when it is done, which the main loop takes for "busy", so that
    once [closing] is set the loop is never left, however long it runs. *)
Theorem small_gate_never_stops fuel Loop g b g' :
  closing (gp_ctx g) <> 0 ->
  let hd := handler (gp_gate g) in
  0 <= m_dwLastClosingIdx hd <= Z.of_nat (length (m_vecConnections hd)) ->
  Z.of_nat (length (m_vecConnections hd)) <= 200 ->
  main_loop gp_ctx h fuel Loop (fun _ => mret tt) g = Some (b, g') -> b = false.
Proof.
  revert g. induction fuel as [|fuel IH]; intros g Hc hd Hr Hlen; cbn [main_loop]; [by intros [= <- _]|].
  unfold mbind at 1 2, M_bind at 1 2, mret at 1, M_ret at 1, gets.
  destruct (Z.eqb_spec (closing (gp_ctx g)) 0); [done|].
  unfold Closing. rewrite h_closing. unfold GateServer_OnClosing, on_gate, zoom, mbind, M_bind.
  destruct (GateServerHandler.OnClosing peer _ 200 (gp_gate g)) as [[r w']|] eqn:E; [|done].
  destruct (wlp_elim _ _ _ _ _ (OnClosing_result _ _ Hr) E) as (H1 & H2 & H3 & _). fold hd in H1, H2, H3.
  destruct (Z.ltb_spec (Z.min (m_dwLastClosingIdx hd + 200) (Z.of_nat (length (m_vecConnections hd))))
    (Z.of_nat (length (m_vecConnections hd)))); [lia|].
  subst r. simpl. intros Hm. apply (IH _) in Hm; [done|done|simpl; lia|simpl; lia].
Qed.

(** A larger gate stops too early: the first call, which has closed at most
    200 slots, returns [0], which the main loop takes for "finished"; the
    connections from slot 200 on are left as they were. *)
Theorem large_gate_stops_early fuel Loop g b g' :
  closing (gp_ctx g) <> 0 ->
  m_dwLastClosingIdx (handler (gp_gate g)) = 0 ->
  200 < Z.of_nat (length (m_vecConnections (handler (gp_gate g)))) ->
  main_loop gp_ctx h (S fuel) Loop (fun _ => mret tt) g = Some (b, g') ->
  b = true /\ forall j, (200 <= j)%nat ->
    m_vecConnections (handler (gp_gate g')) !! j = m_vecConnections (handler (gp_gate g)) !! j.
Proof.
  intros Hc H0 Hlen. cbn [main_loop].
  unfold mbind at 1 2, M_bind at 1 2, mret at 1, M_ret at 1, gets.
  destruct (Z.eqb_spec (closing (gp_ctx g)) 0); [done|].
  unfold Closing. rewrite h_closing. unfold GateServer_OnClosing, on_gate, zoom, mbind, M_bind.
  destruct (GateServerHandler.OnClosing peer _ 200 (gp_gate g)) as [[r w']|] eqn:E; [|done].
  destruct (wlp_elim _ _ _ _ _ (OnClosing_result _ (gp_gate g) ltac:(lia)) E) as (H1 & H2 & H3 & H4).
  rewrite H0 in *.
  destruct (Z.ltb_spec (Z.min (0 + 200) (Z.of_nat (length (m_vecConnections (handler (gp_gate g))))))
    (Z.of_nat (length (m_vecConnections (handler (gp_gate g)))))); [|lia].
  subst r. simpl. intros [= <- <-]. split; [done|]. intros j Hj. apply H4. lia.
Qed.

End closing_facts.

(** ** Witnesses *)

Module GateServerWitness.
Import Reference ConfigWitness GateWitness.

#[export] Instance split_num : SplitNumLib := {
  SplitNum s := strtol <$> split_at " " s ""
}.

Definition dic : gmap string string :=
  {[ "gate:agent:num" := "2"; "gate:agent#1:channel" := "9"; "gate:agent#1:areas" := "1 2";
     "gate:agent#2:channel" := "8"; "gate:agent#2:areas" := "3" ]}.
Definition p0 : IniConfigParser := mkIni (CV "root" "" []) (Some dic).

Lemma OnInit_area_map_witness :
  exists g p', OnInit p0 = Some ((0, g, [9; 8]), p') /\ mpAreaID2ChannelID g !! 3 = Some 8.
Proof.
  destruct (OnInit p0) as [[[[r g] ids] p']|] eqn:E.
  - assert (r = 0) as ->.
    { assert ((fun x => fst (fst (fst x))) <$> OnInit p0 = Some 0) as E0 by (vm_compute; reflexivity).
      rewrite E in E0. by injection E0. }
    destruct (OnInit_area_map p0 dic g ids p' eq_refl E) as (-> & _ & H & _).
    exists g, p'. split; [reflexivity|].
    apply (H 1%nat 3); [vm_compute; lia|]. left.
  - assert (match OnInit p0 with Some _ => true | None => false end = true) as Hx
      by (vm_compute; reflexivity). rewrite E in Hx. discriminate.
Defined.

Definition ctx0 (c : Z) : AppContext :=
  mkAppContext p0 "ch" "gate:1" "tcp://g1" [] 100 1 (mkTimeval 0 0) 0 "" 0 0 c (mkTimeval 0 0) (mkCCAddr "" 0 0).
Definition hooks0 : AppHooks (GateProc (list (Z * list bytes * Z))) :=
  gate_hooks peer0 0 3 0 (mret tt) (fun _ _ => "") (fun _ => mret 0) (mret 0).

(** The gate of one client, asked to stop. *)
Definition g0 : GateProc (list (Z * list bytes * Z)) := mkGateProc (ctx0 2) w0.

Lemma small_gate_never_stops_witness :
  exists g', main_loop gp_ctx hooks0 7 (mret tt) (fun _ => mret tt) g0 = Some (false, g').
Proof.
  destruct (main_loop gp_ctx hooks0 7 (mret tt) (fun _ => mret tt) g0) as [[b g']|] eqn:E.
  - exists g'. rewrite (small_gate_never_stops peer0 hooks0 (fun _ => eq_refl) 7 (mret tt) g0 b g');
      [reflexivity|discriminate| | |exact E]; vm_compute; intuition discriminate.
  - assert (match main_loop gp_ctx hooks0 7 (mret tt) (fun _ => mret tt) g0 with Some _ => true | None => false end = true) as Hx
      by (vm_compute; reflexivity). rewrite E in Hx. discriminate.
Defined.

(** A gate of 300 slots with a client in slot 250. *)
Definition h300 : GateServerHandler :=
  GateServerHandler_new cfg0 300
    <| m_vecConnections := replicate 250 Connection_new ++ [c0] ++ replicate 49 Connection_new |>
    <| m_mpConnections := {[50 := 250]} |> <| m_iAlivedConnections := 1 |>.
Definition g300 : GateProc (list (Z * list bytes * Z)) :=
  mkGateProc (ctx0 2) (w0 <| handler := h300 |>).

Lemma large_gate_stops_early_witness :
  exists g', main_loop gp_ctx hooks0 7 (mret tt) (fun _ => mret tt) g300 = Some (true, g') /\
    m_vecConnections (handler (gp_gate g')) !! 250%nat = Some c0.
Proof.
  destruct (main_loop gp_ctx hooks0 7 (mret tt) (fun _ => mret tt) g300) as [[b g']|] eqn:E.
  - destruct (large_gate_stops_early peer0 hooks0 (fun _ => eq_refl) 6 (mret tt) g300 b g')
      as [-> Hj]; [discriminate|reflexivity|vm_compute; reflexivity|exact E|].
    exists g'. split; [reflexivity|]. rewrite Hj by lia. vm_compute. reflexivity.
  - assert (match main_loop gp_ctx hooks0 7 (mret tt) (fun _ => mret tt) g300 with Some _ => true | None => false end = true) as Hx
      by (vm_compute; reflexivity). rewrite E in Hx. discriminate.
Defined.

End GateServerWitness.
