(* ===== verification/Knapsack.v ===== *)
(** * The player's knapsack ([rgtd/zone/logic/PlayerKnapsackLogic.cpp])

    The package of a role ([proto/db/Role.proto]) is a list of grids, each with
    an item, a number and a position. The logic only touches the package and
    fires events, so its state is the package and the trace of the events. *)

From S2P Require Import Prelude.

Record RoleItem := mkRoleItem { it_id : Z; it_level : Z; it_gid : Z }.
Record RolePackGrid := mkRolePackGrid { g_item : RoleItem; g_num : Z; g_pos : Z }.
Record RolePackage := mkRolePackage { maxgrid : Z; grids : list RolePackGrid; nextgid : Z }.

#[global] Instance eta_RoleItem : Eta RoleItem := fun r => mkRoleItem (it_id r) (it_level r) (it_gid r).
#[global] Instance eta_RolePackGrid : Eta RolePackGrid := fun r =>
  mkRolePackGrid (g_item r) (g_num r) (g_pos r).
#[global] Instance eta_RolePackage : Eta RolePackage := fun r =>
  mkRolePackage (maxgrid r) (grids r) (nextgid r).

Definition EVENT_PLAYER_ITEM_ADD : Z := 2004.
Definition EVENT_PLAYER_ITEM_DEC : Z := 2005.
Definition EVENT_PLAYER_REMOVE_GRID_ITEM : Z := 2006.
Definition EVENT_PLAYER_CHANGE_PACK_MAX_GRID : Z := 2007.

Record Knap := mkKnap { pack : RolePackage; fired : list (Z * Z) }.
#[global] Instance eta_Knap : Eta Knap := fun r => mkKnap (pack r) (fired r).

Definition on_pack (f : RolePackage -> RolePackage) : M Knap unit := modify (fun k => k <| pack ::= f |>).
Definition FireEvent (code param : Z) : M Knap unit :=
  modify (fun k => k <| fired ::= fun l => l ++ [(code, param)] |>).

(** [iMaxTiled], the number of items a grid can hold. *)
Definition iMaxTiled : Z := 1.

Definition OnInitBirthPlayer : M Knap unit := on_pack (fun p => p <| maxgrid := 10 |>).

(** [CreateItem] gives the item the next id. *)
Definition CreateItem (item : RoleItem) : M Knap RoleItem :=
  p ← gets pack;
  on_pack (fun p => p <| nextgid := u32 (nextgid p + 1) |>);;
  mret (item <| it_gid := nextgid p |>).

Definition IsGridFill (pos : Z) (p : RolePackage) : bool :=
  (maxgrid p <=? pos) || existsb (fun g => (g_pos g =? pos) && (0 <? g_num g)) (grids p).

(** The loop [while(pos < maxgrid && IsGridFill(pos)) ++pos]. *)
Fixpoint free_pos (fuel : nat) (pos : Z) (p : RolePackage) : option Z :=
  match fuel with
  | O => None
  | S fuel => if (pos <? i32 (maxgrid p)) && IsGridFill pos p then free_pos fuel (pos + 1) p else Some pos
  end.

Definition GetFreeGridPos (p : RolePackage) : option Z :=
  pos ← free_pos (S (Z.to_nat (maxgrid p))) 1 p;
  Some (if i32 (maxgrid p) <=? pos then -1 else pos).

(** [GetItemCapacity]: the free room of the item's own grids and of the grids
    not yet used; the assertion is the code's. *)
Definition GetItemCapacity (id : Z) (p : RolePackage) : option Z :=
  let iNum := foldl (fun n g => let iOneFree := iMaxTiled - i32 (g_num g) in
                       if (id =? it_id (g_item g)) && (0 <? iOneFree) then n + iOneFree else n)
                0 (grids p) in
  let nEmptyGrids := i32 (maxgrid p - Z.of_nat (length (grids p))) in
  if 0 <=? nEmptyGrids then Some (iNum + nEmptyGrids * iMaxTiled) else None.

(** The first loop of [PutItem]: grids of the item are filled up. *)
Definition fill_grid (id num : Z) (g : RolePackGrid) : Z * RolePackGrid :=
  let iOneFill := i32 (g_num g) in
  let iOneFree := iMaxTiled - iOneFill in
  if (id =? it_id (g_item g)) && (0 <? iOneFree) then
    if iOneFree <? i32 num then (u32 (num - iOneFree), g <| g_num := iMaxTiled |>)
    else (0, g <| g_num := u32 (iOneFill + num) |>)
  else (num, g).

Fixpoint put_fill (id num : Z) (gs : list RolePackGrid) : Z * list RolePackGrid :=
  match gs with
  | [] => (num, [])
  | g :: gs =>
      let '(num, g) := fill_grid id num g in
      let '(num, gs) := put_fill id num gs in
      (num, g :: gs)
  end.

(** The second loop of [PutItem]: new grids for the rest. *)
Fixpoint put_new (fuel : nat) (item : RoleItem) (num : Z) : M Knap unit :=
  match fuel with
  | O => if 0 <? num then crash else mret tt
  | S fuel =>
      if 0 <? num then
        newitem ← CreateItem item;
        on_pack (fun p => p <| grids ::= fun l => l ++ [mkRolePackGrid newitem 0 0] |>);;
        p ← gets pack;
        pos ← lift (GetFreeGridPos p);
        let n := if iMaxTiled >? i32 num then num else iMaxTiled in
        let rest := if iMaxTiled >? i32 num then 0 else u32 (num - iMaxTiled) in
        on_pack (fun p => p <| grids ::= fun l =>
                   removelast l ++ [mkRolePackGrid newitem n (u32 pos)] |>);;
        put_new fuel item rest
      else mret tt
  end.

(** The event parameter: the id in the high word, what is left of [num] in the
    low one. In [PutItem] nothing is left: its second loop ends at [num = 0]. *)
Definition item_param (id num : Z) : Z := Z.lor (u64 (Z.shiftl id 32)) num.

Definition PutItem (item : RoleItem) (num : Z) : M Knap Z :=
  p ← gets pack;
  iCap ← lift (GetItemCapacity (it_id item) p);
  if iCap <? i32 num then mret (-1)
  else
    let '(rest, gs) := put_fill (it_id item) num (grids p) in
    on_pack (fun p => p <| grids := gs |>);;
    put_new (Z.to_nat num) item rest;;
    FireEvent EVENT_PLAYER_ITEM_ADD (item_param (it_id item) 0);;
    mret 0.

Definition GetItemNum (id : Z) (p : RolePackage) : Z :=
  foldl (fun n g => if (id =? it_id (g_item g)) && (0 <? g_num g) then i32 (n + g_num g) else n) 0 (grids p).

(** [FindPackGridIdx]: [None] is [-1]. *)
Fixpoint find_pos (pos : Z) (gs : list RolePackGrid) : option nat :=
  match gs with
  | [] => None
  | g :: gs => if g_pos g =? pos then Some O else S <$> find_pos pos gs
  end.

Definition FindPackGridIdx (pos : Z) (p : RolePackage) : option nat :=
  if maxgrid p <=? pos then None else find_pos pos (grids p).

Definition FindPackGrid (pos : Z) (p : RolePackage) : option RolePackGrid :=
  idx ← FindPackGridIdx pos p; grids p !! idx.

Definition RemoveGrid (pos : Z) : M Knap Z :=
  p ← gets pack;
  match FindPackGridIdx pos p with
  | None => mret (-1)
  | Some idx =>
      on_pack (fun p => p <| grids ::= swap_remove idx |>);;
      FireEvent EVENT_PLAYER_REMOVE_GRID_ITEM pos;;
      mret 0
  end.

(** The loop of [RemoveItem]: the number left, the grids and the positions of
    the grids that were emptied. *)
Fixpoint dec_items (id num : Z) (gs : list RolePackGrid) : Z * list RolePackGrid * list Z :=
  match gs with
  | [] => (num, [], [])
  | g :: gs =>
      if num =? 0 then (num, g :: gs, [])
      else
        let n := i32 (g_num g) in
        if (id =? it_id (g_item g)) && (0 <? n) then
          let '(num1, n1) := if i32 num <=? n then (0, n - i32 num) else (u32 (num - n), 0) in
          let '(num2, gs, rm) := dec_items id num1 gs in
          (num2, g <| g_num := u32 n1 |> :: gs, if n1 =? 0 then g_pos g :: rm else rm)
        else
          let '(num2, gs, rm) := dec_items id num gs in (num2, g :: gs, rm)
  end.

Fixpoint remove_grids (rm : list Z) : M Knap unit :=
  match rm with
  | [] => mret tt
  | pos :: rm => RemoveGrid pos;; remove_grids rm
  end.

Definition RemoveItem (id num : Z) : M Knap Z :=
  p ← gets pack;
  if GetItemNum id p <? i32 num then mret (-1)
  else
    let '(rest, gs, rm) := dec_items id num (grids p) in
    on_pack (fun p => p <| grids := gs |>);;
    remove_grids rm;;
    FireEvent EVENT_PLAYER_ITEM_DEC (item_param id rest);;
    mret 0.

Definition GetMaxGrid (p : RolePackage) : Z := i32 (maxgrid p).

Definition ChangeMaxGrid (chg : Z) : M Knap Z :=
  p ← gets pack;
  let old := GetMaxGrid p + u8 chg in
  on_pack (fun p => p <| maxgrid := u32 old |>);;
  FireEvent EVENT_PLAYER_CHANGE_PACK_MAX_GRID (u64 old);;
  mret 0.

(** ** The contents of a package *)

(** How many items [id] the grids hold, and how many more fit in their grids. *)
Fixpoint held (id : Z) (gs : list RolePackGrid) : Z :=
  match gs with
  | [] => 0
  | g :: gs => (if id =? it_id (g_item g) then g_num g else 0) + held id gs
  end.

Fixpoint room (id : Z) (gs : list RolePackGrid) : Z :=
  match gs with
  | [] => 0
  | g :: gs => (if id =? it_id (g_item g) then iMaxTiled - g_num g else 0) + room id gs
  end.

Definition tiled (g : RolePackGrid) : Prop := g_num g = 0 \/ g_num g = iMaxTiled.

Record pack_wf (p : RolePackage) : Prop := {
  wf_max : 0 <= maxgrid p < 2147483648;
  wf_len : Z.of_nat (length (grids p)) <= maxgrid p;
  wf_num : Forall tiled (grids p)
}.

Lemma held_room_bound id gs :
  Forall tiled gs -> 0 <= held id gs <= Z.of_nat (length gs) /\ 0 <= room id gs <= Z.of_nat (length gs).
Proof.
  induction 1 as [|g gs Hg Hgs IH]; [simpl; lia|]. cbn [held room length]. rewrite Nat2Z.inj_succ.
  destruct Hg as [Hg|Hg]; rewrite Hg; unfold iMaxTiled in *; destruct (id =? _); lia.
Qed.

Lemma held_app id l1 l2 : held id (l1 ++ l2) = held id l1 + held id l2.
Proof. induction l1 as [|g l1 IH]; [done|]. cbn [held app]. rewrite IH. lia. Qed.

#[export] Instance held_proper id : Proper ((≡ₚ) ==> (=)) (held id).
Proof. induction 1; cbn [held]; lia. Qed.

Lemma GetItemNum_held id p : pack_wf p -> GetItemNum id p = held id (grids p).
Proof.
  intros [Hmax Hlen Hnum]. unfold GetItemNum.
  enough (forall gs n, Forall tiled gs -> 0 <= n -> n + Z.of_nat (length gs) < 2147483648 ->
    foldl (fun n g => if (id =? it_id (g_item g)) && (0 <? g_num g) then i32 (n + g_num g) else n) n gs
    = n + held id gs) as H by (rewrite H by (done || lia); lia).
  induction gs as [|g gs IH]; intros n Hgs Hn Hb; [simpl; lia|].
  inv Hgs. cbn [foldl held length] in *. rewrite Nat2Z.inj_succ in Hb.
  destruct (id =? _); cbn [andb]; [|rewrite IH by (done || lia); lia].
  match goal with H : tiled g |- _ => destruct H as [Hg|Hg] end; rewrite Hg; unfold iMaxTiled; cbn [Z.ltb Z.compare].
  - rewrite IH by (done || lia). lia.
  - rewrite i32_small by lia. rewrite IH by (done || lia). lia.
Qed.

Lemma GetItemCapacity_room id p :
  pack_wf p ->
  GetItemCapacity id p = Some (room id (grids p) + (maxgrid p - Z.of_nat (length (grids p)))).
Proof.
  intros [Hmax Hlen Hnum]. unfold GetItemCapacity. rewrite i32_small by lia.
  destruct (Z.leb_spec 0 (maxgrid p - Z.of_nat (length (grids p)))); [|lia].
  unfold iMaxTiled at 2. rewrite Z.mul_1_r. do 2 f_equal.
  enough (forall gs n, Forall tiled gs ->
    foldl (fun n g => let iOneFree := iMaxTiled - i32 (g_num g) in
       if (id =? it_id (g_item g)) && (0 <? iOneFree) then n + iOneFree else n) n gs
    = n + room id gs) as E by (by rewrite E).
  induction gs as [|g gs IH]; intros n Hgs; [simpl; lia|].
  inv Hgs. cbn [foldl room]. rewrite IH by done. cbv zeta.
  match goal with H : tiled g |- _ => destruct H as [Hg|Hg] end; rewrite Hg;
    unfold iMaxTiled; rewrite i32_small by lia; destruct (id =? _); simpl; lia.
Qed.

(** The first loop of [PutItem] moves as much as fits into the item's grids. *)
Lemma fill_grid_spec id num g :
  tiled g -> 0 <= num < 2147483648 ->
  exists g', fill_grid id num g = (num - Z.min num (room id [g]), g')
    /\ tiled g' /\ g_pos g' = g_pos g
    /\ forall id', held id' [g'] = held id' [g] + (if id' =? id then Z.min num (room id [g]) else 0).
Proof.
  intros Hg Hnum. unfold fill_grid. cbv zeta. cbn [room held].
  assert (i32 (g_num g) = g_num g) as -> by (destruct Hg as [-> | ->]; reflexivity).
  rewrite (i32_small num) by lia.
  destruct (Z.eqb_spec id (it_id (g_item g))) as [->|Hid]; cbn [andb].
  2: { eexists. split; [apply f_equal2; [lia|reflexivity]|]. split; [done|]. split; [done|]. intros id'.
       destruct (id' =? id); lia. }
  destruct Hg as [Hg|Hg]; rewrite Hg; unfold iMaxTiled; rewrite ?Z.sub_0_r; cbn [Z.ltb Z.compare].
  - destruct (Z.ltb_spec 1 num).
    + rewrite u32_small by lia. eexists. split; [apply f_equal2; [lia|reflexivity]|]. split; [by right|].
      split; [done|]. intros id'. unfold setf. simpl. destruct (id' =? _); lia.
    + rewrite u32_small by lia. eexists. split; [apply f_equal2; [lia|reflexivity]|].
      split; [unfold tiled, iMaxTiled, setf; simpl; lia|]. split; [done|].
      intros id'. unfold setf. simpl. destruct (id' =? _); lia.
  - eexists. split; [simpl; apply f_equal2; [lia|reflexivity]|]. split; [by right|]. split; [done|].
    intros id'. simpl. rewrite Hg. unfold iMaxTiled. destruct (id' =? _); lia.
Qed.

Lemma put_fill_spec id num gs :
  Forall tiled gs -> 0 <= num < 2147483648 ->
  exists gs', put_fill id num gs = (num - Z.min num (room id gs), gs')
    /\ Forall tiled gs' /\ g_pos <$> gs' = g_pos <$> gs
    /\ forall id', held id' gs' = held id' gs + (if id' =? id then Z.min num (room id gs) else 0).
Proof.
  intros Hgs. revert num. induction Hgs as [|g gs Hg Hgs IH]; intros num Hnum.
  { exists []. cbn. rewrite Z.min_r by lia.
    repeat split; [f_equal; lia | done..|]. intros id'. by destruct (id' =? id). }
  pose proof (held_room_bound id gs Hgs) as [_ Hroom].
  assert (0 <= room id [g]) as Hr by (apply (held_room_bound id [g]); by constructor).
  destruct (fill_grid_spec id num g Hg Hnum) as (g' & E & Hg' & Hp & Hh).
  cbn [put_fill]. rewrite E. clear E.
  destruct (IH (num - Z.min num (room id [g])) ltac:(lia)) as (gs' & -> & Hgs' & Hps & Hhs).
  assert (room id (g :: gs) = room id [g] + room id gs) as -> by (cbn [room]; lia).
  eexists. split; [apply f_equal2; [lia|reflexivity]|]. split; [by constructor|].
  split; [cbn; by rewrite Hp, Hps|]. intros id'.
  pose proof (Hh id') as E. pose proof (Hhs id') as Es. cbn [held] in *.
  destruct (id' =? id); lia.
Qed.

(** [GetFreeGridPos] ends, and its answer is a free position or [-1]. *)
Lemma free_pos_total fuel pos p :
  0 <= maxgrid p < 2147483648 -> 0 < Z.of_nat fuel -> maxgrid p - pos < Z.of_nat fuel ->
  1 <= pos ->
  exists q, free_pos fuel pos p = Some q /\ pos <= q
    /\ (q < maxgrid p -> IsGridFill q p = false)
    /\ forall r, pos <= r < q -> IsGridFill r p = true.
Proof.
  intros Hmax. revert pos. induction fuel as [|fuel IH]; intros pos Hf0 Hf Hpos; [lia|].
  simpl. rewrite i32_small by lia. destruct (Z.ltb_spec pos (maxgrid p)); simpl.
  2: { exists pos. repeat split; lia. }
  destruct (IsGridFill pos p) eqn:E; [|exists pos; repeat split; [lia|done|lia]].
  destruct (IH (pos + 1)) as (q & -> & Hq & Hfree & Hlt); [lia..|].
  exists q. repeat split; [lia|done|]. intros r Hr.
  destruct (decide (r = pos)) as [->|]; [done|]. apply Hlt. lia.
Qed.

Lemma GetFreeGridPos_total p :
  0 <= maxgrid p < 2147483648 ->
  exists pos, GetFreeGridPos p = Some pos
    /\ (1 <= pos < maxgrid p /\ IsGridFill pos p = false
        \/ pos = -1 /\ forall r, 1 <= r < maxgrid p -> IsGridFill r p = true).
Proof.
  intros Hmax. unfold GetFreeGridPos.
  destruct (free_pos_total (S (Z.to_nat (maxgrid p))) 1 p) as (q & -> & Hq & Hfree & Hlt); [lia..|].
  simpl. rewrite i32_small by lia. eexists. split; [done|].
  destruct (Z.leb_spec (maxgrid p) q); [right | left]; split; auto; try lia.
  intros r Hr. apply Hlt. lia.
Qed.

(** The second loop of [PutItem] puts every item left into a grid of its own. *)
Lemma put_new_spec fuel item num k :
  pack_wf (pack k) -> 0 <= num -> num <= Z.of_nat fuel ->
  Z.of_nat (length (grids (pack k))) + num <= maxgrid (pack k) ->
  wp (put_new fuel item num) (fun _ k' =>
    pack_wf (pack k') /\ maxgrid (pack k') = maxgrid (pack k) /\ fired k' = fired k
    /\ forall id, held id (grids (pack k')) = held id (grids (pack k))
                   + (if id =? it_id item then num else 0)) k.
Proof.
  revert num k. induction fuel as [|fuel IH]; intros num k Hwf H0 Hfuel Hroom.
  { assert (num = 0) as -> by lia. apply wp_ret. repeat split; try apply Hwf.
    intros id. destruct (id =? _); lia. }
  cbn [put_new]. destruct (Z.ltb_spec 0 num).
  2: { assert (num = 0) as -> by lia. apply wp_ret. repeat split; try apply Hwf.
    intros id. destruct (id =? _); lia. }
  destruct Hwf as [Hmax Hlen Hnum]. unfold CreateItem, on_pack. wp_steps.
  match goal with |- wp (lift (GetFreeGridPos ?p)) _ _ => destruct (GetFreeGridPos_total p Hmax) as (pos & E & _) end.
  eapply wp_lift; [exact E|]. clear E. wp_steps.
  rewrite (i32_small num) by (simpl in *; lia). unfold iMaxTiled at 1 3.
  destruct (Z.gtb_spec 1 num); [lia|]. unfold iMaxTiled. rewrite u32_small by lia.
  set (k1 := setf _ _). assert (grids (pack k1) = grids (pack k) ++ [mkRolePackGrid (item <| it_gid := nextgid (pack k) |>) 1 (u32 pos)]) as Hg.
  { subst k1. simpl. rewrite removelast_last. done. }
  assert (maxgrid (pack k1) = maxgrid (pack k)) as Hm by done.
  assert (fired k1 = fired k) as Hf by done. clearbody k1.
  eapply wp_mono; [apply IH|].
  - split; rewrite ?Hm, ?Hg, ?length_app; simpl; [done|lia|].
    apply Forall_app. split; [done|]. apply Forall_singleton. by right.
  - lia.
  - lia.
  - rewrite Hm, Hg, length_app. simpl. lia.
  - intros _ k' (Hwf & Hm' & Hf' & Hh). rewrite Hm', Hf'. split_and!; [done..|].
    intros id. rewrite Hh, Hg, held_app. simpl. destruct (id =? it_id item); lia.
Qed.

(** C27. [PutItem] on a package of at most [maxgrid] grids, each empty or full:
    a number below 2^31 is accepted exactly when it is at most the room left in
    the grids of the item and in the grids not yet used, which is what
    [GetItemCapacity] computes; then the player holds [num] more of the item and
    as many of every other as before, and the package is still of that form. The
    refusal changes nothing. The room counts grids and not positions, of which
    there is one fewer ([PutItem_overfull]); larger numbers are not refused
    ([PutItem_huge]). *)
Theorem PutItem_count (item : RoleItem) (num : Z) (k : Knap) :
  pack_wf (pack k) -> 0 <= num < 2147483648 ->
  let cap := room (it_id item) (grids (pack k)) + (maxgrid (pack k) - Z.of_nat (length (grids (pack k)))) in
  GetItemCapacity (it_id item) (pack k) = Some cap
    /\ (cap < num -> PutItem item num k = Some (-1, k))
    /\ (num <= cap -> exists k', PutItem item num k = Some (0, k')
          /\ pack_wf (pack k') /\ maxgrid (pack k') = maxgrid (pack k)
          /\ fired k' = fired k ++ [(EVENT_PLAYER_ITEM_ADD, item_param (it_id item) 0)]
          /\ forall id, GetItemNum id (pack k') = GetItemNum id (pack k)
                         + (if id =? it_id item then num else 0)).
Proof.
  intros Hwf Hnum cap. pose proof (GetItemCapacity_room (it_id item) _ Hwf) as Hcap.
  split; [exact Hcap|]. subst cap. unfold PutItem.
  pose proof (held_room_bound (it_id item) _ (wf_num _ Hwf)) as [_ Hroom].
  split; intros Hle.
  - unfold mbind, M_bind, gets. rewrite Hcap. simpl. rewrite i32_small by lia.
    by destruct (Z.ltb_spec (room (it_id item) (grids (pack k)) + (maxgrid (pack k) - Z.of_nat (length (grids (pack k))))) num); [|lia].
  - apply wp_run_ret. wp_steps. eapply wp_lift; [exact Hcap|]. rewrite i32_small by lia.
    destruct (Z.ltb_spec (room (it_id item) (grids (pack k)) + (maxgrid (pack k) - Z.of_nat (length (grids (pack k))))) num); [lia|].
    destruct (put_fill_spec (it_id item) num _ (wf_num _ Hwf) Hnum) as (gs & -> & Ht & Hp & Hh).
    apply (f_equal length) in Hp. rewrite !length_fmap in Hp.
    unfold on_pack, FireEvent. wp_steps. pose proof Hwf as [Hmax Hlen _].
    eapply wp_mono.
    { apply put_new_spec; simpl; [split; simpl; [done|lia|done]|lia..]. }
    intros _ k' (Hwf' & Hm & Hf & Hh'). wp_steps. simpl. split; [done|].
    split; [done|]. split; [done|]. split; [by rewrite Hf|]. intros id.
    rewrite !GetItemNum_held by done. rewrite Hh'. simpl. rewrite Hh. destruct (id =? it_id item); lia.
Qed.

Lemma put_fill_full id num gs :
  Forall (fun g => g_num g = 1) gs -> put_fill id num gs = (num, gs).
Proof.
  induction 1 as [|g gs Hg Hgs IH]; [done|]. cbn [put_fill]. unfold fill_grid. rewrite Hg.
  assert ((0 <? iMaxTiled - i32 1) = false) as -> by reflexivity.
  rewrite andb_false_r, IH. done.
Qed.

(** The position of a new grid when every position is taken. *)
Lemma GetFreeGridPos_none p gs g :
  0 <= maxgrid p < 2147483648 -> grids p = gs ++ [g] ->
  Forall (fun g => g_num g = 1) gs -> (g_pos <$> gs) ≡ₚ seqZ 1 (maxgrid p - 1) ->
  GetFreeGridPos p = Some (-1).
Proof.
  intros Hmax Hgs Hnum Hpos. destruct (GetFreeGridPos_total p Hmax) as (pos & -> & [[Hr Hfill]|[-> _]]); [|done].
  exfalso. unfold IsGridFill in Hfill. apply orb_false_iff in Hfill as [_ Hfill].
  apply not_true_iff_false in Hfill. apply Hfill.
  assert (pos ∈ g_pos <$> gs) as (g' & -> & Hg')%list_elem_of_fmap.
  { rewrite Hpos. apply elem_of_seqZ. lia. }
  apply existsb_exists. exists g'. split.
  - rewrite Hgs. apply in_or_app. left. by apply list_elem_of_In.
  - rewrite Forall_forall in Hnum. rewrite (Hnum _ Hg'), Z.eqb_refl. done.
Qed.

(** The package has room for one item more than it has positions. With
    [maxgrid - 1] grids on the positions [1 .. maxgrid - 1], [PutItem] still
    accepts a new item, stores it at the position [(uint32_t)-1], and no
    position a client can give finds that grid. *)
Theorem PutItem_overfull (item : RoleItem) (k : Knap) :
  2 <= maxgrid (pack k) < 2147483648 ->
  Forall (fun g => g_num g = 1) (grids (pack k)) ->
  (g_pos <$> grids (pack k)) ≡ₚ seqZ 1 (maxgrid (pack k) - 1) ->
  exists k' g, PutItem item 1 k = Some (0, k')
    /\ grids (pack k') = grids (pack k) ++ [g] /\ g_pos g = 4294967295
    /\ it_id (g_item g) = it_id item
    /\ FindPackGridIdx (g_pos g) (pack k') = None
    /\ RemoveGrid (g_pos g) k' = Some (-1, k').
Proof.
  intros Hmax Hnum Hpos.
  assert (Z.of_nat (length (grids (pack k))) = maxgrid (pack k) - 1) as Hlen.
  { apply Permutation_length in Hpos. rewrite length_fmap, length_seqZ in Hpos. lia. }
  assert (pack_wf (pack k)) as Hwf.
  { split; [lia..|]. eapply Forall_impl; [exact Hnum|]. intros g Hg. by right. }
  pose proof (held_room_bound (it_id item) _ (wf_num _ Hwf)) as [_ Hroom].
  assert (wp (PutItem item 1) (fun r k' => r = 0 /\ maxgrid (pack k') = maxgrid (pack k)
    /\ exists g, grids (pack k') = grids (pack k) ++ [g] /\ g_pos g = 4294967295
        /\ it_id (g_item g) = it_id item) k) as H.
  { unfold PutItem. wp_steps. eapply wp_lift; [by apply GetItemCapacity_room|].
    rewrite Hlen, i32_small by lia.
    match goal with |- context [?a <? 1] => destruct (Z.ltb_spec a 1); [lia|] end.
    rewrite put_fill_full by done. unfold on_pack, FireEvent. wp_steps.
    change (Z.to_nat 1) with 1%nat. cbn [put_new Z.ltb Z.compare]. unfold CreateItem, on_pack. wp_steps.
    eapply wp_lift; [by eapply GetFreeGridPos_none; try done; simpl; lia|].
    wp_steps. cbn [put_new]. assert ((iMaxTiled >? i32 1) = false) as -> by reflexivity.
    change (0 <? u32 (1 - iMaxTiled)) with false. wp_steps. split; [done|]. split; [done|].
    eexists. simpl. rewrite removelast_last. done. }
  apply wp_run in H as (r & k' & E & -> & Hm & g & Hg & Hp & Hid).
  assert (FindPackGridIdx (g_pos g) (pack k') = None) as Hf.
  { unfold FindPackGridIdx. destruct (Z.leb_spec (maxgrid (pack k')) (g_pos g)); [done|lia]. }
  exists k', g. repeat (split; [done|]). unfold RemoveGrid, mbind, M_bind, gets. by rewrite Hf.
Qed.

(** ** Removal *)

Lemma find_pos_lookup pos gs g :
  g ∈ gs -> g_pos g = pos -> exists i g', find_pos pos gs = Some i /\ gs !! i = Some g' /\ g_pos g' = pos.
Proof.
  induction gs as [|h gs IH]; intros Hin Hp; [by apply not_elem_of_nil in Hin|]. simpl.
  destruct (Z.eqb_spec (g_pos h) pos); [by exists O, h|].
  apply elem_of_cons in Hin as [->|Hin]; [done|].
  destruct (IH Hin Hp) as (i & g' & -> & Hl & Hp'). exists (S i), g'. done.
Qed.

Lemma RemoveGrid_spec g k :
  g ∈ grids (pack k) -> g_pos g < maxgrid (pack k) -> NoDup (g_pos <$> grids (pack k)) ->
  wp (RemoveGrid (g_pos g)) (fun r k' => r = 0 /\ grids (pack k) ≡ₚ g :: grids (pack k')
    /\ maxgrid (pack k') = maxgrid (pack k)
    /\ fired k' = fired k ++ [(EVENT_PLAYER_REMOVE_GRID_ITEM, g_pos g)]) k.
Proof.
  intros Hin Hlt Hnd. destruct (find_pos_lookup (g_pos g) (grids (pack k)) g Hin eq_refl) as (i & g' & Hf & Hl & Hp).
  assert (g' = g) as ->.
  { apply list_elem_of_lookup in Hin as [j Hj].
    assert (i = j) as <-; [|congruence].
    eapply NoDup_lookup; [exact Hnd|..]; rewrite list_lookup_fmap; [rewrite Hl|rewrite Hj]; simpl; by rewrite ?Hp. }
  unfold RemoveGrid, FindPackGridIdx, on_pack, FireEvent. wp_steps.
  destruct (Z.leb_spec (maxgrid (pack k)) (g_pos g)); [lia|]. rewrite Hf. wp_steps.
  split; [done|]. split; [|done]. by apply swap_remove_perm.
Qed.

Definition full (g : RolePackGrid) : Prop := g_num g = iMaxTiled.

Definition emptied (gs : list RolePackGrid) (pos : Z) : Prop :=
  exists g, g ∈ gs /\ g_pos g = pos /\ g_num g = 0.

Lemma dec_items_spec id num gs :
  Forall tiled gs -> 0 <= num < 2147483648 -> num <= held id gs ->
  exists gs' rm, dec_items id num gs = (0, gs', rm)
    /\ Forall tiled gs' /\ g_pos <$> gs' = g_pos <$> gs
    /\ (forall id', held id' gs' = held id' gs - (if id' =? id then num else 0))
    /\ Z.of_nat (length rm) = num /\ rm `sublist_of` (g_pos <$> gs) /\ Forall (emptied gs') rm
    /\ (Forall full gs -> Forall (fun g => full g \/ g_pos g ∈ rm) gs').
Proof.
  intros Hgs. revert num. induction Hgs as [|g gs Hg Hgs IH]; intros num Hnum Hle.
  { exists [], []. simpl in *. assert (num = 0) as -> by lia.
    split_and!; try done. intros id'. by destruct (id' =? id). }
  cbn [dec_items]. cbv zeta. destruct (Z.eqb_spec num 0) as [->|Hn0].
  { exists (g :: gs), []. split_and!; try done; [by constructor| |by apply sublist_nil_l|].
    - intros id'. destruct (id' =? id); lia.
    - intros Hf. eapply Forall_impl; [exact Hf|]. by left. }
  assert (i32 (g_num g) = g_num g) as -> by (destruct Hg as [-> | ->]; reflexivity).
  rewrite (i32_small num) by lia. cbn [held] in Hle.
  destruct ((id =? it_id (g_item g)) && (0 <? g_num g)) eqn:Eg.
  - apply andb_true_iff in Eg as [->%Z.eqb_eq Hpos%Z.ltb_lt]. destruct Hg as [Hg|Hg]; [lia|].
    rewrite Z.eqb_refl, Hg in Hle. rewrite Hg. unfold iMaxTiled in *.
    assert ((if num <=? 1 then (0, 1 - num) else (u32 (num - 1), 0)) = (num - 1, 0)) as ->.
    { destruct (Z.leb_spec num 1); [f_equal; lia|]. by rewrite u32_small by lia. }
    destruct (IH (num - 1)) as (gs' & rm & -> & Ht & Hp & Hh & Hl & Hs & He & Hfu); [lia..|].
    eexists _, _. split; [reflexivity|]. split_and!.
    + constructor; [by left | done].
    + cbn. by rewrite Hp.
    + intros id'. cbn [held]. rewrite Hh, Hg. simpl. change (u32 0) with 0. destruct (id' =? _); lia.
    + simpl. lia.
    + by apply sublist_skip.
    + constructor; [eexists; split; [by left|done]|].
      eapply Forall_impl; [exact He|]. intros q (h & Hin & ?). exists h. split; [by right|done].
    + intros [_ Hf]%Forall_cons. constructor; [right; by left|].
      eapply Forall_impl; [exact (Hfu Hf)|]. intros h [Hh'|Hh']; [by left|right; by right].
  - assert (num <= held id gs) as Hle'.
    { destruct Hg as [Hg|Hg]; rewrite Hg in *; destruct (Z.eqb_spec id (it_id (g_item g))); simpl in *; done || lia. }
    destruct (IH num Hnum Hle') as (gs' & rm & -> & Ht & Hp & Hh & Hl & Hs & He & Hfu).
    eexists _, _. split; [reflexivity|]. split_and!.
    + by constructor.
    + cbn. by rewrite Hp.
    + intros id'. cbn [held]. rewrite Hh. lia.
    + done.
    + by apply sublist_cons.
    + eapply Forall_impl; [exact He|]. intros q (h & Hin & ?). exists h. split; [by right|done].
    + intros [Hg' Hf]%Forall_cons. constructor; [by left|by apply Hfu].
Qed.

Lemma remove_grids_spec rm k :
  pack_wf (pack k) -> NoDup (g_pos <$> grids (pack k)) ->
  Forall (fun g => g_pos g < maxgrid (pack k)) (grids (pack k)) ->
  NoDup rm -> Forall (emptied (grids (pack k))) rm ->
  wp (remove_grids rm) (fun _ k' => pack_wf (pack k') /\ maxgrid (pack k') = maxgrid (pack k)
    /\ NoDup (g_pos <$> grids (pack k'))
    /\ (length (grids (pack k')) + length rm = length (grids (pack k)))%nat
    /\ (forall id, held id (grids (pack k')) = held id (grids (pack k)))
    /\ fired k' = fired k ++ ((fun pos => (EVENT_PLAYER_REMOVE_GRID_ITEM, pos)) <$> rm)
    /\ (forall F : RolePackGrid -> Prop, Forall (fun g => F g \/ g_pos g ∈ rm) (grids (pack k)) ->
         Forall F (grids (pack k')))) k.
Proof.
  revert k. induction rm as [|pos rm IH]; intros k Hwf Hnd Hlt Hrm Hem.
  { apply wp_ret. rewrite app_nil_r. split_and!; try done. intros F HF.
    eapply Forall_impl; [exact HF|]. intros g [Hg|Hg]; [done|by apply not_elem_of_nil in Hg]. }
  apply NoDup_cons in Hrm as [Hnin Hrm]. apply Forall_cons in Hem as [(g & Hin & <- & Hg) Hem].
  cbn [remove_grids]. apply wp_bind. eapply wp_mono.
  { apply RemoveGrid_spec; [done| |done]. rewrite Forall_forall in Hlt. by apply Hlt. }
  intros r k1 (-> & Hperm & Hm & Hf). cbv beta. destruct Hwf as [Hmax Hlen Hnum].
  rewrite Hperm in Hnum, Hlt. inv Hnum. inv Hlt.
  assert (NoDup (g_pos <$> grids (pack k1))) as Hnd1.
  { rewrite Hperm in Hnd. by apply NoDup_cons in Hnd as [_ Hnd]. }
  assert (forall h, h ∈ grids (pack k1) -> g_pos h <> g_pos g) as Hother.
  { intros h Hh E. rewrite Hperm in Hnd. apply NoDup_cons in Hnd as [Hnd _]. apply Hnd.
    apply list_elem_of_fmap. by exists h. }
  pose proof (Permutation_length Hperm) as Hl. simpl in Hl.
  eapply wp_mono; [apply IH|].
  - split; rewrite ?Hm; [done|lia|done].
  - done.
  - by rewrite Hm.
  - done.
  - apply Forall_forall. intros q Hq. rewrite Forall_forall in Hem. destruct (Hem q Hq) as (h & Hh & Hp & H0).
    exists h. split; [|done]. rewrite Hperm in Hh. apply elem_of_cons in Hh as [->|Hh]; [|done].
    by subst q.
  - intros _ k' (Hwf' & Hm' & Hnd' & Hl' & Hh & Hf' & HF'). rewrite Hm', Hm. split_and!; try done.
    + simpl. lia.
    + intros id. rewrite Hh, Hperm. cbn [held]. rewrite Hg. destruct (id =? _); lia.
    + rewrite Hf', Hf. simpl. by rewrite <- (assoc_L (++)).
    + intros F HF. apply HF'. rewrite Hperm in HF. apply Forall_cons in HF as [_ HF].
      rewrite Forall_forall in HF |- *. intros h Hh'. destruct (HF h Hh') as [?|Hp]; [by left|right].
      apply elem_of_cons in Hp as [Hp|?]; [by apply Hother in Hp|done].
Qed.

(** What removing items that the player holds does to a package. *)
Lemma RemoveItem_run (id num : Z) (k : Knap) :
  pack_wf (pack k) -> NoDup (g_pos <$> grids (pack k)) ->
  Forall (fun g => g_pos g < maxgrid (pack k)) (grids (pack k)) -> 0 <= num < 2147483648 ->
  num <= GetItemNum id (pack k) ->
  exists k', RemoveItem id num k = Some (0, k')
    /\ pack_wf (pack k') /\ maxgrid (pack k') = maxgrid (pack k) /\ NoDup (g_pos <$> grids (pack k'))
    /\ (forall P : Z -> Prop, Forall P (g_pos <$> grids (pack k)) -> Forall P (g_pos <$> grids (pack k')))
    /\ (Forall full (grids (pack k)) -> Forall full (grids (pack k')))
    /\ Z.of_nat (length (grids (pack k'))) = Z.of_nat (length (grids (pack k))) - num
    /\ forall id', GetItemNum id' (pack k') = GetItemNum id' (pack k)
                    - (if id' =? id then num else 0).
Proof.
  intros Hwf Hnd Hlt Hnum Hle. rewrite (GetItemNum_held id) in Hle by done. unfold RemoveItem.
  apply wp_run_ret. wp_steps. rewrite GetItemNum_held, i32_small by (done || lia).
  destruct (Z.ltb_spec (held id (grids (pack k))) num); [lia|].
  destruct (dec_items_spec id num _ (wf_num _ Hwf) Hnum Hle)
    as (gs & rm & -> & Ht & Hp & Hh & Hl & Hs & He & Hfu).
  pose proof (f_equal length Hp) as Hlen. rewrite !length_fmap in Hlen.
  unfold on_pack, FireEvent. wp_steps. pose proof Hwf as [Hmax Hlen' _].
  eapply wp_mono.
  { apply remove_grids_spec; simpl.
    - split; simpl; [done|lia|done].
    - by rewrite Hp.
    - apply (Forall_fmap g_pos (fun q => q < maxgrid (pack k))). rewrite Hp. by apply Forall_fmap.
    - by eapply sublist_NoDup.
    - done. }
  intros _ k' (Hwf' & Hm & Hnd' & Hl' & Hh' & _ & HF). wp_steps. simpl in *.
  split_and!; try done.
  - intros P HP. apply Forall_fmap. apply HF. rewrite <- Hp in HP.
    eapply Forall_impl; [exact (proj1 (Forall_fmap _ _ _) HP)|]. by left.
  - intros Hfull. by apply HF, Hfu.
  - lia.
  - intros id'. rewrite !GetItemNum_held by done. rewrite Hh'. simpl. apply Hh.
Qed.

(** C28. [RemoveItem], on a package of at most [maxgrid] grids, each empty or
    full, at distinct positions below [maxgrid] (not so after
    [PutItem_overfull]), for a number below 2^31: it refuses to take more than
    the player holds, and changes nothing; otherwise the player holds [num] fewer
    of the item and as many of every other, the emptied grids are gone, and the
    package is still of that form. *)
Theorem RemoveItem_count (id num : Z) (k : Knap) :
  pack_wf (pack k) -> NoDup (g_pos <$> grids (pack k)) ->
  Forall (fun g => g_pos g < maxgrid (pack k)) (grids (pack k)) -> 0 <= num < 2147483648 ->
  (GetItemNum id (pack k) < num -> RemoveItem id num k = Some (-1, k))
  /\ (num <= GetItemNum id (pack k) -> exists k', RemoveItem id num k = Some (0, k')
        /\ pack_wf (pack k') /\ NoDup (g_pos <$> grids (pack k'))
        /\ Forall (fun g => g_pos g < maxgrid (pack k')) (grids (pack k'))
        /\ Z.of_nat (length (grids (pack k'))) = Z.of_nat (length (grids (pack k))) - num
        /\ forall id', GetItemNum id' (pack k') = GetItemNum id' (pack k)
                        - (if id' =? id then num else 0)).
Proof.
  intros Hwf Hnd Hlt Hnum. split; intros Hle.
  - unfold RemoveItem, mbind, M_bind, gets. rewrite i32_small by lia.
    by destruct (Z.ltb_spec (GetItemNum id (pack k)) num); [|lia].
  - destruct (RemoveItem_run id num k Hwf Hnd Hlt Hnum Hle) as (k' & E & Hwf' & Hm & Hnd' & HP & _ & Hl & Hn).
    exists k'. split_and!; try done. apply (Forall_fmap g_pos (fun q => q < maxgrid (pack k'))).
    rewrite Hm. by apply HP, Forall_fmap.
Qed.

(** ** Packages in order *)

(** Every grid holds an item, at a position of its own that a client can give:
    the packages that [PutItem] and [RemoveItem] are made for. *)
Record placed (p : RolePackage) : Prop := {
  pl_max : 0 <= maxgrid p < 2147483648;
  pl_full : Forall full (grids p);
  pl_nodup : NoDup (g_pos <$> grids p);
  pl_range : Forall (fun q => 1 <= q < maxgrid p) (g_pos <$> grids p)
}.

(** Distinct positions from [1] on: there are fewer than [maxgrid] grids. *)
Lemma placed_length p : placed p -> Z.of_nat (length (grids p)) <= Z.max 0 (maxgrid p - 1).
Proof.
  intros [Hm _ Hnd Hr]. rewrite <- (length_fmap g_pos).
  assert (g_pos <$> grids p ⊆+ seqZ 1 (maxgrid p - 1)) as Hsub.
  { apply NoDup_submseteq; [done|]. intros q Hq. rewrite Forall_forall in Hr.
    apply elem_of_seqZ. pose proof (Hr q Hq). lia. }
  apply submseteq_length in Hsub. rewrite length_seqZ in Hsub. lia.
Qed.

Lemma placed_wf p : placed p -> pack_wf p.
Proof.
  intros Hp. pose proof (placed_length p Hp). destruct Hp as [Hm Hf _ _].
  split; [done|lia|]. eapply Forall_impl; [exact Hf|]. by right.
Qed.

(** With a position to spare, [GetFreeGridPos] finds one that no grid has; the
    grid just added, without a number, does not count. *)
Lemma GetFreeGridPos_fresh p gs g0 :
  0 <= maxgrid p < 2147483648 -> grids p = gs ++ [g0] -> g_num g0 = 0 -> Forall full gs ->
  Z.of_nat (length gs) + 1 < maxgrid p ->
  exists pos, GetFreeGridPos p = Some pos /\ 1 <= pos < maxgrid p /\ pos ∉ (g_pos <$> gs).
Proof.
  intros Hm Hg H0 Hf Hlen. destruct (GetFreeGridPos_total p Hm) as (pos & E & Hpos). exists pos. split; [done|].
  assert (forall r, r ∈ g_pos <$> gs -> IsGridFill r p = true) as Hin.
  { intros r (g & -> & Hgin)%list_elem_of_fmap. unfold IsGridFill. apply orb_true_iff. right.
    apply existsb_exists. exists g. rewrite Hg. split; [apply in_or_app; left; by apply list_elem_of_In|].
    rewrite Forall_forall in Hf. by rewrite Z.eqb_refl, (Hf g Hgin). }
  destruct Hpos as [[Hr Hfree]|[-> Hall]].
  { split; [done|]. intros Hin'. by rewrite (Hin _ Hin') in Hfree. }
  exfalso. assert (seqZ 1 (maxgrid p - 1) ⊆+ g_pos <$> gs) as Hsub.
  { apply NoDup_submseteq; [apply NoDup_seqZ|]. intros r Hr%elem_of_seqZ.
    pose proof (Hall r ltac:(lia)) as Hfill. unfold IsGridFill in Hfill. apply orb_true_iff in Hfill as [Hle|Hex].
    - apply Z.leb_le in Hle. lia.
    - apply existsb_exists in Hex as (g & Hgin & [Hgp Hgn]%andb_true_iff).
      apply Z.eqb_eq in Hgp. apply Z.ltb_lt in Hgn. rewrite Hg in Hgin.
      apply in_app_or in Hgin as [Hgin|[<-|[]]]; [|lia].
      apply list_elem_of_fmap. exists g. split; [done|]. by apply list_elem_of_In. }
  apply submseteq_length in Hsub. rewrite length_seqZ, length_fmap in Hsub. lia.
Qed.

Lemma put_new_placed fuel item num k :
  placed (pack k) -> 0 <= num -> num <= Z.of_nat fuel ->
  Z.of_nat (length (grids (pack k))) + num < Z.max 1 (maxgrid (pack k)) ->
  wp (put_new fuel item num) (fun _ k' => placed (pack k')) k.
Proof.
  revert num k. induction fuel as [|fuel IH]; intros num k Hp H0 Hfuel Hroom; cbn [put_new];
    (destruct (Z.ltb_spec 0 num); [|by apply wp_ret]); [lia|].
  destruct Hp as [Hmax Hfull Hnd Hr]. unfold CreateItem, on_pack. wp_steps.
  match goal with |- wp (lift (GetFreeGridPos ?p)) _ _ =>
    destruct (GetFreeGridPos_fresh p (grids (pack k)) (mkRolePackGrid (item <| it_gid := nextgid (pack k) |>) 0 0))
      as (pos & E & Hpos & Hnew); [done..|simpl; lia|] end.
  eapply wp_lift; [exact E|]. clear E. wp_steps. change (_ <= pos < _) with (1 <= pos < maxgrid (pack k)) in Hpos.
  rewrite (i32_small num) by lia. unfold iMaxTiled at 1 3.
  destruct (Z.gtb_spec 1 num); [lia|]. unfold iMaxTiled. rewrite u32_small by lia.
  set (k1 := setf _ _). assert (grids (pack k1) = grids (pack k) ++ [mkRolePackGrid (item <| it_gid := nextgid (pack k) |>) 1 pos]) as Hg.
  { subst k1. simpl. by rewrite removelast_last, u32_small by lia. }
  assert (maxgrid (pack k1) = maxgrid (pack k)) as Hm by done. clearbody k1. apply IH.
  - split; rewrite ?Hm, ?Hg, ?fmap_app; [done|apply Forall_app; by split; [|repeat constructor]| |].
    + apply NoDup_app. split_and!; [done| |apply NoDup_singleton]. by intros q Hq ->%list_elem_of_singleton.
    + apply Forall_app. split; [done|]. by apply Forall_singleton.
  - lia.
  - lia.
  - rewrite Hm, Hg, length_app. simpl. lia.
Qed.

(** Items that leave a position free keep a package in order. *)
Theorem PutItem_placed (item : RoleItem) (num : Z) (k : Knap) :
  placed (pack k) -> 0 <= num -> Z.of_nat (length (grids (pack k))) + num < Z.max 1 (maxgrid (pack k)) ->
  exists k', PutItem item num k = Some (0, k') /\ placed (pack k').
Proof.
  intros Hp H0 Hlen. pose proof (placed_wf _ Hp) as Hwf. pose proof (pl_max _ Hp) as Hmax.
  pose proof (held_room_bound (it_id item) _ (wf_num _ Hwf)) as [_ Hroom].
  apply wp_run_ret. unfold PutItem, on_pack, FireEvent. wp_steps. eapply wp_lift; [by apply GetItemCapacity_room|].
  rewrite i32_small by lia. match goal with |- context [?a <? num] => destruct (Z.ltb_spec a num); [lia|] end.
  rewrite put_fill_full by exact (pl_full _ Hp). wp_steps.
  eapply wp_mono; [apply put_new_placed; simpl; [by destruct Hp|lia..]|]. intros u k' Hk'. by wp_steps.
Qed.

(** Taking items keeps a package in order. *)
Theorem RemoveItem_placed (id num : Z) (k : Knap) :
  placed (pack k) -> 0 <= num <= GetItemNum id (pack k) ->
  exists k', RemoveItem id num k = Some (0, k') /\ placed (pack k').
Proof.
  intros Hp Hnum. pose proof (placed_wf _ Hp) as Hwf. pose proof Hp as [Hmax Hf Hnd Hr].
  pose proof (held_room_bound id _ (wf_num _ Hwf)) as [Hheld _]. pose proof (wf_len _ Hwf).
  rewrite (GetItemNum_held id) in Hnum by done.
  destruct (RemoveItem_run id num k Hwf Hnd) as (k' & E & Hwf' & Hm & Hnd' & HP & Hf' & _).
  - eapply Forall_impl; [exact (proj1 (Forall_fmap _ _ _) Hr)|]. simpl. lia.
  - lia.
  - rewrite GetItemNum_held by done. lia.
  - exists k'. split; [done|]. split; rewrite ?Hm; auto.
Qed.

(** A number of 2^31 or more is negative as an [int]: it passes the test of the
    capacity, and one new grid is given the whole number. *)
Theorem PutItem_huge (item : RoleItem) (num : Z) (k : Knap) :
  placed (pack k) -> 2147483648 <= num < 4294967296 ->
  exists k' g, PutItem item num k = Some (0, k') /\ grids (pack k') = grids (pack k) ++ [g] /\ g_num g = num.
Proof.
  intros Hp Hnum. pose proof (placed_wf _ Hp) as Hwf. pose proof (pl_max _ Hp) as Hmax. pose proof (wf_len _ Hwf).
  pose proof (held_room_bound (it_id item) _ (wf_num _ Hwf)) as [_ Hroom].
  assert (i32 num < 0) as Hneg.
  { unfold i32. rewrite <- (Z_mod_plus_full _ (-1)), Z.mod_small by lia. lia. }
  enough (wp (PutItem item num) (fun r k' => r = 0 /\ exists g, grids (pack k') = grids (pack k) ++ [g] /\ g_num g = num) k) as Hw.
  { apply wp_run_ret in Hw as (k' & E & g & Hg). by exists k', g. }
  unfold PutItem, on_pack, FireEvent. wp_steps. eapply wp_lift; [by apply GetItemCapacity_room|].
  match goal with |- context [?a <? i32 num] => destruct (Z.ltb_spec a (i32 num)); [lia|] end.
  rewrite put_fill_full by exact (pl_full _ Hp). wp_steps.
  destruct (Z.to_nat num) as [|fuel] eqn:Efuel; [lia|]. cbn [put_new].
  destruct (Z.ltb_spec 0 num); [|lia]. unfold CreateItem, on_pack. wp_steps.
  match goal with |- wp (lift (GetFreeGridPos ?p)) _ _ => destruct (GetFreeGridPos_total p Hmax) as (pos & E & _) end.
  eapply wp_lift; [exact E|]. clear E. wp_steps. unfold iMaxTiled.
  destruct (Z.gtb_spec 1 (i32 num)); [|lia]. destruct fuel; cbn [put_new Z.ltb Z.compare]; wp_steps;
    (split; [done|]); eexists; (split; [simpl; by rewrite removelast_last|done]).
Qed.

(** ** Concrete packages *)

Module KnapsackWitness.

Definition sword : RoleItem := mkRoleItem 7 1 0.
Definition shield : RoleItem := mkRoleItem 9 1 0.

(** Two of three grids used. *)
Definition two_of_three : Knap :=
  mkKnap (mkRolePackage 3 [mkRolePackGrid sword 1 1; mkRolePackGrid shield 1 2] 2) [].

(** A shield at position 2 of ten, two swords around it. *)
Definition three_of_ten : Knap :=
  mkKnap (mkRolePackage 10 [mkRolePackGrid sword 1 1; mkRolePackGrid shield 1 2;
                            mkRolePackGrid sword 1 3] 3) [].

Lemma three_of_ten_wf : pack_wf (pack three_of_ten).
Proof. split; simpl; [lia..|]. repeat apply Forall_cons_2; [by right..|]. apply Forall_nil_2. Defined.

Lemma PutItem_count_witness :
  exists k', PutItem shield 7 three_of_ten = Some (0, k')
    /\ GetItemNum 9 (pack k') = 8 /\ GetItemNum 7 (pack k') = 2.
Proof.
  destruct (PutItem_count shield 7 three_of_ten three_of_ten_wf ltac:(lia)) as (_ & _ & H).
  destruct (H ltac:(vm_compute; discriminate)) as (k' & E & _ & _ & _ & Hn).
  exists k'. split; [exact E|]. split; [exact (Hn 9) | exact (Hn 7)].
Defined.

Lemma PutItem_overfull_witness :
  exists k' g, PutItem sword 1 two_of_three = Some (0, k')
    /\ grids (pack k') = grids (pack two_of_three) ++ [g] /\ g_pos g = 4294967295
    /\ it_id (g_item g) = it_id sword
    /\ FindPackGridIdx (g_pos g) (pack k') = None /\ RemoveGrid (g_pos g) k' = Some (-1, k').
Proof.
  apply (PutItem_overfull sword two_of_three).
  - simpl. lia.
  - repeat constructor.
  - vm_compute. reflexivity.
Defined.

Lemma RemoveItem_count_witness :
  exists k', RemoveItem 7 2 three_of_ten = Some (0, k')
    /\ Z.of_nat (length (grids (pack k'))) = 1
    /\ GetItemNum 7 (pack k') = 0 /\ GetItemNum 9 (pack k') = 1.
Proof.
  destruct (RemoveItem_count 7 2 three_of_ten three_of_ten_wf) as [_ H].
  - apply (bool_decide_eq_true_1 _). vm_compute. reflexivity.
  - repeat constructor.
  - lia.
  - destruct H as (k' & E & _ & _ & _ & Hl & Hn); [vm_compute; discriminate|].
    exists k'. split; [exact E|]. split; [exact Hl|]. split; [exact (Hn 7) | exact (Hn 9)].
Defined.

End KnapsackWitness.
