(* ===== verification/GateClientHandler.v ===== *)
(** * The client's end of the gate ([client/gate/GateClientHandler.{h,cpp}])

    The client library connects to the gate, asks for authorisation, frames
    what it sends and cuts what it receives into messages. Its upcalls
    ([OnConnect], [OnNeedAuth], ...) are virtual: a call is an event of the
    trace, and what a derived class does in it is an argument. *)

From S2P Require Import Prelude CString Extern WireFormat WireReference TimerMgr ChannelMsgProxy GateMsg GateServerHandler.
From S2P Require Import GateFraming GateAgentChannelMsgHandler GateInvariant GateProtocol.

Definition GATE_CLI_STATE_CLOSED : Z := 0.
Definition GATE_CLI_STATE_CONNECTED : Z := 2.
Definition GATE_CLI_STATE_AUTHORIZING : Z := 3.
Definition GATE_CLI_STATE_AUTHORIZED : Z := 4.

Inductive CliEvt :=
| CSend (fd : Z) (data : bytes)
| COnConnect (success : bool)
| COnNeedAuth
| COnAuthResult (result : Z)
| COnMessage (msg : bytes)
| COnClose (by_myself : bool).

Record Client := mkClient {
  m_sock : Z;                       (* the descriptor of the socket *)
  m_iCurState : Z;
  m_iMsgLen : Z;
  m_rcvMsgBuffer : Buffer;
  m_packMsgBuffer : option Buffer;  (* [None]: [pBuffer] is null *)
  cli_trace : list CliEvt
}.
#[global] Instance eta_Client : Eta Client := fun r =>
  mkClient (m_sock r) (m_iCurState r) (m_iMsgLen r) (m_rcvMsgBuffer r) (m_packMsgBuffer r) (cli_trace r).

Definition cli_emit (e : CliEvt) : M Client unit := modify (fun c => c <| cli_trace ::= fun l => l ++ [e] |>).

(** ** Sending *)

Section Sending.
Context {B0 : BufferLib} {CCS : Codec GateCSMsg}.
(** The result of a send after a history. *)
Context (Send_ret : list CliEvt -> Z -> bytes -> Z).

Definition cli_Send (data : bytes) : M Client Z :=
  c ← gets (fun c => c);
  cli_emit (CSend (m_sock c) data);;
  mret (Send_ret (cli_trace c) (m_sock c) data).

(** [GateClientHandler::GateClientHandler]; without memory there is no buffer. *)
Definition GateClientHandler_new : option Client :=
  b ← buffer_Create (65536 + 4);
  Some (mkClient (-1) GATE_CLI_STATE_CLOSED 0 b None []).

Definition SendFrame (pBuffer : bytes) (iBuffLen : Z) : M Client Z :=
  assert (iBuffLen <? 65536);;
  r ← cli_Send (htons_bytes (u16 iBuffLen));
  if negb (r =? 0) then mret (-1)
  else data ← lift (slice 0 iBuffLen pBuffer); cli_Send data.

(** [Authorize]: the buffer of the request is not checked; without memory
    there is nothing to write to. *)
Definition Authorize (type uid : Z) (pszToken : string) : M Client Z :=
  let ga := mkGateCSMsg GATE_AUTH_REQ (Some (mkAuthReq uid (u32 type) pszToken 1)) None in
  buff ← lift (buffer_Create (ByteSize ga));
  data ← lift (pack_buffer ga buff);
  SendFrame data (iCap buff).

(** [SendMessage]: the packing buffer grows to the message. *)
Definition SendMessage {T} `{Codec T} (msg : T) : M Client Z :=
  let len := ByteSize msg in
  c ← gets (fun c => c);
  buff ← lift (match m_packMsgBuffer c with
               | Some b => if iCap b <? len then buffer_Create len else Some b
               | None => buffer_Create len
               end);
  modify (fun c => c <| m_packMsgBuffer := Some buff |>);;
  match SerializeToArray msg len with
  | None => mret (-1)
  | Some s =>
      m ← lift (memcpy_at (iCap buff) 0 s (pBuffer buff));
      modify (fun c => c <| m_packMsgBuffer := Some (buff <| pBuffer := m |> <| iUsed := len |>) |>);;
      SendFrame m len
  end.

End Sending.

(** ** Receiving *)

(** The upcalls of the class itself only log. *)
Definition own_upcall (e : CliEvt) : M Client Z := mret 0.

Section Receiving.
Context {CCS : Codec GateCSMsg}.
(** What the class of the object does in an upcall. *)
Context (virt : CliEvt -> M Client Z).

Definition upcall (e : CliEvt) : M Client Z := cli_emit e;; virt e.

Definition DispatchMessage (msg : bytes) : M Client Z :=
  c ← gets (fun c => c);
  if (m_iCurState c =? GATE_CLI_STATE_CONNECTED) || (m_iCurState c =? GATE_CLI_STATE_AUTHORIZING) then
    match parse msg with
    | None => mret (-1)
    | Some ga =>
        if cs_cmd ga =? GATE_NEED_AUTH then
          modify (fun c => c <| m_iCurState := GATE_CLI_STATE_AUTHORIZING |>);;
          upcall COnNeedAuth
        else if cs_cmd ga =? GATE_AUTH_RSP then
          let iResult := i32 (default 0 (cs_authrsp ga)) in
          (if iResult =? 0 then modify (fun c => c <| m_iCurState := GATE_CLI_STATE_AUTHORIZED |>)
           else mret tt);;
          upcall (COnAuthResult iResult)
        else crash
    end
  else if m_iCurState c =? GATE_CLI_STATE_AUTHORIZED then upcall (COnMessage msg)
  else crash.

Definition OnConnected (fd : Z) : M Client Z :=
  modify (fun c => c <| m_iCurState := GATE_CLI_STATE_CONNECTED |> <| m_sock := fd |>);;
  upcall (COnConnect true).

(** A copy into the receive buffer from its end of use. *)
Definition rcv_copy (src : bytes) : M Client unit :=
  c ← gets (fun c => c);
  let b := m_rcvMsgBuffer c in
  m ← lift (memcpy_at (iCap b) (iUsed b) src (pBuffer b));
  modify (fun c => c <| m_rcvMsgBuffer := b <| pBuffer := m |> |>).

(** The part of [OnDataRecv] that reads the length of a message: the offset
    in the data behind what it took. *)
Definition rcv_prefix (data : bytes) : M Client Z :=
  c ← gets (fun c => c);
  let b := m_rcvMsgBuffer c in
  let n := Z.of_nat (length data) in
  if 0 =? m_iMsgLen c then
    assert (iUsed b <? GATE_MESSAGE_PREFIX_LEN);;
    if GATE_MESSAGE_PREFIX_LEN <=? iUsed b + n then
      let off := GATE_MESSAGE_PREFIX_LEN - iUsed b in
      src ← lift (slice 0 off data);
      rcv_copy src;;
      c ← gets (fun c => c);
      len ← lift (read_u16 (pBuffer (m_rcvMsgBuffer c)));
      modify (fun c => c <| m_iMsgLen := len |> <| m_rcvMsgBuffer ::= fun b => b <| iUsed := 0 |> |>);;
      mret off
    else rcv_copy data;; mret 0
  else mret 0.

(** [OnDataRecv]; every call consumes a message, so the recursion is as deep
    as the data is long at most. *)
Fixpoint OnDataRecv (fuel : nat) (data : bytes) : M Client Z :=
  match fuel with
  | O => crash
  | S fuel =>
      off ← rcv_prefix data;
      c ← gets (fun c => c);
      let n := Z.of_nat (length data) in
      let b := m_rcvMsgBuffer c in
      if 0 =? m_iMsgLen c then mret 0
      else if m_iMsgLen c <=? n + iUsed b - off then
        let take_ := m_iMsgLen c - iUsed b in
        src ← lift (slice off take_ data);
        rcv_copy src;;
        c ← gets (fun c => c);
        msg ← lift (slice 0 (m_iMsgLen c) (pBuffer (m_rcvMsgBuffer c)));
        iMsgRet ← DispatchMessage msg;
        let iRet := if iMsgRet =? 0 then 0 else 1 in
        modify (fun c => c <| m_iMsgLen := 0 |> <| m_rcvMsgBuffer ::= fun b => b <| iUsed := 0 |> |>);;
        if n <=? off + take_ then mret iRet
        else
          r ← OnDataRecv fuel (drop (Z.to_nat (off + take_)) data);
          mret (i32 (iRet + r))
      else mret 0
  end.

Definition OnDisconnected : M Client Z :=
  modify (fun c => c <| m_iCurState := GATE_CLI_STATE_CLOSED |> <| m_sock := -1 |>
    <| m_iMsgLen := 0 |> <| m_rcvMsgBuffer ::= fun b => b <| iUsed := 0 |> |>);;
  upcall (COnClose false).

(** ** Receiving frames *)

(** Between two messages. *)
Definition idle (c : Client) : Prop :=
  m_iMsgLen c = 0 /\ iUsed (m_rcvMsgBuffer c) = 0 /\ iCap (m_rcvMsgBuffer c) = 65540.

Lemma wp_rcv_copy src c Q :
  iUsed (m_rcvMsgBuffer c) = 0 -> Z.of_nat (length src) <= iCap (m_rcvMsgBuffer c) ->
  (forall tl, Q tt (c <| m_rcvMsgBuffer ::= fun b => b <| pBuffer := src ++ tl |> |>)) ->
  wp (rcv_copy src) Q c.
Proof.
  intros Hu Hl HQ. unfold rcv_copy. wp_steps. rewrite Hu.
  destruct (memcpy_front _ _ (pBuffer (m_rcvMsgBuffer c)) Hl) as [tl E].
  eapply wp_lift; [exact E|]. wp_steps. apply HQ.
Qed.

Lemma wp_rcv_prefix msg body c Q :
  idle c -> fits msg ->
  (forall b, iUsed b = 0 -> iCap b = 65540 ->
     Q 2 (c <| m_iMsgLen := Z.of_nat (length msg) |> <| m_rcvMsgBuffer := b |>)) ->
  wp (rcv_prefix (htons_bytes (Z.of_nat (length msg)) ++ body)) Q c.
Proof.
  intros (Hm & Hu & Hc) Hfit HQ. unfold rcv_prefix. wp_steps. rewrite Hm, Hu.
  unfold GATE_MESSAGE_PREFIX_LEN. change (0 =? 0) with true. cbv iota. wp_steps; [done|].
  rewrite (proj2 (Z.leb_le 2 _)) by (rewrite length_app; simpl; lia). change (2 - 0) with 2. wp_steps.
  eapply wp_lift; [by apply (slice_mid [])|].
  wp_steps. apply wp_rcv_copy; [done|rewrite Hc; done|]. intros tl. wp_steps.
  eapply wp_lift; [by apply read_prefix|]. wp_steps.
  set (b := mkBuffer (iCap (m_rcvMsgBuffer c)) 0 (htons_bytes (Z.of_nat (length msg)) ++ tl)).
  by apply (HQ b).
Qed.

(** An object that only reports: apart from the request to log in, its upcalls
    do nothing to the client and return [0], as those of the class itself do. *)
Definition quiet : Prop := forall e c, e <> COnNeedAuth -> virt e c = Some (0, c).

(** What a message does to the state and the upcalls of a quiet object, as a
    function; a request to log in is not part of it. *)
Abbreviation view := (Z * list CliEvt)%type.
Definition client_view (c : Client) : view := (m_iCurState c, cli_trace c).
Definition set_view (v : view) (c : Client) : Client := c <| m_iCurState := v.1 |> <| cli_trace := v.2 |>.

Definition dispatch (msg : bytes) (v : view) : option (Z * view) :=
  let '(st, tr) := v in
  if bool_decide (st ∈ [GATE_CLI_STATE_CONNECTED; GATE_CLI_STATE_AUTHORIZING]) then
    match parse msg with
    | None => Some (-1, v)
    | Some (mkGateCSMsg cmd _ rsp) =>
        let res := i32 (default 0 rsp) in
        if cmd =? GATE_NEED_AUTH then None
        else if cmd =? GATE_AUTH_RSP then
          Some (0, (if res =? 0 then GATE_CLI_STATE_AUTHORIZED else st, tr ++ [COnAuthResult res]))
        else None
    end
  else if st =? GATE_CLI_STATE_AUTHORIZED then Some (0, (st, tr ++ [COnMessage msg])) else None.

Fixpoint dispatch_all (msgs : list bytes) (v : view) : option (Z * view) :=
  match msgs with
  | [] => Some (0, v)
  | msg :: msgs =>
      '(r, v) ← dispatch msg v;
      '(n, v) ← dispatch_all msgs v;
      Some ((if r =? 0 then 0 else 1) + n, v)
  end.

Lemma DispatchMessage_dispatch msg c r v :
  quiet -> dispatch msg (client_view c) = Some (r, v) -> DispatchMessage msg c = Some (r, set_view v c).
Proof.
  intros Hq. destruct c as [sk st len rb pb tr].
  unfold DispatchMessage, dispatch, client_view, set_view, upcall, cli_emit, gets, modify, mbind, M_bind, mret, M_ret.
  simpl. destruct (Z.eqb_spec st GATE_CLI_STATE_CONNECTED) as [->|H1];
    [|destruct (Z.eqb_spec st GATE_CLI_STATE_AUTHORIZING) as [->|H2]]; simpl.
  3: { rewrite bool_decide_false by (rewrite !elem_of_cons, elem_of_nil; tauto).
       destruct (st =? GATE_CLI_STATE_AUTHORIZED); [|done]. intros [= <- <-]. by rewrite Hq. }
  all: destruct (parse msg) as [[cmd req rsp]|]; simpl; [|by intros [= <- <-]].
  all: destruct (cmd =? GATE_NEED_AUTH), (cmd =? GATE_AUTH_RSP); try done; simpl.
  all: destruct (_ =? 0); intros [= <- <-]; by rewrite Hq.
Qed.

(** After a message: ready for the next prefix. *)
Definition next_prefix (c : Client) : Client :=
  c <| m_iMsgLen := 0 |> <| m_rcvMsgBuffer ::= fun b => b <| iUsed := 0 |> |>.

(** One frame of the data is dispatched, the rest is read after it. *)
Lemma rcv_frame_run fuel msg rest c Q :
  idle c -> fits msg ->
  (forall c2, client_view c2 = client_view c -> m_sock c2 = m_sock c -> m_packMsgBuffer c2 = m_packMsgBuffer c ->
     iCap (m_rcvMsgBuffer c2) = 65540 ->
     wp (DispatchMessage msg) (fun r c3 =>
       if decide (rest = []) then Q (if r =? 0 then 0 else 1) (next_prefix c3)
       else wp (OnDataRecv fuel rest) (fun r2 => Q (i32 ((if r =? 0 then 0 else 1) + r2))) (next_prefix c3)) c2) ->
  wp (OnDataRecv (S fuel) (frame msg ++ rest)) Q c.
Proof.
  intros Hidle Hfit HQ. pose proof Hfit as [Hpos Hmax]. unfold MAX_GATE_FRAME_SIZE in Hmax.
  set (L := Z.of_nat (length msg)) in *. set (n := Z.of_nat (length (frame msg ++ rest))).
  assert (n = 2 + L + Z.of_nat (length rest)) as Hn.
  { unfold n. rewrite length_app, Nat2Z.inj_add, length_frame. lia. }
  cbn [OnDataRecv]. fold n.
  replace (frame msg ++ rest) with (htons_bytes L ++ msg ++ rest) by (unfold frame; by rewrite <- app_assoc).
  apply wp_bind. apply wp_rcv_prefix; [done..|]. intros b Hbu Hbc. fold L. wp_steps.
  set (c1 := c <| m_iMsgLen := L |> <| m_rcvMsgBuffer := b |>).
  change (m_iMsgLen c1) with L. change (m_rcvMsgBuffer c1) with b. rewrite Hbu.
  destruct (Z.eqb_spec 0 L); [lia|]. rewrite (proj2 (Z.leb_le L (n + 0 - 2))) by lia.
  rewrite Z.sub_0_r. wp_steps.
  eapply wp_lift; [by apply (slice_mid (htons_bytes L) msg rest)|]. wp_steps.
  apply wp_rcv_copy; [done|simpl; fold L; lia|]. intros tl. wp_steps.
  set (c2 := c1 <| m_rcvMsgBuffer ::= _ |>). change (m_iMsgLen c2) with L.
  change (pBuffer (m_rcvMsgBuffer c2)) with (msg ++ tl).
  eapply wp_lift; [by apply (slice_mid [] msg tl)|]. wp_steps.
  assert (drop (Z.to_nat (2 + L)) (htons_bytes L ++ msg ++ rest) = rest) as ->.
  { rewrite app_assoc. apply drop_app_length'. rewrite length_app. simpl. lia. }
  eapply wp_mono; [apply (HQ c2); done|]. intros r c3 H3. wp_steps. fold (next_prefix c3).
  destruct (Z.leb_spec n (2 + L)); destruct (decide (rest = [])) as [->|Hne].
  - by wp_steps.
  - exfalso. destruct rest; [done|]. simpl in Hn. lia.
  - exfalso. simpl in Hn. lia.
  - wp_steps. eapply wp_mono; [exact H3|]. intros r2 c4 H4. by wp_steps.
Qed.

Lemma rcv_frame fuel msg rest c r v Q :
  quiet -> idle c -> fits msg -> dispatch msg (client_view c) = Some (r, v) ->
  (forall c1, idle c1 -> client_view c1 = v -> m_sock c1 = m_sock c ->
     if decide (rest = []) then Q (if r =? 0 then 0 else 1) c1
     else wp (OnDataRecv fuel rest) (fun r2 => Q (i32 ((if r =? 0 then 0 else 1) + r2))) c1) ->
  wp (OnDataRecv (S fuel) (frame msg ++ rest)) Q c.
Proof.
  intros Hq Hidle Hfit Hd HQ. apply rcv_frame_run; [done..|]. intros c2 Hv Hs _ Hcap. rewrite <- Hv in Hd.
  unfold wp at 1. rewrite (DispatchMessage_dispatch _ _ _ _ Hq Hd). apply HQ; [done|by destruct v|done].
Qed.

Lemma dispatch_all_bound msgs v n v' :
  dispatch_all msgs v = Some (n, v') -> 0 <= n <= Z.of_nat (length msgs).
Proof.
  revert v n v'. induction msgs as [|msg msgs IH]; intros v n v' E; simpl in E; [simplify_eq; simpl; lia|].
  destruct (dispatch msg v) as [[r v1]|]; simpl in E; [|done].
  destruct (dispatch_all msgs v1) as [[m v2]|] eqn:E2; simpl in E; [|done].
  specialize (IH _ _ _ E2). simplify_eq. simpl length. destruct (r =? 0); lia.
Qed.

(** The frames of one read are dispatched one after the other. *)
Lemma rcv_frames msgs fuel c n v' :
  quiet -> msgs <> [] -> (length msgs <= fuel)%nat -> Z.of_nat (length msgs) < 2147483648 ->
  idle c -> Forall fits msgs -> dispatch_all msgs (client_view c) = Some (n, v') ->
  wp (OnDataRecv fuel (concat (frame <$> msgs))) (fun r c' =>
    r = n /\ client_view c' = v' /\ idle c' /\ m_sock c' = m_sock c) c.
Proof.
  intros Hq. revert fuel c n. induction msgs as [|msg msgs IH]; intros fuel c n Hne Hfuel Hlen Hidle Hfits Hd; [done|].
  inv Hfits. cbn [dispatch_all] in Hd. simpl in Hfuel, Hlen. destruct fuel as [|fuel]; [lia|].
  destruct (dispatch msg (client_view c)) as [[r v1]|] eqn:E1; cbn [mbind option_bind] in Hd; [|done].
  destruct (dispatch_all msgs v1) as [[m v2]|] eqn:E2; cbn [mbind option_bind] in Hd; [|done]. simplify_eq.
  pose proof (dispatch_all_bound _ _ _ _ E2) as Hm.
  rewrite fmap_cons. cbn [concat]. eapply rcv_frame; [done..|]. intros c1 Hi1 Hv1 Hs1.
  destruct (decide (concat (frame <$> msgs) = [])) as [He|Hne'].
  - destruct msgs as [|msg' msgs]; [|done]. simpl in E2. simplify_eq. by rewrite Z.add_0_r.
  - assert (msgs <> []) as Hmsgs by (intros ->; done).
    eapply wp_mono; [apply (IH fuel c1 m); try done; [lia|lia|by rewrite Hv1]|].
    cbv beta. intros r2 c' (-> & Hv & Hi & Hs). rewrite Hs, Hs1.
    split_and!; try done. rewrite i32_small; [done|]. destruct (r =? 0); lia.
Qed.

(** ** Sessions *)

Context `{!CodecLaws GateCSMsg}.

Definition auth_ok : GateCSMsg := mkGateCSMsg GATE_AUTH_RSP None (Some 0).
Hypothesis auth_ok_representable : representable auth_ok.

Lemma dispatch_authorized msgs tr :
  dispatch_all msgs (GATE_CLI_STATE_AUTHORIZED, tr)
  = Some (0, (GATE_CLI_STATE_AUTHORIZED, tr ++ (COnMessage <$> msgs))).
Proof.
  revert tr. induction msgs as [|msg msgs IH]; intros tr; [by rewrite app_nil_r|].
  cbn [dispatch_all]. unfold dispatch at 1.
  change (bool_decide (GATE_CLI_STATE_AUTHORIZED ∈ [GATE_CLI_STATE_CONNECTED; GATE_CLI_STATE_AUTHORIZING]))
    with false. cbn -[dispatch_all fmap].
  rewrite IH. cbn -[fmap]. rewrite fmap_cons. by rewrite <- (assoc_L (++)).
Qed.

Lemma dispatch_session msgs st tr :
  st = GATE_CLI_STATE_CONNECTED \/ st = GATE_CLI_STATE_AUTHORIZING ->
  dispatch_all (serialize auth_ok :: msgs) (st, tr)
  = Some (0, (GATE_CLI_STATE_AUTHORIZED, tr ++ COnAuthResult 0 :: (COnMessage <$> msgs))).
Proof.
  intros Hst. cbn [dispatch_all]. unfold dispatch at 1.
  rewrite bool_decide_true by set_solver. rewrite parse_serialize by done. cbn -[dispatch_all fmap].
  rewrite dispatch_authorized. cbn -[fmap]. by rewrite <- (assoc_L (++)).
Qed.

Lemma session_run msgs c :
  quiet -> idle c ->
  m_iCurState c = GATE_CLI_STATE_CONNECTED \/ m_iCurState c = GATE_CLI_STATE_AUTHORIZING ->
  Forall fits (serialize auth_ok :: msgs) -> Z.of_nat (length msgs) < 2147483647 ->
  let data := concat (frame <$> serialize auth_ok :: msgs) in
  exists c', OnDataRecv (length data) data c = Some (0, c')
    /\ m_iCurState c' = GATE_CLI_STATE_AUTHORIZED
    /\ cli_trace c' = cli_trace c ++ COnAuthResult 0 :: (COnMessage <$> msgs)
    /\ idle c' /\ m_sock c' = m_sock c.
Proof.
  intros Hup Hidle Hst Hfits Hlen data.
  apply wp_run_ret. eapply wp_mono.
  { apply rcv_frames; [done|done|apply length_frames|simpl; lia|done|done|].
    by apply dispatch_session. }
  cbv beta. intros r c' (-> & Hv & Hi & Hs). unfold client_view in Hv. injection Hv as H1 H2. done.
Qed.

(** A client that waits for its authorisation and reads the gate's
    acceptance followed by any messages, all in one read, reports the
    acceptance, becomes authorised and reports every message once, in order
    and unchanged; it is then ready for the next frame. *)
Theorem OnDataRecv_session msgs c :
  quiet -> idle c ->
  m_iCurState c = GATE_CLI_STATE_CONNECTED \/ m_iCurState c = GATE_CLI_STATE_AUTHORIZING ->
  Forall fits (serialize auth_ok :: msgs) -> Z.of_nat (length msgs) < 2147483647 ->
  let data := concat (frame <$> serialize auth_ok :: msgs) in
  exists c', OnDataRecv (length data) data c = Some (0, c')
    /\ m_iCurState c' = GATE_CLI_STATE_AUTHORIZED
    /\ cli_trace c' = cli_trace c ++ COnAuthResult 0 :: (COnMessage <$> msgs)
    /\ idle c'.
Proof.
  intros Hup Hidle Hst Hfits Hlen data.
  destruct (session_run msgs c Hup Hidle Hst Hfits Hlen) as (c' & ? & ? & ? & ? & _). by exists c'.
Qed.

End Receiving.

(** ** What goes over the wire *)

(** The bytes an endpoint sent on a socket. *)
Definition cli_wire (fd : Z) (tr : list CliEvt) : bytes :=
  concat ((fun e => match e with CSend f d => if f =? fd then d else [] | _ => [] end) <$> tr).

Lemma cli_wire_app fd t1 t2 : cli_wire fd (t1 ++ t2) = cli_wire fd t1 ++ cli_wire fd t2.
Proof. unfold cli_wire. by rewrite fmap_app, concat_app. Qed.

Section SendingFrames.
Context (Send_ret : list CliEvt -> Z -> bytes -> Z).

Fixpoint SendFrames (msgs : list bytes) : M Client Z :=
  match msgs with
  | [] => mret 0
  | m :: msgs => r ← SendFrame Send_ret m (Z.of_nat (length m)); if r =? 0 then SendFrames msgs else mret r
  end.

(** The front of a buffer is sent as one frame. *)
Lemma SendFrame_prefix_wire msg tl c :
  (forall l fd d, Send_ret l fd d = 0) -> fits msg ->
  wp (SendFrame Send_ret (msg ++ tl) (Z.of_nat (length msg))) (fun r c' => r = 0
    /\ c' = c <| cli_trace ::= fun l => l ++ [CSend (m_sock c) (htons_bytes (Z.of_nat (length msg)));
                                              CSend (m_sock c) msg] |>) c.
Proof.
  intros Hs [Hpos Hmax]. unfold MAX_GATE_FRAME_SIZE in Hmax. unfold SendFrame, cli_Send, cli_emit.
  wp_steps; [apply Z.ltb_lt; lia|]. rewrite Hs. change (negb (0 =? 0)) with false. cbv iota. wp_steps.
  eapply wp_lift; [by apply (slice_mid [] msg tl)|]. wp_steps.
  rewrite Hs. split; [done|]. destruct c. unfold htons_bytes. rewrite !u16_small by (rewrite ?u16_small; lia).
  unfold setf. simpl. by rewrite <- (assoc_L (++)).
Qed.

Lemma SendFrame_wire msg c :
  (forall l fd d, Send_ret l fd d = 0) -> fits msg ->
  wp (SendFrame Send_ret msg (Z.of_nat (length msg))) (fun r c' => r = 0
    /\ c' = c <| cli_trace ::= fun l => l ++ [CSend (m_sock c) (htons_bytes (Z.of_nat (length msg)));
                                              CSend (m_sock c) msg] |>) c.
Proof. intros Hs Hf. rewrite <- (app_nil_r msg) at 1. by apply SendFrame_prefix_wire. Qed.

(** A message is sent as one frame, from a packing buffer that is kept or made. *)
Lemma SendMessage_wire {B0 : BufferLib} `{!BufferLaws} {T} `{CodecLaws T} (msg : T) c :
  (forall l fd d, Send_ret l fd d = 0) -> fits (serialize msg) -> is_Some (buffer_Create (ByteSize msg)) ->
  wp (SendMessage Send_ret msg) (fun r c' => r = 0
    /\ cli_wire (m_sock c) (cli_trace c') = cli_wire (m_sock c) (cli_trace c) ++ frame (serialize msg)
    /\ m_sock c' = m_sock c /\ m_iCurState c' = m_iCurState c /\ (idle c -> idle c')) c.
Proof.
  intros Hs Hfit [b0 Hb0]. pose proof (length_serialize msg) as Hl. unfold SendMessage. wp_steps.
  assert (exists b, match m_packMsgBuffer c with
    | Some b => if iCap b <? ByteSize msg then buffer_Create (ByteSize msg) else Some b
    | None => buffer_Create (ByteSize msg) end = Some b /\ ByteSize msg <= iCap b) as (b & Eb & Hb).
  { destruct (buffer_Create_cap _ _ Hb0) as [Hc0 _]. destruct (m_packMsgBuffer c) as [b1|]; [|exists b0; split; [done|lia]].
    destruct (Z.ltb_spec (iCap b1) (ByteSize msg)); [exists b0|exists b1]; (split; [done|lia]). }
  eapply wp_lift; [exact Eb|]. wp_steps. unfold SerializeToArray. rewrite Z.leb_refl.
  destruct (memcpy_front (iCap b) (serialize msg) (pBuffer b)) as [tl E]; [lia|]. wp_steps.
  eapply wp_lift; [exact E|]. wp_steps. rewrite <- Hl.
  eapply wp_mono; [by apply SendFrame_prefix_wire|]. intros r c' [-> ->]. split; [done|].
  simpl. rewrite cli_wire_app. unfold cli_wire at 2. simpl. by rewrite Z.eqb_refl, app_nil_r.
Qed.

(** The request to log in is sent as one frame. *)
Lemma Authorize_wire {B0 : BufferLib} `{!BufferLaws} `{CodecLaws GateCSMsg} type uid token c :
  let ga := mkGateCSMsg GATE_AUTH_REQ (Some (mkAuthReq uid (u32 type) token 1)) None in
  (forall l fd d, Send_ret l fd d = 0) -> fits (serialize ga) -> is_Some (buffer_Create (ByteSize ga)) ->
  wp (Authorize Send_ret type uid token) (fun r c' => r = 0
    /\ c' = c <| cli_trace ::= fun l => l ++ [CSend (m_sock c) (htons_bytes (Z.of_nat (length (serialize ga))));
                                              CSend (m_sock c) (serialize ga)] |>) c.
Proof.
  intros ga Hs Hfit [b Hb]. unfold Authorize. fold ga. wp_steps. eapply wp_lift; [exact Hb|]. wp_steps.
  destruct (pack_buffer_serialize ga b Hb) as [Hp Hc]. eapply wp_lift; [exact Hp|]. rewrite Hc, <- length_serialize.
  by apply SendFrame_wire.
Qed.

Lemma SendFrames_wire msgs c :
  (forall l fd d, Send_ret l fd d = 0) -> Forall fits msgs ->
  wp (SendFrames msgs) (fun r c' => r = 0 /\
    cli_wire (m_sock c) (cli_trace c') = cli_wire (m_sock c) (cli_trace c) ++ concat (frame <$> msgs)) c.
Proof.
  intros Hs Hf. revert c. induction Hf as [|m msgs Hm Hf IH]; intros c.
  { apply wp_ret. by rewrite app_nil_r. }
  cbn [SendFrames]. apply wp_bind. eapply wp_mono; [by apply SendFrame_wire|].
  intros r c1 [-> ->]. change (0 =? 0) with true. cbv iota. eapply wp_mono; [apply IH|].
  intros r c' [-> E]. split; [done|]. simpl in E. rewrite E, cli_wire_app.
  unfold cli_wire at 2. simpl. rewrite Z.eqb_refl, app_nil_r, <- (assoc_L (++)). done.
Qed.

End SendingFrames.

(** ** Client and gate together *)

Section EndToEnd.
Context {P : Type} {MP : MsgProxy P}.
Context {B0 : BufferLib} `{!BufferLaws}.
(** The messages are those of the generated code. *)
Context {WL : WireLib} {tag_bytes varint : Z -> bytes} {L : WireLaws tag_bytes varint}.
#[local] Instance ss_generated : Codec GateSSMsg := GateSSMsg_codec.
#[local] Instance cs_generated : Codec GateCSMsg := GateCSMsg_codec.
#[local] Instance ss_generated_laws : CodecLaws GateSSMsg := GateSSMsg_codec_laws.
#[local] Instance cs_generated_laws : CodecLaws GateCSMsg := GateCSMsg_codec_laws.
Context (gate_Send : list NetEvt -> Z -> bytes -> Z) (peer : Z -> Z * Z).
Context (cli_Send_ret : list CliEvt -> Z -> bytes -> Z) (virt : CliEvt -> M Client Z).
Implicit Types w : GateW P.

Definition gate_wire (fd : Z) (tr : list NetEvt) : bytes :=
  concat ((fun e => match e with NSend f d => if f =? fd then d else [] | _ => [] end) <$> tr).

Lemma gate_wire_app fd t1 t2 : gate_wire fd (t1 ++ t2) = gate_wire fd t1 ++ gate_wire fd t2.
Proof. unfold gate_wire. by rewrite fmap_app, concat_app. Qed.

Lemma gate_wire_frame fd msg :
  gate_wire fd [NSend fd (htons_bytes (Z.of_nat (length msg))); NSend fd msg] = frame msg.
Proof. unfold gate_wire. simpl. by rewrite Z.eqb_refl, app_nil_r. Qed.

Fixpoint SendFramesToClient (i : Z) (msgs : list bytes) : M (GateW P) Z :=
  match msgs with
  | [] => mret 0
  | m :: msgs =>
      r ← SendFrameToClient gate_Send i (GateFrame_new m (Z.of_nat (length m)));
      if r =? 0 then SendFramesToClient i msgs else mret r
  end.

Lemma SendFramesToClient_wire i c msgs w :
  0 <= i -> slot w i = Some c -> Forall fits msgs ->
  (forall tr d, gate_Send tr (cliSocket c) d = 0) ->
  wp (SendFramesToClient i msgs) (fun r w' => r = 0 /\
    gate_wire (cliSocket c) (trace w') = gate_wire (cliSocket c) (trace w) ++ concat (frame <$> msgs)) w.
Proof.
  intros Hi Hc Hf Hs. revert c w Hc Hs. induction Hf as [|m msgs Hm Hf IH]; intros c w Hc Hs.
  { apply wp_ret. by rewrite app_nil_r. }
  cbn [SendFramesToClient]. apply wp_bind. eapply wp_mono.
  { apply wp_SendFrameToClient; [done|exact Hc|apply Hm|done]. }
  intros r w1 (-> & Ht & _ & c1 & Hc1 & Hid). change (0 =? 0) with true. cbv iota.
  assert (cliSocket c1 = cliSocket c) as Hfd by (unfold ident in Hid; congruence).
  eapply wp_mono; [apply (IH c1 w1 Hc1); by rewrite Hfd|].
  intros r w' [-> E]. split; [done|]. rewrite Hfd, Ht, gate_wire_app, gate_wire_frame in E.
  by rewrite E, <- (assoc_L (++)).
Qed.

Lemma auth_ok_generated : representable auth_ok.
Proof. split; [done|]. split; [|done]. by intros ? [= <-]. Qed.
Lemma auth_ok_fits : fits (serialize auth_ok).
Proof.
  unfold fits. pose proof (length_serialize auth_ok) as E. pose proof (cs_answer_bound GATE_AUTH_RSP 0) as Hb.
  change (0 < ByteSize auth_ok <= 18) in Hb.
  unfold MAX_GATE_FRAME_SIZE. split; lia.
Qed.

(** C35. From the gate to the client. What the gate writes to a connection
    when it accepts it and then sends it messages (each of 1 to 65535 bytes,
    every send succeeding) is read back by the client as just that: it becomes
    authorised and reports the messages, each once, in order and unchanged. All
    the bytes arrive in one [OnDataRecv] of a client between two frames, whose
    upcalls return 0 and leave the client alone; a message that arrives in
    pieces is lost ([fragment_lost]). *)
Theorem gate_to_client i conn0 b msgs w c :
  0 <= i -> slot w i = Some conn0 -> (forall tr d, gate_Send tr (cliSocket conn0) d = 0) ->
  Forall fits msgs -> Z.of_nat (length msgs) < 2147483647 -> buffer_Create (ByteSize auth_ok) = Some b ->
  quiet virt -> idle c ->
  m_iCurState c = GATE_CLI_STATE_CONNECTED \/ m_iCurState c = GATE_CLI_STATE_AUTHORIZING ->
  exists w' data c',
    (NotifyAuthResult gate_Send i 0;; SendFramesToClient i msgs) w = Some (0, w')
    /\ gate_wire (cliSocket conn0) (trace w') = gate_wire (cliSocket conn0) (trace w) ++ data
    /\ OnDataRecv virt (length data) data c = Some (0, c')
    /\ m_iCurState c' = GATE_CLI_STATE_AUTHORIZED
    /\ cli_trace c' = cli_trace c ++ COnAuthResult 0 :: (COnMessage <$> msgs).
Proof.
  intros Hi Hc Hs Hf Hlen Hb Hup Hidle Hst.
  destruct (session_run virt auth_ok_generated msgs c Hup Hidle Hst (Forall_cons_2 _ _ _ auth_ok_fits Hf) Hlen)
    as (c' & E1 & E2 & E3 & _).
  enough (wp (NotifyAuthResult gate_Send i 0;; SendFramesToClient i msgs) (fun r w' => r = 0 /\
     gate_wire (cliSocket conn0) (trace w')
     = gate_wire (cliSocket conn0) (trace w) ++ concat (frame <$> serialize auth_ok :: msgs)) w) as Hwp.
  { apply wp_run_ret in Hwp as (w' & Ew & Hw). by exists w', (concat (frame <$> serialize auth_ok :: msgs)), c'. }
  apply wp_bind. unfold NotifyAuthResult. change (u32 0) with 0. fold auth_ok.
  eapply (wp_SendToClient gate_Send i conn0 auth_ok b); try done.
  { pose proof (cs_answer_bound GATE_AUTH_RSP 0) as Ha. change (0 < ByteSize auth_ok <= 18) in Ha.
    unfold MAX_GATE_FRAME_SIZE. lia. }
  intros w1 c1 Hc1 Hid _ _ _ _ Ht. assert (cliSocket c1 = cliSocket conn0) as Hfd by (unfold ident in Hid; congruence).
  eapply wp_mono; [apply (SendFramesToClient_wire i c1); [done..|by rewrite Hfd]|].
  intros r w' [-> E]. split; [done|]. rewrite Hfd, Ht, <- length_serialize, gate_wire_app, gate_wire_frame in E.
  rewrite E, fmap_cons. cbn [concat]. by rewrite <- (assoc_L (++)).
Qed.

(** C4. From the client to the agent. The messages an authorised client
    sends, each of 1 to 65535 bytes, are written as frames; when the gate, not in
    test mode (the delivered configuration turns it on), reads them in one piece
    and the proxy accepts each report (head and payload below 65534 bytes), they
    are each reported once, in order and unchanged, to the agent of the client's
    area. Every send of the client succeeds. *)
Theorem client_to_agent i fd conn0 msgs w p' c :
  msgs <> [] -> ready i fd conn0 w -> Forall fits msgs ->
  is_Some (buffer_Create (ByteSize (report peer conn0 i EVENT_DATA 0))) ->
  forward_all peer conn0 i msgs (proxy w) = Some p' ->
  (forall l f d, cli_Send_ret l f d = 0) ->
  exists c' data w', SendFrames cli_Send_ret msgs c = Some (0, c')
    /\ cli_wire (m_sock c) (cli_trace c') = cli_wire (m_sock c) (cli_trace c) ++ data
    /\ OnClientDataRecv gate_Send peer (length data) fd data w = Some (0, w')
    /\ proxy w' = p'.
Proof.
  intros Hne Hrd Hf Hb Hp Hs.
  destruct (wp_run_ret _ _ _ _ (SendFrames_wire cli_Send_ret msgs c Hs Hf)) as (c' & E & Hw).
  destruct (wp_run _ _ _ (recv_frames gate_Send peer msgs _ i fd conn0 w p' Hne (length_frames msgs) Hrd Hf Hb Hp))
    as (r & w' & E' & -> & Hp' & _). by exists c', (concat (frame <$> msgs)), w'.
Qed.

End EndToEnd.

(** ** Concrete sessions *)

Module ClientWitness.
Import GateWitness Base128.

Definition cli_send_ok (l : list CliEvt) (fd : Z) (d : bytes) : Z := 0.
Lemma up_quiet : quiet own_upcall.
Proof. done. Defined.

(** A client just connected on descriptor 5. *)
Definition cli0 : Client :=
  mkClient 5 GATE_CLI_STATE_CONNECTED 0 (mkBuffer 65540 0 []) None [COnConnect true].

Lemma msgs_fit : Forall fits [serialize auth_ok; [7]; [8; 9]].
Proof. repeat constructor; vm_compute; discriminate. Defined.

Lemma OnDataRecv_session_witness :
  exists c', OnDataRecv own_upcall 15 (frame (serialize auth_ok) ++ frame [7] ++ frame [8; 9]) cli0 = Some (0, c')
    /\ m_iCurState c' = GATE_CLI_STATE_AUTHORIZED
    /\ cli_trace c' = [COnConnect true; COnAuthResult 0; COnMessage [7]; COnMessage [8; 9]].
Proof.
  destruct (OnDataRecv_session own_upcall auth_ok_generated [[7]; [8; 9]] cli0 up_quiet ltac:(repeat split)
    ltac:(left; reflexivity) msgs_fit ltac:(vm_compute; reflexivity)) as (c' & E & H1 & H2 & _).
  exists c'. split; [exact E|]. split; [exact H1 | exact H2].
Defined.

(** A message of four bytes that an authorised client reads in two pieces: no
    upcall is made, although all of its bytes have come. *)
Example fragment_lost :
  exists c', (OnDataRecv own_upcall 4 [0; 4; 8; 9];; OnDataRecv own_upcall 2 [10; 11])
      (cli0 <| m_iCurState := GATE_CLI_STATE_AUTHORIZED |>) = Some (0, c') /\ cli_trace c' = cli_trace cli0.
Proof. eexists. split; [vm_compute; reflexivity|reflexivity]. Qed.

Lemma gate_to_client_witness :
  exists w' data c',
    (NotifyAuthResult send_ok 1 0;; SendFramesToClient send_ok 1 [[7]; [8; 9]]) w0 = Some (0, w')
    /\ gate_wire 50 (trace w') = data
    /\ OnDataRecv own_upcall (length data) data cli0 = Some (0, c')
    /\ cli_trace c' = [COnConnect true; COnAuthResult 0; COnMessage [7]; COnMessage [8; 9]].
Proof.
  destruct (gate_to_client send_ok own_upcall 1 c0 (mkBuffer 6 0 []) [[7]; [8; 9]] w0 cli0)
    as (w' & data & c' & E1 & E2 & E3 & _ & E4).
  - lia.
  - reflexivity.
  - reflexivity.
  - repeat constructor; vm_compute; discriminate.
  - vm_compute. reflexivity.
  - vm_compute. reflexivity.
  - exact up_quiet.
  - repeat split.
  - left. reflexivity.
  - exists w', data, c'. split; [exact E1|]. split; [exact E2|]. split; [exact E3 | exact E4].
Defined.

Lemma client_to_agent_witness :
  let head := serialize (report peer0 c0 1 EVENT_DATA 0) in
  exists c' data w', SendFrames cli_send_ok [[7]; [8; 9]] cli0 = Some (0, c')
    /\ cli_wire 5 (cli_trace c') = data
    /\ OnClientDataRecv send_ok peer0 (length data) 50 data w0 = Some (0, w')
    /\ proxy w' = [(9, [head; [7]], 9); (9, [head; [8; 9]], 9)].
Proof.
  destruct (client_to_agent send_ok peer0 cli_send_ok 1 50 c0 [[7]; [8; 9]] w0
    [(9, [serialize (report peer0 c0 1 EVENT_DATA 0); [7]], 9);
     (9, [serialize (report peer0 c0 1 EVENT_DATA 0); [8; 9]], 9)] cli0)
    as (c' & data & w' & E1 & E2 & E3 & E4).
  - discriminate.
  - exact ready0.
  - repeat constructor; vm_compute; discriminate.
  - eexists. reflexivity.
  - reflexivity.
  - reflexivity.
  - exists c', data, w'. split; [exact E1|]. split; [exact E2|]. split; [exact E3 | exact E4].
Defined.

End ClientWitness.
