(* ===== verification/RgtdClient.v ===== *)
(** * The game client ([client/rgtdClient.cpp])

    A program on top of the client library: a thread reads lines from the
    terminal into two buffers, the main loop runs the connections and the last
    line read, and a handler logs in and prints the messages of the zone
    server. The connections are the objects [BatchTcpConnection] calls; what it
    reports in a round is an argument. The two threads share the line buffers
    without a lock; they are interleaved here by whole rounds. Logging and the
    banner that [main] prints are left out. *)

From S2P Require Import Prelude CString Extern WireFormat WireReference TimerMgr ChannelMsgProxy GateMsg ClientMsg.
From S2P Require Import GateServerHandler GateFraming GateClientHandler.

(** ** The terminal *)

(** [fgets] into [size] bytes: through the first newline, at most [size - 1]
    characters; at the end of the input it leaves the buffer alone. *)
Fixpoint fgets_line (n : nat) (s : string) : string * string :=
  match n, s with
  | S n, String c s =>
      if byte_of c =? 10 then (String c "", s)
      else (String c (fst (fgets_line n s)), snd (fgets_line n s))
  | _, _ => ("", s)
  end.
Definition fgets (size : nat) (stdin : string) : option (string * string) :=
  match stdin with EmptyString => None | _ => Some (fgets_line (size - 1) stdin) end.

(** What the program prints. *)
Inductive Output `{WireLib} :=
| OPrompt
| OLine (s : string)
| OMsg (m : CSMsg_pb).

(** ** The state *)

(** The static variables, the handlers of the connections, and the terminal. *)
Record RgtdW `{WireLib} := mkRgtdW {
  client_id : Z;
  sender : option nat;          (* [NULL] before the first connection *)
  handlers : list Client;
  cmdLine : list string;        (* two buffers *)
  w_idx : Z;
  r_ready : Z;
  stdin : string;
  stdout : list Output
}.
#[global] Instance eta_RgtdW `{WireLib} : Eta RgtdW := fun r =>
  mkRgtdW _ (client_id r) (sender r) (handlers r) (cmdLine r) (w_idx r) (r_ready r) (stdin r) (stdout r).

Section RgtdClient.
Context {B0 : BufferLib} {WL : WireLib}.
(** The messages are those of the generated code. *)
#[local] Instance rgtd_gate_codec : Codec GateCSMsg := GateCSMsg_codec.
#[local] Instance rgtd_client_codec : Codec CSMsg := CSMsg_codec.
Context (Send_ret : list CliEvt -> Z -> bytes -> Z).

Definition print (o : Output) : M RgtdW unit := modify (fun w => w <| stdout ::= fun l => l ++ [o] |>).

(** One round of [ReadStdinThread]: the last character of the line is cut off,
    which an empty line does not have. *)
Definition ReadStdin_once : M RgtdW unit :=
  print OPrompt;;
  w ← gets (fun w => w);
  let k := Z.to_nat (w_idx w) in
  match fgets 1024 (stdin w) with
  | Some (line, rest) => modify (fun w => w <| cmdLine ::= <[k := c_str line]> |> <| stdin := rest |>)
  | None => mret tt
  end;;
  w ← gets (fun w => w);
  line ← lift (cmdLine w !! k);
  assert (negb (strlen line =? 0));;
  modify (fun w => w <| cmdLine ::= <[k := String.substring 0 (String.length line - 1) line]> |>
                     <| w_idx := (w_idx w + 1) mod 2 |> <| r_ready := 1 |>).

(** ** The handler *)

(** [rgtdClientHandler]: a request to log in is answered at once; what the
    other upcalls do is in [net_event] and [shown]. *)
Definition rgtd_upcall (id : Z) (e : CliEvt) : M Client Z :=
  match e with
  | COnNeedAuth => Authorize Send_ret 0 (u64 id) "test"
  | _ => mret 0
  end.

(** [OnMessage] prints the messages it can read. *)
Definition shown (e : CliEvt) : list Output :=
  match e with
  | COnMessage b => match CSMsg_ParseFromArray b with Some m => [OMsg m] | None => [] end
  | _ => []
  end.

(** A call on the handler of a connection, with what its upcalls print. *)
Definition rgtd_call {A} (i : nat) (m : M Client A) : M RgtdW A :=
  w ← gets (fun w => w);
  c ← lift (handlers w !! i);
  '(a, c') ← lift (m c);
  modify (fun w => w <| handlers ::= <[i := c']> |>
                     <| stdout ::= fun l => l ++ concat (shown <$> drop (length (cli_trace c)) (cli_trace c')) |>);;
  mret a.

(** What a connection reports to its handler. *)
Inductive NetInput := NConnected (fd : Z) | NData (b : bytes) | NDisconnected.

(** [OnConnect] counts the connections and makes the last one the sender. *)
Definition net_event (i : nat) (e : NetInput) : M RgtdW Z :=
  w ← gets (fun w => w);
  let virt := rgtd_upcall (client_id w) in
  match e with
  | NConnected fd =>
      r ← rgtd_call i (OnConnected virt fd);
      modify (fun w => w <| client_id ::= fun k => i32 (k + 1) |> <| sender := Some i |>);;
      mret r
  | NData b => rgtd_call i (OnDataRecv virt (S (length b)) b)
  | NDisconnected => rgtd_call i (OnDisconnected virt)
  end.

(** ** The commands *)

Definition request (cmd : Z) : CSMsg := mkCSMsg CSMSG_CMD_ROLE None (Some (mkCSMsgRole cmd None None None None)).

(** [sender->SendMessage(csmsg)]. *)
Definition send_request (cmd : Z) : M RgtdW unit :=
  w ← gets (fun w => w);
  i ← lift (sender w);
  rgtd_call i (SendMessage Send_ret (request cmd));; mret tt.

Definition Auth : M RgtdW unit := mret tt.
Definition rgtd_Login : M RgtdW unit := mret tt.
Definition rgtd_Reg : M RgtdW unit := mret tt.
Definition All : M RgtdW unit := send_request CSMSG_ROLE_ALL_INFO_REQ.
Definition Base : M RgtdW unit := send_request CSMSG_ROLE_BASE_INFO_REQ.
Definition Ext : M RgtdW unit := send_request CSMSG_ROLE_EXT_INFO_REQ.
Definition Misc : M RgtdW unit := send_request CSMSG_ROLE_MISC_INFO_REQ.

Definition cmd_names : list string := ["auth"; "login"; "reg"; "all"; "base"; "ext"; "misc"; "help"].
Definition Help : M RgtdW unit := modify (fun w => w <| stdout ::= fun l => l ++ (OLine <$> cmd_names) |>).
Definition cmds : list (string * M RgtdW unit) :=
  zip cmd_names [Auth; rgtd_Login; rgtd_Reg; All; Base; Ext; Misc; Help].

Definition ProcessCMD (line : string) : M RgtdW unit :=
  if strlen line =? 0 then mret tt
  else match list_find (fun c => fst c = line) cmds with
       | Some (_, c) => snd c
       | None => mret tt
       end.

(** ** The program *)

(** One round of the main loop: the events of the connections, what [Loop]
    returns, and the last line if there is one. [Some] ends the program. *)
Fixpoint net_events (evs : list (nat * NetInput)) : M RgtdW unit :=
  match evs with
  | [] => mret tt
  | (i, e) :: evs => net_event i e;; net_events evs
  end.
Definition main_round (evs : list (nat * NetInput)) (ret : Z) : M RgtdW (option Z) :=
  net_events evs;;
  if ret <? 0 then mret (Some (-1))
  else
    w ← gets (fun w => w);
    (if r_ready w =? 0 then mret tt
     else
       line ← lift (cmdLine w !! Z.to_nat ((w_idx w + 1) mod 2));
       ProcessCMD line;;
       modify (fun w => w <| r_ready := 0 |>));;
    mret None.

(** The arguments of the program: port, address and number of clients. *)
Definition rgtd_args (argv : list string) : Z * string * Z :=
  match argv with
  | _ :: port :: ip :: num :: _ => (atoi port, ip, atoi num)
  | _ => (52100, "127.0.0.1", 1)
  end.

(** [main] up to its loop: the state the loop starts with, or what the program
    returns. [Init_ret] and [Add_ret] are the results of the connections. *)
Definition rgtd_main (argv : list string) (input : string) (Init_ret : Z) (Add_ret : nat -> Z) : option (RgtdW + Z) :=
  let '(_, _, client_num) := rgtd_args argv in
  if negb (Init_ret =? 0) then Some (inr (-1))
  else
    let n := Z.to_nat client_num in
    c ← GateClientHandler_new;
    let iErrorNum := Z.of_nat (length (filter (fun k => Add_ret k <> 0) (seq 0 n))) in
    if client_num <=? iErrorNum then Some (inr (-1))
    else Some (inl (mkRgtdW _ 0 None (replicate n c) [""; ""] 0 0 input [])).

End RgtdClient.

(** ** What a typed line does *)

Section typed.
Context {B0 : BufferLib} `{!BufferLaws} {WL : WireLib} {tag_bytes varint : Z -> bytes} {L : WireLaws tag_bytes varint}.
#[local] Instance typed_ss_codec : Codec GateSSMsg := GateSSMsg_codec.
#[local] Instance typed_gate_codec : Codec GateCSMsg := GateCSMsg_codec.
#[local] Instance typed_client_codec : Codec CSMsg := CSMsg_codec.
#[local] Instance typed_ss_laws : CodecLaws GateSSMsg := GateSSMsg_codec_laws.
#[local] Instance typed_gate_laws : CodecLaws GateCSMsg := GateCSMsg_codec_laws.
#[local] Instance typed_client_laws : CodecLaws CSMsg := CSMsg_codec_laws.
Context (Send_ret : list CliEvt -> Z -> bytes -> Z).
Implicit Types w : RgtdW.

(** A line of the terminal: no newline and no null byte, and room for them. *)
Definition a_line (l : string) : Prop := (0 ∉ of_str l) /\ (10 ∉ of_str l) /\ (String.length l < 1023)%nat.
Definition newline : string := String (of_byte 10) "".

Lemma fgets_line_line n l rest :
  10 ∉ of_str l -> (String.length l < n)%nat -> fgets_line n (l +:+ newline +:+ rest) = (l +:+ newline, rest).
Proof.
  revert n. induction l as [|c l IH]; intros n Hl Hn; (destruct n as [|n]; [simpl in Hn; lia|]); [done|].
  cbn [of_str] in Hl. apply not_elem_of_cons in Hl as [Hc Hl]. rewrite !app_cons_str. cbn [fgets_line].
  destruct (Z.eqb_spec (byte_of c) 10); [congruence|]. by rewrite IH by (done || (simpl in Hn; lia)).
Qed.

Lemma fgets_a_line l rest : a_line l -> fgets 1024 (l +:+ newline +:+ rest) = Some (l +:+ newline, rest).
Proof.
  intros (_ & Hl & Hn). unfold fgets. rewrite fgets_line_line by (done || lia). by destruct l.
Qed.

Lemma c_str_a_line l : a_line l -> c_str (l +:+ newline) = l +:+ newline.
Proof.
  intros (H0 & _ & _). induction l as [|c l IH]; [done|]. cbn [of_str] in H0. apply not_elem_of_cons in H0 as [Hc Hl].
  rewrite app_cons_str. cbn [c_str]. destruct (Z.eqb_spec (byte_of c) 0); [congruence|]. by rewrite IH.
Qed.

Lemma substring_cut l : String.substring 0 (String.length (l +:+ newline) - 1) (l +:+ newline) = l.
Proof.
  rewrite length_app_str. replace (String.length l + _ - 1)%nat with (String.length l) by (simpl; lia).
  induction l as [|c l IH]; [done|]. rewrite app_cons_str. simpl. by rewrite IH.
Qed.

(** A line typed is the line of its buffer, without its newline; the other
    buffer is the next one. *)
Lemma wp_ReadStdin l rest a b w (Q : unit -> RgtdW -> Prop) :
  a_line l -> stdin w = l +:+ newline +:+ rest -> cmdLine w = [a; b] -> w_idx w = 0 \/ w_idx w = 1 ->
  Q tt (w <| stdout ::= (fun o => o ++ [OPrompt]) |> <| stdin := rest |>
          <| cmdLine := (if w_idx w =? 0 then [l; b] else [a; l]) |>
          <| w_idx := (w_idx w + 1) mod 2 |> <| r_ready := 1 |>) ->
  wp ReadStdin_once Q w.
Proof.
  intros Hl Hin Hcmd Hidx HQ. unfold ReadStdin_once, print. wp_steps.
  change (stdin (w <| stdout ::= _ |>)) with (stdin w). change (w_idx (w <| stdout ::= _ |>)) with (w_idx w).
  rewrite Hin, fgets_a_line by done. wp_steps. rewrite (c_str_a_line l Hl).
  destruct Hidx as [Ei|Ei]; rewrite Ei in *.
  all: eapply wp_lift; [cbn; rewrite Hcmd; reflexivity|]; apply wp_bind, wp_assert;
    [apply negb_true_iff, Z.eqb_neq; unfold strlen; rewrite length_app_str; simpl; lia|].
  all: rewrite substring_cut; destruct w as [id se hs cl wi rr si so]; simpl in *; subst; exact HQ.
Qed.

(** The commands that ask for the data of the role. *)
Definition role_commands : list (string * Z) :=
  [("all", CSMSG_ROLE_ALL_INFO_REQ); ("base", CSMSG_ROLE_BASE_INFO_REQ);
   ("ext", CSMSG_ROLE_EXT_INFO_REQ); ("misc", CSMSG_ROLE_MISC_INFO_REQ)].

Lemma ProcessCMD_role name cmd : (name, cmd) ∈ role_commands -> ProcessCMD Send_ret name = send_request Send_ret cmd.
Proof. intros Hin. repeat (apply elem_of_cons in Hin as [[= -> ->]|Hin]; [done|]). by apply elem_of_nil in Hin. Qed.

Lemma role_command_line name cmd : (name, cmd) ∈ role_commands -> a_line name /\ 0 <= cmd < 128.
Proof.
  intros Hin. unfold a_line. repeat (apply elem_of_cons in Hin as [[= -> ->]|Hin];
    [split; [split_and!; [vm_compute; set_solver by lia..|simpl; lia]|vm_compute; split; congruence]|]).
  by apply elem_of_nil in Hin.
Qed.

Lemma request_representable cmd : 0 <= cmd < 128 -> representable (request cmd).
Proof.
  intros Hc. split; [done|]. split; [done|]. apply all_of_Some. split_and!; simpl; try done. unfold in_u32. lia.
Qed.

Lemma request_fits cmd : 0 <= cmd < 128 -> fits (serialize (request cmd)).
Proof.
  intros Hc. pose proof (length_serialize (request cmd)) as E. unfold fits, MAX_GATE_FRAME_SIZE.
  assert (0 < ByteSize (request cmd) <= 100); [|lia]. simpl. unfold CSMsg_ByteSize. simpl.
  rewrite unknown_size_new. unfold CSMsgRole_ByteSize. simpl. rewrite unknown_size_new.
  pose proof (UInt32Size_bound CSMSG_CMD_ROLE). pose proof (UInt32Size_bound cmd).
  pose proof (MessageSize_bound (1 + UInt32Size cmd + 0 + 0 + 0 + 0 + 0)). lia.
Qed.

(** A call on a client that prints nothing. *)
Lemma wp_rgtd_call {A} i c (m : M Client A) (Q : A -> RgtdW -> Prop) w :
  handlers w !! i = Some c ->
  wp m (fun a c' => Q a (w <| handlers ::= <[i := c']> |>
    <| stdout ::= fun l => l ++ concat (shown <$> drop (length (cli_trace c)) (cli_trace c')) |>)) c ->
  wp (rgtd_call i m) Q w.
Proof.
  intros Hi Hm. unfold rgtd_call. wp_steps. eapply wp_lift; [exact Hi|]. wp_steps.
  apply wp_run in Hm as (a & c' & E & HQ). eapply wp_lift; [exact E|]. wp_steps. exact HQ.
Qed.

Lemma wp_send_request i c cmd w (Q : unit -> RgtdW -> Prop) :
  (forall l fd d, Send_ret l fd d = 0) -> 0 <= cmd < 128 -> is_Some (buffer_Create (ByteSize (request cmd))) ->
  sender w = Some i -> handlers w !! i = Some c ->
  (forall c' o, cli_wire (m_sock c) (cli_trace c')
     = cli_wire (m_sock c) (cli_trace c) ++ frame (serialize (request cmd)) ->
     m_sock c' = m_sock c -> m_iCurState c' = m_iCurState c -> (idle c -> idle c') ->
     Q tt (w <| handlers ::= <[i := c']> |> <| stdout := o |>)) ->
  wp (send_request Send_ret cmd) Q w.
Proof.
  intros Hs Hcmd Hb Hi Hc HQ. unfold send_request. wp_steps. eapply wp_lift; [exact Hi|]. wp_steps.
  eapply wp_rgtd_call; [exact Hc|]. eapply wp_mono; [apply SendMessage_wire; [done|apply typed_client_laws|done|by apply request_fits|done]|].
  cbv beta. intros r c' (-> & E & Hsk & Hst & Hid). wp_steps. by apply HQ.
Qed.

(** ** Lines that are lost *)

(** A round of the main loop without news of the connections runs the line of
    the buffer that is not the next one. *)
Lemma wp_main_round_line l w (Q : option Z -> RgtdW -> Prop) :
  r_ready w = 1 -> cmdLine w !! Z.to_nat ((w_idx w + 1) mod 2) = Some l ->
  wp (ProcessCMD Send_ret l) (fun _ w' => Q None (w' <| r_ready := 0 |>)) w ->
  wp (main_round Send_ret [] 0) Q w.
Proof.
  intros Hr Hl Hp. unfold main_round. cbn [net_events]. wp_steps. change (0 <? 0) with false. cbv iota. wp_steps.
  rewrite Hr. change (1 =? 0) with false. cbv iota. wp_steps. eapply wp_lift; [exact Hl|]. wp_steps.
  eapply wp_mono; [exact Hp|]. intros [] w' HQ. by wp_steps.
Qed.

(** Two lines that are read between two rounds of the main loop: only the
    second one is run. *)
Theorem first_of_two_lines_lost l1 l2 rest a b w (Q : option Z -> RgtdW -> Prop) :
  a_line l1 -> a_line l2 -> stdin w = l1 +:+ newline +:+ l2 +:+ newline +:+ rest -> cmdLine w = [a; b] -> w_idx w = 0 ->
  wp (ProcessCMD Send_ret l2) (fun _ w' => Q None (w' <| r_ready := 0 |>))
    (w <| stdout ::= (fun o => o ++ [OPrompt; OPrompt]) |> <| stdin := rest |> <| cmdLine := [l1; l2] |> <| r_ready := 1 |>) ->
  wp (ReadStdin_once;; ReadStdin_once;; main_round Send_ret [] 0) Q w.
Proof.
  intros H1 H2 Hin Hcmd Hidx HQ. destruct w as [id se hs cl wi rr si so].
  cbn [stdin cmdLine w_idx] in Hin, Hcmd, Hidx. subst cl wi si.
  apply wp_bind. eapply (wp_ReadStdin l1); [done|done|done|by left|]. apply wp_bind.
  eapply (wp_ReadStdin l2); [done|done|done|by right|]. eapply wp_main_round_line; [done|done|].
  match goal with |- wp ?m ?R _ =>
    change (wp m R (mkRgtdW _ id se hs [l1; l2] 0 1 rest ((so ++ [OPrompt]) ++ [OPrompt]))) end.
  rewrite <- app_assoc. exact HQ.
Qed.

(** At the end of the input, an empty buffer is written before its start. *)
Theorem end_of_input_undefined w :
  stdin w = "" -> cmdLine w !! Z.to_nat (w_idx w) = Some "" -> ReadStdin_once w = None.
Proof.
  intros Hin Hl. unfold ReadStdin_once, print, mbind, M_bind, modify, gets, mret, M_ret. simpl.
  rewrite Hin. simpl. change (cmdLine (w <| stdout ::= _ |>)) with (cmdLine w).
  change (w_idx (w <| stdout ::= _ |>)) with (w_idx w). by rewrite Hl.
Qed.

(** A request typed before the first connection is sent through a null pointer. *)
Theorem request_without_connection name cmd w :
  (name, cmd) ∈ role_commands -> sender w = None -> ProcessCMD Send_ret name w = None.
Proof.
  intros Hin Hs. rewrite (ProcessCMD_role _ _ Hin). unfold send_request, mbind, M_bind, gets. by rewrite Hs.
Qed.

(** ** Logging in and reading answers *)

Lemma rgtd_quiet id : quiet (rgtd_upcall Send_ret id).
Proof. intros [] c Hne; done. Qed.

(** What the client answers to a gate that asks it to log in. *)
Definition login_request (id : Z) : GateCSMsg :=
  mkGateCSMsg GATE_AUTH_REQ (Some (mkAuthReq (u64 id) 0 "test" 1)) None.
Definition need_auth : GateCSMsg := mkGateCSMsg GATE_NEED_AUTH None None.

Lemma auth_bytes_fit ga :
  ga = need_auth \/ (exists id, ga = login_request id) -> representable ga /\ fits (serialize ga).
Proof.
  intros Hga. pose proof (length_serialize ga) as E. unfold fits, MAX_GATE_FRAME_SIZE.
  enough (representable ga /\ 0 < ByteSize ga <= 100) by (destruct_and!; split; [done|lia]).
  destruct Hga as [->|[id ->]]; simpl; unfold GateCSMsg_ByteSize; simpl; rewrite unknown_size_new.
  - pose proof (UInt32Size_bound GATE_NEED_AUTH). split; [by split_and!|lia].
  - unfold AuthReq_ByteSize. simpl. rewrite unknown_size_new.
    pose proof (UInt32Size_bound GATE_AUTH_REQ). pose proof (UInt64Size_bound (u64 id)). pose proof (UInt32Size_bound 0).
    pose proof (UInt32Size_bound 1). pose proof (StringSize_bound "test").
    change (strlen "test") with 4 in *. pose proof (MessageSize_bound (1 + UInt64Size (u64 id) +
      (1 + UInt32Size 0) + (1 + StringSize "test") + (1 + UInt32Size 1) + 0)).
    split; [|lia]. split_and!; [done|done|]. apply all_of_Some. split_and!; simpl; [apply u64_bound|done|done|done].
Qed.

(** What the request to log in adds to the trace of a client. *)
Definition login_events (id : Z) (c : Client) : list CliEvt :=
  [COnNeedAuth; CSend (m_sock c) (htons_bytes (Z.of_nat (length (serialize (login_request id)))));
   CSend (m_sock c) (serialize (login_request id))].

Lemma rcv_need_auth fuel id c :
  idle c -> m_iCurState c = GATE_CLI_STATE_CONNECTED -> (forall l fd d, Send_ret l fd d = 0) ->
  is_Some (buffer_Create (ByteSize (login_request id))) ->
  wp (OnDataRecv (rgtd_upcall Send_ret id) (S fuel) (frame (serialize need_auth))) (fun r c' => r = 0 /\
    m_iCurState c' = GATE_CLI_STATE_AUTHORIZING /\ idle c' /\ cli_trace c' = cli_trace c ++ login_events id c) c.
Proof.
  intros Hidle Hst Hs Hb. destruct (auth_bytes_fit need_auth (or_introl eq_refl)) as [Hrep Hfit].
  destruct (auth_bytes_fit (login_request id) (or_intror (ex_intro _ _ eq_refl))) as [_ Hfit'].
  rewrite <- (app_nil_r (frame _)). apply rcv_frame_run; [done..|]. intros c2 Hv2 Hs2 _ Hcap.
  unfold client_view in Hv2. injection Hv2 as Hst2 Htr2.
  unfold DispatchMessage. wp_steps. rewrite Hst2, Hst, parse_serialize by done.
  change (GATE_CLI_STATE_CONNECTED =? GATE_CLI_STATE_CONNECTED) with true. cbn [orb].
  change (cs_cmd need_auth =? GATE_NEED_AUTH) with true. cbv iota. unfold upcall, cli_emit. wp_steps.
  eapply wp_mono; [apply Authorize_wire; [done|apply typed_gate_laws|done|exact Hfit'|exact Hb]|].
  intros r c3 [-> ->]. rewrite decide_True by done. split; [done|]. split; [done|]. split; [by split_and!|].
  unfold login_events. rewrite <- Htr2, <- Hs2. destruct c2. cbn. by rewrite <- app_assoc.
Qed.

(** A client that is asked to log in by the gate sends the request of its
    number, area 1, as one frame and waits for the answer. *)
Theorem login_request_sent i c w :
  handlers w !! i = Some c -> idle c -> m_iCurState c = GATE_CLI_STATE_CONNECTED ->
  (forall l fd d, Send_ret l fd d = 0) -> is_Some (buffer_Create (ByteSize (login_request (client_id w)))) ->
  exists w', net_event Send_ret i (NData (frame (serialize need_auth))) w = Some (0, w') /\ exists c',
    handlers w' !! i = Some c' /\ m_iCurState c' = GATE_CLI_STATE_AUTHORIZING /\ idle c' /\
    cli_wire (m_sock c) (cli_trace c')
      = cli_wire (m_sock c) (cli_trace c) ++ frame (serialize (login_request (client_id w))) /\
    stdout w' = stdout w.
Proof.
  intros Hc Hidle Hst Hs Hb. apply (wp_run_ret 0). unfold net_event. wp_steps.
  eapply wp_rgtd_call; [exact Hc|]. eapply wp_mono; [by apply rcv_need_auth|].
  cbv beta. intros r c' (-> & Hst' & Hidle' & Htr). split; [done|]. exists c'. rewrite Htr, drop_app_length.
  split_and!; try done.
  - apply list_lookup_insert_eq. by eapply lookup_lt_Some.
  - rewrite cli_wire_app. f_equal. unfold cli_wire. simpl. by rewrite Z.eqb_refl, app_nil_r.
  - cbn. by rewrite app_nil_r.
Qed.

(** The answer of the zone server to a client that plays is printed as it was
    made. *)
Theorem answer_shown rsp i c w :
  representable rsp -> fits (serialize rsp) -> handlers w !! i = Some c -> idle c ->
  m_iCurState c = GATE_CLI_STATE_AUTHORIZED ->
  exists w', net_event Send_ret i (NData (frame (serialize rsp))) w = Some (0, w') /\
    stdout w' = stdout w ++ [OMsg (csm_build rsp)] /\ csm_view (csm_build rsp) = rsp.
Proof.
  intros Hrep Hfit Hc Hidle Hst. apply (wp_run_ret 0). unfold net_event. wp_steps.
  eapply wp_rgtd_call; [exact Hc|].
  pose proof (rcv_frames (rgtd_upcall Send_ret (client_id w)) [serialize rsp]
    (S (length (frame (serialize rsp)))) c 0 (GATE_CLI_STATE_AUTHORIZED, cli_trace c ++ [COnMessage (serialize rsp)])
    (rgtd_quiet _) ltac:(done) ltac:(simpl; lia) ltac:(done) Hidle (proj2 (Forall_singleton _ _) Hfit)) as Hrun.
  cbn [fmap list_fmap concat] in Hrun. rewrite app_nil_r in Hrun.
  eapply wp_mono; [apply Hrun; unfold client_view; rewrite Hst; apply dispatch_authorized|].
  cbv beta. intros r c' (-> & Hv & _). split; [done|]. split; [|apply csm_view_build].
  unfold client_view in Hv. injection Hv as _ ->. rewrite drop_app_length. cbn [fmap list_fmap concat shown].
  change (serialize rsp) with (CSMsg_Serialize (csm_build rsp)). by rewrite csm_parse_build.
Qed.

(** ** From the terminal to the agent *)

(** A command typed at the terminal is run in the next round: its request is
    written as one frame, and the client is as it was. *)
Lemma typed_request_sent name cmd rest a b i c w :
  (name, cmd) ∈ role_commands -> stdin w = name +:+ newline +:+ rest -> cmdLine w = [a; b] -> w_idx w = 0 \/ w_idx w = 1 ->
  sender w = Some i -> handlers w !! i = Some c -> (forall l f d, Send_ret l f d = 0) ->
  is_Some (buffer_Create (ByteSize (request cmd))) ->
  exists w', (ReadStdin_once;; main_round Send_ret [] 0) w = Some (None, w') /\ exists c',
    stdin w' = rest /\ r_ready w' = 0 /\ handlers w' !! i = Some c' /\
    cli_wire (m_sock c) (cli_trace c') = cli_wire (m_sock c) (cli_trace c) ++ frame (serialize (request cmd)) /\
    m_sock c' = m_sock c /\ m_iCurState c' = m_iCurState c /\ (idle c -> idle c').
Proof.
  intros Hname Hin Hcmd Hidx Hsd Hc Hs Hb. destruct (role_command_line _ _ Hname) as [Hl Hr].
  apply wp_run_ret. apply wp_bind. eapply wp_ReadStdin; [exact Hl|exact Hin|exact Hcmd|exact Hidx|].
  apply (wp_main_round_line name); [done| |].
  { destruct Hidx as [E|E]; cbn; by rewrite E. }
  rewrite (ProcessCMD_role _ _ Hname). eapply (wp_send_request i c); [done..|].
  intros c' o Hw Hsk Hst Hid. split; [done|]. exists c'. split_and!; try done.
  apply list_lookup_insert_eq. by eapply lookup_lt_Some.
Qed.

Context {P : Type} {MP : MsgProxy P}.
Context (gate_Send : list NetEvt -> Z -> bytes -> Z) (peer : Z -> Z * Z).

(** One frame of an authorised client is reported to its agent. *)
Lemma frame_reported msg j fd conn p' (gw : GateW P) :
  fits msg -> ready j fd conn gw -> is_Some (buffer_Create (ByteSize (report peer conn j EVENT_DATA 0))) ->
  forward peer conn j msg (proxy gw) = Some (0, p') ->
  exists gw', OnClientDataRecv gate_Send peer (length (frame msg)) fd (frame msg) gw = Some (0, gw') /\
    proxy gw' = p' /\ same_around j gw gw' /\ exists conn', ready j fd conn' gw' /\ ident conn' = ident conn.
Proof.
  intros Hfit Hrd Hrb Hf.
  pose proof (recv_frames gate_Send peer [msg] (length (frame msg)) j fd conn gw p'
    ltac:(done) ltac:(unfold frame; simpl; lia) Hrd (proj2 (Forall_singleton _ _) Hfit) Hrb) as Hgate.
  cbn [forward_all] in Hgate. rewrite Hf in Hgate. specialize (Hgate eq_refl).
  cbn [fmap list_fmap concat] in Hgate. rewrite app_nil_r in Hgate. by apply wp_run_ret in Hgate.
Qed.

(** C5. A request typed at the terminal reaches the gate's channel to the agent.
    The line of a role command is read before the next round of the main loop, in
    which no connection has news; the round runs the command, and the client
    library writes its request as one frame. A gate that is not in test mode (the
    delivered configuration turns it on) and reads the frame in one piece from an
    authorised client gives it once to the proxy, which accepts it, for the agent
    of the client's area, and the bytes it gives parse back to the request. Every
    send of the client succeeds. *)
Theorem typed_request_reaches_agent name cmd rest a b i c w j fd conn p' (gw : GateW P) :
  (name, cmd) ∈ role_commands -> stdin w = name +:+ newline +:+ rest -> cmdLine w = [a; b] -> w_idx w = 0 \/ w_idx w = 1 ->
  sender w = Some i -> handlers w !! i = Some c -> (forall l f d, Send_ret l f d = 0) ->
  is_Some (buffer_Create (ByteSize (request cmd))) -> ready j fd conn gw ->
  is_Some (buffer_Create (ByteSize (report peer conn j EVENT_DATA 0))) ->
  forward peer conn j (serialize (request cmd)) (proxy gw) = Some (0, p') ->
  exists w' c' data gw',
    (ReadStdin_once;; main_round Send_ret [] 0) w = Some (None, w') /\ stdin w' = rest /\ r_ready w' = 0 /\
    handlers w' !! i = Some c' /\ cli_wire (m_sock c) (cli_trace c') = cli_wire (m_sock c) (cli_trace c) ++ data /\
    OnClientDataRecv gate_Send peer (length data) fd data gw = Some (0, gw') /\ proxy gw' = p' /\
    parse (serialize (request cmd)) = Some (request cmd).
Proof.
  intros Hname Hin Hcmd Hidx Hsd Hc Hs Hb Hrd Hrb Hf. destruct (role_command_line _ _ Hname) as [_ Hr].
  destruct (frame_reported _ _ _ _ _ _ (request_fits _ Hr) Hrd Hrb Hf) as (gw' & Eg & Hp & _).
  destruct (typed_request_sent _ _ _ _ _ _ _ _ Hname Hin Hcmd Hidx Hsd Hc Hs Hb) as (w' & E & c' & H1 & H2 & H3 & H4 & _).
  exists w', c', (frame (serialize (request cmd))), gw'. split_and!; try done.
  by apply parse_serialize, request_representable.
Qed.

End typed.

(** ** Concrete sessions *)

Module RgtdWitness.
Import GateWitness Base128.

Definition cli_send_ok (l : list CliEvt) (fd : Z) (d : bytes) : Z := 0.

(** Two clients, the second one connected and playing; the user has typed. *)
Definition cli (st : Z) : Client := mkClient 5 st 0 (mkBuffer 65540 0 []) None [].
Definition client (st : Z) (input : string) : RgtdW :=
  mkRgtdW _ 2 (Some 1%nat) [cli GATE_CLI_STATE_CLOSED; cli st] [""; ""] 0 0 input [].

Definition typed_base : string := "base" +:+ newline +:+ "".

Lemma typed_request_reaches_agent_witness :
  let head := serialize (report peer0 c0 1 EVENT_DATA 0) in
  exists w' c' data gw',
    (ReadStdin_once;; main_round cli_send_ok [] 0) (client GATE_CLI_STATE_AUTHORIZED typed_base) = Some (None, w') /\
    handlers w' !! 1%nat = Some c' /\ cli_wire 5 (cli_trace c') = data /\
    OnClientDataRecv send_ok peer0 (length data) 50 data w0 = Some (0, gw') /\
    proxy gw' = [(9, [head; [8; 2; 186; 6; 2; 8; 2]], 9)].
Proof.
  destruct (typed_request_reaches_agent cli_send_ok send_ok peer0 "base" CSMSG_ROLE_BASE_INFO_REQ "" "" "" 1
    (cli GATE_CLI_STATE_AUTHORIZED) (client GATE_CLI_STATE_AUTHORIZED typed_base) 1 50 c0
    [(9, [serialize (report peer0 c0 1 EVENT_DATA 0); [8; 2; 186; 6; 2; 8; 2]], 9)] w0)
    as (w' & c' & data & gw' & E1 & _ & _ & E2 & E3 & E4 & E5 & _).
  - right. left.
  - reflexivity.
  - reflexivity.
  - left. reflexivity.
  - reflexivity.
  - reflexivity.
  - reflexivity.
  - eexists. reflexivity.
  - exact ready0.
  - eexists. reflexivity.
  - vm_compute. reflexivity.
  - exists w', c', data, gw'. split; [exact E1|]. split; [exact E2|]. split; [exact E3|]. split; [exact E4 | exact E5].
Defined.

(** The second client logs in as number 2. *)
Lemma login_request_sent_witness :
  frame (serialize need_auth) = [0; 2; 8; 1] /\
  frame (serialize (login_request 2)) = [0; 16; 8; 2; 18; 12; 8; 2; 16; 0; 26; 4; 116; 101; 115; 116; 32; 1] /\
  exists w', net_event cli_send_ok 1 (NData (frame (serialize need_auth))) (client GATE_CLI_STATE_CONNECTED "")
      = Some (0, w') /\ exists c',
    handlers w' !! 1%nat = Some c' /\ m_iCurState c' = GATE_CLI_STATE_AUTHORIZING /\ idle c' /\
    cli_wire 5 (cli_trace c') = [] ++ frame (serialize (login_request 2)) /\ stdout w' = [].
Proof.
  split; [vm_compute; reflexivity|]. split; [vm_compute; reflexivity|].
  destruct (login_request_sent cli_send_ok 1 (cli GATE_CLI_STATE_CONNECTED) (client GATE_CLI_STATE_CONNECTED "")
    eq_refl ltac:(repeat split) eq_refl ltac:(reflexivity) ltac:(eexists; reflexivity)) as (w' & E & c' & Hc).
  exists w'. split; [exact E|]. exists c'. exact Hc.
Defined.

Definition answer : CSMsg :=
  mkCSMsg CSMSG_CMD_ROLE None (Some (mkCSMsgRole CSMSG_ROLE_EXT_INFO_RSP None None (Some (mkCSRoleExt (Some 7))) None)).

Lemma answer_representable : @representable _ CSMsg_codec answer.
Proof.
  split_and!; [done|done|]. apply all_of_Some. split_and!; simpl; try done. apply all_of_Some. simpl. by apply all_of_Some.
Defined.
Lemma answer_fits : fits (@serialize _ CSMsg_codec answer).
Proof. split; vm_compute; congruence || lia. Defined.

Lemma answer_shown_witness :
  exists w', net_event cli_send_ok 1 (NData (frame (@serialize _ CSMsg_codec answer))) (client GATE_CLI_STATE_AUTHORIZED "")
      = Some (0, w') /\ stdout w' = [OMsg (csm_build answer)] /\ csm_view (csm_build answer) = answer.
Proof.
  destruct (answer_shown cli_send_ok answer 1 (cli GATE_CLI_STATE_AUTHORIZED) (client GATE_CLI_STATE_AUTHORIZED "")
    answer_representable answer_fits eq_refl ltac:(repeat split) eq_refl) as (w' & E & H1 & H2).
  exists w'. split; [exact E|]. split; [exact H1|exact H2].
Defined.

Lemma end_of_input_undefined_witness : ReadStdin_once (client GATE_CLI_STATE_AUTHORIZED "") = None.
Proof. apply end_of_input_undefined; reflexivity. Defined.

End RgtdWitness.
