(* ===== verification/EventCenter.v ===== *)
(** * Events of the zone server ([rgtd/zone/logic/EventCenter.cpp],
    [rgtd/zone/logic/PlayerLogicCenter.cpp])

    A player event goes to the logic parts of the player whose id is the
    event's parameter, at once or after a delay. A delayed event is stored under
    a sequence number, which is the parameter of its timer.

    The players live in the zone ([zone], any type): [online] is
    [ZoneAgentMgr::GetZonePlayerAgentPtr], a [PlayerAgentPtr] is a handle, and
    [notify] is what the player's logic centre does with an event, which may
    well be to fire more events. *)

From S2P Require Import Prelude CString TimerMgr.

Definition EVENT_TEST_MIN : Z := 1000.
Definition EVENT_TEST_MAX : Z := 1002.
Definition EVENT_PLAYER_MIN : Z := 2000.
Definition EVENT_PLAYER_SYNC_DB : Z := 2002.
Definition EVENT_PLAYER_TASK_DONE : Z := 2003.
Definition EVENT_PLAYER_MAX : Z := 2008.
Definition MAX_PLAYER_EVENT_DELAY_TIME : Z := 600.

Record DelayEventParam := mkDelayEventParam {
  dep_iEvent : Z; dep_ulParam : Z; dep_reciever : string; dep_arg : Z
}.
Definition DelayEventParam_new : DelayEventParam := mkDelayEventParam 0 0 "" 0.

(** The timer callback [EventCenter::OnTimer]. *)
Inductive EventTimer := OnTimerCB.

Record EventCenter := mkEventCenter {
  m_mpPlayerAgents : gmap Z Z;
  m_iDelayEventNextSeq : Z;
  m_mpDelayEventParams : gmap Z DelayEventParam
}.
#[global] Instance eta_EventCenter : Eta EventCenter := fun r =>
  mkEventCenter (m_mpPlayerAgents r) (m_iDelayEventNextSeq r) (m_mpDelayEventParams r).

Section EventCenter.
Context {Zone : Type}.

Record EventW := mkEventW { ec : EventCenter; timerMgr : TimerMgr EventTimer; zone : Zone }.
#[global] Instance eta_EventW : Eta EventW := fun r => mkEventW (ec r) (timerMgr r) (zone r).

Context (online : Zone -> Z -> option Z).
Context (notify : Z -> Z -> Z -> option string -> Z -> M EventW unit).

Definition on_ec (f : EventCenter -> EventCenter) : M EventW unit := modify (fun w => w <| ec ::= f |>).
Definition on_timer {A} (m : M (TimerMgr EventTimer) A) : M EventW A :=
  zoom timerMgr (fun t w => w <| timerMgr := t |>) m.

Definition Init : M EventW Z := on_ec (fun e => e <| m_iDelayEventNextSeq := 1 |>);; mret 0.

(** The loop [while(find(m_iDelayEventNextSeq) != end) ++m_iDelayEventNextSeq];
    the sequence number is an [int], past whose end nothing is defined. *)
Fixpoint next_seq (fuel : nat) (m : gmap Z DelayEventParam) (i : Z) : option Z :=
  match fuel with
  | O => None
  | S fuel =>
      match m !! i with
      | None => Some i
      | Some _ => if i =? 2147483647 then None else next_seq fuel m (i + 1)
      end
  end.

Definition GenerateDelayEvent (iEventCode : Z) (pszReceiverName : option string)
    (secondsLater ulParam arg : Z) : M EventW Z :=
  let delayParam := mkDelayEventParam iEventCode ulParam (default "" pszReceiverName) arg in
  w ← gets (fun w => ec w);
  seq ← lift (next_seq (S (size (m_mpDelayEventParams w))) (m_mpDelayEventParams w)
                (m_iDelayEventNextSeq w));
  dwTimerID ← on_timer (AddTimer (secondsLater * 1000) iEventCode (Some OnTimerCB) (u64 seq));
  assert (seq <? 2147483647);;
  on_ec (fun e => e <| m_mpDelayEventParams ::= <[seq := delayParam]> |>
                    <| m_iDelayEventNextSeq := seq + 1 |>);;
  mret dwTimerID.

(** [FireEvent]; [(uint32_t)-1] is an error. *)
Definition FireEvent (iEventCode : Z) (pszReceiverName : option string)
    (secondsLater ulParam arg : Z) (timeExpired : bool) : M EventW Z :=
  if (EVENT_TEST_MIN <? iEventCode) && (iEventCode <? EVENT_TEST_MAX) then mret 0
  else if (EVENT_PLAYER_MIN <? iEventCode) && (iEventCode <? EVENT_PLAYER_MAX) then
    if MAX_PLAYER_EVENT_DELAY_TIME <? secondsLater then mret (u32 (-1))
    else
      w ← gets (fun w => w);
      let player :=
        match online (zone w) ulParam with
        | Some p => Some p
        | None => if 0 <? secondsLater then None else m_mpPlayerAgents (ec w) !! ulParam
        end in
      match player with
      | None => mret (u32 (-1))
      | Some p =>
          if 0 <? secondsLater then
            on_ec (fun e => e <| m_mpPlayerAgents ::= <[ulParam := p]> |>);;
            GenerateDelayEvent iEventCode pszReceiverName secondsLater ulParam arg
          else
            notify p iEventCode ulParam pszReceiverName arg;;
            (if timeExpired then on_ec (fun e => e <| m_mpPlayerAgents ::= delete ulParam |>)
             else mret tt);;
            mret 0
      end
  else mret (u32 (-1)).

(** [OnDelayTimerExpired]: the parameters are looked up under the event code,
    where an absent entry reads as a default one. *)
Definition OnDelayTimerExpired (iEventCode iDelayEventSeq : Z) : M EventW Z :=
  w ← gets (fun w => ec w);
  match m_mpDelayEventParams w !! iDelayEventSeq with
  | None => mret (-1)
  | Some _ =>
      let dep := default DelayEventParam_new (m_mpDelayEventParams w !! iEventCode) in
      on_ec (fun e => e <| m_mpDelayEventParams ::= delete iEventCode |>);;
      r ← FireEvent iEventCode (Some (dep_reciever dep)) 0 (dep_ulParam dep) (dep_arg dep) true;
      mret (i32 r)
  end.

(** [OnTimer], the callback of the timer. *)
Definition OnTimer (iEvent ulParam : Z) : M EventW unit :=
  OnDelayTimerExpired iEvent (i32 ulParam);; mret tt.

(** ** Facts *)

(** An event without delay reaches an online player once, with its code,
    parameter, receiver and argument. *)
Lemma FireEvent_now code recv uid arg p w :
  EVENT_PLAYER_MIN < code < EVENT_PLAYER_MAX -> online (zone w) uid = Some p ->
  FireEvent code recv 0 uid arg false w = (notify p code uid recv arg;; mret 0) w.
Proof.
  intros Hc Ho. unfold FireEvent, EVENT_TEST_MAX, EVENT_PLAYER_MIN, EVENT_PLAYER_MAX in *.
  destruct (Z.ltb_spec code 1002); [lia|]. rewrite andb_false_r.
  rewrite !(proj2 (Z.ltb_lt _ _)) by lia. cbn [andb].
  change (MAX_PLAYER_EVENT_DELAY_TIME <? 0) with false. cbv iota.
  unfold mbind at 1, M_bind at 1, gets. rewrite Ho. change (0 <? 0) with false. cbv iota.
  unfold mbind, M_bind. by destruct (notify p code uid recv arg w) as [[[] w']|].
Qed.

(** Nobody is told about an event for a player that is neither online nor kept. *)
Lemma FireEvent_absent code recv uid arg exp w :
  EVENT_PLAYER_MIN < code < EVENT_PLAYER_MAX -> online (zone w) uid = None ->
  m_mpPlayerAgents (ec w) !! uid = None ->
  FireEvent code recv 0 uid arg exp w = Some (u32 (-1), w).
Proof.
  intros Hc Ho Hm. unfold FireEvent, EVENT_TEST_MAX, EVENT_PLAYER_MIN, EVENT_PLAYER_MAX in *.
  destruct (Z.ltb_spec code 1002); [lia|]. rewrite andb_false_r.
  rewrite !(proj2 (Z.ltb_lt _ _)) by lia. cbn [andb].
  change (MAX_PLAYER_EVENT_DELAY_TIME <? 0) with false. cbv iota.
  unfold mbind, M_bind, gets. rewrite Ho. change (0 <? 0) with false. cbv iota. by rewrite Hm.
Qed.

(** A delayed event for an online player is stored, the player is kept, and a
    timer is set that carries the sequence number. *)
Lemma FireEvent_later code recv secs uid arg p w :
  EVENT_PLAYER_MIN < code < EVENT_PLAYER_MAX -> 0 < secs <= MAX_PLAYER_EVENT_DELAY_TIME ->
  online (zone w) uid = Some p -> TimerInv (timerMgr w) ->
  Z.of_nat (size (m_mpTimerEvents (timerMgr w))) < 2 ^ 32 ->
  let seq := m_iDelayEventNextSeq (ec w) in
  0 < seq < 2147483647 -> m_mpDelayEventParams (ec w) !! seq = None ->
  wp (FireEvent code recv secs uid arg false) (fun i w' =>
    zone w' = zone w
    /\ m_mpPlayerAgents (ec w') = <[uid := p]> (m_mpPlayerAgents (ec w))
    /\ m_mpDelayEventParams (ec w')
       = <[seq := mkDelayEventParam code uid (default "" recv) arg]> (m_mpDelayEventParams (ec w))
    /\ exists te, m_mpTimerEvents (timerMgr w') !! i = Some te
         /\ te = mkTimerEvent code seq (Some OnTimerCB)
                   (u64 (m_curMsTime (timerMgr w) + secs * 1000)) i) w.
Proof.
  intros Hc Hs Ho Hinv Hsz seq Hseq Hfree.
  unfold FireEvent, EVENT_TEST_MAX, EVENT_PLAYER_MIN, EVENT_PLAYER_MAX, MAX_PLAYER_EVENT_DELAY_TIME in *.
  destruct (Z.ltb_spec code 1002); [lia|]. rewrite andb_false_r.
  rewrite !(proj2 (Z.ltb_lt _ _)) by lia. cbn [andb].
  destruct (Z.ltb_spec 600 secs); [lia|]. wp_steps. rewrite Ho.
  destruct (Z.ltb_spec 0 secs); [|lia]. unfold on_ec, GenerateDelayEvent. wp_steps.
  eapply (wp_lift _ _ _ seq); [cbn [next_seq]; simpl; subst seq; by rewrite Hfree|]. wp_steps.
  apply wp_zoom. eapply wp_mono; [apply AddTimer_run; [exact Hinv | exact Hsz]|].
  intros i t' (Hi & _ & ->). unfold on_ec. wp_steps; [apply Z.ltb_lt; lia|]. simpl. split_and!; try done.
  rewrite u64_small by lia. eexists. split; [apply lookup_insert_eq|done].
Qed.

(** A delayed event is lost. When its timer runs out, the parameters are
    looked up under the event code instead of the sequence number: nobody is
    notified, the call reports an error, and the stored event and the kept
    player stay for ever. *)
Theorem delayed_event_lost code recv secs uid arg p w :
  EVENT_PLAYER_MIN < code < EVENT_PLAYER_MAX -> 0 < secs <= MAX_PLAYER_EVENT_DELAY_TIME ->
  online (zone w) uid = Some p -> uid <> 0 ->
  TimerInv (timerMgr w) -> Z.of_nat (size (m_mpTimerEvents (timerMgr w))) < 2 ^ 32 ->
  let seq := m_iDelayEventNextSeq (ec w) in
  0 < seq < code -> m_mpDelayEventParams (ec w) !! seq = None ->
  m_mpDelayEventParams (ec w) !! code = None ->
  online (zone w) 0 = None -> m_mpPlayerAgents (ec w) !! 0 = None ->
  exists i w1 w2, FireEvent code recv secs uid arg false w = Some (i, w1)
    /\ m_mpDelayEventParams (ec w1) !! seq = Some (mkDelayEventParam code uid (default "" recv) arg)
    /\ OnDelayTimerExpired code seq w1 = Some (-1, w2)
    /\ zone w2 = zone w
    /\ m_mpDelayEventParams (ec w2) !! seq = Some (mkDelayEventParam code uid (default "" recv) arg)
    /\ m_mpPlayerAgents (ec w2) !! uid = Some p.
Proof.
  intros Hc Hs Ho Hu Hinv Hsz seq Hseq Hf1 Hf2 Ho0 Hm0.
  destruct (wp_run _ _ _ (FireEvent_later code recv secs uid arg p w Hc Hs Ho Hinv Hsz
    ltac:(unfold EVENT_PLAYER_MAX in *; subst seq; lia) Hf1)) as (i & w1 & E & Hz & Hp & Hd & _).
  fold seq in Hd.
  assert (m_mpDelayEventParams (ec w1) !! seq = Some (mkDelayEventParam code uid (default "" recv) arg)) as Hl
    by (rewrite Hd; apply lookup_insert_eq).
  exists i, w1, (w1 <| ec ::= fun e => e <| m_mpDelayEventParams ::= delete code |> |>).
  split; [exact E|]. split; [exact Hl|]. split_and!; [|done| |].
  - unfold OnDelayTimerExpired, on_ec, mbind at 1, M_bind at 1, gets. rewrite Hl.
    assert (m_mpDelayEventParams (ec w1) !! code = None) as ->
      by (rewrite Hd, lookup_insert_ne by lia; done).
    cbn [default DelayEventParam_new dep_reciever dep_ulParam dep_arg].
    erewrite bind_run by reflexivity. etrans; [eapply bind_run, FireEvent_absent|reflexivity]; [done|simpl; by rewrite Hz|].
    simpl. rewrite Hp, lookup_insert_ne by done. done.
  - simpl. rewrite lookup_delete_ne by lia. done.
  - simpl. rewrite Hp. apply lookup_insert_eq.
Qed.

End EventCenter.
Arguments EventW : clear implicits.

(** ** A concrete zone *)

Module EventWitness.

(** The players online, and the events they were told of. *)
Abbreviation zone0 := (list Z * list (Z * Z * Z * option string))%type.
Definition online0 (z : zone0) (uid : Z) : option Z := if bool_decide (uid ∈ z.1) then Some uid else None.
Definition notify0 (p code param : Z) (recv : option string) (arg : Z) : M (EventW zone0) unit :=
  modify (fun w => w <| zone ::= fun z => (z.1, z.2 ++ [(p, code, param, recv)]) |>).

Definition w0 : EventW zone0 :=
  mkEventW (mkEventCenter ∅ 1 ∅) (TimerMgr_new (mkTimeval 0 0) 0) ([1001], []).

Lemma TimerMgr_new_inv : TimerInv (timerMgr w0).
Proof.
  split; simpl; [constructor|constructor|constructor|lia|..]; intros i te E; by rewrite lookup_empty in E.
Qed.

Lemma delayed_event_lost_witness :
  exists i w1 w2,
    FireEvent online0 notify0 EVENT_PLAYER_SYNC_DB (Some "autosync") 300 1001 0 false w0 = Some (i, w1)
    /\ OnDelayTimerExpired online0 notify0 EVENT_PLAYER_SYNC_DB 1 w1 = Some (-1, w2)
    /\ (zone w2).2 = [].
Proof.
  destruct (delayed_event_lost online0 notify0 EVENT_PLAYER_SYNC_DB (Some "autosync") 300 1001 0 1001 w0)
    as (i & w1 & w2 & E1 & _ & E2 & E3 & _).
  - vm_compute. done.
  - vm_compute. split; [reflexivity|discriminate].
  - reflexivity.
  - lia.
  - exact TimerMgr_new_inv.
  - vm_compute. reflexivity.
  - vm_compute. done.
  - reflexivity.
  - reflexivity.
  - reflexivity.
  - reflexivity.
  - exists i, w1, w2. split; [exact E1|]. split; [exact E2|]. by rewrite E3.
Defined.

End EventWitness.
