(* ===== verification/PlayerLogic.v ===== *)
(** * The logic parts of a player ([rgtd/zone/logic/PlayerLogicCenter.cpp],
    [PlayerTaskLogic.cpp], [PlayerAutoSyncDBLogic.cpp])

    A player's logic centre holds named parts and hands them the player's
    events. Two of the parts are here: the one that counts the progress of the
    player's tasks, and the one that saves a changed player. *)

From S2P Require Import Prelude CString TimerMgr EventCenter.

(** ** The centre *)

Section LogicCenter.
Context {W : Type}.

(** A [PlayerLogic]: its name and its virtual functions. *)
Record PlayerLogic := mkPlayerLogic {
  lg_name : string;
  OnInitBirthPlayer : M W unit;
  OnAttach : M W unit;
  OnDetach : M W unit;
  OnEvent : Z -> Z -> Z -> M W unit
}.

(** A [std::map] from names, in the order of the names. *)
Abbreviation LogicMap := (list PlayerLogic).

Fixpoint logic_find (name : string) (m : LogicMap) : option PlayerLogic :=
  match m with
  | [] => None
  | l :: m => if String.eqb (lg_name l) name then Some l else logic_find name m
  end.

Fixpoint logic_insert (l : PlayerLogic) (m : LogicMap) : LogicMap :=
  match m with
  | [] => [l]
  | l' :: m' => if String.ltb (lg_name l) (lg_name l') then l :: m else l' :: logic_insert l m'
  end.

Definition Register (logic : PlayerLogic) (m : LogicMap) : Z * LogicMap :=
  match logic_find (lg_name logic) m with
  | Some _ => (-1, m)
  | None => (0, logic_insert logic m)
  end.

(** [PLAYER_LOGIC_CENTER_VISIT_ALL]. *)
Fixpoint visit_all (f : PlayerLogic -> M W unit) (m : LogicMap) : M W unit :=
  match m with
  | [] => mret tt
  | l :: m => f l;; visit_all f m
  end.

Definition InitBirthPlayer : LogicMap -> M W unit := visit_all OnInitBirthPlayer.
Definition Attach : LogicMap -> M W unit := visit_all OnAttach.
Definition Detach : LogicMap -> M W unit := visit_all OnDetach.

Definition NotifyEvent (iEvent ulParam : Z) (pszLogicName : option string) (arg : Z) (m : LogicMap)
    : M W unit :=
  match pszLogicName with
  | Some name =>
      match logic_find name m with
      | Some l => OnEvent l iEvent ulParam arg
      | None => mret tt
      end
  | None => visit_all (fun l => OnEvent l iEvent ulParam arg) m
  end.

(** [InitLogic]: the parts of every player. *)
Definition InitLogic (task autosync knapsack : PlayerLogic) : LogicMap :=
  snd (Register knapsack (snd (Register autosync (snd (Register task []))))).

End LogicCenter.
Arguments PlayerLogic : clear implicits.

(** ** Tasks *)

Definition TASK_STATE_DOING : Z := 0.
Definition TASK_STATE_DONE : Z := 1.

(** [db.RoleOneTask]: [cur] and [state] are optional, [0] when absent. *)
Record RoleOneTask := mkRoleOneTask { t_id : Z; t_cur : option Z; t_state : option Z }.
#[global] Instance eta_RoleOneTask : Eta RoleOneTask := fun r =>
  mkRoleOneTask (t_id r) (t_cur r) (t_state r).
Definition task_cur (t : RoleOneTask) : Z := default 0 (t_cur t).
Definition task_state (t : RoleOneTask) : Z := default 0 (t_state t).

(** [res.TaskObj], what a task asks for. *)
Record TaskObj := mkTaskObj { o_event : Z; o_param : Z; o_value : Z; o_method : Z }.

Section Task.
(** The row of the task table with an id: [ResTableAgent::Find]. *)
Context (Find : Z -> option TaskObj).

(** [CheckOneTask]: [None] is [-1], the task has no row. *)
Definition CheckOneTask (task : RoleOneTask) (iEvent ulParam : Z) : option RoleOneTask :=
  let dwParam := Z.shiftr ulParam 32 in
  let dwValue := Z.land ulParam 0xFFFFFFFF in
  match Find (t_id task) with
  | None => None
  | Some obj =>
      if negb (i32 (o_event obj) =? iEvent) then Some task
      else if negb (o_param obj =? 0) && negb (o_param obj =? dwParam) then Some task
      else
        let task :=
          if o_method obj =? 0 then task <| t_cur := Some dwValue |>
          else if task_state task =? TASK_STATE_DOING
               then task <| t_cur := Some (u32 (task_cur task + dwValue)) |>
               else task in
        Some (if (task_state task =? TASK_STATE_DOING) && (o_value obj <=? task_cur task)
              then task <| t_state := Some TASK_STATE_DONE |> else task)
  end.

(** The event of a finished task, with the name of the receiver and the
    parameter. *)
Definition done_event (t : RoleOneTask) : Z * string * Z := (EVENT_PLAYER_TASK_DONE, "task", t_id t).

(** The loop of [PlayerTaskLogic::OnEvent] from index [i]: the tasks and the
    events fired. A task without a row is swapped with the last and dropped. *)
Fixpoint check_tasks (fuel i : nat) (iEvent ulParam : Z) (doing : list RoleOneTask)
    : option (list RoleOneTask * list (Z * string * Z)) :=
  match fuel with
  | O => None
  | S fuel =>
      match doing !! i with
      | None => Some (doing, [])
      | Some t =>
          match CheckOneTask t iEvent ulParam with
          | None => check_tasks fuel i iEvent ulParam (swap_remove i doing)
          | Some t' =>
              '(doing, ev) ← check_tasks fuel (S i) iEvent ulParam (<[i := t']> doing);
              Some (doing,
                    if (task_state t =? TASK_STATE_DOING) && (task_state t' =? TASK_STATE_DONE)
                    then done_event t' :: ev else ev)
          end
      end
  end.

Definition Task_OnEvent (iEvent ulParam : Z) (doing : list RoleOneTask) :=
  check_tasks (S (length doing)) 0 iEvent ulParam doing.

(** A task that is done stays done, and keeps its id. *)
Lemma CheckOneTask_done t ev param t' :
  CheckOneTask t ev param = Some t' ->
  t_id t' = t_id t /\ (task_state t = TASK_STATE_DONE -> task_state t' = TASK_STATE_DONE).
Proof.
  unfold CheckOneTask. destruct (Find (t_id t)) as [obj|]; [|done].
  destruct (negb (i32 _ =? _)); [by intros; simplify_eq|].
  destruct (_ && _); [by intros; simplify_eq|].
  intros E. simplify_eq/=. destruct (o_method obj =? 0).
  - by destruct (_ && _).
  - destruct (task_state t =? TASK_STATE_DOING); by destruct (_ && _).
Qed.

(** The tasks an event finishes. *)
Definition finished (ev param : Z) (t : RoleOneTask) : option (Z * string * Z) :=
  t' ← CheckOneTask t ev param;
  if (task_state t =? TASK_STATE_DOING) && (task_state t' =? TASK_STATE_DONE)
  then Some (done_event t') else None.

Lemma check_tasks_spec fuel i ev param l :
  (length l - i < fuel)%nat -> (i <= length l)%nat ->
  exists l' evs, check_tasks fuel i ev param l = Some (l', evs)
    /\ l' ≡ₚ take i l ++ omap (fun t => CheckOneTask t ev param) (drop i l)
    /\ evs ≡ₚ omap (finished ev param) (drop i l).
Proof.
  revert i l. induction fuel as [|fuel IH]; intros i l Hf Hi; [lia|]. cbn [check_tasks].
  destruct (l !! i) as [t|] eqn:Hl.
  2: { apply lookup_ge_None in Hl. exists l, []. rewrite drop_ge, take_ge, app_nil_r by lia. done. }
  pose proof (lookup_lt_Some _ _ _ Hl) as Hlt. rewrite (drop_S _ _ _ Hl). cbn [omap list_omap].
  destruct (CheckOneTask t ev param) as [t'|] eqn:Et.
  - destruct (IH (S i) (<[i := t']> l)) as (l' & evs & -> & Hp & He); [rewrite length_insert; lia..|].
    eexists _, _. split; [reflexivity|].
    rewrite (take_S_r _ _ t'), take_insert_ge in Hp by (done || by apply list_lookup_insert_eq).
    rewrite drop_insert_lt in Hp, He by lia. split.
    + rewrite Hp, <- (assoc_L (++)). done.
    + unfold finished at 1. rewrite Et. cbn [mbind option_bind].
      destruct (_ && _); by rewrite He.
  - destruct (swap_remove_split l i t Hl) as (Ht & Hd & Hn).
    destruct (IH i (swap_remove i l)) as (l' & evs & -> & Hp & He); [lia..|].
    exists l', evs. split; [done|]. rewrite Ht, Hd in Hp. rewrite Hd in He. split; [done|].
    unfold finished at 1. by rewrite Et.
Qed.

(** The task part handles an event in one pass. Every task that has a row
    in the task table is checked exactly once, the tasks without a row are
    dropped, and one [TASK_DONE] event is fired for every task the event
    finishes. *)
Theorem Task_OnEvent_pass ev param l :
  exists l' evs, Task_OnEvent ev param l = Some (l', evs)
    /\ l' ≡ₚ omap (fun t => CheckOneTask t ev param) l
    /\ evs ≡ₚ omap (finished ev param) l.
Proof. apply (check_tasks_spec (S (length l)) 0 ev param l); lia. Qed.

End Task.

(** ** Saving a player *)

Section AutoSync.
Context {Zone : Type}.
Context (FireEvent : Z -> option string -> Z -> Z -> Z -> M (EventW Zone) Z).

(** The part and the player it belongs to: the number of changes, the id of
    the timer; [UpdateRole] is the request to the database. *)
Record AutoSync := mkAutoSync { as_uid : Z; m_iDirty : Z; m_dwTimerID : Z }.
#[global] Instance eta_AutoSync : Eta AutoSync := fun r => mkAutoSync (as_uid r) (m_iDirty r) (m_dwTimerID r).
Context (part : Zone -> AutoSync) (put_part : AutoSync -> Zone -> Zone) (UpdateRole : Z -> M (EventW Zone) Z).

Definition on_part (f : AutoSync -> AutoSync) : M (EventW Zone) unit :=
  modify (fun w => w <| zone ::= fun z => put_part (f (part z)) z |>).

Definition AutoSync_OnAttach : M (EventW Zone) unit :=
  a ← gets (fun w => part (zone w));
  i ← FireEvent EVENT_PLAYER_SYNC_DB (Some "autosync") 300 (as_uid a) 0;
  on_part (fun a => a <| m_dwTimerID := i |>).

Definition AutoSync_OnDetach : M (EventW Zone) unit :=
  a ← gets (fun w => part (zone w));
  on_timer (CancelTimer (m_dwTimerID a)).

Definition AutoSync_OnEvent (iEvent ulParam arg : Z) : M (EventW Zone) unit :=
  if EVENT_PLAYER_SYNC_DB =? iEvent then
    a ← gets (fun w => part (zone w));
    ok ← (if 0 <? m_iDirty a then
            ret ← UpdateRole (as_uid a);
            if negb (ret =? 0) then mret false
            else on_part (fun a => a <| m_iDirty := 0 |>);; mret true
          else mret true);
    if (ok : bool) then
      i ← FireEvent EVENT_PLAYER_SYNC_DB (Some "autosync") 300 (as_uid a) 0;
      on_part (fun a => a <| m_dwTimerID := i |>)
    else mret tt
  else mret tt.

End AutoSync.
