(* ===== verification/RedisAgent.v ===== *)
(** * The asynchronous cache client ([datacenter/RedisAgent.cpp])

    A command is sent on one of the connections with the id of a callback
    buffer; the reply, or a timeout check, gives the buffer back to the
    listener. hiredis and the event loop are outside the repository: a
    connection is a handle, what is sent and what the listener is told are a
    trace, and a run of the event loop is a program that the environment
    supplies, made of the callbacks below. *)

From S2P Require Import Prelude CString Extern ConfigCenter.

Record RedisAddr := mkRedisAddr { ra_ip : string; ra_port : Z; ra_dbidx : Z }.
Record RedisClientContext := mkRedisClientContext { rc_addr : RedisAddr; rc_ctx : Z; db_selected : bool }.
#[global] Instance eta_RedisClientContext : Eta RedisClientContext := fun r =>
  mkRedisClientContext (rc_addr r) (rc_ctx r) (db_selected r).

Record RedisAgentCallBack := mkRedisAgentCallBack { cb_buf : bytes; cb_time : Z }.

(** What a reply carries for this agent and its listener. *)
Record AsyncReply := mkAsyncReply { ar_type : ReplyType; ar_integer : Z; ar_str : bytes }.

Inductive RedisEvt :=
| RSend (ctx : Z) (args : list bytes) (cbid : Z)
| ROnCommand (reply : option AsyncReply) (cb : bytes) (timeout : bool)
| RDisconnect (ctx : Z).

Record RedisAgent := mkRedisAgent {
  m_listener : bool;
  m_dwCallBackSeq : Z;
  m_mpCallBackPool : gmap Z RedisAgentCallBack;
  m_chkTimeOut : Z;
  redisCtxList : list RedisClientContext;
  m_iConnected : Z;
  m_closing : bool;
  redis_trace : list RedisEvt
}.
#[global] Instance eta_RedisAgent : Eta RedisAgent := fun r =>
  mkRedisAgent (m_listener r) (m_dwCallBackSeq r) (m_mpCallBackPool r) (m_chkTimeOut r)
    (redisCtxList r) (m_iConnected r) (m_closing r) (redis_trace r).

Definition SELECTDB_CB : string := "$SELECTDB".

Definition RedisAgent_new : RedisAgent := mkRedisAgent false 1 ∅ 5 [] 0 false [].

Definition remit (e : RedisEvt) : M RedisAgent unit := modify (fun a => a <| redis_trace ::= fun l => l ++ [e] |>).

(** A call of the listener, which must have been set. *)
Definition listener_OnCommand (reply : option AsyncReply) (cb : bytes) (timeout : bool) : M RedisAgent unit :=
  a ← gets (fun a => a);
  assert (m_listener a);;
  remit (ROnCommand reply cb timeout).

Definition FindCallBack (cbid : Z) (a : RedisAgent) : option RedisAgentCallBack := m_mpCallBackPool a !! cbid.

Definition FindContext (c : Z) (a : RedisAgent) : option nat :=
  fst <$> list_find (fun x => rc_ctx x = c) (redisCtxList a).

Definition AllContextReady (a : RedisAgent) : bool := forallb db_selected (redisCtxList a).

(** [OnSelectDB]: [reply->integer] of no reply is undefined. *)
Definition OnSelectDB (c : Z) (reply : option AsyncReply) : M RedisAgent unit :=
  a ← gets (fun a => a);
  match FindContext c a with
  | None => mret tt
  | Some i =>
      r ← lift reply;
      if (0 =? ar_integer r) && bool_decide (ar_type r = REPLY_STATUS)
      then modify (fun a => a <| redisCtxList ::= alter (fun x => x <| db_selected := true |>) i |>)
      else mret tt
  end.

(** [OnCommand], with [CommandCallback]: [strstr] reads the buffer as a string. *)
Definition OnCommand (c : Z) (reply : option AsyncReply) (cbid : Z) : M RedisAgent unit :=
  a ← gets (fun a => a);
  match FindCallBack cbid a with
  | None => mret tt
  | Some pcb =>
      s ← lift (cstr (cb_buf pcb));
      (if has_sub SELECTDB_CB s then OnSelectDB c reply
       else listener_OnCommand reply (cb_buf pcb) false);;
      modify (fun a => a <| m_mpCallBackPool ::= delete cbid |>)
  end.

Section Command.
(** The result of [redisvAsyncCommand] after a history; the value of [rand()]
    and the time of a call are arguments. *)
Context (async_ret : list RedisEvt -> Z) (rand now : Z).

Definition Command (cb : bytes) (args : list bytes) : M RedisAgent Z :=
  a ← gets (fun a => a);
  rcc ← lift (redisCtxList a !! Z.to_nat (rand mod Z.of_nat (length (redisCtxList a))));
  seq ← lift (next_free (S (size (m_mpCallBackPool a))) (m_mpCallBackPool a) (m_dwCallBackSeq a));
  modify (fun a => a <| m_dwCallBackSeq := seq |>);;
  if negb (async_ret (redis_trace a) =? 0) then mret (-1)
  else
    remit (RSend (rc_ctx rcc) args seq);;
    modify (fun a => a <| m_mpCallBackPool ::= <[seq := mkRedisAgentCallBack cb (u32 now)]> |>
                       <| m_dwCallBackSeq := u32 (seq + 1) |>);;
    mret 0.

Definition Get (key : string) (cb : bytes) : M RedisAgent Z := Command cb [of_str "GET"; of_str key].
Definition Update (key : string) (obj cb : bytes) : M RedisAgent Z :=
  Command cb [of_str "SET"; of_str key; obj].
Definition Remove (key : string) (cb : bytes) : M RedisAgent Z := Command cb [of_str "DEL"; of_str key].

Definition SelectDB (dbidx : Z) : M RedisAgent unit :=
  assert (0 <=? dbidx);;
  Command (of_str SELECTDB_CB ++ [0]) [of_str "SELECT"; of_str (print_d dbidx)];;
  mret tt.

(** [ConnectCallback]: a connection that is not in the list is undefined. *)
Definition ConnectCallback (c status : Z) : M RedisAgent unit :=
  if status =? 0 then
    modify (fun a => a <| m_iConnected ::= Z.succ |>);;
    a ← gets (fun a => a);
    i ← lift (FindContext c a);
    rcc ← lift (redisCtxList a !! i);
    SelectDB (i32 (ra_dbidx (rc_addr rcc)))
  else mret tt.

End Command.

Definition DisConnectCallback (c status : Z) : M RedisAgent unit :=
  if status =? 0 then modify (fun a => a <| m_iConnected ::= Z.pred |>) else mret tt.

(** The loop of [CheckTimeOut]: [n] checks are left; with [bounded] it also
    ends behind the last id given out. *)
Fixpoint check_loop (n : nat) (bounded : bool) (now : Z) : M RedisAgent unit :=
  match n with
  | O => mret tt
  | S n =>
      a ← gets (fun a => a);
      if bounded && (m_dwCallBackSeq a <? m_chkTimeOut a) then mret tt
      else
        match m_mpCallBackPool a !! m_chkTimeOut a with
        | None =>
            modify (fun a => a <| m_chkTimeOut := u32 (m_chkTimeOut a + 1) |>);;
            check_loop n bounded now
        | Some pcb =>
            if u32 (cb_time pcb + 5) <? now then
              listener_OnCommand None (cb_buf pcb) true;;
              modify (fun a => a <| m_mpCallBackPool ::= delete (m_chkTimeOut a) |>
                                 <| m_chkTimeOut := u32 (m_chkTimeOut a + 1) |>);;
              check_loop n bounded now
            else mret tt
        end
  end.

Definition CheckTimeOut (iChkNum now : Z) : M RedisAgent unit :=
  a ← gets (fun a => a);
  if m_dwCallBackSeq a <? m_chkTimeOut a then check_loop (Z.to_nat iChkNum) false now
  else
    check_loop (Z.to_nat iChkNum) true now;;
    a ← gets (fun a => a);
    if m_dwCallBackSeq a <? m_chkTimeOut a
    then modify (fun a => a <| m_chkTimeOut := m_dwCallBackSeq a |>) else mret tt.

Section Loop.
(** A run of the event loop. *)
Context (ev_loop : nat -> M RedisAgent unit).

Definition Polling (chkPerTick now : Z) (k : nat) : M RedisAgent Z :=
  a ← gets (fun a => a);
  if m_closing a then mret 0
  else ev_loop k;; CheckTimeOut chkPerTick now;; mret 0.

Fixpoint disconnect_all (l : list RedisClientContext) : M RedisAgent unit :=
  match l with
  | [] => mret tt
  | x :: l => remit (RDisconnect (rc_ctx x));; disconnect_all l
  end.

Definition Stop : M RedisAgent unit :=
  a ← gets (fun a => a);
  if m_closing a then mret tt
  else disconnect_all (redisCtxList a);; modify (fun a => a <| m_closing := true |>).

(** The connections of [Init]: [connect] gives the handle, or an error. *)
Fixpoint connect_all (connect : RedisAddr -> option Z) (addrs : list RedisAddr) : M RedisAgent bool :=
  match addrs with
  | [] => mret true
  | addr :: addrs =>
      match connect addr with
      | None => mret false
      | Some c =>
          modify (fun a => a <| redisCtxList ::= fun l => l ++ [mkRedisClientContext addr c false] |>);;
          connect_all connect addrs
      end
  end.

(** The wait of [Init]: three seconds in steps of three milliseconds. *)
Fixpoint wait_ready (n : nat) : M RedisAgent unit :=
  match n with
  | O => mret tt
  | S n =>
      a ← gets (fun a => a);
      if AllContextReady a then mret tt else ev_loop n;; wait_ready n
  end.

Definition Init (connect : RedisAddr -> option Z) (addrList : list RedisAddr) : M RedisAgent Z :=
  a ← gets (fun a => a);
  if m_listener a then mret (-1)
  else if bool_decide (addrList = []) then mret (-1)
  else
    ok ← connect_all connect addrList;
    if negb ok then mret (-1)
    else
      ev_loop 1000;;
      wait_ready 1000;;
      a ← gets (fun a => a);
      if negb (AllContextReady a) then mret (-1)
      else modify (fun a => a <| m_listener := true |> <| m_closing := false |>);; mret 0.

End Loop.

(** ** Callbacks *)

(** Ids given out stay within 32 bits, and so does the next one. *)
Record PoolInv (a : RedisAgent) : Prop := {
  pool_seq : 0 <= m_dwCallBackSeq a < 2 ^ 32;
  pool_size : Z.of_nat (size (m_mpCallBackPool a)) < 2 ^ 32
}.

(** [Command] stores the buffer under an id that no command in flight has. *)
Lemma Command_run async_ret rand now cb args a :
  PoolInv a -> redisCtxList a <> [] -> async_ret (redis_trace a) = 0 ->
  wp (Command async_ret rand now cb args) (fun r a' => r = 0 /\
    exists i rcc, m_mpCallBackPool a !! i = None /\ rcc ∈ redisCtxList a
      /\ a' = a <| redis_trace ::= fun l => l ++ [RSend (rc_ctx rcc) args i] |>
                <| m_mpCallBackPool ::= <[i := mkRedisAgentCallBack cb (u32 now)]> |>
                <| m_dwCallBackSeq := u32 (i + 1) |>) a.
Proof.
  intros [Hs Hz] Hne Hr. unfold Command, remit. wp_steps.
  set (k := Z.to_nat _). assert (k < length (redisCtxList a))%nat as Hk.
  { subst k. destruct (redisCtxList a); [done|]. set (m := Z.of_nat _).
    assert (0 < m) by (subst m; simpl; lia). pose proof (Z.mod_pos_bound rand m). subst m. lia. }
  apply lookup_lt_is_Some in Hk as [rcc Hrcc]. eapply wp_lift; [exact Hrcc|]. wp_steps.
  destruct (next_free_total (m_mpCallBackPool a) (m_dwCallBackSeq a) Hs Hz) as (i & Hi & Hn & _).
  eapply wp_lift; [exact Hi|]. wp_steps. rewrite Hr. change (negb (0 =? 0)) with false. cbv iota. wp_steps.
  split; [done|]. exists i, rcc. split_and!; [done|by eapply list_elem_of_lookup_2|]. by destruct a.
Qed.

(** A command and its reply. [Command] registers the caller's buffer under
    an id no other command in flight uses, and the reply with that id gives the
    buffer, once, to the listener; the other commands in flight are left as
    they were. *)
Theorem Command_reply async_ret rand now cb s args c reply a :
  PoolInv a -> redisCtxList a <> [] -> async_ret (redis_trace a) = 0 -> m_listener a = true ->
  cstr cb = Some s -> has_sub SELECTDB_CB s = false ->
  exists i rcc a1 a2, Command async_ret rand now cb args a = Some (0, a1)
    /\ m_mpCallBackPool a !! i = None /\ rcc ∈ redisCtxList a
    /\ redis_trace a1 = redis_trace a ++ [RSend (rc_ctx rcc) args i]
    /\ OnCommand c reply i a1 = Some (tt, a2)
    /\ redis_trace a2 = redis_trace a1 ++ [ROnCommand reply cb false]
    /\ m_mpCallBackPool a2 = m_mpCallBackPool a.
Proof.
  intros Hinv Hne Hr Hl Hcb Hsel.
  destruct (wp_run_ret _ _ _ _ (Command_run async_ret rand now cb args a Hinv Hne Hr))
    as (a1 & E & i & rcc & Hn & Hin & ->).
  set (a1 := a <| redis_trace ::= _ |> <| m_mpCallBackPool ::= _ |> <| m_dwCallBackSeq := _ |>) in *.
  assert (wp (OnCommand c reply i) (fun _ a2 => redis_trace a2 = redis_trace a1 ++ [ROnCommand reply cb false]
    /\ m_mpCallBackPool a2 = delete i (m_mpCallBackPool a1)) a1) as Hwp.
  { unfold OnCommand, FindCallBack. wp_steps.
    assert (m_mpCallBackPool a1 !! i = Some (mkRedisAgentCallBack cb (u32 now))) as -> by apply lookup_insert_eq.
    wp_steps. eapply wp_lift; [exact Hcb|]. wp_steps. rewrite Hsel.
    unfold listener_OnCommand, remit. wp_steps; [exact Hl|]. wp_steps. done. }
  apply wp_run_unit in Hwp as (a2 & E2 & Ht & Hp). exists i, rcc, a1, a2. split_and!; try done.
  rewrite Hp. apply delete_insert_id. exact Hn.
Qed.

(** ** Timeouts *)

(** The cursor of the timeout check is ahead of every command in flight. *)
Record Ahead (a : RedisAgent) : Prop := {
  ahead_seq : m_dwCallBackSeq a < m_chkTimeOut a;
  ahead_pool : forall i cb, m_mpCallBackPool a !! i = Some cb -> i < m_chkTimeOut a;
  ahead_pos : 0 <= m_chkTimeOut a
}.

Lemma check_loop_ahead n now a :
  Ahead a -> m_chkTimeOut a + Z.of_nat n < 2 ^ 32 ->
  check_loop n false now a = Some (tt, a <| m_chkTimeOut := m_chkTimeOut a + Z.of_nat n |>).
Proof.
  revert a. induction n as [|n IH]; intros a [Hs Hp H0] Hb.
  { simpl. destruct a. unfold mret, M_ret, setf. simpl. by rewrite Z.add_0_r. }
  cbn [check_loop andb]. unfold mbind at 1, M_bind at 1, gets.
  destruct (m_mpCallBackPool a !! m_chkTimeOut a) as [cb|] eqn:E.
  { specialize (Hp _ _ E). lia. }
  erewrite bind_run by reflexivity. rewrite (u32_small (m_chkTimeOut a + 1)) by lia. rewrite IH.
  - apply f_equal, f_equal2; [done|]. destruct a. unfold setf. simpl in *.
    apply (f_equal (fun z => mkRedisAgent _ _ _ z _ _ _ _)). lia.
  - split; simpl; [lia| |lia]. intros i cb Hi. specialize (Hp _ _ Hi). lia.
  - simpl. lia.
Qed.

(** [k] polls at the times [now], with an event loop that is idle. *)
Fixpoint polls (k : nat) (chk : Z) (now : nat -> Z) : M RedisAgent unit :=
  match k with
  | O => mret tt
  | S k => Polling (fun _ => mret tt) chk (now k) k;; polls k chk now
  end.

(** A new agent that is polled before it has given out five ids checks no
    timeout: the cursor starts at [5], ahead of the commands in flight, and
    every poll moves it further ahead. However late it is, the listener is not
    told, and the callback stays. *)
Theorem polls_never_time_out k chk now a :
  Ahead a -> m_closing a = false -> 0 <= chk ->
  m_chkTimeOut a + Z.of_nat k * chk < 2 ^ 32 ->
  exists a', polls k chk now a = Some (tt, a')
    /\ m_mpCallBackPool a' = m_mpCallBackPool a /\ redis_trace a' = redis_trace a /\ Ahead a'.
Proof.
  revert a. induction k as [|k IH]; intros a Ha Hc Hchk Hb; [by exists a|].
  cbn [polls]. set (a1 := a <| m_chkTimeOut := m_chkTimeOut a + Z.of_nat (Z.to_nat chk) |>).
  assert (Polling (fun _ => mret tt) chk (now k) k a = Some (0, a1)) as E.
  { unfold Polling, mbind at 1, M_bind at 1, gets. rewrite Hc.
    erewrite bind_run by reflexivity. erewrite bind_run; [reflexivity|].
    unfold CheckTimeOut, mbind at 1, M_bind at 1, gets.
    destruct Ha as [Hs Hp H0]. destruct (Z.ltb_spec (m_dwCallBackSeq a) (m_chkTimeOut a)); [|lia].
    apply check_loop_ahead; [by split|]. lia. }
  rewrite (bind_run _ _ _ _ _ E).
  destruct (IH a1) as (a' & E' & H1 & H2 & H3); [|done|done|simpl; lia|by exists a'].
  destruct Ha as [Hs Hp H0]. split; simpl; [lia| |lia]. intros i cb Hi. specialize (Hp _ _ Hi). lia.
Qed.

(** ** A concrete agent *)

Module RedisWitness.

Definition async_ok (l : list RedisEvt) : Z := 0.

(** One connection, ready, after its [SELECT] was answered. *)
Definition a0 : RedisAgent :=
  RedisAgent_new <| m_listener := true |> <| m_dwCallBackSeq := 2 |>
    <| redisCtxList := [mkRedisClientContext (mkRedisAddr "127.0.0.1" 6379 0) 7 true] |>.

(** A command in flight since time 100. *)
Definition a1 : RedisAgent :=
  a0 <| m_dwCallBackSeq := 3 |> <| m_mpCallBackPool := {[2 := mkRedisAgentCallBack [107; 0] 100]} |>.

Lemma Command_reply_witness :
  exists i rcc a1 a2, Command async_ok 12 100 [107; 0] [of_str "GET"; of_str "k"] a0 = Some (0, a1)
    /\ redis_trace a1 = [RSend (rc_ctx rcc) [of_str "GET"; of_str "k"] i]
    /\ OnCommand 7 None i a1 = Some (tt, a2)
    /\ redis_trace a2 = redis_trace a1 ++ [ROnCommand None [107; 0] false].
Proof.
  destruct (Command_reply async_ok 12 100 [107; 0] "k" [of_str "GET"; of_str "k"] 7 None a0)
    as (i & rcc & b1 & b2 & E1 & _ & _ & E2 & E3 & E4 & _).
  - split; vm_compute; done.
  - discriminate.
  - reflexivity.
  - reflexivity.
  - reflexivity.
  - reflexivity.
  - exists i, rcc, b1, b2. split; [exact E1|]. split; [exact E2|]. split; [exact E3 | exact E4].
Defined.

Lemma polls_never_time_out_witness :
  exists a', polls 1000 10 (fun _ => 1000000) a1 = Some (tt, a') /\ redis_trace a' = [].
Proof.
  destruct (polls_never_time_out 1000 10 (fun _ => 1000000) a1) as (a' & E & _ & Ht & _).
  - split; simpl; [lia| |lia]. intros i cb Hi. apply lookup_singleton_Some in Hi as [<- _]. lia.
  - reflexivity.
  - lia.
  - vm_compute. reflexivity.
  - exists a'. split; [exact E | exact Ht].
Defined.

End RedisWitness.
