(* ===== verification/MysqlMeta.v ===== *)
(** * SQL statements from table descriptions ([db/MysqlMeta.{h,cpp}])

    A table is a list of typed columns; a row is a list of named fields, whose
    value is a union of numbers and a byte buffer. The functions here print the
    statements the database layer sends and read the text of a result row back
    into a field.

    The escape functions of the MySQL client library, the text of
    floating-point numbers and the clock format are arguments. *)

From S2P Require Import Prelude CString.

(** ** Columns and fields *)

Definition VAL_TYPE_INVALID : Z := 0.
Definition VAL_TYPE_INT32 : Z := 1.
Definition VAL_TYPE_INT64 : Z := 2.
Definition VAL_TYPE_UINT32 : Z := 3.
Definition VAL_TYPE_UINT64 : Z := 4.
Definition VAL_TYPE_REAL32 : Z := 5.
Definition VAL_TYPE_REAL64 : Z := 6.
Definition VAL_TYPE_VARCHAR : Z := 7.
Definition VAL_TYPE_TEXT : Z := 8.
Definition VAL_TYPE_BLOB : Z := 9.
Definition VAL_TYPE_DATETIME : Z := 10.
Definition VAL_TYPE_MAX : Z := 11.

(** [u_data] is the 64-bit image of the union; its members are the low bytes of
    it (the target is little-endian). *)
Record MysqlField := mkMysqlField { f_name : string; f_type : Z; u_data : Z; f_buffer : bytes }.
#[global] Instance eta_MysqlField : Eta MysqlField := fun r =>
  mkMysqlField (f_name r) (f_type r) (u_data r) (f_buffer r).

Definition ud_i32 (f : MysqlField) : Z := i32 (u_data f).
Definition ud_i64 (f : MysqlField) : Z := i64 (u_data f).
Definition ud_u32 (f : MysqlField) : Z := u32 (u_data f).
Definition ud_u64 (f : MysqlField) : Z := u64 (u_data f).

(** A store to a 32-bit member keeps the high half. *)
Definition set_low32 (v : Z) (f : MysqlField) : MysqlField :=
  f <| u_data := Z.shiftl (Z.shiftr (u_data f) 32) 32 + u32 v |>.
Definition set_64 (v : Z) (f : MysqlField) : MysqlField := f <| u_data := u64 v |>.

(** [MysqlField::Init] and the constructor, which leaves the type open. *)
Definition MysqlField_Init (f : MysqlField) : MysqlField := f <| u_data := 0 |> <| f_buffer := [] |>.

Record MysqlFieldMeta := mkMysqlFieldMeta {
  c_name : string; c_type : Z; c_typeName : string; c_maxlen : Z; c_ispk : bool
}.
#[global] Instance eta_MysqlFieldMeta : Eta MysqlFieldMeta := fun r =>
  mkMysqlFieldMeta (c_name r) (c_type r) (c_typeName r) (c_maxlen r) (c_ispk r).
Definition MysqlFieldMeta_Init : MysqlFieldMeta := mkMysqlFieldMeta "" 0 "" 0 false.

Record MysqlMeta := mkMysqlMeta { tblname : string; cols : list MysqlFieldMeta }.

Fixpoint GetFieldMeta (cols : list MysqlFieldMeta) (fieldName : string) : option MysqlFieldMeta :=
  match cols with
  | [] => None
  | c :: cols => if String.eqb (c_name c) fieldName then Some c else GetFieldMeta cols fieldName
  end.

Fixpoint GetField (fields : list MysqlField) (pszFieldName : string) : option MysqlField :=
  match fields with
  | [] => None
  | f :: fields => if String.eqb (f_name f) pszFieldName then Some f else GetField fields pszFieldName
  end.

(** ** Text of values *)

(** [strtoul(s, NULL, 10)] on a 64-bit [unsigned long]. *)
Definition strtoul (s : string) : Z :=
  let clamp d := if d <=? 2 ^ 64 - 1 then d else 2 ^ 64 - 1 in
  match skip_space s with
  | String "-"%char r => let d := digits r 0 in if d <=? 2 ^ 64 - 1 then u64 (- d) else 2 ^ 64 - 1
  | String "+"%char r => clamp (digits r 0)
  | r => clamp (digits r 0)
  end.

(** What the layer uses of the client library and of [base/DateTime.h]:
    [mysql_real_escape_string] on a connection, [mysql_escape_string] without
    one, [%f] of and [atof] to the bits of a number, [Time::mkTimeStamp]. *)
Class MysqlText := {
  real_escape : bytes -> bytes;
  plain_escape : bytes -> bytes;
  fmt_r32 : Z -> string;
  fmt_r64 : Z -> string;
  atof_r32 : string -> Z;
  atof_r64 : string -> Z;
  mkTimeStamp : string -> Z
}.

Section MysqlMeta.
Context {T : MysqlText}.

Definition GetTypeString (type : Z) : option string :=
  if (0 <=? type) && (type <? VAL_TYPE_MAX) then
    ["INVALID"; "INTEGER"; "BIGINT"; "INTEGER UNSIGNED"; "BIGINT UNSIGNED"; "FLOAT"; "DOUBLE";
     "VARCHAR"; "TEXT"; "BLOB"; "DATETIME"] !! Z.to_nat type
  else None.

(** The escaped text, written with its zero into a buffer of [2 * len + 1]
    bytes and read back as a C string. *)
Definition escaped (conn : bool) (b : bytes) : option string :=
  let e := if conn then real_escape b else plain_escape b in
  if (length e + 1 <=? 2 * length b + 1)%nat then cstr (e ++ [0]) else None.

(** A number goes through [char digitbuffer[20]]. *)
Definition digitbuffer (s : string) : string := snprintf 20 s.

(** [GetFieldValueSQL]: a column that is not in the table fails an assertion; an
    empty buffer throws, and one without a terminating zero is read past its end. *)
Definition GetFieldValueSQL (m : MysqlMeta) (col : MysqlField) (conn : bool) : option string :=
  fieldMeta ← GetFieldMeta (cols m) (f_name col);
  let t := c_type fieldMeta in
  if t =? VAL_TYPE_INT32 then Some (digitbuffer (print_d (ud_i32 col)))
  else if t =? VAL_TYPE_INT64 then Some (digitbuffer (print_d (ud_i64 col)))
  else if t =? VAL_TYPE_UINT32 then Some (digitbuffer (print_d (ud_u32 col)))
  else if t =? VAL_TYPE_UINT64 then Some (digitbuffer (print_d (ud_u64 col)))
  else if t =? VAL_TYPE_REAL32 then Some (digitbuffer (fmt_r32 (ud_u32 col)))
  else if t =? VAL_TYPE_REAL64 then Some (digitbuffer (fmt_r64 (ud_u64 col)))
  else if (t =? VAL_TYPE_VARCHAR) || (t =? VAL_TYPE_TEXT) then
    psz ← cstr (f_buffer col);
    e ← escaped conn (of_str psz);
    Some ("'" +:+ e +:+ "'")
  else if t =? VAL_TYPE_BLOB then
    e ← escaped conn (f_buffer col);
    Some ("'" +:+ e +:+ "'")
  else if t =? VAL_TYPE_DATETIME then
    Some ("FROM_UNIXTIME(" +:+ digitbuffer (print_d (ud_u32 col)) +:+ ")")
  else None.

(** [SetFieldValue]: the text [data] of a result column ([None] is a null
    pointer) goes into the field; the row's text ends with a zero. *)
Definition SetFieldValue (m : MysqlMeta) (field : MysqlField) (data : option bytes)
    : option (Z * MysqlField) :=
  match GetFieldMeta (cols m) (f_name field) with
  | None => Some (-1, field)
  | Some fieldMeta =>
      let text := default [] data in
      let field := MysqlField_Init field <| f_name := c_name fieldMeta |> <| f_type := c_type fieldMeta |> in
      number ← cstr (take 63 text ++ [0]);
      let t := c_type fieldMeta in
      let ok f := Some (0, f) in
      if (t =? VAL_TYPE_INT32) || (t =? VAL_TYPE_INT64) then ok (set_64 (strtol number) field)
      else if (t =? VAL_TYPE_UINT32) || (t =? VAL_TYPE_UINT64) then ok (set_64 (strtoul number) field)
      else if t =? VAL_TYPE_REAL32 then ok (set_low32 (atof_r32 number) field)
      else if t =? VAL_TYPE_REAL64 then ok (set_64 (atof_r64 number) field)
      else if (t =? VAL_TYPE_VARCHAR) || (t =? VAL_TYPE_TEXT) then ok (field <| f_buffer := text ++ [0] |>)
      else if t =? VAL_TYPE_BLOB then ok (field <| f_buffer := text |>)
      else if t =? VAL_TYPE_DATETIME then
        d ← data; s ← cstr (d ++ [0]); ok (set_low32 (mkTimeStamp s) field)
      else None
  end.

(** ** Statements *)

(** The loops [if(i > 0) sql += ","; sql += ...] of the statements. *)
Fixpoint comma_loop {A} (f : A -> option string) (i : nat) (l : list A) (sql : string) : option string :=
  match l with
  | [] => Some sql
  | x :: l =>
      s ← f x;
      comma_loop f (S i) l ((match i with O => sql | S _ => sql +:+ "," end) +:+ s)
  end.

(** The column definitions of [GetCreateTableSQL]. *)
Fixpoint create_cols (cols : list MysqlFieldMeta) (sql : string) : option string :=
  match cols with
  | [] => Some sql
  | c :: cols =>
      t ← GetTypeString (u8 (c_type c));
      let sql := sql +:+ c_name c +:+ " " +:+ t in
      let sql := if (0 <? c_maxlen c) && (c_type c =? VAL_TYPE_VARCHAR)
                 then sql +:+ snprintf 128 ("(" +:+ print_d (c_maxlen c) +:+ ")") else sql in
      create_cols cols (sql +:+ " NOT NULL" +:+ ("," +:+ String (of_byte 10) ""))
  end.

(** The primary keys, with a comma when something precedes. *)
Fixpoint create_pks (cols : list MysqlFieldMeta) (pks : string) : string :=
  match cols with
  | [] => pks
  | c :: cols =>
      create_pks cols (if c_ispk c then (if 0 <? strlen pks then pks +:+ "," else pks) +:+ c_name c else pks)
  end.

Definition GetCreateTableSQL (m : MysqlMeta) : option string :=
  sql ← create_cols (cols m) ("CREATE TABLE IF NOT EXISTS " +:+ tblname m +:+ " (");
  let nl := String (of_byte 10) "" in
  Some (sql +:+ "PRIMARY KEY (" +:+ create_pks (cols m) "" +:+ ")" +:+ nl
        +:+ ")ENGINE=InnoDB DEFAULT CHARSET utf8 COLLATE utf8_general_ci").

(** [MysqlMeta::Init]: one empty field per column. *)
Definition MysqlMeta_Init (m : MysqlMeta) : list MysqlField :=
  (fun c => mkMysqlField (c_name c) (c_type c) 0 []) <$> cols m.

(** The assignments of [GetUpdateTableSQL]; [first] counts those written. A
    field without a column is dereferenced. *)
Fixpoint update_cols (m : MysqlMeta) (data : list MysqlField) (conn : bool) (first : nat) (sql : string)
    : option string :=
  match data with
  | [] => Some sql
  | d :: data =>
      field ← GetFieldMeta (cols m) (f_name d);
      if c_ispk field then update_cols m data conn first sql
      else
        v ← GetFieldValueSQL m d conn;
        update_cols m data conn (S first)
          ((match first with O => sql | S _ => sql +:+ "," end) +:+ f_name d +:+ "=" +:+ v)
  end.

Definition GetUpdateTableSQL (m : MysqlMeta) (where_ : string) (data : list MysqlField) (conn : bool)
    : option string :=
  sql ← update_cols m data conn 0 ("UPDATE " +:+ tblname m +:+ " SET ");
  Some (sql +:+ " WHERE " +:+ where_).

Definition GetInsertTableSQL (m : MysqlMeta) (data : list MysqlField) (conn : bool) : option string :=
  sql ← comma_loop (fun d => Some (f_name d)) 0 data ("INSERT INTO " +:+ tblname m +:+ "(");
  sql ← comma_loop (fun d => GetFieldValueSQL m d conn) 0 data (sql +:+ ") VALUES(");
  Some (sql +:+ ")").

Definition GetDeleteTableSQL (m : MysqlMeta) (where_ : string) : string :=
  "DELETE FROM " +:+ tblname m +:+ " WHERE " +:+ where_.

(** [realFieldSels]: the keys and the columns asked for, in the table's order. *)
Definition realFieldSels (m : MysqlMeta) (selCols : list string) : list string :=
  omap (fun c => if c_ispk c || bool_decide (c_name c ∈ selCols) then Some (c_name c) else None) (cols m).

Definition GetSelectTableSQL (m : MysqlMeta) (where_ : string) (selCols : list string) : option string :=
  sql ← (if bool_decide (selCols = []) then Some "SELECT *"
         else comma_loop Some 0 (realFieldSels m selCols) "SELECT ");
  Some (sql +:+ " FROM " +:+ tblname m +:+ " WHERE " +:+ where_).

(** [Visual]: names and values, for the log. *)
Fixpoint visual_vals (m : MysqlMeta) (vc : list MysqlField) (vs : string) : option string :=
  match vc with
  | [] => Some vs
  | f :: vc =>
      v ← GetFieldValueSQL m f false;
      visual_vals m vc (vs +:+ v +:+ String (of_byte 9) "")
  end.

Definition Visual (m : MysqlMeta) (vc : list MysqlField) : option string :=
  let nl := String (of_byte 10) "" in
  let vs := foldl (fun vs f => vs +:+ f_name f +:+ String (of_byte 9) "") "" vc in
  vs ← visual_vals m vc (vs +:+ nl);
  Some (vs +:+ nl).

End MysqlMeta.

(** ** What a statement says

    The part of the server's grammar the statements use: a literal is a number,
    a quoted string with its backslash escapes, or a time; an [INSERT] is a list
    of names and a list of literals, an [UPDATE] a list of assignments. *)

Inductive SqlVal := SqlNum (z : Z) | SqlStr (b : bytes) | SqlTime (z : Z).

Fixpoint strip (p s : string) : option string :=
  match p, s with
  | EmptyString, _ => Some s
  | String c p, String d s => if Ascii.eqb c d then strip p s else None
  | String _ _, EmptyString => None
  end.

Fixpoint read_digits (s : string) (acc : Z) : Z * string :=
  match s with
  | String c r => match digit_val c with
                  | Some d => read_digits r (10 * acc + d)
                  | None => (acc, s)
                  end
  | EmptyString => (acc, s)
  end.

Definition read_number (s : string) : option (Z * string) :=
  match s with
  | String c r =>
      if is_digit c then Some (read_digits s 0)
      else if Ascii.eqb c "-" then
        match r with
        | String d _ => if is_digit d then let '(v, r) := read_digits r 0 in Some (- v, r) else None
        | EmptyString => None
        end
      else None
  | EmptyString => None
  end.

(** The character after a backslash. *)
Definition unescape (d : ascii) : Z :=
  if Ascii.eqb d "0" then 0 else if Ascii.eqb d "n" then 10 else if Ascii.eqb d "r" then 13
  else if Ascii.eqb d "Z" then 26 else if Ascii.eqb d "t" then 9 else if Ascii.eqb d "b" then 8
  else byte_of d.

(** The inside of a quoted string up to its closing quote; two quotes in a row
    stand for one. *)
Fixpoint read_quoted (s : string) : option (bytes * string) :=
  match s with
  | EmptyString => None
  | String c r =>
      if byte_of c =? 39 then
        match r with
        | String q r' => if byte_of q =? 39 then '(b, rest) ← read_quoted r'; Some (39 :: b, rest)
                         else Some ([], r)
        | EmptyString => Some ([], r)
        end
      else if byte_of c =? 92 then
        match r with
        | String d r' => '(b, rest) ← read_quoted r'; Some (unescape d :: b, rest)
        | EmptyString => None
        end
      else '(b, rest) ← read_quoted r; Some (byte_of c :: b, rest)
  end.

Definition read_literal (s : string) : option (SqlVal * string) :=
  match strip "'" s with
  | Some r => '(b, r) ← read_quoted r; Some (SqlStr b, r)
  | None =>
      match strip "FROM_UNIXTIME(" s with
      | Some r => '(z, r) ← read_number r; r ← strip ")" r; Some (SqlTime z, r)
      | None => '(z, r) ← read_number s; Some (SqlNum z, r)
      end
  end.

(** A name ends before a character of punctuation or a space. *)
Definition name_char (c : ascii) : bool :=
  negb (existsb (fun d => byte_of c =? d) [32; 39; 40; 41; 44; 61]).

Fixpoint read_name (s : string) : string * string :=
  match s with
  | String c r => if name_char c then let '(n, r) := read_name r in (String c n, r) else (EmptyString, s)
  | EmptyString => (EmptyString, s)
  end.

(** A list with commas, up to what is not a comma. *)
Fixpoint read_list {A} (elem : string -> option (A * string)) (fuel : nat) (s : string)
    : option (list A * string) :=
  match fuel with
  | O => None
  | S fuel =>
      '(x, r) ← elem s;
      match strip "," r with
      | Some r => '(xs, r) ← read_list elem fuel r; Some (x :: xs, r)
      | None => Some ([x], r)
      end
  end.

(** The table, the columns and the values of an [INSERT]. *)
Definition read_insert (s : string) : option (string * list string * list SqlVal) :=
  let fuel := String.length s in
  s ← strip "INSERT INTO " s;
  let '(t, s) := read_name s in
  s ← strip "(" s;
  '(ns, s) ← read_list (fun s => Some (read_name s)) fuel s;
  s ← strip ") VALUES(" s;
  '(vs, s) ← read_list read_literal fuel s;
  s ← strip ")" s;
  if bool_decide (s = "") then Some (t, ns, vs) else None.

Definition read_assign (s : string) : option ((string * SqlVal) * string) :=
  let '(n, s) := read_name s in
  s ← strip "=" s;
  '(v, s) ← read_literal s;
  Some ((n, v), s).

(** The table, the assignments and the condition of an [UPDATE]. *)
Definition read_update (s : string) : option (string * list (string * SqlVal) * string) :=
  let fuel := String.length s in
  s ← strip "UPDATE " s;
  let '(t, s) := read_name s in
  s ← strip " SET " s;
  '(xs, s) ← read_list read_assign fuel s;
  w ← strip " WHERE " s;
  Some (t, xs, w).

(** What the client library documents of its escape functions. *)
Definition esc_byte (b : Z) : bytes :=
  if b =? 0 then [92; 48] else if b =? 10 then [92; 110] else if b =? 13 then [92; 114]
  else if b =? 26 then [92; 90]
  else if (b =? 34) || (b =? 39) || (b =? 92) then [92; b] else [b].

Class MysqlTextLaws `{MysqlText} : Prop := {
  real_escape_doc : forall b, real_escape b = b ≫= esc_byte;
  plain_escape_doc : forall b, plain_escape b = b ≫= esc_byte
}.

(** The value of a field whose column has type [t]: floating-point columns have
    none here. *)
Definition field_value (t : Z) (f : MysqlField) : option SqlVal :=
  if t =? VAL_TYPE_INT32 then Some (SqlNum (ud_i32 f))
  else if t =? VAL_TYPE_INT64 then Some (SqlNum (ud_i64 f))
  else if t =? VAL_TYPE_UINT32 then Some (SqlNum (ud_u32 f))
  else if t =? VAL_TYPE_UINT64 then Some (SqlNum (ud_u64 f))
  else if (t =? VAL_TYPE_VARCHAR) || (t =? VAL_TYPE_TEXT) then SqlStr ∘ of_str <$> cstr (f_buffer f)
  else if t =? VAL_TYPE_BLOB then Some (SqlStr (f_buffer f))
  else if t =? VAL_TYPE_DATETIME then Some (SqlTime (ud_u32 f))
  else None.

(** Values that survive the twenty characters of [digitbuffer]. *)
Definition fits (v : SqlVal) : Prop :=
  match v with
  | SqlNum z => - 10 ^ 18 < z < 10 ^ 19
  | SqlStr b => Forall (fun x => 0 <= x < 256) b
  | SqlTime z => 0 <= z < 2 ^ 32
  end.

(** What may follow a literal. *)
Definition delim (rest : string) : Prop :=
  match rest with
  | EmptyString => True
  | String c _ => is_digit c = false /\ byte_of c <> 39 /\ name_char c = false
  end.

(** *** Readers on printed text *)

Lemma strip_app p rest : strip p (p +:+ rest) = Some rest.
Proof. induction p as [|c p IH]; [done|]. rewrite app_cons_str. simpl. by rewrite Ascii.eqb_refl. Qed.

Lemma digit_val_is_digit c :
  digit_val c = if is_digit c then Some (byte_of c - 48) else None.
Proof. done. Qed.

Lemma read_digits_app s rest acc :
  all_chars is_digit s = true -> delim rest -> read_digits (s +:+ rest) acc = (digits s acc, rest).
Proof.
  intros Hs Hr. revert acc. induction s as [|c s IH]; intros acc.
  - change ("" +:+ rest) with rest. destruct rest as [|c r]; [done|]. destruct Hr as [Hc _].
    simpl. by rewrite digit_val_is_digit, Hc.
  - rewrite app_cons_str. simpl in *. apply andb_true_iff in Hs as [Hc Hs].
    rewrite digit_val_is_digit, Hc. by apply IH.
Qed.

Lemma read_number_pos (x : N) rest :
  delim rest -> read_number (pretty x +:+ rest) = Some (Z.of_N x, rest).
Proof.
  intros Hr. pose proof (all_digits_pretty_N x) as Hd. pose proof (digits_pretty_N x) as Hv.
  destruct (pretty x) as [|c s] eqn:E.
  { exfalso. apply (print_d_nonempty (Z.of_N x)). destruct x; [done|]. exact E. }
  pose proof (read_digits_app (String c s) rest 0 Hd Hr) as Hrd.
  apply andb_true_iff in Hd as [Hc _]. rewrite app_cons_str in *. unfold read_number.
  rewrite Hc, Hrd. by rewrite Hv.
Qed.

Lemma print_d_neg p : print_d (Zneg p) = String "-" (pretty (Npos p)).
Proof. done. Qed.

Lemma read_number_print z rest :
  delim rest -> read_number (print_d z +:+ rest) = Some (z, rest).
Proof.
  intros Hr. destruct z as [|p|p].
  - exact (read_number_pos 0 rest Hr).
  - exact (read_number_pos (Npos p) rest Hr).
  - rewrite print_d_neg, app_cons_str.
    pose proof (all_digits_pretty_N (Npos p)) as Hd. pose proof (digits_pretty_N (Npos p)) as Hv.
    destruct (pretty (Npos p)) as [|c s] eqn:E; [by apply (print_d_nonempty (Zpos p)) in E|].
    pose proof (read_digits_app (String c s) rest 0 Hd Hr) as Hrd.
    apply andb_true_iff in Hd as [Hc _]. rewrite app_cons_str in *. cbn [read_number].
    change (is_digit "-") with false. change (Ascii.eqb "-" "-") with true. cbv iota.
    rewrite Hc, Hrd, Hv. done.
Qed.

(** Numbers between [-10^18] and [10^19] fill at most nineteen characters. *)
Lemma length_print_d_19 z : - 10 ^ 18 < z < 10 ^ 19 -> (String.length (print_d z) <= 19)%nat.
Proof.
  intros Hz.
  assert (forall k p, Z.pos p < 10 ^ Z.of_nat k -> (String.length (pretty (Npos p)) <= k)%nat) as H.
  { intros k p Hp. unfold pretty, pretty_N. rewrite decide_False by done.
    pose proof (length_pretty_N_go k (Npos p) "" Hp). simpl in *. lia. }
  destruct z as [|p|p].
  - simpl. lia.
  - change (print_d _) with (pretty (Npos p)). apply H. lia.
  - rewrite print_d_neg. cbn [String.length]. pose proof (H 18%nat p ltac:(lia)). lia.
Qed.

Lemma digitbuffer_fits z : - 10 ^ 18 < z < 10 ^ 19 -> digitbuffer (print_d z) = print_d z.
Proof. intros H. apply snprintf_fits. pose proof (length_print_d_19 z H). lia. Qed.

Lemma esc_byte_length b : (length (esc_byte b) <= 2)%nat.
Proof. unfold esc_byte. repeat case_match; simpl; lia. Qed.

Lemma esc_length l : (length (l ≫= esc_byte) <= 2 * length l)%nat.
Proof.
  induction l as [|b l IH]; [simpl; lia|]. cbn [mbind list_bind]. rewrite length_app. simpl in *.
  pose proof (esc_byte_length b). unfold mbind in *. lia.
Qed.

Lemma esc_byte_range b : 0 <= b < 256 -> Forall (fun x => 0 < x < 256) (esc_byte b).
Proof.
  intros Hb. unfold esc_byte.
  repeat case_match; repeat constructor; lia.
Qed.

Lemma cstr_to_str l : Forall (fun x => 0 < x < 256) l -> cstr (l ++ [0]) = Some (to_str l).
Proof.
  induction 1 as [|x l Hx _ IH]; [done|]. simpl. destruct (Z.eqb_spec x 0); [lia|]. by rewrite IH.
Qed.

Lemma to_str_app a b : to_str (a ++ b) = to_str a +:+ to_str b.
Proof. induction a as [|x a IH]; [done|]. simpl. by rewrite IH. Qed.

(** One escaped byte is read as itself. *)
Lemma read_quoted_byte b t :
  0 <= b < 256 ->
  read_quoted (to_str (esc_byte b) +:+ t) = '(l, rest) ← read_quoted t; Some (b :: l, rest).
Proof.
  intros Hb. unfold esc_byte.
  repeat (match goal with |- context [if ?x then _ else _] => destruct x eqn:? end);
    cbn [to_str]; rewrite ?app_cons_str; change ("" +:+ t) with t.
  all: try (assert (b = 0) as -> by lia); try (assert (b = 10) as -> by lia);
    try (assert (b = 13) as -> by lia); try (assert (b = 26) as -> by lia); try reflexivity.
  - assert (b = 34 \/ b = 39 \/ b = 92) as [->|[->| ->]] by lia; reflexivity.
  - cbn [read_quoted]. rewrite byte_of_byte by lia.
    destruct (Z.eqb_spec b 39); [lia|]. destruct (Z.eqb_spec b 92); [lia|]. reflexivity.
Qed.

Lemma read_quoted_escape l rest :
  Forall (fun x => 0 <= x < 256) l -> delim rest ->
  read_quoted (to_str (l ≫= esc_byte) +:+ "'" +:+ rest) = Some (l, rest).
Proof.
  intros Hl Hr. induction Hl as [|b l Hb _ IH].
  - change (to_str _ +:+ _) with (String "'" rest). cbn [read_quoted].
    change (byte_of "'" =? 39) with true. cbv iota. destruct rest as [|c r]; [done|].
    destruct Hr as (_ & Hc & _). by destruct (Z.eqb_spec (byte_of c) 39).
  - cbn [mbind list_bind]. rewrite to_str_app, app_assoc_str, read_quoted_byte by done.
    change (list_bind Z Z esc_byte l) with (l ≫= esc_byte). by rewrite IH.
Qed.

Lemma strip_quote_none c s : c <> "'"%char -> strip "'" (String c s) = None.
Proof. intros H. cbn [strip]. destruct (Ascii.eqb_spec "'" c); [congruence|done]. Qed.

Lemma read_literal_number z rest :
  delim rest -> read_literal (print_d z +:+ rest) = Some (SqlNum z, rest).
Proof.
  intros Hr. pose proof (read_number_print z rest Hr) as H.
  assert (exists c s, print_d z = String c s /\ num_char c = true) as (c & s & E & Hc).
  { pose proof (all_num_print_d z) as Ha. destruct (print_d z) as [|c s] eqn:E.
    - by apply print_d_nonempty in E.
    - apply andb_true_iff in Ha as [Hc _]. eauto. }
  rewrite E in *. rewrite app_cons_str in *. unfold read_literal.
  rewrite strip_quote_none by (intros ->; discriminate).
  assert (strip "FROM_UNIXTIME(" (String c (s +:+ rest)) = None) as ->.
  { cbn [strip]. destruct (Ascii.eqb_spec "F" c) as [<-|]; [discriminate|done]. }
  by rewrite H.
Qed.

(** Decides the tests on a column type that is known. *)
Ltac type_tests :=
  repeat match goal with
  | |- context [?a =? ?b] => let r := eval vm_compute in (a =? b) in change (a =? b) with r
  | H : context [?a =? ?b] |- _ => let r := eval vm_compute in (a =? b) in change (a =? b) with r in H
  end; cbn [orb] in *; cbv iota in *.

Section literals.
Context {T : MysqlText} {L : MysqlTextLaws}.

Lemma escaped_doc conn l :
  Forall (fun x => 0 <= x < 256) l -> escaped conn l = Some (to_str (l ≫= esc_byte)).
Proof.
  intros Hl. unfold escaped.
  replace (if conn then real_escape l else plain_escape l) with (l ≫= esc_byte)
    by (destruct conn; [by rewrite real_escape_doc|by rewrite plain_escape_doc]).
  cbv zeta. pose proof (esc_length l).
  destruct (Nat.leb_spec (length (l ≫= esc_byte) + 1) (2 * length l + 1)); [|lia].
  apply cstr_to_str. clear -Hl. induction Hl as [|b l Hb _ IH]; [constructor|].
  cbn [mbind list_bind]. apply Forall_app. split; [by apply esc_byte_range|exact IH].
Qed.

Lemma read_literal_quoted l rest :
  Forall (fun x => 0 <= x < 256) l -> delim rest ->
  read_literal (("'" +:+ to_str (l ≫= esc_byte) +:+ "'") +:+ rest) = Some (SqlStr l, rest).
Proof.
  intros Hl Hr. rewrite !app_assoc_str. unfold read_literal. rewrite strip_app.
  by rewrite read_quoted_escape.
Qed.

Lemma read_literal_time z rest :
  0 <= z < 2 ^ 32 ->
  read_literal (("FROM_UNIXTIME(" +:+ digitbuffer (print_d z) +:+ ")") +:+ rest) = Some (SqlTime z, rest).
Proof.
  intros Hz. rewrite digitbuffer_fits by lia. rewrite !app_assoc_str. unfold read_literal.
  lazymatch goal with |- context [strip "'" ?x] => change (strip "'" x) with (@None string) end.
  cbv iota. rewrite strip_app. rewrite read_number_print by done.
  cbn [mbind option_bind]. by rewrite strip_app.
Qed.

(** The literal of a field denotes its value, whatever the text that follows. *)
Lemma GetFieldValueSQL_reads m c f v conn rest :
  GetFieldMeta (cols m) (f_name f) = Some c -> field_value (c_type c) f = Some v ->
  fits v -> delim rest ->
  exists s, GetFieldValueSQL m f conn = Some s /\ read_literal (s +:+ rest) = Some (v, rest).
Proof.
  intros Hc Hv Hf Hr. unfold GetFieldValueSQL, field_value in *. rewrite Hc. cbn [mbind option_bind].
  repeat (match goal with |- context [if ?b then _ else _] => destruct b eqn:? end); try lia;
    try (injection Hv as <-; eexists; split; [reflexivity|];
         rewrite digitbuffer_fits by done; by apply read_literal_number);
    try (match goal with H : (c_type c =? _) = true |- _ =>
           apply Z.eqb_eq in H; rewrite H in Hv; discriminate Hv end).
  - destruct (cstr (f_buffer f)) as [s|] eqn:Es; [|done]. injection Hv as <-. simpl in Hf.
    cbn [mbind option_bind]. rewrite escaped_doc by done. eexists. split; [reflexivity|].
    by apply read_literal_quoted.
  - injection Hv as <-. simpl in Hf. rewrite escaped_doc by done. eexists. split; [reflexivity|].
    by apply read_literal_quoted.
  - injection Hv as <-. eexists. split; [reflexivity|]. by apply read_literal_time.
  - discriminate Hv.
Qed.

(** *** Lists *)

(** Texts with a comma before each, and between them. *)
Fixpoint commas (l : list string) : string :=
  match l with [] => "" | s :: l => "," +:+ s +:+ commas l end.
Definition joined (l : list string) : string :=
  match l with [] => "" | s :: l => s +:+ commas l end.

Lemma comma_loop_S {A} (f : A -> option string) i l ss sql :
  Forall2 (fun x s => f x = Some s) l ss -> comma_loop f (S i) l sql = Some (sql +:+ commas ss).
Proof.
  intros HF. revert i sql. induction HF as [|x s l ss Hx _ IH]; intros i sql; [by rewrite app_nil_str|].
  cbn [comma_loop]. rewrite Hx. cbn [mbind option_bind commas]. by rewrite IH, !app_assoc_str.
Qed.

Lemma comma_loop_0 {A} (f : A -> option string) l ss sql :
  Forall2 (fun x s => f x = Some s) l ss -> comma_loop f 0 l sql = Some (sql +:+ joined ss).
Proof.
  destruct 1 as [|x s l ss Hx HF]; [by rewrite app_nil_str|].
  cbn [comma_loop]. rewrite Hx. cbn [mbind option_bind joined]. by rewrite (comma_loop_S _ _ _ _ _ HF), app_assoc_str.
Qed.

Lemma delim_commas ss tail : delim tail -> delim (commas ss +:+ tail).
Proof. destruct ss; [done|]. intros _. done. Qed.

Lemma read_list_joined {A} (elem : string -> option (A * string)) fuel ss xs tail :
  Forall2 (fun s x => forall rest, delim rest -> elem (s +:+ rest) = Some (x, rest)) ss xs ->
  ss <> [] -> (length ss <= fuel)%nat -> delim tail -> strip "," tail = None ->
  read_list elem fuel (joined ss +:+ tail) = Some (xs, tail).
Proof.
  intros HF Hne Hfuel Hd Ht. revert fuel Hne Hfuel.
  induction HF as [|s x ss xs Hx HF IH]; intros [|fuel] Hne Hfuel; try done; [simpl in *; lia|].
  cbn [read_list joined]. rewrite app_assoc_str, Hx by (by apply delim_commas). cbn [mbind option_bind].
  destruct HF as [|s' x' ss xs Hx' HF].
  - change (commas [] +:+ tail) with tail. by rewrite Ht.
  - cbn [commas]. rewrite app_assoc_str, strip_app.
    change (s' +:+ commas ss) with (joined (s' :: ss)).
    rewrite IH; [done|done|simpl in *; lia].
Qed.

(** A name of the statements, and that the reader stops behind it. *)
Definition name_ok (n : string) : Prop := all_chars name_char n = true.

Lemma read_name_app n rest : name_ok n -> delim rest -> read_name (n +:+ rest) = (n, rest).
Proof.
  intros Hn Hr. induction n as [|c n IH].
  - change ("" +:+ rest) with rest. destruct rest as [|c r]; [done|]. destruct Hr as (_ & _ & Hc).
    simpl. by rewrite Hc.
  - apply andb_true_iff in Hn as [Hc Hn]. rewrite app_cons_str. simpl. by rewrite Hc, IH.
Qed.

Lemma length_joined ss : (length ss <= S (String.length (joined ss)))%nat.
Proof.
  assert (forall l, (length l <= String.length (commas l))%nat) as H.
  { induction l as [|s l IH]; [done|]. cbn [commas length]. rewrite !length_app_str. simpl. lia. }
  destruct ss as [|s ss]; [simpl; lia|]. cbn [joined length]. rewrite length_app_str. specialize (H ss). lia.
Qed.

(** *** Statements *)

(** A field of the table, with its value. *)
Definition has_value (m : MysqlMeta) (f : MysqlField) (v : SqlVal) : Prop :=
  exists c, GetFieldMeta (cols m) (f_name f) = Some c /\ field_value (c_type c) f = Some v /\ fits v.

Lemma has_value_literal m f v conn :
  has_value m f v ->
  exists s, GetFieldValueSQL m f conn = Some s
    /\ forall rest, delim rest -> read_literal (s +:+ rest) = Some (v, rest).
Proof.
  intros (c & Hc & Hv & Hf).
  destruct (GetFieldValueSQL_reads m c f v conn "" Hc Hv Hf I) as (s & Hs & _).
  exists s. split; [done|]. intros rest Hr.
  destruct (GetFieldValueSQL_reads m c f v conn rest Hc Hv Hf Hr) as (s' & Hs' & Hrd). congruence.
Qed.

Lemma has_value_literals m data vs conn :
  Forall2 (has_value m) data vs ->
  exists ss, Forall2 (fun f s => GetFieldValueSQL m f conn = Some s) data ss
    /\ Forall2 (fun s v => forall rest, delim rest -> read_literal (s +:+ rest) = Some (v, rest)) ss vs.
Proof.
  induction 1 as [|f v data vs Hf _ (ss & H1 & H2)]; [by exists []|].
  destruct (has_value_literal m f v conn Hf) as (s & Hs & Hr). exists (s :: ss). by split; constructor.
Qed.

(** C18. An [INSERT] says what it is meant to. For a row of integer, string, blob
    and time columns whose numbers lie between [-10^18] and [10^19], the
    statement read by the server's grammar names the table, the columns in order
    and exactly the values of the row: no string or blob can end its literal
    early, whatever bytes it holds. *)
Theorem GetInsertTableSQL_denotes m data vs conn :
  name_ok (tblname m) -> data <> [] -> Forall (fun f => name_ok (f_name f)) data ->
  Forall2 (has_value m) data vs ->
  exists sql, GetInsertTableSQL m data conn = Some sql
    /\ read_insert sql = Some (tblname m, f_name <$> data, vs).
Proof.
  intros Ht Hne Hn HF. destruct (has_value_literals m data vs conn HF) as (ss & Hs & Hr).
  unfold GetInsertTableSQL.
  rewrite (comma_loop_0 _ data (f_name <$> data)) by (apply Forall2_fmap_r, Forall_Forall2_diag, Forall_true; done).
  cbn [mbind option_bind]. rewrite (comma_loop_0 _ _ _ _ Hs). cbn [mbind option_bind].
  eexists. split; [reflexivity|]. rewrite !app_assoc_str. unfold read_insert.
  set (fuel := String.length _).
  assert (length data <= fuel /\ length ss <= fuel)%nat as [Hf1 Hf2].
  { pose proof (length_joined (f_name <$> data)) as H1. pose proof (length_joined ss) as H2.
    rewrite length_fmap in H1. subst fuel. rewrite !length_app_str. simpl. lia. }
  clearbody fuel. rewrite strip_app. cbn [mbind option_bind]. rewrite read_name_app by done. rewrite strip_app.
  cbn [mbind option_bind]. rewrite (read_list_joined _ _ _ (f_name <$> data)); [|..|done|done].
  - cbn [mbind option_bind]. rewrite strip_app. cbn [mbind option_bind].
    rewrite (read_list_joined _ _ _ vs); [|done| |done..].
    + reflexivity.
    + intros ->. by inversion Hs; subst.
  - apply Forall2_fmap, Forall_Forall2_diag. eapply Forall_impl; [exact Hn|].
    intros f Hf rest Hd. by rewrite read_name_app.
  - by destruct data.
  - by rewrite length_fmap.
Qed.

(** The columns an [UPDATE] sets: those that are not part of the key. *)
Definition settable (m : MysqlMeta) (f : MysqlField) : Prop :=
  match GetFieldMeta (cols m) (f_name f) with Some c => c_ispk c = false | None => False end.
#[global] Instance settable_dec m f : Decision (settable m f).
Proof. unfold settable. destruct (GetFieldMeta _ _); apply _. Defined.

Definition assign (m : MysqlMeta) (conn : bool) (f : MysqlField) : option string :=
  v ← GetFieldValueSQL m f conn; Some (f_name f +:+ "=" +:+ v).

Lemma update_cols_loop m data conn i sql :
  Forall (fun f => is_Some (GetFieldMeta (cols m) (f_name f))) data ->
  update_cols m data conn i sql = comma_loop (assign m conn) i (filter (settable m) data) sql.
Proof.
  intros HF. revert i sql. induction HF as [|f data [c Hc] _ IH]; intros i sql; [done|].
  cbn [update_cols]. rewrite Hc. cbn [mbind option_bind].
  assert (settable m f <-> c_ispk c = false) as Hset by (unfold settable; by rewrite Hc).
  destruct (c_ispk c) eqn:Ep.
  - rewrite filter_cons_False by (rewrite Hset; discriminate). apply IH.
  - rewrite filter_cons_True by (by rewrite Hset). cbn [comma_loop].
    change (assign m conn f) with (v ← GetFieldValueSQL m f conn; Some (f_name f +:+ "=" +:+ v)).
    destruct (GetFieldValueSQL m f conn) as [v|]; cbn [mbind option_bind]; [by rewrite IH|done].
Qed.

Lemma has_value_assigns m conn data vs :
  Forall (fun f => name_ok (f_name f)) data -> Forall2 (has_value m) data vs ->
  exists ss, Forall2 (fun f s => assign m conn f = Some s) data ss
    /\ Forall2 (fun s x => forall rest, delim rest -> read_assign (s +:+ rest) = Some (x, rest))
         ss (zip (f_name <$> data) vs).
Proof.
  intros Hn HF. induction HF as [|f v data vs Hf _ IH]; [by exists []|].
  apply Forall_cons in Hn as [Hnf Hn]. destruct (IH Hn) as (ss & H1 & H2).
  destruct (has_value_literal m f v conn Hf) as (s & Hs & Hr).
  exists ((f_name f +:+ "=" +:+ s) :: ss). split; constructor; [by unfold assign; rewrite Hs|done| |done].
  intros rest Hd. unfold read_assign. rewrite !app_assoc_str, read_name_app by done.
  rewrite strip_app. cbn [mbind option_bind]. by rewrite Hr.
Qed.

(** C19. An [UPDATE] sets what it is meant to. For a row with at least one column
    that is not part of the key, whose columns outside the key are integers,
    strings, blobs and times and whose numbers lie between [-10^18] and [10^19],
    the statement read by the server's grammar assigns to every column that is
    not part of the key exactly that column's value, in order, and keeps the
    condition it was given. Floating-point columns are not covered, and larger
    numbers lose a digit ([big_uint64_truncated]). *)
Theorem GetUpdateTableSQL_denotes m where_ data vs conn :
  name_ok (tblname m) -> Forall (fun f => is_Some (GetFieldMeta (cols m) (f_name f))) data ->
  filter (settable m) data <> [] -> Forall (fun f => name_ok (f_name f)) data ->
  Forall2 (has_value m) (filter (settable m) data) vs ->
  exists sql, GetUpdateTableSQL m where_ data conn = Some sql
    /\ read_update sql = Some (tblname m, zip (f_name <$> filter (settable m) data) vs, where_).
Proof.
  intros Ht Hc Hne Hn HF. set (d := filter (settable m) data) in *.
  assert (Forall (fun f => name_ok (f_name f)) d) as Hnd.
  { apply Forall_forall. intros f [_ Hf]%list_elem_of_filter. exact (proj1 (Forall_forall _ _) Hn f Hf). }
  destruct (has_value_assigns m conn d vs Hnd HF) as (ss & Hs & Hr).
  unfold GetUpdateTableSQL. rewrite update_cols_loop by done. fold d.
  rewrite (comma_loop_0 _ _ _ _ Hs). cbn [mbind option_bind]. eexists. split; [reflexivity|].
  rewrite !app_assoc_str. unfold read_update. set (fuel := String.length _).
  assert (length ss <= fuel)%nat as Hfu.
  { pose proof (length_joined ss). subst fuel. rewrite !length_app_str. simpl. lia. }
  clearbody fuel. rewrite strip_app. cbn [mbind option_bind]. rewrite read_name_app by done.
  rewrite strip_app. cbn [mbind option_bind].
  rewrite (read_list_joined _ _ _ _ _ Hr); [| |done..].
  - cbn [mbind option_bind]. by rewrite strip_app.
  - intros ->. by inversion Hs; subst.
Qed.

(** *** Reading a row back *)

(** The text protocol gives a number in decimal and a string as its bytes. *)
Definition row_text (v : SqlVal) : option bytes :=
  match v with SqlNum z => Some (of_str (print_d z)) | SqlStr b => Some b | SqlTime _ => None end.

Lemma cstr_snoc l : is_Some (cstr (l ++ [0])).
Proof.
  induction l as [|x l [s IH]]; [by eexists|]. simpl. destruct (x =? 0); [by eexists|].
  rewrite IH. by eexists.
Qed.

Lemma cstr_no_nul b s : Forall (fun x => 0 <= x < 256) b -> cstr b = Some s -> no_nul s.
Proof.
  intros Hb. revert s. induction Hb as [|x b Hx _ IH]; intros s E; [done|]. simpl in E.
  destruct (Z.eqb_spec x 0); [injection E as <-; apply not_elem_of_nil|].
  destruct (cstr b) as [t|]; [|done]. injection E as <-. unfold no_nul. simpl.
  rewrite byte_of_byte, not_elem_of_cons by done. split; [done|by apply IH].
Qed.

Lemma number_text z :
  - 10 ^ 18 < z < 10 ^ 19 -> cstr (take 63 (of_str (print_d z)) ++ [0]) = Some (print_d z).
Proof.
  intros Hz. pose proof (length_print_d_19 z Hz). rewrite take_ge by (rewrite length_of_str; lia).
  apply cstr_of_str. unfold no_nul. apply not_in_num; [apply all_num_print_d|lia].
Qed.

Lemma strtoul_print_d z : 0 <= z < 2 ^ 64 -> strtoul (print_d z) = z.
Proof.
  intros Hz. assert (exists n : N, print_d z = pretty n /\ z = Z.of_N n) as (n & -> & ->).
  { destruct z as [|p|p]; [by exists 0%N|by exists (Npos p)|lia]. }
  pose proof (all_digits_pretty_N n) as Hd. pose proof (digits_pretty_N n) as Hv.
  unfold strtoul. destruct (pretty n) as [|c s] eqn:E; [simpl in *; lia|].
  apply andb_true_iff in Hd as [Hc _]. cbn [skip_space]. rewrite is_digit_not_space by done.
  destruct (is_digit_not_sign c Hc) as [H1 H2].
  assert ((if digits (String c s) 0 <=? 2 ^ 64 - 1 then digits (String c s) 0 else 2 ^ 64 - 1) = Z.of_N n) as Hr.
  { rewrite Hv. destruct (Z.leb_spec (Z.of_N n) (2 ^ 64 - 1)); lia. }
  destruct c as [[] [] [] [] [] [] [] []]; try exact Hr; congruence.
Qed.

Lemma field_value_type t f v :
  field_value t f = Some v ->
  t ∈ [VAL_TYPE_INT32; VAL_TYPE_INT64; VAL_TYPE_UINT32; VAL_TYPE_UINT64;
       VAL_TYPE_VARCHAR; VAL_TYPE_TEXT; VAL_TYPE_BLOB; VAL_TYPE_DATETIME].
Proof.
  unfold field_value. rewrite !elem_of_cons.
  repeat (match goal with |- context [if ?b then _ else _] => destruct b eqn:? end); try discriminate;
    intros _; lia.
Qed.

(** The value of a field survives the way to the server and back. *)
Lemma SetFieldValue_reads m c f f0 v text :
  GetFieldMeta (cols m) (f_name f0) = Some c -> field_value (c_type c) f = Some v -> fits v ->
  Forall (fun x => 0 <= x < 256) (f_buffer f) -> row_text v = Some text ->
  exists f', SetFieldValue m f0 (Some text) = Some (0, f')
    /\ f_name f' = c_name c /\ f_type f' = c_type c /\ field_value (c_type c) f' = Some v.
Proof.
  intros Hc Hv Hf Hb Htx. pose proof (field_value_type _ _ _ Hv) as Ht.
  unfold SetFieldValue. rewrite Hc. cbv zeta. change (default [] (Some text)) with text.
  assert (exists number, cstr (take 63 text ++ [0]) = Some number
    /\ forall z, v = SqlNum z -> number = print_d z) as (number & Hn & Hnum).
  { destruct v as [z|b|z]; simplify_eq/=.
    - exists (print_d z). split; [by apply number_text|]. intros ? [= ->]. done.
    - destruct (cstr_snoc (take 63 text)) as [s Hs]. by exists s. }
  rewrite Hn. cbn [mbind option_bind]. unfold field_value in Hv |- *.
  rewrite !elem_of_cons, elem_of_nil in Ht.
  destruct Ht as [E|[E|[E|[E|[E|[E|[E|[E|[]]]]]]]]]; rewrite E in *; type_tests.
  all: try (injection Hv as <-; simpl in Hf; rewrite (Hnum _ eq_refl);
    eexists; split; [reflexivity|]; split; [done|]; split; [done|]; do 2 f_equal).
  - unfold ud_i32, set_64 in *. pose proof (i32_bound (u_data f)). simpl.
    rewrite strtol_print_d, i32_u64 by lia. by apply i32_small.
  - unfold ud_i64, set_64 in *. pose proof (i64_bound (u_data f)). simpl.
    rewrite strtol_print_d, i64_u64 by lia. by apply i64_small.
  - unfold ud_u32, set_64 in *. pose proof (u32_bound (u_data f)). simpl.
    rewrite strtoul_print_d, u32_u64 by lia. by apply u32_small.
  - unfold ud_u64, set_64 in *. pose proof (u64_bound (u_data f)). simpl.
    rewrite strtoul_print_d by lia. by rewrite !(u64_small (u64 (u_data f))) by lia.
  - destruct (cstr (f_buffer f)) as [s|] eqn:Es; [|done]. injection Hv as <-. injection Htx as <-.
    eexists. split; [reflexivity|]. split; [done|]. split; [done|]. simpl.
    rewrite cstr_of_str; [done|]. by eapply cstr_no_nul.
  - destruct (cstr (f_buffer f)) as [s|] eqn:Es; [|done]. injection Hv as <-. injection Htx as <-.
    eexists. split; [reflexivity|]. split; [done|]. split; [done|]. simpl.
    rewrite cstr_of_str; [done|]. by eapply cstr_no_nul.
  - injection Hv as <-. injection Htx as <-. by eexists.
  - injection Hv as <-. discriminate Htx.
Qed.

(** C20. A stored value is the value read back, for integer columns with numbers
    between [-10^18] and [10^19], and for string and blob columns: the literal
    that stands for the field in a statement denotes its value [v], and when the
    server answers a select with the text of [v], [SetFieldValue] gives a field of
    the same name and type with the same value. Floating-point and [DATETIME]
    columns are not covered, and larger numbers are stored without their last
    digit ([big_uint64_truncated]). *)
Theorem field_round_trip m c f v text conn :
  GetFieldMeta (cols m) (f_name f) = Some c -> field_value (c_type c) f = Some v -> fits v ->
  Forall (fun x => 0 <= x < 256) (f_buffer f) -> row_text v = Some text ->
  exists lit f', GetFieldValueSQL m f conn = Some lit
    /\ (forall rest, delim rest -> read_literal (lit +:+ rest) = Some (v, rest))
    /\ SetFieldValue m f (Some text) = Some (0, f')
    /\ f_name f' = c_name c /\ f_type f' = c_type c /\ field_value (c_type c) f' = Some v.
Proof.
  intros Hc Hv Hf Hb Htx.
  destruct (has_value_literal m f v conn (ex_intro _ c (conj Hc (conj Hv Hf)))) as (lit & Hl & Hr).
  destruct (SetFieldValue_reads m c f f v text Hc Hv Hf Hb Htx) as (f' & Hs). by exists lit, f'.
Qed.

End literals.

(** ** Twenty characters are not enough *)

Lemma pretty_N_go_app x s : pretty_N_go x s = pretty_N_go x "" +:+ s.
Proof.
  revert s. induction (N.lt_wf_0 x) as [x _ IH]; intros s.
  destruct (decide (x = 0)%N) as [->|Hx]; [by rewrite !pretty_N_go_0|].
  rewrite !(pretty_N_go_step x) by lia.
  rewrite (IH (x / 10)%N), (IH (x / 10)%N (ltac:(apply N.div_lt; lia)) (String _ "")) by (apply N.div_lt; lia).
  by rewrite app_assoc_str.
Qed.

Lemma length_pretty_N_go_ge (k : nat) (x : N) :
  10 ^ Z.of_nat k <= Z.of_N x -> (k < String.length (pretty_N_go x ""))%nat.
Proof.
  revert x. induction k as [|k IH]; intros x Hx.
  - change (10 ^ Z.of_nat 0) with 1 in Hx. rewrite pretty_N_go_step by lia.
    rewrite pretty_N_go_app, length_app_str. simpl. lia.
  - rewrite Nat2Z.inj_succ, Z.pow_succ_r in Hx by lia.
    rewrite pretty_N_go_step by lia. rewrite pretty_N_go_app, length_app_str. cbn [String.length].
    assert (10 ^ Z.of_nat k <= Z.of_N (x / 10)) as Hd.
    { rewrite N2Z.inj_div. apply Z.div_le_lower_bound; lia. }
    specialize (IH _ Hd). lia.
Qed.

Lemma substring_app s t n : String.length s = n -> String.substring 0 n (s +:+ t) = s.
Proof.
  intros <-. induction s as [|c s IH]; [by destruct t|]. rewrite app_cons_str. simpl. by rewrite IH.
Qed.

(** An unsigned 64-bit column of at least [10^19] loses its last digit: the
    buffer for the number has room for nineteen digits, so the literal in the
    statement denotes the value divided by ten. *)
Theorem big_uint64_truncated {T : MysqlText} m c f conn :
  GetFieldMeta (cols m) (f_name f) = Some c -> c_type c = VAL_TYPE_UINT64 -> 10 ^ 19 <= ud_u64 f ->
  exists lit, GetFieldValueSQL m f conn = Some lit /\ read_literal lit = Some (SqlNum (ud_u64 f / 10), "").
Proof.
  intros Hc Ht Hbig. unfold GetFieldValueSQL. rewrite Hc. cbn [mbind option_bind]. rewrite Ht.
  type_tests. eexists. split; [reflexivity|].
  assert (0 <= ud_u64 f < 2 ^ 64) as Hr by apply u64_bound. revert Hbig Hr. generalize (ud_u64 f). intros z Hbig Hr.
  assert (exists n, z = Z.of_N n /\ (0 < n)%N) as (n & -> & Hn) by (exists (Z.to_N z); lia).
  assert (digitbuffer (print_d (Z.of_N n)) = print_d (Z.of_N n / 10)) as ->.
  { assert (forall x, (0 < x)%N -> print_d (Z.of_N x) = pretty_N_go x "") as Hp.
    { intros x Hx. destruct x as [|p]; [lia|]. change (print_d _) with (pretty (Npos p)).
      unfold pretty, pretty_N. by rewrite decide_False by done. }
    rewrite Hp by done. change 10 with (Z.of_N 10). rewrite <- N2Z.inj_div, Hp by (apply N.div_str_pos; lia).
    rewrite pretty_N_go_step by done. rewrite pretty_N_go_app.
    unfold digitbuffer, snprintf. apply substring_app. apply Nat.le_antisymm.
    - pose proof (length_pretty_N_go 19 (n / 10) "") as H. rewrite Nat.add_0_r in H. apply H.
      rewrite N2Z.inj_div. apply Z.div_lt_upper_bound; lia.
    - pose proof (length_pretty_N_go_ge 18 (n / 10)) as H. apply H.
      rewrite N2Z.inj_div. apply Z.div_le_lower_bound; lia. }
  pose proof (read_literal_number (Z.of_N n / 10) "" I) as H. by rewrite app_nil_str in H.
Qed.

(** ** A concrete table *)

Module MetaWitness.

#[export] Instance text : MysqlText := {
  real_escape b := b ≫= esc_byte;
  plain_escape b := b ≫= esc_byte;
  fmt_r32 _ := "0.000000";
  fmt_r64 _ := "0.000000";
  atof_r32 _ := 0;
  atof_r64 _ := 0;
  mkTimeStamp _ := 0
}.

#[export] Instance text_laws : MysqlTextLaws.
Proof. by split. Qed.

Definition role : MysqlMeta := mkMysqlMeta "Role"
  [mkMysqlFieldMeta "rid" VAL_TYPE_UINT64 "uint64" 0 true;
   mkMysqlFieldMeta "name" VAL_TYPE_VARCHAR "string" 32 false;
   mkMysqlFieldMeta "package" VAL_TYPE_BLOB "db.RolePackage" 0 false].

(** A name with a quote, and a blob with a zero, a quote and a backslash. *)
Definition rid : MysqlField := mkMysqlField "rid" VAL_TYPE_UINT64 4294967338 [].
Definition name : MysqlField := mkMysqlField "name" VAL_TYPE_VARCHAR 0 (of_str "O'Neil" ++ [0]).
Definition package : MysqlField := mkMysqlField "package" VAL_TYPE_BLOB 0 [0; 39; 92; 10; 200].

Definition vals : list SqlVal := [SqlNum 4294967338; SqlStr (of_str "O'Neil"); SqlStr [0; 39; 92; 10; 200]].

Lemma rid_value : has_value role rid (SqlNum 4294967338).
Proof. eexists. split; [reflexivity|]. split; [reflexivity|]. done. Qed.
Lemma name_value : has_value role name (SqlStr (of_str "O'Neil")).
Proof. eexists. split; [reflexivity|]. split; [reflexivity|]. vm_compute. by repeat constructor. Qed.
Lemma package_value : has_value role package (SqlStr [0; 39; 92; 10; 200]).
Proof. eexists. split; [reflexivity|]. split; [reflexivity|]. vm_compute. by repeat constructor. Qed.

Lemma GetInsertTableSQL_denotes_witness :
  exists sql, GetInsertTableSQL role [rid; name; package] true = Some sql
    /\ read_insert sql = Some ("Role", ["rid"; "name"; "package"], vals).
Proof.
  apply (GetInsertTableSQL_denotes role [rid; name; package] vals true).
  - reflexivity.
  - discriminate.
  - repeat constructor.
  - repeat constructor; [exact rid_value|exact name_value|exact package_value].
Defined.

Lemma GetUpdateTableSQL_denotes_witness :
  exists sql, GetUpdateTableSQL role "rid = 4294967338" [rid; name; package] true = Some sql
    /\ read_update sql = Some ("Role", [("name", SqlStr (of_str "O'Neil")); ("package", SqlStr [0; 39; 92; 10; 200])],
                               "rid = 4294967338").
Proof.
  apply (GetUpdateTableSQL_denotes role "rid = 4294967338" [rid; name; package]
           [SqlStr (of_str "O'Neil"); SqlStr [0; 39; 92; 10; 200]] true).
  - reflexivity.
  - repeat constructor; eexists; reflexivity.
  - discriminate.
  - repeat constructor.
  - repeat constructor; [exact name_value|exact package_value].
Defined.

Lemma field_round_trip_witness :
  exists lit f', GetFieldValueSQL role name true = Some lit
    /\ SetFieldValue role name (Some (of_str "O'Neil")) = Some (0, f')
    /\ field_value VAL_TYPE_VARCHAR f' = Some (SqlStr (of_str "O'Neil")).
Proof.
  destruct (field_round_trip role (mkMysqlFieldMeta "name" VAL_TYPE_VARCHAR "string" 32 false) name
    (SqlStr (of_str "O'Neil")) (of_str "O'Neil") true) as (lit & f' & H1 & _ & H2 & _ & _ & H3).
  - reflexivity.
  - reflexivity.
  - vm_compute. by repeat constructor.
  - vm_compute. by repeat constructor.
  - reflexivity.
  - exists lit, f'. split; [exact H1|]. split; [exact H2 | exact H3].
Defined.

Lemma big_uint64_truncated_witness :
  exists lit, GetFieldValueSQL role (rid <| u_data := 2 ^ 64 - 1 |>) true = Some lit
    /\ read_literal lit = Some (SqlNum 1844674407370955161, "").
Proof.
  change 1844674407370955161 with (ud_u64 (rid <| u_data := 2 ^ 64 - 1 |>) / 10).
  apply (big_uint64_truncated role (mkMysqlFieldMeta "rid" VAL_TYPE_UINT64 "uint64" 0 true)
           (rid <| u_data := 2 ^ 64 - 1 |>) true).
  - reflexivity.
  - reflexivity.
  - vm_compute. discriminate.
Defined.

End MetaWitness.
