(* ===== verification/MysqlProxy.v ===== *)
(** * A connection to the database ([db/MysqlProxy.{h,cpp}])

    A proxy owns one connection, turns requests into statements and gives every
    request a response. The client library is the class [MysqlClient]: a call on
    a connection gives its result and the connection after it. *)

From S2P Require Import Prelude CString MysqlMeta.

Definition MYSQL_REQ_SELECT : Z := 1.
Definition MYSQL_REQ_UPDATE : Z := 2.
Definition MYSQL_REQ_DELETE : Z := 3.
Definition MYSQL_REQ_INSERT : Z := 4.
Definition MYSQL_REQ_CREATE_TB : Z := 6.

Definition MYSQL_RESULT_OK : Z := 0.
Definition MYSQL_RESULT_NO_DATA : Z := 1.
Definition MYSQL_RESULT_ALREADY_EXIST : Z := 2.
Definition MYSQL_RESULT_TIMEOUT : Z := 3.
Definition MYSQL_RESULT_GET_NO_PK : Z := 4.
Definition MYSQL_RESULT_NO_META : Z := 5.
Definition MYSQL_RESULT_STORE_RESULT_ERR : Z := 6.
Definition MYSQL_RESULT_SQL_GEN_ERR : Z := 7.
Definition MYSQL_RESULT_UNKOWN : Z := 127.
Definition MYSQL_RESULT_SQL_EXE_ERR : Z := 32767.
(** Of the client library's [mysqld_error.h]. *)
Definition ER_DUP_ENTRY : Z := 1062.

Record MysqlProxyOption := mkMysqlProxyOption {
  po_ip : string; po_port : Z; po_uname : string; po_passwd : string; po_dbname : string;
  po_unisock : string; po_cliflag : Z; po_wait_timeout : Z; po_intr_timeout : Z
}.

(** The callback buffer [cb] is the bytes the caller gave. *)
Record MysqlRequest := mkMysqlRequest {
  q_tblname : string; q_op : Z; q_where : string; q_data : list MysqlField;
  q_fields : list string; q_cb : bytes
}.
Record MysqlResponse := mkMysqlResponse {
  p_tblname : string; p_op : Z; p_data : list MysqlField; p_cb : bytes; p_ret : Z
}.
#[global] Instance eta_MysqlResponse : Eta MysqlResponse := fun r =>
  mkMysqlResponse (p_tblname r) (p_op r) (p_data r) (p_cb r) (p_ret r).

(** A result set: the names of its columns and its first row, the text of each
    column or a null. *)
Record MysqlRes := mkMysqlRes { res_fields : list string; res_row : option (list (option bytes)) }.

(** [true] is success. The options of a connection only configure the library. *)
Class MysqlClient := {
  mconn : Type;
  mysql_real_connect : MysqlProxyOption -> mconn -> bool * mconn;
  mysql_set_character_set : string -> mconn -> bool * mconn;
  mysql_autocommit : mconn -> bool * mconn;
  mysql_query : string -> mconn -> bool * mconn;
  mysql_store_result : mconn -> option MysqlRes * mconn;
  mysql_errno : mconn -> Z
}.

(** Handles that were opened, and the arguments of [mysql_close] ([false] is the
    null pointer). *)
Inductive ConnEvt := EInit | EClose (open : bool).

Section MysqlProxy.
Context {T : MysqlText} {C : MysqlClient}.

Record MysqlProxy := mkMysqlProxy {
  conn : option mconn;
  m_opt : option MysqlProxyOption;
  tableMetas : gmap string MysqlMeta;
  rsp : MysqlResponse;
  handles : list ConnEvt
}.
#[global] Instance eta_MysqlProxy : Eta MysqlProxy := fun r =>
  mkMysqlProxy (conn r) (m_opt r) (tableMetas r) (rsp r) (handles r).

Definition MysqlProxy_new : MysqlProxy :=
  mkMysqlProxy None None ∅ (mkMysqlResponse "" 0 [] [] 0) [].

Definition Init (metas : list MysqlMeta) : M MysqlProxy Z :=
  modify (fun p => p <| tableMetas := foldl (fun m t => <[tblname t := t]> m) ∅ metas |>);;
  mret 0.

(** A call of the library on the connection, which must not be null. *)
Definition on_conn {A} (f : mconn -> A * mconn) : M MysqlProxy A :=
  p ← gets (fun p => p);
  c ← lift (conn p);
  let '(a, c) := f c in
  modify (fun p => p <| conn := Some c |>);; mret a.

Definition GetLastErrNo (p : MysqlProxy) : Z :=
  match conn p with Some c => mysql_errno c | None => 0 end.

Definition ExecuteSQL (sql : string) : M MysqlProxy Z :=
  ok ← on_conn (mysql_query sql);
  mret (if ok : bool then 0 else -1).

Definition SelectDB (name : string) : M MysqlProxy Z := ExecuteSQL ("USE " +:+ name).

Definition CreateDB (name : string) : M MysqlProxy Z :=
  ExecuteSQL (("CREATE DATABASE IF NOT EXISTS " +:+ name) +:+ " DEFAULT CHARSET utf8 COLLATE utf8_general_ci").

(** The end of [Connect] on failure: the pointer is cleared before it is closed. *)
Definition FAIL_CONN : M MysqlProxy Z :=
  modify (fun p => p <| conn := None |>);;
  modify (fun p => p <| handles ::= fun h => h ++ [EClose false] |>);;
  mret (-1).

(** [Connect]; [init] is what [mysql_init] gives. *)
Definition Connect (init : option mconn) (opt : MysqlProxyOption) : M MysqlProxy Z :=
  modify (fun p => p <| m_opt := Some opt |> <| conn := init |>);;
  match init with
  | None => mret (-1)
  | Some _ =>
      modify (fun p => p <| handles ::= fun h => h ++ [EInit] |>);;
      ok ← on_conn (mysql_real_connect opt);
      if negb ok then FAIL_CONN
      else
        ok ← on_conn (mysql_set_character_set "utf8");
        if negb ok then FAIL_CONN
        else
          ok ← on_conn mysql_autocommit;
          if negb ok then FAIL_CONN
          else
            ret ← CreateDB (po_dbname opt);
            if negb (ret =? 0) then FAIL_CONN
            else SelectDB (po_dbname opt);; mret 0
  end.

(** [Destroy]: the handle is closed and the pointer kept. *)
Definition Destroy : M MysqlProxy unit :=
  p ← gets (fun p => p);
  match conn p with
  | Some _ => modify (fun p => p <| handles ::= fun h => h ++ [EClose true] |>)
  | None => mret tt
  end.

Definition CreateTable (meta : MysqlMeta) : M MysqlProxy Z :=
  sql ← lift (GetCreateTableSQL meta);
  ExecuteSQL sql.

Definition GetTableMeta (name : string) (p : MysqlProxy) : option MysqlMeta := tableMetas p !! name.

(** The columns of the row in [Select]: one [MysqlField] is reused for all of
    them. *)
Fixpoint fetch_cols (meta : MysqlMeta) (names : list string) (row : list (option bytes)) (col : MysqlField)
    (data : list MysqlField) : option (list MysqlField) :=
  match names, row with
  | [], _ => Some data
  | n :: names, v :: row =>
      '(_, col) ← SetFieldValue meta (col <| f_name := n |>) v;
      fetch_cols meta names row col (data ++ [col])
  | _ :: _, [] => None
  end.

(** [Select(tblname, where, selCols, rsp.data)]. *)
Definition Select (tbl where_ : string) (selCols : list string) : M MysqlProxy Z :=
  p ← gets (fun p => p);
  match GetTableMeta tbl p with
  | None => mret MYSQL_RESULT_NO_META
  | Some meta =>
      if strlen where_ <=? 0 then mret MYSQL_RESULT_GET_NO_PK
      else
        sql ← lift (GetSelectTableSQL meta where_ selCols);
        ret ← ExecuteSQL sql;
        if negb (ret =? 0) then mret MYSQL_RESULT_SQL_EXE_ERR
        else
          res ← on_conn mysql_store_result;
          match res with
          | None => mret MYSQL_RESULT_STORE_RESULT_ERR
          | Some res =>
              match res_row res with
              | None =>
                  modify (fun p => p <| rsp ::= fun r => r <| p_data := [] |> |>);;
                  mret MYSQL_RESULT_NO_DATA
              | Some row =>
                  data ← lift (fetch_cols meta (res_fields res) row (mkMysqlField "" 0 0 []) []);
                  modify (fun p => p <| rsp ::= fun r => r <| p_data := data |> |>);;
                  mret MYSQL_RESULT_OK
              end
          end
  end.

Definition Insert (table : string) (data : list MysqlField) : M MysqlProxy Z :=
  p ← gets (fun p => p);
  match GetTableMeta table p with
  | None => mret MYSQL_RESULT_NO_META
  | Some meta =>
      sql ← lift (GetInsertTableSQL meta data (bool_decide (is_Some (conn p))));
      ret ← ExecuteSQL sql;
      if negb (ret =? 0) then
        p ← gets (fun p => p);
        mret (if GetLastErrNo p =? ER_DUP_ENTRY then MYSQL_RESULT_ALREADY_EXIST
              else MYSQL_RESULT_SQL_EXE_ERR + GetLastErrNo p)
      else mret MYSQL_RESULT_OK
  end.

Definition Update (table where_ : string) (data : list MysqlField) : M MysqlProxy Z :=
  p ← gets (fun p => p);
  match GetTableMeta table p with
  | None => mret MYSQL_RESULT_NO_META
  | Some meta =>
      sql ← lift (GetUpdateTableSQL meta where_ data (bool_decide (is_Some (conn p))));
      ret ← ExecuteSQL sql;
      mret (if negb (ret =? 0) then MYSQL_RESULT_SQL_EXE_ERR else MYSQL_RESULT_OK)
  end.

Definition Delete (table where_ : string) : M MysqlProxy Z :=
  p ← gets (fun p => p);
  match GetTableMeta table p with
  | None => mret MYSQL_RESULT_NO_META
  | Some meta =>
      ret ← ExecuteSQL (GetDeleteTableSQL meta where_);
      mret (if negb (ret =? 0) then MYSQL_RESULT_SQL_EXE_ERR else MYSQL_RESULT_OK)
  end.

(** [DispatchReq] up to [agent->Response(rsp)]: the response it hands over. *)
Definition DispatchReq (req : MysqlRequest) : M MysqlProxy MysqlResponse :=
  modify (fun p => p <| rsp ::= fun r => r <| p_tblname := q_tblname req |> <| p_op := q_op req |>
                                           <| p_cb := q_cb req |> <| p_ret := MYSQL_RESULT_UNKOWN |> |>);;
  ret ← (if q_op req =? MYSQL_REQ_SELECT then Select (q_tblname req) (q_where req) (q_fields req)
         else if q_op req =? MYSQL_REQ_INSERT then Insert (q_tblname req) (q_data req)
         else if q_op req =? MYSQL_REQ_UPDATE then Update (q_tblname req) (q_where req) (q_data req)
         else if q_op req =? MYSQL_REQ_DELETE then Delete (q_tblname req) (q_where req)
         else if q_op req =? MYSQL_REQ_CREATE_TB then
           p ← gets (fun p => p);
           match GetTableMeta (q_tblname req) p with
           | None => mret MYSQL_RESULT_UNKOWN
           | Some meta => CreateTable meta
           end
         else crash);
  modify (fun p => p <| rsp ::= fun r => r <| p_ret := ret |> |>);;
  gets rsp.

End MysqlProxy.
Arguments MysqlProxy : clear implicits.
Arguments MysqlProxy {C}.

(** What the library documents: a row has one entry per column of the result. *)
Class MysqlClientLaws `{MysqlClient} : Prop :=
  store_result_row : forall c res row,
    fst (mysql_store_result c) = Some res -> res_row res = Some row -> length row = length (res_fields res).

Section facts.
Context {T : MysqlText} {C : MysqlClient}.
Implicit Types p : MysqlProxy.

Lemma wp_on_conn {A} (f : mconn -> A * mconn) Q p c :
  conn p = Some c -> Q (fst (f c)) (p <| conn := Some (snd (f c)) |>) -> wp (on_conn f) Q p.
Proof.
  intros Hc HQ. unfold on_conn. wp_steps. eapply wp_lift; [exact Hc|].
  destruct (f c) as [a c']. wp_steps. exact HQ.
Qed.

Lemma wp_ExecuteSQL sql Q p c :
  conn p = Some c ->
  (forall c', Q 0 (p <| conn := Some c' |>)) -> (forall c', Q (-1) (p <| conn := Some c' |>)) ->
  wp (ExecuteSQL sql) Q p.
Proof.
  intros Hc H0 H1. unfold ExecuteSQL. wp_steps. eapply wp_on_conn; [exact Hc|]. wp_steps.
  destruct (fst (mysql_query sql c)); auto.
Qed.

(** *** Every request has its response *)

(** Columns of the types [DBAgent] declares. *)
Definition column_ok (c : MysqlFieldMeta) : Prop := VAL_TYPE_INT32 <= c_type c <= VAL_TYPE_BLOB.
Definition tables_ok p : Prop := map_Forall (fun _ m => Forall column_ok (cols m)) (tableMetas p).

Lemma column_types c : column_ok c -> c_type c ∈ [1; 2; 3; 4; 5; 6; 7; 8; 9].
Proof. unfold column_ok, VAL_TYPE_INT32, VAL_TYPE_BLOB. rewrite !elem_of_cons. lia. Qed.

Ltac type_cases H :=
  repeat (apply elem_of_cons in H as [H|H]; [rewrite H; by eexists|]); by apply elem_of_nil in H.

(** The statement of a request can be printed. *)
Definition request_ok (req : MysqlRequest) p : Prop :=
  forall meta, tableMetas p !! q_tblname req = Some meta ->
  (q_op req = MYSQL_REQ_INSERT -> is_Some (GetInsertTableSQL meta (q_data req) true))
  /\ (q_op req = MYSQL_REQ_UPDATE -> is_Some (GetUpdateTableSQL meta (q_where req) (q_data req) true)).

Lemma GetFieldMeta_elem l n c : GetFieldMeta l n = Some c -> c ∈ l /\ c_name c = n.
Proof.
  induction l as [|d l IH]; [done|]. simpl. destruct (String.eqb_spec (c_name d) n) as [<-|].
  - intros [= ->]. split; [left|done].
  - intros H. destruct (IH H). split; [by right|done].
Qed.

Lemma SetFieldValue_total m f data : Forall column_ok (cols m) -> is_Some (SetFieldValue m f data).
Proof.
  intros Hm. unfold SetFieldValue. destruct (GetFieldMeta _ _) as [c|] eqn:Ec; [|by eexists].
  apply GetFieldMeta_elem in Ec as [Hc _]. pose proof (proj1 (Forall_forall _ _) Hm c Hc) as Ht.
  destruct (cstr_snoc (take 63 (default [] data))) as [s Hs]. rewrite Hs. cbn [mbind option_bind].
  apply column_types in Ht. type_cases Ht.
Qed.

Lemma fetch_cols_total meta names row col data :
  Forall column_ok (cols meta) -> length row = length names ->
  is_Some (fetch_cols meta names row col data).
Proof.
  intros Hm. revert row col data. induction names as [|n names IH]; intros row col data Hl; [by eexists|].
  destruct row as [|v row]; [done|]. simpl.
  destruct (SetFieldValue_total meta (col <| f_name := n |>) v Hm) as [[r col'] ->]. apply IH. by injection Hl.
Qed.

(** The proxy after a statement: connected, with the same tables, and the
    response it was building. *)
Definition same_but_data p p' : Prop :=
  is_Some (conn p') /\ tableMetas p' = tableMetas p
  /\ (p_tblname (rsp p'), p_op (rsp p'), p_cb (rsp p')) = (p_tblname (rsp p), p_op (rsp p), p_cb (rsp p)).

Lemma wp_Select `{!MysqlClientLaws} tbl where_ sel p :
  is_Some (conn p) -> tables_ok p -> wp (Select tbl where_ sel) (fun _ p' => same_but_data p p') p.
Proof.
  intros [c Hc] Ht. unfold Select, GetTableMeta. wp_steps.
  destruct (tableMetas p !! tbl) as [meta|] eqn:Hm; wp_steps; [|by split; [eexists|]].
  destruct (_ <=? _); wp_steps; [by split; [eexists|]|].
  assert (exists sql, GetSelectTableSQL meta where_ sel = Some sql) as [sql Hs].
  { unfold GetSelectTableSQL. destruct (bool_decide _); [by eexists|].
    rewrite (comma_loop_0 _ _ (realFieldSels meta sel)); [by eexists|].
    apply Forall_Forall2_diag, Forall_true. done. }
  eapply wp_lift; [exact Hs|]. wp_steps. eapply wp_ExecuteSQL; [exact Hc|..]; intros c'; simpl; wp_steps.
  2: by split; [eexists|].
  eapply wp_on_conn; [reflexivity|]. destruct (mysql_store_result c') as [res c2] eqn:Er. simpl.
  destruct res as [res|]; wp_steps; [|by split; [eexists|]].
  destruct (res_row res) as [row|] eqn:Erow; wp_steps; [|by split; [eexists|]].
  destruct (fetch_cols_total meta (res_fields res) row (mkMysqlField "" 0 0 []) []) as [data Hd].
  - exact (Ht _ _ Hm).
  - eapply (store_result_row c'); [by rewrite Er|done].
  - eapply wp_lift; [exact Hd|]. wp_steps. by split; [eexists|].
Qed.

Lemma wp_statement (o : option string) (k : Z -> M MysqlProxy Z) p :
  is_Some o -> is_Some (conn p) ->
  (forall r p', same_but_data p p' -> wp (k r) (fun _ p'' => same_but_data p p'') p') ->
  wp (sql ← lift o; ret ← ExecuteSQL sql; k ret) (fun _ p' => same_but_data p p') p.
Proof.
  intros [sql Hs] [c Hc] Hk. wp_steps. eapply wp_lift; [exact Hs|]. wp_steps.
  eapply wp_ExecuteSQL; [exact Hc|..]; intros c'; apply Hk; by split; [eexists|].
Qed.

Lemma create_cols_total l sql : Forall column_ok l -> is_Some (create_cols l sql).
Proof.
  intros Hl. revert sql. induction Hl as [|c l Hc _ IH]; intros sql; [by eexists|]. cbn [create_cols].
  assert (is_Some (GetTypeString (u8 (c_type c)))) as [t ->]; [|apply IH].
  apply column_types in Hc. type_cases Hc.
Qed.

Lemma DispatchReq_run `{!MysqlClientLaws} req p :
  q_op req ∈ [MYSQL_REQ_SELECT; MYSQL_REQ_UPDATE; MYSQL_REQ_DELETE; MYSQL_REQ_INSERT; MYSQL_REQ_CREATE_TB] ->
  is_Some (conn p) -> tables_ok p -> request_ok req p ->
  exists r p', DispatchReq req p = Some (r, p')
    /\ p_tblname r = q_tblname req /\ p_op r = q_op req /\ p_cb r = q_cb req
    /\ is_Some (conn p') /\ tableMetas p' = tableMetas p.
Proof.
  intros Hop Hc Ht Hreq. apply wp_run. unfold DispatchReq. wp_steps.
  set (p1 := p <| rsp ::= _ |>).
  eapply (wp_mono _ (fun _ p' => same_but_data p1 p')).
  2:{ intros ret p' (Hc' & Ht' & E). wp_steps. injection E as E1 E2 E3. simpl. by rewrite E1, E2, E3. }
  assert (is_Some (conn p1)) as Hc1 by exact Hc. assert (tables_ok p1) as Ht1 by exact Ht.
  repeat (apply elem_of_cons in Hop as [E|Hop]); try by apply elem_of_nil in Hop.
  all: rewrite E; type_tests.
  - by apply wp_Select.
  - unfold Update, GetTableMeta. wp_steps. destruct (tableMetas p1 !! _) as [meta|] eqn:Hm; [|by wp_steps; split].
    apply wp_statement; [|done|intros; by wp_steps].
    rewrite bool_decide_true by done. by apply (Hreq meta Hm).
  - unfold Delete, GetTableMeta. wp_steps. destruct (tableMetas p1 !! _) as [meta|] eqn:Hm; [|by wp_steps; split].
    apply (wp_statement (Some (GetDeleteTableSQL meta (q_where req))) _ p1); [by eexists|done|].
    intros. by wp_steps.
  - unfold Insert, GetTableMeta. wp_steps. destruct (tableMetas p1 !! _) as [meta|] eqn:Hm; [|by wp_steps; split].
    apply wp_statement; [rewrite bool_decide_true by done; by apply (Hreq meta Hm)|done|].
    intros r p' Hp'. destruct (negb _); by wp_steps.
  - unfold CreateTable, GetTableMeta. wp_steps. destruct (tableMetas p1 !! _) as [meta|] eqn:Hm; wp_steps; [|by split].
    unfold GetCreateTableSQL.
    destruct (create_cols_total (cols meta) ("CREATE TABLE IF NOT EXISTS " +:+ tblname meta +:+ " (")) as [s Hs];
      [exact (Ht1 _ _ Hm)|].
    rewrite Hs. eapply wp_lift; [reflexivity|]. destruct Hc1 as [c Hc1].
    eapply wp_ExecuteSQL; [exact Hc1|..]; intros c'; by split; [eexists|].
Qed.

(** C22. Every request gets its response. On a connected proxy a request of a
    known kind whose statement can be printed runs to exactly one response, for
    the same table and operation and with the caller's callback data, and the
    proxy is ready for the next request. *)
Theorem DispatchReq_answers `{!MysqlClientLaws} req p :
  q_op req ∈ [MYSQL_REQ_SELECT; MYSQL_REQ_UPDATE; MYSQL_REQ_DELETE; MYSQL_REQ_INSERT; MYSQL_REQ_CREATE_TB] ->
  is_Some (conn p) -> tables_ok p -> request_ok req p ->
  exists r p', DispatchReq req p = Some (r, p')
    /\ p_tblname r = q_tblname req /\ p_op r = q_op req /\ p_cb r = q_cb req
    /\ is_Some (conn p') /\ tableMetas p' = tableMetas p.
Proof. apply DispatchReq_run. Qed.

(** *** A row comes back *)

(** The server answers with [text] for a stored field. *)
Definition stored (m : MysqlMeta) (f : MysqlField) (text : bytes) : Prop :=
  exists c v, GetFieldMeta (cols m) (f_name f) = Some c /\ field_value (c_type c) f = Some v /\ fits v
    /\ Forall (fun x => 0 <= x < 256) (f_buffer f) /\ row_text v = Some text.

Definition same_value (m : MysqlMeta) (f f' : MysqlField) : Prop :=
  f_name f' = f_name f /\ exists c, GetFieldMeta (cols m) (f_name f) = Some c
    /\ f_type f' = c_type c /\ field_value (c_type c) f' = field_value (c_type c) f.

Lemma SetFieldValue_stored m f f0 text :
  stored m f text -> f_name f0 = f_name f ->
  exists f', SetFieldValue m f0 (Some text) = Some (0, f') /\ same_value m f f'.
Proof.
  intros (c & v & Hc & Hv & Hf & Hb & Htx) Hn.
  destruct (SetFieldValue_reads m c f f0 v text) as (f' & E & Hn' & Ht & Hv'); [by rewrite Hn|done..|].
  exists f'. split; [done|]. split; [|by exists c; rewrite Hv, Hv'].
  rewrite Hn'. exact (proj2 (GetFieldMeta_elem _ _ _ Hc)).
Qed.

Lemma fetch_cols_stored m fs texts col data :
  Forall2 (stored m) fs texts ->
  exists fs', fetch_cols m (f_name <$> fs) (Some <$> texts) col data = Some (data ++ fs')
    /\ Forall2 (same_value m) fs fs'.
Proof.
  intros HF. revert col data. induction HF as [|f text fs texts Hf _ IH]; intros col data.
  - exists []. by rewrite app_nil_r.
  - assert (exists f', SetFieldValue m (col <| f_name := f_name f |>) (Some text) = Some (0, f')
      /\ same_value m f f') as (f' & E & Hs) by (by apply SetFieldValue_stored).
    destruct (IH f' (data ++ [f'])) as (fs' & E' & HF'). exists (f' :: fs'). rewrite !fmap_cons. cbn [fetch_cols].
    rewrite E. cbn [mbind option_bind]. rewrite E', <- (assoc_L (++)). split; [done|by constructor].
Qed.

(** A select gives the stored row. When the server answers the select of a
    table with a row that has the texts of the stored fields, the response holds
    a field for each, with its name, the column's type and the stored value. *)
Theorem Select_row tbl m where_ sel sql p c c1 c2 fs texts :
  conn p = Some c -> tableMetas p !! tbl = Some m -> where_ <> "" ->
  GetSelectTableSQL m where_ sel = Some sql -> mysql_query sql c = (true, c1) ->
  mysql_store_result c1 = (Some (mkMysqlRes (f_name <$> fs) (Some (Some <$> texts))), c2) ->
  Forall2 (stored m) fs texts ->
  exists p', Select tbl where_ sel p = Some (MYSQL_RESULT_OK, p')
    /\ Forall2 (same_value m) fs (p_data (rsp p')).
Proof.
  intros Hc Hm Hw Hs Hq Hres HF. apply wp_run_ret. unfold Select, GetTableMeta. wp_steps. rewrite Hm.
  destruct (Z.leb_spec (strlen where_) 0) as [Hl|_]; [destruct where_; [done|unfold strlen in Hl; simpl in Hl; lia]|].
  wp_steps. eapply wp_lift; [exact Hs|]. unfold ExecuteSQL. wp_steps. eapply wp_on_conn; [exact Hc|].
  rewrite Hq. cbn [fst snd]. wp_steps. type_tests. cbn [negb]. wp_steps.
  eapply wp_on_conn; [reflexivity|]. rewrite Hres. cbn [fst snd res_row res_fields]. wp_steps.
  destruct (fetch_cols_stored m fs texts (mkMysqlField "" 0 0 []) [] HF) as (fs' & E & HF').
  eapply wp_lift; [exact E|]. by wp_steps.
Qed.

(** *** A failed connection *)

Lemma wp_FAIL_CONN Q p :
  Q (-1) (p <| conn := None |> <| handles ::= fun h => h ++ [EClose false] |>) -> wp FAIL_CONN Q p.
Proof. intros H. unfold FAIL_CONN. by wp_steps. Qed.

(** A connection that cannot be set up is leaked. [Connect] clears the
    pointer before it closes it, so the handle it got from [mysql_init] is still
    open afterwards, and [Destroy] does not close it either. *)
Theorem Connect_failure_leaks c opt p :
  fst (mysql_real_connect opt c) = false ->
  exists p', Connect (Some c) opt p = Some (-1, p') /\ conn p' = None
    /\ handles p' = handles p ++ [EInit; EClose false] /\ Destroy p' = Some (tt, p').
Proof.
  intros Hf. apply wp_run_ret. unfold Connect. wp_steps. eapply wp_on_conn; [reflexivity|].
  rewrite Hf. apply wp_FAIL_CONN. split; [done|]. split; [done|]. simpl. by rewrite <- (assoc_L (++)).
Qed.

End facts.

(** ** A concrete server *)

Module ProxyWitness.
Import MetaWitness.

(** It accepts the statements that start with [USE], [CREATE], [UPDATE] or
    [SELECT] and answers with one row; a connection counts the statements. *)
#[export] Instance client : MysqlClient := {
  mconn := nat;
  mysql_real_connect opt c := (negb (po_port opt =? 0), c);
  mysql_set_character_set _ c := (true, c);
  mysql_autocommit c := (true, c);
  mysql_query sql c := (negb (String.prefix "DELETE" sql), S c);
  mysql_store_result c :=
    (Some (mkMysqlRes ["rid"; "name"] (Some [Some (of_str "4294967338"); Some (of_str "O'Neil")])), c);
  mysql_errno _ := 0
}.

#[export] Instance client_laws : MysqlClientLaws.
Proof. intros c res row E Er. by simplify_eq/=. Qed.

Definition p0 : MysqlProxy := MysqlProxy_new <| conn := Some 0%nat |> <| tableMetas := {["Role" := role]} |>.

Lemma tables_ok_p0 : tables_ok p0.
Proof. apply map_Forall_singleton. repeat constructor; done. Qed.

Lemma DispatchReq_answers_witness :
  exists r p', DispatchReq (mkMysqlRequest "Role" MYSQL_REQ_UPDATE "rid = 4294967338" [rid; name] [] [7; 8]) p0
      = Some (r, p')
    /\ p_op r = MYSQL_REQ_UPDATE /\ p_cb r = [7; 8].
Proof.
  destruct (DispatchReq_answers
    (mkMysqlRequest "Role" MYSQL_REQ_UPDATE "rid = 4294967338" [rid; name] [] [7; 8]) p0)
    as (r & p' & E & _ & H1 & H2 & _).
  - right. left.
  - by eexists.
  - exact tables_ok_p0.
  - intros meta Hm. injection Hm as <-. split; [discriminate|]. intros _. eexists. reflexivity.
  - exists r, p'. split; [exact E|]. split; [exact H1 | exact H2].
Defined.

Lemma Select_row_witness :
  exists p', Select "Role" "rid = 4294967338" ["name"] p0 = Some (MYSQL_RESULT_OK, p')
    /\ Forall2 (same_value role) [rid; name] (p_data (rsp p')).
Proof.
  apply (Select_row "Role" role "rid = 4294967338" ["name"] "SELECT rid,name FROM Role WHERE rid = 4294967338"
    p0 0%nat 1%nat 1%nat [rid; name] [of_str "4294967338"; of_str "O'Neil"]).
  - reflexivity.
  - reflexivity.
  - discriminate.
  - reflexivity.
  - reflexivity.
  - reflexivity.
  - repeat constructor; eexists _, _; (split; [reflexivity|]); (split; [reflexivity|]);
      (split; [vm_compute; by repeat constructor|]); (split; [vm_compute; by repeat constructor|]); reflexivity.
Defined.

Lemma Connect_failure_leaks_witness :
  exists p', Connect (Some 0%nat) (mkMysqlProxyOption "127.0.0.1" 0 "root" "" "rgtd" "" 0 0 0) MysqlProxy_new
      = Some (-1, p')
    /\ handles p' = [EInit; EClose false] /\ Destroy p' = Some (tt, p').
Proof.
  destruct (Connect_failure_leaks (C := client) 0%nat (mkMysqlProxyOption "127.0.0.1" 0 "root" "" "rgtd" "" 0 0 0) MysqlProxy_new)
    as (p' & E & _ & H1 & H2).
  - reflexivity.
  - exists p'. split; [exact E|]. split; [exact H1 | exact H2].
Defined.

End ProxyWitness.
