(* ===== verification/MysqlAgent.v ===== *)
(** * The database threads ([db/MysqlAgent.{h,cpp}])

    The main thread puts requests into a queue and takes responses out of
    another; every connection has a worker thread that takes requests, runs them
    on its proxy and queues the responses. The queues have a lock each, and a
    condition variable wakes workers that found no request.

    The threads are a step function over labels: a label is one atomic action of
    one thread, so a run is a list of labels and every interleaving is one. A
    section under [reqlock] is two actions, taking the lock and doing the work
    with the release, so that other threads act in between. The tests of
    [reqQueue] that the source makes outside the lock are actions of their own:
    one that falls into another thread's section reads a list that is being
    changed and is undefined; one that does not is read as the size the list
    has. (C++ calls the latter a race as well; the machine's answer is the one
    modelled.) The flag [close] is read and written in one action. A condition
    variable is as POSIX has it: a wait sleeps until a notification that comes
    later, and may also wake by itself. *)

From S2P Require Import Prelude CString MysqlMeta MysqlProxy.

Section MysqlAgent.
(** Requests, responses, the state of a proxy and what its [DispatchReq] does. *)
Context {Req Rsp Px : Type} (DispatchReq : Req -> M Px Rsp).

(** Where a worker is in [Working]. *)
Inductive WPc :=
| WLoop                (* while(!agent->close) *)
| WGet                 (* GetRequest: the test of reqQueue.empty() *)
| WPop                 (* GetRequest: reqlock.Lock() *)
| WLocked              (* GetRequest: front, pop_front, reqlock.Unlock() *)
| WWait                (* WaitRequest, before the wait *)
| WSleep               (* inside the wait *)
| WWake                (* CHECK_CLOSE without a request *)
| WHave (r : Req)      (* DispatchReq *)
| WRespond (p : Rsp)   (* Response *)
| WDone.

(** The threads, as owners of a lock. *)
Inductive Tid := TMain | TWorker (i : nat).

(** Where the main thread is in [Request], in [Polling] (with the number of
    responses it may still handle) and in [Stop]. *)
Inductive MCall := CIdle | CLock (r : Req) | CPush (r : Req) | CNotify.
Inductive MPoll := PIdle | PLoop (n : nat) | PHandle (n : nat).
Inductive MStop := SRun | SClosed | SJoin | SStopped.

(** [accepted] and [handled] record the requests queued and the responses whose
    handler has returned. *)
Record MysqlAgent := mkMysqlAgent {
  close : bool;
  max_req_queue_size : nat;
  reqlock : option Tid;
  reqQueue : list Req;
  rspQueue : list Rsp;
  worker : list (WPc * Px);
  m_call : MCall;
  m_poll : MPoll;
  m_stop : MStop;
  accepted : list Req;
  handled : list Rsp
}.
#[global] Instance eta_MysqlAgent : Eta MysqlAgent := fun r =>
  mkMysqlAgent (close r) (max_req_queue_size r) (reqlock r) (reqQueue r) (rspQueue r) (worker r) (m_call r)
    (m_poll r) (m_stop r) (accepted r) (handled r).

(** [Init] with connected proxies, and [Start]. *)
Definition Start (proxies : list Px) (iMaxRequestQueueSize : nat) : MysqlAgent :=
  mkMysqlAgent false iMaxRequestQueueSize None [] [] ((fun p => (WLoop, p)) <$> proxies) CIdle PIdle SRun [] [].

(** [Init]: the proxies in order ([None] is one that does not connect). *)
Definition Init (proxies : list (option Px)) (iMaxRequestQueueSize : nat) : Z * option MysqlAgent :=
  match mapM id proxies with
  | None => (-1, None)
  | Some ps => (0, Some (Start ps iMaxRequestQueueSize))
  end.

Inductive Label :=
| LRequest (r : Req)         (* the test of the queue's size *)
| LLock | LPush | LNotify (w : option nat)
| LPoll (iProcNumPerTick : nat) | LPollStep | LPollPop
| LStop | LNotifyAll | LJoin
| LWork (i : nat)
| LSpurious (i : nat).

(** An action is not possible, leads to a state, or is undefined. *)
Inductive Outcome := Disabled | Next (a : MysqlAgent) | Undefined.

Definition asleep (w : WPc * Px) : bool := match w.1 with WSleep => true | _ => false end.
Definition finished (w : WPc * Px) : bool := match w.1 with WDone => true | _ => false end.
Definition wake (w : WPc * Px) : WPc * Px := if asleep w then (WWake, w.2) else w.

(** One action of a worker. *)
Definition Working (i : nat) (a : MysqlAgent) : Outcome :=
  match worker a !! i with
  | None => Disabled
  | Some (pc, px) =>
      let go pc' := a <| worker ::= <[i := (pc', px)]> |> in
      match pc with
      | WLoop => Next (go (if close a then WDone else WGet))
      | WGet => if reqlock a is Some _ then Undefined else Next (go (match reqQueue a with [] => WWait | _ => WPop end))
      | WPop => if reqlock a is Some _ then Disabled else Next (go WLocked <| reqlock := Some (TWorker i) |>)
      | WLocked =>
          match reqQueue a with
          | [] => Undefined
          | r :: q => Next (go (WHave r) <| reqQueue := q |> <| reqlock := None |>)
          end
      | WWait => Next (go WSleep)
      | WSleep => Disabled
      | WWake => Next (go (if close a then WDone else WGet))
      | WHave r =>
          match DispatchReq r px with
          | None => Undefined
          | Some (rsp, px') => Next (a <| worker ::= <[i := (WRespond rsp, px')]> |>)
          end
      | WRespond rsp =>
          match m_poll a with
          | PIdle => Next (go WLoop <| rspQueue ::= fun q => q ++ [rsp] |>)
          | _ => Disabled
          end
      | WDone => Disabled
      end
  end.

(** [Request]: the size is read before the lock is taken; the main thread is not
    in the section itself, so a lock that is taken is another thread's. A full
    queue refuses the request, which changes nothing. *)
Definition Request (r : Req) (a : MysqlAgent) : Outcome :=
  match m_call a, m_poll a, m_stop a with
  | CIdle, PIdle, SRun | CIdle, PHandle _, SRun =>
      if reqlock a is Some _ then Undefined
      else if (max_req_queue_size a <=? length (reqQueue a))%nat then Next a
      else Next (a <| m_call := CLock r |>)
  | _, _, _ => Disabled
  end.

Definition Request_lock (a : MysqlAgent) : Outcome :=
  match m_call a with
  | CLock r => if reqlock a is Some _ then Disabled else Next (a <| reqlock := Some TMain |> <| m_call := CPush r |>)
  | _ => Disabled
  end.

Definition Request_push (a : MysqlAgent) : Outcome :=
  match m_call a with
  | CPush r => Next (a <| reqQueue ::= fun q => q ++ [r] |> <| accepted ::= fun q => q ++ [r] |>
                       <| reqlock := None |> <| m_call := CNotify |>)
  | _ => Disabled
  end.

(** [statechg.Notify()] wakes one sleeping worker, if there is one. *)
Definition Request_notify (w : option nat) (a : MysqlAgent) : Outcome :=
  match m_call a, w with
  | CNotify, None => if existsb asleep (worker a) then Disabled else Next (a <| m_call := CIdle |>)
  | CNotify, Some i =>
      match worker a !! i with
      | Some x => if asleep x then Next (a <| m_call := CIdle |> <| worker ::= <[i := wake x]> |>) else Disabled
      | None => Disabled
      end
  | _, _ => Disabled
  end.

(** [Polling] holds the lock of the responses from its first action to its
    last; the handler of a response may make requests. *)
Definition Polling (n : nat) (a : MysqlAgent) : Outcome :=
  match m_call a, m_poll a, m_stop a with
  | CIdle, PIdle, SRun => Next (a <| m_poll := PLoop n |>)
  | _, _, _ => Disabled
  end.

Definition Polling_step (a : MysqlAgent) : Outcome :=
  match m_poll a with
  | PLoop n =>
      match rspQueue a, n with
      | _ :: _, S _ => Next (a <| m_poll := PHandle n |>)
      | _, _ => Next (a <| m_poll := PIdle |>)
      end
  | _ => Disabled
  end.

Definition Polling_pop (a : MysqlAgent) : Outcome :=
  match m_poll a, m_call a, rspQueue a with
  | PHandle n, CIdle, rsp :: q =>
      Next (a <| rspQueue := q |> <| handled ::= fun h => h ++ [rsp] |> <| m_poll := PLoop (pred n) |>)
  | _, _, _ => Disabled
  end.

(** [Stop]: close, wake everybody, join. *)
Definition Stop (a : MysqlAgent) : Outcome :=
  match m_call a, m_poll a, m_stop a with
  | CIdle, PIdle, SRun => Next (a <| close := true |> <| m_stop := SClosed |>)
  | _, _, _ => Disabled
  end.
Definition Stop_notify (a : MysqlAgent) : Outcome :=
  match m_stop a with
  | SClosed => Next (a <| worker ::= fmap wake |> <| m_stop := SJoin |>)
  | _ => Disabled
  end.
Definition Stop_join (a : MysqlAgent) : Outcome :=
  match m_stop a with
  | SJoin => if forallb finished (worker a) then Next (a <| m_stop := SStopped |>) else Disabled
  | _ => Disabled
  end.

Definition step (l : Label) (a : MysqlAgent) : Outcome :=
  match l with
  | LRequest r => Request r a
  | LLock => Request_lock a
  | LPush => Request_push a
  | LNotify w => Request_notify w a
  | LPoll n => Polling n a
  | LPollStep => Polling_step a
  | LPollPop => Polling_pop a
  | LStop => Stop a
  | LNotifyAll => Stop_notify a
  | LJoin => Stop_join a
  | LWork i => Working i a
  | LSpurious i =>
      match worker a !! i with
      | Some x => if asleep x then Next (a <| worker ::= <[i := wake x]> |>) else Disabled
      | None => Disabled
      end
  end.

Fixpoint run (ls : list Label) (a : MysqlAgent) : Outcome :=
  match ls with
  | [] => Next a
  | l :: ls => match step l a with Next a => run ls a | o => o end
  end.

(** ** The lock of the requests *)

(** Who is inside a section of [reqlock]. *)
Definition inside (t : Tid) (a : MysqlAgent) : Prop :=
  match t with
  | TMain => exists r, m_call a = CPush r
  | TWorker i => exists px, worker a !! i = Some (WLocked, px)
  end.

(** The action tests [reqQueue] while another thread is inside. *)
Definition races (l : Label) (a : MysqlAgent) : Prop :=
  match l with
  | LRequest _ => exists i, inside (TWorker i) a
  | LWork i => (exists px, worker a !! i = Some (WGet, px)) /\ exists t, t <> TWorker i /\ inside t a
  | _ => False
  end.

(** The owner of the lock, and nobody else, is inside. *)
Definition LockOwner (a : MysqlAgent) : Prop := forall t, inside t a <-> reqlock a = Some t.

Lemma Start_LockOwner pxs n : LockOwner (Start pxs n).
Proof.
  intros [|i]; split; [by intros [r Hr]|done| |done]. intros [px Hpx]. simpl in Hpx.
  rewrite list_lookup_fmap in Hpx. by destruct (pxs !! i).
Qed.

(** A worker that is not inside before and after leaves the owner as it is. *)
Lemma LockOwner_worker a i x x' b :
  LockOwner a -> worker a !! i = Some x -> reqlock b = reqlock a -> worker b = <[i := x']> (worker a) ->
  (forall r, m_call b = CPush r <-> m_call a = CPush r) -> x.1 <> WLocked -> x'.1 <> WLocked -> LockOwner b.
Proof.
  intros Ha Hi Hl Hw Hc Hx Hx' t. rewrite Hl, <- (Ha t). destruct t as [|j]; simpl.
  - by split; intros [r Hr]; exists r; apply Hc.
  - rewrite Hw. destruct (decide (j = i)) as [->|Hj]; [|by rewrite list_lookup_insert_ne].
    rewrite list_lookup_insert_eq, Hi by (by eapply lookup_lt_Some). split; intros [px [= Hpx]].
    + by rewrite Hpx in Hx'.
    + by rewrite Hpx in Hx.
Qed.

(** The rest of the lock's life: an action that leaves workers, call and lock
    alone, the lock taken or released by the main thread or by a worker, and
    workers that are woken. *)
Lemma LockOwner_same a b :
  LockOwner a -> reqlock b = reqlock a -> worker b = worker a ->
  (forall r, m_call b = CPush r <-> m_call a = CPush r) -> LockOwner b.
Proof.
  intros Ha Hl Hw Hc t. rewrite Hl, <- (Ha t). destruct t as [|j]; simpl; [|by rewrite Hw]. by split; intros [r Hr]; exists r; apply Hc.
Qed.

Lemma LockOwner_main_takes a r b :
  LockOwner a -> reqlock a = None -> reqlock b = Some TMain -> worker b = worker a -> m_call b = CPush r -> LockOwner b.
Proof.
  intros Ha Hl Hb Hw Hc [|j]; rewrite Hb; simpl.
  - rewrite Hc. split; [done|by eexists].
  - rewrite Hw. split; [|done]. intros Hin. apply (Ha (TWorker j)) in Hin. by rewrite Hl in Hin.
Qed.

Lemma LockOwner_main_releases a b :
  LockOwner a -> inside TMain a -> reqlock b = None -> worker b = worker a -> m_call b = CNotify -> LockOwner b.
Proof.
  intros Ha Hm Hb Hw Hc. apply Ha in Hm. intros [|j]; rewrite Hb; simpl.
  - rewrite Hc. split; [by intros [r Hr]|done].
  - rewrite Hw. split; [|done]. intros Hin. apply (Ha (TWorker j)) in Hin. congruence.
Qed.

Lemma LockOwner_worker_takes a i x px b :
  LockOwner a -> worker a !! i = Some x -> reqlock a = None -> reqlock b = Some (TWorker i) ->
  worker b = <[i := (WLocked, px)]> (worker a) -> m_call b = m_call a -> LockOwner b.
Proof.
  intros Ha Hi Hl Hb Hw Hc t. rewrite Hb. destruct t as [|j]; simpl.
  - rewrite Hc. split; [|done]. intros Hin. apply (Ha TMain) in Hin. by rewrite Hl in Hin.
  - rewrite Hw. destruct (decide (j = i)) as [->|Hj].
    + rewrite list_lookup_insert_eq by (by eapply lookup_lt_Some). split; [done|]. intros _. by eexists.
    + rewrite list_lookup_insert_ne by done. split; [|congruence]. intros Hin. apply (Ha (TWorker j)) in Hin.
      by rewrite Hl in Hin.
Qed.

Lemma LockOwner_worker_releases a i x b :
  LockOwner a -> inside (TWorker i) a -> reqlock b = None -> worker b = <[i := x]> (worker a) ->
  m_call b = m_call a -> x.1 <> WLocked -> LockOwner b.
Proof.
  intros Ha Hi Hb Hw Hc Hx. pose proof Hi as [px Hpx]. apply Ha in Hi. intros t. rewrite Hb.
  split; [|done]. intros Hin. destruct t as [|j]; simpl in Hin.
  - rewrite Hc in Hin. apply (Ha TMain) in Hin. congruence.
  - rewrite Hw in Hin. destruct (decide (j = i)) as [->|Hj].
    + rewrite list_lookup_insert_eq in Hin by (by eapply lookup_lt_Some). by destruct Hin as [? [= ->]].
    + rewrite list_lookup_insert_ne in Hin by done. apply (Ha (TWorker j)) in Hin. congruence.
Qed.

Lemma LockOwner_wake_all a b :
  LockOwner a -> reqlock b = reqlock a -> worker b = wake <$> worker a -> m_call b = m_call a -> LockOwner b.
Proof.
  intros Ha Hl Hw Hc t. rewrite Hl, <- (Ha t). destruct t as [|j]; simpl; [by rewrite Hc|].
  rewrite Hw, list_lookup_fmap. destruct (worker a !! j) as [[pc px]|]; [|done].
  destruct pc; simpl; (split; intros [? Heq]; [simplify_eq; by eexists|by inversion Heq; eexists]).
Qed.

Lemma Working_LockOwner i a a' : LockOwner a -> Working i a = Next a' -> LockOwner a'.
Proof.
  intros Ha E. unfold Working in E. destruct (worker a !! i) as [[pc px]|] eqn:Hi; [|done].
  destruct pc; try discriminate E.
  all: try (by repeat case_match; simplify_eq;
    eapply LockOwner_worker; [exact Ha|exact Hi|reflexivity|reflexivity|..]; simpl; repeat case_match).
  - destruct (reqlock a) eqn:Hl; [done|]. injection E as <-. by eapply LockOwner_worker_takes.
  - destruct (reqQueue a) as [|r q]; [done|]. injection E as <-.
    by eapply LockOwner_worker_releases; [exact Ha|eexists; exact Hi|..].
Qed.

(** With any number of workers, at most one thread is inside a section of
    [reqlock] at a time. *)
Lemma step_LockOwner l a a' : LockOwner a -> step l a = Next a' -> LockOwner a'.
Proof.
  intros Ha E. destruct l; cbn [step] in E.
  - unfold Request in E. repeat case_match; simplify_eq; try exact Ha;
      by eapply LockOwner_same; [exact Ha|..]; intros; simpl; split; congruence.
  - unfold Request_lock in E. destruct (m_call a) eqn:?, (reqlock a) eqn:?; simplify_eq.
    by eapply LockOwner_main_takes.
  - unfold Request_push in E. destruct (m_call a) eqn:Hc; simplify_eq.
    eapply LockOwner_main_releases; [exact Ha|by eexists|done..].
  - unfold Request_notify in E. destruct (m_call a) eqn:Hc; try discriminate E. destruct w as [i|].
    + destruct (worker a !! i) as [[pc px]|] eqn:Hi; [|done]. destruct pc; try discriminate E. injection E as <-.
      eapply LockOwner_worker; [exact Ha|exact Hi|reflexivity|reflexivity|..]; simpl; intros; by rewrite ?Hc.
    + destruct (existsb _ _); [done|]. injection E as <-. by eapply LockOwner_same; [exact Ha|..]; intros; simpl; rewrite ?Hc.
  - unfold Polling in E. repeat case_match; simplify_eq. by eapply LockOwner_same.
  - unfold Polling_step in E. repeat case_match; simplify_eq; by eapply LockOwner_same.
  - unfold Polling_pop in E. repeat case_match; simplify_eq; by eapply LockOwner_same.
  - unfold Stop in E. repeat case_match; simplify_eq; by eapply LockOwner_same.
  - unfold Stop_notify in E. repeat case_match; simplify_eq; by eapply LockOwner_wake_all.
  - unfold Stop_join in E. repeat case_match; simplify_eq; by eapply LockOwner_same.
  - by eapply Working_LockOwner.
  - destruct (worker a !! i) as [[pc px]|] eqn:Hi; [|done]. destruct pc; try discriminate E. injection E as <-.
    eapply LockOwner_worker; [exact Ha|exact Hi|reflexivity|reflexivity|..]; simpl; intros; by rewrite ?Hc.
Qed.

Lemma run_LockOwner ls a a' : LockOwner a -> run ls a = Next a' -> LockOwner a'.
Proof.
  revert a. induction ls as [|l ls IH]; intros a Ha E; [by injection E as <-|]. cbn [run] in E.
  destruct (step l a) as [|a1|] eqn:E1; try discriminate E. eapply IH; [|exact E]. by eapply step_LockOwner.
Qed.

(** ** One worker: requests are answered once, in order *)

(** The proxy runs a list of requests. *)
Fixpoint dispatch_all (rs : list Req) : M Px (list Rsp) :=
  match rs with
  | [] => mret []
  | r :: rs => p ← DispatchReq r; ps ← dispatch_all rs; mret (p :: ps)
  end.

Definition in_flight (pc : WPc) : list Req := match pc with WHave r => [r] | _ => [] end.
Definition pending (pc : WPc) : list Rsp := match pc with WRespond p => [p] | _ => [] end.
Definition pushing (c : MCall) : nat := match c with CLock _ | CPush _ => 1 | _ => 0 end.

(** With one worker: the requests accepted are those answered, the one in the
    worker's hands and the queue, in this order; the responses are those of the
    proxy that ran the answered ones; the queue is not over-full; and a worker
    that found the queue filled still finds it so. *)
Record OneWorker (px0 : Px) (a : MysqlAgent) : Prop := {
  ow_worker : exists pc px answered,
    worker a = [(pc, px)]
    /\ accepted a = answered ++ in_flight pc ++ reqQueue a
    /\ dispatch_all answered px0 = Some (handled a ++ rspQueue a ++ pending pc, px)
    /\ match pc with WPop | WLocked => reqQueue a <> [] | _ => True end;
  ow_size : (length (reqQueue a) + pushing (m_call a) <= max_req_queue_size a)%nat;
  ow_close : m_stop a = SRun -> close a = false;
  ow_handle : forall n, m_poll a = PHandle n -> rspQueue a <> []
}.

Lemma dispatch_all_snoc rs r px ps px1 p px2 :
  dispatch_all rs px = Some (ps, px1) -> DispatchReq r px1 = Some (p, px2) ->
  dispatch_all (rs ++ [r]) px = Some (ps ++ [p], px2).
Proof.
  revert px ps. induction rs as [|q rs IH]; intros px ps H1 H2.
  - injection H1 as <- <-. cbn [app dispatch_all]. unfold mbind, M_bind. rewrite H2. done.
  - cbn [app dispatch_all] in *. unfold mbind, M_bind in *.
    destruct (DispatchReq q px) as [[p1 px']|]; [|done].
    destruct (dispatch_all rs px') as [[ps' px'']|] eqn:E; [|done]. injection H1 as <- <-.
    by rewrite (IH _ _ E H2).
Qed.

Lemma Start_OneWorker px n : OneWorker px (Start [px] n).
Proof. split; [by exists WLoop, px, []|simpl; lia|done|done]. Qed.

Lemma Working_OneWorker px0 i a a' :
  OneWorker px0 a -> Working i a = Next a' -> OneWorker px0 a'.
Proof.
  intros [(pc & px & ans & Hw & Hacc & Hd & Hpop) Hsz Hcl Hh] E. unfold Working in E. rewrite Hw in E.
  destruct i as [|i]; [|done]. cbn [lookup list_lookup] in E.
  destruct pc; try discriminate E; simpl in Hacc, Hd.
  - injection E as <-. split; [|done..]. exists (if close a then WDone else WGet), px, ans. simpl. rewrite Hw.
    destruct (close a); by split_and!.
  - destruct (reqlock a); [done|].
    injection E as <-. split; [|done..]. exists (match reqQueue a with [] => WWait | _ => WPop end), px, ans. simpl.
    rewrite Hw. destruct (reqQueue a) eqn:Eq; split_and!; try done; by rewrite Eq.
  - destruct (reqlock a); [done|]. injection E as <-. split; [|done..]. exists WLocked, px, ans. simpl. rewrite Hw.
    by split_and!.
  - destruct (reqQueue a) as [|r q] eqn:Eq; [done|]. injection E as <-. split; [|simpl in *; lia|done..].
    exists (WHave r), px, ans. simpl. rewrite Hw. by split_and!.
  - injection E as <-. split; [|done..]. exists WSleep, px, ans. simpl. rewrite Hw. by split_and!.
  - injection E as <-. split; [|done..]. exists (if close a then WDone else WGet), px, ans. simpl. rewrite Hw.
    destruct (close a); by split_and!.
  - destruct (DispatchReq r px) as [[p px']|] eqn:Er; [|done]. injection E as <-. split; [|done..].
    exists (WRespond p), px', (ans ++ [r]). simpl. rewrite Hw. split_and!; [done| |..].
    + by rewrite <- (assoc_L (++)).
    + rewrite app_nil_r in Hd. rewrite (assoc_L (++)). by eapply dispatch_all_snoc.
    + done.
  - destruct (m_poll a) eqn:Ep; try discriminate E. injection E as <-. split; [|done|done|].
    + exists WLoop, px, ans. simpl. rewrite Hw. split_and!; try done. by rewrite app_nil_r.
    + simpl. intros n Hn. congruence.
Qed.

(** A worker that is woken is as it was. *)
Lemma wake_OneWorker px0 a i x c s cl :
  OneWorker px0 a -> worker a !! i = Some x -> asleep x = true ->
  (length (reqQueue a) + pushing c <= max_req_queue_size a)%nat ->
  (s = SRun -> cl = false) ->
  OneWorker px0 (a <| m_call := c |> <| worker ::= <[i := wake x]> |> <| m_stop := s |> <| close := cl |>).
Proof.
  intros [(pc & px & ans & Hw & Hacc & Hd & Hpop) Hsz Hcl Hh] Hi Hs Hc Hsc. rewrite Hw in Hi.
  destruct i as [|i]; [|done]. injection Hi as <-. destruct pc; try discriminate Hs.
  split; [|done..]. exists WWake, px, ans. simpl. rewrite Hw. by split_and!.
Qed.

Lemma step_OneWorker px0 l a a' : OneWorker px0 a -> step l a = Next a' -> OneWorker px0 a'.
Proof.
  intros Hinv E. destruct l; cbn [step] in E.
  - (* Request *)
    unfold Request in E. destruct Hinv as [Hw Hsz Hcl Hh].
    destruct (m_call a) eqn:Ec, (m_poll a) eqn:Ep, (m_stop a) eqn:Es; try discriminate E;
      destruct (reqlock a); try discriminate E;
      destruct (Nat.leb_spec (max_req_queue_size a) (length (reqQueue a))); injection E as <-;
      (split; simpl in *; [done|rewrite ?Ec; simpl; lia|by rewrite ?Es|by rewrite ?Ep]).
  - (* lock *)
    unfold Request_lock in E. destruct Hinv as [Hw Hsz Hcl Hh].
    destruct (m_call a) eqn:Ec, (reqlock a); try discriminate E. injection E as <-. by split.
  - (* push *)
    unfold Request_push in E. destruct Hinv as [(pc & px & ans & Hw & Hacc & Hd & Hpop) Hsz Hcl Hh].
    destruct (m_call a) eqn:Ec; try discriminate E. injection E as <-. split; [|simpl in *..|done|done].
    + exists pc, px, ans. simpl. split_and!; [done| |done|].
      * by rewrite Hacc, <- !(assoc_L (++)).
      * destruct pc; try done; by destruct (reqQueue a).
    + rewrite length_app. simpl. lia.
  - (* notify *)
    unfold Request_notify in E. destruct (m_call a) eqn:Ec; try discriminate E.
    destruct w as [i|].
    + destruct (worker a !! i) as [x|] eqn:Ex; [|done]. destruct (asleep x) eqn:Ea; [|done]. injection E as <-.
      pose proof (ow_size _ _ Hinv) as Hsz. rewrite Ec in Hsz.
      exact (wake_OneWorker px0 a i x CIdle (m_stop a) (close a) Hinv Ex Ea Hsz (ow_close _ _ Hinv)).
    + destruct (existsb _ _); [done|]. injection E as <-. destruct Hinv as [Hw Hsz Hcl Hh].
      split; [done|simpl in *; lia|done..].
  - (* Polling *)
    unfold Polling in E. destruct Hinv as [Hw Hsz Hcl Hh].
    destruct (m_call a) eqn:Ec, (m_poll a) eqn:Ep, (m_stop a) eqn:Es; try discriminate E. injection E as <-.
    split; simpl in *; [done|by rewrite Ec|by rewrite Es|done].
  - unfold Polling_step in E. destruct Hinv as [Hw Hsz Hcl Hh]. destruct (m_poll a) as [|n|] eqn:Ep; try discriminate E.
    destruct (rspQueue a) as [|p q] eqn:Eq, n; injection E as <-; split; simpl; rewrite ?Eq; try done; intros; congruence.
  - unfold Polling_pop in E. destruct Hinv as [(pc & px & ans & Hw & Hacc & Hd & Hpop) Hsz Hcl Hh].
    destruct (m_poll a) as [| |n] eqn:Ep, (m_call a) eqn:Ec, (rspQueue a) as [|p q] eqn:Eq; try discriminate E.
    injection E as <-. split; [|simpl; by rewrite Ec|done|done]. exists pc, px, ans. simpl. split_and!; try done.
    by rewrite <- (assoc_L (++)).
  - unfold Stop in E. destruct Hinv as [Hw Hsz Hcl Hh].
    destruct (m_call a) eqn:Ec, (m_poll a) eqn:Ep, (m_stop a) eqn:Es; try discriminate E. injection E as <-.
    split; [done|simpl; by rewrite Ec|done|simpl; by rewrite Ep].
  - unfold Stop_notify in E. destruct (m_stop a) eqn:Es; try discriminate E. injection E as <-.
    destruct Hinv as [(pc & px & ans & Hw & Hacc & Hd & Hpop) Hsz Hcl Hh].
    split; [|done..]. exists (wake (pc, px)).1, px, ans. simpl. rewrite Hw. unfold wake.
    destruct pc; by split_and!.
  - unfold Stop_join in E. destruct (m_stop a) eqn:Es; try discriminate E.
    destruct (forallb _ _); [|done]. injection E as <-. by destruct Hinv.
  - by eapply Working_OneWorker.
  - destruct (worker a !! i) as [x|] eqn:Ex; [|done]. destruct (asleep x) eqn:Ea; [|done]. injection E as <-.
    exact (wake_OneWorker px0 a i x (m_call a) (m_stop a) (close a) Hinv Ex Ea (ow_size _ _ Hinv) (ow_close _ _ Hinv)).
Qed.

Lemma run_OneWorker px0 ls a a' : OneWorker px0 a -> run ls a = Next a' -> OneWorker px0 a'.
Proof.
  revert a. induction ls as [|l ls IH]; intros a Ha E; [by injection E as <-|]. cbn [run] in E.
  destruct (step l a) as [|a1|] eqn:E1; try discriminate E. eapply IH; [|exact E]. by eapply step_OneWorker.
Qed.

(** *** Nothing undefined happens *)

(** Requests the proxy can run, and what it keeps true of itself. *)
Context (Rok : Req -> Prop) (Pok : Px -> Prop).
Context (dispatch_ok : forall r px, Rok r -> Pok px -> exists p px', DispatchReq r px = Some (p, px') /\ Pok px').

Definition label_ok (l : Label) : Prop := match l with LRequest r => Rok r | _ => True end.
Definition requests_ok (a : MysqlAgent) : Prop :=
  Forall Rok (accepted a) /\ match m_call a with CLock r | CPush r => Rok r | _ => True end.

Lemma step_requests_ok l a a' : label_ok l -> requests_ok a -> step l a = Next a' -> requests_ok a'.
Proof.
  intros Hl [Ha Hc] E. unfold requests_ok. destruct l; cbn [step] in E;
    unfold Request, Request_lock, Request_push, Request_notify, Polling, Polling_step, Polling_pop, Stop, Stop_notify,
      Stop_join, Working in E.
  all: repeat (match type of E with
         | context [match ?x with _ => _ end] => destruct x eqn:?
         end; try discriminate E); injection E as <-; simpl in *; split; try done.
  all: try (by rewrite Forall_app, Forall_singleton).
  all: by repeat match goal with H : m_call _ = _ |- _ => rewrite H in *; clear H end.
Qed.

Lemma dispatch_all_ok rs px ps px' : Forall Rok rs -> Pok px -> dispatch_all rs px = Some (ps, px') -> Pok px'.
Proof.
  intros HF. revert px ps. induction HF as [|r rs Hr _ IH]; intros px ps Hp E.
  - by injection E as <- <-.
  - cbn [dispatch_all] in E. unfold mbind, M_bind in E. destruct (dispatch_ok r px Hr Hp) as (p & px1 & Ed & Hp1).
    rewrite Ed in E. destruct (dispatch_all rs px1) as [[ps1 px2]|] eqn:E2; [|done]. injection E as <- <-.
    exact (IH px1 ps1 Hp1 E2).
Qed.

(** The proxy runs any list of such requests, each with its response. *)
Lemma dispatch_all_total rs px :
  Forall Rok rs -> Pok px -> exists ps px', dispatch_all rs px = Some (ps, px') /\ length ps = length rs.
Proof.
  intros HF. revert px. induction HF as [|r rs Hr _ IH]; intros px Hp; [by exists [], px|].
  destruct (dispatch_ok r px Hr Hp) as (p & px1 & Ed & Hp1). destruct (IH px1 Hp1) as (ps & px2 & E & Hl).
  exists (p :: ps), px2. cbn [dispatch_all]. unfold mbind, M_bind. rewrite Ed, E. by split; [|simpl; lia].
Qed.

(** The only step that is undefined is a test that races. *)
Lemma step_defined px0 l a :
  Pok px0 -> OneWorker px0 a -> LockOwner a -> requests_ok a -> step l a = Undefined -> races l a.
Proof.
  intros Hp [(pc & px & ans & Hw & Hacc & Hd & Hpop) _ _ _] Hlk [Hr _] E.
  destruct l; cbn [step] in E;
    unfold Request_lock, Request_push, Request_notify, Polling, Polling_step, Polling_pop, Stop, Stop_notify,
      Stop_join in E; try (by repeat case_match).
  - unfold Request in E. destruct (reqlock a) as [t|] eqn:El; [|by repeat case_match].
    apply Hlk in El. destruct t as [|i]; [|by exists i].
    destruct El as [r' Hr']. by rewrite Hr' in E.
  - unfold Working in E. rewrite Hw in E. destruct i; [|done]. cbn [lookup list_lookup] in E.
    destruct pc; try (by repeat case_match).
    + destruct (reqlock a) as [t|] eqn:El; [|done]. apply Hlk in El.
      split; [exists px; by rewrite Hw|]. exists t. split; [|done]. intros ->. destruct El as [px' El].
      by rewrite Hw in El.
    + rewrite Hacc, !Forall_app in Hr. destruct Hr as (Hans & Hr & _). apply Forall_cons in Hr as [Hr _].
      destruct (dispatch_ok r px Hr) as (p & px' & Ed & _); [by eapply dispatch_all_ok|]. by rewrite Ed in E.
Qed.

(** A test of the run races. *)
Definition race_in (ls : list Label) (a0 : MysqlAgent) : Prop :=
  exists ls1 l ls2 a, ls = ls1 ++ l :: ls2 /\ run ls1 a0 = Next a /\ races l a.

Lemma run_defined px0 ls a :
  Pok px0 -> Forall label_ok ls -> OneWorker px0 a -> LockOwner a -> requests_ok a ->
  run ls a = Undefined -> race_in ls a.
Proof.
  intros Hp HF. revert a. induction HF as [|l ls Hl _ IH]; intros a Ha Hk Hr E; [done|]. cbn [run] in E.
  destruct (step l a) as [|a1|] eqn:E1; [done| |].
  - destruct (IH a1) as (ls1 & l' & ls2 & a2 & -> & H1 & H2);
      [by eapply step_OneWorker|by eapply step_LockOwner|by eapply step_requests_ok|done|].
    exists (l :: ls1), l', ls2, a2. split; [done|]. cbn [run]. by rewrite E1.
  - exists [], l, ls, a. split; [done|]. split; [done|]. by eapply step_defined.
Qed.

Lemma run_max_req_queue_size ls a b : run ls b = Next a -> max_req_queue_size a = max_req_queue_size b.
Proof.
  revert b. induction ls as [|l ls IH]; intros b E; [by injection E as <-|]. cbn [run] in E.
  destruct (step l b) as [|b1|] eqn:E1; try discriminate E. rewrite (IH _ E). clear -E1.
  destruct l; cbn [step] in E1; unfold Request, Request_lock, Request_push, Request_notify, Polling, Polling_step,
    Polling_pop, Stop, Stop_notify, Stop_join, Working in E1; by repeat case_match; simplify_eq.
Qed.

(** With one connection: a run is undefined only by a race, and in the state it
    reaches the requests accepted are those answered, at most one in the hands
    of the worker, and those in the queue, which are at most [n]; the responses
    of the proxy that ran the answered ones one after the other are those
    handled, those queued and at most one in the worker's hands. *)
Lemma one_worker_fifo px0 n ls :
  Pok px0 -> Forall label_ok ls ->
  (run ls (Start [px0] n) = Undefined -> race_in ls (Start [px0] n))
  /\ forall a, run ls (Start [px0] n) = Next a ->
     exists answered taken back px,
       accepted a = answered ++ taken ++ reqQueue a /\ (length taken <= 1)%nat /\ (length (reqQueue a) <= n)%nat
       /\ dispatch_all answered px0 = Some (handled a ++ rspQueue a ++ back, px) /\ (length back <= 1)%nat.
Proof.
  intros Hp Hls. split.
  - apply (run_defined px0); [done|done|apply Start_OneWorker|apply Start_LockOwner|by split].
  - intros a E. assert (OneWorker px0 a) as [(pc & px & ans & Hw & Hacc & Hd & _) Hsz _ _].
    { eapply run_OneWorker; [apply Start_OneWorker|exact E]. }
    apply run_max_req_queue_size in E. simpl in E. exists ans, (in_flight pc), (pending pc), px.
    split_and!; [done|by destruct pc; simpl; lia|lia|done|by destruct pc; simpl; lia].
Qed.

(** ** What can go wrong *)

(** A list of labels without any of the main thread's calls that notify, and
    without a wake-up nobody asked for. *)
Definition quiet (l : Label) : Prop :=
  match l with LRequest _ | LStop | LSpurious _ => False | _ => True end.

(** The only worker sleeps and nobody is about to wake it. *)
Record Stuck (px : Px) (s : MStop) (q : list Req) (a : MysqlAgent) : Prop := {
  st_worker : worker a = [(WSleep, px)];
  st_call : m_call a = CIdle;
  st_stop : m_stop a = s;
  st_req : reqQueue a = q;
  st_rsp : rspQueue a = [];
  st_handled : handled a = []
}.

Lemma step_Stuck px s q l a a' :
  s = SRun \/ s = SJoin -> quiet l -> Stuck px s q a -> step l a = Next a' -> Stuck px s q a'.
Proof.
  intros Hs Hl [Hw Hc Hst Hq Hr Hh] E. destruct l; try done; cbn [step] in E;
    unfold Request_lock, Request_push, Request_notify, Polling, Polling_step, Polling_pop, Stop_notify, Stop_join, Working in E;
    rewrite ?Hc, ?Hst, ?Hr, ?Hw in E; simpl in E.
  all: try discriminate E.
  - destruct (m_poll a), s; try discriminate E; injection E as <-; by split.
  - destruct (m_poll a) as [|[]|]; try discriminate E; injection E as <-; by split.
  - destruct (m_poll a); discriminate E.
  - by destruct Hs as [-> | ->].
  - destruct s; discriminate E.
  - destruct i; discriminate E.
Qed.

Lemma run_Stuck px s q ls a a' :
  s = SRun \/ s = SJoin -> Forall quiet ls -> Stuck px s q a -> run ls a = Next a' -> Stuck px s q a'.
Proof.
  intros Hs HF. revert a. induction HF as [|l ls Hl _ IH]; intros a Ha E; [by injection E as <-|].
  cbn [run] in E. destruct (step l a) as [|a1|] eqn:E1; try discriminate E. eapply IH; [|exact E].
  by eapply step_Stuck.
Qed.

(** C37. A wake-up can be lost. When the request comes after the worker has seen
    the empty queue and before it waits, the notification finds nobody asleep;
    the worker then sleeps with the request in the queue. However long the main
    thread polls, the request is not taken, until another one is made. *)
Theorem lost_wakeup px r n :
  (0 < n)%nat ->
  exists ls a, run ls (Start [px] n) = Next a /\ accepted a = [r] /\ m_call a = CIdle
    /\ forall ls' a', Forall quiet ls' -> run ls' a = Next a' -> reqQueue a' = [r] /\ handled a' = [].
Proof.
  intros Hn. exists [LWork 0; LWork 0; LRequest r; LLock; LPush; LNotify None; LWork 0].
  destruct n as [|n]; [lia|]. eexists. split; [vm_compute; reflexivity|]. split; [done|]. split; [done|].
  intros ls' a' HF E. apply (run_Stuck px SRun [r]) in E; [by destruct E|by left|done|by split].
Qed.

(** [Stop] can hang. When it notifies between a worker's test and its wait,
    that worker is not woken, and the join never returns. *)
Theorem stop_hangs px n :
  exists ls a, run ls (Start [px] n) = Next a /\ close a = true /\ m_stop a = SJoin
    /\ forall ls' a', Forall quiet ls' -> run ls' a = Next a' -> m_stop a' = SJoin.
Proof.
  exists [LWork 0; LWork 0; LStop; LNotifyAll; LWork 0]. eexists. split; [vm_compute; reflexivity|].
  split; [done|]. split; [done|].
  intros ls' a' HF E. apply (run_Stuck px SJoin []) in E; [by destruct E|by right|done|by split].
Qed.

(** [Stop] loses requests: one that was accepted just before is still in the
    queue when all threads have ended, and nobody will run it. *)
Theorem stop_drops_request px r n :
  (0 < n)%nat ->
  exists ls a, run ls (Start [px] n) = Next a /\ m_stop a = SStopped
    /\ accepted a = [r] /\ reqQueue a = [r] /\ handled a = [] /\ rspQueue a = [].
Proof.
  intros Hn. exists [LRequest r; LLock; LPush; LNotify None; LStop; LNotifyAll; LWork 0; LJoin].
  destruct n as [|n]; [lia|]. eexists. split; [vm_compute; reflexivity|]. done.
Qed.

(** Two connections are not safe. Both workers see one request in the queue,
    each outside the lock; the second one takes the front of an empty list. *)
Theorem two_workers_undefined px1 px2 (r : Req) n :
  (0 < n)%nat ->
  exists ls a, run ls (Start [px1; px2] n) = Next a /\ inside (TWorker 1) a /\ reqQueue a = []
    /\ step (LWork 1) a = Undefined.
Proof.
  intros Hn.
  exists [LRequest r; LLock; LPush; LNotify None; LWork 0; LWork 0; LWork 1; LWork 1; LWork 0; LWork 0; LWork 1].
  destruct n as [|n]; [lia|]. eexists. split; [vm_compute; reflexivity|].
  split; [by eexists|]. split; reflexivity.
Qed.

(** The tests outside the lock race, with one worker already. There is a run in
    which the worker tests [reqQueue] for emptiness while the main thread is
    pushing, and one in which the main thread reads its size while the worker
    is popping; both steps are undefined. *)
Theorem queue_tests_race px (r : Req) n :
  (0 < n)%nat ->
  (exists ls a, run ls (Start [px] n) = Next a /\ inside TMain a /\ races (LWork 0) a /\ step (LWork 0) a = Undefined)
  /\ (exists ls a, run ls (Start [px] n) = Next a /\ inside (TWorker 0) a /\ races (LRequest r) a
        /\ step (LRequest r) a = Undefined).
Proof.
  intros Hn. destruct n as [|n]; [lia|]. split.
  - exists [LRequest r; LLock; LWork 0]. eexists. split; [vm_compute; reflexivity|].
    split; [by eexists|]. split; [|reflexivity]. split; [by eexists|]. exists TMain. split; [done|by eexists].
  - exists [LRequest r; LLock; LPush; LNotify None; LWork 0; LWork 0; LWork 0]. eexists.
    split; [vm_compute; reflexivity|]. split; [by eexists|]. split; [exists 0%nat; by eexists|reflexivity].
Qed.

End MysqlAgent.
Arguments MysqlAgent : clear implicits.

(** ** The agent with its proxy *)

Section with_proxy.
Context {T : MysqlText} {C : MysqlClient} {CL : MysqlClientLaws}.

(** A connected proxy that knows the tables [tm], and a request of a known kind
    whose statement can be printed for them. *)
Definition proxy_ready (tm : gmap string MysqlMeta) (p : MysqlProxy) : Prop :=
  is_Some (conn p) /\ tableMetas p = tm /\ tables_ok p.
Definition request_ready (tm : gmap string MysqlMeta) (req : MysqlRequest) : Prop :=
  q_op req ∈ [MYSQL_REQ_SELECT; MYSQL_REQ_UPDATE; MYSQL_REQ_DELETE; MYSQL_REQ_INSERT; MYSQL_REQ_CREATE_TB]
  /\ forall p, tableMetas p = tm -> request_ok req p.

Lemma DispatchReq_ready tm r p :
  request_ready tm r -> proxy_ready tm p ->
  exists rsp p', MysqlProxy.DispatchReq r p = Some (rsp, p') /\ proxy_ready tm p'.
Proof.
  intros [Hop Hr] (Hc & Ht & Hok).
  destruct (DispatchReq_run r p Hop Hc Hok (Hr p Ht)) as (rsp & p' & E & _ & _ & _ & Hc' & Ht').
  exists rsp, p'. split; [done|]. split; [done|]. unfold tables_ok. rewrite Ht'. by split.
Qed.

(** C21. The database thread answers requests once and in order. For the agent
    with one connection and requests of known kinds for known tables, whatever
    the interleaving of main thread and worker: in a state that a run reaches,
    the requests accepted are those answered, then at most one that the worker
    has taken, then those in the queue, which are at most [n]; and the responses
    that the proxy gives when it runs the answered ones one after the other are
    those handled, then those queued, then at most one the worker still holds.
    Nothing is said of when a request is answered (a wake-up can be lost, and a
    stop leaves requests in the queue). The only undefined step a run can make
    is a test of the request queue outside its lock while the other thread is
    changing it; tests that do not fall into the other thread's section are
    read as the size the queue has. *)
Theorem agent_answers_in_order tm px0 n ls :
  proxy_ready tm px0 -> Forall (label_ok (request_ready tm)) ls ->
  (run MysqlProxy.DispatchReq ls (Start [px0] n) = Undefined ->
   race_in MysqlProxy.DispatchReq ls (Start [px0] n))
  /\ forall a, run MysqlProxy.DispatchReq ls (Start [px0] n) = Next a ->
     exists answered taken back px,
       accepted a = answered ++ taken ++ reqQueue a /\ (length taken <= 1)%nat /\ (length (reqQueue a) <= n)%nat
       /\ dispatch_all MysqlProxy.DispatchReq answered px0 = Some (handled a ++ rspQueue a ++ back, px)
       /\ (length back <= 1)%nat.
Proof. apply (one_worker_fifo _ _ _ (DispatchReq_ready tm)). Qed.

End with_proxy.

(** ** Concrete threads *)

Module AgentWitness.

(** A proxy that counts: requests and responses are numbers. *)
Definition dispatch (r : nat) : M nat nat := fun px => Some (r + px, S px)%nat.

Import MetaWitness ProxyWitness.

Definition save : MysqlRequest :=
  mkMysqlRequest "Role" MYSQL_REQ_UPDATE "rid = 4294967338" [rid; name] [] [7; 8].

(** The request is made, taken, run, and its response handled. *)
Definition one_save : list (@Label MysqlRequest) :=
  [LRequest save; LLock; LPush; LNotify None; LWork 0; LWork 0; LWork 0; LWork 0; LWork 0; LWork 0;
   LPoll 1; LPollStep; LPollPop]%nat.

Lemma save_ready : request_ready (tableMetas p0) save.
Proof.
  split; [right; left|]. intros p Hp meta Hm. rewrite Hp in Hm. injection Hm as <-.
  split; [discriminate|]. intros _. eexists. reflexivity.
Qed.

Lemma agent_answers_in_order_witness :
  exists a, run MysqlProxy.DispatchReq one_save (Start [p0] 32) = Next a
    /\ exists answered taken back px, accepted a = answered ++ taken ++ reqQueue a
         /\ dispatch_all MysqlProxy.DispatchReq answered p0 = Some (handled a ++ rspQueue a ++ back, px).
Proof.
  destruct (agent_answers_in_order (tableMetas p0) p0 32 one_save) as [_ H].
  - split; [by eexists|]. split; [reflexivity|]. exact tables_ok_p0.
  - unfold one_save. constructor; [exact save_ready|]. do 12 (constructor; [exact I|]). constructor.
  - eexists. split; [vm_compute; reflexivity|].
    destruct (H _ ltac:(vm_compute; reflexivity)) as (ans & tk & bk & px & H1 & _ & _ & H2 & _).
    exists ans, tk, bk, px. split; [exact H1 | exact H2].
Defined.

Lemma lost_wakeup_witness :
  exists ls a, run dispatch ls (Start [10]%nat 32) = Next a /\ accepted a = [5%nat].
Proof.
  destruct (lost_wakeup dispatch 10%nat 5%nat 32) as (ls & a & E & H & _).
  - lia.
  - exists ls, a. split; [exact E | exact H].
Defined.

Lemma stop_drops_request_witness :
  exists ls a, run dispatch ls (Start [10]%nat 32) = Next a /\ m_stop a = SStopped /\ reqQueue a = [5%nat].
Proof.
  destruct (stop_drops_request dispatch 10%nat 5%nat 32) as (ls & a & E & H1 & _ & H2 & _).
  - lia.
  - exists ls, a. split; [exact E|]. split; [exact H1 | exact H2].
Defined.

Lemma two_workers_undefined_witness :
  exists ls a, run dispatch ls (Start [10; 20]%nat 32) = Next a /\ step dispatch (LWork 1) a = Undefined.
Proof.
  destruct (two_workers_undefined dispatch 10%nat 20%nat 5%nat 32) as (ls & a & E & _ & _ & H).
  - lia.
  - exists ls, a. split; [exact E | exact H].
Defined.

Lemma queue_tests_race_witness :
  exists ls a, run dispatch ls (Start [10]%nat 32) = Next a /\ step dispatch (LWork 0) a = Undefined.
Proof.
  destruct (queue_tests_race dispatch 10%nat 5%nat 32) as [(ls & a & E & _ & _ & H) _].
  - lia.
  - exists ls, a. split; [exact E | exact H].
Defined.

End AgentWitness.
