(* ===== verification/MetaSerializer.v ===== *)
(** * Objects by reflection ([datacenter/MetaSerializer.{h,cpp}])

    The data agents handle message objects whose type they know only by name.
    Protocol Buffers' descriptors and reflection are the class [Reflection]: a
    descriptor is data, an object is opaque. A reflection call on a field of
    another type aborts the process, which is [None] here. *)

From S2P Require Import Prelude CString Extern.

(** ** Descriptors *)

Inductive CppType :=
  CPPTYPE_INT32 | CPPTYPE_INT64 | CPPTYPE_UINT32 | CPPTYPE_UINT64 | CPPTYPE_DOUBLE | CPPTYPE_FLOAT
| CPPTYPE_BOOL | CPPTYPE_ENUM | CPPTYPE_STRING | CPPTYPE_MESSAGE.
#[global] Instance CppType_eq_dec : EqDecision CppType.
Proof. solve_decision. Defined.

(** [fd_msg] is the full name of the type of a message field; [fd_required] is
    its label. *)
Record FieldDescriptor := mkFieldDescriptor {
  fd_name : string; cpp_type : CppType; type_name : string; fd_msg : string; default_value_uint32 : Z;
  fd_required : bool
}.
Record Descriptor := mkDescriptor {
  d_name : string; d_full_name : string; d_fields : list FieldDescriptor;
  d_nested : list (string * list FieldDescriptor)
}.

Fixpoint find_field (name : string) (l : list FieldDescriptor) : option FieldDescriptor :=
  match l with
  | [] => None
  | f :: l => if String.eqb (fd_name f) name then Some f else find_field name l
  end.
Definition FindFieldByName (d : Descriptor) (name : string) : option FieldDescriptor :=
  find_field name (d_fields d).

Fixpoint find_nested (name : string) (l : list (string * list FieldDescriptor)) : option (list FieldDescriptor) :=
  match l with
  | [] => None
  | (n, fs) :: l => if String.eqb n name then Some fs else find_nested name l
  end.
Definition FindNestedTypeByName (d : Descriptor) (name : string) : option (list FieldDescriptor) :=
  find_nested name (d_nested d).

(** ** Reflection

    [get_num] is the value of a numeric, boolean or enumerated field, the bits
    of a floating-point one; [obj_serialize] and [obj_parse] are the bytes of a
    whole object ([SerializeToArray] and [ParseFromArray]). *)
Class Reflection := {
  MetaObject : Type;
  FindMessageTypeByName : string -> option Descriptor;
  prototype_New : Descriptor -> option MetaObject;
  GetDescriptor_of : MetaObject -> Descriptor;
  HasField : MetaObject -> string -> bool;
  get_num : MetaObject -> string -> Z;
  get_str : MetaObject -> string -> string;
  get_msg : MetaObject -> string -> MetaObject;
  set_num : string -> Z -> MetaObject -> MetaObject;
  set_str : string -> string -> MetaObject -> MetaObject;
  set_msg : string -> MetaObject -> MetaObject -> MetaObject;
  IsInitialized : MetaObject -> bool;
  obj_ByteSize : MetaObject -> Z;
  obj_serialize : MetaObject -> bytes;
  obj_parse : MetaObject -> bytes -> option MetaObject
}.

(** What the library documents of the setters: a field that was set is present
    and reads as it was set, the others stay; of [IsInitialized]: every required
    field of the object is set; and of the wire format: what was serialised
    parses into a fresh object of the same type when the object was
    initialized, and does not parse when it was not. *)
Class ReflectionLaws `{Reflection} : Prop := {
  new_desc : forall d o, prototype_New d = Some o -> GetDescriptor_of o = d;
  pool_full_name : forall n d, FindMessageTypeByName n = Some d -> d_full_name d = n;
  set_num_desc : forall n v o, GetDescriptor_of (set_num n v o) = GetDescriptor_of o;
  set_str_desc : forall n v o, GetDescriptor_of (set_str n v o) = GetDescriptor_of o;
  set_msg_desc : forall n v o, GetDescriptor_of (set_msg n v o) = GetDescriptor_of o;
  has_set_num : forall n v o m, HasField (set_num n v o) m = String.eqb n m || HasField o m;
  has_set_str : forall n v o m, HasField (set_str n v o) m = String.eqb n m || HasField o m;
  has_set_msg : forall n v o m, HasField (set_msg n v o) m = String.eqb n m || HasField o m;
  num_set_num : forall n v o m, get_num (set_num n v o) m = if String.eqb n m then v else get_num o m;
  num_set_str : forall n v o m, get_num (set_str n v o) m = get_num o m;
  num_set_msg : forall n v o m, get_num (set_msg n v o) m = get_num o m;
  str_set_num : forall n v o m, get_str (set_num n v o) m = get_str o m;
  str_set_str : forall n v o m, get_str (set_str n v o) m = if String.eqb n m then v else get_str o m;
  str_set_msg : forall n v o m, get_str (set_msg n v o) m = get_str o m;
  msg_set_num : forall n v o m, get_msg (set_num n v o) m = get_msg o m;
  msg_set_str : forall n v o m, get_msg (set_str n v o) m = get_msg o m;
  msg_set_msg : forall n v o m, get_msg (set_msg n v o) m = if String.eqb n m then v else get_msg o m;
  initialized_required : forall o fd, IsInitialized o = true -> fd ∈ d_fields (GetDescriptor_of o) ->
    fd_required fd = true -> HasField o (fd_name fd) = true;
  parse_serialize_obj : forall d o o', prototype_New d = Some o' -> GetDescriptor_of o = d ->
    IsInitialized o = true -> obj_parse o' (obj_serialize o) = Some o;
  parse_uninitialized : forall d o o', prototype_New d = Some o' -> GetDescriptor_of o = d ->
    IsInitialized o = false -> obj_parse o' (obj_serialize o) = None;
  length_obj_serialize : forall o, Z.of_nat (length (obj_serialize o)) = obj_ByteSize o;
  obj_serialize_bytes : forall o, Forall (fun x => 0 <= x < 256) (obj_serialize o)
}.

Section MetaSerializer.
Context {R : Reflection}.

(** The serializer keeps the primary keys it has looked up; a descriptor, of
    which there is one per type, is its full name. *)
Record MetaSerializer := mkMetaSerializer { m_mpDescPrimaryKey : gmap string (list string) }.
#[global] Instance eta_MetaSerializer : Eta MetaSerializer := fun r => mkMetaSerializer (m_mpDescPrimaryKey r).

(** [Init]: the generated pool and factory always exist. *)
Definition MetaSerializer_Init : Z * MetaSerializer := (0, mkMetaSerializer ∅).

Definition GetPackSize (obj : MetaObject) : Z := obj_ByteSize obj.

(** [SerializeToArray] fails when the array is too short. *)
Definition obj_SerializeToArray (obj : MetaObject) (size : Z) : option bytes :=
  if obj_ByteSize obj <=? size then Some (obj_serialize obj) else None.

Definition Pack (obj : MetaObject) (buffer : Buffer) : Z * Buffer :=
  match obj_SerializeToArray obj (iCap buffer) with
  | Some b => (0, buffer <| pBuffer := b |> <| iUsed := obj_ByteSize obj |>)
  | None => (-1, buffer <| iUsed := 0 |>)
  end.

Definition GetDescriptor (typeName : string) : option Descriptor := FindMessageTypeByName typeName.

Definition GetTypeName (obj : MetaObject) : string := d_name (GetDescriptor_of obj).

Definition NewObject (typeName : string) : option MetaObject :=
  meta ← FindMessageTypeByName typeName;
  prototype_New meta.

(** [UnPack]: the object, or [None] for [-1]. *)
Definition UnPack (pszMetaName : string) (buffer : Buffer) : option MetaObject :=
  msg ← NewObject pszMetaName;
  obj_parse msg (buffer_data buffer).

(** [GetTypePrimaryKey] of a descriptor that is not null. *)
Definition GetTypePrimaryKey (desc : Descriptor) : M MetaSerializer (list string) :=
  s ← gets (fun s => s);
  let known := default [] (m_mpDescPrimaryKey s !! d_full_name desc) in
  modify (fun s => s <| m_mpDescPrimaryKey ::= <[d_full_name desc := known]> |>);;
  if negb (bool_decide (known = [])) then mret known
  else
    match FindNestedTypeByName desc "_PrimaryKey" with
    | None => mret known
    | Some pk =>
        let pks := known ++ (fd_name <$> pk) in
        modify (fun s => s <| m_mpDescPrimaryKey ::= <[d_full_name desc := pks]> |>);;
        mret pks
    end.

(** The default value of the field of [_MaxLength] with the column's name. *)
Definition GetFieldMaxLength (desc : Descriptor) (fieldName : string) : Z :=
  match FindNestedTypeByName desc "_MaxLength" with
  | None => 0
  | Some fs => match find_field fieldName fs with Some fd => i32 (default_value_uint32 fd) | None => 0 end
  end.

(** [GET_FIELD] and the setters: [-1] for a field that does not exist, [None]
    for one of another type. *)
Definition SetObjectField {A} (t : CppType) (set : string -> A -> MetaObject -> MetaObject)
    (obj : MetaObject) (fieldName : string) (val : A) : option (Z * MetaObject) :=
  match FindFieldByName (GetDescriptor_of obj) fieldName with
  | None => Some (-1, obj)
  | Some field => if bool_decide (cpp_type field = t) then Some (0, set fieldName val obj) else None
  end.
Definition SetObjectFieldI32 := SetObjectField CPPTYPE_INT32 set_num.
Definition SetObjectFieldI64 := SetObjectField CPPTYPE_INT64 set_num.
Definition SetObjectFieldU32 := SetObjectField CPPTYPE_UINT32 set_num.
Definition SetObjectFieldU64 := SetObjectField CPPTYPE_UINT64 set_num.
Definition SetObjectFieldR32 := SetObjectField CPPTYPE_FLOAT set_num.
Definition SetObjectFieldR64 := SetObjectField CPPTYPE_DOUBLE set_num.
Definition SetObjectFieldSTR := SetObjectField CPPTYPE_STRING set_str.
Definition SetObjectFieldOBJ := SetObjectField CPPTYPE_MESSAGE set_msg.

(** The getters: [-1] leaves the variable [val] alone. *)
Definition GetObjectField {A} (t : CppType) (get : MetaObject -> string -> A)
    (obj : MetaObject) (fieldName : string) (val : A) : option (Z * A) :=
  match FindFieldByName (GetDescriptor_of obj) fieldName with
  | None => Some (-1, val)
  | Some field => if bool_decide (cpp_type field = t) then Some (0, get obj fieldName) else None
  end.
Definition GetObjectFieldI32 := GetObjectField CPPTYPE_INT32 get_num.
Definition GetObjectFieldI64 := GetObjectField CPPTYPE_INT64 get_num.
Definition GetObjectFieldU32 := GetObjectField CPPTYPE_UINT32 get_num.
Definition GetObjectFieldU64 := GetObjectField CPPTYPE_UINT64 get_num.
Definition GetObjectFieldR32 := GetObjectField CPPTYPE_FLOAT get_num.
Definition GetObjectFieldR64 := GetObjectField CPPTYPE_DOUBLE get_num.
Definition GetObjectFieldSTR := GetObjectField CPPTYPE_STRING get_str.
Definition GetObjectFieldOBJ := GetObjectField CPPTYPE_MESSAGE get_msg.

(** ** Primary keys *)

(** What the keys of a type are, without the cache. *)
Definition primary_key (desc : Descriptor) : list string :=
  match FindNestedTypeByName desc "_PrimaryKey" with Some pk => fd_name <$> pk | None => [] end.

(** The types of the pool: one descriptor per full name. *)
Definition pooled (desc : Descriptor) : Prop := FindMessageTypeByName (d_full_name desc) = Some desc.

(** Every entry of the cache is empty or what the descriptor says. *)
Definition KeyCache (s : MetaSerializer) : Prop :=
  forall d pks, pooled d -> m_mpDescPrimaryKey s !! d_full_name d = Some pks -> pks = [] \/ pks = primary_key d.

Lemma GetTypePrimaryKey_run desc s :
  pooled desc -> KeyCache s ->
  wp (GetTypePrimaryKey desc) (fun r s' => r = primary_key desc /\ KeyCache s') s.
Proof.
  intros Hd Hs. unfold GetTypePrimaryKey. wp_steps. set (known := default [] _).
  assert (known = [] \/ known = primary_key desc) as Hk.
  { subst known. destruct (m_mpDescPrimaryKey s !! d_full_name desc) eqn:E; [|by left]. by apply (Hs desc). }
  assert (forall v m, v = [] \/ v = primary_key desc ->
    KeyCache (mkMetaSerializer m) -> KeyCache (mkMetaSerializer (<[d_full_name desc := v]> m))) as Hins.
  { intros v m Hv Hm d pks Hp Hl. simpl in Hl. apply lookup_insert_Some in Hl as [[E <-]|[_ Hl]].
    - assert (d = desc) as -> by (unfold pooled in *; congruence). done.
    - by apply (Hm d). }
  assert (KeyCache (mkMetaSerializer (m_mpDescPrimaryKey s))) as Hs0 by exact Hs.
  destruct (bool_decide_reflect (known = [])) as [E|E]; cbn [negb].
  - unfold primary_key in *. destruct (FindNestedTypeByName desc "_PrimaryKey") as [pk|]; wp_steps.
    + rewrite E. split; [done|]. apply Hins; [by right|]. apply Hins; [by left|done].
    + split; [done|]. by apply Hins.
  - wp_steps. destruct Hk as [|Hk]; [done|]. split; [done|]. apply Hins; [by right|done].
Qed.

(** The cache of primary keys is transparent: [GetTypePrimaryKey] gives the
    names of the fields of the type's [_PrimaryKey], whatever has been looked up
    before, and keeps the cache right. *)
Theorem GetTypePrimaryKey_is_primary_key desc s :
  pooled desc -> KeyCache s ->
  exists s', GetTypePrimaryKey desc s = Some (primary_key desc, s') /\ KeyCache s'.
Proof. intros Hd Hs. apply wp_run_ret. by apply GetTypePrimaryKey_run. Qed.

Lemma KeyCache_Init : KeyCache (MetaSerializer_Init.2).
Proof. intros d pks _ E. simpl in E. by rewrite lookup_empty in E. Qed.

(** ** Pack and unpack *)

Lemma UnPack_Pack `{!ReflectionLaws} typeName d o o0 buffer :
  FindMessageTypeByName typeName = Some d -> prototype_New d = Some o0 -> GetDescriptor_of o = d ->
  IsInitialized o = true -> obj_ByteSize o <= iCap buffer ->
  exists b, Pack o buffer = (0, b) /\ UnPack typeName b = Some o.
Proof.
  intros Hd Hn Ho Hi Hc. unfold Pack, obj_SerializeToArray. destruct (Z.leb_spec (obj_ByteSize o) (iCap buffer)); [|lia].
  eexists. split; [reflexivity|]. unfold UnPack, NewObject. rewrite Hd. cbn [mbind option_bind]. rewrite Hn.
  cbn [mbind option_bind]. unfold buffer_data. simpl. rewrite take_ge.
  - by eapply parse_serialize_obj.
  - pose proof (length_obj_serialize o). lia.
Qed.

End MetaSerializer.
Arguments MetaSerializer : clear implicits.

(** ** A reference instance *)

Module ReflectionRef.

#[export] Instance CppType_countable : Countable CppType.
Proof.
  refine (inj_countable'
    (fun t => match t with
       | CPPTYPE_INT32 => 0 | CPPTYPE_INT64 => 1 | CPPTYPE_UINT32 => 2 | CPPTYPE_UINT64 => 3 | CPPTYPE_DOUBLE => 4
       | CPPTYPE_FLOAT => 5 | CPPTYPE_BOOL => 6 | CPPTYPE_ENUM => 7 | CPPTYPE_STRING => 8 | CPPTYPE_MESSAGE => 9
       end%nat)
    (fun n => match n with
       | 0 => CPPTYPE_INT32 | 1 => CPPTYPE_INT64 | 2 => CPPTYPE_UINT32 | 3 => CPPTYPE_UINT64 | 4 => CPPTYPE_DOUBLE
       | 5 => CPPTYPE_FLOAT | 6 => CPPTYPE_BOOL | 7 => CPPTYPE_ENUM | 8 => CPPTYPE_STRING | _ => CPPTYPE_MESSAGE
       end%nat) _).
  by intros [].
Defined.

#[export] Instance FieldDescriptor_eq_dec : EqDecision FieldDescriptor.
Proof. solve_decision. Defined.
#[export] Instance FieldDescriptor_countable : Countable FieldDescriptor.
Proof.
  refine (inj_countable' (fun f => (fd_name f, cpp_type f, type_name f, fd_msg f, default_value_uint32 f, fd_required f))
    (fun '(n, t, tn, m, d, r) => mkFieldDescriptor n t tn m d r) _).
  by intros [].
Defined.

#[export] Instance Descriptor_eq_dec : EqDecision Descriptor.
Proof. solve_decision. Defined.
#[export] Instance Descriptor_countable : Countable Descriptor.
Proof.
  refine (inj_countable' (fun d => (d_name d, d_full_name d, d_fields d, d_nested d))
    (fun '(n, fn, fs, ns) => mkDescriptor n fn fs ns) _).
  by intros [].
Defined.

(** An object: its type, its numbers, its strings and its messages, these in
    coded form. *)
Definition Obj : Type :=
  Descriptor * gset string * gmap string Z * gmap string string * gmap string positive.

Definition obj_d (o : Obj) := o.1.1.1.1.
Definition empty_obj (d : Descriptor) : Obj := (d, ∅, ∅, ∅, ∅).

Fixpoint pos_bits (p : positive) : bytes :=
  match p with xH => [] | xO p => 0 :: pos_bits p | xI p => 1 :: pos_bits p end.
Fixpoint bits_pos (l : bytes) : positive :=
  match l with [] => xH | b :: l => if b =? 0 then xO (bits_pos l) else xI (bits_pos l) end.

Lemma bits_pos_bits p : bits_pos (pos_bits p) = p.
Proof. induction p as [p IH|p IH|]; simpl; by rewrite ?IH. Qed.
Lemma pos_bits_bytes p : Forall (fun x => 0 <= x < 256) (pos_bits p).
Proof. induction p; constructor; (lia || done). Qed.

(** Every required field is set. *)
Definition complete (o : Obj) : bool :=
  forallb (fun fd => negb (fd_required fd) || bool_decide (fd_name fd ∈ o.1.1.1.2)) (d_fields (obj_d o)).

(** The type pool is an argument. *)
Section instance.
Context (pool : string -> option Descriptor).

#[local] Instance refl : Reflection := {
  MetaObject := Obj;
  FindMessageTypeByName n :=
    match pool n with Some d => if String.eqb (d_full_name d) n then Some d else None | None => None end;
  prototype_New d := Some (empty_obj d);
  GetDescriptor_of o := obj_d o;
  HasField o n := bool_decide (n ∈ o.1.1.1.2);
  get_num o n := default 0 (o.1.1.2 !! n);
  get_str o n := default "" (o.1.2 !! n);
  get_msg o n := default (empty_obj (obj_d o)) (p ← o.2 !! n; decode p);
  set_num n v o := (obj_d o, {[n]} ∪ o.1.1.1.2, <[n := v]> o.1.1.2, o.1.2, o.2);
  set_str n v o := (obj_d o, {[n]} ∪ o.1.1.1.2, o.1.1.2, <[n := v]> o.1.2, o.2);
  set_msg n v o := (obj_d o, {[n]} ∪ o.1.1.1.2, o.1.1.2, o.1.2, <[n := encode v]> o.2);
  IsInitialized := complete;
  obj_ByteSize o := Z.of_nat (length (pos_bits (encode o)));
  obj_serialize o := pos_bits (encode o);
  obj_parse _ b := o ← decode (bits_pos b); if complete o then Some o else None
}.

Lemma has_union n m (s : gset string) :
  bool_decide (m ∈ {[n]} ∪ s) = String.eqb n m || bool_decide (m ∈ s).
Proof.
  destruct (String.eqb_spec n m) as [->|Hn]; simpl; [apply bool_decide_true|apply bool_decide_ext]; set_solver.
Qed.

#[local] Instance refl_laws : ReflectionLaws.
Proof.
  split; simpl; try done.
  - intros d o E. by simplify_eq.
  - intros n d E. destruct (pool n) as [d'|]; [|done].
    destruct (String.eqb_spec (d_full_name d') n); by simplify_eq.
  - intros. apply has_union.
  - intros. apply has_union.
  - intros. apply has_union.
  - intros n v o m. destruct (String.eqb_spec n m) as [->|]; [by rewrite lookup_insert_eq|by rewrite lookup_insert_ne].
  - intros n v o m. destruct (String.eqb_spec n m) as [->|]; [by rewrite lookup_insert_eq|by rewrite lookup_insert_ne].
  - intros n v o m. destruct (String.eqb_spec n m) as [->|]; [|by rewrite lookup_insert_ne].
    rewrite lookup_insert_eq. cbn [mbind option_bind]. by rewrite decode_encode.
  - intros o fd Hc Hin Hr. unfold complete in Hc. rewrite forallb_forall in Hc.
    specialize (Hc fd (proj1 (list_elem_of_In _ _) Hin)). by rewrite Hr in Hc.
  - intros d o o' _ _ Hc. rewrite bits_pos_bits, decode_encode. simpl. by rewrite Hc.
  - intros d o o' _ _ Hc. rewrite bits_pos_bits, decode_encode. simpl. by rewrite Hc.
  - intros o. apply pos_bits_bytes.
Qed.

End instance.

End ReflectionRef.

(** ** A concrete pool *)

Module SerializerWitness.
Import ReflectionRef.

(** The role table: its key, the length of its name, and the columns used here. *)
Definition role_desc : Descriptor :=
  mkDescriptor "Role" "db.Role"
    [mkFieldDescriptor "rid" CPPTYPE_UINT64 "uint64" "" 0 true;
     mkFieldDescriptor "name" CPPTYPE_STRING "string" "" 0 true;
     mkFieldDescriptor "pack" CPPTYPE_MESSAGE "message" "db.RolePackage" 0 true]
    [("_PrimaryKey", [mkFieldDescriptor "rid" CPPTYPE_UINT32 "uint32" "" 0 false]);
     ("_MaxLength", [mkFieldDescriptor "name" CPPTYPE_UINT32 "uint32" "" 32 false])].
Definition pack_desc : Descriptor :=
  mkDescriptor "RolePackage" "db.RolePackage"
    [mkFieldDescriptor "maxGrid" CPPTYPE_UINT32 "uint32" "" 0 true;
     mkFieldDescriptor "nextgid" CPPTYPE_UINT32 "uint32" "" 1 true] [].

Definition pool (n : string) : option Descriptor :=
  if String.eqb n "db.Role" then Some role_desc
  else if String.eqb n "db.RolePackage" then Some pack_desc else None.

#[export] Instance R : Reflection := refl pool.
#[export] Instance RL : ReflectionLaws := refl_laws pool.

Lemma GetTypePrimaryKey_is_primary_key_witness :
  exists s', GetTypePrimaryKey role_desc (MetaSerializer_Init.2) = Some (["rid"], s').
Proof.
  destruct (GetTypePrimaryKey_is_primary_key role_desc (MetaSerializer_Init.2)) as (s' & E & _).
  - reflexivity.
  - exact KeyCache_Init.
  - exists s'. exact E.
Defined.

End SerializerWitness.
