(* ===== verification/DataCommon.v ===== *)
(** * What the data agents share ([datacenter/DataCommon.h], [datacenter/DataListener.h])

    Result codes, the calls of a listener, and the head that the cache agent
    puts in front of the caller's callback data. *)

From S2P Require Import Prelude CString.

(** ** Result codes *)

Definition DATA_TIME_OUT : Z := -1.
Definition DATA_OK : Z := 0.
Definition DATA_NO_EXISTS : Z := 1.
Definition DATA_ALREADY_EXISTS : Z := 2.
Definition DATA_UNPACK_ERROR : Z := 3.
Definition DATA_INTERNAL_ERR : Z := 4.
Definition DATA_REDIS_ERR_START : Z := 1000.
Definition DATA_MYSQL_ERR_START : Z := 2000.

(** ** Listeners *)

Inductive DataCall :=
| OnGet (ret : Z) (obj : option Z) (cb : bytes)
| OnInsert (ret : Z) (cb : bytes)
| OnRemove (ret : Z) (cb : bytes)
| OnUpdate (ret : Z) (cb : bytes)
| OnCreateTable (pszName : string) (ret : Z).

(** The default [DataListener]: it only logs. *)
Definition DataListener {W} (c : DataCall) : M W Z := mret 0.

(** ** Callback data of the cache agent *)

Definition CACHE_CMD_INVALID : Z := 0.
Definition CACHE_CMD_GET : Z := 1.
Definition CACHE_CMD_UPDATE : Z := 2.
Definition CACHE_CMD_INSERT : Z := 3.
Definition CACHE_CMD_REMOVE : Z := 4.
Definition CACHE_CMD_MGET : Z := 5.
Definition CACHE_CMD_MUPDATE : Z := 6.
Definition CACHE_CMD_MINSERT : Z := 7.
Definition CACHE_CMD_MREMOVE : Z := 8.
Definition CACHE_CMD_MAX : Z := 9.

Definition CACHE_TYPE_KV : Z := 0.
Definition CACHE_TYPE_KH : Z := 1.
Definition CACHE_TYPE_KZ : Z := 2.
Definition CACHE_TYPE_KL : Z := 3.
Definition CACHE_TYPE_MAX : Z := 4.

Definition MAX_TYPE_KEY_SIZE : Z := 16.
Definition MAX_OBJ_KEY_SIZE : Z := 64.
Definition MAX_CALL_BACK_SIZE : Z := 128.

(** [CacheAgentCallBack::Head], packed. *)
Record Head := mkHead { h_length : Z; h_type : Z; h_cmd : Z; szTypeKey : bytes }.

(** [sizeof] the head and the body. *)
Definition HEAD_SIZE : Z := 2 + 1 + 2 + MAX_TYPE_KEY_SIZE.
Definition BODY_SIZE : Z := MAX_OBJ_KEY_SIZE.

(** A [char] array of [n] bytes that was zero and holds the string [s]. *)
Definition char_array (n : Z) (s : string) : bytes := resize (Z.to_nat n) 0 (of_str s).

(** The head in the memory of a little-endian host, and reading it through a
    pointer into [m]. *)
Definition head_bytes (h : Head) : bytes :=
  [h_length h mod 256; h_length h / 256; h_type h; h_cmd h mod 256; h_cmd h / 256] ++ szTypeKey h.

Definition read_head (m : bytes) : option Head :=
  if HEAD_SIZE <=? Z.of_nat (length m) then
    match m with
    | l0 :: l1 :: t :: c0 :: c1 :: r =>
        Some (mkHead (l0 + 256 * l1) t (c0 + 256 * c1) (take (Z.to_nat MAX_TYPE_KEY_SIZE) r))
    | _ => None
    end
  else None.

Lemma length_char_array n s : 0 <= n -> Z.of_nat (length (char_array n s)) = n.
Proof. intros. unfold char_array. rewrite length_resize. lia. Qed.

(** A string that leaves room for its zero reads back. *)
Lemma cstr_char_array n s : no_nul s -> strlen s < n -> cstr (char_array n s) = Some s.
Proof.
  intros Hn Hl. unfold strlen in Hl. unfold char_array. rewrite resize_ge by (rewrite length_of_str; lia).
  rewrite length_of_str. destruct (Z.to_nat n - String.length s)%nat eqn:E; [lia|]. by apply cstr_of_str.
Qed.

Lemma read_head_bytes h rest :
  Z.of_nat (length (szTypeKey h)) = MAX_TYPE_KEY_SIZE -> read_head (head_bytes h ++ rest) = Some h.
Proof.
  intros Hl. unfold read_head, head_bytes. unfold HEAD_SIZE, MAX_TYPE_KEY_SIZE in *.
  rewrite !length_app. cbn [length].
  destruct (Z.leb_spec (2 + 1 + 2 + 16) (Z.of_nat (5 + length (szTypeKey h) + length rest))); [|lia].
  cbn [app]. rewrite take_app_le, take_ge by lia. destruct h as [l t c k]. simpl.
  f_equal. f_equal; [pose proof (Z.div_mod l 256)|pose proof (Z.div_mod c 256)]; lia.
Qed.

Lemma length_head_bytes h : length (head_bytes h) = (5 + length (szTypeKey h))%nat.
Proof. done. Qed.
