(* ===== verification/DBAgent.v ===== *)
(** * Objects in the database ([datacenter/DBAgent.{h,cpp}])

    The agent turns objects into rows and requests for the database thread, and
    responses back into objects. It keeps the objects it has read under their
    keys. Objects live in a heap of handles: a handle that is not in the heap
    has been freed, and giving back an object that is not there is a double
    free. *)

From S2P Require Import Prelude CString Extern.
From S2P Require Import MysqlMeta MysqlProxy MetaSerializer DataCommon.

Definition GetMetaNameSpace : string := "db".

(** A [std::set] of strings in its order. *)
Fixpoint set_insert (s : string) (l : list string) : list string :=
  match l with
  | [] => [s]
  | t :: l' => if String.eqb s t then l else if String.ltb s t then s :: l else t :: set_insert s l'
  end.

Section DBAgent.
Context {T : MysqlText} {R : Reflection} {B0 : BufferLib}.
(** The listeners. *)
Context {H : Type}.

Record DBAgent := mkDBAgent {
  serializer : option MetaSerializer;
  mysql_metas : list MysqlMeta;
  requests : list MysqlRequest;           (* given to the database thread *)
  objs : gmap Z MetaObject;
  next_obj : Z;
  m_mpGetObjects : gmap string (option Z);
  m_ptrTmpObj : option Z;
  m_mpListener : gmap string (option H);
  m_setTableType : list string
}.
#[global] Instance eta_DBAgent : Eta DBAgent := fun r =>
  mkDBAgent (serializer r) (mysql_metas r) (requests r) (objs r) (next_obj r) (m_mpGetObjects r)
    (m_ptrTmpObj r) (m_mpListener r) (m_setTableType r).

Definition DBAgent_new : DBAgent := mkDBAgent None [] [] ∅ 1 ∅ None ∅ [].

(** ** Objects *)

Definition new_handle (o : MetaObject) : M DBAgent Z :=
  a ← gets (fun a => a);
  modify (fun a => a <| objs ::= <[next_obj a := o]> |> <| next_obj ::= Z.succ |>);;
  mret (next_obj a).

(** The last owner of an object goes: a second time is undefined. *)
Definition delete_obj (h : Z) : M DBAgent unit :=
  a ← gets (fun a => a);
  assert (bool_decide (is_Some (objs a !! h)));;
  modify (fun a => a <| objs ::= delete h |>).

Definition release (p : option Z) : M DBAgent unit :=
  match p with Some h => delete_obj h | None => mret tt end.

(** Reading through a pointer. *)
Definition deref (h : Z) : M DBAgent MetaObject :=
  a ← gets (fun a => a);
  lift (objs a !! h).

(** [m_mpGetObjects[key] = ptr]: the object that was there goes. *)
Definition put_object (key : string) (h : Z) : M DBAgent unit :=
  a ← gets (fun a => a);
  modify (fun a => a <| m_mpGetObjects ::= <[key := Some h]> |>);;
  release (mjoin (m_mpGetObjects a !! key)).

(** ** Keys *)

Definition on_serializer {A} (m : M MetaSerializer A) : M DBAgent A :=
  a ← gets (fun a => a);
  s ← lift (serializer a);
  match m s with
  | Some (r, s) => modify (fun a => a <| serializer := Some s |>);; mret r
  | None => crash
  end.

(** The text of one key field: [None] for a type that is not supported. *)
Definition key_text (o : MetaObject) (field : FieldDescriptor) : option string :=
  match cpp_type field with
  | CPPTYPE_INT32 | CPPTYPE_INT64 | CPPTYPE_ENUM | CPPTYPE_UINT32 | CPPTYPE_UINT64 =>
      Some (snprintf 512 (print_d (get_num o (fd_name field))))
  | CPPTYPE_STRING => Some (snprintf 512 ("'" +:+ c_str (get_str o (fd_name field)) +:+ "'"))
  | _ => None
  end.

(** The loop over the keys: a key that is not a field is dereferenced ([None]),
    one that is absent or of another type is an error ([Some None]). *)
Fixpoint key_loop (sep : string) (named : bool) (o : MetaObject) (i : nat) (pks : list string) (key : string)
    : option (option string) :=
  match pks with
  | [] => Some (Some key)
  | n :: pks =>
      let key := match i with O => key | S _ => key +:+ sep end in
      field ← FindFieldByName (GetDescriptor_of o) n;
      if negb (HasField o (fd_name field)) then Some None
      else
        match key_text o field with
        | None => Some None
        | Some t =>
            key_loop sep named o (S i) pks (if named then key +:+ n +:+ " = " +:+ t else key +:+ t)
        end
  end.

(** [GetObjectKey]: [None] is [-1]. *)
Definition GetObjectKey (o : MetaObject) : M DBAgent (option string) :=
  pks ← on_serializer (GetTypePrimaryKey (GetDescriptor_of o));
  if bool_decide (pks = []) then mret None else lift (key_loop ":" false o 0 pks "").

Definition GetPrimaryKeyCond (o : MetaObject) : M DBAgent (option string) :=
  pks ← on_serializer (GetTypePrimaryKey (GetDescriptor_of o));
  if bool_decide (pks = []) then mret None else lift (key_loop " AND " true o 0 pks "").

(** [FindObject(key)]: the raw pointer. *)
Definition FindObject_key (key : string) (a : DBAgent) : option Z :=
  if bool_decide (key = "") then None else mjoin (m_mpGetObjects a !! key).

Definition FindObject (o : MetaObject) : M DBAgent (option Z) :=
  key ← GetObjectKey o;
  match key with
  | None => mret None
  | Some key => gets (FindObject_key key)
  end.

(** [GetObjectPtr]: [operator[]] of the empty key makes a null entry. *)
Definition GetObjectPtr (o : MetaObject) : M DBAgent (option Z) :=
  key ← GetObjectKey o;
  a ← gets (fun a => a);
  let at_empty :=
    modify (fun a => a <| m_mpGetObjects ::= <["" := mjoin (m_mpGetObjects a !! "")]> |>);;
    mret (mjoin (m_mpGetObjects a !! "")) in
  match key with
  | None => at_empty
  | Some key => match m_mpGetObjects a !! key with Some p => mret p | None => at_empty end
  end.

Definition FreeObject (key : string) : M DBAgent unit :=
  a ← gets (fun a => a);
  modify (fun a => a <| m_mpGetObjects ::= delete key |>);;
  release (mjoin (m_mpGetObjects a !! key)).

(** ** Rows *)

(** The field of [GenerateMysqlFields] for one field of an object; a message is
    packed into a buffer of its size, and [None] is the error of that. *)
Definition mysql_field (o : MetaObject) (field : FieldDescriptor) : option MysqlField :=
  let n := fd_name field in
  let f t := mkMysqlField n t 0 [] in
  match cpp_type field with
  | CPPTYPE_INT32 => Some (set_low32 (get_num o n) (f VAL_TYPE_INT32))
  | CPPTYPE_INT64 => Some (set_64 (get_num o n) (f VAL_TYPE_INT64))
  | CPPTYPE_UINT32 => Some (set_low32 (get_num o n) (f VAL_TYPE_UINT32))
  | CPPTYPE_UINT64 => Some (set_64 (get_num o n) (f VAL_TYPE_UINT64))
  | CPPTYPE_FLOAT => Some (set_low32 (get_num o n) (f VAL_TYPE_REAL32))
  | CPPTYPE_DOUBLE => Some (set_64 (get_num o n) (f VAL_TYPE_REAL64))
  | CPPTYPE_BOOL => Some (set_low32 (if get_num o n =? 0 then 0 else 1) (f VAL_TYPE_INT32))
  | CPPTYPE_ENUM => Some (set_low32 (get_num o n) (f VAL_TYPE_INT32))
  | CPPTYPE_STRING => Some (f VAL_TYPE_VARCHAR <| f_buffer := of_str (get_str o n) ++ [0] |>)
  | CPPTYPE_MESSAGE =>
      let msg := get_msg o n in
      match obj_SerializeToArray msg (obj_ByteSize msg) with
      | Some b => Some (f VAL_TYPE_BLOB <| f_buffer := b |>)
      | None => None
      end
  end.

(** The loop: the result and the fields in [data]. *)
Fixpoint generate_fields (o : MetaObject) (fields : list string) (l : list FieldDescriptor) : Z * list MysqlField :=
  match l with
  | [] => (0, [])
  | field :: l =>
      if bool_decide (fields = []) || bool_decide (fd_name field ∈ fields) then
        match mysql_field o field with
        | None => (-1, [])
        | Some dbfield => let '(r, data) := generate_fields o fields l in (r, dbfield :: data)
        end
      else generate_fields o fields l
  end.

Definition GenerateMysqlFields (o : MetaObject) (fields : list string) : Z * list MysqlField :=
  generate_fields o fields (d_fields (GetDescriptor_of o)).

(** A buffer of the message's size is long enough, so that a field is saved as
    this and [GenerateMysqlFields] does not fail. *)
Definition saved_field (o : MetaObject) (field : FieldDescriptor) : MysqlField :=
  default (mkMysqlField (fd_name field) 0 0 []) (mysql_field o field).

Lemma mysql_field_saved o fd : mysql_field o fd = Some (saved_field o fd).
Proof.
  unfold saved_field, mysql_field, obj_SerializeToArray. destruct (cpp_type fd); try done. by rewrite Z.leb_refl.
Qed.

Lemma saved_field_name o fd : f_name (saved_field o fd) = fd_name fd.
Proof.
  unfold saved_field, mysql_field, obj_SerializeToArray. destruct (cpp_type fd); try done. by rewrite Z.leb_refl.
Qed.

Lemma GenerateMysqlFields_eq o fields :
  GenerateMysqlFields o fields
  = (0, saved_field o <$> filter (fun fd => fields = [] \/ fd_name fd ∈ fields) (d_fields (GetDescriptor_of o))).
Proof.
  unfold GenerateMysqlFields. induction (d_fields _) as [|fd l IH]; [done|]. cbn [generate_fields].
  rewrite mysql_field_saved, IH.
  destruct (bool_decide_reflect (fields = [])), (bool_decide_reflect (fd_name fd ∈ fields)); cbn [orb];
    ((rewrite filter_cons_True by auto) || (rewrite filter_cons_False by (by intros []))); done.
Qed.

Lemma GenerateMysqlFields_all o :
  (GenerateMysqlFields o []).2 = saved_field o <$> d_fields (GetDescriptor_of o).
Proof.
  rewrite GenerateMysqlFields_eq. simpl. f_equal. induction (d_fields _) as [|fd l IH]; [done|].
  rewrite filter_cons_True by (by left). by rewrite IH.
Qed.

(** Loading a field is undefined, an unpack error, or goes on with the object,
    which is null when the pool does not know the type. *)
Inductive Loaded := LUndefined | LUnpackError | LObject (obj : option MetaObject).

Definition set_loaded (r : option (Z * MetaObject)) : Loaded :=
  match r with Some (_, o) => LObject (Some o) | None => LUndefined end.

(** One field of [CreateObjectFromMysql]. *)
Definition load_field (meta : MysqlMeta) (mf : MysqlField) (obj : option MetaObject) : Loaded :=
  match GetFieldMeta (cols meta) (f_name mf) with
  | None => LUnpackError
  | Some fieldMeta =>
      let n := f_name mf in
      let t := f_type mf in
      let set {A} (f : MetaObject -> string -> A -> option (Z * MetaObject)) (v : A) :=
        match obj with Some o => set_loaded (f o n v) | None => LUndefined end in
      if t =? VAL_TYPE_BLOB then
        if bool_decide (f_buffer mf = []) then LObject obj
        else
          let len := Z.of_nat (length (f_buffer mf)) in
          match UnPack (c_typeName fieldMeta) (mkBuffer len len (f_buffer mf)) with
          | None => LUnpackError
          | Some fieldObj => set SetObjectFieldOBJ fieldObj
          end
      else if t =? VAL_TYPE_INT32 then set SetObjectFieldI32 (ud_i32 mf)
      else if t =? VAL_TYPE_INT64 then set SetObjectFieldI64 (ud_i64 mf)
      else if t =? VAL_TYPE_UINT32 then set SetObjectFieldU32 (ud_u32 mf)
      else if t =? VAL_TYPE_UINT64 then set SetObjectFieldU64 (ud_u64 mf)
      else if t =? VAL_TYPE_REAL32 then set SetObjectFieldR32 (ud_u32 mf)
      else if t =? VAL_TYPE_REAL64 then set SetObjectFieldR64 (ud_u64 mf)
      else if (t =? VAL_TYPE_VARCHAR) || (t =? VAL_TYPE_TEXT) then
        match cstr (f_buffer mf) with Some svar => set SetObjectFieldSTR svar | None => LUndefined end
      else if t =? VAL_TYPE_DATETIME then set SetObjectFieldU32 (ud_u32 mf)
      else LObject obj
  end.

(** [MysqlAgent::GetTableMeta]. *)
Fixpoint agent_GetTableMeta (name : string) (l : list MysqlMeta) : option MysqlMeta :=
  match l with
  | [] => None
  | m :: l => if String.eqb name (tblname m) then Some m else agent_GetTableMeta name l
  end.

Fixpoint load_fields (metas : list MysqlMeta) (tbl : string) (data : list MysqlField) (obj : option MetaObject)
    : Loaded :=
  match data with
  | [] => LObject obj
  | mf :: data =>
      match agent_GetTableMeta tbl metas with
      | None => LUnpackError
      | Some meta =>
          match load_field meta mf obj with
          | LObject obj => load_fields metas tbl data obj
          | r => r
          end
      end
  end.

(** [CreateObjectFromMysql]: the result and the object. *)
Definition CreateObjectFromMysql (rsp : MysqlResponse) : M DBAgent (Z * option Z) :=
  if negb (p_ret rsp =? MYSQL_RESULT_OK) || bool_decide (p_data rsp = []) then mret (DATA_INTERNAL_ERR, None)
  else
    a ← gets (fun a => a);
    match load_fields (mysql_metas a) (p_tblname rsp) (p_data rsp)
            (NewObject (GetMetaNameSpace +:+ "." +:+ p_tblname rsp)) with
    | LUnpackError => mret (DATA_UNPACK_ERROR, None)
    | LObject (Some obj) =>
        h ← new_handle obj;
        key ← GetObjectKey obj;
        match key with
        | None =>
            a ← gets (fun a => a);
            modify (fun a => a <| m_ptrTmpObj := Some h |>);;
            release (m_ptrTmpObj a);; mret (0, Some h)
        | Some key => put_object key h;; mret (0, Some h)
        end
    | _ => crash
    end.

(** ** Requests *)

(** The result of [MysqlAgent::Request] after a history of requests. *)
Context (Request_ret : list MysqlRequest -> Z).

Definition mysql_Request (req : MysqlRequest) : M DBAgent Z :=
  a ← gets (fun a => a);
  if negb (Request_ret (requests a) =? 0) then mret (-1)
  else modify (fun a => a <| requests ::= fun l => l ++ [req] |>);; mret 0.

Definition CreateTable (pszName : string) : M DBAgent Z :=
  mysql_Request (mkMysqlRequest pszName MYSQL_REQ_CREATE_TB "" [] [] []).

(** The callback data is copied into a buffer of its own; [k] goes on with the
    copy. *)
Definition with_callback (cb : bytes) (k : bytes -> M DBAgent Z) : M DBAgent Z :=
  match buffer_Create (Z.of_nat (length cb)) with
  | None => mret (-1)
  | Some b =>
      m ← lift (memcpy_at (iCap b) 0 cb (pBuffer b));
      k (take (Z.to_nat (iCap b)) m)
  end.

Definition Get (o : MetaObject) (fields : list string) (cb : bytes) (pszWhereCond : option string) : M DBAgent Z :=
  key ← GetPrimaryKeyCond o;
  match (match key with Some key => Some key | None => pszWhereCond end) with
  | None => mret (-1)
  | Some key =>
      with_callback cb (fun ccb =>
        mysql_Request (mkMysqlRequest (GetTypeName o) MYSQL_REQ_SELECT key [] fields ccb))
  end.

Definition Remove (o : MetaObject) (cb : bytes) : M DBAgent Z :=
  key ← GetPrimaryKeyCond o;
  match key with
  | None => mret (-1)
  | Some key =>
      with_callback cb (fun ccb =>
        mysql_Request (mkMysqlRequest (GetTypeName o) MYSQL_REQ_DELETE key [] [] ccb))
  end.

(** The result of [GenerateMysqlFields] is not looked at. *)
Definition Update (o : MetaObject) (fields : list string) (cb : bytes) : M DBAgent Z :=
  key ← GetPrimaryKeyCond o;
  match key with
  | None => mret (-1)
  | Some key =>
      with_callback cb (fun ccb =>
        mysql_Request (mkMysqlRequest (GetTypeName o) MYSQL_REQ_UPDATE key (GenerateMysqlFields o fields).2 fields ccb))
  end.

Definition Insert (o : MetaObject) (cb : bytes) : M DBAgent Z :=
  key ← GetPrimaryKeyCond o;
  match key with
  | None => mret (-1)
  | Some key =>
      with_callback cb (fun ccb =>
        mysql_Request (mkMysqlRequest (GetTypeName o) MYSQL_REQ_INSERT key (GenerateMysqlFields o []).2 [] ccb))
  end.

(** ** Tables *)

Definition RegisterTable (tableType : string) : M DBAgent Z :=
  modify (fun a => a <| m_setTableType ::= set_insert tableType |>);; mret 0.

(** [AddListener]: the test by [operator[]] leaves a null entry. *)
Definition AddListener (typeName : string) (ptr : H) : M DBAgent Z :=
  a ← gets (fun a => a);
  match mjoin (m_mpListener a !! typeName) with
  | Some _ => mret (-1)
  | None =>
      RegisterTable typeName;;
      modify (fun a => a <| m_mpListener ::= <[typeName := Some ptr]> |>);; mret 0
  end.

(** The column of a field in [GenerateMysqlMetas]. *)
Definition field_meta (desc : Descriptor) (pks : list string) (field : FieldDescriptor) : MysqlFieldMeta :=
  let t :=
    match cpp_type field with
    | CPPTYPE_BOOL | CPPTYPE_ENUM | CPPTYPE_INT32 => VAL_TYPE_INT32
    | CPPTYPE_INT64 => VAL_TYPE_INT64
    | CPPTYPE_STRING => VAL_TYPE_VARCHAR
    | CPPTYPE_UINT32 => VAL_TYPE_UINT32
    | CPPTYPE_UINT64 => VAL_TYPE_UINT64
    | CPPTYPE_FLOAT => VAL_TYPE_REAL32
    | CPPTYPE_DOUBLE => VAL_TYPE_REAL64
    | CPPTYPE_MESSAGE => VAL_TYPE_BLOB
    end in
  mkMysqlFieldMeta (fd_name field) t
    (if bool_decide (cpp_type field = CPPTYPE_MESSAGE) then fd_msg field else type_name field)
    (if bool_decide (cpp_type field = CPPTYPE_STRING) then GetFieldMaxLength desc (fd_name field) else 0)
    (bool_decide (fd_name field ∈ pks)).

(** [GenerateMysqlMetas]: [None] is [-1], a table without a type or a key. *)
Fixpoint GenerateMysqlMetas (tables : list string) : M DBAgent (option (list MysqlMeta)) :=
  match tables with
  | [] => mret (Some [])
  | t :: tables =>
      match GetDescriptor (GetMetaNameSpace +:+ "." +:+ t) with
      | None => mret None
      | Some desc =>
          pks ← on_serializer (GetTypePrimaryKey desc);
          if bool_decide (pks = []) then mret None
          else
            rest ← GenerateMysqlMetas tables;
            mret (cons (mkMysqlMeta t (field_meta desc pks <$> d_fields desc)) <$> rest)
      end
  end.

Fixpoint create_tables (l : list string) : M DBAgent unit :=
  match l with [] => mret tt | t :: l => CreateTable t;; create_tables l end.

(** [Init]; [inited] and [started] are whether the database agent's [Init] and
    [Start] succeed. *)
Definition Init (seri : MetaSerializer) (inited started createTable : bool) : M DBAgent Z :=
  modify (fun a => a <| serializer := Some seri |>);;
  a ← gets (fun a => a);
  metas ← GenerateMysqlMetas (m_setTableType a);
  match metas with
  | None => mret (-1)
  | Some metas =>
      if negb inited then mret (-1)
      else
        modify (fun a => a <| mysql_metas := metas |>);;
        if negb started then mret (-1)
        else
          (if createTable then create_tables (m_setTableType a) else mret tt);;
          mret 0
  end.

Definition Destroy : M DBAgent Z := modify (fun a => a <| serializer := None |>);; mret 0.

End DBAgent.
Arguments DBAgent {R} H.

(** ** Responses

    A listener is called in the state [W] of the process, which holds the
    agent. *)

(** The result code of a response. *)
Definition data_result (ret : Z) : Z :=
  if ret =? MYSQL_RESULT_NO_DATA then DATA_NO_EXISTS
  else if ret =? MYSQL_RESULT_TIMEOUT then DATA_TIME_OUT
  else if ret =? MYSQL_RESULT_ALREADY_EXIST then DATA_ALREADY_EXISTS
  else if negb (ret =? MYSQL_RESULT_OK) then DATA_MYSQL_ERR_START + ret
  else ret.

Section DispatchResult.
Context {T : MysqlText} {R : Reflection} {H W : Type}.
Context (db : W -> DBAgent H) (put_db : DBAgent H -> W -> W) (listen : H -> DataCall -> M W Z).

Definition on_db {A} (m : M (DBAgent H) A) : M W A := zoom db put_db m.

(** [DispatchResult]: an entry without a listener is dereferenced. *)
Definition DispatchResult (rsp : MysqlResponse) : M W Z :=
  let ret := data_result (p_ret rsp) in
  let cb := p_cb rsp in
  w ← gets (fun w => w);
  match m_mpListener (db w) !! p_tblname rsp with
  | None => mret (-1)
  | Some l =>
      if p_op rsp =? MYSQL_REQ_SELECT then
        r ← (if MYSQL_RESULT_OK =? ret then on_db (CreateObjectFromMysql rsp) else mret (ret, None));
        l ← lift l; listen l (OnGet r.1 r.2 cb)
      else if p_op rsp =? MYSQL_REQ_UPDATE then l ← lift l; listen l (OnUpdate ret cb)
      else if p_op rsp =? MYSQL_REQ_INSERT then l ← lift l; listen l (OnInsert ret cb)
      else if p_op rsp =? MYSQL_REQ_DELETE then l ← lift l; listen l (OnRemove ret cb)
      else if p_op rsp =? MYSQL_REQ_CREATE_TB then l ← lift l; listen l (OnCreateTable (p_tblname rsp) ret)
      else mret (-1)
  end.

End DispatchResult.

(** ** Objects survive the database *)

Section round_trip.
Context {T : MysqlText} {R : Reflection} {RL : ReflectionLaws} {H : Type}.

(** A field that the database keeps: a number within the limits of the
    statements, a string without a zero, a message that is not empty and has its
    required fields. *)
Definition field_ok (o : MetaObject) (fd : FieldDescriptor) : Prop :=
  let v := get_num o (fd_name fd) in
  match cpp_type fd with
  | CPPTYPE_INT32 => - 2 ^ 31 <= v < 2 ^ 31
  | CPPTYPE_INT64 => - 2 ^ 63 <= v < 2 ^ 63
  | CPPTYPE_UINT32 => 0 <= v < 2 ^ 32
  | CPPTYPE_UINT64 => 0 <= v < 2 ^ 64
  | CPPTYPE_STRING => no_nul (get_str o (fd_name fd))
  | CPPTYPE_MESSAGE =>
      let m := get_msg o (fd_name fd) in
      obj_serialize m <> [] /\ FindMessageTypeByName (fd_msg fd) = Some (GetDescriptor_of m)
      /\ is_Some (prototype_New (GetDescriptor_of m)) /\ IsInitialized m = true
  | _ => False
  end.

(** The field of [o] copied into [obj]. *)
Definition copy_field (o : MetaObject) (fd : FieldDescriptor) (obj : MetaObject) : MetaObject :=
  let n := fd_name fd in
  match cpp_type fd with
  | CPPTYPE_STRING => set_str n (get_str o n) obj
  | CPPTYPE_MESSAGE => set_msg n (get_msg o n) obj
  | _ => set_num n (get_num o n) obj
  end.

Definition same_field (o o' : MetaObject) (fd : FieldDescriptor) : Prop :=
  let n := fd_name fd in
  HasField o' n = true
  /\ match cpp_type fd with
     | CPPTYPE_STRING => get_str o' n = get_str o n
     | CPPTYPE_MESSAGE => get_msg o' n = get_msg o n
     | _ => get_num o' n = get_num o n
     end.

(** The table [GenerateMysqlMetas] makes of a type. *)
Definition table_of (t : string) (d : Descriptor) : MysqlMeta :=
  mkMysqlMeta t (field_meta d (primary_key d) <$> d_fields d).

Lemma GetFieldMeta_table d pks fd l :
  fd ∈ l -> NoDup (fd_name <$> l) ->
  GetFieldMeta (field_meta d pks <$> l) (fd_name fd) = Some (field_meta d pks fd).
Proof.
  induction l as [|f l IH]; intros Hin Hnd; [by apply elem_of_nil in Hin|].
  rewrite fmap_cons in *. apply NoDup_cons in Hnd as [Hn Hnd]. cbn [GetFieldMeta].
  change (c_name (field_meta d pks f)) with (fd_name f).
  apply elem_of_cons in Hin as [->|Hin]; [by rewrite String.eqb_refl|].
  destruct (String.eqb_spec (fd_name f) (fd_name fd)) as [E|]; [|by apply IH].
  destruct Hn. rewrite E. by apply list_elem_of_fmap_2.
Qed.

Lemma find_field_in fd l : fd ∈ l -> NoDup (fd_name <$> l) -> find_field (fd_name fd) l = Some fd.
Proof.
  induction l as [|f l IH]; intros Hin Hnd; [by apply elem_of_nil in Hin|].
  rewrite fmap_cons in Hnd. apply NoDup_cons in Hnd as [Hn Hnd]. cbn [find_field].
  apply elem_of_cons in Hin as [->|Hin]; [by rewrite String.eqb_refl|].
  destruct (String.eqb_spec (fd_name f) (fd_name fd)) as [E|]; [|by apply IH].
  destruct Hn. rewrite E. by apply list_elem_of_fmap_2.
Qed.

Lemma find_field_elem n fd l : find_field n l = Some fd -> fd ∈ l.
Proof.
  induction l as [|f l IH]; [done|]. simpl. destruct (String.eqb _ _); [intros [= ->]; left|right; auto].
Qed.

Lemma SetObjectField_in {A} t (set : string -> A -> MetaObject -> MetaObject) obj fd v :
  fd ∈ d_fields (GetDescriptor_of obj) -> NoDup (fd_name <$> d_fields (GetDescriptor_of obj)) ->
  cpp_type fd = t -> SetObjectField t set obj (fd_name fd) v = Some (0, set (fd_name fd) v obj).
Proof.
  intros Hin Hnd Ht. unfold SetObjectField, FindFieldByName. rewrite find_field_in by done.
  by rewrite bool_decide_true.
Qed.

Lemma low32 v f : u_data f = 0 -> u_data (set_low32 v f) = u32 v.
Proof. intros E. unfold set_low32. simpl. by rewrite E. Qed.

Lemma i32_u32 v : i32 (u32 v) = i32 v.
Proof. unfold i32, u32. by rewrite Zplus_mod_idemp_l. Qed.

Lemma cstr_string s : no_nul s -> cstr (of_str s ++ [0]) = Some s.
Proof. apply cstr_of_str. Qed.

(** A field that came back loads as a copy of the object's field. *)
Lemma load_field_copy t d fd o obj f' :
  GetDescriptor_of obj = d -> fd ∈ d_fields d -> NoDup (fd_name <$> d_fields d) -> field_ok o fd ->
  same_value (table_of t d) (saved_field o fd) f' ->
  load_field (table_of t d) f' (Some obj) = LObject (Some (copy_field o fd obj)).
Proof.
  intros Ho Hin Hnd Hok (Hn & c & Hc & Ht & Hv).
  assert (f_name (saved_field o fd) = fd_name fd) as Hname by (apply saved_field_name).
  rewrite Hname in *. simpl in Hc. rewrite GetFieldMeta_table in Hc by done. injection Hc as <-.
  unfold load_field. simpl. rewrite Hn, GetFieldMeta_table by done. rewrite Ht.
  unfold field_ok, copy_field, saved_field, mysql_field, obj_SerializeToArray in *. rewrite Z.leb_refl in Hv. unfold field_meta in Hv |- *. cbn [c_type] in *.
  assert (fd ∈ d_fields (GetDescriptor_of obj) /\ NoDup (fd_name <$> d_fields (GetDescriptor_of obj))) as [Hin' Hnd']
    by (by rewrite Ho).
  destruct (cpp_type fd) eqn:Et; try done; unfold field_value in Hv; type_tests.
  - injection Hv as Hv. unfold SetObjectFieldI32. rewrite SetObjectField_in by done. simpl. rewrite Hv.
    unfold ud_i32. rewrite low32, i32_u32, i32_small by done. done.
  - injection Hv as Hv. unfold SetObjectFieldI64. rewrite SetObjectField_in by done. simpl. rewrite Hv.
    unfold ud_i64. simpl. rewrite i64_u64, i64_small by done. done.
  - injection Hv as Hv. unfold SetObjectFieldU32. rewrite SetObjectField_in by done. simpl. rewrite Hv.
    unfold ud_u32. rewrite low32, !u32_small; try done; rewrite ?u32_small; done.
  - injection Hv as Hv. unfold SetObjectFieldU64. rewrite SetObjectField_in by done. simpl. rewrite Hv.
    unfold ud_u64. simpl. rewrite !u64_small; try done; rewrite ?u64_small; done.
  - simpl in Hv. rewrite cstr_string in Hv by done. destruct (cstr (f_buffer f')) as [s|] eqn:Es; [|done].
    injection Hv as Hv. apply (f_equal to_str) in Hv. rewrite !to_str_of_str in Hv. subst s.
    unfold SetObjectFieldSTR. by rewrite SetObjectField_in.
  - simpl in Hv. injection Hv as Hv. destruct Hok as (Hne & Hpool & [o0 Hnew] & Hinit).
    rewrite bool_decide_false by (by rewrite Hv). unfold UnPack, NewObject. simpl. rewrite Hpool.
    cbn [mbind option_bind]. rewrite Hnew. cbn [mbind option_bind]. unfold buffer_data. simpl.
    rewrite Nat2Z.id, firstn_all, Hv, (parse_serialize_obj _ _ _ Hnew) by done.
    unfold SetObjectFieldOBJ. by rewrite SetObjectField_in.
Qed.

Lemma copy_field_desc o fd obj : GetDescriptor_of (copy_field o fd obj) = GetDescriptor_of obj.
Proof. unfold copy_field. destruct (cpp_type fd); by rewrite ?set_num_desc, ?set_str_desc, ?set_msg_desc. Qed.

Lemma copy_field_same o fd obj : same_field o (copy_field o fd obj) fd.
Proof.
  unfold same_field, copy_field.
  destruct (cpp_type fd); (split;
    [by rewrite ?has_set_num, ?has_set_str, ?has_set_msg, String.eqb_refl
    |by rewrite ?num_set_num, ?str_set_str, ?msg_set_msg, String.eqb_refl]).
Qed.

Lemma copy_field_other o fd fd' obj :
  fd_name fd' <> fd_name fd -> same_field o obj fd -> same_field o (copy_field o fd' obj) fd.
Proof.
  intros Hne [Hh Hv]. apply String.eqb_neq in Hne. unfold same_field, copy_field.
  destruct (cpp_type fd'); rewrite ?has_set_num, ?has_set_str, ?has_set_msg, Hh, orb_true_r; (split; [done|]);
    destruct (cpp_type fd);
    by rewrite ?num_set_num, ?num_set_str, ?num_set_msg, ?str_set_num, ?str_set_str, ?str_set_msg,
      ?msg_set_num, ?msg_set_str, ?msg_set_msg, ?Hne.
Qed.

Definition copy_fields (o : MetaObject) (fds : list FieldDescriptor) (obj : MetaObject) : MetaObject :=
  foldl (fun obj fd => copy_field o fd obj) obj fds.

Lemma copy_fields_desc o fds obj : GetDescriptor_of (copy_fields o fds obj) = GetDescriptor_of obj.
Proof.
  revert obj. induction fds as [|fd fds IH]; intros obj; [done|]. unfold copy_fields in *. simpl.
  by rewrite IH, copy_field_desc.
Qed.

Lemma copy_fields_keep o fds obj fd :
  fd_name fd ∉ fd_name <$> fds -> same_field o obj fd -> same_field o (copy_fields o fds obj) fd.
Proof.
  revert obj. induction fds as [|f fds IH]; intros obj Hn Hs; [done|].
  rewrite fmap_cons, not_elem_of_cons in Hn. destruct Hn as [Hf Hn]. unfold copy_fields. simpl.
  apply IH; [done|]. by apply copy_field_other.
Qed.

Lemma copy_fields_same o fds obj :
  NoDup (fd_name <$> fds) -> Forall (same_field o (copy_fields o fds obj)) fds.
Proof.
  revert obj. induction fds as [|f fds IH]; intros obj Hnd; [constructor|].
  rewrite fmap_cons in Hnd. apply NoDup_cons in Hnd as [Hn Hnd]. unfold copy_fields. simpl. constructor.
  - apply copy_fields_keep; [done|apply copy_field_same].
  - by apply IH.
Qed.

Lemma load_fields_copy metas t d o fds fs' obj :
  agent_GetTableMeta t metas = Some (table_of t d) -> GetDescriptor_of obj = d ->
  NoDup (fd_name <$> d_fields d) -> (forall fd, fd ∈ fds -> fd ∈ d_fields d /\ field_ok o fd) ->
  Forall2 (same_value (table_of t d)) (saved_field o <$> fds) fs' ->
  load_fields metas t fs' (Some obj) = LObject (Some (copy_fields o fds obj)).
Proof.
  intros Hm Hd Hnd. revert fs' obj Hd. induction fds as [|fd fds IH]; intros fs' obj Hd Hfds HF.
  - by inversion HF.
  - rewrite fmap_cons in HF. inversion HF as [|? f' ? fs1 Hf HF']; subst. destruct (Hfds fd ltac:(left)) as [Hin Hok].
    cbn [load_fields]. rewrite Hm. rewrite (load_field_copy _ _ fd o) by done.
    rewrite IH; [done|by rewrite copy_field_desc| |done]. intros fd' Hfd'. apply Hfds. by right.
Qed.

Lemma key_loop_same sep named o o' pks i key :
  GetDescriptor_of o' = GetDescriptor_of o ->
  (forall fd, fd ∈ d_fields (GetDescriptor_of o) -> HasField o (fd_name fd) = true /\ same_field o o' fd) ->
  key_loop sep named o' i pks key = key_loop sep named o i pks key.
Proof.
  intros Hd Hs. revert i key. induction pks as [|n pks IH]; intros i key; [done|]. cbn [key_loop]. rewrite Hd.
  unfold FindFieldByName. destruct (find_field n _) as [fd|] eqn:Ef; [|done]. cbn [mbind option_bind].
  assert (fd ∈ d_fields (GetDescriptor_of o)) as Hin by (by eapply find_field_elem).
  destruct (Hs fd Hin) as [Hh [Hh' Hv]]. rewrite Hh, Hh'. cbn [negb].
  assert (key_text o' fd = key_text o fd) as ->.
  { unfold key_text. destruct (cpp_type fd); by rewrite ?Hv. }
  destruct (key_text o fd); [apply IH|done].
Qed.

Lemma wp_GetObjectKey (o : MetaObject) s (a : DBAgent H) Q key :
  serializer a = Some s -> KeyCache s -> pooled (GetDescriptor_of o) -> primary_key (GetDescriptor_of o) <> [] ->
  key_loop ":" false o 0 (primary_key (GetDescriptor_of o)) "" = Some key ->
  (forall s', KeyCache s' -> Q key (a <| serializer := Some s' |>)) -> wp (GetObjectKey o) Q a.
Proof.
  intros Hs Hk Hp Hne Hkey HQ. unfold GetObjectKey, on_serializer. wp_steps. eapply wp_lift; [exact Hs|].
  destruct (wp_run _ _ _ (GetTypePrimaryKey_run (GetDescriptor_of o) s Hp Hk)) as (r & s' & E & -> & Hk').
  rewrite E. wp_steps. rewrite bool_decide_false by done. eapply wp_lift; [exact Hkey|]. by apply HQ.
Qed.

(** A row as the database returns it for an object: every field of the object, with
    a value the database keeps, and a key. *)
Record row_of (o : MetaObject) (d : Descriptor) (rsp : MysqlResponse) : Prop := {
  row_desc : GetDescriptor_of o = d;
  row_pool : FindMessageTypeByName (GetMetaNameSpace +:+ "." +:+ d_name d) = Some d;
  row_names : NoDup (fd_name <$> d_fields d);
  row_fields : d_fields d <> [];
  row_ok : Forall (field_ok o) (d_fields d);
  row_has : Forall (fun fd => HasField o (fd_name fd) = true) (d_fields d);
  row_ret : p_ret rsp = MYSQL_RESULT_OK;
  row_tbl : p_tblname rsp = d_name d;
  row_data : Forall2 (same_value (table_of (d_name d) d)) (GenerateMysqlFields o []).2 (p_data rsp);
  row_pk : primary_key d <> []
}.

(** The fields as they were saved are such a row's. *)
Lemma saved_row (o : MetaObject) t :
  NoDup (fd_name <$> d_fields (GetDescriptor_of o)) ->
  Forall2 (same_value (table_of t (GetDescriptor_of o))) (GenerateMysqlFields o []).2 (GenerateMysqlFields o []).2.
Proof.
  intros Hnd. rewrite GenerateMysqlFields_all. apply Forall_Forall2_diag, Forall_fmap, Forall_forall. intros fd Hin.
  split; [done|]. exists (field_meta (GetDescriptor_of o) (primary_key (GetDescriptor_of o)) fd).
  rewrite saved_field_name. split; [by apply GetFieldMeta_table|]. split; [|done].
  unfold saved_field, mysql_field, obj_SerializeToArray, field_meta. rewrite Z.leb_refl. by destruct (cpp_type fd).
Qed.

(** The agent once it has loaded an object. *)
Definition loaded (a : DBAgent H) (s : MetaSerializer) (o : MetaObject) (key : string) : DBAgent H :=
  a <| serializer := Some s |> <| objs ::= <[next_obj a := o]> |> <| next_obj ::= Z.succ |>
    <| m_mpGetObjects ::= <[key := Some (next_obj a)]> |>.

Lemma wp_CreateObjectFromMysql o d o0 rsp s key (a : DBAgent H) :
  row_of o d rsp -> prototype_New d = Some o0 -> serializer a = Some s -> KeyCache s ->
  agent_GetTableMeta (d_name d) (mysql_metas a) = Some (table_of (d_name d) d) ->
  key_loop ":" false o 0 (primary_key d) "" = Some (Some key) -> mjoin (m_mpGetObjects a !! key) = None ->
  wp (CreateObjectFromMysql rsp) (fun r a' => r = (0, Some (next_obj a)) /\ exists s' o',
    a' = loaded a s' o' key /\ KeyCache s' /\ GetDescriptor_of o' = d /\ Forall (same_field o o') (d_fields d)) a.
Proof.
  intros [Hd Hpool Hnd Hne Hok Hhas Hret Htbl HF Hpk] Hnew Hs Hk Hmeta Hkey Hfree.
  assert ((GenerateMysqlFields o []).2 = saved_field o <$> d_fields d) as Hgen by (by rewrite GenerateMysqlFields_all, Hd).
  rewrite Hgen in HF. set (o' := copy_fields o (d_fields d) o0).
  assert (GetDescriptor_of o' = d) as Hd' by (unfold o'; rewrite copy_fields_desc; by eapply new_desc).
  assert (Forall (same_field o o') (d_fields d)) as Hsame by (by apply copy_fields_same).
  unfold CreateObjectFromMysql. rewrite Hret. rewrite bool_decide_false.
  2:{ intros E. rewrite E in HF. inversion HF as [E'|]. by destruct (d_fields d). }
  change (negb (MYSQL_RESULT_OK =? MYSQL_RESULT_OK) || false) with false. cbv iota. wp_steps.
  rewrite Htbl. unfold NewObject. rewrite Hpool. cbn [mbind option_bind]. rewrite Hnew.
  rewrite (load_fields_copy _ _ d o (d_fields d)); [|done|by eapply new_desc|done| |done].
  2:{ intros fd Hfd. split; [done|]. exact (proj1 (Forall_forall _ _) Hok fd Hfd). }
  fold o'. unfold new_handle. wp_steps.
  eapply wp_GetObjectKey; [exact Hs|exact Hk|..].
  - rewrite Hd'. unfold pooled. by rewrite (pool_full_name _ _ Hpool).
  - by rewrite Hd'.
  - rewrite Hd', (key_loop_same ":" false o o'); [exact Hkey|by rewrite Hd, Hd'|].
    intros fd Hfd. rewrite Hd in Hfd.
    split; [exact (proj1 (Forall_forall _ _) Hhas fd Hfd)|exact (proj1 (Forall_forall _ _) Hsame fd Hfd)].
  - intros s' Hk'. unfold put_object, release. wp_steps. simpl. rewrite Hfree. wp_steps. split; [done|].
    by exists s', o'.
Qed.

(** C15. An object survives the database, when all its fields are ones the
    database keeps. For an object whose fields are all set, are 32- or 64-bit
    integers, strings without a zero byte or messages that are not empty and
    have their required fields (no boolean, enumerated or floating-point field),
    and with a key under which the agent holds no object yet: the fields it is
    saved with, come back as the database returns them (see the select of a
    stored row), are loaded into a new object that has every field of the old
    one with the same value, and the agent finds the new object under the old
    one's key. *)
Theorem object_round_trip o d o0 rsp s key (a : DBAgent H) :
  row_of o d rsp -> prototype_New d = Some o0 -> serializer a = Some s -> KeyCache s ->
  agent_GetTableMeta (d_name d) (mysql_metas a) = Some (table_of (d_name d) d) ->
  key_loop ":" false o 0 (primary_key d) "" = Some (Some key) -> key <> "" ->
  m_mpGetObjects a !! key = None ->
  exists h o' a', CreateObjectFromMysql rsp a = Some ((0, Some h), a')
    /\ objs a' !! h = Some o' /\ Forall (same_field o o') (d_fields d)
    /\ FindObject_key key a' = Some h.
Proof.
  intros Hrow Hnew Hs Hk Hmeta Hkey Hke Hfree. exists (next_obj a).
  destruct (wp_run _ _ _ (wp_CreateObjectFromMysql o d o0 rsp s key a Hrow Hnew Hs Hk Hmeta Hkey ltac:(by rewrite Hfree)))
    as (r & a' & E & -> & s' & o' & -> & _ & _ & Hsame).
  exists o', (loaded a s' o' key). split; [exact E|]. split; [simpl; by rewrite lookup_insert_eq|]. split; [done|].
  unfold FindObject_key. rewrite bool_decide_false by done. simpl. by rewrite lookup_insert_eq.
Qed.

(** *** Objects that do not come back *)

(** A field that loads: one that the database keeps, or a message without any
    bytes, which is skipped. *)
Definition field_loads (o : MetaObject) (fd : FieldDescriptor) : Prop :=
  field_ok o fd \/ cpp_type fd = CPPTYPE_MESSAGE /\ obj_serialize (get_msg o (fd_name fd)) = [].

(** A message field that has bytes and lacks a required field of its own. *)
Definition field_incomplete (o : MetaObject) (fd : FieldDescriptor) : Prop :=
  let m := get_msg o (fd_name fd) in
  cpp_type fd = CPPTYPE_MESSAGE /\ obj_serialize m <> []
  /\ FindMessageTypeByName (fd_msg fd) = Some (GetDescriptor_of m) /\ is_Some (prototype_New (GetDescriptor_of m))
  /\ exists r, r ∈ d_fields (GetDescriptor_of m) /\ fd_required r = true /\ HasField m (fd_name r) = false.

(** A message column that came back: its bytes are those saved. *)
Lemma load_field_blob t d fd o obj f' :
  fd ∈ d_fields d -> NoDup (fd_name <$> d_fields d) -> cpp_type fd = CPPTYPE_MESSAGE ->
  same_value (table_of t d) (saved_field o fd) f' ->
  let b := obj_serialize (get_msg o (fd_name fd)) in
  load_field (table_of t d) f' (Some obj)
  = (if bool_decide (b = []) then LObject (Some obj)
     else match UnPack (fd_msg fd) (mkBuffer (Z.of_nat (length b)) (Z.of_nat (length b)) b) with
          | None => LUnpackError
          | Some m => set_loaded (SetObjectFieldOBJ obj (fd_name fd) m)
          end).
Proof.
  intros Hin Hnd Et (Hn & c & Hc & Ht & Hv). rewrite saved_field_name in *. simpl in Hc.
  rewrite GetFieldMeta_table in Hc by done. injection Hc as <-.
  unfold load_field. simpl. rewrite Hn, GetFieldMeta_table by done. rewrite Ht.
  unfold saved_field, mysql_field, obj_SerializeToArray, field_meta in *. rewrite Z.leb_refl in Hv. cbn [c_type] in *.
  rewrite Et in *. unfold field_value in Hv. type_tests. simpl in Hv. injection Hv as Hv. simpl. by rewrite Hv.
Qed.

Lemma load_field_loads t d fd o obj f' :
  GetDescriptor_of obj = d -> fd ∈ d_fields d -> NoDup (fd_name <$> d_fields d) -> field_loads o fd ->
  same_value (table_of t d) (saved_field o fd) f' ->
  exists obj', load_field (table_of t d) f' (Some obj) = LObject (Some obj') /\ GetDescriptor_of obj' = d.
Proof.
  intros Hd Hin Hnd [Hok|[Ht Hb]] Hs.
  - exists (copy_field o fd obj). split; [by apply load_field_copy|by rewrite copy_field_desc].
  - exists obj. split; [|done]. rewrite (load_field_blob _ _ fd o) by done. by rewrite bool_decide_true.
Qed.

Lemma load_field_incomplete t d fd o obj f' :
  fd ∈ d_fields d -> NoDup (fd_name <$> d_fields d) -> field_incomplete o fd ->
  same_value (table_of t d) (saved_field o fd) f' ->
  load_field (table_of t d) f' (Some obj) = LUnpackError.
Proof.
  intros Hin Hnd (Ht & Hb & Hpool & [o0 Hnew] & r & Hr & Hreq & Hhas) Hs.
  rewrite (load_field_blob _ _ fd o) by done. rewrite bool_decide_false by done.
  unfold UnPack, NewObject. rewrite Hpool. cbn [mbind option_bind]. rewrite Hnew. cbn [mbind option_bind].
  unfold buffer_data. simpl. rewrite Nat2Z.id, firstn_all.
  rewrite (parse_uninitialized _ _ _ Hnew) by (done || (apply not_true_is_false; intros Hi;
    by rewrite (initialized_required _ _ Hi Hr Hreq) in Hhas)).
  done.
Qed.

Lemma load_fields_incomplete metas t d o pre fd post fs' obj :
  agent_GetTableMeta t metas = Some (table_of t d) -> GetDescriptor_of obj = d ->
  NoDup (fd_name <$> d_fields d) -> (forall f, f ∈ pre ++ fd :: post -> f ∈ d_fields d) ->
  Forall (field_loads o) pre -> field_incomplete o fd ->
  Forall2 (same_value (table_of t d)) (saved_field o <$> pre ++ fd :: post) fs' ->
  load_fields metas t fs' (Some obj) = LUnpackError.
Proof.
  intros Hm Hd Hnd. revert fs' obj Hd. induction pre as [|f pre IH]; intros fs' obj Hd Hfds Hpre Hfd HF;
    cbn [app] in HF; rewrite fmap_cons in HF; inversion HF as [|? f' ? fs1 Hf HF']; subst; cbn [load_fields]; rewrite Hm.
  - by rewrite (load_field_incomplete _ _ fd o) by (try apply Hfds; set_solver).
  - apply Forall_cons in Hpre as [Hl Hpre].
    destruct (load_field_loads t (GetDescriptor_of obj) f o obj f') as (obj' & -> & Hd');
      [done|apply Hfds; set_solver|done|done|done|].
    apply IH; [done| |done|done|done]. intros g Hg. apply Hfds. set_solver.
Qed.

(** An object with an incomplete message does not survive the database. It is
    saved, but when a message of it lacks one of its required fields, the row
    that comes back does not load: [CreateObjectFromMysql] gives
    [DATA_UNPACK_ERROR] and no object. (A newborn role is such an object:
    [OnInitBirthPlayer] leaves [nextgid] of its knapsack unset.) *)
Theorem incomplete_object_lost o d pre fd post o0 rsp (a : DBAgent H) :
  GetDescriptor_of o = d -> FindMessageTypeByName (GetMetaNameSpace +:+ "." +:+ d_name d) = Some d ->
  NoDup (fd_name <$> d_fields d) -> d_fields d = pre ++ fd :: post ->
  Forall (field_loads o) pre -> field_incomplete o fd -> prototype_New d = Some o0 ->
  agent_GetTableMeta (d_name d) (mysql_metas a) = Some (table_of (d_name d) d) ->
  p_ret rsp = MYSQL_RESULT_OK -> p_tblname rsp = d_name d ->
  Forall2 (same_value (table_of (d_name d) d)) (GenerateMysqlFields o []).2 (p_data rsp) ->
  (GenerateMysqlFields o []).1 = 0 /\ CreateObjectFromMysql rsp a = Some ((DATA_UNPACK_ERROR, None), a).
Proof.
  intros Hd Hpool Hnd Hfs Hpre Hfd Hnew Hmeta Hret Htbl HF.
  split; [by rewrite GenerateMysqlFields_eq|]. rewrite GenerateMysqlFields_all, Hd in HF.
  unfold CreateObjectFromMysql. rewrite Hret. rewrite bool_decide_false.
  2:{ intros E. rewrite E in HF. inversion HF as [E'|]. rewrite Hfs in E'. by destruct pre. }
  change (negb (MYSQL_RESULT_OK =? MYSQL_RESULT_OK) || false) with false. cbv iota. unfold mbind, M_bind, gets.
  rewrite Htbl. unfold NewObject. rewrite Hpool. cbn [mbind option_bind]. rewrite Hnew. rewrite Hfs in HF.
  rewrite (load_fields_incomplete _ _ d o pre fd post); [done|done|by eapply new_desc|done| |done|done|done].
  intros f Hf. by rewrite Hfs.
Qed.

(** ** Keys in conditions *)

(** The condition of a string key is not escaped. When the key of an object
    is [a' OR '1'='1], the condition's literal ends after [a], and what follows
    is a condition that is always true. *)
Theorem GetPrimaryKeyCond_not_escaped o fd n v s (a : DBAgent H) :
  serializer a = Some s -> KeyCache s -> pooled (GetDescriptor_of o) ->
  primary_key (GetDescriptor_of o) = [n] -> FindFieldByName (GetDescriptor_of o) n = Some fd ->
  HasField o (fd_name fd) = true -> cpp_type fd = CPPTYPE_STRING ->
  get_str o (fd_name fd) = v +:+ "' OR '1'='1" -> no_nul v ->
  all_chars (fun c => negb ((byte_of c =? 39) || (byte_of c =? 92))) v = true -> (String.length v < 400)%nat ->
  exists cond a' lit, GetPrimaryKeyCond o a = Some (Some cond, a')
    /\ cond = n +:+ " = " +:+ lit /\ read_literal lit = Some (SqlStr (of_str v), " OR '1'='1'").
Proof.
  intros Hs Hk Hp Hpk Hf Hh Ht Hv Hnn Hq Hl.
  assert (c_str (v +:+ "' OR '1'='1") = v +:+ "' OR '1'='1") as Hc.
  { clear -Hnn. induction v as [|c v IH]; [done|]. rewrite app_cons_str. apply not_elem_of_cons in Hnn as [H1 H2].
    cbn [c_str]. destruct (Z.eqb_spec (byte_of c) 0); [congruence|]. by rewrite IH. }
  set (lit := "'" +:+ (v +:+ "' OR '1'='1") +:+ "'").
  assert (exists a', GetPrimaryKeyCond o a = Some (Some (n +:+ " = " +:+ lit), a')) as [a' E].
  { assert (wp (GetPrimaryKeyCond o) (fun r _ => r = Some (n +:+ " = " +:+ lit)) a) as Hwp.
    { unfold GetPrimaryKeyCond, on_serializer. wp_steps. eapply wp_lift; [exact Hs|].
      destruct (wp_run _ _ _ (GetTypePrimaryKey_run (GetDescriptor_of o) s Hp Hk)) as (r & s' & E & -> & _).
      rewrite E, Hpk. wp_steps. rewrite bool_decide_false by done. cbn [key_loop]. rewrite Hf.
      cbn [mbind option_bind]. rewrite Hh. cbn [negb]. unfold key_text. rewrite Ht, Hv, Hc. fold lit.
      eapply wp_lift; [reflexivity|]. rewrite snprintf_fits; [done|]. subst lit. rewrite !length_app_str. simpl. lia. }
    apply wp_run in Hwp as (r & a' & E & ->). by exists a'. }
  exists (n +:+ " = " +:+ lit), a', lit. split; [exact E|]. split; [done|].
  subst lit. unfold read_literal. rewrite strip_app, app_assoc_str.
  change ("' OR '1'='1" +:+ "'") with "' OR '1'='1'".
  assert (read_quoted (v +:+ "' OR '1'='1'") = Some (of_str v, " OR '1'='1'")) as ->; [|done].
  clear -Hq. induction v as [|c v IH]; [done|]. rewrite app_cons_str. apply andb_true_iff in Hq as [Hc Hq].
  cbn [read_quoted]. destruct (byte_of c =? 39); [done|]. destruct (byte_of c =? 92); [done|]. by rewrite IH.
Qed.

End round_trip.

(** ** Concrete objects *)

Module DBWitness.
Import MetaWitness SerializerWitness.

Definition pack : @MetaObject R := set_num "nextgid" 1 (set_num "maxGrid" 40 (ReflectionRef.empty_obj pack_desc)).
Definition role_named (n : string) : @MetaObject R :=
  set_msg "pack" pack (set_str "name" n (set_num "rid" 4294967338 (ReflectionRef.empty_obj role_desc))).

Definition agent : DBAgent unit :=
  DBAgent_new <| serializer := Some MetaSerializer_Init.2 |> <| mysql_metas := [table_of "Role" role_desc] |>.

(** The row of a role, as the table has it. *)
Definition row : MysqlResponse :=
  mkMysqlResponse "Role" MYSQL_REQ_SELECT (GenerateMysqlFields (role_named "O'Neil") []).2 [] MYSQL_RESULT_OK.

Lemma row_role : row_of (role_named "O'Neil") role_desc row.
Proof.
  split.
  - reflexivity.
  - reflexivity.
  - by apply (bool_decide_unpack _).
  - discriminate.
  - constructor; [|constructor; [|constructor; [|constructor]]].
    + by vm_compute.
    + by apply (bool_decide_unpack _).
    + split; [intros E; apply (f_equal (fun l => bool_decide (l = []))) in E; by vm_compute in E|].
      split; [by vm_compute|]. split; [by eexists|by vm_compute].
  - by repeat (constructor; [reflexivity|]).
  - reflexivity.
  - reflexivity.
  - apply (saved_row (role_named "O'Neil") "Role"). by apply (bool_decide_unpack _).
  - discriminate.
Qed.

Lemma object_round_trip_witness :
  exists h o' a', CreateObjectFromMysql row agent = Some ((0, Some h), a')
    /\ objs a' !! h = Some o' /\ Forall (same_field (role_named "O'Neil") o') (d_fields role_desc)
    /\ FindObject_key "4294967338" a' = Some h.
Proof.
  apply (object_round_trip (role_named "O'Neil") role_desc (ReflectionRef.empty_obj role_desc) row MetaSerializer_Init.2).
  - exact row_role.
  - reflexivity.
  - reflexivity.
  - exact KeyCache_Init.
  - reflexivity.
  - vm_compute; reflexivity.
  - discriminate.
  - reflexivity.
Defined.

(** A role as it is born: its knapsack has places, but no next id. *)
Definition born : @MetaObject R :=
  set_msg "pack" (set_num "maxGrid" 10 (ReflectionRef.empty_obj pack_desc))
    (set_str "name" "" (set_num "rid" 4294967338 (ReflectionRef.empty_obj role_desc))).
Definition born_row : MysqlResponse :=
  mkMysqlResponse "Role" MYSQL_REQ_SELECT (GenerateMysqlFields born []).2 [] MYSQL_RESULT_OK.

Lemma incomplete_object_lost_witness : CreateObjectFromMysql born_row agent = Some ((DATA_UNPACK_ERROR, None), agent).
Proof.
  apply (incomplete_object_lost born role_desc
    [mkFieldDescriptor "rid" CPPTYPE_UINT64 "uint64" "" 0 true; mkFieldDescriptor "name" CPPTYPE_STRING "string" "" 0 true]
    (mkFieldDescriptor "pack" CPPTYPE_MESSAGE "message" "db.RolePackage" 0 true) []
    (ReflectionRef.empty_obj role_desc) born_row agent).
  - reflexivity.
  - reflexivity.
  - by apply (bool_decide_unpack _).
  - reflexivity.
  - constructor; [|constructor; [|constructor]]; left; [by vm_compute|by apply (bool_decide_unpack _)].
  - split; [reflexivity|].
    split; [intros E; apply (f_equal (fun l => bool_decide (l = []))) in E; by vm_compute in E|].
    split; [by vm_compute|]. split; [by eexists|].
    exists (mkFieldDescriptor "nextgid" CPPTYPE_UINT32 "uint32" "" 1 true).
    split; [right; left|]. split; [reflexivity|by vm_compute].
  - reflexivity.
  - reflexivity.
  - reflexivity.
  - reflexivity.
  - apply (saved_row born "Role"). by apply (bool_decide_unpack _).
Defined.

(** A table with a string key. *)
Definition acct_desc : Descriptor :=
  mkDescriptor "Account" "db.Account" [mkFieldDescriptor "id" CPPTYPE_STRING "string" "" 0 true]
    [("_PrimaryKey", [mkFieldDescriptor "id" CPPTYPE_UINT32 "uint32" "" 0 false])].
Definition acct_R : Reflection :=
  ReflectionRef.refl (fun n => if String.eqb n "db.Account" then Some acct_desc else None).
Definition acct : @MetaObject acct_R :=
  @set_str acct_R "id" "me' OR '1'='1" (ReflectionRef.empty_obj acct_desc).
Definition acct_agent : @DBAgent acct_R unit :=
  DBAgent_new <| serializer := Some MetaSerializer_Init.2 |>.

Lemma GetPrimaryKeyCond_not_escaped_witness :
  exists cond a' lit, GetPrimaryKeyCond acct acct_agent = Some (Some cond, a')
    /\ cond = "id" +:+ " = " +:+ lit /\ read_literal lit = Some (SqlStr (of_str "me"), " OR '1'='1'").
Proof.
  apply (@GetPrimaryKeyCond_not_escaped acct_R unit acct
           (mkFieldDescriptor "id" CPPTYPE_STRING "string" "" 0 true) "id" "me" MetaSerializer_Init.2);
    try reflexivity.
  - exact KeyCache_Init.
  - by apply (bool_decide_unpack _).
  - simpl. lia.
Defined.

End DBWitness.
