(* ===== verification/DBTyping.v ===== *)
(** * Requests of the database agent are well typed

    The tables that [DBAgent::Init] derives from the types of the name space
    are the ones the database thread prints statements for. Whatever objects of
    these types are read, written, inserted or removed, every request that is
    made has a statement, so that the thread cannot get stuck on one. *)

From S2P Require Import Prelude CString Extern.
From S2P Require Import MysqlMeta MysqlProxy MysqlAgent MetaSerializer DataCommon DBAgent.

Section typing.
Context {T : MysqlText} {TL : MysqlTextLaws} {C : MysqlClient} {CL : MysqlClientLaws}.
Context {R : Reflection} {RL : ReflectionLaws} {B0 : BufferLib} {H : Type}.

(** A type has no two fields of one name. *)
Hypothesis fields_distinct : forall n d, FindMessageTypeByName n = Some d -> NoDup (fd_name <$> d_fields d).

(** ** Typing *)

Definition type_of_table (t : string) : option Descriptor := FindMessageTypeByName (GetMetaNameSpace +:+ "." +:+ t).

(** The table of a type: its columns are those [GenerateMysqlMetas] makes. *)
Definition is_table (t : string) (m : MysqlMeta) : Prop :=
  exists d pks, type_of_table t = Some d /\ m = mkMysqlMeta t (field_meta d pks <$> d_fields d).

(** An object of the type that its table is made of. *)
Definition registered (o : MetaObject) : Prop := type_of_table (GetTypeName o) = Some (GetDescriptor_of o).

(** ** Tables *)

Lemma GenerateMysqlMetas_typed tables (a : DBAgent H) :
  wlp (GenerateMysqlMetas tables)
      (fun r _ => forall metas, r = Some metas -> Forall (fun m => is_table (tblname m) m) metas) a.
Proof.
  revert a. induction tables as [|t tables IH]; intros a; cbn [GenerateMysqlMetas].
  { wlp_steps. intros metas [= <-]. constructor. }
  destruct (GetDescriptor _) as [d|] eqn:Hd; [|by wlp_steps].
  wlp_steps. apply wlp_intro. intros pks a1 _. destruct (bool_decide _); [by wlp_steps|].
  wlp_steps. eapply wlp_mono; [apply IH|]. intros r a2 Hr. wlp_steps. intros metas E.
  destruct r as [rest|]; [|done]. injection E as <-. constructor; [by exists d, pks|by apply Hr].
Qed.

Lemma Init_metas_typed seri inited started ct Request_ret (a a1 : DBAgent H) r :
  Init Request_ret seri inited started ct a = Some (r, a1) -> r = 0 ->
  Forall (fun m => is_table (tblname m) m) (mysql_metas a1).
Proof.
  intros E ->. revert E. enough (wlp (Init Request_ret seri inited started ct) (fun r a1 => r = 0 ->
    Forall (fun m => is_table (tblname m) m) (mysql_metas a1)) a) as Hw by (intros E; by apply (wlp_elim _ _ _ _ _ Hw E)).
  unfold Init. wlp_steps. eapply wlp_mono; [apply GenerateMysqlMetas_typed|]. intros [metas|] a2 Hm; [|by wlp_steps].
  destruct inited; [|by wlp_steps]. cbn [negb]. wlp_steps. destruct started; cbn [negb]; [|by wlp_steps].
  wlp_steps. apply wlp_intro. intros [] a3 E. wlp_steps. intros _.
  enough (mysql_metas a3 = metas) as -> by (by apply Hm).
  assert (forall l, keeps mysql_metas (create_tables (H := H) Request_ret l)) as Hk.
  { induction l as [|t l IH]; cbn [create_tables]; [apply keeps_ret|]. apply keeps_bind; [|by intros].
    unfold CreateTable, mysql_Request. keeps_auto. }
  destruct ct; [by rewrite (Hk _ _ _ _ E)|]. by injection E as <-.
Qed.

Lemma tableMetas_typed metas (m0 : gmap string MysqlMeta) :
  Forall (fun m => is_table (tblname m) m) metas -> map_Forall is_table m0 ->
  map_Forall is_table (foldl (fun m t => <[tblname t := t]> m) m0 metas).
Proof.
  intros Hm. revert m0. induction Hm as [|t metas Ht _ IH]; intros m0 H0; [done|]. cbn [foldl].
  apply IH. by apply map_Forall_insert_2.
Qed.

Lemma typed_tables_ok (p : MysqlProxy) : map_Forall is_table (tableMetas p) -> tables_ok p.
Proof.
  intros Hp t m E. destruct (Hp t m E) as (d & pks & _ & ->). cbn. apply Forall_fmap, Forall_forall.
  intros fd _. unfold compose, column_ok, field_meta. cbn. by destruct (cpp_type fd).
Qed.

(** ** Statements *)

Lemma cstr_of_str_zero s : is_Some (cstr (of_str s ++ [0])).
Proof. induction s as [|c s [r IH]]; simpl; [by eexists|]. destruct (_ =? 0); [by eexists|]. rewrite IH. by eexists. Qed.

(** Every field of an object has a literal in its table. *)
Lemma field_literal t d pks o fd :
  type_of_table t = Some d -> GetDescriptor_of o = d -> fd ∈ d_fields d ->
  is_Some (GetFieldValueSQL (mkMysqlMeta t (field_meta d pks <$> d_fields d)) (saved_field o fd) true).
Proof.
  intros Hd Ho Hin. unfold GetFieldValueSQL.
  assert (f_name (saved_field o fd) = fd_name fd) as -> by apply saved_field_name.
  cbn [cols]. rewrite GetFieldMeta_table by (done || by eapply fields_distinct). cbn [mbind option_bind].
  unfold saved_field, mysql_field, obj_SerializeToArray, field_meta. rewrite Z.leb_refl. destruct (cpp_type fd) eqn:Et; cbn; try by eexists.
  - destruct (cstr_of_str_zero (get_str o (fd_name fd))) as [s ->]. cbn. rewrite escaped_doc; [by eexists|].
    clear. induction s as [|c s IH]; constructor; [apply byte_of_range|done].
  - rewrite escaped_doc; [by eexists|]. apply obj_serialize_bytes.
Qed.

Definition printable (m : MysqlMeta) (f : MysqlField) : Prop :=
  is_Some (GetFieldMeta (cols m) (f_name f)) /\ is_Some (GetFieldValueSQL m f true).

Lemma GenerateMysqlFields_printable o m fields :
  registered o -> is_table (GetTypeName o) m -> Forall (printable m) (GenerateMysqlFields o fields).2.
Proof.
  intros Ho (d & pks & Hd & ->). unfold registered in Ho. rewrite Hd in Ho. injection Ho as Ho.
  rewrite GenerateMysqlFields_eq. apply Forall_fmap, Forall_forall. intros fd [_ Hin]%list_elem_of_filter.
  rewrite <- Ho in Hin. unfold compose.
  pose proof (field_literal (GetTypeName o) d pks o fd Hd (eq_sym Ho) Hin) as Hl. split; [|done].
  unfold GetFieldValueSQL in Hl. destruct (GetFieldMeta _ _); [by eexists|]. by destruct Hl.
Qed.

Lemma comma_loop_total {A} (f : A -> option string) i l sql :
  Forall (fun x => is_Some (f x)) l -> is_Some (comma_loop f i l sql).
Proof.
  intros Hl. revert i sql. induction Hl as [|x l [s Hx] _ IH]; intros i sql; [by eexists|].
  cbn [comma_loop]. rewrite Hx. apply IH.
Qed.

Lemma insert_total m data : Forall (printable m) data -> is_Some (GetInsertTableSQL m data true).
Proof.
  intros Hd. unfold GetInsertTableSQL.
  destruct (comma_loop_total (fun d => Some (f_name d)) 0 data ("INSERT INTO " +:+ tblname m +:+ "(")) as [s ->];
    [by apply Forall_true|]. cbn [mbind option_bind].
  destruct (comma_loop_total (fun d => GetFieldValueSQL m d true) 0 data (s +:+ ") VALUES(")) as [s' ->]; [|by eexists].
  eapply Forall_impl; [exact Hd|]. by intros f [].
Qed.

Lemma update_total m w data : Forall (printable m) data -> is_Some (GetUpdateTableSQL m w data true).
Proof.
  intros Hd. unfold GetUpdateTableSQL.
  enough (forall n sql, is_Some (update_cols m data true n sql)) as Hu by (by destruct (Hu O ("UPDATE " +:+ tblname m +:+ " SET ")) as [s ->]; eexists).
  induction Hd as [|f data [[c Hc] [v Hv]] _ IH]; intros n sql; [by eexists|]. cbn [update_cols].
  rewrite Hc. cbn [mbind option_bind]. destruct (c_ispk c); [apply IH|]. rewrite Hv. apply IH.
Qed.

(** ** Operations *)

Inductive DBOp :=
| DGet (o : MetaObject) (fields : list string) (cb : bytes) (pszWhereCond : option string)
| DRemove (o : MetaObject) (cb : bytes)
| DUpdate (o : MetaObject) (fields : list string) (cb : bytes)
| DInsert (o : MetaObject) (cb : bytes)
| DCreateTable (pszName : string).

Definition run_dbop (Request_ret : list MysqlRequest -> Z) (op : DBOp) : M (DBAgent H) Z :=
  match op with
  | DGet o fields cb w => Get Request_ret o fields cb w
  | DRemove o cb => Remove Request_ret o cb
  | DUpdate o fields cb => Update Request_ret o fields cb
  | DInsert o cb => Insert Request_ret o cb
  | DCreateTable t => CreateTable Request_ret t
  end.

Fixpoint run_dbops (Request_ret : list MysqlRequest -> Z) (ops : list DBOp) : M (DBAgent H) unit :=
  match ops with
  | [] => mret tt
  | op :: ops => run_dbop Request_ret op;; run_dbops Request_ret ops
  end.

Definition op_typed (op : DBOp) : Prop :=
  match op with
  | DGet o _ _ _ | DRemove o _ | DUpdate o _ _ | DInsert o _ => registered o
  | DCreateTable _ => True
  end.

(** Every request so far has a statement for the tables [tm]. *)
Definition Typed (tm : gmap string MysqlMeta) (a : DBAgent H) : Prop := Forall (request_ready tm) (requests a).

Section ops.
Context (tm : gmap string MysqlMeta) (Request_ret : list MysqlRequest -> Z).
Hypothesis tm_typed : map_Forall is_table tm.

(** A request without data has its statement whatever it is for. *)
Lemma request_plain t k w fields cb :
  k ∈ [MYSQL_REQ_SELECT; MYSQL_REQ_DELETE; MYSQL_REQ_CREATE_TB] ->
  request_ready tm (mkMysqlRequest t k w [] fields cb).
Proof.
  intros Hk. split; [revert Hk; cbn; rewrite !elem_of_cons; tauto|].
  intros p _ meta _. cbn. split; intros ->; exfalso; revert Hk; compute_done.
Qed.

Lemma request_data o k w fields sel cb :
  registered o -> k ∈ [MYSQL_REQ_UPDATE; MYSQL_REQ_INSERT] ->
  request_ready tm (mkMysqlRequest (GetTypeName o) k w (GenerateMysqlFields o fields).2 sel cb).
Proof.
  intros Ho Hk. split; [revert Hk; cbn; rewrite !elem_of_cons; tauto|].
  intros p <- meta Hm. pose proof (GenerateMysqlFields_printable o meta fields Ho (tm_typed _ _ Hm)) as Hd.
  split; intros _; [by apply insert_total|by apply update_total].
Qed.

Lemma mysql_Request_typed req : request_ready tm req -> pres (Typed tm) (mysql_Request Request_ret req).
Proof.
  intros Hr. unfold mysql_Request. pres_auto. apply pres_modify. intros a1 Ha. unfold Typed in *. cbn.
  apply Forall_app. split; [done|]. by constructor.
Qed.

Lemma with_callback_typed cb k : (forall ccb, pres (Typed tm) (k ccb)) -> pres (Typed tm) (with_callback (H := H) cb k).
Proof. intros Hk. unfold with_callback. pres_auto. Qed.

Lemma cond_typed o : pres (Typed tm) (GetPrimaryKeyCond (H := H) o).
Proof.
  unfold GetPrimaryKeyCond, on_serializer. repeat (pres_auto; try (apply pres_modify; by intros)).
Qed.

Lemma run_dbop_typed op : op_typed op -> pres (Typed tm) (run_dbop Request_ret op).
Proof.
  intros Hop. destruct op as [o fields cb w|o cb|o fields cb|o cb|t]; cbn [run_dbop op_typed] in *;
    try (apply pres_bind; [apply cond_typed|intros key]).
  - destruct (match key with Some key => Some key | None => w end) as [k|]; [|apply pres_ret].
    apply with_callback_typed. intros ccb. apply mysql_Request_typed, request_plain. left.
  - destruct key as [k|]; [|apply pres_ret].
    apply with_callback_typed. intros ccb. apply mysql_Request_typed, request_plain. right. left.
  - destruct key as [k|]; [|apply pres_ret].
    apply with_callback_typed. intros ccb. apply mysql_Request_typed, request_data; [done|left].
  - destruct key as [k|]; [|apply pres_ret].
    apply with_callback_typed. intros ccb. apply mysql_Request_typed, request_data; [done|right; left].
  - apply mysql_Request_typed, request_plain. right. right. left.
Qed.

Lemma run_dbops_typed ops : Forall op_typed ops -> pres (Typed tm) (run_dbops Request_ret ops).
Proof.
  induction 1 as [|op ops Hop _ IH]; cbn [run_dbops]; [apply pres_ret|].
  apply pres_bind; [by apply run_dbop_typed|by intros].
Qed.

Lemma Init_typed seri inited started ct : pres (Typed tm) (Init (H := H) Request_ret seri inited started ct).
Proof.
  assert (forall l, pres (Typed tm) (create_tables (H := H) Request_ret l)) as Hc.
  { induction l as [|t l IH]; cbn [create_tables]; [apply pres_ret|]. apply pres_bind; [|by intros].
    apply mysql_Request_typed, request_plain. right. right. left. }
  assert (forall l, pres (Typed tm) (GenerateMysqlMetas (H := H) l)) as Hg.
  { induction l as [|t l IH]; cbn [GenerateMysqlMetas]; [apply pres_ret|]. unfold on_serializer.
    repeat (pres_auto; try apply IH; try (apply pres_modify; by intros)). }
  unfold Init. repeat (pres_auto; try apply Hc; try apply Hg; try (apply pres_modify; by intros)).
Qed.

End ops.

(** C17. Requests for objects of the registered types are well typed, and the
    database thread does not get stuck on a well-typed request. After [Init] of
    the agent, and of a connected proxy with the tables it made, whatever
    operations the agent runs on such objects: every request it makes has a
    statement for its table; the proxy runs all of them one after the other,
    each with a response; and in the interleavings of the main thread, which
    hands over these requests, with one worker, the only undefined step there
    can be is the race of a test of the request queue outside its lock with
    the other thread's change of it. *)
Theorem typed_requests_do_not_go_wrong seri inited started createTable Request_ret ops (a0 a1 a2 : DBAgent H) p0 p n ls :
  requests a0 = [] -> is_Some (conn p0) ->
  DBAgent.Init Request_ret seri inited started createTable a0 = Some (0, a1) ->
  MysqlProxy.Init (mysql_metas a1) p0 = Some (0, p) ->
  Forall op_typed ops -> run_dbops Request_ret ops a1 = Some (tt, a2) ->
  Forall (label_ok (fun r => r ∈ requests a2)) ls ->
  Forall (request_ready (tableMetas p)) (requests a2)
  /\ (exists rsps p', dispatch_all MysqlProxy.DispatchReq (requests a2) p = Some (rsps, p')
        /\ length rsps = length (requests a2))
  /\ (MysqlAgent.run MysqlProxy.DispatchReq ls (Start [p] n) = Undefined ->
      race_in MysqlProxy.DispatchReq ls (Start [p] n)).
Proof.
  intros Hr0 Hc Hi Hp Hops Hrun Hls.
  assert (map_Forall is_table (tableMetas p)) as Htm.
  { injection Hp as <-. cbn. apply tableMetas_typed; [by eapply Init_metas_typed|apply map_Forall_empty]. }
  assert (proxy_ready (tableMetas p) p) as Hpr.
  { split; [by injection Hp as <-|]. split; [done|by apply typed_tables_ok]. }
  assert (Typed (tableMetas p) a1) as H1.
  { eapply (Init_typed (tableMetas p)); [|exact Hi]. unfold Typed. rewrite Hr0. constructor. }
  assert (Typed (tableMetas p) a2) as H2 by (by eapply run_dbops_typed).
  split; [exact H2|].
  split; [by apply (dispatch_all_total _ _ _ (DispatchReq_ready (tableMetas p)))|].
  apply (one_worker_fifo _ _ _ (DispatchReq_ready (tableMetas p))); [exact Hpr|].
  eapply Forall_impl; [exact Hls|]. intros [] Hl; try done. exact (proj1 (Forall_forall _ _) H2 _ Hl).
Qed.

End typing.

(** ** A concrete agent *)

Module TypingWitness.
Import Reference MetaWitness ProxyWitness SerializerWitness DBWitness.

Definition seri := MetaSerializer_Init.2.
Definition accept (l : list MysqlRequest) : Z := 0.
Definition db0 : DBAgent unit := DBAgent_new <| m_setTableType := ["Role"] |>.
Definition ops : list DBOp :=
  [DInsert (role_named "O'Neil") [1]; DGet (role_named "") ["name"] [2] None; DUpdate (role_named "Ann") ["name"] [3]].

Lemma pool_distinct n d : FindMessageTypeByName n = Some d -> NoDup (fd_name <$> d_fields d).
Proof.
  cbn. unfold pool. destruct (String.eqb n "db.Role"); [|destruct (String.eqb n "db.RolePackage"); [|done]];
    (match goal with |- context [String.eqb ?x n] => destruct (String.eqb x n) end; [|done]);
    intros [= <-]; compute_done.
Qed.

Definition empty_proxy : MysqlProxy := MysqlProxy_new <| conn := Some 0%nat |>.

(** The agent after [Init] and after the operations, and its proxy. *)
Definition db1 : DBAgent unit :=
  match DBAgent.Init accept seri true true true db0 with Some (_, a) => a | None => db0 end.
Definition db2 : DBAgent unit := match run_dbops accept ops db1 with Some (_, a) => a | None => db0 end.
Definition proxy : MysqlProxy :=
  match MysqlProxy.Init (mysql_metas db1) empty_proxy with Some (_, p) => p | None => empty_proxy end.

Lemma run_result {A S} (m : option (A * S)) (r : A) (d : S) :
  fst <$> m = Some r -> m = Some (r, match m with Some (_, a) => a | None => d end).
Proof. destruct m as [[]|]; [|done]. by intros [= ->]. Qed.

(** All requests handed over, each pushed before the next. *)
Definition hand_over (r : MysqlRequest) : list (@Label MysqlRequest) := [LRequest r; LLock; LPush; LNotify None].

Lemma typed_requests_do_not_go_wrong_witness :
  length (requests db2) = 4%nat /\ Forall (request_ready (tableMetas proxy)) (requests db2)
  /\ (exists rsps p', dispatch_all MysqlProxy.DispatchReq (requests db2) proxy = Some (rsps, p')
        /\ length rsps = length (requests db2))
  /\ (MysqlAgent.run MysqlProxy.DispatchReq (requests db2 ≫= hand_over) (Start [proxy] 32) = Undefined ->
      race_in MysqlProxy.DispatchReq (requests db2 ≫= hand_over) (Start [proxy] 32)).
Proof.
  split; [vm_compute; reflexivity|].
  apply (typed_requests_do_not_go_wrong pool_distinct seri true true true accept ops db0 db1 db2 empty_proxy).
  - reflexivity.
  - by eexists.
  - apply run_result. vm_compute. reflexivity.
  - reflexivity.
  - repeat (constructor; [reflexivity|]). constructor.
  - apply run_result. vm_compute. reflexivity.
  - apply Forall_forall. intros l (r & Hl & Hr)%list_elem_of_bind. unfold hand_over in Hl.
    rewrite !elem_of_cons, elem_of_nil in Hl.
    destruct Hl as [->|[->|[->|[->|[]]]]]; [exact Hr | exact I..].
Defined.

End TypingWitness.
