(* ===== verification/ZoneSession.v ===== *)
(** * Sessions of the zone server ([rgtd/zone/account], [rgtd/zone/DBProxy.cpp])

    A client that the gate reports gets a session. A session logs in by reading
    its role from the database, or by making a new one; a coroutine waits for the
    database. A session that is kicked saves its role, in a coroutine of its own.

    The state is explicit. Sessions, players and roles live in heaps of handles.
    A [shared_ptr] is a handle too: when one is dropped and no other is left, the
    object is destroyed. The holders of a session are the session maps and the
    coroutines; those of a player, the sessions and the event centre. A role is
    not shared by counting: the player that owns it deletes it.

    A coroutine that has yielded is the point it waits at with its local
    variables. The library that runs them is an argument, and so is what the
    task part of a player does with an event. *)

From S2P Require Import Prelude CString Extern TimerMgr EventCenter PlayerLogic.
From S2P Require Import Channel ChannelMsgProxy GateMsg GateServerHandler MysqlProxy MetaSerializer DBAgent DataCommon.

(** ** Data *)

Definition PLAYER_STATE_INIT : Z := 0.
Definition PLAYER_STATE_LOADING : Z := 1.
Definition PLAYER_STATE_CREATING : Z := 2.
Definition PLAYER_STATE_PLAYING : Z := 3.
Definition PLAYER_STATE_OFFLINE : Z := 4.
Definition PLAYER_STATE_KICKING : Z := 10.

Definition KICK_REASON_RELOGIN : Z := 1.
Definition KICK_REASON_DB_ERR : Z := 2.
Definition KICK_REASON_CLOSE_CLIENT : Z := 3.

Definition ROLE_DB_GET_LOGIN : Z := 1.
Definition ROLE_DB_UPDATE_LOGOUT : Z := 2.
Definition ROLE_DB_UPDATE_PERIOD : Z := 3.

(** [PlayerAgent], with the timer of its [PlayerAutoSyncDBLogic], which attaching
    sets before anything reads it. *)
Record PlayerAgent := mkPlayerAgent {
  pRoleData : Z; m_fromDB : bool; p_iDirty : Z; p_dwTimerID : Z
}.
#[global] Instance eta_PlayerAgent : Eta PlayerAgent := fun r =>
  mkPlayerAgent (pRoleData r) (m_fromDB r) (p_iDirty r) (p_dwTimerID r).

(** [Session]; [s_mgr] is the zone of its [SessionMgr]. *)
Record Session := mkSession {
  s_uid : Z; s_accountid : Z; s_area : Z; s_gate : Z; s_idx : Z; s_port : Z; s_state : Z;
  s_player : option Z; s_mgr : Z
}.
#[global] Instance eta_Session : Eta Session := fun r =>
  mkSession (s_uid r) (s_accountid r) (s_area r) (s_gate r) (s_idx r) (s_port r) (s_state r)
    (s_player r) (s_mgr r).

(** A coroutine runs, or waits for the role of a login, for the role it inserts,
    or for the role it saves with some tries left. Each holds its session. *)
Inductive Co :=
| Running (s : Z)
| LoginGot (s : Z)
| LoginInserted (s : Z)
| LogoutSaved (s : Z) (retry : nat).

Definition co_session (c : Co) : Z :=
  match c with Running s | LoginGot s | LoginInserted s => s | LogoutSaved s _ => s end.

(** The listeners of the database agent. *)
Inductive Listener := RoleDBListener | AccountDBListener (chDirection : ascii).

(** The handlers of client messages. *)
Inductive CSMsgHandler := CSRoleHandler | CSMsgLuaHandler.

(** [ZoneAgent] with its [SessionMgr] and [CSMsgDispatcher]. *)
Record ZoneAgent := mkZoneAgent {
  m_dwZoneID : Z;
  m_mpSessions : gmap Z (option Z);
  m_mpHandlers : gmap Z CSMsgHandler;
  m_setluahandlers : option (gset Z);     (* [None]: there is no Lua handler yet *)
  m_msgPackBuffer : Buffer
}.
#[global] Instance eta_ZoneAgent : Eta ZoneAgent := fun r =>
  mkZoneAgent (m_dwZoneID r) (m_mpSessions r) (m_mpHandlers r) (m_setluahandlers r) (m_msgPackBuffer r).

(** ** Callback data

    [DBProxyCallBack] as it lies in memory: an eight-byte, two four-byte and an
    eight-byte field, the low byte first. *)
Record DBProxyCallBack := mkDBProxyCallBack { cb_uid : Z; cb_reason : Z; cb_coid : Z; cb_trigger : Z }.

Fixpoint le_bytes (n : nat) (z : Z) : bytes :=
  match n with O => [] | S n => z mod 256 :: le_bytes n (z / 256) end.
Fixpoint le_val (b : bytes) : Z := match b with [] => 0 | x :: b => x + 256 * le_val b end.

Definition dcb_bytes (d : DBProxyCallBack) : bytes :=
  le_bytes 8 (u64 (cb_uid d)) ++ le_bytes 4 (u32 (cb_reason d)) ++ le_bytes 4 (u32 (cb_coid d))
  ++ le_bytes 8 (u64 (cb_trigger d)).

(** [(DBProxyCallBack* )cb.pBuffer]: fewer bytes than the structure has are read
    past their end. *)
Definition dcb_read (b : bytes) : option DBProxyCallBack :=
  if bool_decide (24 <= length b)%nat then
    Some (mkDBProxyCallBack (le_val (take 8 b)) (i32 (le_val (take 4 (drop 8 b))))
            (i32 (le_val (take 4 (drop 12 b)))) (le_val (take 8 (drop 16 b))))
  else None.

(** ** Coroutines ([utility/Coroutine.h])

    [co_Create live] is the id of a new coroutine when the ones of [live] exist,
    or nothing; [co_none] is then the result of resuming it. [co_resumed] is the
    result of resuming a coroutine that is there. *)
Class Coroutines := {
  co_Create : gset Z -> option Z;
  co_none : Z;
  co_resumed : Z -> Z
}.

(** An id is positive and not in use. *)
Class CoroutineLaws `{Coroutines} : Prop :=
  co_Create_fresh : forall live i, co_Create live = Some i -> (i ∉ live) /\ 0 < i < 2 ^ 31.

Section Zone.
Context {P : Type} {MP : MsgProxy P} {R : Reflection}.

(** [ZoneAgentMgr], with the heaps, the coroutines, the database agent and the
    message proxy. *)
Record ZoneAgentMgr := mkZoneAgentMgr {
  m_mpZoneAgent : gmap Z ZoneAgent;
  sessions : gmap Z Session;
  players : gmap Z PlayerAgent;
  next_ptr : Z;
  cos : gmap Z Co;
  m_db : DBAgent Listener;
  m_chnlProxy : P
}.
#[global] Instance eta_ZoneAgentMgr : Eta ZoneAgentMgr := fun r =>
  mkZoneAgentMgr (m_mpZoneAgent r) (sessions r) (players r) (next_ptr r) (cos r) (m_db r) (m_chnlProxy r).

Abbreviation W := (EventW ZoneAgentMgr).

Definition on_zone (f : ZoneAgentMgr -> ZoneAgentMgr) : M W unit := modify (fun w => w <| zone ::= f |>).
Definition get_zone {A} (f : ZoneAgentMgr -> A) : M W A := gets (fun w => f (zone w)).
Definition put_db (d : DBAgent Listener) (w : W) : W := w <| zone ::= fun z => z <| m_db := d |> |>.
Definition on_db {A} (m : M (DBAgent Listener) A) : M W A := zoom (fun w => m_db (zone w)) put_db m.

(** ** Role ids *)

(** [GetRoleID]: sixteen bits of the area above thirty-two of the user. *)
Definition GetRoleID (uid area : Z) : Z :=
  Z.lor (u64 (Z.shiftl (Z.land area 0xFFFF) 32)) (Z.land uid 0xFFFFFFFF).
Definition GetUidFromRoleID (rid : Z) : Z := Z.land rid 0xFFFFFFFF.
Definition GetAreaFromRoleID (rid : Z) : Z := Z.land (Z.shiftr rid 32) 0xFFFF.
Definition GetZoneIDFromArea (area : Z) : Z := u16 area.

(** ** Lookups *)

Definition GetAgent (dwZoneID : Z) (z : ZoneAgentMgr) : option ZoneAgent := m_mpZoneAgent z !! dwZoneID.
Definition GetZoneAgentByArea (area : Z) (z : ZoneAgentMgr) : option ZoneAgent :=
  GetAgent (GetZoneIDFromArea area) z.

(** [SessionMgr::FindSession]: an entry may be null. *)
Definition FindSession (ulUID : Z) (a : ZoneAgent) : option Z := mjoin (m_mpSessions a !! ulUID).

Definition GetZonePlayerAgentPtr (z : ZoneAgentMgr) (uid : Z) : option Z :=
  a ← GetZoneAgentByArea (GetAreaFromRoleID uid) z;
  s ← FindSession uid a;
  sson ← sessions z !! s;
  s_player sson.

Definition upd_agent (area : Z) (f : ZoneAgent -> ZoneAgent) : M W unit :=
  on_zone (fun z => z <| m_mpZoneAgent ::= alter f area |>).

(** Access through a session or player pointer. *)
Definition session (s : Z) : M W Session :=
  z ← get_zone (fun z => z); lift (sessions z !! s).
Definition upd_session (s : Z) (f : Session -> Session) : M W unit :=
  session s;; on_zone (fun z => z <| sessions ::= alter f s |>).
Definition player (p : Z) : M W PlayerAgent :=
  z ← get_zone (fun z => z); lift (players z !! p).
Definition upd_player (p : Z) (f : PlayerAgent -> PlayerAgent) : M W unit :=
  player p;; on_zone (fun z => z <| players ::= alter f p |>).

(** ** Owners *)

Definition player_held (p : Z) (w : W) : bool :=
  bool_decide (map_Exists (fun _ s => s_player s = Some p) (sessions (zone w)))
  || bool_decide (map_Exists (fun _ q => q = p) (m_mpPlayerAgents (ec w))).

Definition session_held (s : Z) (z : ZoneAgentMgr) : bool :=
  bool_decide (map_Exists (fun _ a => map_Exists (fun _ q => q = Some s) (m_mpSessions a)) (m_mpZoneAgent z))
  || bool_decide (map_Exists (fun _ c => co_session c = s) (cos z)).

(** [~PlayerAgent]: the role goes with its player, read from the database or
    not. *)
Definition PlayerAgent_delete (p : Z) : M W unit :=
  pl ← player p;
  on_db (delete_obj (pRoleData pl));;
  on_zone (fun z => z <| players ::= delete p |>).

(** A holder of a player, or of a session, goes. *)
Definition release_player (p : option Z) : M W unit :=
  match p with
  | None => mret tt
  | Some p =>
      w ← gets (fun w => w);
      if player_held p w || negb (bool_decide (is_Some (players (zone w) !! p))) then mret tt
      else PlayerAgent_delete p
  end.

Definition release_session (s : Z) : M W unit :=
  z ← get_zone (fun z => z);
  if session_held s z then mret tt
  else
    sson ← session s;
    on_zone (fun z => z <| sessions ::= delete s |>);;
    release_player (s_player sson).

(** ** Players *)

(** [GetUID] and [GetName] read the role. *)
Definition role_data (p : Z) : M W MetaObject := pl ← player p; on_db (deref (pRoleData pl)).
Definition GetUID (p : Z) : M W Z := o ← role_data p; mret (get_num o "rid").
Definition GetName (p : Z) : M W string := o ← role_data p; mret (get_str o "name").
Definition GetLevel : Z := 1.

Definition PlayerAgent_new (role : Z) (fromdb : bool) : M W Z :=
  z ← get_zone (fun z => z);
  on_zone (fun z => z <| players ::= <[next_ptr z := mkPlayerAgent role fromdb 0 0]> |>
                      <| next_ptr ::= Z.succ |>);;
  mret (next_ptr z).

(** [MutableRoleData]: the player counts as changed. *)
Definition mutate_role (p : Z) (f : MetaObject -> MetaObject) : M W unit :=
  upd_player p (fun pl => pl <| p_iDirty := p_iDirty pl + 1 |>);;
  pl ← player p;
  o ← on_db (deref (pRoleData pl));
  on_db (modify (fun d => d <| objs ::= <[pRoleData pl := f o]> |>)).

(** ** The database proxy *)

Context {B0 : BufferLib}.
(** [db::Role role;] *)
Context (Role_new : MetaObject).
(** The result of a request to the database thread. *)
Context (Request_ret : list MysqlRequest -> Z).

Definition role_with (uid : Z) : MetaObject := set_num "rid" uid Role_new.

Definition FindRoleObject (uid : Z) : M W (option Z) := on_db (FindObject (role_with uid)).
Definition GetRoleObjectPtr (uid : Z) : M W (option Z) := on_db (GetObjectPtr (role_with uid)).

(** A request that was queued and then waits ([None]) when there is a coroutine to
    wait in. *)
Definition or_yield (coid : Z) (req : M W Z) : M W (option Z) :=
  ret ← req;
  if negb (ret =? 0) then mret (Some (-1))
  else mret (if negb (coid =? 0) then None else Some ret).

Definition GetRole (uid reason coid ulTrigger : Z) : M W (option Z) :=
  let dcb := mkDBProxyCallBack uid ROLE_DB_GET_LOGIN coid ulTrigger in
  or_yield coid (on_db (DBAgent.Get Request_ret (role_with uid) [] (dcb_bytes dcb) None)).

Definition InsertRole (uid : Z) (pRole : Z) (coid : Z) : M W (option Z) :=
  let dcb := mkDBProxyCallBack uid 0 coid 0 in
  or_yield coid (on_db (o ← deref pRole; DBAgent.Insert Request_ret o (dcb_bytes dcb))).

Definition UpdateRole (uid : Z) (pRole : Z) (coid reason : Z) : M W (option Z) :=
  let dcb := mkDBProxyCallBack uid reason coid 0 in
  or_yield coid (on_db (o ← deref pRole; DBAgent.Update Request_ret o [] (dcb_bytes dcb))).

(** ** The parts of a player *)

(** What the task part of a player does with an event, and with its birth. *)
Context (task_OnEvent : Z -> Z -> Z -> Z -> M W unit).

(** A delayed event notifies nobody: it keeps the player, and the one it kept
    before goes. *)
Definition FireEvent_later (iEventCode : Z) (name : option string) (secondsLater ulParam arg : Z) : M W Z :=
  w ← gets (fun w => w);
  r ← FireEvent GetZonePlayerAgentPtr (fun _ _ _ _ _ => crash) iEventCode name secondsLater ulParam arg false;
  release_player (m_mpPlayerAgents (ec w) !! ulParam);;
  mret r.

(** The automatic saving of a player, see [PlayerLogic]. *)
Definition player_part (p : Z) (z : ZoneAgentMgr) : AutoSync :=
  match players z !! p with
  | Some pl =>
      mkAutoSync (default 0 ((fun o => get_num o "rid") <$> objs (m_db z) !! pRoleData pl)) (p_iDirty pl) (p_dwTimerID pl)
  | None => mkAutoSync 0 0 0
  end.
Definition put_player_part (p : Z) (a : AutoSync) (z : ZoneAgentMgr) : ZoneAgentMgr :=
  z <| players ::= alter (fun pl => pl <| p_iDirty := m_iDirty a |> <| p_dwTimerID := m_dwTimerID a |>) p |>.

Definition UpdateRole_period (p uid : Z) : M W Z :=
  pl ← player p;
  r ← UpdateRole uid (pRoleData pl) 0 ROLE_DB_UPDATE_PERIOD;
  mret (default 0 r).

Definition autosync (p : Z) : PlayerLogic W := mkPlayerLogic "autosync"
  (mret tt)
  (GetUID p;; AutoSync_OnAttach FireEvent_later (player_part p) (put_player_part p))
  (player p;; AutoSync_OnDetach (player_part p))
  (fun iEvent ulParam arg =>
     (if EVENT_PLAYER_SYNC_DB =? iEvent then GetUID p;; mret tt else mret tt);;
     AutoSync_OnEvent FireEvent_later (player_part p) (put_player_part p) (UpdateRole_period p) iEvent ulParam arg).

Definition knapsack (p : Z) : PlayerLogic W := mkPlayerLogic "knapsack"
  (mutate_role p (fun o => set_msg "pack" (set_num "maxGrid" 10 (get_msg o "pack")) o))
  (mret tt) (mret tt) (fun _ _ _ => mret tt).

Definition task (p : Z) : PlayerLogic W := mkPlayerLogic "task"
  (mret tt) (mret tt) (mret tt) (task_OnEvent p).

(** The logic centre of a player. *)
Definition ptrLogic (p : Z) : list (PlayerLogic W) := InitLogic (task p) (autosync p) (knapsack p).

Definition notify (p iEvent ulParam : Z) (name : option string) (arg : Z) : M W unit :=
  NotifyEvent iEvent ulParam name arg (ptrLogic p).

(** ** Sessions *)

Context {CSS : Codec GateSSMsg}.

Definition SetState (s : Z) (st : Z) : M W unit := upd_session s (fun x => x <| s_state := u8 st |>).

Definition Session_new (src mgr : Z) : Session :=
  mkSession 0 0 0 (u32 src) (-1) 0 PLAYER_STATE_INIT None mgr.

Definition Session_Init (uid : Z) (ggc : GateSSMsg) (x : Session) : Session :=
  x <| s_uid := uid |> <| s_accountid := ss_uid ggc |> <| s_port := i32 (default 0 (ss_port ggc)) |>
    <| s_idx := i32 (ss_idx ggc) |> <| s_area := ss_area ggc |>.

Definition GetIdx (x : Session) : Z := u32 (s_idx x).
Definition GetGateID (x : Session) : Z := i32 (s_gate x).

(** The head of a message to the gate. *)
Definition response_head (x : Session) (iEvent iParam : Z) : GateSSMsg :=
  mkGateSSMsg iEvent (u32 (s_idx x)) (s_accountid x) (s_area x) None None
    (if iEvent =? EVENT_CLOSE then Some (u32 iParam) else None).

Definition ResponseClient (s : Z) (iEvent iParam : Z) (data : option bytes) : M W Z :=
  x ← session s;
  assert ((iEvent =? EVENT_CONNECTED) || (iEvent =? EVENT_CLOSE) || (iEvent =? EVENT_DATA));;
  let gc := response_head x iEvent iParam in
  b ← lift (buffer_Create (ByteSize gc));
  head ← lift (pack_buffer gc b);
  zoom (fun w => m_chnlProxy (zone w)) (fun p w => w <| zone ::= fun z => z <| m_chnlProxy := p |> |>)
    (SendToAgent (i32 (s_gate x)) (head :: match data with Some d => [d] | None => [] end) (iCap b)).

Definition AttachPlayerAgent (s p : Z) : M W Z :=
  x ← session s;
  upd_session s (fun x => x <| s_player := Some p |>);;
  release_player (s_player x);;
  Attach (ptrLogic p);;
  mret 0.

(** [SessionMgr::GetSession]: for an absent user, the entry of user [0]. *)
Definition GetSession (area uid : Z) : M W (option Z) :=
  z ← get_zone (fun z => z);
  a ← lift (GetAgent area z);
  match m_mpSessions a !! uid with
  | Some p => mret p
  | None =>
      upd_agent area (fun a => a <| m_mpSessions ::= <[0 := mjoin (m_mpSessions a !! 0)]> |>);;
      mret (mjoin (m_mpSessions a !! 0))
  end.

(** ** Coroutines *)

Context {CO : Coroutines}.

(** A run of a coroutine up to its next yield ([Some]) or its end. *)
Definition run_co (coid s : Z) (body : M W (option Co)) : M W Z :=
  on_zone (fun z => z <| cos ::= <[coid := Running s]> |>);;
  r ← body;
  match r with
  | Some k => on_zone (fun z => z <| cos ::= <[coid := k]> |>)
  | None => on_zone (fun z => z <| cos ::= delete coid |>);; release_session s
  end;;
  mret (co_resumed coid).

Definition start_co (s : Z) (body : Z -> M W (option Co)) : M W Z :=
  z ← get_zone (fun z => z);
  match co_Create (dom (cos z)) with
  | Some coid => run_co coid s (body coid)
  | None => mret co_none
  end.

(** ** Logout *)

(** The role of a session's player, which must be there. *)
Definition session_role (s : Z) : M W Z :=
  x ← session s;
  p ← lift (s_player x);
  pl ← player p;
  mret (pRoleData pl).

(** The loop of the coroutine [Logout] with a number of tries left: after an answer
    that is neither success nor a timeout it tries again. *)
Fixpoint Logout_try (coid s : Z) (retry : nat) : M W (option Co) :=
  x ← session s;
  role ← session_role s;
  r ← UpdateRole (s_uid x) role coid ROLE_DB_UPDATE_LOGOUT;
  match r with
  | None => mret (Some (LogoutSaved s retry))
  | Some ret =>
      if ret <? 0 then mret None
      else if ret =? DATA_OK then mret None
      else match retry with
           | S (S n as retry) => Logout_try coid s retry
           | _ => mret None
           end
  end.

Definition Logout_saved (coid s : Z) (retry : nat) (ret : Z) : M W (option Co) :=
  if ret <? 0 then mret None
  else if ret =? DATA_OK then mret None
  else if bool_decide (1 < retry)%nat then Logout_try coid s (pred retry)
  else mret None.

(** [LoginLogic::Logout]. *)
Definition Logout (session_ptr : option Z) : M W Z :=
  s ← lift session_ptr;
  x ← session s;
  if negb (s_state x =? PLAYER_STATE_PLAYING) then mret (-1)
  else
    SetState s PLAYER_STATE_OFFLINE;;
    start_co s (fun coid => Logout_try coid s 3).

Definition Kick (s : Z) (reason : Z) : M W Z :=
  x ← session s;
  if s_state x =? PLAYER_STATE_KICKING then mret (-1)
  else
    (match s_player x with Some p => Detach (ptrLogic p) | None => mret tt end);;
    l ← GetSession (s_mgr x) (s_uid x);
    Logout l;;
    ResponseClient s EVENT_CLOSE CONNECTION_CLOSE_BY_DEFAULT None;;
    SetState s PLAYER_STATE_KICKING;;
    mret 0.

(** ** Login *)

Definition EnterPlaying : Z := -1.

Definition CreateRole (s : Z) : M W Z :=
  x ← session s;
  role ← on_db (new_handle (role_with (s_uid x)));
  p ← PlayerAgent_new role false;
  AttachPlayerAgent s p;;
  x ← session s;
  p ← lift (s_player x);
  InitBirthPlayer (ptrLogic p);;
  mret 0.

Definition NotifyCreateRole (s : Z) : M W Z := CreateRole s.

(** The coroutine [Login] once the role is inserted. *)
Definition Login_inserted (s ret : Z) : M W (option Co) :=
  if ret =? DATA_OK then SetState s PLAYER_STATE_PLAYING;; mret None
  else Kick s KICK_REASON_DB_ERR;; mret None.

(** The coroutine [Login] once it has the answer to its query, with the role it
    found at once. *)
Definition Login_got (coid s : Z) (pRole : option Z) (ret : Z) : M W (option Co) :=
  if ret <? 0 then mret None
  else if ret =? DATA_OK then
    x ← session s;
    pRole ← (match pRole with Some h => mret (Some h) | None => FindRoleObject (s_uid x) end);
    match pRole with
    | None => Kick s KICK_REASON_DB_ERR;; mret None
    | Some h =>
        p ← PlayerAgent_new h true;
        AttachPlayerAgent s p;;
        SetState s PLAYER_STATE_PLAYING;;
        mret None
    end
  else if ret =? DATA_NO_EXISTS then
    SetState s PLAYER_STATE_CREATING;;
    r ← NotifyCreateRole s;
    if negb (r =? 0) then mret None
    else
      x ← session s;
      role ← session_role s;
      r ← InsertRole (s_uid x) role coid;
      match r with
      | None => mret (Some (LoginInserted s))
      | Some ret => Login_inserted s ret
      end
  else Kick s KICK_REASON_DB_ERR;; mret None.

(** The start of the coroutine [Login]. *)
Definition Login_start (s coid : Z) : M W (option Co) :=
  SetState s PLAYER_STATE_LOADING;;
  x ← session s;
  pRole ← FindRoleObject (s_uid x);
  match pRole with
  | Some h => Login_got coid s (Some h) 0
  | None =>
      r ← GetRole (s_uid x) ROLE_DB_GET_LOGIN coid 0;
      match r with
      | None => mret (Some (LoginGot s))
      | Some ret => Login_got coid s None ret
      end
  end.

(** [LoginLogic::Login]. *)
Definition Login (session_ptr : option Z) : M W Z :=
  s ← lift session_ptr;
  start_co s (Login_start s).

(** ** Answers of the database *)

(** The value that a yield returns in the coroutine that waits. *)
Definition resume_body (coid : Z) (c : Co) (ret : Z) : M W (option Co) :=
  match c with
  | Running _ => crash
  | LoginGot s => Login_got coid s None ret
  | LoginInserted s => Login_inserted s ret
  | LogoutSaved s retry => Logout_saved coid s retry ret
  end.

Definition CommonCoroutineResume (ret uid coid reason : Z) : M W Z :=
  z ← get_zone (fun z => z);
  match cos z !! coid with
  | None => mret (-1)
  | Some c => run_co coid (co_session c) (resume_body coid c ret)
  end.

Definition resume_or_log (ret uid coid reason : Z) : M W Z :=
  if negb (coid =? 0) then CommonCoroutineResume ret uid coid reason else mret 0.

Definition OnGetRole (ret : Z) (obj : option Z) (uid reason coid ulTrigger : Z) : M W Z :=
  resume_or_log ret uid coid reason.
Definition OnInsertRole (ret uid coid reason : Z) : M W Z := resume_or_log ret uid coid reason.
Definition OnUpdateRole (ret uid coid reason : Z) : M W Z := resume_or_log ret uid coid reason.

(** [RoleDBListener]. *)
Definition Role_listen (c : DataCall) : M W Z :=
  match c with
  | OnGet ret obj cb =>
      d ← lift (dcb_read cb);
      OnGetRole ret obj (cb_uid d) (cb_reason d) (cb_coid d) (cb_trigger d)
  | OnInsert ret cb => d ← lift (dcb_read cb); OnInsertRole ret (cb_uid d) (cb_coid d) (cb_reason d)
  | OnRemove _ _ => mret 0
  | OnUpdate ret cb => d ← lift (dcb_read cb); OnUpdateRole ret (cb_uid d) (cb_coid d) (cb_reason d)
  | OnCreateTable _ _ => DataListener c
  end.

(** [AccountDBListener] only logs. *)
Definition Account_listen (c : DataCall) : M W Z := mret 0.

Definition listen (l : Listener) (c : DataCall) : M W Z :=
  match l with RoleDBListener => Role_listen c | AccountDBListener _ => Account_listen c end.

(** ** The session manager *)

Definition DeleteSession (area uid : Z) : M W Z :=
  z ← get_zone (fun z => z);
  a ← lift (GetAgent area z);
  upd_agent area (fun a => a <| m_mpSessions ::= delete uid |>);;
  (match mjoin (m_mpSessions a !! uid) with Some s => release_session s | None => mret tt end);;
  mret 0.

Definition StopSession (area gateid idx uid : Z) : M W Z :=
  z ← get_zone (fun z => z);
  a ← lift (GetAgent area z);
  match FindSession uid a with
  | None => mret (-1)
  | Some s =>
      x ← session s;
      if negb (GetIdx x =? idx) || negb (GetGateID x =? gateid) then mret (-1)
      else
        ret ← Kick s KICK_REASON_CLOSE_CLIENT;
        DeleteSession area uid;;
        mret ret
  end.

(** [m_mpSessions[uid]]: an absent key is inserted with a null. *)
Definition session_at (area uid : Z) : M W (option Z) :=
  z ← get_zone (fun z => z);
  a ← lift (GetAgent area z);
  upd_agent area (fun a => a <| m_mpSessions ::= <[uid := mjoin (m_mpSessions a !! uid)]> |>);;
  mret (mjoin (m_mpSessions a !! uid)).

Definition CreateSession (area uid gateid : Z) (cnnx : GateSSMsg) : M W Z :=
  z ← get_zone (fun z => z);
  a ← lift (GetAgent area z);
  (match FindSession uid a with
   | Some s => Kick s KICK_REASON_RELOGIN;; upd_session s (Session_Init uid cnnx)
   | None =>
       on_zone (fun z => z <| sessions ::= <[next_ptr z := Session_Init uid cnnx (Session_new gateid area)]> |>
                           <| next_ptr ::= Z.succ |>);;
       upd_agent area (fun a => a <| m_mpSessions ::= <[uid := Some (next_ptr z)]> |>)
   end);;
  l ← session_at area uid;
  Login l.

End Zone.
Arguments ZoneAgentMgr P {R}.

(** ** Role ids are unambiguous *)

Lemma land_ones_mod z n : 0 <= n -> Z.land z (Z.ones n) = z mod 2 ^ n.
Proof. intros. by apply Z.land_ones. Qed.

Lemma GetRoleID_sum uid area : GetRoleID uid area = u16 area * 2 ^ 32 + u32 uid.
Proof.
  unfold GetRoleID. change 0xFFFF with (Z.ones 16). change 0xFFFFFFFF with (Z.ones 32).
  rewrite !land_ones_mod by lia. fold (u16 area) (u32 uid).
  pose proof (u16_bound area). pose proof (u32_bound uid). rewrite Z.shiftl_mul_pow2, u64_small by lia.
  apply lor_shift32. lia.
Qed.

Lemma role_id_range uid area : 0 <= GetRoleID uid area < 2 ^ 48.
Proof. rewrite GetRoleID_sum. pose proof (u16_bound area). pose proof (u32_bound uid). lia. Qed.

Lemma role_id_area uid area :
  GetAreaFromRoleID (GetRoleID uid area) = u16 area /\ GetUidFromRoleID (GetRoleID uid area) = u32 uid.
Proof.
  pose proof (u16_bound area). pose proof (u32_bound uid). rewrite GetRoleID_sum. split.
  - unfold GetAreaFromRoleID. change 0xFFFF with (Z.ones 16). rewrite land_ones_mod, Z.shiftr_div_pow2 by lia.
    rewrite Z.div_add_l, Z.div_small, Z.add_0_r by lia. apply Z.mod_small. lia.
  - unfold GetUidFromRoleID. change 0xFFFFFFFF with (Z.ones 32). rewrite land_ones_mod by lia.
    rewrite Z.add_comm, Z_mod_plus_full. apply Z.mod_small. lia.
Qed.

(** A role id gives back the area and the user it was made of, as sixteen and as
    thirty-two bits: roles of the same area are told apart by the low half of their
    users only. *)
Theorem role_id_round_trip uid area :
  GetAreaFromRoleID (GetRoleID uid area) = u16 area /\ GetUidFromRoleID (GetRoleID uid area) = u32 uid
  /\ 0 <= GetRoleID uid area < 2 ^ 48
  /\ forall uid', GetRoleID uid' area = GetRoleID uid area <-> u32 uid' = u32 uid.
Proof.
  destruct (role_id_area uid area) as [-> ->]. split_and!; try done; try apply role_id_range.
  intros uid'. rewrite !GetRoleID_sum. lia.
Qed.
