(* ===== verification/ZoneTask.v ===== *)
(** * The task part of a player ([rgtd/zone/logic/PlayerTaskLogic.cpp])

    [PlayerTaskLogic::OnEvent] on the state of the zone server: the player's
    tasks in progress are in its role, and for every task that the event
    finishes it fires another event, which may reach a player's parts in turn.
    Such calls nest; [task_event n] is the part when at most [n] of them do, and
    is undefined beyond. *)

From S2P Require Import Prelude CString Extern TimerMgr EventCenter PlayerLogic.
From S2P Require Import Channel ChannelMsgProxy MysqlProxy MetaSerializer DBAgent DataCommon ZoneSession.

(** The class that is generated for a role: the tasks in progress
    ([grow().task().doing()]), and the role with other ones. *)
Class TaskAccess {R : Reflection} := {
  doing : MetaObject -> list RoleOneTask;
  set_doing : list RoleOneTask -> MetaObject -> MetaObject
}.
Class TaskAccessLaws `{TaskAccess} : Prop :=
  doing_set : forall l o, doing (set_doing l o) = l.

Section ZoneTask.
Context {P : Type} {MP : MsgProxy P} {R : Reflection} {B0 : BufferLib} {TA : TaskAccess}.
Abbreviation W := (EventW (ZoneAgentMgr P)).
(** The rows of the task table, and the database thread. *)
Context (Find : Z -> option TaskObj) (Request_ret : list MysqlRequest -> Z).

(** [task->mutable_doing()] and what is read through it. *)
Definition get_doing (p : Z) : M W (list RoleOneTask) := o ← role_data p; mret (doing o).
Definition put_doing (p : Z) (l : list RoleOneTask) : M W unit :=
  pl ← player p;
  o ← on_db (deref (pRoleData pl));
  on_db (modify (fun d => d <| objs ::= <[pRoleData pl := set_doing l o]> |>)).

(** The events that the part fires are handed on by [ntf]. *)
Section event.
Context (ntf : Z -> Z -> Z -> option string -> Z -> M W unit).

Fixpoint task_loop (fuel i : nat) (p iEvent ulParam : Z) : M W unit :=
  match fuel with
  | O => crash
  | S fuel =>
      l ← get_doing p;
      match l !! i with
      | None => mret tt
      | Some t =>
          match CheckOneTask Find t iEvent ulParam with
          | None =>
              GetUID p;;
              put_doing p (swap_remove i l);;
              task_loop fuel i p iEvent ulParam
          | Some t' =>
              put_doing p (<[i := t']> l);;
              (if (task_state t =? TASK_STATE_DOING) && (task_state t' =? TASK_STATE_DONE)
               then FireEvent GetZonePlayerAgentPtr ntf EVENT_PLAYER_TASK_DONE (Some "task") 0 (t_id t') 0 false;; mret tt
               else mret tt);;
              task_loop fuel (S i) p iEvent ulParam
          end
      end
  end.

(** [GetTaskInfo] counts as a change of the role and makes the task message. *)
Definition Task_event (p iEvent ulParam arg : Z) : M W unit :=
  mutate_role p (fun o => set_doing (doing o) o);;
  l ← get_doing p;
  task_loop (S (length l)) 0 p iEvent ulParam.

End event.

Fixpoint task_event (n : nat) : Z -> Z -> Z -> Z -> M W unit :=
  match n with
  | O => fun _ _ _ _ => crash
  | S n => Task_event (notify Request_ret (task_event n))
  end.

(** ** The part handles an event in one pass *)

Context {TL : TaskAccessLaws}.

(** The world with another role in the place of one. *)
Definition with_role (h : Z) (o : MetaObject) (w : W) : W :=
  w <| zone ::= fun z => z <| m_db ::= fun d => d <| objs ::= <[h := o]> |> |> |>.

Lemma with_role_same h o w : objs (m_db (zone w)) !! h = Some o -> with_role h o w = w.
Proof.
  intros Ho. unfold with_role, setf. simpl. rewrite insert_id by done.
  by destruct w as [? ? [? ? ? ? ? [] ?]].
Qed.

Lemma with_role_twice h o o' w : with_role h o' (with_role h o w) = with_role h o' w.
Proof. unfold with_role, setf. simpl. by rewrite insert_insert_eq. Qed.

(** The role of a player. *)
Definition has_role (p h : Z) (o : MetaObject) (w : W) : Prop :=
  (exists pl, players (zone w) !! p = Some pl /\ pRoleData pl = h) /\ objs (m_db (zone w)) !! h = Some o.

Lemma has_role_with p h o o' w : has_role p h o w -> has_role p h o' (with_role h o' w).
Proof. intros [Hp _]. split; [exact Hp|]. simpl. by rewrite lookup_insert_eq. Qed.

Lemma wp_role_data_task p h o (Q : MetaObject -> W -> Prop) w : has_role p h o w -> Q o w -> wp (role_data p) Q w.
Proof.
  intros [(pl & Hp & <-) Ho] HQ. unfold role_data, player, get_zone. wp_steps. eapply wp_lift; [exact Hp|]. wp_steps.
  apply (wp_zoom (fun w => m_db (zone w)) put_db). unfold deref. wp_steps. eapply wp_lift; [exact Ho|].
  replace (put_db (m_db (zone w)) w) with w; [done|]. by destruct w as [? ? []].
Qed.

Lemma wp_get_doing p h o (Q : list RoleOneTask -> W -> Prop) w : has_role p h o w -> Q (doing o) w -> wp (get_doing p) Q w.
Proof. intros Hr HQ. unfold get_doing. wp_steps. by eapply wp_role_data_task; [exact Hr|]; wp_steps. Qed.

Lemma wp_put_doing p h o l (Q : unit -> W -> Prop) w :
  has_role p h o w -> Q tt (with_role h (set_doing l o) w) -> wp (put_doing p l) Q w.
Proof.
  intros [(pl & Hp & <-) Ho] HQ. unfold put_doing, player, get_zone. wp_steps. eapply wp_lift; [exact Hp|]. wp_steps.
  apply (wp_zoom (fun w => m_db (zone w)) put_db). unfold deref. wp_steps. eapply wp_lift; [exact Ho|]. wp_steps.
  apply (wp_zoom (fun w => m_db (zone w)) put_db). wp_steps. exact HQ.
Qed.

(** Nobody has the id of one of the tasks as a user id. *)
Definition unaddressed (w : W) (t : RoleOneTask) : Prop :=
  GetZonePlayerAgentPtr (zone w) (t_id t) = None /\ m_mpPlayerAgents (ec w) !! t_id t = None.

Lemma task_loop_pass ntf fuel i p h e u o l' evs w :
  has_role p h o w -> Forall (unaddressed w) (doing o) ->
  check_tasks Find fuel i e u (doing o) = Some (l', evs) ->
  wp (task_loop ntf fuel i p e u) (fun _ w' => exists o', w' = with_role h o' w /\ doing o' = l') w.
Proof.
  revert i o l' evs w. induction fuel as [|fuel IH]; intros i o l' evs w Hr Hu E; [done|].
  cbn [task_loop check_tasks] in *. wp_steps. eapply wp_get_doing; [exact Hr|].
  destruct (doing o !! i) as [t|] eqn:Hi.
  2:{ wp_steps. simplify_eq. exists o. split; [|done]. by rewrite with_role_same by apply Hr. }
  assert (unaddressed w t) as Ht by (by eapply Forall_lookup_1).
  destruct (CheckOneTask Find t e u) as [t'|] eqn:Et.
  - destruct (check_tasks Find fuel (S i) e u (<[i := t']> (doing o))) as [[l1 ev1]|] eqn:E1; [|done].
    cbn [mbind option_bind] in E. injection E as <- _. wp_steps. eapply wp_put_doing; [exact Hr|].
    set (w1 := with_role h _ w). assert (t_id t' = t_id t) as Hid by (by eapply CheckOneTask_done).
    assert (wp (if (task_state t =? TASK_STATE_DOING) && (task_state t' =? TASK_STATE_DONE)
      then FireEvent GetZonePlayerAgentPtr ntf EVENT_PLAYER_TASK_DONE (Some "task") 0 (t_id t') 0 false;; mret tt
      else mret tt) (fun _ w' => w' = w1) w1) as Hf.
    { destruct (_ && _); wp_steps; [|done]. unfold wp. rewrite Hid, FireEvent_absent; [|done|apply Ht|apply Ht]. done. }
    wp_steps. eapply wp_mono; [exact Hf|]. intros [] w2 ->.
    eapply wp_mono; [eapply (IH (S i) (set_doing (<[i := t']> (doing o)) o))|].
    + by eapply has_role_with.
    + rewrite doing_set. apply Forall_insert; [exact Hu|]. unfold unaddressed. by rewrite Hid.
    + by rewrite doing_set.
    + intros [] w' (o' & -> & Hd). exists o'. split; [|done]. apply with_role_twice.
  - wp_steps. unfold GetUID. wp_steps. eapply wp_role_data_task; [exact Hr|]. wp_steps.
    eapply wp_put_doing; [exact Hr|]. set (w1 := with_role h _ w).
    eapply wp_mono; [eapply (IH i (set_doing (swap_remove i (doing o)) o))|].
    + by eapply has_role_with.
    + rewrite doing_set. rewrite (swap_remove_perm _ _ _ Hi) in Hu. by apply Forall_cons in Hu as [_ Hu].
    + by rewrite doing_set.
    + intros [] w' (o' & -> & Hd). exists o'. split; [|done]. apply with_role_twice.
Qed.

(** The task part handles an event of a player in one pass. When nobody has the
    id of one of the player's tasks as a user id, the event of every finished
    task, which is addressed by the task's id, reaches nobody: only the role of
    the player changes, which counts one change more. Its tasks are those of
    the pass [Task_OnEvent]: each with a row in the task table checked once,
    the others dropped. *)
Theorem task_event_pass n p e u arg pl o w :
  players (zone w) !! p = Some pl -> objs (m_db (zone w)) !! pRoleData pl = Some o ->
  Forall (unaddressed w) (doing o) ->
  exists l' evs o', Task_OnEvent Find e u (doing o) = Some (l', evs) /\ doing o' = l'
    /\ l' ≡ₚ omap (fun t => CheckOneTask Find t e u) (doing o)
    /\ task_event (S n) p e u arg w
       = Some (tt, with_role (pRoleData pl) o'
           (w <| zone ::= fun z => z <| players ::= alter (fun pl => pl <| p_iDirty := p_iDirty pl + 1 |>) p |> |>)).
Proof.
  intros Hp Ho Hu. destruct (Task_OnEvent_pass Find e u (doing o)) as (l' & evs & E & Hl & _).
  set (w1 := w <| zone ::= fun z => z <| players ::= alter (fun pl => pl <| p_iDirty := p_iDirty pl + 1 |>) p |> |>).
  set (o1 := set_doing (doing o) o).
  assert (has_role p (pRoleData pl) o w1) as Hr.
  { split; [|exact Ho]. exists (pl <| p_iDirty := p_iDirty pl + 1 |>). split; [|done]. simpl.
    by rewrite lookup_alter_eq, Hp. }
  assert (doing o1 = doing o) as Hd by apply doing_set.
  exists l', evs. cut (exists w', task_event (S n) p e u arg w = Some (tt, w')
    /\ exists o', w' = with_role (pRoleData pl) o' w1 /\ doing o' = l').
  { intros (w' & E' & o' & -> & Hd'). by exists o'. }
  apply wp_run_unit. cbn [task_event]. unfold Task_event, mutate_role, upd_player, on_zone. wp_steps.
  unfold player, get_zone. wp_steps. eapply wp_lift; [exact Hp|]. wp_steps.
  eapply wp_lift; [simpl; by rewrite lookup_alter_eq, Hp|]. wp_steps.
  apply (wp_zoom (fun w => m_db (zone w)) put_db). unfold deref. wp_steps. eapply wp_lift; [exact Ho|]. wp_steps.
  apply (wp_zoom (fun w => m_db (zone w)) put_db). wp_steps.
  match goal with |- wp _ _ ?x => change x with (with_role (pRoleData pl) o1 w1) end.
  eapply wp_get_doing; [by eapply has_role_with|].
  eapply wp_mono; [eapply (task_loop_pass _ _ 0 p (pRoleData pl) e u o1)|].
  - by eapply has_role_with.
  - rewrite Hd. exact Hu.
  - rewrite Hd. exact E.
  - intros [] w' (o' & -> & Hd'). exists o'. split; [|done]. apply with_role_twice.
Qed.

End ZoneTask.
