(* ===== verification/ZoneAgentMgr.v ===== *)
(** * Messages to the zone server ([rgtd/zone/ZoneAgentMgr.cpp], [ZoneAgent.cpp],
    [logic/CSMsgDispatcher.cpp], [cs_handler])

    The manager takes the messages of the gates apart: a client that connects or
    closes goes to the sessions of its area, and what a client sends goes to the
    handler of its command. *)

From S2P Require Import Prelude CString Extern TimerMgr EventCenter PlayerLogic.
From S2P Require Import Channel ChannelMsgProxy GateMsg ClientMsg GateServerHandler MysqlProxy MetaSerializer DBAgent DataCommon ZoneSession.

(** What happens to the zone server: a message of a gate, an answer of the database,
    a timer that runs out. *)
Inductive ZoneEvent :=
| GateMessage (msg : ChannelMessage)
| DBResponse (rsp : MysqlResponse)
| TimerExpired (iEvent ulParam : Z).

Section ZoneAgentMgr.
Context {P : Type} {MP : MsgProxy P} {R : Reflection} {B0 : BufferLib}.
Context {CSS : Codec GateSSMsg} {CCS : Codec CSMsg} {CO : Coroutines}.
Context (Role_new : MetaObject) (Request_ret : list MysqlRequest -> Z).
Context (task_OnEvent : Z -> Z -> Z -> Z -> M (EventW (ZoneAgentMgr P)) unit).
Abbreviation W := (EventW (ZoneAgentMgr P)).

(** [LuaContext::CallFunction] with a session and a message: its result, and the
    function's. *)
Context (CallFunction : string -> Z -> CSMsg -> M W (Z * Z)).

(** ** Sending to a client *)

(** [SessionMgr::PackCSMsg]: [None] is [-1]. The buffer is kept for the next
    message. *)
Definition PackCSMsg (area : Z) (csmsg : CSMsg) : M W (option bytes) :=
  let len := ByteSize csmsg in
  if (len <=? 0) || (MAX_CHANNEL_MESSAGE_SIZE <=? len) then mret None
  else
    z ← get_zone (fun z => z);
    a ← lift (GetAgent area z);
    b ← (if iCap (m_msgPackBuffer a) <? len then lift (buffer_Create len) else mret (m_msgPackBuffer a));
    upd_agent area (fun a => a <| m_msgPackBuffer := b |>);;
    match SerializeToArray csmsg len with
    | None => mret None
    | Some d =>
        m ← lift (memcpy_at (iCap b) 0 d (pBuffer b));
        upd_agent area (fun a => a <| m_msgPackBuffer := b <| pBuffer := m |> <| iUsed := len |> |>);;
        mret (Some (take (Z.to_nat len) m))
    end.

Definition Send (s : Z) (csmsg : CSMsg) : M W Z :=
  x ← session s;
  if (s_state x =? PLAYER_STATE_LOADING) || (s_state x =? PLAYER_STATE_CREATING)
     || (s_state x =? PLAYER_STATE_PLAYING) then
    r ← PackCSMsg (s_mgr x) csmsg;
    match r with
    | None => mret (-1)
    | Some buffer => ResponseClient s EVENT_DATA 0 (Some buffer)
    end
  else mret (-1).

(** ** Handlers *)

Definition GetPlayerRoleBase (p : Z) : M W CSRoleBase :=
  uid ← GetUID p;
  name ← GetName p;
  mret (mkCSRoleBase uid (Some name) (Some GetLevel)).
Definition GetPlayerRoleExt (p : Z) : M W CSRoleExt := uid ← GetUID p; mret (mkCSRoleExt (Some (u32 uid))).
Definition GetPlayerRoleMisc (p : Z) : M W CSRoleMisc := uid ← GetUID p; mret (mkCSRoleMisc (Some (u32 uid))).

(** [*session.GetPlayerAgent()]. *)
Definition session_player (s : Z) : M W Z := x ← session s; lift (s_player x).

(** The answer to a role request; [None] for a command it does not know. *)
Definition role_response (s cmd : Z) : M W (option CSMsgRole) :=
  if cmd =? CSMSG_ROLE_ALL_INFO_REQ then
    p ← session_player s;
    b ← GetPlayerRoleBase p; e ← GetPlayerRoleExt p; m ← GetPlayerRoleMisc p;
    mret (Some (mkCSMsgRole CSMSG_ROLE_ALL_INFO_RSP (Some (mkCSRole b e m)) None None None))
  else if cmd =? CSMSG_ROLE_BASE_INFO_REQ then
    p ← session_player s;
    b ← GetPlayerRoleBase p;
    mret (Some (mkCSMsgRole CSMSG_ROLE_BASE_INFO_RSP None (Some b) None None))
  else if cmd =? CSMSG_ROLE_EXT_INFO_REQ then
    p ← session_player s;
    e ← GetPlayerRoleExt p;
    mret (Some (mkCSMsgRole CSMSG_ROLE_EXT_INFO_RSP None None (Some e) None))
  else if cmd =? CSMSG_ROLE_MISC_INFO_REQ then
    p ← session_player s;
    m ← GetPlayerRoleMisc p;
    mret (Some (mkCSMsgRole CSMSG_ROLE_MISC_INFO_RSP None None None (Some m)))
  else mret None.

(** [CSRoleHandler::OnPlayingMsg]. *)
Definition Role_OnPlayingMsg (s : Z) (msg : CSMsg) : M W Z :=
  match csm_role msg with
  | None => mret (-1)
  | Some rolemsgreq =>
      r ← role_response s (role_cmd rolemsgreq);
      (match r with
       | Some role => Send s (mkCSMsg CSMSG_CMD_ROLE None (Some role));; mret tt
       | None => mret tt
       end);;
      mret 0
  end.

(** [CSMsgLuaHandler::OnCreatingMsg] and [OnPlayingMsg]. *)
Definition Lua_OnMsg (fn : string) (s : Z) (msg : CSMsg) : M W Z :=
  r ← CallFunction fn s msg;
  if negb (r.1 =? 0) then mret (-1) else mret r.2.

Definition OnCreatingMsg (h : CSMsgHandler) (s : Z) (msg : CSMsg) : M W Z :=
  match h with CSRoleHandler => mret 0 | CSMsgLuaHandler => Lua_OnMsg "OnCreatingMsg" s msg end.
Definition OnPlayingMsg (h : CSMsgHandler) (s : Z) (msg : CSMsg) : M W Z :=
  match h with CSRoleHandler => Role_OnPlayingMsg s msg | CSMsgLuaHandler => Lua_OnMsg "OnPlayingMsg" s msg end.

(** [CSMsgHandler::Handle]. *)
Definition Handle (h : CSMsgHandler) (s : Z) (msg : CSMsg) : M W Z :=
  x ← session s;
  if s_state x =? PLAYER_STATE_CREATING then OnCreatingMsg h s msg
  else if s_state x =? PLAYER_STATE_PLAYING then OnPlayingMsg h s msg
  else mret (-1).

(** ** The dispatcher *)

Definition RegisterCSMsgHandler (cmd : Z) (handler : CSMsgHandler) (a : ZoneAgent) : Z * ZoneAgent :=
  match m_mpHandlers a !! cmd with
  | Some _ => (-1, a)
  | None => (0, a <| m_mpHandlers ::= <[cmd := handler]> |>)
  end.

Definition IsListeningMsg (cmd : Z) (l : gset Z) : bool := bool_decide (cmd ∈ l).
Definition RegisterCMD (cmd : Z) (l : gset Z) : Z * gset Z :=
  if bool_decide (cmd ∈ l) then (-1, l) else (0, {[cmd]} ∪ l).

(** [GetMsgHandler]: without a Lua handler, the pointer to it is null. *)
Definition GetMsgHandler (cmd : Z) (a : ZoneAgent) : option (option CSMsgHandler) :=
  match m_mpHandlers a !! cmd with
  | Some h => Some (Some h)
  | None =>
      l ← m_setluahandlers a;
      Some (if IsListeningMsg cmd l then Some CSMsgLuaHandler else None)
  end.

Definition Dispatch (area s : Z) (csmsg : CSMsg) : M W Z :=
  z ← get_zone (fun z => z);
  a ← lift (GetAgent area z);
  h ← lift (GetMsgHandler (csm_cmd csmsg) a);
  match h with
  | Some h => Handle h s csmsg
  | None => mret (-100)
  end.

(** [CSMsgLuaHandler::Init]: the results of [LuaContext::Init], of [LoadFile] and of
    the call of the script's [cs_handler_init], which registers commands. *)
Definition CSMsgLuaHandler_Init (ctx load init : Z) (cmds : list Z) : Z * gset Z :=
  if negb (ctx =? 0) then (-1, ∅)
  else if negb (load =? 0) then (-1, ∅)
  else (if negb (init =? 0) then -1 else 0, foldl (fun l cmd => (RegisterCMD cmd l).2) ∅ cmds).

(** What the Lua library does in that. *)
Context (lua_Init lua_LoadFile lua_cs_handler_init : Z) (lua_cmds : list Z).

(** [SetupAllCSMsgHandler]: a Lua handler that failed stays. *)
Definition SetupAllCSMsgHandler (a : ZoneAgent) : Z * ZoneAgent :=
  let '(ret, l) := CSMsgLuaHandler_Init lua_Init lua_LoadFile lua_cs_handler_init lua_cmds in
  let a := a <| m_setluahandlers := Some l |> in
  if negb (ret =? 0) then (-1, a)
  else (0, (RegisterCSMsgHandler CSMSG_CMD_ROLE CSRoleHandler a).2).

(** [SessionMgr::Init] and [ZoneAgent::Init]. *)
Definition ZoneAgent_Init (area : Z) : M W Z :=
  z ← get_zone (fun z => z);
  a ← lift (GetAgent area z);
  let '(ret, a) := SetupAllCSMsgHandler a in
  upd_agent area (fun _ => a);;
  mret (if negb (ret =? 0) then -1 else 0).

(** ** Zone agents *)

Definition DispatchPlayerAgentMsg (area : Z) (ggc : GateSSMsg) (csmsg : CSMsg) : M W Z :=
  let uid := GetRoleID (ss_uid ggc) (ss_area ggc) in
  z ← get_zone (fun z => z);
  a ← lift (GetAgent area z);
  match FindSession uid a with
  | None => mret (-1)
  | Some s => Dispatch area s csmsg
  end.

Definition AttachAgent (area gateid : Z) (ggc : GateSSMsg) : M W Z :=
  let uid := GetRoleID (ss_uid ggc) (ss_area ggc) in
  ret ← CreateSession Role_new Request_ret task_OnEvent area uid gateid ggc;
  mret (if negb (ret =? 0) then -1 else 0).

Definition DetachPlayerAgent (area gateid : Z) (ggc : GateSSMsg) : M W Z :=
  let uid := GetRoleID (ss_uid ggc) (ss_area ggc) in
  StopSession Request_ret task_OnEvent area gateid (ss_idx ggc) uid.

(** ** The manager *)

Definition AddZone (dwZoneID : Z) (agent : ZoneAgent) : M W Z :=
  z ← get_zone (fun z => z);
  match m_mpZoneAgent z !! dwZoneID with
  | Some _ => mret (-1)
  | None => on_zone (fun z => z <| m_mpZoneAgent ::= <[dwZoneID := agent]> |>);; mret 0
  end.

Definition ZoneAgent_new (i : Z) : ZoneAgent := mkZoneAgent i ∅ ∅ None (mkBuffer 0 0 []).

Fixpoint add_zones (areas : list Z) : M W Z :=
  match areas with
  | [] => mret 0
  | i :: areas =>
      r ← AddZone i (ZoneAgent_new i);
      if negb (r =? 0) then mret (-1)
      else
        r ← ZoneAgent_Init i;
        if negb (r =? 0) then mret (-1) else add_zones areas
  end.

(** The subscription to the gates' channels at the proxy. *)
Context (SubscribeScatterMsg : list Z -> M P Z).

(** [ZoneAgentMgr::Init] with the areas and gates of the configuration, both sets in
    order. *)
Definition Init (areas gates : list Z) : M W Z :=
  EventCenter.Init;;
  on_db (AddListener "Role" RoleDBListener);;
  on_db (AddListener "Account" (AccountDBListener "D"));;
  on_db (AddListener "AccountLR" (AccountDBListener "R"));;
  on_db (AddListener "AccountRL" (AccountDBListener "L"));;
  r ← add_zones areas;
  if negb (r =? 0) then mret (-1)
  else
    zoom (fun w : W => m_chnlProxy (zone w)) (fun p w => w <| zone ::= fun z => z <| m_chnlProxy := p |> |>)
      (SubscribeScatterMsg gates);;
    mret 0.

(** [OnGateMessage]; a message shorter than its head is read past its end. *)
Definition OnGateMessage (msg : ChannelMessage) : M W Z :=
  ggclen ← lift (read_u16 (pData msg));
  if dwSize msg <? ggclen + PROXY_CHANNEL_MESSAGE_HEAD_SIZE then mret (-1)
  else
    head ← lift (slice PROXY_CHANNEL_MESSAGE_HEAD_SIZE ggclen (pData msg));
    match parse head with
    | None => mret (-1)
    | Some ggc =>
        z ← get_zone (fun z => z);
        match GetAgent (ss_area ggc) z with
        | None => mret (-1)
        | Some _ =>
            let csmsglen := dwSize msg - ggclen - PROXY_CHANNEL_MESSAGE_HEAD_SIZE in
            if ss_event ggc =? EVENT_CONNECTED then AttachAgent (ss_area ggc) (iSrc msg) ggc
            else if ss_event ggc =? EVENT_CLOSE then DetachPlayerAgent (ss_area ggc) (iSrc msg) ggc
            else if ss_event ggc =? EVENT_DATA then
              pcsmsg ← lift (slice (PROXY_CHANNEL_MESSAGE_HEAD_SIZE + ggclen) csmsglen (pData msg));
              match parse pcsmsg with
              | None => mret (-1)
              | Some csmsg => DispatchPlayerAgentMsg (ss_area ggc) ggc csmsg
              end
            else mret (-1)
        end
    end.

(** ** Events from outside *)

(** Players that the event centre held and may not hold any more. *)
Fixpoint release_players (l : list Z) : M W unit :=
  match l with [] => mret tt | p :: l => release_player (Some p);; release_players l end.

Definition OnTimer (iEvent ulParam : Z) : M W unit :=
  w ← gets (fun w => w);
  EventCenter.OnTimer GetZonePlayerAgentPtr (notify Request_ret task_OnEvent) iEvent ulParam;;
  release_players (map_to_list (m_mpPlayerAgents (ec w))).*2.

Context {T : MysqlMeta.MysqlText}.

Definition zone_step (e : ZoneEvent) : M W Z :=
  match e with
  | GateMessage msg => OnGateMessage msg
  | DBResponse rsp =>
      DispatchResult (fun w => m_db (zone w)) put_db (listen Role_new Request_ret task_OnEvent) rsp
  | TimerExpired iEvent ulParam => OnTimer iEvent ulParam;; mret 0
  end.

Fixpoint zone_run (es : list ZoneEvent) : M W (list Z) :=
  match es with
  | [] => mret []
  | e :: es => r ← zone_step e; rs ← zone_run es; mret (r :: rs)
  end.

End ZoneAgentMgr.
