(* ===== verification/ZoneInvariant.v ===== *)
(** * The invariant of the zone server

    Every step of the zone server keeps its pointers valid: what the session maps,
    the coroutines, the sessions and the event centre point to is there, sessions
    are filed under their user and area, and a session that plays has a player. *)

From S2P Require Import Prelude CString Extern TimerMgr EventCenter PlayerLogic.
From S2P Require Import Channel ChannelMsgProxy GateMsg GateServerHandler MysqlProxy MetaSerializer DBAgent DataCommon.
From S2P Require Import ZoneSession ZoneTask ClientMsg ZoneAgentMgr.

Section invariant.
Context {P : Type} {MP : MsgProxy P} {R : Reflection}.
Abbreviation W := (EventW (ZoneAgentMgr P)).
Implicit Types (w : W) (z : ZoneAgentMgr P).

(** A coroutine that has made a role keeps a session with a player. *)
Definition co_ok (z : ZoneAgentMgr P) (c : Co) : Prop :=
  exists x, sessions z !! co_session c = Some x
    /\ match c with LoginInserted _ => is_Some (s_player x) | _ => True end.

(** A session whose user and area are followed through an operation. *)
Context (pin : option (Z * Z * Z)).

Record zone_inv (w : W) : Prop := {
  inv_pin : forall s uid area x, pin = Some (s, uid, area) -> sessions (zone w) !! s = Some x ->
    s_uid x = uid /\ s_mgr x = area;
  inv_map : forall area a uid s, m_mpZoneAgent (zone w) !! area = Some a -> m_mpSessions a !! uid = Some (Some s) ->
    exists x, sessions (zone w) !! s = Some x /\ s_uid x = uid /\ s_mgr x = area;
  inv_co : forall coid c, cos (zone w) !! coid = Some c -> co_ok (zone w) c;
  inv_player : forall s x p, sessions (zone w) !! s = Some x -> s_player x = Some p -> is_Some (players (zone w) !! p);
  inv_ec : forall uid p, m_mpPlayerAgents (ec w) !! uid = Some p -> is_Some (players (zone w) !! p);
  inv_playing : forall s x, sessions (zone w) !! s = Some x -> s_state x = PLAYER_STATE_PLAYING -> is_Some (s_player x);
  inv_next : forall s, next_ptr (zone w) <= s -> sessions (zone w) !! s = None /\ players (zone w) !! s = None
}.

(** What the invariant reads. *)
Definition footprint (w : W) :=
  (m_mpZoneAgent (zone w), sessions (zone w), players (zone w), cos (zone w), next_ptr (zone w), m_mpPlayerAgents (ec w)).

Lemma footprint_inv w w' : footprint w' = footprint w -> zone_inv w -> zone_inv w'.
Proof.
  unfold footprint. intros E [H0 H1 H2 H3 H4 H5 H6]. injection E as E1 E2 E3 E4 E5 E6.
  split; unfold co_ok in *; rewrite ?E1, ?E2, ?E3, ?E4, ?E5, ?E6; auto.
Qed.

Lemma pres_footprint {A} (m : M W A) : keeps footprint m -> pres zone_inv m.
Proof. intros Hk w a w' Hw E. by eapply footprint_inv; [eapply Hk|]. Qed.

Lemma keeps_zoom_fp {S A} (get : W -> S) put (m : M S A) :
  (forall t w, footprint (put t w) = footprint w) -> keeps footprint (zoom get put m).
Proof.
  intros Hp w a w'. unfold zoom. destruct (m (get w)) as [[]|]; [|done]. intros E. by simplify_eq.
Qed.

Lemma keeps_on_db {A} (m : M (DBAgent Listener) A) : keeps footprint (on_db m : M W A).
Proof. apply keeps_zoom_fp. reflexivity. Qed.
Lemma keeps_on_timer {A} (m : M (TimerMgr EventTimer) A) : keeps footprint (on_timer m : M W A).
Proof. apply keeps_zoom_fp. reflexivity. Qed.

Lemma session_read s w x w' : session s w = Some (x, w') -> sessions (zone w) !! s = Some x /\ w' = w.
Proof.
  unfold session, get_zone, gets, mbind, M_bind, lift, mret, M_ret. destruct (sessions (zone w) !! s); [|done].
  intros E. by simplify_eq/=.
Qed.
Lemma player_run p w x w' : player p w = Some (x, w') -> players (zone w) !! p = Some x /\ w' = w.
Proof.
  unfold player, get_zone, gets, mbind, M_bind, lift, mret, M_ret. destruct (players (zone w) !! p); [|done].
  intros E. by simplify_eq/=.
Qed.

Lemma keeps_session {T} (f : W -> T) s : keeps f (session s).
Proof. intros w x w' [_ ->]%session_read. done. Qed.
Lemma keeps_player {T} (f : W -> T) p : keeps f (player p).
Proof. intros w x w' [_ ->]%player_run. done. Qed.
Hint Resolve keeps_session keeps_player keeps_on_db keeps_on_timer : keeps.

Lemma wlp_session s (Q : Session -> W -> Prop) w :
  (forall x, sessions (zone w) !! s = Some x -> Q x w) -> wlp (session s) Q w.
Proof. intros HQ. apply wlp_intro. intros x w' [E ->]%session_read. auto. Qed.
Lemma wlp_player p (Q : PlayerAgent -> W -> Prop) w :
  (forall x, players (zone w) !! p = Some x -> Q x w) -> wlp (player p) Q w.
Proof. intros HQ. apply wlp_intro. intros x w' [E ->]%player_run. auto. Qed.

(** ** Changes that keep the invariant *)

Lemma inv_upd_session w s f :
  zone_inv w ->
  (forall x, sessions (zone w) !! s = Some x ->
     s_uid (f x) = s_uid x /\ s_mgr (f x) = s_mgr x
     /\ (forall p, s_player (f x) = Some p -> is_Some (players (zone w) !! p))
     /\ (is_Some (s_player x) -> is_Some (s_player (f x)))
     /\ (s_state (f x) = PLAYER_STATE_PLAYING -> is_Some (s_player (f x)))) ->
  zone_inv (w <| zone ::= fun z => z <| sessions ::= alter f s |> |>).
Proof.
  intros [H0 H1 H2 H3 H4 H5 H6] Hf. split; simpl.
  - intros s' uid area x Hpin [(-> & x0 & Hx & E)|[Hne Hx]]%lookup_alter_Some; [|by eauto].
    subst x. destruct (Hf x0 Hx) as (-> & -> & _). eauto.
  - intros area a uid s' Ha Hs. destruct (H1 _ _ _ _ Ha Hs) as (x & Hx & Hu & Hm).
    destruct (decide (s' = s)) as [->|Hne].
    + exists (f x). rewrite lookup_alter_eq, Hx. simpl. destruct (Hf x Hx) as (-> & -> & _). done.
    + exists x. by rewrite lookup_alter_ne.
  - intros coid c Hc. destruct (H2 _ _ Hc) as (x & Hx & Hp). unfold co_ok. simpl.
    destruct (decide (co_session c = s)) as [<-|Hne].
    + exists (f x). rewrite lookup_alter_eq, Hx. split; [done|]. destruct (Hf x Hx) as (_ & _ & _ & Hk & _).
      destruct c; auto.
    + exists x. by rewrite lookup_alter_ne.
  - intros s' x p [(-> & x0 & Hx & E)|[Hne Hx]]%lookup_alter_Some Hp.
    + subst x. destruct (Hf x0 Hx) as (_ & _ & Hk & _). auto.
    + eauto.
  - done.
  - intros s' x [(-> & x0 & Hx & E)|[Hne Hx]]%lookup_alter_Some Hst.
    + subst x. destruct (Hf x0 Hx) as (_ & _ & _ & _ & Hk). auto.
    + eauto.
  - intros s' Hs'. destruct (H6 s' Hs') as [E1 E2]. split; [|done].
    apply eq_None_not_Some. intros [y [(_ & x0 & Hx & _)|[_ Hx]]%lookup_alter_Some]; congruence.
Qed.
(** [F] is what an operation reads and leaves alone. *)
Lemma wlp_keeps {T A} (f : W -> T) (m : M W A) (Q : A -> W -> Prop) w :
  keeps f m -> (forall a w', f w' = f w -> Q a w') -> wlp m Q w.
Proof. intros Hk HQ. apply wlp_intro. intros a w' E. apply HQ. by eapply Hk. Qed.

Lemma inv_alter_player w p f :
  zone_inv w -> zone_inv (w <| zone ::= fun z => z <| players ::= alter f p |> |>).
Proof.
  intros [H0 H1 H2 H3 H4 H5 H6]. assert (forall q, is_Some (players (zone w) !! q) ->
    is_Some (alter f p (players (zone w)) !! q)) as Ha.
  { intros q [y Hq]. destruct (decide (q = p)) as [->|].
    - rewrite lookup_alter_eq, Hq. by eexists.
    - rewrite lookup_alter_ne by done. by eexists. }
  split; simpl; auto.
  - eauto.
  - eauto.
  - intros q Hq. destruct (H6 q Hq) as [E1 E2]. split; [done|].
    apply eq_None_not_Some. intros [y [(_ & x0 & Hx & _)|[_ Hx]]%lookup_alter_Some]; congruence.
Qed.

Lemma player_not_held p w :
  player_held p w = false ->
  (forall s x, sessions (zone w) !! s = Some x -> s_player x <> Some p)
  /\ (forall uid, m_mpPlayerAgents (ec w) !! uid <> Some p).
Proof.
  unfold player_held. intros [E1 E2]%orb_false_iff. apply bool_decide_eq_false in E1, E2.
  split; [intros s x Hs Hp; apply E1|intros uid Hp; apply E2]; by repeat eexists.
Qed.

Lemma session_not_held s z :
  session_held s z = false ->
  (forall area a uid, m_mpZoneAgent z !! area = Some a -> m_mpSessions a !! uid <> Some (Some s))
  /\ (forall coid c, cos z !! coid = Some c -> co_session c <> s).
Proof.
  unfold session_held. intros [E1 E2]%orb_false_iff. apply bool_decide_eq_false in E1, E2.
  split; [intros area a uid Ha Hp; apply E1|intros coid c Hc Hp; apply E2]; by repeat eexists.
Qed.

Lemma inv_delete_player w p :
  zone_inv w -> player_held p w = false -> zone_inv (w <| zone ::= fun z => z <| players ::= delete p |> |>).
Proof.
  intros [H0 H1 H2 H3 H4 H5 H6] [Hs He]%player_not_held. split; simpl; auto.
  - intros s x q Hx Hq. rewrite lookup_delete_ne; [eauto|]. intros ->. by eapply Hs.
  - intros uid q Hq. rewrite lookup_delete_ne; [eauto|]. intros ->. by eapply He.
  - intros q Hq. destruct (H6 q Hq) as [E1 E2]. split; [done|]. destruct (decide (p = q)) as [->|].
    + apply lookup_delete_eq.
    + by rewrite lookup_delete_ne.
Qed.

Lemma inv_delete_session w s :
  zone_inv w -> session_held s (zone w) = false ->
  zone_inv (w <| zone ::= fun z => z <| sessions ::= delete s |> |>).
Proof.
  intros [H0 H1 H2 H3 H4 H5 H6] [Hm Hc]%session_not_held. split; simpl; auto.
  - intros s' uid area x Hpin [_ Hx]%lookup_delete_Some. eauto.
  - intros area a uid s' Ha Hs. destruct (H1 _ _ _ _ Ha Hs) as (x & Hx & Hu). exists x.
    rewrite lookup_delete_ne; [done|]. intros ->. by eapply Hm.
  - intros coid c Hco. destruct (H2 _ _ Hco) as (x & Hx & Hp). exists x. simpl.
    rewrite lookup_delete_ne; [done|]. intros ->. by eapply Hc.
  - intros s' x p [_ Hx]%lookup_delete_Some. eauto.
  - intros s' x [_ Hx]%lookup_delete_Some. eauto.
  - intros q Hq. destruct (H6 q Hq) as [E1 E2]. split; [|done]. destruct (decide (s = q)) as [->|].
    + apply lookup_delete_eq.
    + by rewrite lookup_delete_ne.
Qed.

Lemma pres_release_player p : pres zone_inv (release_player p).
Proof.
  apply wlp_pres. intros w Hw. destruct p as [p|]; [|by apply wlp_ret]. unfold release_player. wlp_steps.
  destruct (player_held p w) eqn:Eh; [by apply wlp_ret|]. destruct (bool_decide _); [|by apply wlp_ret].
  cbn [orb negb]. unfold PlayerAgent_delete. wlp_steps. apply wlp_player. intros pl Hpl. wlp_steps.
  eapply wlp_keeps; [apply keeps_on_db|]. intros _ w' Hf. unfold on_zone. wlp_steps.
  apply inv_delete_player; [by eapply footprint_inv|]. unfold footprint in Hf. injection Hf as E1 E2 E3 E4 E5 E6.
  unfold player_held in *. by rewrite E2, E6.
Qed.

Lemma pres_release_session s : pres zone_inv (release_session s).
Proof.
  apply wlp_pres. intros w Hw. unfold release_session, get_zone. wlp_steps.
  destruct (session_held s (zone w)) eqn:Eh; [by apply wlp_ret|]. wlp_steps. apply wlp_session. intros x Hx.
  unfold on_zone. wlp_steps. apply pres_wlp; [apply pres_release_player|]. by apply inv_delete_session.
Qed.
Hint Resolve pres_release_player pres_release_session : pres.

(** Events with a delay. *)
Lemma online_player w uid p : zone_inv w -> GetZonePlayerAgentPtr (zone w) uid = Some p -> is_Some (players (zone w) !! p).
Proof.
  intros Hw. unfold GetZonePlayerAgentPtr.
  destruct (GetZoneAgentByArea _ _) as [a|]; [|done]. simpl. destruct (FindSession uid a) as [s|]; [|done]. simpl.
  destruct (sessions (zone w) !! s) as [x|] eqn:Ex; [|done]. simpl. intros Hp. by eapply inv_player.
Qed.

Lemma keeps_GenerateDelayEvent code recv secs uid arg :
  keeps footprint (GenerateDelayEvent code recv secs uid arg : M W Z).
Proof. unfold GenerateDelayEvent, on_ec. keeps_auto. Qed.
Hint Resolve keeps_GenerateDelayEvent : keeps.

Lemma inv_ec_insert w uid p :
  zone_inv w -> is_Some (players (zone w) !! p) ->
  zone_inv (w <| ec ::= fun e => e <| m_mpPlayerAgents ::= <[uid := p]> |> |>).
Proof.
  intros [H0 H1 H2 H3 H4 H5 H6] Hp. split; simpl; auto.
  intros u q [[-> ->]|[_ Hq]]%lookup_insert_Some; eauto.
Qed.

Lemma inv_ec_delete w uid :
  zone_inv w -> zone_inv (w <| ec ::= fun e => e <| m_mpPlayerAgents ::= delete uid |> |>).
Proof.
  intros [H0 H1 H2 H3 H4 H5 H6]. split; simpl; auto. intros u q [_ Hq]%lookup_delete_Some. eauto.
Qed.

Lemma pres_FireEvent notify code recv secs uid arg exp :
  (forall p c u r a, pres zone_inv (notify p c u r a)) ->
  pres zone_inv (FireEvent GetZonePlayerAgentPtr notify code recv secs uid arg exp).
Proof.
  intros Hn. apply wlp_pres. intros w Hw. unfold FireEvent.
  destruct (_ && _); [by apply wlp_ret|]. destruct (_ && _); [|by apply wlp_ret].
  destruct (_ <? secs); [by apply wlp_ret|]. wlp_steps.
  assert (forall p, match GetZonePlayerAgentPtr (zone w) uid with
    | Some q => Some q | None => if 0 <? secs then None else m_mpPlayerAgents (ec w) !! uid end = Some p ->
    is_Some (players (zone w) !! p)) as Hp.
  { intros p. destruct (GetZonePlayerAgentPtr _ _) as [q|] eqn:Eq.
    - intros [= <-]. by eapply online_player.
    - destruct (0 <? secs); [done|]. by apply inv_ec. }
  destruct (match _ with Some _ => _ | None => _ end) as [p|]; [|by apply wlp_ret].
  specialize (Hp p eq_refl). destruct (0 <? secs); unfold on_ec; wlp_steps.
  - apply pres_wlp; [apply pres_footprint, keeps_GenerateDelayEvent|]. by apply inv_ec_insert.
  - eapply wlp_mono; [apply pres_wlp; [apply Hn|exact Hw]|]. intros [] w' Hw'. cbv beta in Hw'.
    destruct exp; wlp_steps; [by apply inv_ec_delete|done].
Qed.

Lemma pres_FireEvent_later code recv secs uid arg :
  pres zone_inv (FireEvent_later code recv secs uid arg).
Proof.
  unfold FireEvent_later. pres_auto. by apply pres_FireEvent.
Qed.
Hint Resolve pres_FireEvent_later : pres.

(** ** The parts of a player *)

Context {B0 : BufferLib} {CSS : Codec GateSSMsg} {CCS : Codec CSMsg} {CO : Coroutines}.
Context (Role_new : MetaObject) (Request_ret : list MysqlRequest -> Z).
Context (task_OnEvent : Z -> Z -> Z -> Z -> M W unit).
Context (task_pres : forall p e u a, pres zone_inv (task_OnEvent p e u a)).

Lemma pres_on_db {A} (m : M (DBAgent Listener) A) : pres zone_inv (on_db m).
Proof. apply pres_footprint, keeps_on_db. Qed.
Lemma pres_session s : pres zone_inv (session s).
Proof. apply pres_footprint, keeps_session. Qed.
Lemma pres_player p : pres zone_inv (player p).
Proof. apply pres_footprint, keeps_player. Qed.
Lemma pres_on_timer {A} (m : M (TimerMgr EventTimer) A) : pres zone_inv (on_timer m : M W A).
Proof. apply pres_footprint, keeps_on_timer. Qed.
Lemma pres_get_zone {A} (f : ZoneAgentMgr P -> A) : pres zone_inv (get_zone f : M W A).
Proof. apply pres_gets. Qed.
Hint Resolve pres_on_db pres_session pres_player pres_on_timer pres_get_zone : pres.

Lemma pres_role_data p : pres zone_inv (role_data p).
Proof. unfold role_data. pres_auto. Qed.
Lemma pres_GetUID p : pres zone_inv (GetUID p).
Proof. unfold GetUID, role_data. pres_auto. Qed.
Lemma pres_GetName p : pres zone_inv (GetName p).
Proof. unfold GetName, role_data. pres_auto. Qed.
Lemma pres_upd_player p f : pres zone_inv (upd_player p f).
Proof. unfold upd_player. pres_auto. apply pres_modify. intros w Hw. by apply inv_alter_player. Qed.
Hint Resolve pres_GetUID pres_GetName pres_upd_player : pres.

Lemma pres_mutate_role p f : pres zone_inv (mutate_role p f).
Proof. unfold mutate_role. pres_auto. Qed.
Hint Resolve pres_mutate_role : pres.

Lemma pres_on_part p f : pres zone_inv (on_part (player_part p) (put_player_part p) f : M W unit).
Proof. apply pres_modify. intros w Hw. by apply inv_alter_player. Qed.
Hint Resolve pres_on_part : pres.

Lemma keeps_UpdateRole uid role coid reason : keeps footprint (UpdateRole Request_ret uid role coid reason).
Proof. unfold UpdateRole, or_yield. keeps_auto. Qed.
Lemma keeps_InsertRole uid role coid : keeps footprint (InsertRole Request_ret uid role coid).
Proof. unfold InsertRole, or_yield. keeps_auto. Qed.
Lemma keeps_GetRole uid reason coid tr : keeps footprint (GetRole Role_new Request_ret uid reason coid tr).
Proof. unfold GetRole, or_yield. keeps_auto. Qed.
Lemma pres_UpdateRole uid role coid reason : pres zone_inv (UpdateRole Request_ret uid role coid reason).
Proof. apply pres_footprint, keeps_UpdateRole. Qed.
Hint Resolve pres_UpdateRole : pres.

Abbreviation parts := (ptrLogic Request_ret task_OnEvent).

Lemma parts_eq p : parts p = [autosync Request_ret p; knapsack p; task task_OnEvent p].
Proof. reflexivity. Qed.

Lemma pres_parts p l : l ∈ parts p ->
  pres zone_inv (OnAttach l) /\ pres zone_inv (OnDetach l) /\ pres zone_inv (OnInitBirthPlayer l)
  /\ forall e u a, pres zone_inv (OnEvent l e u a).
Proof.
  rewrite parts_eq, !elem_of_cons, elem_of_nil. intros [->|[->|[->|[]]]]; simpl.
  - unfold AutoSync_OnAttach, AutoSync_OnDetach, AutoSync_OnEvent, UpdateRole_period. split_and!; intros; pres_auto.
  - split_and!; intros; pres_auto.
  - split_and!; intros; pres_auto.
Qed.

Lemma pres_visit_all f (l : list (PlayerLogic W)) :
  (forall x, x ∈ l -> pres zone_inv (f x)) -> pres zone_inv (visit_all f l).
Proof.
  induction l as [|x l IH]; intros Hf; [apply pres_ret|]. cbn [visit_all].
  apply pres_bind; [apply Hf; left|]. intros _. apply IH. intros y Hy. apply Hf. by right.
Qed.

Lemma pres_Attach p : pres zone_inv (Attach (parts p)).
Proof. apply pres_visit_all. intros l Hl. by apply (pres_parts p l). Qed.
Lemma pres_Detach p : pres zone_inv (Detach (parts p)).
Proof. apply pres_visit_all. intros l Hl. by apply (pres_parts p l). Qed.
Lemma pres_InitBirthPlayer p : pres zone_inv (InitBirthPlayer (parts p)).
Proof. apply pres_visit_all. intros l Hl. by apply (pres_parts p l). Qed.
Hint Resolve pres_Attach pres_Detach pres_InitBirthPlayer : pres.

Lemma logic_find_in name (l : list (PlayerLogic W)) x : logic_find name l = Some x -> x ∈ l.
Proof.
  induction l as [|y l IH]; [done|]. simpl. destruct (String.eqb _ _).
  - intros [= ->]. left.
  - intros E. right. auto.
Qed.

Lemma pres_notify p e u name a : pres zone_inv (notify Request_ret task_OnEvent p e u name a).
Proof.
  unfold notify, NotifyEvent. destruct name as [name|].
  - destruct (logic_find name (parts p)) as [l|] eqn:El; [|apply pres_ret].
    apply logic_find_in in El. by apply (pres_parts p l).
  - apply pres_visit_all. intros l Hl. by apply (pres_parts p l).
Qed.

(** ** Sessions *)

(** The sessions stay as they are. *)
Definition sess (w : W) := sessions (zone w).

Lemma footprint_sess {A} (m : M W A) : keeps footprint m -> keeps sess m.
Proof. intros Hk w a w' E. specialize (Hk _ _ _ E). unfold footprint in Hk. unfold sess. by injection Hk. Qed.

Lemma sess_release_player p : keeps sess (release_player p).
Proof.
  unfold release_player. destruct p as [p|]; [|apply keeps_ret]. apply keeps_bind; [apply keeps_gets|]. intros w.
  destruct (_ || _); [apply keeps_ret|]. unfold PlayerAgent_delete. apply keeps_bind; [apply keeps_player|].
  intros pl. apply keeps_bind; [apply footprint_sess, keeps_on_db|]. intros _. by apply keeps_modify.
Qed.

Lemma sess_FireEvent_later code recv secs uid arg : keeps sess (FireEvent_later code recv secs uid arg).
Proof.
  unfold FireEvent_later. apply keeps_bind; [apply keeps_gets|]. intros w0.
  apply keeps_bind; [|intros r; apply keeps_bind; [apply sess_release_player|intros; apply keeps_ret]].
  unfold FireEvent. destruct (_ && _); [apply keeps_ret|]. destruct (_ && _); [|apply keeps_ret].
  destruct (_ <? secs); [apply keeps_ret|]. apply keeps_bind; [apply keeps_gets|]. intros w.
  destruct (match _ with Some _ => _ | None => _ end); [|apply keeps_ret]. destruct (0 <? secs).
  - apply keeps_bind; [by apply keeps_modify|]. intros _. apply footprint_sess, keeps_GenerateDelayEvent.
  - apply keeps_bind; [apply keeps_crash|]. intros _. apply keeps_bind; [apply keeps_ret|]. intros _. apply keeps_ret.
Qed.

Lemma sess_Attach p : keeps sess (Attach (parts p)).
Proof.
  unfold Attach. rewrite parts_eq. cbn [visit_all OnAttach autosync knapsack task].
  apply keeps_bind; [|intros _; repeat (apply keeps_bind; [apply keeps_ret|intros _]); apply keeps_ret].
  unfold GetUID, role_data, AutoSync_OnAttach.
  apply keeps_bind; [|intros uid].
  { apply footprint_sess. keeps_auto. }
  apply keeps_bind; [apply keeps_gets|]. intros a. apply keeps_bind; [apply sess_FireEvent_later|]. intros i.
  by apply keeps_modify.
Qed.

Lemma inv_set_state w s st :
  zone_inv w -> (u8 st = PLAYER_STATE_PLAYING -> forall x, sessions (zone w) !! s = Some x -> is_Some (s_player x)) ->
  zone_inv (w <| zone ::= fun z => z <| sessions ::= alter (fun x => x <| s_state := u8 st |>) s |> |>).
Proof.
  intros Hw Hst. apply inv_upd_session; [done|]. intros x Hx. simpl. split_and!; try done; [|by auto].
  intros p Hp. by eapply inv_player.
Qed.

Lemma pres_SetState s st : u8 st <> PLAYER_STATE_PLAYING -> pres zone_inv (SetState s st : M W unit).
Proof.
  intros Hst. unfold SetState, upd_session. pres_auto. apply pres_modify. intros w Hw. by apply inv_set_state.
Qed.

Hint Extern 1 (pres _ (SetState _ _)) => apply pres_SetState; discriminate : pres.

Lemma pres_ResponseClient s e i d : pres zone_inv (ResponseClient s e i d).
Proof. unfold ResponseClient. pres_auto. apply pres_footprint, keeps_zoom_fp. reflexivity. Qed.
Hint Resolve pres_ResponseClient : pres.

Lemma pres_PlayerAgent_new h b :
  forall w, zone_inv w -> wlp (PlayerAgent_new h b) (fun p w' => zone_inv w' /\ is_Some (players (zone w') !! p)
    /\ sess w' = sess w) w.
Proof.
  intros w [H0 H1 H2 H3 H4 H5 H6]. unfold PlayerAgent_new, get_zone, on_zone. wlp_steps.
  assert (forall q v, is_Some (players (zone w) !! q) -> is_Some (<[next_ptr (zone w) := v]> (players (zone w)) !! q)) as Hk.
  { intros q v Hq. destruct (decide (q = next_ptr (zone w))) as [->|].
    - by rewrite lookup_insert_eq.
    - by rewrite lookup_insert_ne. }
  split; [|split; [simpl; by rewrite lookup_insert_eq|done]]. split; simpl; eauto.
  intros q Hq. destruct (H6 q ltac:(lia)) as [E1 E2]. split; [done|]. rewrite lookup_insert_ne by lia. done.
Qed.

Lemma wlp_AttachPlayerAgent s p w :
  zone_inv w -> is_Some (players (zone w) !! p) ->
  wlp (AttachPlayerAgent Request_ret task_OnEvent s p) (fun _ w' => zone_inv w'
    /\ forall x, sess w' !! s = Some x -> is_Some (s_player x)) w.
Proof.
  intros Hw Hp. unfold AttachPlayerAgent, upd_session, on_zone. wlp_steps. apply wlp_session. intros x0 Hx0. wlp_steps.
  apply wlp_session. intros x Hx. wlp_steps.
  set (w1 := w <| zone ::= fun z => z <| sessions ::= alter (fun x => x <| s_player := Some p |>) s |> |>).
  assert (zone_inv w1) as Hw1.
  { apply inv_upd_session; [done|]. intros y Hy. simpl. split_and!; try done. intros q [= <-]. done. }
  apply wlp_intro. intros [] w2 E2. assert (zone_inv w2) as Hw2 by (by eapply pres_release_player).
  apply (sess_release_player _ _ _ _) in E2. wlp_steps.
  apply wlp_intro. intros [] w3 E3. assert (zone_inv w3) as Hw3 by (by eapply pres_Attach).
  apply sess_Attach in E3. wlp_steps. split; [done|]. intros y Hy. rewrite E3, E2 in Hy. unfold sess in Hy. simpl in Hy.
  rewrite lookup_alter_eq, Hx in Hy. simpl in Hy. simplify_eq/=. done.
Qed.

(** ** Coroutines *)

(** A run of a coroutine's body: it ends, or waits with its session. *)
Definition body_ok (s : Z) (r : option Co) (w : W) : Prop :=
  zone_inv w /\ match r with Some k => co_session k = s /\ co_ok (zone w) k | None => True end.

Lemma inv_co_insert w coid c :
  zone_inv w -> co_ok (zone w) c -> zone_inv (w <| zone ::= fun z => z <| cos ::= <[coid := c]> |> |>).
Proof.
  intros [H0 H1 H2 H3 H4 H5 H6] Hc. split; simpl; auto.
  intros i d [[-> <-]|[_ Hd]]%lookup_insert_Some; [done|eauto].
Qed.

Lemma inv_co_delete w coid : zone_inv w -> zone_inv (w <| zone ::= fun z => z <| cos ::= delete coid |> |>).
Proof.
  intros [H0 H1 H2 H3 H4 H5 H6]. split; simpl; auto. intros i d [_ Hd]%lookup_delete_Some. eauto.
Qed.

Lemma wlp_run_co coid s body w :
  zone_inv w -> is_Some (sess w !! s) ->
  (forall w1, zone_inv w1 -> sess w1 = sess w -> wlp body (body_ok s) w1) ->
  wlp (run_co coid s body) (fun _ => zone_inv) w.
Proof.
  intros Hw [x Hs] Hb. unfold run_co, on_zone. wlp_steps. eapply wlp_mono.
  - apply Hb; [apply inv_co_insert; [done|by exists x]|done].
  - intros r w' [Hw' Hr]. wlp_steps. destruct r as [k|]; wlp_steps.
    + apply inv_co_insert; [done|apply Hr].
    + eapply wlp_mono; [apply pres_wlp; [apply pres_release_session|by apply inv_co_delete]|].
      intros [] w2 Hw2. by wlp_steps.
Qed.

Lemma wlp_start_co s body w :
  zone_inv w -> is_Some (sess w !! s) ->
  (forall coid w1, zone_inv w1 -> wlp (body coid) (body_ok s) w1) ->
  wlp (start_co s body) (fun _ => zone_inv) w.
Proof.
  intros Hw Hs Hb. unfold start_co, get_zone. wlp_steps. destruct (co_Create _) as [coid|]; [|by apply wlp_ret].
  apply wlp_run_co; auto.
Qed.

Lemma wlp_session_role s (Q : Z -> W -> Prop) w :
  (forall x p pl, sess w !! s = Some x -> s_player x = Some p -> Q (pRoleData pl) w) -> wlp (session_role s) Q w.
Proof.
  intros HQ. unfold session_role. wlp_steps. apply wlp_session. intros x Hx. wlp_steps. apply wlp_player.
  intros pl Hpl. wlp_steps. by eapply HQ.
Qed.

(** A coroutine that waits behind an operation that leaves the sessions alone. *)
Lemma co_ok_footprint w w' c : footprint w' = footprint w -> co_ok (zone w) c -> co_ok (zone w') c.
Proof. intros E. unfold footprint in E. injection E as _ E _. unfold co_ok. by rewrite E. Qed.

Lemma wlp_Logout_try coid s retry w : zone_inv w -> wlp (Logout_try Request_ret coid s retry) (body_ok s) w.
Proof.
  revert w. induction retry as [|retry IH]; intros w Hw; cbn [Logout_try]; wlp_steps; apply wlp_session; intros x Hx;
    wlp_steps; apply wlp_session_role; intros x' p pl Hx' Hp; wlp_steps;
    (eapply wlp_keeps; [apply keeps_UpdateRole|]); intros [ret|] w' Hf;
    assert (zone_inv w') as Hw' by (by eapply footprint_inv).
  - destruct (ret <? 0), (ret =? DATA_OK); by apply wlp_ret.
  - apply wlp_ret. split; [done|]. split; [done|]. eapply co_ok_footprint; [exact Hf|]. by exists x.
  - destruct (ret <? 0), (ret =? DATA_OK); try by apply wlp_ret. destruct retry; [by apply wlp_ret|]. by apply IH.
  - apply wlp_ret. split; [done|]. split; [done|]. eapply co_ok_footprint; [exact Hf|]. by exists x.
Qed.

Lemma wlp_Logout_saved coid s retry ret w :
  zone_inv w -> wlp (Logout_saved Request_ret coid s retry ret) (body_ok s) w.
Proof.
  intros Hw. unfold Logout_saved. destruct (ret <? 0), (ret =? DATA_OK), (bool_decide (1 < retry)%nat);
    first [by apply wlp_ret | by apply wlp_Logout_try].
Qed.

Lemma pres_Logout l : pres zone_inv (Logout Request_ret l).
Proof.
  apply wlp_pres. intros w Hw. unfold Logout. wlp_steps. apply wlp_session. intros x Hx.
  destruct (negb _); [by apply wlp_ret|]. unfold SetState, upd_session, on_zone. wlp_steps. apply wlp_session.
  intros x' Hx'. wlp_steps. apply wlp_start_co.
  - by apply inv_set_state.
  - unfold sess. simpl. rewrite lookup_alter_eq, Hx'. by eexists.
  - intros coid w1 Hw1. by apply wlp_Logout_try.
Qed.
Hint Resolve pres_Logout : pres.

Lemma inv_agents w area f :
  zone_inv w ->
  (forall a uid s, m_mpZoneAgent (zone w) !! area = Some a -> m_mpSessions (f a) !! uid = Some (Some s) ->
     m_mpSessions a !! uid = Some (Some s)
     \/ exists x, sess w !! s = Some x /\ s_uid x = uid /\ s_mgr x = area) ->
  zone_inv (w <| zone ::= fun z => z <| m_mpZoneAgent ::= alter f area |> |>).
Proof.
  intros [H0 H1 H2 H3 H4 H5 H6] Hf. split; simpl; auto.
  intros area' a uid s [(<- & a0 & Ha & ->)|[_ Ha]]%lookup_alter_Some Hs; [|by eauto].
  destruct (Hf a0 uid s Ha Hs) as [Hs'|Hx]; [by eauto|done].
Qed.

Lemma pres_upd_agent_index area uid :
  pres zone_inv (upd_agent area (fun a => a <| m_mpSessions ::= <[uid := mjoin (m_mpSessions a !! uid)]> |>) : M W unit).
Proof.
  apply pres_modify. intros w Hw. apply inv_agents; [done|]. simpl. intros a u s Ha.
  intros [[<- E]|[_ Hs]]%lookup_insert_Some; [|by left]. left. by destruct (m_mpSessions a !! uid) as [[]|]; simplify_eq/=.
Qed.
Hint Resolve pres_upd_agent_index : pres.

Lemma pres_GetSession area uid : pres zone_inv (GetSession area uid).
Proof. unfold GetSession. pres_auto. Qed.
Hint Resolve pres_GetSession : pres.

Lemma pres_Kick s reason : pres zone_inv (Kick Request_ret task_OnEvent s reason).
Proof. unfold Kick. pres_auto. Qed.
Hint Resolve pres_Kick : pres.

Lemma wlp_Kick_end s s' reason w :
  zone_inv w -> wlp (Kick Request_ret task_OnEvent s reason;; mret None) (body_ok s') w.
Proof.
  intros Hw. apply wlp_bind. eapply wlp_mono; [by apply pres_wlp; [apply pres_Kick|]|]. intros a w' Hw'. by apply wlp_ret.
Qed.

(** ** Login *)

Lemma wlp_Play s w :
  zone_inv w -> (forall x, sess w !! s = Some x -> is_Some (s_player x)) ->
  wlp (SetState s PLAYER_STATE_PLAYING;; mret None) (body_ok s) w.
Proof.
  intros Hw Hp. unfold SetState, upd_session, on_zone. wlp_steps. apply wlp_session. intros x Hx. wlp_steps.
  split; [|done]. by apply inv_set_state.
Qed.

Lemma wlp_CreateRole s w :
  zone_inv w -> wlp (CreateRole Role_new Request_ret task_OnEvent s) (fun _ => zone_inv) w.
Proof.
  intros Hw. unfold CreateRole. wlp_steps. apply wlp_session. intros x Hx. wlp_steps.
  eapply wlp_keeps; [apply keeps_on_db|]. intros role w1 Hf1. wlp_steps.
  eapply wlp_mono; [apply pres_PlayerAgent_new; by eapply footprint_inv|]. intros p w2 (Hw2 & Hp & _). wlp_steps.
  eapply wlp_mono; [by apply wlp_AttachPlayerAgent|]. intros _ w3 [Hw3 _]. wlp_steps. apply wlp_session. intros y Hy.
  wlp_steps. eapply wlp_mono; [apply pres_wlp; [apply pres_InitBirthPlayer|done]|]. intros [] w4 Hw4. by wlp_steps.
Qed.

Lemma wlp_Login_inserted s ret w :
  zone_inv w -> (forall x, sess w !! s = Some x -> is_Some (s_player x)) ->
  wlp (Login_inserted Request_ret task_OnEvent s ret) (body_ok s) w.
Proof.
  intros Hw Hp. unfold Login_inserted. destruct (ret =? DATA_OK); [by apply wlp_Play|by apply wlp_Kick_end].
Qed.

Lemma wlp_Login_got coid s role ret w :
  zone_inv w -> wlp (Login_got Role_new Request_ret task_OnEvent coid s role ret) (body_ok s) w.
Proof.
  intros Hw. unfold Login_got. destruct (ret <? 0); [by apply wlp_ret|]. destruct (ret =? DATA_OK).
  { wlp_steps. apply wlp_session. intros x Hx. wlp_steps.
    assert (wlp (match role with Some h => mret (Some h) | None => FindRoleObject Role_new (s_uid x) end)
      (fun _ => zone_inv) w) as Hrole.
    { destruct role; [by apply wlp_ret|]. eapply wlp_keeps; [apply keeps_on_db|]. intros. by eapply footprint_inv. }
    eapply wlp_mono; [exact Hrole|]. intros [h|] w1 Hw1; [|by apply wlp_Kick_end]. wlp_steps.
    eapply wlp_mono; [by apply pres_PlayerAgent_new|]. intros p w2 (Hw2 & Hp & _). wlp_steps.
    eapply wlp_mono; [by apply wlp_AttachPlayerAgent|]. intros _ w3 [Hw3 Hp3]. by apply wlp_Play. }
  destruct (ret =? DATA_NO_EXISTS); [|by apply wlp_Kick_end]. wlp_steps.
  eapply wlp_mono; [apply pres_wlp; [|exact Hw]; by apply pres_SetState|]. intros [] w1 Hw1. wlp_steps.
  unfold NotifyCreateRole. eapply wlp_mono; [by apply wlp_CreateRole|]. intros r w2 Hw2.
  destruct (negb _); [by apply wlp_ret|]. wlp_steps. apply wlp_session. intros x Hx. wlp_steps.
  apply wlp_session_role. intros x' p pl Hx' Hp. wlp_steps.
  eapply wlp_keeps; [apply keeps_InsertRole|]. intros [ret'|] w3 Hf;
    assert (zone_inv w3) as Hw3 by (by eapply footprint_inv).
  - apply wlp_Login_inserted; [done|]. intros y Hy. unfold footprint in Hf. injection Hf as _ E _. unfold sess in *.
    rewrite E, Hx' in Hy. simplify_eq. by eexists.
  - apply wlp_ret. split; [done|]. split; [done|]. eapply co_ok_footprint; [exact Hf|]. exists x'. split; [done|]. by eexists.
Qed.

Lemma wlp_Login_start s coid w :
  zone_inv w -> wlp (Login_start Role_new Request_ret task_OnEvent s coid) (body_ok s) w.
Proof.
  intros Hw. unfold Login_start. wlp_steps.
  eapply wlp_mono; [apply pres_wlp; [|exact Hw]; by apply pres_SetState|]. intros [] w1 Hw1. wlp_steps.
  apply wlp_session. intros x Hx. wlp_steps. eapply wlp_keeps; [apply keeps_on_db|]. intros role w2 Hf2.
  assert (zone_inv w2) as Hw2 by (by eapply footprint_inv).
  destruct role as [h|]; [by apply wlp_Login_got|]. wlp_steps.
  eapply wlp_keeps; [apply keeps_GetRole|]. intros [ret|] w3 Hf3;
    assert (zone_inv w3) as Hw3 by (by eapply footprint_inv).
  - by apply wlp_Login_got.
  - apply wlp_ret. split; [done|]. split; [done|]. eapply co_ok_footprint; [exact Hf3|].
    eapply co_ok_footprint; [exact Hf2|]. by exists x.
Qed.

(** ** Answers of the database *)

Lemma pres_CommonCoroutineResume ret uid coid reason :
  pres zone_inv (CommonCoroutineResume Role_new Request_ret task_OnEvent ret uid coid reason).
Proof.
  apply wlp_pres. intros w Hw. unfold CommonCoroutineResume, get_zone. wlp_steps.
  destruct (cos (zone w) !! coid) as [c|] eqn:Ec; [|by apply wlp_ret].
  destruct (inv_co _ Hw _ _ Ec) as (x & Hx & Hc).
  apply wlp_run_co; [done|by exists x|]. intros w1 Hw1 E1.
  destruct c; cbn [resume_body co_session] in *; [done|by apply wlp_Login_got| |by apply wlp_Logout_saved].
  apply wlp_Login_inserted; [done|]. intros y Hy. rewrite E1 in Hy. unfold sess in Hy. rewrite Hx in Hy. by simplify_eq.
Qed.
Hint Resolve pres_CommonCoroutineResume : pres.

Lemma pres_listen l c : pres zone_inv (listen Role_new Request_ret task_OnEvent l c).
Proof.
  destruct l; [|apply pres_ret]. destruct c; simpl; unfold OnGetRole, OnInsertRole, OnUpdateRole, resume_or_log;
    first [apply pres_ret | apply pres_bind; [apply pres_lift|]; intros d; destruct (negb _);
           [apply pres_CommonCoroutineResume|apply pres_ret]].
Qed.

Lemma pres_DispatchResult `{T : MysqlMeta.MysqlText} rsp :
  pres zone_inv (DispatchResult (fun w => m_db (zone w)) put_db (listen Role_new Request_ret task_OnEvent) rsp).
Proof.
  unfold DispatchResult. apply pres_bind; [apply pres_gets|]. intros w0.
  destruct (m_mpListener _ !! _) as [l|]; [|apply pres_ret].
  assert (forall c, pres zone_inv (l ← lift l; listen Role_new Request_ret task_OnEvent l c)) as Hl.
  { intros c. apply pres_bind; [apply pres_lift|]. intros ?. apply pres_listen. }
  repeat (match goal with |- pres _ (if ?b then _ else _) => destruct b end); try apply pres_ret; try apply Hl.
  apply pres_bind; [|intros ?; apply Hl]. destruct (_ =? _); [apply pres_on_db|apply pres_ret].
Qed.

End invariant.

Section steps.
Context {P : Type} {MP : MsgProxy P} {R : Reflection} {B0 : BufferLib}.
Context {CSS : Codec GateSSMsg} {CCS : Codec CSMsg} {CO : Coroutines} {T : MysqlMeta.MysqlText}.
Abbreviation W := (EventW (ZoneAgentMgr P)).
Context (Role_new : MetaObject) (Request_ret : list MysqlRequest -> Z).
Context (task_OnEvent : Z -> Z -> Z -> Z -> M W unit).
Context (CallFunction : string -> Z -> CSMsg -> M W (Z * Z)).
Context (task_pres : forall pin p e u a, pres (zone_inv pin) (task_OnEvent p e u a)).
Context (lua_pres : forall fn s m, pres (zone_inv None) (CallFunction fn s m)).
Implicit Types w : W.
Abbreviation inv := (zone_inv None).

Hint Resolve pres_on_db pres_session pres_player pres_get_zone pres_release_player pres_release_session
  pres_ResponseClient pres_GetUID pres_GetName : pres.

Lemma unpin pin w : zone_inv pin w -> inv w.
Proof. intros [H0 H1 H2 H3 H4 H5 H6]. by split. Qed.

Lemma pres_DeleteSession area uid : pres inv (DeleteSession area uid : M W Z).
Proof.
  unfold DeleteSession. pres_auto. all: apply pres_modify; intros w Hw; apply inv_agents; [done|]; simpl;
    intros a' u s Ha [_ Hs]%lookup_delete_Some; by left.
Qed.
Hint Resolve pres_DeleteSession : pres.

Lemma pres_Kick_at pin s reason : pres (zone_inv pin) (Kick Request_ret task_OnEvent s reason : M W Z).
Proof. by apply pres_Kick. Qed.
Hint Resolve pres_Kick_at : pres.

Lemma pres_StopSession area gateid idx uid : pres inv (StopSession Request_ret task_OnEvent area gateid idx uid : M W Z).
Proof. unfold StopSession. pres_auto. Qed.
Hint Resolve pres_StopSession : pres.

Lemma wlp_Login l w :
  inv w -> (forall s, l = Some s -> is_Some (sess w !! s)) ->
  wlp (Login Role_new Request_ret task_OnEvent l) (fun _ => inv) w.
Proof.
  intros Hw Hl. unfold Login. wlp_steps. apply wlp_start_co; [done|by apply Hl|].
  intros coid w1 Hw1. by apply wlp_Login_start.
Qed.

Lemma wlp_session_at area uid w :
  inv w -> wlp (session_at area uid) (fun l w' => inv w' /\ forall s, l = Some s -> is_Some (sess w' !! s)) w.
Proof.
  intros Hw. unfold session_at, get_zone. wlp_steps. apply wlp_intro. intros [] w' E.
  assert (inv w') as Hw' by (by eapply pres_upd_agent_index). wlp_steps. split; [done|].
  unfold upd_agent, on_zone, modify in E. simplify_eq/=. intros s Hs. unfold sess. simpl.
  destruct (m_mpSessions a !! uid) as [[s'|]|] eqn:El; simplify_eq/=.
  destruct (inv_map _ _ Hw area a uid s ltac:(done) El) as (x & Hx & _). by eexists.
Qed.

Lemma inv_new_session w x :
  inv w -> s_player x = None -> s_state x <> PLAYER_STATE_PLAYING ->
  inv (w <| zone ::= fun z => z <| sessions ::= <[next_ptr z := x]> |> <| next_ptr ::= Z.succ |> |>).
Proof.
  intros [H0 H1 H2 H3 H4 H5 H6] Hp Hst. destruct (H6 (next_ptr (zone w)) ltac:(lia)) as [Hn _].
  assert (forall s y, sessions (zone w) !! s = Some y -> <[next_ptr (zone w) := x]> (sessions (zone w)) !! s = Some y) as Hk.
  { intros s y Hs. rewrite lookup_insert_ne; [done|]. intros <-. congruence. }
  split; simpl; auto.
  - done.
  - intros area a uid s Ha Hs. destruct (H1 _ _ _ _ Ha Hs) as (y & Hy & Hu). eauto.
  - intros coid c Hc. destruct (H2 _ _ Hc) as (y & Hy & Hu). exists y. simpl. auto.
  - intros s y p [[_ <-]|[_ Hs]]%lookup_insert_Some Hsp; [congruence|eauto].
  - intros s y [[_ <-]|[_ Hs]]%lookup_insert_Some Hsp; [done|eauto].
  - intros s Hs. destruct (H6 s ltac:(lia)) as [E1 E2]. split; [|done]. rewrite lookup_insert_ne by lia. done.
Qed.

Lemma pres_CreateSession area uid gateid ggc :
  pres inv (CreateSession Role_new Request_ret task_OnEvent area uid gateid ggc : M W Z).
Proof.
  apply wlp_pres. intros w Hw. unfold CreateSession, get_zone. wlp_steps.
  match goal with Ha : GetAgent _ _ = Some ?b |- _ => rename b into a; rename Ha into Ea end.
  match goal with |- wlp ?m _ w => assert (wlp m (fun _ => inv) w) as Hm end.
  { destruct (FindSession uid a) as [s|] eqn:Es.
    - assert (m_mpSessions a !! uid = Some (Some s)) as El
        by (unfold FindSession in Es; destruct (m_mpSessions a !! uid) as [[]|]; by simplify_eq/=).
      destruct (inv_map _ _ Hw area a uid s Ea El) as (x & Hx & Hu & Hma).
      assert (zone_inv (Some (s, uid, area)) w) as Hpin.
      { destruct Hw as [H0 H1 H2 H3 H4 H5 H6]. split; auto.
        intros s' u' a' x' E Hx'. simplify_eq. done. }
      wlp_steps. eapply wlp_mono; [apply pres_wlp; [by apply pres_Kick_at|exact Hpin]|]. intros r w1 Hw1.
      unfold upd_session, on_zone. wlp_steps. apply wlp_session. intros y Hy. wlp_steps.
      eapply unpin, inv_upd_session; [exact Hw1|]. intros y' Hy'. rewrite Hy in Hy'. injection Hy' as <-.
      destruct (inv_pin _ _ Hw1 s uid area y eq_refl Hy) as [E1 E2]. unfold Session_Init. simpl. rewrite E1.
      split_and!; try done; intros.
      { by eapply (inv_player _ _ Hw1). }
      { by eapply (inv_playing _ _ Hw1). }
    - unfold on_zone, upd_agent. wlp_steps. apply inv_agents.
      + by apply inv_new_session.
      + simpl. intros a' u s Ha' [[-> E]|[_ Hs]]%lookup_insert_Some; [|by left]. simplify_eq. right. eexists.
        unfold sess. simpl. rewrite lookup_insert_eq. done. }
  eapply wlp_mono; [exact Hm|]. intros [] w1 Hw1. wlp_steps.
  eapply wlp_mono; [by apply wlp_session_at|]. intros l w2 [Hw2 Hl]. by apply wlp_Login.
Qed.
Hint Resolve pres_CreateSession : pres.

(** ** Messages *)

Lemma pres_upd_buffer area (b : Buffer) : pres inv (upd_agent area (fun a => a <| m_msgPackBuffer := b |>) : M W unit).
Proof. apply pres_modify. intros w Hw. apply inv_agents; [done|]. intros a u s Ha Hs. by left. Qed.
Hint Resolve pres_upd_buffer : pres.

Lemma pres_Send s m : pres inv (Send s m : M W Z).
Proof. unfold Send, PackCSMsg. pres_auto. Qed.
Hint Resolve pres_Send : pres.

Lemma pres_Handle h s m : pres inv (Handle CallFunction h s m : M W Z).
Proof.
  unfold Handle, OnCreatingMsg, OnPlayingMsg, Role_OnPlayingMsg, role_response, session_player, GetPlayerRoleBase,
    GetPlayerRoleExt, GetPlayerRoleMisc, Lua_OnMsg.
  pres_auto.
Qed.
Hint Resolve pres_Handle : pres.

Lemma pres_OnGateMessage msg : pres inv (OnGateMessage Role_new Request_ret task_OnEvent CallFunction msg : M W Z).
Proof.
  unfold OnGateMessage, AttachAgent, DetachPlayerAgent, DispatchPlayerAgentMsg, Dispatch. pres_auto.
Qed.

Lemma pres_OnTimer e u : pres inv (OnTimer Request_ret task_OnEvent e u : M W unit).
Proof.
  unfold OnTimer, EventCenter.OnTimer, OnDelayTimerExpired. pres_auto.
  - apply pres_modify. intros w [H0 H1 H2 H3 H4 H5 H6]. by split.
  - apply pres_FireEvent. intros. by apply pres_notify.
  - generalize (map_to_list (m_mpPlayerAgents (ec a))).*2. intros l.
    induction l; cbn [release_players]; pres_auto.
Qed.

Lemma pres_zone_step e : pres inv (zone_step Role_new Request_ret task_OnEvent CallFunction e : M W Z).
Proof.
  destruct e; cbn [zone_step]; [apply pres_OnGateMessage|by apply pres_DispatchResult|].
  apply pres_bind; [apply pres_OnTimer|]. intros _. apply pres_ret.
Qed.

(** ** The start *)

Lemma pres_AddZone i : pres inv (AddZone i (ZoneAgent_new i) : M W Z).
Proof.
  unfold AddZone. apply pres_bind; [apply pres_get_zone|]. intros z. apply wlp_pres. intros w Hw.
  destruct (m_mpZoneAgent z !! i); [by apply wlp_ret|]. unfold on_zone. wlp_steps.
  destruct Hw as [H0 H1 H2 H3 H4 H5 H6]. split; simpl; auto.
  intros area a uid s [[_ <-]|[_ Ha]]%lookup_insert_Some Hs; [|by eauto]. simpl in Hs. by rewrite lookup_empty in Hs.
Qed.

Lemma SetupAllCSMsgHandler_sessions l1 l2 l3 cmds a :
  m_mpSessions (SetupAllCSMsgHandler l1 l2 l3 cmds a).2 = m_mpSessions a.
Proof.
  unfold SetupAllCSMsgHandler, RegisterCSMsgHandler. destruct (CSMsgLuaHandler_Init _ _ _ _) as [ret l].
  destruct (negb _); [done|]. simpl. by destruct (m_mpHandlers a !! _).
Qed.

Lemma pres_ZoneAgent_Init l1 l2 l3 cmds i : pres inv (ZoneAgent_Init l1 l2 l3 cmds i : M W Z).
Proof.
  apply wlp_pres. intros w Hw. unfold ZoneAgent_Init, get_zone. wlp_steps.
  match goal with E : GetAgent _ _ = Some ?b |- _ => pose proof (SetupAllCSMsgHandler_sessions l1 l2 l3 cmds b) as Hs;
    destruct (SetupAllCSMsgHandler l1 l2 l3 cmds b) as [ret a']; rename E into Ha end.
  unfold upd_agent, on_zone. wlp_steps. apply inv_agents; [done|]. intros b uid s Hb Hl. left.
  unfold GetAgent in Ha. rewrite Ha in Hb. simplify_eq. simpl in Hs. by rewrite <- Hs.
Qed.

Lemma pres_add_zones l1 l2 l3 cmds areas : pres inv (add_zones l1 l2 l3 cmds areas : M W Z).
Proof.
  induction areas as [|i areas IH]; cbn [add_zones]; [apply pres_ret|].
  apply pres_bind; [apply pres_AddZone|]. intros r. destruct (negb _); [apply pres_ret|].
  apply pres_bind; [apply pres_ZoneAgent_Init|]. intros r'. destruct (negb _); [apply pres_ret|done].
Qed.

Lemma pres_Init l1 l2 l3 cmds sub areas gates : pres inv (Init l1 l2 l3 cmds sub areas gates : M W Z).
Proof.
  unfold Init. apply pres_bind.
  { unfold EventCenter.Init, on_ec. pres_auto. apply pres_modify. intros w [H0 H1 H2 H3 H4 H5 H6]. by split. }
  intros _. repeat (apply pres_bind; [apply pres_on_db|]; intros _). apply pres_bind; [apply pres_add_zones|]. intros r.
  destruct (negb _); [apply pres_ret|]. apply pres_bind; [|intros _; apply pres_ret].
  apply pres_footprint, keeps_zoom_fp. reflexivity.
Qed.

Lemma pres_zone_run es : pres inv (zone_run Role_new Request_ret task_OnEvent CallFunction es : M W (list Z)).
Proof. induction es; cbn [zone_run]; pres_auto. apply pres_zone_step. Qed.

(** A process that has just started. *)
Record blank (w : W) : Prop := {
  blank_zones : m_mpZoneAgent (zone w) = ∅;
  blank_sessions : sessions (zone w) = ∅;
  blank_players : players (zone w) = ∅;
  blank_cos : cos (zone w) = ∅;
  blank_kept : m_mpPlayerAgents (ec w) = ∅
}.

Lemma blank_inv w : blank w -> inv w.
Proof.
  intros [E1 E2 E3 E4 E5]. split; try done; rewrite ?E1, ?E2, ?E3, ?E4, ?E5; intros *; rewrite ?lookup_empty; try done.
Qed.

End steps.

(** ** The server with its task part *)

Section server.
Context {P : Type} {MP : MsgProxy P} {R : Reflection} {B0 : BufferLib} {TA : TaskAccess}.
Context {CSS : Codec GateSSMsg} {CCS : Codec CSMsg} {CO : Coroutines} {T : MysqlMeta.MysqlText}.
Abbreviation W := (EventW (ZoneAgentMgr P)).
Context (Find : Z -> option TaskObj) (Role_new : MetaObject) (Request_ret : list MysqlRequest -> Z) (n : nat).

Lemma pres_put_doing pin p l : pres (zone_inv pin) (put_doing p l : M W unit).
Proof. unfold put_doing. pres_auto; apply pres_on_db || apply pres_player. Qed.

Lemma pres_task_loop pin ntf fuel i p e u :
  (forall p e u r a, pres (zone_inv pin) (ntf p e u r a : M W unit)) ->
  pres (zone_inv pin) (task_loop Find ntf fuel i p e u).
Proof.
  intros Hn. revert i. induction fuel as [|fuel IH]; intros i; cbn [task_loop]; [apply pres_crash|].
  unfold get_doing.
  repeat (pres_auto; try (by apply pres_FireEvent); try apply IH; try apply pres_on_db).
Qed.

(** The task part keeps the invariant, however deep its events nest. *)
Lemma pres_task_event pin m p e u a : pres (zone_inv pin) (task_event Find Request_ret m p e u a : M W unit).
Proof.
  revert p e u a. induction m as [|m IH]; intros p e u a; cbn [task_event]; [apply pres_crash|].
  unfold Task_event, get_doing. apply pres_bind; [apply pres_mutate_role|]. intros _.
  apply pres_bind; [apply pres_bind; [apply pres_role_data|intros; apply pres_ret]|]. intros l.
  apply pres_task_loop. intros q c v r b. by apply pres_notify.
Qed.

(** What a script does: the functions that the server exports to Lua
    ([CreateRgtdLuaLib] in [rgtd/zone/lua/RgtdLuaLib.cpp]) write to the log, or
    register a command with the Lua handler; the state here stays. *)
Context (CallFunction : string -> Z -> CSMsg -> M W (Z * Z)).
Hypothesis scripts_harmless : forall fn s m w r w', CallFunction fn s m w = Some (r, w') -> w' = w.

Lemma pres_CallFunction fn s m : pres (zone_inv None) (CallFunction fn s m).
Proof. intros w r w' Hw E. by rewrite (scripts_harmless _ _ _ _ _ _ E). Qed.

(** C11. Every state the zone server reaches is well formed. Whatever messages the gates send,
    whatever the database answers and whenever timers run out, and with the task part of
    the players as it is (its events nested to any depth [n]), the session maps, the
    coroutines, the sessions and the event centre only point to what is there; a session is
    filed under its own user and area; and a session that plays has a player. Scripts are
    taken to change nothing of this state: Lua is given only the log and the registration
    of commands. *)
Theorem zone_reachable_inv l1 l2 l3 cmds sub areas gates es w0 r w1 rs w2 :
  blank w0 -> Init l1 l2 l3 cmds sub areas gates w0 = Some (r, w1) ->
  zone_run Role_new Request_ret (task_event Find Request_ret n) CallFunction es w1 = Some (rs, w2) ->
  zone_inv None w2.
Proof.
  intros Hb Hi Hr. eapply pres_zone_run; [|exact pres_CallFunction| |exact Hr].
  - intros pin p e u a. apply pres_task_event.
  - eapply pres_Init; [|exact Hi]. by apply blank_inv.
Qed.

End server.
