(* ===== verification/ZoneLogin.v ===== *)
(** * Login and logout of the zone server

    What the sessions, the coroutines and the database agent do together: a client
    that connects plays with the role that the database has, or with a new one; a
    client that leaves has its role saved; and what goes wrong. *)

From S2P Require Import Prelude CString Extern WireFormat TimerMgr EventCenter PlayerLogic.
From S2P Require Import Channel ChannelMsgProxy GateMsg GateServerHandler GateFraming MysqlMeta MysqlProxy MetaSerializer DBAgent DataCommon.
From S2P Require Import ZoneSession ClientMsg ZoneAgentMgr ZoneInvariant.

(** ** Callback data *)

Lemma length_le_bytes n z : length (le_bytes n z) = n.
Proof. revert z. induction n as [|n IH]; intros z; simpl; by rewrite ?IH. Qed.

Lemma le_val_bytes n z : le_val (le_bytes n z) = z mod 256 ^ Z.of_nat n.
Proof.
  revert z. induction n as [|n IH]; intros z; [by rewrite Z.mod_1_r|]. cbn [le_bytes le_val]. rewrite IH.
  rewrite Nat2Z.inj_succ, Z.pow_succ_r by lia. pose proof (Z.pow_pos_nonneg 256 (Z.of_nat n) ltac:(lia) ltac:(lia)).
  rewrite (Z.rem_mul_r z 256) by lia. done.
Qed.

Lemma take_le n z k : take n (le_bytes n z ++ k) = le_bytes n z.
Proof. apply take_app_length'. by rewrite length_le_bytes. Qed.
Lemma drop_le n z k : drop n (le_bytes n z ++ k) = k.
Proof. apply drop_app_length'. by rewrite length_le_bytes. Qed.

Lemma le_val_u64 z : le_val (le_bytes 8 (u64 z)) = u64 z.
Proof. rewrite le_val_bytes. apply Z.mod_mod. done. Qed.
Lemma le_val_i32 z : - 2 ^ 31 <= z < 2 ^ 31 -> i32 (le_val (le_bytes 4 (u32 z))) = z.
Proof.
  intros Hz. rewrite le_val_bytes. change (256 ^ Z.of_nat 4) with (2 ^ 32). fold (u32 (u32 z)).
  rewrite !i32_u32. by apply i32_small.
Qed.

Lemma dcb_round_trip d :
  - 2 ^ 31 <= cb_reason d < 2 ^ 31 -> - 2 ^ 31 <= cb_coid d < 2 ^ 31 ->
  dcb_read (dcb_bytes d) = Some (mkDBProxyCallBack (u64 (cb_uid d)) (cb_reason d) (cb_coid d) (u64 (cb_trigger d))).
Proof.
  intros Hr Hc. unfold dcb_read, dcb_bytes. rewrite bool_decide_true by (rewrite !length_app, !length_le_bytes; lia).
  change 16%nat with (8 + (4 + 4))%nat. change 12%nat with (8 + 4)%nat.
  rewrite <- !drop_drop, !drop_le, !take_le, !le_val_u64, !le_val_i32 by done.
  rewrite take_ge by (by rewrite length_le_bytes). by rewrite le_val_u64.
Qed.

Lemma length_dcb_bytes d : length (dcb_bytes d) = 24%nat.
Proof. unfold dcb_bytes. by rewrite !length_app, !length_le_bytes. Qed.

Lemma bool_true3 a b c d e f : a <= b -> c <= d -> e <= f -> (a <=? b) && (c <=? d) && (e <=? f) = true.
Proof. intros. rewrite !(proj2 (Z.leb_le _ _)) by lia. done. Qed.

Lemma wp_assoc {S A B C} (m : M S A) (f : A -> M S B) (g : B -> M S C) Q s :
  wp ((m ≫= f) ≫= g) Q s -> wp (m ≫= fun a => f a ≫= g) Q s.
Proof. unfold wp, mbind, M_bind. by destruct (m s) as [[]|]. Qed.

(** Worlds, and agents of a zone, with the same fields. *)
Lemma zone_ext {P} {R : Reflection} (w w' : EventW (ZoneAgentMgr P)) :
  ec w = ec w' -> timerMgr w = timerMgr w' -> m_mpZoneAgent (zone w) = m_mpZoneAgent (zone w') ->
  sessions (zone w) = sessions (zone w') -> players (zone w) = players (zone w') ->
  next_ptr (zone w) = next_ptr (zone w') -> cos (zone w) = cos (zone w') -> m_db (zone w) = m_db (zone w') ->
  m_chnlProxy (zone w) = m_chnlProxy (zone w') -> w = w'.
Proof. destruct w as [? ? []], w' as [? ? []]. simpl. congruence. Qed.

Lemma agent_ext (a a' : ZoneAgent) :
  m_dwZoneID a = m_dwZoneID a' -> m_mpSessions a = m_mpSessions a' -> m_mpHandlers a = m_mpHandlers a' ->
  m_setluahandlers a = m_setluahandlers a' -> m_msgPackBuffer a = m_msgPackBuffer a' -> a = a'.
Proof. destruct a, a'. simpl. congruence. Qed.

(** ** The database agent *)

Section login.
Context {P : Type} {MP : MsgProxy P} {R : Reflection} {RL : ReflectionLaws} {B0 : BufferLib} {BL : BufferLaws}.
(** The messages are those of the generated code. *)
Context {WL : WireLib} {tag_bytes varint : Z -> bytes} {L : WireLaws tag_bytes varint}.
#[local] Instance ss_generated : Codec GateSSMsg := GateSSMsg_codec.
#[local] Instance ss_generated_laws : CodecLaws GateSSMsg := GateSSMsg_codec_laws.
#[local] Instance csm_generated : Codec CSMsg := CSMsg_codec.
#[local] Instance csm_generated_laws : CodecLaws CSMsg := CSMsg_codec_laws.
Context {CO : Coroutines} {COL : CoroutineLaws} {T : MysqlText}.
Abbreviation W := (EventW (ZoneAgentMgr P)).
Context (Role_new : MetaObject) (Request_ret : list MysqlRequest -> Z).
Context (task_OnEvent : Z -> Z -> Z -> Z -> M W unit).
Context (CallFunction : string -> Z -> CSMsg -> M W (Z * Z)).
Implicit Types w : W.

(** The type of the roles: its key is its id. *)
Record role_type (d : Descriptor) : Prop := {
  rt_desc : GetDescriptor_of Role_new = d;
  rt_name : d_name d = "Role";
  rt_pool : FindMessageTypeByName (GetMetaNameSpace +:+ "." +:+ d_name d) = Some d;
  rt_pk : primary_key d = ["rid"];
  rt_rid : exists fd, FindFieldByName d "rid" = Some fd /\ fd_name fd = "rid" /\ cpp_type fd = CPPTYPE_UINT64
}.

Lemma rt_pooled d : role_type d -> pooled d.
Proof. intros Hd. unfold pooled. pose proof (rt_pool _ Hd) as Hp. by rewrite (pool_full_name _ _ Hp). Qed.

(** An object of that type with an id. *)
Definition is_role (d : Descriptor) (o : MetaObject) (uid : Z) : Prop :=
  GetDescriptor_of o = d /\ HasField o "rid" = true /\ get_num o "rid" = uid.

Lemma role_with_is_role d uid : role_type d -> is_role d (role_with Role_new uid) uid.
Proof.
  intros Hd. unfold role_with, is_role. rewrite set_num_desc, has_set_num, num_set_num. simpl.
  split; [apply (rt_desc _ Hd)|done].
Qed.

Lemma role_key d o uid sep named :
  role_type d -> is_role d o uid -> 0 <= uid < 2 ^ 48 ->
  key_loop sep named o 0 ["rid"] "" = Some (Some ((if named then "rid = " else "") +:+ print_d uid)).
Proof.
  intros Hd (Ho & Hh & Hn) Hu. destruct (rt_rid _ Hd) as (fd & Hf & Hfn & Hft). cbn [key_loop].
  rewrite Ho, Hf. cbn [mbind option_bind]. rewrite Hfn, Hh. cbn [negb]. unfold key_text. rewrite Hft, Hfn, Hn.
  rewrite snprintf_fits by (pose proof (length_print_d_19 uid ltac:(lia)); lia). by destruct named.
Qed.

(** The agent has its serializer. *)
Definition db_ok (a : DBAgent Listener) : Prop := exists s, serializer a = Some s /\ KeyCache s.

(** The agent with another state of its serializer. *)
Definition reseri (s : MetaSerializer) (a : DBAgent Listener) : DBAgent Listener := a <| serializer := Some s |>.

Lemma wp_FindObject_role d o uid a (Q : option Z -> DBAgent Listener -> Prop) :
  role_type d -> is_role d o uid -> 0 <= uid < 2 ^ 48 -> db_ok a ->
  (forall s, KeyCache s -> Q (FindObject_key (print_d uid) a) (reseri s a)) -> wp (FindObject o) Q a.
Proof.
  intros Hd Ho Hu (s & Hs & Hk) HQ. unfold FindObject. wp_steps.
  eapply wp_GetObjectKey; [exact Hs|exact Hk|..].
  - rewrite (proj1 Ho). by apply rt_pooled.
  - by rewrite (proj1 Ho), (rt_pk _ Hd).
  - rewrite (proj1 Ho), (rt_pk _ Hd). by eapply role_key.
  - intros s' Hk'. wp_steps. exact (HQ s' Hk').
Qed.

Lemma wp_GetPrimaryKeyCond_role d o uid a (Q : option string -> DBAgent Listener -> Prop) :
  role_type d -> is_role d o uid -> 0 <= uid < 2 ^ 48 -> db_ok a ->
  (forall s, KeyCache s -> Q (Some ("rid = " +:+ print_d uid)) (reseri s a)) -> wp (GetPrimaryKeyCond o) Q a.
Proof.
  intros Hd Ho Hu (s & Hs & Hk) HQ. unfold GetPrimaryKeyCond, on_serializer. wp_steps. eapply wp_lift; [exact Hs|].
  destruct (wp_run _ _ _ (GetTypePrimaryKey_run (GetDescriptor_of o) s ltac:(rewrite (proj1 Ho); by apply rt_pooled) Hk))
    as (r & s' & E & -> & Hk').
  rewrite E, (proj1 Ho), (rt_pk _ Hd). wp_steps. rewrite bool_decide_false by done.
  eapply wp_lift; [by eapply role_key|]. exact (HQ s' Hk').
Qed.

Lemma wp_with_callback cb k a (Q : Z -> DBAgent Listener -> Prop) :
  is_Some (buffer_Create (Z.of_nat (length cb))) -> wp (k cb) Q a -> wp (with_callback cb k) Q a.
Proof.
  intros [b Hb] HQ. unfold with_callback. rewrite Hb. destruct (buffer_Create_cap _ _ Hb) as [Hcap _]. wp_steps.
  eapply (wp_lift _ _ _ (cb ++ drop (length cb) (pBuffer b))).
  - unfold memcpy_at. rewrite Hcap, Z.add_0_l, !Z.leb_refl. cbn [andb]. by rewrite resize_0.
  - rewrite Hcap, Nat2Z.id, take_app_length. exact HQ.
Qed.

(** A request was given to the database thread. *)
Definition asked (q : MysqlRequest) (a : DBAgent Listener) : DBAgent Listener :=
  a <| requests ::= fun l => l ++ [q] |>.

Lemma wp_mysql_Request q a (Q : Z -> DBAgent Listener -> Prop) :
  Request_ret (requests a) = 0 -> Q 0 (asked q a) -> wp (mysql_Request Request_ret q) Q a.
Proof. intros Hr HQ. unfold mysql_Request. wp_steps. rewrite Hr. change (negb (0 =? 0)) with false. cbv iota. by wp_steps. Qed.

(** The requests for a role: read it, make it, save it. *)
Definition role_request (op : Z) (uid : Z) (fields : list MysqlField) (cb : bytes) : MysqlRequest :=
  mkMysqlRequest "Role" op ("rid = " +:+ print_d uid) fields [] cb.

Definition role_fields (op : Z) (o : MetaObject) : list MysqlField :=
  if op =? MYSQL_REQ_SELECT then [] else (GenerateMysqlFields o []).2.

Definition role_op (op : Z) (o : MetaObject) (cb : bytes) : M (DBAgent Listener) Z :=
  if op =? MYSQL_REQ_SELECT then Get Request_ret o [] cb None
  else if op =? MYSQL_REQ_INSERT then Insert Request_ret o cb
  else Update Request_ret o [] cb.

Lemma wp_role_op op d o uid cb a (Q : Z -> DBAgent Listener -> Prop) :
  op ∈ [MYSQL_REQ_SELECT; MYSQL_REQ_INSERT; MYSQL_REQ_UPDATE] ->
  role_type d -> is_role d o uid -> 0 <= uid < 2 ^ 48 -> db_ok a -> Request_ret (requests a) = 0 ->
  is_Some (buffer_Create (Z.of_nat (length cb))) ->
  (forall s, KeyCache s -> Q 0 (asked (role_request op uid (role_fields op o) cb) (reseri s a))) ->
  wp (role_op op o cb) Q a.
Proof.
  intros Hop Hd Ho Hu Ha Hr Hb HQ.
  assert (GetTypeName o = "Role") as Ht by (unfold GetTypeName; by rewrite (proj1 Ho), (rt_name _ Hd)).
  rewrite !elem_of_cons, elem_of_nil in Hop. destruct Hop as [->|[->|[->|[]]]]; unfold role_op;
    rewrite ?Z.eqb_refl; change (MYSQL_REQ_INSERT =? MYSQL_REQ_SELECT) with false;
    change (MYSQL_REQ_UPDATE =? MYSQL_REQ_SELECT) with false; change (MYSQL_REQ_UPDATE =? MYSQL_REQ_INSERT) with false;
    cbv iota; unfold Get, Insert, Update; wp_steps; (eapply wp_GetPrimaryKeyCond_role; [exact Hd|exact Ho|exact Hu|exact Ha|]);
    intros s Hk; cbv beta iota; (apply wp_with_callback; [exact Hb|]); (apply wp_mysql_Request; [exact Hr|]);
    rewrite Ht; exact (HQ s Hk).
Qed.

(** ** Steps in the world *)

Lemma wp_on_db {A} (m : M (DBAgent Listener) A) (Q : A -> W -> Prop) w :
  wp m (fun r d => Q r (put_db d w)) (m_db (zone w)) -> wp (on_db m) Q w.
Proof. intros HQ. apply (wp_zoom (fun w => m_db (zone w)) put_db). exact HQ. Qed.

Lemma wp_session s x (Q : Session -> W -> Prop) w :
  sessions (zone w) !! s = Some x -> Q x w -> wp (session s) Q w.
Proof. intros Hx HQ. unfold session, get_zone. wp_steps. by eapply wp_lift. Qed.

Lemma wp_player p pl (Q : PlayerAgent -> W -> Prop) w :
  players (zone w) !! p = Some pl -> Q pl w -> wp (player p) Q w.
Proof. intros Hx HQ. unfold player, get_zone. wp_steps. by eapply wp_lift. Qed.

Lemma wp_deref h o a (Q : MetaObject -> DBAgent Listener -> Prop) :
  objs a !! h = Some o -> Q o a -> wp (deref h) Q a.
Proof. intros Ho HQ. unfold deref. wp_steps. by eapply wp_lift. Qed.

(** The world with its sessions, or its coroutines, changed. *)
Definition at_session (s : Z) (f : Session -> Session) (w : W) : W :=
  w <| zone ::= fun z => z <| sessions ::= alter f s |> |>.
Definition at_co (coid : Z) (c : Co) (w : W) : W := w <| zone ::= fun z => z <| cos ::= <[coid := c]> |> |>.

Definition in_state (st : Z) (x : Session) : Session := x <| s_state := u8 st |>.

Lemma wp_SetState s st x (Q : unit -> W -> Prop) w :
  sessions (zone w) !! s = Some x -> Q tt (at_session s (in_state st) w) -> wp (SetState s st) Q w.
Proof. intros Hx HQ. unfold SetState, upd_session, on_zone. wp_steps. eapply wp_session; [exact Hx|]. by wp_steps. Qed.

Lemma at_session_eq s f x w :
  sessions (zone w) !! s = Some x -> sessions (zone (at_session s f w)) !! s = Some (f x).
Proof. intros Hx. simpl. by rewrite lookup_alter_eq, Hx. Qed.

(** The callback data of a coroutine. *)
Definition role_cb (uid reason coid : Z) : bytes := dcb_bytes (mkDBProxyCallBack uid reason coid 0).

(** What a request for a role needs: the serializer, the memory for its callback
    data, and the database thread. *)
Record can_ask (w : W) : Prop := {
  ask_db : db_ok (m_db (zone w));
  ask_mem : is_Some (buffer_Create 24);
  ask_thread : Request_ret (requests (m_db (zone w))) = 0
}.

(** The world after a request. *)
Definition after_ask (s : MetaSerializer) (q : MysqlRequest) (w : W) : W := put_db (asked q (reseri s (m_db (zone w)))) w.

Lemma wp_GetRole d uid coid (Q : option Z -> W -> Prop) w :
  role_type d -> 0 <= uid < 2 ^ 48 -> can_ask w -> coid <> 0 ->
  (forall s, KeyCache s ->
     Q None (after_ask s (role_request MYSQL_REQ_SELECT uid [] (role_cb uid ROLE_DB_GET_LOGIN coid)) w)) ->
  wp (GetRole Role_new Request_ret uid ROLE_DB_GET_LOGIN coid 0) Q w.
Proof.
  intros Hd Hu [Ha Hm Ht] Hc HQ. unfold GetRole, or_yield. wp_steps. apply wp_on_db.
  change (DBAgent.Get Request_ret ?o [] ?cb None) with (role_op MYSQL_REQ_SELECT o cb).
  eapply (wp_role_op MYSQL_REQ_SELECT d _ uid); [by left|done|by apply role_with_is_role|done|done|done| |].
  - by rewrite length_dcb_bytes.
  - intros s Hk. change (negb (0 =? 0)) with false. cbv iota. wp_steps.
    rewrite (proj2 (Z.eqb_neq coid 0) Hc). exact (HQ s Hk).
Qed.

Lemma wp_InsertRole d h o uid coid (Q : option Z -> W -> Prop) w :
  role_type d -> is_role d o uid -> 0 <= uid < 2 ^ 48 -> can_ask w -> coid <> 0 -> objs (m_db (zone w)) !! h = Some o ->
  (forall s, KeyCache s ->
     Q None (after_ask s (role_request MYSQL_REQ_INSERT uid (GenerateMysqlFields o []).2 (role_cb uid 0 coid)) w)) ->
  wp (InsertRole Request_ret uid h coid) Q w.
Proof.
  intros Hd Ho Hu [Ha Hm Ht] Hc Hh HQ. unfold InsertRole, or_yield. wp_steps. apply wp_on_db. wp_steps.
  eapply wp_deref; [exact Hh|]. change (DBAgent.Insert Request_ret ?o ?cb) with (role_op MYSQL_REQ_INSERT o cb).
  eapply (wp_role_op MYSQL_REQ_INSERT d _ uid); [by right; left|done|done|done|done|done| |].
  - by rewrite length_dcb_bytes.
  - intros s Hk. change (negb (0 =? 0)) with false. cbv iota. wp_steps.
    rewrite (proj2 (Z.eqb_neq coid 0) Hc). exact (HQ s Hk).
Qed.

Lemma wp_UpdateRole d h o uid coid reason (Q : option Z -> W -> Prop) w :
  role_type d -> is_role d o uid -> 0 <= uid < 2 ^ 48 -> can_ask w -> coid <> 0 -> objs (m_db (zone w)) !! h = Some o ->
  (forall s, KeyCache s ->
     Q None (after_ask s (role_request MYSQL_REQ_UPDATE uid (GenerateMysqlFields o []).2 (role_cb uid reason coid)) w)) ->
  wp (UpdateRole Request_ret uid h coid reason) Q w.
Proof.
  intros Hd Ho Hu [Ha Hm Ht] Hc Hh HQ. unfold UpdateRole, or_yield. wp_steps. apply wp_on_db. wp_steps.
  eapply wp_deref; [exact Hh|]. change (DBAgent.Update Request_ret ?o [] ?cb) with (role_op MYSQL_REQ_UPDATE o cb).
  eapply (wp_role_op MYSQL_REQ_UPDATE d _ uid); [by right; right; left|done|done|done|done|done| |].
  - by rewrite length_dcb_bytes.
  - intros s Hk. change (negb (0 =? 0)) with false. cbv iota. wp_steps.
    rewrite (proj2 (Z.eqb_neq coid 0) Hc). exact (HQ s Hk).
Qed.

Lemma wp_FindRoleObject d uid (Q : option Z -> W -> Prop) w :
  role_type d -> 0 <= uid < 2 ^ 48 -> db_ok (m_db (zone w)) ->
  (forall s, KeyCache s -> Q (FindObject_key (print_d uid) (m_db (zone w))) (put_db (reseri s (m_db (zone w))) w)) ->
  wp (FindRoleObject Role_new uid) Q w.
Proof.
  intros Hd Hu Ha HQ. unfold FindRoleObject. apply wp_on_db.
  eapply wp_FindObject_role; [done|by apply role_with_is_role|done|done|]. exact HQ.
Qed.

(** ** A message of the gate *)

Definition gate_msg (src seq : Z) (ggc : GateSSMsg) (data : bytes) : ChannelMessage :=
  let h := serialize ggc in
  mkChannelMessage src seq (2 + Z.of_nat (length h) + Z.of_nat (length data))
    (htons_bytes (Z.of_nat (length h)) ++ h ++ data).

(** What the manager does with the events of the gate. *)
Definition gate_event (src : Z) (ggc : GateSSMsg) (data : bytes) : M W Z :=
  if ss_event ggc =? EVENT_CONNECTED then AttachAgent Role_new Request_ret task_OnEvent (ss_area ggc) src ggc
  else if ss_event ggc =? EVENT_CLOSE then DetachPlayerAgent Request_ret task_OnEvent (ss_area ggc) src ggc
  else if ss_event ggc =? EVENT_DATA then
    match parse data with
    | None => mret (-1)
    | Some csmsg => DispatchPlayerAgentMsg CallFunction (ss_area ggc) ggc csmsg
    end
  else mret (-1).

Lemma wp_OnGateMessage src seq ggc data (Q : Z -> W -> Prop) w :
  representable ggc -> is_Some (GetAgent (ss_area ggc) (zone w)) ->
  wp (gate_event src ggc data) Q w ->
  wp (OnGateMessage Role_new Request_ret task_OnEvent CallFunction (gate_msg src seq ggc data)) Q w.
Proof.
  intros Hrep [a Ha] HQ. assert (Z.of_nat (length (serialize ggc)) < 65536) as Hl.
  { rewrite length_serialize. pose proof (ss_size_bound ggc) as Hb. change (0 <= ByteSize ggc <= 55) in Hb. lia. }
  unfold OnGateMessage, gate_msg. cbn [pData dwSize iSrc]. wp_steps.
  eapply wp_lift; [apply ntohs_htons; lia|]. unfold PROXY_CHANNEL_MESSAGE_HEAD_SIZE.
  destruct (Z.ltb_spec (2 + Z.of_nat (length (serialize ggc)) + Z.of_nat (length data))
              (Z.of_nat (length (serialize ggc)) + 2)); [lia|]. wp_steps.
  eapply (wp_lift _ _ _ (serialize ggc)).
  { unfold slice. rewrite !length_app. change (length (htons_bytes _)) with 2%nat.
    rewrite bool_true3 by lia. f_equal. rewrite Nat2Z.id. change (Z.to_nat 2) with 2%nat.
    change (drop 2 (htons_bytes ?n ++ ?l)) with l. apply take_app_length. }
  rewrite parse_serialize by done. unfold get_zone. wp_steps. rewrite Ha. unfold gate_event in HQ.
  destruct (ss_event ggc =? EVENT_CONNECTED); [exact HQ|]. destruct (ss_event ggc =? EVENT_CLOSE); [exact HQ|].
  destruct (ss_event ggc =? EVENT_DATA); [|exact HQ]. wp_steps. eapply (wp_lift _ _ _ data); [|exact HQ].
  unfold slice. rewrite !length_app. change (length (htons_bytes _)) with 2%nat. rewrite bool_true3 by lia. f_equal.
  replace (Z.to_nat (2 + Z.of_nat (length (serialize ggc)))) with (S (S (length (serialize ggc)))) by lia.
  change (drop (S (S ?k)) (htons_bytes ?n ++ ?l)) with (drop k l). rewrite drop_app_length. apply take_ge. lia.
Qed.

(** ** A client connects *)

Lemma alter_as_insert {K V} `{Countable K} (f : V -> V) (k : K) (m : gmap K V) x :
  m !! k = Some x -> alter f k m = <[k := f x]> m.
Proof.
  intros Hk. apply map_eq. intros j. destruct (decide (k = j)) as [->|].
  - by rewrite lookup_alter_eq, lookup_insert_eq, Hk.
  - by rewrite lookup_alter_ne, lookup_insert_ne.
Qed.

(** The session of a client that has connected and waits for its role. *)
Definition new_session (src : Z) (ggc : GateSSMsg) : Session :=
  in_state PLAYER_STATE_LOADING
    (Session_Init (GetRoleID (ss_uid ggc) (ss_area ggc)) ggc (Session_new src (ss_area ggc))).

Definition connected (s' : MetaSerializer) (a : ZoneAgent) (src : Z) (ggc : GateSSMsg) (coid : Z) (w : W) : W :=
  let uid := GetRoleID (ss_uid ggc) (ss_area ggc) in
  let s := next_ptr (zone w) in
  let q := role_request MYSQL_REQ_SELECT uid [] (role_cb uid ROLE_DB_GET_LOGIN coid) in
  w <| zone ::= fun z => z
    <| m_mpZoneAgent ::= <[ss_area ggc := a <| m_mpSessions ::= <[uid := Some s]> |>]> |>
    <| sessions ::= <[s := new_session src ggc]> |>
    <| next_ptr ::= Z.succ |>
    <| cos ::= <[coid := LoginGot s]> |>
    <| m_db ::= fun d => asked q (reseri s' d) |> |>.

(** The result of the manager for a coroutine that was started. *)
Definition attach_result (coid : Z) : Z := if negb (co_resumed coid =? 0) then -1 else 0.

Definition co_done (coid : Z) (w : W) : W := w <| zone ::= fun z => z <| cos ::= delete coid |> |>.

Lemma wp_run_co coid s body (Q : Z -> W -> Prop) w :
  wp body (fun r w1 => match r with
     | Some k => Q (co_resumed coid) (at_co coid k w1)
     | None => wp (release_session s) (fun _ w2 => Q (co_resumed coid) w2) (co_done coid w1)
     end) (at_co coid (Running s) w) ->
  wp (run_co coid s body) Q w.
Proof.
  intros HQ. unfold run_co, on_zone. wp_steps. eapply wp_mono; [exact HQ|]. intros [k|] w1 H1; cbv beta in *; wp_steps.
  - exact H1.
  - eapply wp_mono; [exact H1|]. intros [] w2 H2. by wp_steps.
Qed.

(** A session was made, and its coroutine starts. *)
Definition started (a : ZoneAgent) (src : Z) (ggc : GateSSMsg) (coid : Z) (w : W) : W :=
  let uid := GetRoleID (ss_uid ggc) (ss_area ggc) in
  let s := next_ptr (zone w) in
  w <| zone ::= fun z => z
    <| m_mpZoneAgent ::= <[ss_area ggc := a <| m_mpSessions ::= <[uid := Some s]> |>]> |>
    <| sessions ::= <[s := Session_Init uid ggc (Session_new src (ss_area ggc))]> |>
    <| next_ptr ::= Z.succ |>
    <| cos ::= <[coid := Running s]> |> |>.

Lemma wp_connect_start src seq ggc (a : ZoneAgent) coid (Q : Z -> W -> Prop) w :
  ss_event ggc = EVENT_CONNECTED -> representable ggc ->
  let uid := GetRoleID (ss_uid ggc) (ss_area ggc) in
  let s := next_ptr (zone w) in
  GetAgent (ss_area ggc) (zone w) = Some a -> FindSession uid a = None -> co_Create (dom (cos (zone w))) = Some coid ->
  wp (Login_start Role_new Request_ret task_OnEvent s coid) (fun r w1 => match r with
     | Some k => Q (attach_result coid) (at_co coid k w1)
     | None => wp (release_session s) (fun _ w2 => Q (attach_result coid) w2) (co_done coid w1)
     end) (started a src ggc coid w) ->
  wp (zone_step Role_new Request_ret task_OnEvent CallFunction (GateMessage (gate_msg src seq ggc []))) Q w.
Proof.
  intros He Hl uid s Ha Hf Hco HQ.
  cbn [zone_step]. apply wp_OnGateMessage; [done|by rewrite Ha|]. unfold gate_event. rewrite He, Z.eqb_refl.
  unfold AttachAgent, CreateSession, session_at, Login, start_co, upd_agent, on_zone, get_zone. fold uid. wp_steps.
  eapply wp_lift; [exact Ha|]. rewrite Hf. wp_steps. eapply wp_lift.
  { unfold GetAgent in *. simpl. by rewrite lookup_alter_eq, Ha. }
  wp_steps. eapply (wp_lift _ _ _ s).
  { simpl. by rewrite lookup_insert_eq. }
  wp_steps. match goal with |- context [co_Create ?l] => change l with (dom (cos (zone w))) end. rewrite Hco.
  apply wp_run_co. match goal with |- wp _ _ ?w' => assert (w' = started a src ggc coid w) as -> end; [|exact HQ].
  unfold started. cbv zeta. fold uid s. clearbody uid. clear -Ha.
  generalize (Session_Init uid ggc (Session_new src (ss_area ggc))). intros x. unfold GetAgent in Ha.
  apply zone_ext; try reflexivity.
  simpl. rewrite (alter_as_insert _ _ (m_mpZoneAgent (zone w)) a) by done.
  rewrite (alter_as_insert _ _ _ _ (lookup_insert_eq _ _ _)), insert_insert_eq. f_equal.
  apply agent_ext; try reflexivity. simpl. by rewrite lookup_insert_eq, insert_insert_eq.
Qed.

Lemma wp_connect d src seq ggc (a : ZoneAgent) coid w :
  role_type d -> ss_event ggc = EVENT_CONNECTED -> representable ggc ->
  let uid := GetRoleID (ss_uid ggc) (ss_area ggc) in
  GetAgent (ss_area ggc) (zone w) = Some a -> FindSession uid a = None ->
  FindObject_key (print_d uid) (m_db (zone w)) = None -> can_ask w -> co_Create (dom (cos (zone w))) = Some coid ->
  wp (zone_step Role_new Request_ret task_OnEvent CallFunction (GateMessage (gate_msg src seq ggc [])))
    (fun r w1 => r = attach_result coid /\ exists s', KeyCache s' /\ w1 = connected s' a src ggc coid w) w.
Proof.
  intros Hd He Hl uid Ha Hf Hnr Hask Hco. destruct (co_Create_fresh _ _ Hco) as [_ Hcoid].
  assert (0 <= uid < 2 ^ 48) as Hu by apply role_id_range.
  apply (wp_connect_start src seq ggc a coid); [done..|].
  unfold Login_start. wp_steps. eapply wp_SetState; [apply lookup_insert_eq|]. wp_steps.
  eapply wp_session; [apply at_session_eq, lookup_insert_eq|]. wp_steps.
  change (s_uid _) with uid. eapply wp_FindRoleObject; [exact Hd|done|exact (ask_db _ Hask)|]. intros s1 Hk1.
  change (FindObject_key (print_d uid) _) with (FindObject_key (print_d uid) (m_db (zone w))). rewrite Hnr. wp_steps.
  eapply wp_GetRole; [exact Hd|done| |lia|].
  { split; [by exists s1|exact (ask_mem _ Hask)|exact (ask_thread _ Hask)]. }
  intros s2 Hk2. wp_steps. split; [done|]. exists s2. split; [done|].
  unfold connected, after_ask, new_session, started. cbv zeta. fold uid. clearbody uid. clear.
  generalize (role_request MYSQL_REQ_SELECT uid [] (role_cb uid ROLE_DB_GET_LOGIN coid)). intros q.
  generalize (Session_Init uid ggc (Session_new src (ss_area ggc))). intros x.
  apply zone_ext; try reflexivity.
  - simpl. by rewrite (alter_as_insert _ _ _ _ (lookup_insert_eq _ _ _)), insert_insert_eq.
  - simpl. by rewrite insert_insert_eq.
Qed.

(** ** The database answers *)

(** A session that its zone's map holds stays. *)
Lemma wp_release_session_held s area (a : ZoneAgent) uid (Q : unit -> W -> Prop) w :
  m_mpZoneAgent (zone w) !! area = Some a -> m_mpSessions a !! uid = Some (Some s) ->
  Q tt w -> wp (release_session s) Q w.
Proof.
  intros Ha Hs HQ. unfold release_session, get_zone. wp_steps. unfold session_held.
  rewrite bool_decide_true by (by repeat eexists). by wp_steps.
Qed.

Definition has_listener (w : W) : Prop := m_mpListener (m_db (zone w)) !! "Role" = Some (Some RoleDBListener).

Lemma wp_resume ret uid reason coid c (Q : Z -> W -> Prop) w :
  cos (zone w) !! coid = Some c -> 0 < coid < 2 ^ 31 ->
  wp (run_co coid (co_session c) (resume_body Role_new Request_ret task_OnEvent coid c ret)) Q w ->
  wp (resume_or_log Role_new Request_ret task_OnEvent ret uid coid reason) Q w.
Proof.
  intros Hc Hco HQ. unfold resume_or_log. rewrite (proj2 (Z.eqb_neq coid 0)) by lia. cbn [negb].
  unfold CommonCoroutineResume, get_zone. wp_steps. by rewrite Hc.
Qed.

(** An answer that carries no row resumes the coroutine of its callback data with the
    result. *)
Lemma wp_answer uid reason coid c rsp (Q : Z -> W -> Prop) w :
  has_listener w -> p_tblname rsp = "Role" -> p_cb rsp = role_cb uid reason coid -> 0 <= reason < 4 ->
  p_op rsp = MYSQL_REQ_SELECT /\ data_result (p_ret rsp) <> 0 \/ p_op rsp = MYSQL_REQ_INSERT \/ p_op rsp = MYSQL_REQ_UPDATE ->
  cos (zone w) !! coid = Some c -> 0 < coid < 2 ^ 31 ->
  wp (run_co coid (co_session c) (resume_body Role_new Request_ret task_OnEvent coid c (data_result (p_ret rsp)))) Q w ->
  wp (zone_step Role_new Request_ret task_OnEvent CallFunction (DBResponse rsp)) Q w.
Proof.
  intros Hl Ht Hcb Hr Hop Hc Hco HQ. cbn [zone_step]. unfold DispatchResult. wp_steps. rewrite Ht, Hl, Hcb.
  assert (dcb_read (role_cb uid reason coid) = Some (mkDBProxyCallBack (u64 uid) reason coid (u64 0))) as Hd
    by (apply dcb_round_trip; simpl; lia).
  destruct Hop as [[-> Hne]|[->| ->]].
  - rewrite Z.eqb_refl. rewrite (proj2 (Z.eqb_neq MYSQL_RESULT_OK _)) by (intros E; by apply Hne).
    wp_steps. eapply wp_lift; [reflexivity|]. cbn [listen Role_listen fst snd]. wp_steps. eapply wp_lift; [exact Hd|].
    by apply wp_resume with c.
  - change (MYSQL_REQ_INSERT =? MYSQL_REQ_SELECT) with false. change (MYSQL_REQ_INSERT =? MYSQL_REQ_UPDATE) with false.
    rewrite Z.eqb_refl. cbv iota. wp_steps. eapply wp_lift; [reflexivity|]. cbn [listen Role_listen]. wp_steps.
    eapply wp_lift; [exact Hd|]. by apply wp_resume with c.
  - change (MYSQL_REQ_UPDATE =? MYSQL_REQ_SELECT) with false. rewrite Z.eqb_refl. cbv iota. wp_steps.
    eapply wp_lift; [reflexivity|]. cbn [listen Role_listen]. wp_steps. eapply wp_lift; [exact Hd|]. by apply wp_resume with c.
Qed.

(** An answer with the row of a role loads the role before that. *)
Lemma wp_answer_row d o o0 uid uid' reason coid c rsp (Q : Z -> W -> Prop) w :
  role_type d -> is_role d o uid -> 0 <= uid < 2 ^ 48 -> row_of o d rsp -> prototype_New d = Some o0 ->
  db_ok (m_db (zone w)) ->
  agent_GetTableMeta (d_name d) (mysql_metas (m_db (zone w))) = Some (table_of (d_name d) d) ->
  mjoin (m_mpGetObjects (m_db (zone w)) !! print_d uid) = None ->
  has_listener w -> p_op rsp = MYSQL_REQ_SELECT -> p_cb rsp = role_cb uid' reason coid -> 0 <= reason < 4 ->
  cos (zone w) !! coid = Some c -> 0 < coid < 2 ^ 31 ->
  (forall s' o', KeyCache s' -> GetDescriptor_of o' = d -> Forall (same_field o o') (d_fields d) ->
     wp (run_co coid (co_session c) (resume_body Role_new Request_ret task_OnEvent coid c DATA_OK)) Q
       (put_db (loaded (m_db (zone w)) s' o' (print_d uid)) w)) ->
  wp (zone_step Role_new Request_ret task_OnEvent CallFunction (DBResponse rsp)) Q w.
Proof.
  intros Hd Ho Hu Hrow Hnew (s & Hs & Hk) Hmeta Hfree Hl Hop Hcb Hr Hc Hco HQ. cbn [zone_step]. unfold DispatchResult.
  wp_steps. rewrite (row_tbl _ _ _ Hrow), (rt_name _ Hd), Hl, Hcb, Hop, (row_ret _ _ _ Hrow), Z.eqb_refl.
  change (MYSQL_RESULT_OK =? data_result MYSQL_RESULT_OK) with true. cbv iota. wp_steps.
  unfold DBAgent.on_db. apply wp_zoom. eapply wp_mono.
  { apply (wp_CreateObjectFromMysql o d o0 rsp s (print_d uid)); [done..| |done].
    rewrite (rt_pk _ Hd). exact (role_key d o uid ":" false Hd Ho Hu). }
  intros r a' (-> & s' & o' & -> & Hk' & Hd' & Hsame). wp_steps. eapply wp_lift; [reflexivity|].
  cbn [listen Role_listen fst snd]. wp_steps. eapply wp_lift; [apply dcb_round_trip; simpl; lia|].
  apply wp_resume with c; [done|done|]. by apply HQ.
Qed.

(** ** A player is attached *)

(** What a delayed event needs: the timers, and a free number. *)
Record can_delay (w : W) : Prop := {
  delay_timer : TimerInv (timerMgr w);
  delay_size : Z.of_nat (size (m_mpTimerEvents (timerMgr w))) < 2 ^ 32;
  delay_seq : 0 < m_iDelayEventNextSeq (ec w) < 2147483647;
  delay_free : m_mpDelayEventParams (ec w) !! m_iDelayEventNextSeq (ec w) = None
}.

Lemma can_delay_ext w w' : ec w' = ec w -> timerMgr w' = timerMgr w -> can_delay w -> can_delay w'.
Proof. intros E1 E2 [H1 H2 H3 H4]. split; by rewrite ?E1, ?E2. Qed.

(** The player [p] of [uid] is kept by the event centre, and its timer runs. *)
Definition kept (uid p i : Z) (w w1 : W) : Prop :=
  zone w1 = zone w /\ m_mpPlayerAgents (ec w1) = <[uid := p]> (m_mpPlayerAgents (ec w))
  /\ exists te, m_mpTimerEvents (timerMgr w1) !! i = Some te
       /\ te = mkTimerEvent EVENT_PLAYER_SYNC_DB (m_iDelayEventNextSeq (ec w)) (Some OnTimerCB)
                 (u64 (m_curMsTime (timerMgr w) + 300000)) i.

(** The player has its timer. *)
Definition timed (p i : Z) (w : W) : W :=
  w <| zone ::= fun z => put_player_part p (player_part p z <| m_dwTimerID := i |>) z |>.

Abbreviation parts := (ptrLogic Request_ret task_OnEvent).

Lemma wp_Attach p pl o uid (Q : unit -> W -> Prop) w :
  players (zone w) !! p = Some pl -> objs (m_db (zone w)) !! pRoleData pl = Some o -> get_num o "rid" = uid ->
  GetZonePlayerAgentPtr (zone w) uid = Some p -> can_delay w ->
  (forall i w1, kept uid p i w w1 ->
     wp (release_player (m_mpPlayerAgents (ec w) !! uid)) (fun _ w2 => Q tt (timed p i w2)) w1) ->
  wp (Attach (parts p)) Q w.
Proof.
  intros Hp Ho Hu Hon [Ht Hsz Hseq Hfr] HQ. unfold Attach.
  rewrite (parts_eq Request_ret task_OnEvent p). cbn [visit_all OnAttach autosync knapsack task].
  unfold GetUID, role_data. wp_steps. eapply wp_player; [exact Hp|]. apply wp_on_db. eapply wp_deref; [exact Ho|]. wp_steps.
  unfold AutoSync_OnAttach. wp_steps.
  assert (as_uid (player_part p (zone w)) = uid) as Has by (unfold player_part; rewrite Hp, Ho; done).
  change (put_db (m_db (zone w)) w) with (w <| zone := zone w <| m_db := m_db (zone w) |> |>).
  replace (w <| zone := zone w <| m_db := m_db (zone w) |> |>) with w by (by destruct w as [? ? []]).
  rewrite Has. unfold FireEvent_later. wp_steps. eapply wp_mono.
  { apply (EventCenter.FireEvent_later GetZonePlayerAgentPtr (fun _ _ _ _ _ => crash)
      EVENT_PLAYER_SYNC_DB (Some "autosync") 300 uid 0 p w); done. }
  intros i w1 (Hz & Hm & _ & Hte). wp_steps. eapply wp_mono; [apply (HQ i w1); by split|].
  intros [] w2 HQ2. unfold on_part. wp_steps. exact HQ2.
Qed.

(** The world with a new player, attached to a session. *)
Definition with_player (s h : Z) (fromdb : bool) (w : W) : W :=
  w <| zone ::= fun z => z <| players ::= <[next_ptr z := mkPlayerAgent h fromdb 0 0]> |>
                           <| next_ptr ::= Z.succ |>
                           <| sessions ::= alter (fun x => x <| s_player := Some (next_ptr z) |>) s |> |>.

(** The session [s] is the one of user [uid]. *)
Definition in_map (s uid : Z) (z : ZoneAgentMgr P) : Prop :=
  exists a : ZoneAgent, GetZoneAgentByArea (GetAreaFromRoleID uid) z = Some a /\ m_mpSessions a !! uid = Some (Some s).

(** Making a player for a role and attaching it: what is left is to let the old player
    of the session, and the one the event centre kept, go. *)
Lemma wp_attach_new s x h fromdb o uid (Q : Z -> W -> Prop) w :
  let p := next_ptr (zone w) in
  let w1 := with_player s h fromdb w in
  sessions (zone w) !! s = Some x -> s_player x = None -> in_map s uid (zone w) ->
  objs (m_db (zone w)) !! h = Some o -> get_num o "rid" = uid -> can_delay w ->
  (forall i w2, kept uid p i w1 w2 ->
     wp (release_player (m_mpPlayerAgents (ec w) !! uid)) (fun _ w3 => Q 0 (timed p i w3)) w2) ->
  wp (p ← PlayerAgent_new h fromdb; AttachPlayerAgent Request_ret task_OnEvent s p) Q w.
Proof.
  intros p w1 Hx Hnp (a & Ha & Hm) Ho Hu Hdl HQ. unfold PlayerAgent_new, AttachPlayerAgent, upd_session, get_zone, on_zone.
  wp_steps. eapply wp_session; [exact Hx|]. wp_steps. eapply wp_session; [exact Hx|]. wp_steps. rewrite Hnp.
  cbn [release_player]. wp_steps.
  eapply (wp_Attach p (mkPlayerAgent h fromdb 0 0) o uid _ w1).
  - simpl. by rewrite lookup_insert_eq.
  - exact Ho.
  - done.
  - unfold GetZonePlayerAgentPtr. change (GetZoneAgentByArea ?b (zone w1)) with (GetZoneAgentByArea b (zone w)).
    rewrite Ha. cbn [mbind option_bind]. unfold FindSession. rewrite Hm. cbn [mjoin option_join mbind option_bind].
    simpl. rewrite lookup_alter_eq, Hx. done.
  - by eapply can_delay_ext; [| |exact Hdl].
  - intros i w2 Hk. eapply wp_mono; [by apply (HQ i w2)|]. intros [] w3 HQ3. by wp_steps.
Qed.

(** The login of a session without a player, once its role is there. *)
Lemma wp_login_with coid s x h o uid (Q : option Co -> W -> Prop) w :
  let p := next_ptr (zone w) in
  sessions (zone w) !! s = Some x -> s_player x = None -> in_map s uid (zone w) ->
  objs (m_db (zone w)) !! h = Some o -> get_num o "rid" = uid -> can_delay w ->
  (forall i w2, kept uid p i (with_player s h true w) w2 ->
     wp (release_player (m_mpPlayerAgents (ec w) !! uid))
       (fun _ w3 => sessions (zone w3) = sessions (zone w2)
          /\ Q None (at_session s (in_state PLAYER_STATE_PLAYING) (timed p i w3))) w2) ->
  wp (Login_got Role_new Request_ret task_OnEvent coid s (Some h) 0) Q w.
Proof.
  intros p Hx Hnp Hm Ho Hu Hdl HQ. unfold Login_got. change (0 <? 0) with false. change (0 =? DATA_OK) with true. cbv iota.
  wp_steps. eapply wp_session; [exact Hx|]. wp_steps.
  apply (wp_assoc (PlayerAgent_new h true) (fun p => AttachPlayerAgent Request_ret task_OnEvent s p)). apply wp_bind.
  eapply (wp_attach_new s x h true o uid); [done..|]. intros i w2 Hk.
  eapply wp_mono; [exact (HQ i w2 Hk)|]. intros [] w3 [Hs HQ3]. wp_steps.
  eapply wp_SetState; [|by wp_steps]. destruct Hk as [Hz _].
  change (sessions (zone (timed ?p ?i w3))) with (sessions (zone w3)). rewrite Hs, Hz. simpl.
  rewrite lookup_alter_eq, Hx. reflexivity.
Qed.

Lemma Login_got_found coid s x h uid w (Q : option Co -> W -> Prop) :
  sessions (zone w) !! s = Some x -> s_uid x = uid ->
  wp (FindRoleObject Role_new uid) (fun r w1 => r = Some h /\ sessions (zone w1) !! s = Some x
    /\ wp (Login_got Role_new Request_ret task_OnEvent coid s (Some h) 0) Q w1) w ->
  wp (Login_got Role_new Request_ret task_OnEvent coid s None 0) Q w.
Proof.
  intros Hx <- HQ. unfold Login_got at 1. change (0 <? 0) with false. change (0 =? DATA_OK) with true. cbv iota.
  wp_steps. eapply wp_session; [exact Hx|]. wp_steps. eapply wp_mono; [exact HQ|]. intros r w1 (-> & Hx1 & HQ1).
  unfold Login_got in HQ1. change (0 <? 0) with false in HQ1. change (0 =? DATA_OK) with true in HQ1. cbv iota in HQ1.
  unfold wp, mbind, M_bind in HQ1 |- *. unfold session, get_zone, gets, mbind, M_bind, lift in HQ1.
  rewrite Hx1 in HQ1. exact HQ1.
Qed.

(** ** Login with a stored role *)

(** User [uid] plays, with a role such that [Pr]. *)
Definition playing (uid : Z) (Pr : MetaObject -> Prop) (w : W) : Prop :=
  exists s x p pl o, in_map s uid (zone w) /\ sessions (zone w) !! s = Some x /\ s_state x = PLAYER_STATE_PLAYING
    /\ s_player x = Some p /\ players (zone w) !! p = Some pl
    /\ objs (m_db (zone w)) !! pRoleData pl = Some o /\ Pr o.

Lemma same_role d o o' uid :
  role_type d -> is_role d o uid -> Forall (same_field o o') (d_fields d) -> get_num o' "rid" = uid.
Proof.
  intros Hd (_ & _ & Hn) HF. destruct (rt_rid _ Hd) as (fd & Hf & Hfn & Hft).
  assert (fd ∈ d_fields d) as Hin by (by eapply find_field_elem).
  destruct (proj1 (Forall_forall _ _) HF fd Hin) as [_ Hv]. rewrite Hft, Hfn in Hv. congruence.
Qed.

Lemma in_map_connected s' (a : ZoneAgent) src ggc coid w :
  0 <= ss_area ggc < 2 ^ 16 ->
  in_map (next_ptr (zone w)) (GetRoleID (ss_uid ggc) (ss_area ggc)) (zone (connected s' a src ggc coid w)).
Proof.
  intros Har. eexists. split.
  - unfold GetZoneAgentByArea, GetZoneIDFromArea, GetAgent. rewrite (proj1 (role_id_area _ _)).
    rewrite (u16_small (ss_area ggc)) by lia. rewrite u16_small by lia. simpl. by rewrite lookup_insert_eq.
  - simpl. by rewrite lookup_insert_eq.
Qed.

(** Only the maps of the zones matter to [in_map]. *)
Lemma in_map_ext s uid w w' :
  m_mpZoneAgent (zone w') = m_mpZoneAgent (zone w) -> in_map s uid (zone w) -> in_map s uid (zone w').
Proof. intros E. unfold in_map, GetZoneAgentByArea, GetAgent. by rewrite E. Qed.

Lemma wp_release_in_map s uid (Q : unit -> W -> Prop) w :
  in_map s uid (zone w) -> Q tt w -> wp (release_session s) Q w.
Proof. intros (b & Hb & Hm) HQ. by eapply wp_release_session_held. Qed.

Lemma FindObject_cached uid h (a : DBAgent Listener) :
  m_mpGetObjects a !! print_d uid = Some (Some h) -> FindObject_key (print_d uid) a = Some h.
Proof. intros E. unfold FindObject_key. rewrite bool_decide_false by apply print_d_nonempty. by rewrite E. Qed.

(** C12. A client that connects for the first time plays with its role. For a user without a
    session in the zone, of whom the database agent holds no object and the event centre no
    player (a later login is another matter, [second_login_frees_role]), the zone server asks
    the database for the role of the user in the area. When the answer carries the row of a
    role whose fields are all set and are ones the database keeps (32- and 64-bit integers,
    strings without a zero byte, messages that are not empty and have their required
    fields), the session plays, and the role of its player has every field of the stored
    one with the same value. *)
Theorem login_loads_role d o o0 src seq ggc (a : ZoneAgent) coid rsp w :
  role_type d -> ss_event ggc = EVENT_CONNECTED -> representable ggc ->
  0 <= ss_area ggc < 2 ^ 16 ->
  let uid := GetRoleID (ss_uid ggc) (ss_area ggc) in
  let q := role_request MYSQL_REQ_SELECT uid [] (role_cb uid ROLE_DB_GET_LOGIN coid) in
  GetAgent (ss_area ggc) (zone w) = Some a -> FindSession uid a = None ->
  m_mpGetObjects (m_db (zone w)) !! print_d uid = None -> m_mpPlayerAgents (ec w) !! uid = None ->
  can_ask w -> can_delay w -> has_listener w -> co_Create (dom (cos (zone w))) = Some coid ->
  agent_GetTableMeta (d_name d) (mysql_metas (m_db (zone w))) = Some (table_of (d_name d) d) ->
  prototype_New d = Some o0 -> is_role d o uid -> row_of o d rsp -> p_op rsp = MYSQL_REQ_SELECT -> p_cb rsp = q_cb q ->
  exists w2, zone_run Role_new Request_ret task_OnEvent CallFunction
      [GateMessage (gate_msg src seq ggc []); DBResponse rsp] w = Some ([attach_result coid; co_resumed coid], w2)
    /\ requests (m_db (zone w2)) = requests (m_db (zone w)) ++ [q]
    /\ playing uid (fun o' => Forall (same_field o o') (d_fields d)) w2.
Proof.
  intros Hd He Hl Har uid q Ha Hf Hng Hne Hask Hdl Hli Hco Hmeta Hnew Ho Hrow Hop Hcb.
  destruct (co_Create_fresh _ _ Hco) as [_ Hcoid].
  assert (0 <= uid < 2 ^ 48) as Hu by apply role_id_range.
  apply wp_run_ret. cbn [zone_run]. wp_steps. eapply wp_mono.
  { apply (wp_connect d src seq ggc a coid w); try done. unfold FindObject_key. fold uid. rewrite Hng.
    by destruct (bool_decide _). }
  intros r1 w1 (-> & s1 & Hk1 & ->). wp_steps.
  set (w1 := connected s1 a src ggc coid w). set (s := next_ptr (zone w)).
  eapply (wp_answer_row d o o0 uid uid ROLE_DB_GET_LOGIN coid (LoginGot s) rsp); try done.
  { by exists s1. }
  { change (m_mpGetObjects (m_db (zone w1))) with (m_mpGetObjects (m_db (zone w))). by rewrite Hng. }
  { apply lookup_insert_eq. }
  intros s2 o' Hk2 Ho' Hsame. cbn [co_session resume_body].
  set (w2 := put_db (loaded (m_db (zone w1)) s2 o' (print_d uid)) w1). set (h := next_obj (m_db (zone w))).
  assert (in_map s uid (zone w2)) as Hin by (exact (in_map_connected s1 a src ggc coid w Har)).
  assert (sessions (zone w2) !! s = Some (new_session src ggc)) as Hx by apply lookup_insert_eq.
  apply wp_run_co. eapply (Login_got_found coid s (new_session src ggc) h uid); [exact Hx|done|].
  eapply wp_FindRoleObject; [done|done|by exists s2|]. intros s3 Hk3. split; [|split; [exact Hx|]].
  { apply FindObject_cached, lookup_insert_eq. }
  eapply (wp_login_with coid s (new_session src ggc) h o' uid);
    [exact Hx|done|exact Hin|simpl; by rewrite lookup_insert_eq|by eapply same_role| |].
  { by eapply can_delay_ext; [| |exact Hdl]. }
  intros i w3 (Hz & Hm & _). change (m_mpPlayerAgents (ec _) !! uid) with (m_mpPlayerAgents (ec w) !! uid). rewrite Hne.
  apply wp_ret. split; [done|]. cbv beta iota.
  assert (in_map s uid (zone w3)) as Hin3 by (apply (in_map_ext s uid w2); [by rewrite Hz|exact Hin]).
  eapply wp_release_in_map; [exact Hin3|]. wp_steps. split; [done|]. split.
  { enough (requests (m_db (zone w3)) = requests (m_db (zone w)) ++ [q]) as E by exact E. rewrite Hz. reflexivity. }
  eexists s, _, (Z.succ s), _, o'. split_and!.
  - exact Hin3.
  - simpl. rewrite Hz. simpl. rewrite !lookup_alter_eq, lookup_insert_eq. reflexivity.
  - reflexivity.
  - reflexivity.
  - simpl. rewrite Hz. simpl. rewrite lookup_alter_eq, lookup_insert_eq. reflexivity.
  - simpl. rewrite Hz. simpl. by rewrite lookup_insert_eq.
  - done.
Qed.

(** ** A second login *)

(** A player that nobody holds goes, and its role with it. *)
Definition player_gone (p h : Z) (w : W) : W :=
  w <| zone ::= fun z => z <| m_db ::= fun d => d <| objs ::= delete h |> |> <| players ::= delete p |> |>.

Lemma player_unheld p w :
  (forall u, m_mpPlayerAgents (ec w) !! u <> Some p) ->
  (forall s x, sessions (zone w) !! s = Some x -> s_player x <> Some p) -> player_held p w = false.
Proof.
  intros Hk Hs. unfold player_held. rewrite !bool_decide_false; [done|..].
  - intros (u & q & E & ->). by eapply Hk.
  - intros (s & x & E & Hx). by eapply Hs.
Qed.

Lemma wp_release_player_last p pl (Q : unit -> W -> Prop) w :
  players (zone w) !! p = Some pl -> player_held p w = false -> is_Some (objs (m_db (zone w)) !! pRoleData pl) ->
  Q tt (player_gone p (pRoleData pl) w) -> wp (release_player (Some p)) Q w.
Proof.
  intros Hp Hh Ho HQ. unfold release_player. wp_steps. rewrite Hh, bool_decide_true by (by rewrite Hp). cbn [orb negb].
  unfold PlayerAgent_delete, on_zone. wp_steps. eapply wp_player; [exact Hp|]. wp_steps. apply wp_on_db. unfold delete_obj. wp_steps.
  { by apply bool_decide_eq_true. }
  exact HQ.
Qed.

(** A player whose role is not there has no data. *)
Lemma GetPlayerRoleBase_dangling p pl w :
  players (zone w) !! p = Some pl -> objs (m_db (zone w)) !! pRoleData pl = None -> GetPlayerRoleBase p w = None.
Proof.
  intros Hp Ho. unfold GetPlayerRoleBase, GetUID, role_data, player, get_zone, gets, on_db, deref, zoom, mbind, M_bind, lift.
  rewrite Hp. cbn. by rewrite Ho.
Qed.

(** What a logout leaves behind when the role was read from the database: the role is in
    the database agent's cache, and the event centre alone keeps the player. *)
Record left_behind (d : Descriptor) (uid p h : Z) (w : W) : Prop := {
  lb_cached : FindObject_key (print_d uid) (m_db (zone w)) = Some h;
  lb_role : exists o, objs (m_db (zone w)) !! h = Some o /\ is_role d o uid;
  lb_kept : m_mpPlayerAgents (ec w) !! uid = Some p;
  lb_once : forall u, m_mpPlayerAgents (ec w) !! u = Some p -> u = uid;
  lb_free : forall s x, sessions (zone w) !! s = Some x -> s_player x <> Some p;
  lb_player : exists pl, players (zone w) !! p = Some pl /\ pRoleData pl = h
}.

(** The second login of a stored role frees the role it plays with. The role is found
    in the cache and gets a new player; then the event centre lets the old player go, and
    that one deletes the role. The session plays with a role that is not there, which the
    cache still has, and the next request for its data is undefined. *)
Theorem second_login_frees_role d src seq ggc (a : ZoneAgent) coid p0 h w :
  role_type d -> zone_inv None w -> ss_event ggc = EVENT_CONNECTED -> representable ggc ->
  0 <= ss_area ggc < 2 ^ 16 ->
  let uid := GetRoleID (ss_uid ggc) (ss_area ggc) in
  GetAgent (ss_area ggc) (zone w) = Some a -> FindSession uid a = None -> left_behind d uid p0 h w ->
  db_ok (m_db (zone w)) -> can_delay w -> co_Create (dom (cos (zone w))) = Some coid ->
  exists w1, zone_step Role_new Request_ret task_OnEvent CallFunction (GateMessage (gate_msg src seq ggc [])) w
      = Some (attach_result coid, w1)
    /\ FindObject_key (print_d uid) (m_db (zone w1)) = Some h /\ objs (m_db (zone w1)) !! h = None
    /\ exists s x p pl, in_map s uid (zone w1) /\ sessions (zone w1) !! s = Some x /\ s_state x = PLAYER_STATE_PLAYING
         /\ s_player x = Some p /\ players (zone w1) !! p = Some pl /\ pRoleData pl = h
         /\ GetPlayerRoleBase p w1 = None.
Proof.
  intros Hd Hinv He Hl Har uid Ha Hf [Hc (o & Ho & Hro) Hkp Hon Hfr (pl0 & Hp0 & Hh0)] Hdb Hdl Hco.
  assert (0 <= uid < 2 ^ 48) as Hu by apply role_id_range.
  set (s := next_ptr (zone w)). set (p := Z.succ s).
  destruct (inv_next _ _ Hinv s ltac:(done)) as [Hns _].
  assert (p0 <> p) as Hne.
  { intros ->. destruct (inv_next _ _ Hinv p) as [_ E]; [subst p s; lia|congruence]. }
  apply wp_run_ret. apply (wp_connect_start src seq ggc a coid); [done..|].
  unfold Login_start. wp_steps. eapply wp_SetState; [apply lookup_insert_eq|]. wp_steps.
  eapply wp_session; [apply at_session_eq, lookup_insert_eq|]. wp_steps.
  change (s_uid _) with uid. eapply wp_FindRoleObject; [exact Hd|done|exact Hdb|]. intros s1 Hk1.
  match goal with |- wp (match ?r with _ => _ end) _ _ => change r with (FindObject_key (print_d uid) (m_db (zone w))) end.
  rewrite Hc.
  set (w1 := put_db _ _).
  assert (sessions (zone w1) !! s = Some (new_session src ggc)) as Hx by (apply at_session_eq, lookup_insert_eq).
  assert (in_map s uid (zone w1)) as Hin by (exact (in_map_connected s1 a src ggc coid w Har)).
  eapply (wp_login_with coid s (new_session src ggc) h o uid); [exact Hx|done|exact Hin|exact Ho|apply Hro| |].
  { by eapply can_delay_ext; [| |exact Hdl]. }
  intros i w2 (Hz & Hm & _). change (m_mpPlayerAgents (ec w1)) with (m_mpPlayerAgents (ec w)) in Hm |- *. rewrite Hkp.
  change (m_mpPlayerAgents (ec (with_player s h true w1))) with (m_mpPlayerAgents (ec w)) in Hm.
  assert (players (zone w2) !! p0 = Some pl0) as Hp2.
  { rewrite Hz. change (<[p := mkPlayerAgent h true 0 0]> (players (zone w)) !! p0 = Some pl0). by rewrite lookup_insert_ne. }
  eapply (wp_release_player_last p0 pl0); [exact Hp2| | |].
  { apply player_unheld; rewrite ?Hz, ?Hm.
    - intros u E. apply lookup_insert_Some in E as [[_ E]|[Hu' E]]; [done|]. by apply Hu', eq_sym, Hon.
    - intros s' x E Hx'. simpl in E. apply lookup_alter_Some in E as [(_ & y & _ & ->)|[Hs' E]].
      + simpl in Hx'. by simplify_eq.
      + rewrite lookup_alter_ne, lookup_insert_ne in E by done. by eapply Hfr. }
  { rewrite Hz, Hh0. by exists o. }
  split; [done|]. cbv beta iota.
  assert (in_map s uid (zone w2)) as Hin2 by (apply (in_map_ext s uid w1); [by rewrite Hz|exact Hin]).
  eapply wp_release_in_map; [exact Hin2|]. split; [done|]. rewrite Hh0. split.
  { enough (FindObject_key (print_d uid) (m_db (zone w2)) = Some h) as E by exact E. rewrite Hz. exact Hc. }
  split; [apply lookup_delete_eq|].
  assert (delete p0 (players (zone w2)) !! Z.succ (next_ptr (zone w)) = Some (mkPlayerAgent h true 0 0)) as Hpl2.
  { rewrite Hz. simpl. by rewrite lookup_delete_ne, lookup_insert_eq by exact Hne. }
  exists s. eexists. exists p. eexists. split; [exact Hin2|].
  split; [simpl; rewrite Hz; simpl; rewrite !lookup_alter_eq, lookup_insert_eq; reflexivity|].
  do 2 (split; [reflexivity|]). split; [simpl; rewrite lookup_alter_eq, Hpl2; reflexivity|]. split; [reflexivity|].
  eapply GetPlayerRoleBase_dangling; [simpl; rewrite lookup_alter_eq, Hpl2; reflexivity|apply lookup_delete_eq].
Qed.

(** ** Login with a new role *)

(** The role of a new player. *)
Definition birth_role (uid : Z) : MetaObject :=
  let o := role_with Role_new uid in set_msg "pack" (set_num "maxGrid" 10 (get_msg o "pack")) o.

Lemma birth_is_role d uid : role_type d -> is_role d (birth_role uid) uid.
Proof.
  intros Hd. destruct (role_with_is_role d uid Hd) as (H1 & H2 & H3). unfold birth_role, is_role.
  rewrite set_msg_desc, has_set_msg, num_set_msg, H2, orb_true_r. done.
Qed.

Lemma wp_mutate_role p f pl o (Q : unit -> W -> Prop) w :
  players (zone w) !! p = Some pl -> objs (m_db (zone w)) !! pRoleData pl = Some o ->
  Q tt (w <| zone ::= fun z => z <| players ::= alter (fun pl => pl <| p_iDirty := p_iDirty pl + 1 |>) p |>
                                 <| m_db ::= fun d => d <| objs ::= <[pRoleData pl := f o]> |> |> |>) ->
  wp (mutate_role p f) Q w.
Proof.
  intros Hp Ho HQ. unfold mutate_role, upd_player, on_zone. wp_steps. eapply wp_player; [exact Hp|]. wp_steps.
  eapply wp_player; [simpl; by rewrite lookup_alter_eq, Hp|]. wp_steps. apply wp_on_db. eapply wp_deref; [exact Ho|].
  wp_steps. apply wp_on_db. wp_steps. exact HQ.
Qed.

(** The world with a new player, its role born and the insertion asked for. *)
Record born (d : Descriptor) (coid s uid : Z) (x : Session) (w w1 : W) : Prop := {
  born_req : requests (m_db (zone w1)) = requests (m_db (zone w))
    ++ [role_request MYSQL_REQ_INSERT uid (GenerateMysqlFields (birth_role uid) []).2 (role_cb uid 0 coid)];
  born_map : m_mpZoneAgent (zone w1) = m_mpZoneAgent (zone w);
  born_session : exists p pl, sessions (zone w1) !! s = Some (in_state PLAYER_STATE_CREATING x <| s_player := Some p |>)
    /\ players (zone w1) !! p = Some pl /\ objs (m_db (zone w1)) !! pRoleData pl = Some (birth_role uid);
  born_listener : m_mpListener (m_db (zone w1)) = m_mpListener (m_db (zone w))
}.

Lemma wp_login_new d coid s x uid w :
  role_type d -> 0 <= uid < 2 ^ 48 -> sessions (zone w) !! s = Some x -> s_player x = None -> s_uid x = uid ->
  in_map s uid (zone w) -> m_mpPlayerAgents (ec w) !! uid = None -> can_ask w -> can_delay w -> coid <> 0 ->
  wp (Login_got Role_new Request_ret task_OnEvent coid s None DATA_NO_EXISTS)
    (fun r w1 => r = Some (LoginInserted s) /\ born d coid s uid x w w1) w.
Proof.
  intros Hd Hu Hx Hnp Hux Hin Hnk Hask Hdl Hco. unfold Login_got.
  change (DATA_NO_EXISTS <? 0) with false. change (DATA_NO_EXISTS =? DATA_OK) with false. rewrite Z.eqb_refl. cbv iota.
  wp_steps. eapply wp_SetState; [exact Hx|]. unfold NotifyCreateRole, CreateRole. wp_steps.
  set (x1 := in_state PLAYER_STATE_CREATING x).
  eapply wp_session; [by apply at_session_eq|]. change (s_uid (in_state PLAYER_STATE_CREATING x)) with (s_uid x).
  rewrite Hux. wp_steps. apply wp_on_db. unfold new_handle. wp_steps.
  set (w1 := put_db _ _). set (h := next_obj (m_db (zone w))).
  assert (sessions (zone w1) !! s = Some x1) as Hx1 by (by apply at_session_eq).
  apply (wp_assoc (PlayerAgent_new h false) (fun p => AttachPlayerAgent Request_ret task_OnEvent s p)). apply wp_bind.
  eapply (wp_attach_new s x1 h false (role_with Role_new uid) uid); [exact Hx1|done|exact Hin| | | |].
  { apply lookup_insert_eq. }
  { apply (role_with_is_role d uid Hd). }
  { by eapply can_delay_ext; [| |exact Hdl]. }
  intros i w2 (Hz & _ & _). change (m_mpPlayerAgents (ec w1) !! uid) with (m_mpPlayerAgents (ec w) !! uid). rewrite Hnk.
  apply wp_ret. set (p := next_ptr (zone w1)) in *.
  assert (sessions (zone (timed p i w2)) !! s = Some (x1 <| s_player := Some p |>)) as Hx2.
  { change (sessions (zone w2) !! s = Some (x1 <| s_player := Some p |>)). rewrite Hz. simpl.
    by rewrite !lookup_alter_eq, Hx. }
  wp_steps. eapply wp_session; [exact Hx2|]. wp_steps. eapply wp_lift; [reflexivity|].
  unfold InitBirthPlayer. rewrite (parts_eq Request_ret task_OnEvent p).
  cbn [visit_all OnInitBirthPlayer autosync knapsack task]. wp_steps.
  eapply (wp_mutate_role p _ (mkPlayerAgent h false 0 i) (role_with Role_new uid)).
  { simpl. rewrite Hz. unfold player_part. simpl. by rewrite lookup_alter_eq, !lookup_insert_eq. }
  { simpl. rewrite Hz. apply lookup_insert_eq. }
  wp_steps. change (negb (0 =? 0)) with false. cbv iota. wp_steps. eapply wp_session; [exact Hx2|]. wp_steps.
  unfold session_role. wp_steps. eapply wp_session; [exact Hx2|]. wp_steps. eapply wp_lift; [reflexivity|].
  wp_steps. eapply (wp_player p).
  { simpl. rewrite Hz. simpl. rewrite !lookup_alter_eq, lookup_insert_eq. reflexivity. }
  wp_steps. change (s_uid (x1 <| s_player := Some p |>)) with (s_uid x). rewrite Hux.
  eapply (wp_InsertRole d h (birth_role uid) uid); [done|by apply birth_is_role|done| |done|apply lookup_insert_eq|].
  { destruct Hask as [[s0 [Hs0 Hk0]] Hm Ht]. split; [exists s0; split; [|done]|done|]; simpl; rewrite Hz; done. }
  intros s2 Hk2. wp_steps. split; [done|]. split.
  - simpl. rewrite Hz. reflexivity.
  - simpl. rewrite Hz. reflexivity.
  - exists p. eexists. split; [exact Hx2|]. split.
    + simpl. rewrite Hz. simpl. rewrite !lookup_alter_eq, lookup_insert_eq. reflexivity.
    + apply lookup_insert_eq.
  - simpl. rewrite Hz. reflexivity.
Qed.

(** C13. A client without a role plays with a new one. When the database has no role of
    the user, the zone server makes one with ten places in its knapsack and asks the
    database to insert it; once that is done, the session plays with the new role. *)
Theorem login_creates_role d src seq ggc (a : ZoneAgent) coid rsp1 rsp2 w :
  role_type d -> ss_event ggc = EVENT_CONNECTED -> representable ggc -> 0 <= ss_area ggc < 2 ^ 16 ->
  let uid := GetRoleID (ss_uid ggc) (ss_area ggc) in
  let q1 := role_request MYSQL_REQ_SELECT uid [] (role_cb uid ROLE_DB_GET_LOGIN coid) in
  let q2 := role_request MYSQL_REQ_INSERT uid (GenerateMysqlFields (birth_role uid) []).2 (role_cb uid 0 coid) in
  GetAgent (ss_area ggc) (zone w) = Some a -> FindSession uid a = None ->
  m_mpGetObjects (m_db (zone w)) !! print_d uid = None -> m_mpPlayerAgents (ec w) !! uid = None ->
  (forall l, Request_ret l = 0) -> can_ask w -> can_delay w -> has_listener w -> co_Create (dom (cos (zone w))) = Some coid ->
  p_tblname rsp1 = "Role" -> p_op rsp1 = MYSQL_REQ_SELECT -> p_ret rsp1 = MYSQL_RESULT_NO_DATA -> p_cb rsp1 = q_cb q1 ->
  p_tblname rsp2 = "Role" -> p_op rsp2 = MYSQL_REQ_INSERT -> p_ret rsp2 = MYSQL_RESULT_OK -> p_cb rsp2 = q_cb q2 ->
  exists w3, zone_run Role_new Request_ret task_OnEvent CallFunction
      [GateMessage (gate_msg src seq ggc []); DBResponse rsp1; DBResponse rsp2] w
      = Some ([attach_result coid; co_resumed coid; co_resumed coid], w3)
    /\ requests (m_db (zone w3)) = requests (m_db (zone w)) ++ [q1; q2]
    /\ playing uid (fun o => o = birth_role uid) w3.
Proof.
  intros Hd He Hl Har uid q1 q2 Ha Hf Hng Hne Hrq Hask Hdl Hli Hco Ht1 Hop1 Hr1 Hcb1 Ht2 Hop2 Hr2 Hcb2.
  destruct (co_Create_fresh _ _ Hco) as [_ Hcoid].
  assert (0 <= uid < 2 ^ 48) as Hu by apply role_id_range. set (s := next_ptr (zone w)).
  apply wp_run_ret. cbn [zone_run]. wp_steps. eapply wp_mono.
  { apply (wp_connect d src seq ggc a coid w); try done. unfold FindObject_key. fold uid. rewrite Hng.
    by destruct (bool_decide _). }
  intros r1 w1 (-> & s1 & Hk1 & ->). wp_steps. set (w1 := connected s1 a src ggc coid w).
  assert (in_map s uid (zone w1)) as (b & Hb & Hmb) by (exact (in_map_connected s1 a src ggc coid w Har)).
  eapply (wp_answer uid ROLE_DB_GET_LOGIN coid (LoginGot s) rsp1); [exact Hli|done|done|done|left; by rewrite Hr1| |done|].
  { apply lookup_insert_eq. }
  rewrite Hr1. change (data_result MYSQL_RESULT_NO_DATA) with DATA_NO_EXISTS. cbn [co_session resume_body].
  apply wp_run_co. eapply wp_mono.
  { eapply (wp_login_new d coid s (new_session src ggc) uid (at_co coid (Running s) w1)); [done|done|apply lookup_insert_eq|done|done| |done| |..].
    - by exists b.
    - split; [by exists s1|exact (ask_mem _ Hask)|apply Hrq].
    - by eapply can_delay_ext; [| |exact Hdl].
    - lia. }
  intros r w2 (-> & [Hreq Hmap (p & pl & Hx & Hp & Ho) Hli2]). wp_steps.
  eapply (wp_answer uid 0 coid (LoginInserted s) rsp2); [|done|done|done|by right; left|apply lookup_insert_eq|done|].
  { unfold has_listener. simpl. rewrite Hli2. exact Hli. }
  rewrite Hr2. change (data_result MYSQL_RESULT_OK) with DATA_OK. cbn [co_session resume_body].
  apply wp_run_co. unfold Login_inserted. rewrite Z.eqb_refl. wp_steps. eapply wp_SetState; [exact Hx|]. wp_steps.
  assert (m_mpZoneAgent (zone w2) !! GetZoneIDFromArea (GetAreaFromRoleID uid) = Some b) as Hb2 by (rewrite Hmap; exact Hb).
  eapply (wp_release_session_held s (GetZoneIDFromArea (GetAreaFromRoleID uid)) b uid); [exact Hb2|exact Hmb|].
  wp_steps. split; [done|]. split.
  { enough (requests (m_db (zone w2)) = requests (m_db (zone w)) ++ [q1; q2]) as E by exact E. rewrite Hreq.
    simpl. by rewrite <- (assoc_L (++)). }
  eexists s, _, p, pl, _. split_and!.
  - by exists b.
  - simpl. rewrite lookup_alter_eq, Hx. reflexivity.
  - reflexivity.
  - reflexivity.
  - exact Hp.
  - exact Ho.
  - reflexivity.
Qed.

(** ** Logout *)

(** A coroutine waits for the role of its session to be saved, with some tries left; the
    event centre keeps the player. *)
Record saving (d : Descriptor) (coid s uid : Z) (o : MetaObject) (tries : nat) (w : W) : Prop := {
  sv_co : cos (zone w) !! coid = Some (LogoutSaved s tries);
  sv_session : exists x p pl, sessions (zone w) !! s = Some x /\ s_uid x = uid /\ s_player x = Some p
    /\ players (zone w) !! p = Some pl /\ objs (m_db (zone w)) !! pRoleData pl = Some o
    /\ m_mpPlayerAgents (ec w) !! uid = Some p;
  sv_role : is_role d o uid;
  sv_ask : can_ask w;
  sv_listener : has_listener w
}.

Definition save_request (uid : Z) (o : MetaObject) (coid : Z) : MysqlRequest :=
  role_request MYSQL_REQ_UPDATE uid (GenerateMysqlFields o []).2 (role_cb uid ROLE_DB_UPDATE_LOGOUT coid).

(** An answer that the save of a role failed. *)
Record save_failed (uid coid : Z) (rsp : MysqlResponse) : Prop := {
  sf_tbl : p_tblname rsp = "Role";
  sf_op : p_op rsp = MYSQL_REQ_UPDATE;
  sf_ret : 0 < data_result (p_ret rsp);
  sf_cb : p_cb rsp = role_cb uid ROLE_DB_UPDATE_LOGOUT coid
}.

(** The coroutine tries again. *)
Lemma wp_save_again d coid s uid o n rsp w :
  role_type d -> 0 <= uid < 2 ^ 48 -> 0 < coid < 2 ^ 31 -> (forall l, Request_ret l = 0) ->
  saving d coid s uid o (S (S n)) w -> save_failed uid coid rsp ->
  wp (zone_step Role_new Request_ret task_OnEvent CallFunction (DBResponse rsp)) (fun r w1 =>
    r = co_resumed coid /\ saving d coid s uid o (S n) w1
    /\ requests (m_db (zone w1)) = requests (m_db (zone w)) ++ [save_request uid o coid]) w.
Proof.
  intros Hd Hu Hcoid Hrq [Hc (x & p & pl & Hx & Hux & Hp & Hpl & Ho & Hkp) Hro Hask Hli] [Ht Hop Hret Hcb].
  eapply (wp_answer uid ROLE_DB_UPDATE_LOGOUT coid (LogoutSaved s (S (S n))) rsp); [exact Hli|done|done|done|by right; right|done|done|].
  cbn [co_session resume_body]. apply wp_run_co. unfold Logout_saved. rewrite (proj2 (Z.ltb_ge _ _)) by lia.
  rewrite (proj2 (Z.eqb_neq _ DATA_OK)) by (unfold DATA_OK; lia). rewrite bool_decide_true by lia. cbn [pred Logout_try].
  wp_steps. eapply wp_session; [exact Hx|]. unfold session_role. wp_steps. eapply wp_session; [exact Hx|]. wp_steps.
  eapply wp_lift; [exact Hp|]. wp_steps. eapply wp_player; [exact Hpl|]. wp_steps. rewrite Hux.
  eapply (wp_UpdateRole d (pRoleData pl) o uid); [done|done|done| |lia|exact Ho|].
  { destruct Hask as [Hdb Hm Hq]. split; [exact Hdb|done|exact Hq]. }
  intros s1 Hk1. wp_steps. split; [done|]. split; [|done]. split.
  - apply lookup_insert_eq.
  - by exists x, p, pl.
  - done.
  - split; [by exists s1|exact (ask_mem _ Hask)|apply Hrq].
  - exact Hli.
Qed.

(** A session that ends lets its player go, which the event centre keeps. *)
Lemma wp_release_session_kept s x p uid (Q : unit -> W -> Prop) w :
  sessions (zone w) !! s = Some x -> s_player x = Some p -> m_mpPlayerAgents (ec w) !! uid = Some p ->
  Q tt w -> Q tt (w <| zone ::= fun z => z <| sessions ::= delete s |> |>) -> wp (release_session s) Q w.
Proof.
  intros Hx Hp Hk HQ1 HQ2. unfold release_session, get_zone. wp_steps. destruct (session_held s (zone w)); [by wp_steps|].
  wp_steps. eapply wp_session; [exact Hx|]. unfold on_zone. wp_steps. rewrite Hp. unfold release_player. wp_steps.
  unfold player_held. rewrite (bool_decide_true (map_Exists _ (m_mpPlayerAgents _))) by (by repeat eexists).
  rewrite orb_true_r. by wp_steps.
Qed.

Lemma wp_release_session_last s x p uid (Q : unit -> W -> Prop) w :
  sessions (zone w) !! s = Some x -> s_player x = Some p -> m_mpPlayerAgents (ec w) !! uid = Some p ->
  (forall area (a : ZoneAgent) u, m_mpZoneAgent (zone w) !! area = Some a -> m_mpSessions a !! u <> Some (Some s)) ->
  (forall i c, cos (zone w) !! i = Some c -> co_session c <> s) ->
  Q tt (w <| zone ::= fun z => z <| sessions ::= delete s |> |>) -> wp (release_session s) Q w.
Proof.
  intros Hx Hp Hk Hm Hc HQ. unfold release_session, get_zone. wp_steps. unfold session_held.
  rewrite !bool_decide_false; [|intros (i & c & E1 & E2); by eapply Hc|intros (ar & b & E1 & u & q & E2 & ->); by eapply Hm].
  cbn [orb]. wp_steps. eapply wp_session; [exact Hx|]. unfold on_zone. wp_steps. rewrite Hp. unfold release_player. wp_steps.
  unfold player_held. rewrite (bool_decide_true (map_Exists _ (m_mpPlayerAgents _))) by (by repeat eexists).
  rewrite orb_true_r. by wp_steps.
Qed.

Lemma delete_alter_same {K V} `{Countable K} (f : V -> V) (k : K) (m : gmap K V) : delete k (alter f k m) = delete k m.
Proof.
  apply map_eq. intros j. destruct (decide (k = j)) as [->|].
  - by rewrite !lookup_delete_eq.
  - by rewrite !lookup_delete_ne, lookup_alter_ne.
Qed.

(** C31. A role is saved in at most three tries. When the database answers every save of a
    logout with an error, the coroutine asks again, with the same fields, after the first
    and the second answer; with the third it ends, without another request. *)
Theorem logout_gives_up d coid s uid o rsp w :
  role_type d -> 0 <= uid < 2 ^ 48 -> 0 < coid < 2 ^ 31 -> (forall l, Request_ret l = 0) ->
  saving d coid s uid o 3 w -> save_failed uid coid rsp ->
  exists w3, zone_run Role_new Request_ret task_OnEvent CallFunction (replicate 3 (DBResponse rsp)) w
      = Some (replicate 3 (co_resumed coid), w3)
    /\ requests (m_db (zone w3)) = requests (m_db (zone w)) ++ [save_request uid o coid; save_request uid o coid]
    /\ cos (zone w3) !! coid = None.
Proof.
  intros Hd Hu Hcoid Hrq Hsv Hf. apply wp_run_ret. cbn [zone_run replicate]. wp_steps.
  eapply wp_mono; [by eapply wp_save_again|]. intros r1 w1 (-> & Hsv1 & Hr1). wp_steps.
  eapply wp_mono; [by eapply wp_save_again|]. intros r2 w2 (-> & [Hc (x & p & pl & Hx & Hux & Hp & Hpl & Ho & Hkp) Hro Hask Hli] & Hr2).
  wp_steps. destruct Hf as [Ht Hop Hret Hcb].
  eapply (wp_answer uid ROLE_DB_UPDATE_LOGOUT coid (LogoutSaved s 1) rsp); [exact Hli|done|done|done|by right; right|done|done|].
  cbn [co_session resume_body]. apply wp_run_co. unfold Logout_saved. rewrite (proj2 (Z.ltb_ge _ _)) by lia.
  rewrite (proj2 (Z.eqb_neq _ DATA_OK)) by (unfold DATA_OK; lia). rewrite bool_decide_false by lia. wp_steps.
  assert (requests (m_db (zone w2)) = requests (m_db (zone w)) ++ [save_request uid o coid; save_request uid o coid]) as Hr
    by (by rewrite Hr2, Hr1, <- (assoc_L (++))).
  eapply (wp_release_session_kept s x p uid); [exact Hx|done|exact Hkp| |];
    wp_steps; (split; [done|]); (split; [exact Hr|apply lookup_delete_eq]).
Qed.

(** ** A client leaves *)

(** The gate is told that a session closes. *)
Definition closing (x : Session) : GateSSMsg := response_head x EVENT_CLOSE CONNECTION_CLOSE_BY_DEFAULT.

Lemma wp_ResponseClient_close s x b r pr (Q : Z -> W -> Prop) w :
  sessions (zone w) !! s = Some x -> buffer_Create (ByteSize (closing x)) = Some b ->
  SendToAgent (i32 (s_gate x)) [serialize (closing x)] (ByteSize (closing x)) (m_chnlProxy (zone w)) = Some (r, pr) ->
  Q r (w <| zone ::= fun z => z <| m_chnlProxy := pr |> |>) ->
  wp (ResponseClient s EVENT_CLOSE CONNECTION_CLOSE_BY_DEFAULT None) Q w.
Proof.
  intros Hx Hb Hs HQ. unfold ResponseClient. wp_steps. eapply wp_session; [exact Hx|]. wp_steps; [done|].
  eapply wp_lift; [exact Hb|]. wp_steps. destruct (pack_buffer_serialize _ _ Hb) as [Hpk Hcap].
  eapply wp_lift; [exact Hpk|].
  apply (wp_zoom (fun w : W => m_chnlProxy (zone w)) (fun p w => w <| zone ::= fun z => z <| m_chnlProxy := p |> |>)).
  unfold wp. rewrite Hcap, Hs. exact HQ.
Qed.

(** The close of a session whose client closed it: it matches the session. *)
Record close_of (ggc : GateSSMsg) (src s : Z) (x : Session) (a : ZoneAgent) (w : W) : Prop := {
  cl_event : ss_event ggc = EVENT_CLOSE;
  cl_len : representable ggc;
  cl_agent : GetAgent (ss_area ggc) (zone w) = Some a;
  cl_map : m_mpSessions a !! GetRoleID (ss_uid ggc) (ss_area ggc) = Some (Some s);
  cl_session : sessions (zone w) !! s = Some x;
  cl_idx : GetIdx x = ss_idx ggc;
  cl_gate : GetGateID x = src;
  cl_mem : is_Some (buffer_Create (ByteSize (closing x)))
}.

Lemma wp_close src seq ggc s x (a : ZoneAgent) (Q : Z -> W -> Prop) w :
  zone_inv None w -> close_of ggc src s x a w ->
  let uid := GetRoleID (ss_uid ggc) (ss_area ggc) in
  (s_uid x = uid -> s_mgr x = ss_area ggc ->
   wp (Kick Request_ret task_OnEvent s KICK_REASON_CLOSE_CLIENT)
     (fun r w1 => wp (DeleteSession (ss_area ggc) uid) (fun _ w2 => Q r w2) w1) w) ->
  wp (zone_step Role_new Request_ret task_OnEvent CallFunction (GateMessage (gate_msg src seq ggc []))) Q w.
Proof.
  intros Hinv [He Hl Ha Hm Hx Hi Hg _] uid HQ. destruct (inv_map _ _ Hinv _ _ _ _ Ha Hm) as (y & Hy & Hu & Hmg).
  fold uid in Hm, Hu.
  rewrite Hx in Hy. injection Hy as <-. specialize (HQ Hu Hmg).
  cbn [zone_step]. apply wp_OnGateMessage; [done|by rewrite Ha|]. unfold gate_event. rewrite He.
  change (EVENT_CLOSE =? EVENT_CONNECTED) with false. rewrite Z.eqb_refl. cbv iota.
  unfold DetachPlayerAgent, StopSession, get_zone. fold uid. wp_steps. eapply wp_lift; [exact Ha|].
  unfold FindSession. rewrite Hm. cbn [mjoin option_join]. wp_steps. eapply wp_session; [exact Hx|].
  rewrite Hi, Hg, !Z.eqb_refl. cbn [negb orb]. wp_steps. eapply wp_mono; [exact HQ|]. intros r w1 H1. wp_steps.
  eapply wp_mono; [exact H1|]. intros ? w2 H2. by wp_steps.
Qed.

(** The session leaves the map of its zone, but a coroutine holds it. *)
Lemma wp_DeleteSession_held area (a : ZoneAgent) uid s coid c (Q : Z -> W -> Prop) w :
  GetAgent area (zone w) = Some a -> m_mpSessions a !! uid = Some (Some s) ->
  cos (zone w) !! coid = Some c -> co_session c = s ->
  Q 0 (w <| zone ::= fun z => z <| m_mpZoneAgent ::= alter (fun a => a <| m_mpSessions ::= delete uid |>) area |> |>) ->
  wp (DeleteSession area uid) Q w.
Proof.
  intros Ha Hm Hc Hs HQ. unfold DeleteSession, get_zone, upd_agent, on_zone. wp_steps. eapply wp_lift; [exact Ha|]. wp_steps.
  rewrite Hm. cbn [mjoin option_join]. unfold release_session, get_zone. wp_steps. unfold session_held.
  rewrite (bool_decide_true (map_Exists _ (cos _))) by (by repeat eexists). rewrite orb_true_r. by wp_steps.
Qed.

(** C14. A client that leaves has its role saved. When the close of a playing session is
    reported by the session's gate and with the session's own index (a report with another
    index is refused, [logout_refused]; those of the gate server carry index 0), and the
    proxy accepts the message to the gate: the session leaves its zone, its saving timer is
    cancelled, the gate is told of the close, and the database is asked to store every field
    of the role; when it has, the session is gone. *)
Theorem logout_saves_role d src seq ggc s x (a : ZoneAgent) p pl o coid pr rsp w :
  role_type d -> zone_inv None w -> close_of ggc src s x a w ->
  let uid := GetRoleID (ss_uid ggc) (ss_area ggc) in
  s_state x = PLAYER_STATE_PLAYING -> s_player x = Some p -> players (zone w) !! p = Some pl ->
  objs (m_db (zone w)) !! pRoleData pl = Some o -> is_role d o uid -> m_mpPlayerAgents (ec w) !! uid = Some p ->
  can_ask w -> has_listener w -> co_Create (dom (cos (zone w))) = Some coid ->
  SendToAgent (i32 (s_gate x)) [serialize (closing x)] (ByteSize (closing x)) (m_chnlProxy (zone w)) = Some (0, pr) ->
  p_tblname rsp = "Role" -> p_op rsp = MYSQL_REQ_UPDATE -> p_ret rsp = MYSQL_RESULT_OK ->
  p_cb rsp = role_cb uid ROLE_DB_UPDATE_LOGOUT coid ->
  (forall area b u, m_mpZoneAgent (zone w) !! area = Some b -> m_mpSessions b !! u = Some (Some s) ->
     area = ss_area ggc /\ u = uid) ->
  (forall i c, cos (zone w) !! i = Some c -> co_session c <> s) ->
  exists w2, zone_run Role_new Request_ret task_OnEvent CallFunction
      [GateMessage (gate_msg src seq ggc []); DBResponse rsp] w = Some ([0; co_resumed coid], w2)
    /\ requests (m_db (zone w2)) = requests (m_db (zone w)) ++ [save_request uid o coid]
    /\ m_mpTimerEvents (timerMgr w2) = delete (p_dwTimerID pl) (m_mpTimerEvents (timerMgr w))
    /\ m_chnlProxy (zone w2) = pr /\ sessions (zone w2) = delete s (sessions (zone w))
    /\ m_mpSessions <$> GetAgent (ss_area ggc) (zone w2) = Some (delete uid (m_mpSessions a)).
Proof.
  intros Hd Hinv Hcl uid Hst Hp Hpl Ho Hro Hkp Hask Hli Hco Hsend Ht Hop Hret Hcb Honly Hnoco.
  destruct (co_Create_fresh _ _ Hco) as [_ Hcoid]. assert (0 <= uid < 2 ^ 48) as Hu by apply role_id_range.
  apply wp_run_ret. cbn [zone_run]. wp_steps. eapply wp_close; [done|exact Hcl|]. intros Hux Hmg. fold uid in Hux |- *.
  destruct Hcl as [_ _ Ha Hm Hx _ _ [buf Hbuf]]. fold uid in Hm.
  unfold Kick. wp_steps. eapply wp_session; [exact Hx|]. rewrite Hst, Hp.
  change (PLAYER_STATE_PLAYING =? PLAYER_STATE_KICKING) with false. cbv iota. unfold Detach.
  rewrite (parts_eq Request_ret task_OnEvent p). cbn [visit_all OnDetach autosync knapsack task]. wp_steps.
  eapply wp_player; [exact Hpl|]. unfold AutoSync_OnDetach, on_timer, CancelTimer. wp_steps. apply wp_zoom. wp_steps.
  unfold GetSession, get_zone. wp_steps. rewrite Hux, Hmg. eapply wp_lift; [exact Ha|]. rewrite Hm. wp_steps.
  unfold Logout. wp_steps. eapply wp_lift; [reflexivity|]. wp_steps. eapply wp_session; [exact Hx|]. rewrite Hst, Z.eqb_refl.
  cbn [negb]. wp_steps. eapply wp_SetState; [exact Hx|]. unfold start_co, get_zone. wp_steps.
  match goal with |- context [co_Create ?l] => change l with (dom (cos (zone w))) end. rewrite Hco. apply wp_run_co.
  cbn [Logout_try]. wp_steps. eapply wp_session; [by apply at_session_eq|]. unfold session_role. wp_steps.
  eapply wp_session; [by apply at_session_eq|]. wp_steps. eapply wp_lift; [exact Hp|]. wp_steps.
  eapply wp_player; [exact Hpl|]. wp_steps. change (s_uid (in_state PLAYER_STATE_OFFLINE x)) with (s_uid x). rewrite Hux.
  eapply (wp_UpdateRole d (pRoleData pl) o uid); [done|done|done| |lia|exact Ho|].
  { destruct Hask as [Hdb Hmm Hq]. split; [exact Hdb|done|exact Hq]. }
  intros s1 Hk1. wp_steps.
  eapply (wp_ResponseClient_close s (in_state PLAYER_STATE_OFFLINE x)); [by apply at_session_eq|exact Hbuf|exact Hsend|].
  wp_steps. eapply wp_SetState; [by apply at_session_eq|]. wp_steps.
  eapply (wp_DeleteSession_held (ss_area ggc) a uid s coid); [exact Ha|exact Hm|apply lookup_insert_eq|done|].
  wp_steps.
  eapply (wp_answer uid ROLE_DB_UPDATE_LOGOUT coid (LogoutSaved s 3) rsp); [exact Hli|done|done|done|by right; right| |done|].
  { apply lookup_insert_eq. }
  rewrite Hret. change (data_result MYSQL_RESULT_OK) with DATA_OK. cbn [co_session resume_body]. apply wp_run_co.
  unfold Logout_saved. change (DATA_OK <? 0) with false. rewrite Z.eqb_refl. cbv iota. wp_steps.
  eapply (wp_release_session_last s _ p uid); [apply at_session_eq; by apply at_session_eq|exact Hp|exact Hkp|..].
  { intros area b u E Hb. simpl in E. apply lookup_alter_Some in E as [(<- & b0 & Eb & ->)|[Hne Eb]].
    - simpl in Hb. apply lookup_delete_Some in Hb as [Hu' Hb]. by destruct (Honly _ _ _ Eb Hb).
    - by destruct (Honly _ _ _ Eb Hb). }
  { intros i c E. simpl in E. apply lookup_delete_Some in E as [Hne E]. rewrite !lookup_insert_ne in E by done. by eapply Hnoco. }
  wp_steps. split; [done|]. split_and!.
  - reflexivity.
  - simpl. unfold player_part. by rewrite Hpl.
  - reflexivity.
  - simpl. by rewrite !delete_alter_same.
  - unfold GetAgent. simpl. unfold GetAgent in Ha. by rewrite lookup_alter_eq, Ha.
Qed.

(** The report of a close is refused when its index is not the session's, or when it comes
    from another gate: nothing changes, the session goes on playing and its role is not
    saved. *)
Theorem logout_refused src seq ggc s x (a : ZoneAgent) w :
  ss_event ggc = EVENT_CLOSE -> representable ggc -> GetAgent (ss_area ggc) (zone w) = Some a ->
  m_mpSessions a !! GetRoleID (ss_uid ggc) (ss_area ggc) = Some (Some s) -> sessions (zone w) !! s = Some x ->
  GetIdx x <> ss_idx ggc \/ GetGateID x <> src ->
  zone_step Role_new Request_ret task_OnEvent CallFunction (GateMessage (gate_msg src seq ggc [])) w = Some (-1, w).
Proof.
  intros He Hl Ha Hm Hx Hne.
  destruct (wp_run (zone_step Role_new Request_ret task_OnEvent CallFunction (GateMessage (gate_msg src seq ggc [])))
    (fun r w' => r = -1 /\ w' = w) w) as (r & w' & E & -> & ->); [|exact E].
  cbn [zone_step]. apply wp_OnGateMessage; [done|by rewrite Ha|]. unfold gate_event. rewrite He.
  change (EVENT_CLOSE =? EVENT_CONNECTED) with false. rewrite Z.eqb_refl. cbv iota.
  unfold DetachPlayerAgent, StopSession, get_zone. wp_steps. eapply wp_lift; [exact Ha|].
  unfold FindSession. rewrite Hm. cbn [mjoin option_join]. wp_steps. eapply wp_session; [exact Hx|].
  assert (negb (GetIdx x =? ss_idx ggc) || negb (GetGateID x =? src) = true) as ->; [|by wp_steps].
  apply orb_true_iff. rewrite !negb_true_iff, !Z.eqb_neq. done.
Qed.

(** ** A close during the login *)

(** Nobody plays under a user id. *)
Lemma wp_Attach_offline p pl o uid (Q : unit -> W -> Prop) w :
  players (zone w) !! p = Some pl -> objs (m_db (zone w)) !! pRoleData pl = Some o -> get_num o "rid" = uid ->
  GetZonePlayerAgentPtr (zone w) uid = None -> m_mpPlayerAgents (ec w) !! uid = None ->
  Q tt (timed p (u32 (-1)) w) -> wp (Attach (parts p)) Q w.
Proof.
  intros Hp Ho Hu Hon Hk HQ. unfold Attach.
  rewrite (parts_eq Request_ret task_OnEvent p). cbn [visit_all OnAttach autosync knapsack task].
  unfold GetUID, role_data. wp_steps. eapply wp_player; [exact Hp|]. apply wp_on_db. eapply wp_deref; [exact Ho|]. wp_steps.
  unfold AutoSync_OnAttach. wp_steps.
  assert (as_uid (player_part p (zone w)) = uid) as Has by (unfold player_part; rewrite Hp, Ho; done).
  change (put_db (m_db (zone w)) w) with (w <| zone := zone w <| m_db := m_db (zone w) |> |>).
  replace (w <| zone := zone w <| m_db := m_db (zone w) |> |>) with w by (by destruct w as [? ? []]).
  rewrite Has. unfold FireEvent_later, FireEvent.
  change ((EVENT_TEST_MIN <? EVENT_PLAYER_SYNC_DB) && (EVENT_PLAYER_SYNC_DB <? EVENT_TEST_MAX)) with false.
  change ((EVENT_PLAYER_MIN <? EVENT_PLAYER_SYNC_DB) && (EVENT_PLAYER_SYNC_DB <? EVENT_PLAYER_MAX)) with true.
  change (MAX_PLAYER_EVENT_DELAY_TIME <? 300) with false. cbv iota. wp_steps. rewrite Hon. change (0 <? 300) with true. cbv iota.
  wp_steps. rewrite Hk. unfold release_player, on_part. wp_steps. exact HQ.
Qed.

(** The world when a session's client has gone while the session waits for its role. *)
Record abandoned (d : Descriptor) (coid s uid : Z) (x : Session) (w : W) : Prop := {
  ab_co : cos (zone w) !! coid = Some (LoginGot s);
  ab_once : forall i c, cos (zone w) !! i = Some c -> co_session c = s -> i = coid;
  ab_session : sessions (zone w) !! s = Some x;
  ab_uid : s_uid x = uid;
  ab_no_player : s_player x = None;
  ab_map : forall area (a : ZoneAgent) u q, m_mpZoneAgent (zone w) !! area = Some a -> m_mpSessions a !! u = Some q ->
    u <> uid /\ q <> Some s;
  ab_kept : m_mpPlayerAgents (ec w) !! uid = None
}.

(** Nobody holds the pointer that is given out next. *)
Lemma fresh_player_free w :
  zone_inv None w ->
  (forall s x, sessions (zone w) !! s = Some x -> s_player x <> Some (next_ptr (zone w)))
  /\ (forall u, m_mpPlayerAgents (ec w) !! u <> Some (next_ptr (zone w))).
Proof.
  intros Hinv. destruct (inv_next _ _ Hinv (next_ptr (zone w)) ltac:(done)) as [_ Hn]. split.
  - intros s x E Hx. destruct (inv_player _ _ Hinv s x _ E Hx) as [z Hz]. congruence.
  - intros u E. destruct (inv_ec _ _ Hinv u _ E) as [z Hz]. congruence.
Qed.

(** A role that arrives for a client that has gone is lost in the cache. The session
    gets its player and plays, although nobody reaches it; its coroutine ends, and with it go
    the session, the player and the role, which the cache of the database agent still has: the
    next login of the user finds a role that is not there. *)
Theorem abandoned_login_dangles d o o0 coid s uid x rsp w :
  role_type d -> 0 <= uid < 2 ^ 48 -> zone_inv None w -> abandoned d coid s uid x w -> 0 < coid < 2 ^ 31 ->
  db_ok (m_db (zone w)) -> has_listener w ->
  agent_GetTableMeta (d_name d) (mysql_metas (m_db (zone w))) = Some (table_of (d_name d) d) ->
  m_mpGetObjects (m_db (zone w)) !! print_d uid = None -> prototype_New d = Some o0 ->
  is_role d o uid -> row_of o d rsp -> p_op rsp = MYSQL_REQ_SELECT -> p_cb rsp = role_cb uid ROLE_DB_GET_LOGIN coid ->
  exists w1 h, zone_step Role_new Request_ret task_OnEvent CallFunction (DBResponse rsp) w = Some (co_resumed coid, w1)
    /\ sessions (zone w1) = delete s (sessions (zone w))
    /\ FindObject_key (print_d uid) (m_db (zone w1)) = Some h /\ objs (m_db (zone w1)) !! h = None.
Proof.
  intros Hd Hu Hinv [Hc Honce Hx Hux Hnp Hmap Hkp] Hcoid Hdb Hli Hmeta Hng Hnew Ho Hrow Hop Hcb.
  set (h := next_obj (m_db (zone w))). set (p := next_ptr (zone w)). cut (exists w1,
    zone_step Role_new Request_ret task_OnEvent CallFunction (DBResponse rsp) w = Some (co_resumed coid, w1)
    /\ sessions (zone w1) = delete s (sessions (zone w))
    /\ FindObject_key (print_d uid) (m_db (zone w1)) = Some h /\ objs (m_db (zone w1)) !! h = None).
  { intros (w1 & Hw1). by exists w1, h. }
  apply wp_run_ret.
  eapply (wp_answer_row d o o0 uid uid ROLE_DB_GET_LOGIN coid (LoginGot s) rsp); try done; [by rewrite Hng|].
  intros s2 o' Hk2 Ho' Hsame. cbn [co_session resume_body]. set (w2 := put_db _ w).
  apply wp_run_co. eapply (Login_got_found coid s x h uid); [exact Hx|done|].
  eapply wp_FindRoleObject; [done|done|by exists s2|]. intros s3 Hk3. split; [|split; [exact Hx|]].
  { apply FindObject_cached, lookup_insert_eq. }
  unfold Login_got. change (0 <? 0) with false. change (0 =? DATA_OK) with true. cbv iota. wp_steps.
  eapply wp_session; [exact Hx|]. wp_steps. unfold PlayerAgent_new, AttachPlayerAgent, upd_session, get_zone, on_zone.
  wp_steps. eapply wp_session; [exact Hx|]. wp_steps. eapply wp_session; [exact Hx|]. wp_steps. rewrite Hnp.
  cbn [release_player]. wp_steps.
  eapply (wp_Attach_offline p (mkPlayerAgent h true 0 0) o' uid); [apply lookup_insert_eq|apply lookup_insert_eq|by eapply same_role| |exact Hkp|].
  { unfold GetZonePlayerAgentPtr.
    match goal with |- context [GetZoneAgentByArea ?b _] => destruct (GetZoneAgentByArea b _) as [a|] eqn:Ea end; [|done].
    cbn [mbind option_bind]. unfold FindSession. destruct (m_mpSessions a !! uid) as [q|] eqn:Eq; [|done].
    by destruct (Hmap _ a uid q Ea Eq). }
  wp_steps. eapply wp_SetState; [by apply at_session_eq|]. wp_steps.
  unfold release_session, get_zone. wp_steps. unfold session_held. rewrite !bool_decide_false.
  2:{ intros (i & c & E & Es). simpl in E. apply lookup_delete_Some in E as [Hne E]. rewrite lookup_insert_ne in E by done.
      by apply Hne, eq_sym, (Honce i c). }
  2:{ intros (ar & b & E1 & u & q & E2 & ->). by destruct (Hmap _ _ _ _ E1 E2). }
  cbn [orb]. wp_steps. eapply wp_session; [apply at_session_eq; by apply at_session_eq|]. unfold on_zone. wp_steps.
  match goal with |- wp (release_player ?q) _ _ => change q with (Some p) end.
  eapply (wp_release_player_last p (mkPlayerAgent h true 0 (u32 (-1)))).
  { simpl. unfold player_part. simpl. by rewrite lookup_alter_eq, !lookup_insert_eq. }
  { apply player_unheld.
    - intros u E. by destruct (fresh_player_free w Hinv) as [_ Hn]; eapply Hn.
    - intros s' y E Hy. simpl in E. rewrite !delete_alter_same in E. apply lookup_delete_Some in E as [_ E].
      by destruct (fresh_player_free w Hinv) as [Hn _]; eapply Hn. }
  { exists o'. simpl. apply lookup_insert_eq. }
  split; [done|]. split_and!.
  - simpl. by rewrite !delete_alter_same.
  - apply FindObject_cached, lookup_insert_eq.
  - apply lookup_delete_eq.
Qed.

(** ** Requests of a client *)

(** The answer to a request about a role. *)
Definition role_answer (cmd : Z) (o : MetaObject) : option CSMsgRole :=
  let uid := get_num o "rid" in
  let b := mkCSRoleBase uid (Some (get_str o "name")) (Some 1) in
  let e := mkCSRoleExt (Some (u32 uid)) in
  let m := mkCSRoleMisc (Some (u32 uid)) in
  if cmd =? CSMSG_ROLE_ALL_INFO_REQ then Some (mkCSMsgRole CSMSG_ROLE_ALL_INFO_RSP (Some (mkCSRole b e m)) None None None)
  else if cmd =? CSMSG_ROLE_BASE_INFO_REQ then Some (mkCSMsgRole CSMSG_ROLE_BASE_INFO_RSP None (Some b) None None)
  else if cmd =? CSMSG_ROLE_EXT_INFO_REQ then Some (mkCSMsgRole CSMSG_ROLE_EXT_INFO_RSP None None (Some e) None)
  else if cmd =? CSMSG_ROLE_MISC_INFO_REQ then Some (mkCSMsgRole CSMSG_ROLE_MISC_INFO_RSP None None None (Some m))
  else None.

Lemma put_db_same w : put_db (m_db (zone w)) w = w.
Proof. by destruct w as [? ? []]. Qed.

Lemma wp_role_data p pl o (Q : MetaObject -> W -> Prop) w :
  players (zone w) !! p = Some pl -> objs (m_db (zone w)) !! pRoleData pl = Some o -> Q o w -> wp (role_data p) Q w.
Proof.
  intros Hp Ho HQ. unfold role_data. wp_steps. eapply wp_player; [exact Hp|]. apply wp_on_db.
  eapply wp_deref; [exact Ho|]. by rewrite put_db_same.
Qed.

Lemma wp_role_response s x p pl o cmd role (Q : option CSMsgRole -> W -> Prop) w :
  sessions (zone w) !! s = Some x -> s_player x = Some p -> players (zone w) !! p = Some pl ->
  objs (m_db (zone w)) !! pRoleData pl = Some o -> role_answer cmd o = Some role -> Q (Some role) w ->
  wp (role_response s cmd) Q w.
Proof.
  intros Hx Hp Hpl Ho Hr HQ. unfold role_answer in Hr. unfold role_response, session_player, GetPlayerRoleBase, GetPlayerRoleExt,
    GetPlayerRoleMisc, GetUID, GetName.
  repeat match goal with
  | |- wp (if ?c =? ?d then _ else _) _ _ => destruct (c =? d)
  end; simplify_eq; wp_steps; (eapply wp_session; [exact Hx|]); (eapply wp_lift; [exact Hp|]);
    repeat (first [wp_step | eapply wp_role_data; [exact Hpl|exact Ho|]]; cbv beta); exact HQ.
Qed.

(** What sending a message to a client needs: memory for the message and its head. *)
Record can_send (x : Session) (m : CSMsg) (w : W) : Prop := {
  snd_size : 0 < ByteSize m < MAX_CHANNEL_MESSAGE_SIZE;
  snd_agent : is_Some (GetAgent (s_mgr x) (zone w));
  snd_mem : is_Some (buffer_Create (ByteSize m));
  snd_head : is_Some (buffer_Create (ByteSize (response_head x EVENT_DATA 0)))
}.

(** A zone's buffer for messages to clients changes, and nothing else. *)
Definition packed (area : Z) (b : Buffer) (w : W) : W :=
  w <| zone ::= fun z => z <| m_mpZoneAgent ::= alter (fun a => a <| m_msgPackBuffer := b |>) area |> |>.

Lemma alter_twice {K V} `{Countable K} (f g : V -> V) (k : K) (m : gmap K V) :
  (forall v, f (g v) = f v) -> alter f k (alter g k m) = alter f k m.
Proof.
  intros Hfg. apply map_eq. intros j. destruct (decide (k = j)) as [->|Hne].
  - rewrite !lookup_alter_eq. destruct (m !! j); [|done]. simpl. by rewrite Hfg.
  - by rewrite !lookup_alter_ne.
Qed.

Lemma wp_PackCSMsg area (a : ZoneAgent) m (Q : option bytes -> W -> Prop) w :
  0 < ByteSize m < MAX_CHANNEL_MESSAGE_SIZE -> GetAgent area (zone w) = Some a -> is_Some (buffer_Create (ByteSize m)) ->
  (forall b, Q (Some (serialize m)) (packed area b w)) -> wp (PackCSMsg area m) Q w.
Proof.
  intros Hsz Ha [b0 Hb0] HQ. unfold PackCSMsg. rewrite (proj2 (Z.leb_gt _ _)) by lia. rewrite (proj2 (Z.leb_gt _ _)) by lia.
  cbn [orb]. unfold get_zone, upd_agent, on_zone. wp_steps. eapply wp_lift; [exact Ha|]. wp_steps.
  assert (forall b, ByteSize m <= iCap b ->
    memcpy_at (iCap b) 0 (serialize m) (pBuffer b) = Some (serialize m ++ drop (length (serialize m)) (pBuffer b))) as Hcp.
  { intros b Hb. unfold memcpy_at. rewrite Z.add_0_l, length_serialize, Z.leb_refl. rewrite (proj2 (Z.leb_le _ _)) by lia.
    cbn [andb]. by rewrite resize_0. }
  assert (wp (if iCap (m_msgPackBuffer a) <? ByteSize m then lift (buffer_Create (ByteSize m)) else mret (m_msgPackBuffer a))
    (fun b w' => w' = w /\ ByteSize m <= iCap b) w) as Hb.
  { destruct (Z.ltb_spec (iCap (m_msgPackBuffer a)) (ByteSize m)); [|by apply wp_ret].
    eapply wp_lift; [exact Hb0|]. destruct (buffer_Create_cap _ _ Hb0) as [-> _]. split; [done|lia]. }
  eapply wp_mono; [exact Hb|]. intros b w' [-> Hle]. wp_steps. unfold SerializeToArray. rewrite Z.leb_refl. wp_steps.
  eapply wp_lift; [by apply Hcp|]. wp_steps.
  assert (take (Z.to_nat (ByteSize m)) (serialize m ++ drop (length (serialize m)) (pBuffer b)) = serialize m) as ->.
  { rewrite <- length_serialize, Nat2Z.id. apply take_app_length. }
  match goal with |- Q _ ?w' => replace w' with (packed area (b <| pBuffer := serialize m ++ drop (length (serialize m)) (pBuffer b) |>
    <| iUsed := ByteSize m |>) w); [by apply HQ|] end.
  unfold packed, setf. simpl. by rewrite alter_twice.
Qed.

(** C30. A playing client is answered. For a request for the data of the role, when the proxy
    accepts what it is given and there is memory for it, the step makes exactly one call of
    the proxy: to the gate of the session, with a head of the session's index, account and
    area, and with the answer made of the player's role. In the state it leads to, the
    proxy is as that call leaves it, the buffer of the session's zone for messages has been
    written, and everything else is as before. *)
Theorem role_request_answered src seq ggc csmsg rq s x (a : ZoneAgent) p pl o role pr w :
  let uid := GetRoleID (ss_uid ggc) (ss_area ggc) in
  let rsp := mkCSMsg CSMSG_CMD_ROLE None (Some role) in
  let head := response_head x EVENT_DATA 0 in
  ss_event ggc = EVENT_DATA -> representable ggc ->
  GetAgent (ss_area ggc) (zone w) = Some a -> m_mpSessions a !! uid = Some (Some s) ->
  m_mpHandlers a !! CSMSG_CMD_ROLE = Some CSRoleHandler ->
  sessions (zone w) !! s = Some x -> s_state x = PLAYER_STATE_PLAYING -> s_player x = Some p ->
  players (zone w) !! p = Some pl -> objs (m_db (zone w)) !! pRoleData pl = Some o ->
  representable csmsg -> csm_cmd csmsg = CSMSG_CMD_ROLE -> csm_role csmsg = Some rq -> role_answer (role_cmd rq) o = Some role ->
  can_send x rsp w ->
  SendToAgent (i32 (s_gate x)) [serialize head; serialize rsp] (ByteSize head) (m_chnlProxy (zone w)) = Some (0, pr) ->
  exists b, zone_step Role_new Request_ret task_OnEvent CallFunction
      (GateMessage (gate_msg src seq ggc (serialize csmsg))) w
    = Some (0, packed (s_mgr x) b w <| zone ::= fun z => z <| m_chnlProxy := pr |> |>).
Proof.
  intros uid rsp head He Hl Ha Hm Hh Hx Hst Hp Hpl Ho Hcs Hcmd Hrq Hans [Hsz [b Hb] Hmem [hb Hhb]] Hsend.
  cut (exists w1, zone_step Role_new Request_ret task_OnEvent CallFunction
      (GateMessage (gate_msg src seq ggc (serialize csmsg))) w = Some (0, w1)
    /\ exists b, w1 = packed (s_mgr x) b w <| zone ::= fun z => z <| m_chnlProxy := pr |> |>).
  { intros (w1 & E & b' & ->). by exists b'. }
  apply wp_run_ret. cbn [zone_step]. apply wp_OnGateMessage; [done|by rewrite Ha|]. unfold gate_event. rewrite He.
  change (EVENT_DATA =? EVENT_CONNECTED) with false. change (EVENT_DATA =? EVENT_CLOSE) with false. rewrite Z.eqb_refl.
  cbv iota. rewrite parse_serialize by done. unfold DispatchPlayerAgentMsg, Dispatch, get_zone. fold uid. wp_steps.
  eapply wp_lift; [exact Ha|]. unfold FindSession. rewrite Hm. cbn [mjoin option_join]. wp_steps. eapply wp_lift; [exact Ha|].
  wp_steps. eapply (wp_lift _ _ _ (Some CSRoleHandler)); [unfold GetMsgHandler; by rewrite Hcmd, Hh|].
  unfold Handle. wp_steps. eapply wp_session; [exact Hx|]. rewrite Hst. rewrite Z.eqb_refl.
  change (PLAYER_STATE_PLAYING =? PLAYER_STATE_CREATING) with false. cbv iota. cbn [OnPlayingMsg]. unfold Role_OnPlayingMsg.
  rewrite Hrq. wp_steps. eapply wp_role_response; [exact Hx|exact Hp|exact Hpl|exact Ho|exact Hans|].
  unfold Send. wp_steps. eapply wp_session; [exact Hx|]. rewrite Hst, Z.eqb_refl, !orb_true_r. wp_steps.
  eapply (wp_PackCSMsg (s_mgr x) b); [done|exact Hb|done|]. intros b'. unfold ResponseClient. wp_steps.
  eapply wp_session; [exact Hx|]. wp_steps; [done|]. eapply wp_lift; [exact Hhb|]. wp_steps.
  destruct (pack_buffer_serialize _ _ Hhb) as [Hpk Hcap]. eapply wp_lift; [exact Hpk|].
  apply (wp_zoom (fun w : W => m_chnlProxy (zone w)) (fun p w => w <| zone ::= fun z => z <| m_chnlProxy := p |> |>)).
  unfold wp at 1. rewrite Hcap. cbn [m_chnlProxy zone setf]. fold rsp head.
  change (m_chnlProxy (zone (packed (s_mgr x) b' w))) with (m_chnlProxy (zone w)). rewrite Hsend. wp_steps.
  split; [done|]. by exists b'.
Qed.

End login.
