(* ===== verification/ZoneWitness.v ===== *)
(** * A concrete zone server

    One zone process with areas 1, 2 and 3, a gate on channel 5, and the role table of
    the serializer's example. The runs below are computed; they show that the hypotheses of the
    theorems about the zone server can hold. *)

From S2P Require Import Prelude CString Extern WireFormat WireReference TimerMgr EventCenter PlayerLogic.
From S2P Require Import Channel ChannelMsgProxy GateMsg GateServerHandler GateFraming MysqlMeta MysqlProxy MetaSerializer DBAgent DataCommon.
From S2P Require Import ZoneSession ZoneTask ClientMsg ZoneAgentMgr ZoneInvariant ZoneLogin.

Module ZoneWitness.
Import GateWitness MetaWitness SerializerWitness Base128.

#[export] Instance csm_codec : Codec CSMsg := CSMsg_codec.

(** ** Coroutines: the id after the greatest one *)

#[export] Instance coroutines : Coroutines := {
  co_Create live := let i := 1 + fold_right Z.max 0 (elements live) in if i <? 2 ^ 31 then Some i else None;
  co_none := -1;
  co_resumed _ := 0
}.

Lemma fold_max_ge (l : list Z) : 0 <= fold_right Z.max 0 l /\ Forall (fun x => x <= fold_right Z.max 0 l) l.
Proof.
  induction l as [|x l [IH1 IH2]]; simpl; [by split|]. split; [lia|]. constructor; [lia|].
  eapply Forall_impl; [exact IH2|]. simpl. lia.
Qed.

#[export] Instance coroutine_laws : CoroutineLaws.
Proof.
  intros live i. simpl. destruct (fold_max_ge (elements live)) as [H1 H2].
  destruct (Z.ltb_spec (1 + fold_right Z.max 0 (elements live)) (2 ^ 31)); [|done]. intros [= <-]. split; [|lia].
  intros Hi%elem_of_elements. pose proof (proj1 (Forall_forall _ _) H2 _ Hi). simpl in *. lia.
Qed.

(** ** The process *)

Abbreviation P := (list (Z * list bytes * Z)).
Abbreviation W := (EventW (@ZoneAgentMgr P R)).

Definition role0 : @MetaObject R := ReflectionRef.empty_obj role_desc.
Definition no_event (_ _ _ _ : Z) : M W unit := mret tt.
Definition no_lua (_ : string) (_ : Z) (_ : CSMsg) : M W (Z * Z) := mret (0, 0).
Definition accept (_ : list MysqlRequest) : Z := 0.

Definition db0 : @DBAgent R Listener :=
  DBAgent_new <| serializer := Some MetaSerializer_Init.2 |> <| mysql_metas := [table_of "Role" role_desc] |>.
Definition w0 : W :=
  mkEventW (mkEventCenter ∅ 1 ∅) (TimerMgr_new (mkTimeval 0 0) 0) (mkZoneAgentMgr ∅ ∅ ∅ 1 ∅ db0 []).
Definition init : M W Z := Init 0 0 0 [] (fun _ => mret 0) [1; 2; 3] [5].
Definition run : list ZoneEvent -> M W (list Z) := zone_run role0 accept no_event no_lua.

Definition after (m : M W (list Z)) (w : W) : W := match m w with Some (_, w) => w | None => w end.
Definition started_zone : W := match init w0 with Some (_, w) => w | None => w0 end.

Lemma after_run m w rs : fst <$> m w = Some rs -> m w = Some (rs, after m w).
Proof. unfold after. destruct (m w) as [[r w']|]; intros E; by simplify_eq/=. Qed.
Lemma init_run : fst <$> init w0 = Some 0 -> init w0 = Some (0, started_zone).
Proof. unfold started_zone. destruct (init w0) as [[r w']|]; intros E; by simplify_eq/=. Qed.

(** User 42 of area 3 on connection 7. *)
Definition ev (e : Z) : GateSSMsg := mkGateSSMsg e 7 42 3 None None None.
Definition uid : Z := GetRoleID 42 3.
Definition connect : ZoneEvent := GateMessage (gate_msg 5 0 (ev EVENT_CONNECTED) []).
Definition close : ZoneEvent := GateMessage (gate_msg 5 0 (ev EVENT_CLOSE) []).

Definition stored : @MetaObject R :=
  set_msg "pack" DBWitness.pack (set_str "name" "bob" (set_num "rid" uid role0)).
Definition rsp (op ret : Z) (data : list MysqlField) (reason : Z) : MysqlResponse :=
  mkMysqlResponse "Role" op data (role_cb uid reason 1) ret.
Definition row : MysqlResponse := rsp MYSQL_REQ_SELECT MYSQL_RESULT_OK (GenerateMysqlFields stored []).2 ROLE_DB_GET_LOGIN.
Definition no_row : MysqlResponse := rsp MYSQL_REQ_SELECT MYSQL_RESULT_NO_DATA [] ROLE_DB_GET_LOGIN.
Definition inserted : MysqlResponse := rsp MYSQL_REQ_INSERT MYSQL_RESULT_OK [] 0.
Definition saved : MysqlResponse := rsp MYSQL_REQ_UPDATE MYSQL_RESULT_OK [] ROLE_DB_UPDATE_LOGOUT.
Definition not_saved : MysqlResponse := rsp MYSQL_REQ_UPDATE MYSQL_RESULT_SQL_EXE_ERR [] ROLE_DB_UPDATE_LOGOUT.

(** The states on the way. *)
Definition w_loading : W := after (run [connect]) started_zone.
Definition w_playing : W := after (run [connect; DBResponse row]) started_zone.
Definition w_left : W := after (run [connect; DBResponse row; close; DBResponse saved]) started_zone.
Definition w_saving : W := after (run [connect; DBResponse row; close]) started_zone.
Definition w_abandoned : W := after (run [connect; close]) started_zone.

Lemma role_type_ok : role_type role0 role_desc.
Proof. split; try reflexivity. by eexists. Qed.

Lemma stored_is_role : is_role role_desc stored uid.
Proof. split; [reflexivity|]. split; by vm_compute. Qed.

Lemma row_of_stored : row_of stored role_desc row.
Proof.
  split.
  - reflexivity.
  - reflexivity.
  - by apply (bool_decide_unpack _).
  - discriminate.
  - constructor; [|constructor; [|constructor; [|constructor]]].
    + by vm_compute.
    + by apply (bool_decide_unpack _).
    + split; [intros E; apply (f_equal (fun l => bool_decide (l = []))) in E; by vm_compute in E|].
      split; [by vm_compute|]. split; [by eexists|by vm_compute].
  - by repeat (constructor; [reflexivity|]).
  - reflexivity.
  - reflexivity.
  - apply (saved_row stored "Role"). by apply (bool_decide_unpack _).
  - discriminate.
Qed.

Lemma ev_representable e : 1 <= e <= 3 -> representable (ev e).
Proof. intros He. repeat split; simpl; (lia || done). Qed.

Lemma blank_w0 : blank w0.
Proof. by split. Qed.

Lemma no_event_pres pin p e u a : pres (zone_inv pin) (no_event p e u a).
Proof. apply pres_ret. Qed.
Lemma no_lua_pres fn s m : pres (zone_inv None) (no_lua fn s m).
Proof. apply pres_ret. Qed.

(** The tasks in progress of a role, coded as one number of it. *)
#[export] Instance RoleOneTask_eq_dec : EqDecision RoleOneTask.
Proof. solve_decision. Defined.
#[export] Instance RoleOneTask_countable : Countable RoleOneTask.
Proof.
  refine (inj_countable' (fun t => (t_id t, t_cur t, t_state t)) (fun '(i, c, s) => mkRoleOneTask i c s) _).
  by intros [].
Defined.
#[export] Instance task_access : TaskAccess := {
  doing o := match get_num o "grow" with Zpos n => default [] (countable.decode n) | _ => [] end;
  set_doing l := set_num "grow" (Zpos (countable.encode l))
}.
#[export] Instance task_access_laws : TaskAccessLaws.
Proof.
  intros l o. unfold doing, set_doing, task_access. rewrite num_set_num, String.eqb_refl. by rewrite countable.decode_encode.
Qed.

(** Task 1 asks for one event of the kind [EVENT_PLAYER_SYNC_DB] with the value 5. *)
Definition find_task (id : Z) : option TaskObj :=
  if id =? 1 then Some (mkTaskObj EVENT_PLAYER_SYNC_DB 0 5 0) else None.
Definition task_part : Z -> Z -> Z -> Z -> M W unit := task_event find_task accept 2.

Lemma zone_reachable_inv_witness :
  zone_inv None (after (zone_run role0 accept task_part no_lua [connect; DBResponse row; close]) started_zone).
Proof.
  apply (zone_reachable_inv find_task role0 accept 2 no_lua (fun fn s m w r w' E => eq_sym (f_equal snd (Some_inj _ _ E)))
           0 0 0 [] (fun _ => mret 0) [1; 2; 3] [5]
           [connect; DBResponse row; close] w0 0 started_zone [0; 0; 0]).
  - exact blank_w0.
  - apply init_run. vm_compute; reflexivity.
  - apply after_run. vm_compute; reflexivity.
Defined.

(** A player whose role has a task in progress and one that the table does not know. *)
Definition tasks : list RoleOneTask := [mkRoleOneTask 9 None None; mkRoleOneTask 1 None None].
Definition w_tasks : W := with_role 1 (set_doing tasks role0)
  (w0 <| zone ::= fun z => z <| players := {[2 := mkPlayerAgent 1 true 0 0]} |> |>).

Lemma task_event_pass_witness :
  exists o', doing o' = [mkRoleOneTask 1 (Some 5) (Some TASK_STATE_DONE)]
    /\ fst <$> task_part 2 EVENT_PLAYER_SYNC_DB 5 0 w_tasks = Some tt
    /\ (w' ← snd <$> task_part 2 EVENT_PLAYER_SYNC_DB 5 0 w_tasks; objs (m_db (zone w')) !! 1) = Some o'.
Proof.
  destruct (task_event_pass find_task accept 1 2 EVENT_PLAYER_SYNC_DB 5 0 (mkPlayerAgent 1 true 0 0)
    (set_doing tasks role0) w_tasks) as (l' & evs & o' & Hp & Hd & _ & E).
  - reflexivity.
  - reflexivity.
  - vm_compute. repeat constructor.
  - exists o'. split; [|split].
    + rewrite Hd. vm_compute in Hp. injection Hp as <- _. reflexivity.
    + change (task_part 2 EVENT_PLAYER_SYNC_DB 5 0 w_tasks) with (task_event find_task accept 2 2 EVENT_PLAYER_SYNC_DB 5 0 w_tasks).
      rewrite E. reflexivity.
    + change (task_part 2 EVENT_PLAYER_SYNC_DB 5 0 w_tasks) with (task_event find_task accept 2 2 EVENT_PLAYER_SYNC_DB 5 0 w_tasks).
      rewrite E. reflexivity.
Defined.

(** ** Facts of the states *)

Definition isSome {A} (o : option A) : bool := match o with Some _ => true | None => false end.
Lemma the_some {A} (o : option A) d : isSome o = true -> o = Some (default d o).
Proof. by destruct o. Qed.

Lemma KeyCache_role : @KeyCache R (mkMetaSerializer {["db.Role" := ["rid"]]}).
Proof.
  intros d pks Hp Hl. cbn [m_mpDescPrimaryKey] in Hl. apply lookup_singleton_Some in Hl as [Hn <-]. unfold pooled in Hp. rewrite <- Hn in Hp.
  vm_compute in Hp. right. injection Hp as <-. reflexivity.
Qed.

Lemma timers_start : timerMgr started_zone = TimerMgr_new (mkTimeval 0 0) 0.
Proof. vm_compute; reflexivity. Qed.

Lemma delay_start : can_delay started_zone.
Proof.
  split; [rewrite timers_start; exact EventWitness.TimerMgr_new_inv|by vm_compute|by vm_compute|by vm_compute].
Qed.

Lemma ask_start : can_ask accept started_zone.
Proof.
  split; [|by eexists|reflexivity]. exists MetaSerializer_Init.2. split; [vm_compute; reflexivity|exact KeyCache_Init].
Qed.

Definition a_start : ZoneAgent := default (ZoneAgent_new 0) (GetAgent 3 (zone started_zone)).
Lemma agent_start : GetAgent 3 (zone started_zone) = Some a_start.
Proof. apply the_some. vm_compute; reflexivity. Qed.

Lemma login_loads_role_witness :
  exists w2, run [connect; DBResponse row] started_zone = Some ([0; 0], w2)
    /\ playing uid (fun o' => Forall (same_field stored o') (d_fields role_desc)) w2.
Proof.
  destruct (login_loads_role role0 accept no_event no_lua role_desc stored role0 5 0 (ev EVENT_CONNECTED) a_start 1 row
              started_zone) as (w2 & E & _ & Hp).
  - exact role_type_ok.
  - reflexivity.
  - by apply ev_representable.
  - by vm_compute.
  - exact agent_start.
  - vm_compute; reflexivity.
  - vm_compute; reflexivity.
  - vm_compute; reflexivity.
  - exact ask_start.
  - exact delay_start.
  - vm_compute; reflexivity.
  - vm_compute; reflexivity.
  - vm_compute; reflexivity.
  - reflexivity.
  - exact stored_is_role.
  - exact row_of_stored.
  - reflexivity.
  - reflexivity.
  - exists w2. split; [exact E|exact Hp].
Defined.

Lemma login_creates_role_witness :
  exists w3, run [connect; DBResponse no_row; DBResponse inserted] started_zone = Some ([0; 0; 0], w3)
    /\ playing uid (fun o => o = birth_role role0 uid) w3.
Proof.
  destruct (login_creates_role role0 accept no_event no_lua role_desc 5 0 (ev EVENT_CONNECTED) a_start 1 no_row inserted
              started_zone) as (w3 & E & _ & Hp).
  - exact role_type_ok.
  - reflexivity.
  - by apply ev_representable.
  - by vm_compute.
  - exact agent_start.
  - vm_compute; reflexivity.
  - vm_compute; reflexivity.
  - vm_compute; reflexivity.
  - reflexivity.
  - exact ask_start.
  - exact delay_start.
  - vm_compute; reflexivity.
  - vm_compute; reflexivity.
  - reflexivity.
  - reflexivity.
  - reflexivity.
  - reflexivity.
  - reflexivity.
  - reflexivity.
  - reflexivity.
  - reflexivity.
  - exists w3. split; [exact E|exact Hp].
Defined.

(** The states a run reaches are well formed. *)
Lemma inv_reached es : fst <$> run es started_zone <> None -> zone_inv None (after (run es) started_zone).
Proof.
  intros Hr. destruct (run es started_zone) as [[rs w]|] eqn:E; [|done].
  assert (after (run es) started_zone = w) as -> by (unfold after; by rewrite E).
  eapply (pres_zone_run role0 accept no_event no_lua no_event_pres no_lua_pres es); [|exact E].
  eapply (pres_Init 0 0 0 [] (fun _ => mret 0) [1; 2; 3] [5]); [by apply blank_inv, blank_w0|].
  apply init_run. vm_compute; reflexivity.
Qed.

(** The state after a logout, with new timers. *)
Definition w_again : W := w_left <| timerMgr := TimerMgr_new (mkTimeval 0 0) 0 |>.
Definition a_again : ZoneAgent := default (ZoneAgent_new 0) (GetAgent 3 (zone w_again)).

Lemma inv_timers (w : W) t : zone_inv None w -> zone_inv None (w <| timerMgr := t |>).
Proof. by apply footprint_inv. Qed.

Lemma inv_again : zone_inv None w_again.
Proof. apply inv_timers, inv_reached. by vm_compute. Qed.

Definition obj (h : Z) (w : W) : @MetaObject R := default role0 (objs (m_db (zone w)) !! h).
Lemma obj_is_role : is_role role_desc (obj 1 w_again) uid.
Proof. split; [by vm_compute|]. split; by vm_compute. Qed.

Lemma left_again : left_behind role_desc uid 2 1 w_again.
Proof.
  assert (m_mpPlayerAgents (ec w_again) = {[uid := 2]}) as He by (vm_compute; reflexivity).
  split.
  - vm_compute; reflexivity.
  - exists (obj 1 w_again). split; [apply the_some; vm_compute; reflexivity|exact obj_is_role].
  - rewrite He. apply lookup_singleton_eq.
  - rewrite He. intros u [Hu _]%lookup_singleton_Some. done.
  - assert (sessions (zone w_again) = ∅) as -> by (vm_compute; reflexivity). intros s x Hs. by rewrite lookup_empty in Hs.
  - eexists. split; [vm_compute; reflexivity|reflexivity].
Qed.

Lemma second_login_frees_role_witness :
  exists w1, zone_step role0 accept no_event no_lua connect w_again = Some (0, w1)
    /\ FindObject_key (print_d uid) (m_db (zone w1)) = Some 1 /\ objs (m_db (zone w1)) !! 1 = None.
Proof.
  destruct (second_login_frees_role role0 accept no_event no_lua role_desc 5 0 (ev EVENT_CONNECTED) a_again 1 2 1 w_again)
    as (w1 & E & Hc & Hn & _).
  - exact role_type_ok.
  - exact inv_again.
  - reflexivity.
  - by apply ev_representable.
  - by vm_compute.
  - apply the_some. vm_compute; reflexivity.
  - vm_compute; reflexivity.
  - exact left_again.
  - eexists. split; [vm_compute; reflexivity|exact KeyCache_role].
  - split; [exact EventWitness.TimerMgr_new_inv|by vm_compute|by vm_compute|by vm_compute].
  - vm_compute; reflexivity.
  - exists w1. split; [exact E|]. split; [exact Hc|exact Hn].
Defined.

Lemma ask_saving : can_ask accept w_saving.
Proof. split; [|by eexists|reflexivity]. eexists. split; [vm_compute; reflexivity|exact KeyCache_role]. Qed.

Lemma saving_saving : saving accept role_desc 1 1 uid (obj 1 w_saving) 3 w_saving.
Proof.
  split.
  - vm_compute; reflexivity.
  - eexists _, 2, _. split; [vm_compute; reflexivity|]. split; [reflexivity|]. split; [reflexivity|].
    split; [vm_compute; reflexivity|]. split; [apply the_some; vm_compute; reflexivity|vm_compute; reflexivity].
  - split; [by vm_compute|]. split; by vm_compute.
  - exact ask_saving.
  - vm_compute; reflexivity.
Qed.

Lemma logout_gives_up_witness :
  exists w3, run (replicate 3 (DBResponse not_saved)) w_saving = Some ([0; 0; 0], w3) /\ cos (zone w3) !! 1 = None.
Proof.
  destruct (logout_gives_up role0 accept no_event no_lua role_desc 1 1 uid (obj 1 w_saving) not_saved w_saving)
    as (w3 & E & _ & Hc).
  - exact role_type_ok.
  - by vm_compute.
  - by vm_compute.
  - reflexivity.
  - exact saving_saving.
  - split; reflexivity.
  - exists w3. split; [exact E|exact Hc].
Defined.

Definition x_playing : Session := default (Session_new 0 0) (sessions (zone w_playing) !! 1).
Definition a_playing : ZoneAgent := default (ZoneAgent_new 0) (GetAgent 3 (zone w_playing)).
Definition pl_playing : PlayerAgent := default (mkPlayerAgent 0 false 0 0) (players (zone w_playing) !! 2).

Lemma session_playing : sessions (zone w_playing) !! 1 = Some x_playing.
Proof. apply the_some. vm_compute; reflexivity. Qed.
Lemma agent_playing : GetAgent 3 (zone w_playing) = Some a_playing.
Proof. apply the_some. vm_compute; reflexivity. Qed.
Lemma player_playing : players (zone w_playing) !! 2 = Some pl_playing.
Proof. apply the_some. vm_compute; reflexivity. Qed.
Lemma role_playing : objs (m_db (zone w_playing)) !! pRoleData pl_playing = Some (obj 1 w_playing).
Proof. apply (the_some _ role0). vm_compute; reflexivity. Qed.

Lemma close_playing : close_of (ev EVENT_CLOSE) 5 1 x_playing a_playing w_playing.
Proof.
  split.
  - reflexivity.
  - by apply ev_representable.
  - exact agent_playing.
  - vm_compute; reflexivity.
  - exact session_playing.
  - vm_compute; reflexivity.
  - vm_compute; reflexivity.
  - by eexists.
Qed.

Lemma only_playing :
  map_Forall (fun area b => map_Forall (fun u q => q = Some 1 -> area = 3 /\ u = uid) (m_mpSessions b))
    (m_mpZoneAgent (zone w_playing)).
Proof. apply (bool_decide_unpack _). vm_compute; exact I. Qed.

Lemma logout_saves_role_witness :
  exists w2, run [close; DBResponse saved] w_playing = Some ([0; 0], w2)
    /\ requests (m_db (zone w2)) = requests (m_db (zone w_playing)) ++ [save_request uid (obj 1 w_playing) 1].
Proof.
  destruct (logout_saves_role role0 accept no_event no_lua role_desc 5 0 (ev EVENT_CLOSE) 1 x_playing a_playing 2 pl_playing
              (obj 1 w_playing) 1 [(5, [serialize (closing x_playing)], ByteSize (closing x_playing))] saved w_playing) as (w2 & E & Hr & _).
  - exact role_type_ok.
  - apply inv_reached. by vm_compute.
  - exact close_playing.
  - vm_compute; reflexivity.
  - vm_compute; reflexivity.
  - exact player_playing.
  - exact role_playing.
  - split; [by vm_compute|]. split; by vm_compute.
  - vm_compute; reflexivity.
  - split; [|by eexists|reflexivity]. eexists. split; [vm_compute; reflexivity|exact KeyCache_role].
  - vm_compute; reflexivity.
  - vm_compute; reflexivity.
  - vm_compute; reflexivity.
  - reflexivity.
  - reflexivity.
  - reflexivity.
  - reflexivity.
  - intros area b u Hb Hu. exact (only_playing area b Hb u (Some 1) Hu eq_refl).
  - assert (cos (zone w_playing) = ∅) as -> by (vm_compute; reflexivity). intros i c Hc. by rewrite lookup_empty in Hc.
  - exists w2. split; [exact E|exact Hr].
Defined.

Definition x_abandoned : Session := default (Session_new 0 0) (sessions (zone w_abandoned) !! 1).

Lemma nobody_abandoned :
  map_Forall (fun _ b => m_mpSessions b = ∅) (m_mpZoneAgent (zone w_abandoned)).
Proof. apply (bool_decide_unpack _). vm_compute; exact I. Qed.

Lemma abandoned_abandoned : abandoned role_desc 1 1 uid x_abandoned w_abandoned.
Proof.
  assert (cos (zone w_abandoned) = {[1 := LoginGot 1]}) as Hc by (vm_compute; reflexivity).
  split.
  - rewrite Hc. apply lookup_singleton_eq.
  - rewrite Hc. intros i c [Hi _]%lookup_singleton_Some _. done.
  - apply the_some. vm_compute; reflexivity.
  - vm_compute; reflexivity.
  - vm_compute; reflexivity.
  - intros area b u q Hb Hu. rewrite (nobody_abandoned area b Hb), lookup_empty in Hu. discriminate.
  - vm_compute; reflexivity.
Qed.

Lemma abandoned_login_dangles_witness :
  exists w1 h, zone_step role0 accept no_event no_lua (DBResponse row) w_abandoned = Some (0, w1)
    /\ FindObject_key (print_d uid) (m_db (zone w1)) = Some h /\ objs (m_db (zone w1)) !! h = None.
Proof.
  destruct (abandoned_login_dangles role0 accept no_event no_lua role_desc stored role0 1 1 uid x_abandoned row w_abandoned)
    as (w1 & h & E & _ & Hf & Hn).
  - exact role_type_ok.
  - by vm_compute.
  - apply inv_reached. by vm_compute.
  - exact abandoned_abandoned.
  - by vm_compute.
  - eexists. split; [vm_compute; reflexivity|exact KeyCache_role].
  - vm_compute; reflexivity.
  - vm_compute; reflexivity.
  - vm_compute; reflexivity.
  - reflexivity.
  - exact stored_is_role.
  - exact row_of_stored.
  - reflexivity.
  - reflexivity.
  - exists w1, h. split; [exact E|]. split; [exact Hf|exact Hn].
Defined.

(** A request for the base data of the role. *)
Definition base_req : CSMsg :=
  mkCSMsg CSMSG_CMD_ROLE None (Some (mkCSMsgRole CSMSG_ROLE_BASE_INFO_REQ None None None None)).
Definition base_rsp : CSMsgRole :=
  mkCSMsgRole CSMSG_ROLE_BASE_INFO_RSP None (Some (mkCSRoleBase uid (Some "bob") (Some 1))) None None.

Lemma role_request_answered_witness :
  exists w1, zone_step role0 accept no_event no_lua (GateMessage (gate_msg 5 0 (ev EVENT_DATA) (serialize base_req))) w_playing
      = Some (0, w1)
    /\ m_chnlProxy (zone w1) = [(5, [serialize (response_head x_playing EVENT_DATA 0);
                                      serialize (mkCSMsg CSMSG_CMD_ROLE None (Some base_rsp))], 8)].
Proof.
  destruct (role_request_answered role0 accept no_event no_lua 5 0 (ev EVENT_DATA) base_req
              (mkCSMsgRole CSMSG_ROLE_BASE_INFO_REQ None None None None) 1 x_playing a_playing 2 pl_playing (obj 1 w_playing)
              base_rsp [(5, [serialize (response_head x_playing EVENT_DATA 0);
                               serialize (mkCSMsg CSMSG_CMD_ROLE None (Some base_rsp))], 8)] w_playing) as (b & E).
  - reflexivity.
  - by apply ev_representable.
  - exact agent_playing.
  - vm_compute; reflexivity.
  - vm_compute; reflexivity.
  - exact session_playing.
  - vm_compute; reflexivity.
  - vm_compute; reflexivity.
  - exact player_playing.
  - exact role_playing.
  - split; [done|]. split; [done|]. intros r [= <-]. split; [done|]. split_and!; done.
  - reflexivity.
  - reflexivity.
  - vm_compute; reflexivity.
  - split; [by vm_compute| |by eexists|by eexists]. exists a_playing. exact agent_playing.
  - vm_compute; reflexivity.
  - eexists. split; [exact E|]. reflexivity.
Defined.

(** A report of the close of connection 7 that carries index 0. *)
Definition ev0 : GateSSMsg := mkGateSSMsg EVENT_CLOSE 0 42 3 None None None.

Lemma logout_refused_witness :
  zone_step role0 accept no_event no_lua (GateMessage (gate_msg 5 0 ev0 [])) w_playing = Some (-1, w_playing).
Proof.
  apply (logout_refused role0 accept no_event no_lua 5 0 ev0 1 x_playing a_playing).
  - reflexivity.
  - repeat split; simpl; (lia || done).
  - exact agent_playing.
  - vm_compute; reflexivity.
  - exact session_playing.
  - left. vm_compute. discriminate.
Defined.

End ZoneWitness.
