(* ===== verification/ShareMemoryCenter.v ===== *)
(** * Shared memory of a process ([datacenter/ShareMemoryCenter.{h,cpp}])

    The modules of a process keep their data in one block of shared memory, so
    that it survives a restart. A head describes the block: a table of modules
    with their names and where their data lies. After a start the block holds a
    region for every registered module, and the regions that were there before
    are as they were left. *)

From S2P Require Import Prelude CString Extern ConfigCenter.

(** ** Data *)

Definition RECOVERYSHM_MAX_MOUDLES : Z := 256.
Definition SHM_MAGIC : string := "RSHM".

(** Sizes of the packed structures. *)
Definition MODULE_SIZE : Z := 32 + 1 + 8 + 8.
Definition FMT_SIZE : Z := 4 + 16 + 8 + 4 + 2 + RECOVERYSHM_MAX_MOUDLES * MODULE_SIZE.

(** The array [szName] is the string in it. *)
Record ShareMemoryModule := mkShareMemoryModule { szName : string; chInited : Z; mod_dataOffset : Z; mod_zSize : Z }.
#[global] Instance eta_ShareMemoryModule : Eta ShareMemoryModule := fun r =>
  mkShareMemoryModule (szName r) (chInited r) (mod_dataOffset r) (mod_zSize r).
Definition blank_module : ShareMemoryModule := mkShareMemoryModule "" 0 0 0.

(** The block: its head, less the reserved bytes, and the memory [data] behind the
    head. *)
Record ShareMemoryCenterDataFmt := mkShareMemoryCenterDataFmt {
  magic : bytes; dataLength : Z; dataOffset : Z; modulesCount : Z;
  modules : list ShareMemoryModule; data : bytes
}.
#[global] Instance eta_Fmt : Eta ShareMemoryCenterDataFmt := fun r =>
  mkShareMemoryCenterDataFmt (magic r) (dataLength r) (dataOffset r) (modulesCount r) (modules r) (data r).

Section ShareMemoryCenter.
Context {C : CommonMacro}.
(** Notifiers. [OnAttach n pData chInited] is the result of the call and what it leaves in
    the region. *)
Context {N : Type} (OnAttach : N -> bytes -> Z -> Z * bytes).

Record ShareMemoryModuleReg := mkShareMemoryModuleReg { reg_name : string; reg_zSize : Z; notifier : option N }.

(** [m_pFmtBase] and [m_pDataBase] point to the same block. *)
Record ShareMemoryCenter := mkShareMemoryCenter {
  m_vecModules : list ShareMemoryModuleReg; m_pFmtBase : option ShareMemoryCenterDataFmt; m_zTotalSize : Z
}.
#[global] Instance eta_ShareMemoryCenter : Eta ShareMemoryCenter := fun r =>
  mkShareMemoryCenter (m_vecModules r) (m_pFmtBase r) (m_zTotalSize r).
Definition ShareMemoryCenter_new : ShareMemoryCenter := mkShareMemoryCenter [] None 0.

Fixpoint FindReg (name : string) (l : list ShareMemoryModuleReg) : option ShareMemoryModuleReg :=
  match l with
  | [] => None
  | r :: l => if String.eqb (reg_name r) name then Some r else FindReg name l
  end.

Definition Register (reg : ShareMemoryModuleReg) : M ShareMemoryCenter Z :=
  c ← gets (fun c => c);
  match FindReg (reg_name reg) (m_vecModules c) with
  | Some _ => mret (-1)
  | None =>
      modify (fun c => c <| m_vecModules ::= fun l => l ++ [reg] |>
                         <| m_zTotalSize := u64 (m_zTotalSize c + reg_zSize reg) |>);;
      mret 0
  end.

(** [DeleteSHM]: what the library leaves of the mapping. *)
Definition DeleteSHM (left : ShareMemoryCenterDataFmt -> option ShareMemoryCenterDataFmt) : M ShareMemoryCenter unit :=
  modify (fun c => c <| m_pFmtBase := m_pFmtBase c ≫= left |>).

(** ** The block *)

Definition fmt : M ShareMemoryCenter ShareMemoryCenterDataFmt :=
  c ← gets (fun c => c); lift (m_pFmtBase c).
Definition put_fmt (b : ShareMemoryCenterDataFmt) : M ShareMemoryCenter unit :=
  modify (fun c => c <| m_pFmtBase := Some b |>).

(** The bytes from [off] on, counted from the start of the block, replaced by [d]: outside
    of the memory behind the head it is undefined. *)
Definition write_data (off : Z) (d : bytes) (b : ShareMemoryCenterDataFmt) : option ShareMemoryCenterDataFmt :=
  let i := Z.to_nat (off - FMT_SIZE) in
  if (FMT_SIZE <=? off) && bool_decide (i + length d <= length (data b))%nat
  then Some (b <| data ::= list_inserts i d |>)
  else None.
Definition read_data (off n : Z) (b : ShareMemoryCenterDataFmt) : option bytes :=
  if FMT_SIZE <=? off then slice (off - FMT_SIZE) n (data b) else None.

(** The loop of [FindModule] from module [i] on: a module behind the table is undefined. *)
Fixpoint find_module (n i : nat) (l : list ShareMemoryModule) (pszName : string) : option (option ShareMemoryModule) :=
  match n with
  | O => Some None
  | S n =>
      m ← l !! i;
      if String.eqb (szName m) pszName then Some (Some m) else find_module n (S i) l pszName
  end.
Definition FindModule (pszName : string) : M ShareMemoryCenter (option ShareMemoryModule) :=
  b ← fmt; lift (find_module (Z.to_nat (modulesCount b)) 0 (modules b) pszName).

Definition GetModleBuffer (pszName : string) : M ShareMemoryCenter Buffer :=
  m ← FindModule pszName;
  match m with
  | None => mret (mkBuffer 0 0 [])
  | Some m =>
      b ← fmt;
      d ← lift (read_data (mod_dataOffset m) (mod_zSize m) b);
      mret (mkBuffer (mod_zSize m) (mod_zSize m) d)
  end.

Definition AddModule (pszName : string) : M ShareMemoryCenter Z :=
  c ← gets (fun c => c);
  match FindReg pszName (m_vecModules c) with
  | None => mret (-1)
  | Some reg =>
      b ← fmt;
      if m_zTotalSize c <? u64 (reg_zSize reg + dataLength b) then mret (-1)
      else if RECOVERYSHM_MAX_MOUDLES <=? modulesCount b then mret (-1)
      else
        m ← lift (modules b !! Z.to_nat (modulesCount b));
        let m := m <| mod_dataOffset := dataLength b |> <| mod_zSize := reg_zSize reg |> in
        b ← lift (write_data (dataLength b) (replicate (Z.to_nat (reg_zSize reg)) 0) b);
        let m := m <| szName := STRNCPY 32 (c_str (reg_name reg)) |> in
        put_fmt (b <| modules ::= <[Z.to_nat (modulesCount b) := m]> |>
                   <| dataLength := u64 (dataLength b + reg_zSize reg) |>
                   <| modulesCount := u16 (modulesCount b + 1) |>);;
        mret 0
  end.

(** [AppendRegModules]: the result of [AddModule] is not looked at. *)
Fixpoint append_modules (regs : list ShareMemoryModuleReg) : M ShareMemoryCenter unit :=
  match regs with
  | [] => mret tt
  | r :: regs =>
      m ← FindModule (c_str (reg_name r));
      (match m with Some _ => mret tt | None => AddModule (c_str (reg_name r));; mret tt end);;
      append_modules regs
  end.
Definition AppendRegModules : M ShareMemoryCenter unit :=
  c ← gets (fun c => c); append_modules (m_vecModules c).

(** [InitRegModules]: the block is cleared as far as the total size says. *)
Definition InitRegModules : M ShareMemoryCenter unit :=
  c ← gets (fun c => c);
  b ← fmt;
  b ← lift (write_data FMT_SIZE (replicate (Z.to_nat (m_zTotalSize c - FMT_SIZE)) 0) b);
  put_fmt (mkShareMemoryCenterDataFmt (of_str SHM_MAGIC) (u64 FMT_SIZE) (u32 FMT_SIZE) 0
             (replicate (Z.to_nat RECOVERYSHM_MAX_MOUDLES) blank_module) (data b));;
  AppendRegModules.

(** [AttachAllModules] from module [i] on, with [n] left. *)
Fixpoint attach_modules (n i : nat) : M ShareMemoryCenter Z :=
  match n with
  | O => mret 0
  | S n =>
      b ← fmt;
      m ← lift (modules b !! i);
      c ← gets (fun c => c);
      match FindReg (szName m) (m_vecModules c) with
      | None => mret (-1)
      | Some reg =>
          ret ← (match notifier reg with
                 | None => mret 0
                 | Some nt =>
                     d ← lift (read_data (mod_dataOffset m) (mod_zSize m) b);
                     let r := OnAttach nt d (chInited m) in
                     assert (bool_decide (length r.2 = length d));;
                     b ← lift (write_data (mod_dataOffset m) r.2 b);
                     put_fmt b;;
                     mret r.1
                 end);
          if negb (ret =? 0) then mret (-1)
          else
            b ← fmt;
            put_fmt (b <| modules ::= <[i := m <| chInited := 1 |>]> |>);;
            attach_modules n (S i)
      end
  end.
Definition AttachAllModules : M ShareMemoryCenter Z :=
  b ← fmt; attach_modules (Z.to_nat (modulesCount b)) 0.

(** [Check], with the number of processes attached to the block: [0] when it is all right. *)
Definition Check (bExludeProcess : bool) (nattach : Z) : M ShareMemoryCenter Z :=
  if bExludeProcess && ((nattach <=? 0) || (nattach <? 1)) then mret (-1)
  else b ← fmt; mret (if bool_decide (magic b = of_str SHM_MAGIC) then 0 else 1).

(** [Init]: [Attach] and [Create] of the library give their result and the block that is
    mapped afterwards. *)
Definition Init (Attach Create : Z -> Z * option ShareMemoryCenterDataFmt) (nattach : Z) : M ShareMemoryCenter Z :=
  modify (fun c => c <| m_zTotalSize := u64 (m_zTotalSize c + FMT_SIZE) |>);;
  c ← gets (fun c => c);
  let '(ret, blk) := Attach (m_zTotalSize c) in
  modify (fun c => c <| m_pFmtBase := blk |>);;
  if negb (ret =? 0) then
    if ret =? 1 then
      let '(ret, blk) := Create (m_zTotalSize c) in
      if negb (ret =? 0) then mret (-1)
      else
        modify (fun c => c <| m_pFmtBase := blk |>);;
        InitRegModules;;
        AttachAllModules
    else mret (-1)
  else
    r ← Check true nattach;
    if negb (r =? 0) then mret (-1)
    else
      b ← fmt;
      (if negb (dataLength b =? m_zTotalSize c) then
         assert ((dataLength b <? m_zTotalSize c)
                 && (modulesCount b <? Z.of_nat (length (m_vecModules c))));;
         AppendRegModules
       else mret tt);;
      AttachAllModules.

End ShareMemoryCenter.
Arguments ShareMemoryModuleReg : clear implicits.
Arguments ShareMemoryCenter : clear implicits.

(** ** Named regions

    What the block is for: an ordered store of named regions. *)

Definition Region : Type := string * Z * bytes.
Definition region_name (r : Region) : string := r.1.1.

Definition region_of (d : bytes) (m : ShareMemoryModule) : Region :=
  (szName m, chInited m, take (Z.to_nat (mod_zSize m)) (drop (Z.to_nat (mod_dataOffset m - FMT_SIZE)) d)).
Definition used (b : ShareMemoryCenterDataFmt) : list ShareMemoryModule :=
  take (Z.to_nat (modulesCount b)) (modules b).
Definition regions (b : ShareMemoryCenterDataFmt) : list Region := region_of (data b) <$> used b.

Definition sizes (l : list ShareMemoryModule) : Z := foldr (fun m s => mod_zSize m + s) 0 l.

(** The modules lie one behind the other from [off] on. *)
Fixpoint laid (off : Z) (l : list ShareMemoryModule) : Prop :=
  match l with
  | [] => True
  | m :: l => mod_dataOffset m = off /\ 0 <= mod_zSize m /\ laid (off + mod_zSize m) l
  end.

Record layout (b : ShareMemoryCenterDataFmt) : Prop := {
  lo_count : 0 <= modulesCount b <= RECOVERYSHM_MAX_MOUDLES;
  lo_table : Z.of_nat (length (modules b)) = RECOVERYSHM_MAX_MOUDLES;
  lo_laid : laid FMT_SIZE (used b);
  lo_len : dataLength b = FMT_SIZE + sizes (used b);
  lo_fits : dataLength b <= FMT_SIZE + Z.of_nat (length (data b));
  lo_blank : Forall (fun m => chInited m = 0) (drop (Z.to_nat (modulesCount b)) (modules b))
}.

Lemma sizes_app l1 l2 : sizes (l1 ++ l2) = sizes l1 + sizes l2.
Proof. induction l1 as [|m l1 IH]; simpl; [done|]. rewrite IH. lia. Qed.

Lemma laid_app off l1 l2 : laid off (l1 ++ l2) <-> laid off l1 /\ laid (off + sizes l1) l2.
Proof.
  revert off. induction l1 as [|m l1 IH]; intros off; simpl.
  - rewrite Z.add_0_r. tauto.
  - rewrite IH, Z.add_assoc. tauto.
Qed.

Lemma laid_sizes off l : laid off l -> 0 <= sizes l.
Proof. revert off. induction l as [|m l IH]; intros off; simpl; [lia|]. intros (_ & ? & H%IH). lia. Qed.

Lemma laid_inside off l m : laid off l -> m ∈ l ->
  off <= mod_dataOffset m /\ 0 <= mod_zSize m /\ mod_dataOffset m + mod_zSize m <= off + sizes l.
Proof.
  revert off. induction l as [|x l IH]; intros off; simpl; [by intros _ ?%elem_of_nil|].
  intros (Ho & Hs & Hl) Hm. pose proof (laid_sizes _ _ Hl). apply elem_of_cons in Hm as [->|Hm]; [lia|].
  destruct (IH _ Hl Hm). lia.
Qed.

(** ** Writing a region leaves the others alone *)

Lemma inserts_same i (x d : bytes) : (i + length x <= length d)%nat -> take (length x) (drop i (list_inserts i x d)) = x.
Proof.
  intros H. apply list_eq. intros k. destruct (decide (k < length x)%nat).
  - rewrite lookup_take_lt, lookup_drop, list_lookup_inserts by lia. f_equal. lia.
  - rewrite lookup_take_ge, lookup_ge_None_2 by lia. done.
Qed.

Lemma inserts_other i (x d : bytes) j n : (j + n <= i \/ i + length x <= j)%nat ->
  take n (drop j (list_inserts i x d)) = take n (drop j d).
Proof.
  intros H. apply list_eq. intros k. destruct (decide (k < n)%nat).
  - rewrite !lookup_take_lt, !lookup_drop by done. destruct H.
    + by rewrite list_lookup_inserts_lt by lia.
    + by rewrite list_lookup_inserts_ge by lia.
  - by rewrite !lookup_take_ge by lia.
Qed.

Lemma write_data_run off d b : FMT_SIZE <= off -> off + Z.of_nat (length d) <= FMT_SIZE + Z.of_nat (length (data b)) ->
  write_data off d b = Some (b <| data ::= list_inserts (Z.to_nat (off - FMT_SIZE)) d |>).
Proof.
  intros H1 H2. unfold write_data. rewrite (proj2 (Z.leb_le _ _) H1), bool_decide_true by lia. done.
Qed.

Lemma read_data_run m b : FMT_SIZE <= mod_dataOffset m -> 0 <= mod_zSize m ->
  mod_dataOffset m + mod_zSize m <= FMT_SIZE + Z.of_nat (length (data b)) ->
  read_data (mod_dataOffset m) (mod_zSize m) b = Some (region_of (data b) m).2.
Proof.
  intros H1 H2 H3. unfold read_data, slice. rewrite (proj2 (Z.leb_le FMT_SIZE _) H1).
  rewrite !(proj2 (Z.leb_le _ _)) by lia. done.
Qed.

(** A module before or behind the bytes that are written keeps its region. *)
Lemma region_of_other d off x m : FMT_SIZE <= off -> FMT_SIZE <= mod_dataOffset m -> 0 <= mod_zSize m ->
  (mod_dataOffset m + mod_zSize m <= off \/ off + Z.of_nat (length x) <= mod_dataOffset m) ->
  region_of (list_inserts (Z.to_nat (off - FMT_SIZE)) x d) m = region_of d m.
Proof. intros H1 H2 H3 H4. unfold region_of. rewrite inserts_other; [done|]. lia. Qed.

Lemma regions_before off l d x lim : FMT_SIZE <= off -> laid off l -> off + sizes l <= lim ->
  region_of (list_inserts (Z.to_nat (lim - FMT_SIZE)) x d) <$> l = region_of d <$> l.
Proof.
  intros Ho Hl Hlim. apply list_fmap_ext. intros i m Hm%list_elem_of_lookup_2.
  destruct (laid_inside _ _ _ Hl Hm). apply region_of_other; lia.
Qed.

Lemma regions_behind off l d x lim : FMT_SIZE <= lim -> laid off l -> lim + Z.of_nat (length x) <= off ->
  region_of (list_inserts (Z.to_nat (lim - FMT_SIZE)) x d) <$> l = region_of d <$> l.
Proof.
  intros Ho Hl Hlim. apply list_fmap_ext. intros i m Hm%list_elem_of_lookup_2.
  destruct (laid_inside _ _ _ Hl Hm). apply region_of_other; lia.
Qed.

Section facts.
Context {C : CommonMacro} {N : Type} (OnAttach : N -> bytes -> Z -> Z * bytes).
Abbreviation Reg := (ShareMemoryModuleReg N).
Abbreviation Center := (ShareMemoryCenter N).

Definition fresh (r : Reg) : Region := (reg_name r, 0, replicate (Z.to_nat (reg_zSize r)) 0).
Definition reg_sizes (l : list Reg) : Z := foldr (fun r s => reg_zSize r + s) 0 l.

(** The block of a center with room for what it has registered. *)
Record mapped (c : Center) (b : ShareMemoryCenterDataFmt) : Prop := {
  mp_base : m_pFmtBase c = Some b;
  mp_layout : layout b;
  mp_room : m_zTotalSize c <= FMT_SIZE + Z.of_nat (length (data b));
  mp_total : 0 <= m_zTotalSize c < 2 ^ 64
}.

(** A module that can be told by its name: the name fits the table. *)
Definition reg_ok (r : Reg) : Prop := STRNCPY 32 (c_str (reg_name r)) = reg_name r /\ c_str (reg_name r) = reg_name r
  /\ 0 < reg_zSize r.

(** The region that a module gets, under the name that the table has room for. *)
Definition added (r : Reg) : Region := (STRNCPY 32 (c_str (reg_name r)), 0, replicate (Z.to_nat (reg_zSize r)) 0).

Lemma added_fresh r : reg_ok r -> added r = fresh r.
Proof. intros (E & _ & _). unfold added, fresh. by rewrite E. Qed.

Lemma FindReg_spec n (l : list Reg) :
  match FindReg n l with Some r => r ∈ l /\ reg_name r = n | None => n ∉ reg_name <$> l end.
Proof.
  induction l as [|r l IH]; simpl; [apply not_elem_of_nil|]. destruct (String.eqb_spec (reg_name r) n) as [E|E].
  - split; [left|done].
  - destruct (FindReg n l); [split; [right|]; apply IH|]. rewrite not_elem_of_cons. by split.
Qed.

Lemma FindReg_elem r (l : list Reg) : NoDup (reg_name <$> l) -> r ∈ l -> FindReg (reg_name r) l = Some r.
Proof.
  induction l as [|x l IH]; simpl; [by intros _ ?%elem_of_nil|]. intros [Hx Hl]%NoDup_cons [->|Hr]%elem_of_cons.
  - by rewrite String.eqb_refl.
  - destruct (String.eqb_spec (reg_name x) (reg_name r)) as [E|]; [|by apply IH].
    exfalso. apply Hx. rewrite E. by apply list_elem_of_fmap_2.
Qed.

Lemma find_module_spec n i l name : (i + n <= length l)%nat ->
  find_module n i l name = Some (List.find (fun m => String.eqb (szName m) name) (take n (drop i l))).
Proof.
  revert i. induction n as [|n IH]; intros i H; [done|]. cbn [find_module].
  destruct (lookup_lt_is_Some_2 l i) as [m Hm]; [lia|]. rewrite Hm. cbn [mbind option_bind].
  rewrite (drop_S _ _ _ Hm). cbn [take List.find]. destruct (String.eqb (szName m) name); [done|]. apply IH. lia.
Qed.

Lemma wp_FindModule name (c : Center) b Q : m_pFmtBase c = Some b -> layout b ->
  Q (List.find (fun m => String.eqb (szName m) name) (used b)) c -> wp (FindModule name) Q c.
Proof.
  intros Hb [Hc Ht _ _ _ _] HQ. unfold FindModule, fmt. wp_steps.
  eapply wp_lift; [exact Hb|]. wp_steps. eapply wp_lift; [|exact HQ].
  rewrite find_module_spec by (unfold RECOVERYSHM_MAX_MOUDLES in *; lia). done.
Qed.

Lemma used_add m (b : ShareMemoryCenterDataFmt) : layout b -> modulesCount b < RECOVERYSHM_MAX_MOUDLES ->
  take (Z.to_nat (modulesCount b + 1)) (<[Z.to_nat (modulesCount b) := m]> (modules b)) = used b ++ [m]
  /\ drop (Z.to_nat (modulesCount b + 1)) (<[Z.to_nat (modulesCount b) := m]> (modules b))
     = drop (Z.to_nat (modulesCount b + 1)) (modules b).
Proof.
  intros [Hc Ht _ _ _ _] Hlt. replace (Z.to_nat (modulesCount b + 1)) with (S (Z.to_nat (modulesCount b))) by lia.
  split.
  - erewrite take_S_r by (apply list_lookup_insert_eq; lia). by rewrite take_insert_ge by lia.
  - by rewrite drop_insert_lt by lia.
Qed.

Lemma wp_AddModule (r : Reg) (c : Center) b Q :
  mapped c b -> FindReg (reg_name r) (m_vecModules c) = Some r -> 0 <= reg_zSize r ->
  dataLength b + reg_zSize r <= m_zTotalSize c -> modulesCount b < RECOVERYSHM_MAX_MOUDLES ->
  (forall b', mapped (c <| m_pFmtBase := Some b' |>) b' -> regions b' = regions b ++ [added r] -> magic b' = magic b ->
     dataLength b' = dataLength b + reg_zSize r -> modulesCount b' = modulesCount b + 1 ->
     Q 0 (c <| m_pFmtBase := Some b' |>)) ->
  wp (AddModule (reg_name r)) Q c.
Proof.
  intros [Hb Hlo Hroom Htot] Hf Hz Hfit Hcnt HQ. pose proof Hlo as [Hc Ht Hl Hlen Hfits Hblank].
  pose proof (laid_sizes _ _ Hl). assert (0 <= FMT_SIZE) by (vm_compute; done).
  unfold AddModule. wp_steps. rewrite Hf. unfold fmt, put_fmt. wp_steps. eapply wp_lift; [exact Hb|].
  rewrite u64_small, (proj2 (Z.ltb_ge _ _)) by lia. rewrite (proj2 (Z.leb_gt _ _)) by done.
  destruct (lookup_lt_is_Some_2 (modules b) (Z.to_nat (modulesCount b))) as [m Hm]; [lia|].
  assert (chInited m = 0) as Hini.
  { rewrite Forall_forall in Hblank. apply Hblank. apply list_elem_of_lookup_2 with 0%nat.
    by rewrite lookup_drop, Nat.add_0_r. }
  wp_steps. eapply wp_lift; [exact Hm|]. wp_steps.
  eapply wp_lift; [apply write_data_run; rewrite ?length_replicate; lia|]. wp_steps. simpl.
  rewrite u64_small, u16_small by (unfold RECOVERYSHM_MAX_MOUDLES in *; lia).
  set (m' := _ <| szName := _ |>). set (x := replicate _ 0).
  destruct (used_add m' b Hlo Hcnt) as [Hu Hd]. apply HQ; try done.
  - split; try done; [|simpl; by rewrite length_inserts]. split; simpl; try done.
    + lia.
    + by rewrite length_insert.
    + unfold used. simpl. rewrite Hu. apply laid_app. split; [exact Hl|]. simpl. rewrite <- Hlen. split_and!; [done|lia|done].
    + unfold used. simpl. rewrite Hu, sizes_app. simpl. lia.
    + rewrite length_inserts. lia.
    + rewrite Hd. replace (Z.to_nat (modulesCount b + 1)) with (Z.to_nat (modulesCount b) + 1)%nat by lia.
      rewrite <- drop_drop. by apply Forall_drop.
  - unfold regions, used. simpl. rewrite Hu, fmap_app. simpl. f_equal.
    + fold (used b). eapply regions_before; [done|exact Hl|lia].
    + unfold added, region_of. subst m'. simpl. rewrite Hini. do 2 f_equal. subst x.
      rewrite <- (length_replicate (Z.to_nat (reg_zSize r)) 0) at 1. apply inserts_same. rewrite length_replicate. lia.
Qed.

(** ** Appending *)

(** The registered modules that a block has no region of. *)
Definition missing (rs : list Region) (l : list Reg) : list Reg :=
  filter (fun r => reg_name r ∉ region_name <$> rs) l.

Lemma region_names b : region_name <$> regions b = szName <$> used b.
Proof. unfold regions. rewrite <- list_fmap_compose. done. Qed.

Lemma find_name name l :
  match List.find (fun m => String.eqb (szName m) name) l with
  | Some m => m ∈ l /\ szName m = name
  | None => name ∉ szName <$> l
  end.
Proof.
  induction l as [|m l IH]; simpl; [apply not_elem_of_nil|]. destruct (String.eqb_spec (szName m) name).
  - split; [left|done].
  - destruct (List.find _ l); [split; [right|]; apply IH|]. rewrite not_elem_of_cons. by split.
Qed.

Lemma missing_more rs r l : reg_name r ∉ reg_name <$> l -> missing (rs ++ [fresh r]) l = missing rs l.
Proof.
  intros Hr. apply filter_same. intros x Hx. rewrite fmap_app, elem_of_app. simpl.
  rewrite list_elem_of_singleton. enough (reg_name x <> reg_name r) by tauto.
  intros E. apply Hr. rewrite <- E. by apply list_elem_of_fmap_2.
Qed.

Lemma reg_sizes_pos (l : list Reg) : Forall reg_ok l -> 0 <= reg_sizes l.
Proof. induction 1 as [|x k (_ & _ & Hx) _ IHk]; [done|]. unfold reg_sizes in *. simpl. lia. Qed.

Lemma wp_append_modules (l : list Reg) (c : Center) b Q :
  mapped c b -> NoDup (reg_name <$> l) -> Forall reg_ok l ->
  Forall (fun r => FindReg (reg_name r) (m_vecModules c) = Some r) l ->
  dataLength b + reg_sizes (missing (regions b) l) <= m_zTotalSize c ->
  modulesCount b + Z.of_nat (length (missing (regions b) l)) <= RECOVERYSHM_MAX_MOUDLES ->
  (forall b', mapped (c <| m_pFmtBase := Some b' |>) b' -> regions b' = regions b ++ (fresh <$> missing (regions b) l) ->
     magic b' = magic b -> Q tt (c <| m_pFmtBase := Some b' |>)) ->
  wp (append_modules l) Q c.
Proof.
  revert c b. induction l as [|r l IH]; intros c b Hmp Hnd Hok Hreg Hsz Hcnt HQ; cbn [append_modules].
  - wp_steps. replace c with (c <| m_pFmtBase := Some b |>) in Hmp |- *
      by (destruct c; destruct Hmp as [Hb _ _ _]; simpl in *; by rewrite Hb).
    apply HQ; [exact Hmp|by rewrite app_nil_r|done].
  - apply NoDup_cons in Hnd as [Hr Hnd]. apply Forall_cons in Hok as [Hro Hok]. apply Forall_cons in Hreg as [Hrr Hreg].
    destruct Hro as (Hn & Hcs & Hz). rewrite Hcs. wp_steps.
    eapply wp_FindModule; [apply Hmp|apply Hmp|]. pose proof (find_name (reg_name r) (used b)) as Hf.
    destruct (List.find _ _) as [m|]; wp_steps.
    + assert (missing (regions b) (r :: l) = missing (regions b) l) as E.
      { apply filter_cons_False. rewrite region_names. intros H. apply H. destruct Hf as [Hm <-].
        by apply list_elem_of_fmap_2. }
      rewrite E in *. by apply (IH c b).
    + assert (missing (regions b) (r :: l) = r :: missing (regions b) l) as E.
      { apply filter_cons_True. by rewrite region_names. }
      rewrite E in *. cbn [reg_sizes foldr length] in Hsz, Hcnt.
      assert (0 <= reg_sizes (missing (regions b) l)) as Hpos.
      { by apply reg_sizes_pos, Forall_filter_2. }
      eapply wp_AddModule; [exact Hmp|exact Hrr|lia|unfold reg_sizes in *; lia|lia|]. intros b1 Hmp1 Hrg Hmg Hlen Hc1.
      rewrite added_fresh in Hrg by done.
      wp_steps. apply (IH _ b1 Hmp1 Hnd Hok Hreg); rewrite ?Hrg, ?missing_more by done; simpl.
      * unfold reg_sizes in *. simpl in Hsz. lia.
      * lia.
      * intros b' Hmp' Hrg' Hmg'. apply HQ; [exact Hmp'| |congruence].
        rewrite Hrg'. cbn [fmap list_fmap]. by rewrite <- (assoc_L (++)).
Qed.

(** ** Attaching *)

(** What attaching does to the regions: each is handed to the notifier of its module, with
    whether it has been in use before, until one refuses. *)
Fixpoint attach_regions (regs : list Reg) (rs : list Region) : Z * list Region :=
  match rs with
  | [] => (0, [])
  | (n, ini, d) :: rest =>
      match FindReg n regs with
      | None => (-1, rs)
      | Some reg =>
          let r := match notifier reg with Some nt => OnAttach nt d ini | None => (0, d) end in
          if r.1 =? 0 then
            let k := attach_regions regs rest in (k.1, (n, 1, r.2) :: k.2)
          else (-1, (n, ini, r.2) :: rest)
      end
  end.

Lemma inserts_id i n (d : bytes) : list_inserts i (take n (drop i d)) d = d.
Proof.
  apply list_eq. intros k. destruct (decide (k < i)%nat); [by rewrite list_lookup_inserts_lt|].
  pose proof (length_take (drop i d) n) as Hlen. rewrite length_drop in Hlen.
  destruct (decide (k < i + length (take n (drop i d)))%nat).
  - rewrite list_lookup_inserts, lookup_take_lt, lookup_drop by lia. f_equal. lia.
  - by rewrite list_lookup_inserts_ge by lia.
Qed.

(** A block in which the contents of one region and its mark are replaced. *)
Definition set_region (i : nat) (m : ShareMemoryModule) (k : Z) (d : bytes) (b : ShareMemoryCenterDataFmt) :
    ShareMemoryCenterDataFmt :=
  b <| data ::= list_inserts (Z.to_nat (mod_dataOffset m - FMT_SIZE)) d |> <| modules ::= <[i := m <| chInited := k |>]> |>.

Lemma set_region_spec pre m post k d b :
  layout b -> used b = pre ++ m :: post -> Z.of_nat (length d) = mod_zSize m ->
  let b1 := set_region (length pre) m k d b in
  layout b1 /\ used b1 = pre ++ (m <| chInited := k |>) :: post /\
  region_of (data b1) <$> pre = region_of (data b) <$> pre /\
  region_of (data b1) (m <| chInited := k |>) = (szName m, k, d) /\
  region_of (data b1) <$> post = region_of (data b) <$> post.
Proof.
  intros Hlo Hu Hd b1. pose proof Hlo as [Hc Ht Hl Hlen Hf Hb].
  assert (length (used b) = Z.to_nat (modulesCount b)) as Hlu by (unfold used; rewrite length_take; lia).
  assert (length pre < Z.to_nat (modulesCount b))%nat as Hlt by (rewrite <- Hlu, Hu, length_app; simpl; lia).
  assert (used b1 = pre ++ (m <| chInited := k |>) :: post) as Hu1.
  { unfold used, b1, set_region. simpl. rewrite take_insert_lt by done. fold (used b). rewrite Hu.
    by rewrite insert_app_r_alt, Nat.sub_diag by lia. }
  rewrite Hu in Hl. apply laid_app in Hl as [Hl1 (Ho & Hz & Hl2)]. pose proof (laid_sizes _ _ Hl1). pose proof (laid_sizes _ _ Hl2).
  rewrite Hu, sizes_app in Hlen. simpl in Hlen. split; [|split; [done|]].
  - split; try done.
    + unfold b1, set_region. simpl. by rewrite length_insert.
    + rewrite Hu1. apply laid_app. split; [done|]. by split.
    + rewrite Hu1, sizes_app. done.
    + unfold b1, set_region. simpl. by rewrite length_inserts.
    + unfold b1, set_region. simpl. by rewrite drop_insert_lt.
  - unfold b1, set_region. simpl. split_and!.
    + eapply regions_before; [done|exact Hl1|lia].
    + unfold region_of. simpl. f_equal. replace (Z.to_nat (mod_zSize m)) with (length d) by lia. apply inserts_same. lia.
    + eapply regions_behind; [lia|exact Hl2|lia].
Qed.

Lemma set_region_regions pre m post k d b :
  layout b -> used b = pre ++ m :: post -> Z.of_nat (length d) = mod_zSize m ->
  regions (set_region (length pre) m k d b)
  = (region_of (data b) <$> pre) ++ (szName m, k, d) :: (region_of (data b) <$> post).
Proof.
  intros Hlo Hu Hd. destruct (set_region_spec pre m post k d b Hlo Hu Hd) as (_ & Hu1 & E1 & E2 & E3).
  unfold regions. rewrite Hu1, fmap_app. cbn [fmap list_fmap]. by rewrite E1, E2, E3.
Qed.

Lemma set_region_none i m k b : modules b !! i = Some m ->
  set_region i m k (region_of (data b) m).2 b = b <| modules ::= <[i := m <| chInited := k |>]> |>.
Proof. intros Hm. destruct b. unfold set_region, region_of, setf. simpl. unfold setf. simpl. by rewrite inserts_id. Qed.

Lemma set_region_same i m d b : modules b !! i = Some m ->
  set_region i m (chInited m) d b = b <| data ::= list_inserts (Z.to_nat (mod_dataOffset m - FMT_SIZE)) d |>.
Proof.
  intros Hm. unfold set_region. replace (m <| chInited := chInited m |>) with m by (by destruct m).
  destruct b. unfold setf. simpl in *. unfold setf. simpl. by rewrite list_insert_id.
Qed.

Lemma attach_regions_cons regs x rest :
  attach_regions regs (x :: rest)
  = match FindReg (region_name x) regs with
    | None => (-1, x :: rest)
    | Some reg =>
        let r := match notifier reg with Some nt => OnAttach nt x.2 x.1.2 | None => (0, x.2) end in
        if r.1 =? 0 then
          let k := attach_regions regs rest in (k.1, (region_name x, 1, r.2) :: k.2)
        else (-1, (region_name x, x.1.2, r.2) :: rest)
    end.
Proof. by destruct x as [[n ini] d]. Qed.

(** A notifier stays in its region. *)
Context (OnAttach_length : forall nt d ini, length (OnAttach nt d ini).2 = length d).

Lemma wp_attach_modules pre post (c : Center) b Q :
  mapped c b -> used b = pre ++ post ->
  let r := attach_regions (m_vecModules c) (region_of (data b) <$> post) in
  (forall b', mapped (c <| m_pFmtBase := Some b' |>) b' -> regions b' = (region_of (data b) <$> pre) ++ r.2 ->
     magic b' = magic b -> Q r.1 (c <| m_pFmtBase := Some b' |>)) ->
  wp (attach_modules OnAttach (length post) (length pre)) Q c.
Proof.
  revert pre c b. induction post as [|m post IH]; intros pre c b Hmp Hu r HQ; cbn [length attach_modules].
  { wp_steps. replace c with (c <| m_pFmtBase := Some b |>) in Hmp |- *
      by (destruct c; destruct Hmp as [Hb _ _ _]; simpl in *; by rewrite Hb).
    apply HQ; [exact Hmp| |done]. unfold regions. rewrite Hu, fmap_app. done. }
  pose proof Hmp as [Hb Hlo Hroom Htot].
  assert (modules b !! length pre = Some m) as Hm.
  { assert (used b !! length pre = Some m) as E by (rewrite Hu; by apply list_lookup_middle).
    by apply lookup_take_Some in E as [E _]. }
  destruct (laid_inside FMT_SIZE (used b) m) as (Ho & Hz & He); [apply Hlo|rewrite Hu; set_solver|].
  pose proof (lo_len _ Hlo). pose proof (lo_fits _ Hlo).
  assert (Z.of_nat (length (region_of (data b) m).2) = mod_zSize m) as Hlen.
  { unfold region_of. simpl. rewrite length_take, length_drop. lia. }
  assert (forall k d, Z.of_nat (length d) = mod_zSize m ->
    let b1 := set_region (length pre) m k d b in mapped (c <| m_pFmtBase := Some b1 |>) b1) as Hmp1.
  { intros k d Hd b1. split; [done|by apply (set_region_spec pre m post k d b)| |done].
    unfold b1, set_region. simpl. by rewrite length_inserts. }
  subst r. cbn [fmap list_fmap] in HQ. rewrite attach_regions_cons in HQ. change (region_name (region_of (data b) m)) with (szName m) in HQ.
  unfold fmt, put_fmt. wp_steps. eapply wp_lift; [exact Hb|]. wp_steps. eapply wp_lift; [exact Hm|]. wp_steps.
  destruct (FindReg (szName m) (m_vecModules c)) as [reg|].
  2:{ wp_steps. replace c with (c <| m_pFmtBase := Some b |>) in Hmp |- * by (destruct c; simpl in *; by rewrite Hb).
      apply HQ; [exact Hmp| |done]. unfold regions. by rewrite Hu, fmap_app. }
  cbv zeta in HQ. wp_steps.
  (* the rest of the loop, once the region is [d] *)
  assert (forall d c1, Z.of_nat (length d) = mod_zSize m -> c1 = c <| m_pFmtBase := Some (set_region (length pre) m 1 d b) |> ->
    (forall b', mapped (c <| m_pFmtBase := Some b' |>) b' ->
       let k := attach_regions (m_vecModules c) (region_of (data b) <$> post) in
       regions b' = (region_of (data b) <$> pre) ++ (szName m, 1, d) :: k.2 -> magic b' = magic b ->
       Q k.1 (c <| m_pFmtBase := Some b' |>)) ->
    wp (attach_modules OnAttach (length post) (S (length pre))) Q c1) as Hrest.
  { intros d c1 Hd -> HQ1. destruct (set_region_spec pre m post 1 d b Hlo Hu Hd) as (Hlo1 & Hu1 & E1 & E2 & E3).
    set (b1 := set_region _ _ _ _ _) in *. set (m1 := m <| chInited := 1 |>) in *.
    assert (S (length pre) = length (pre ++ [m1])) as -> by (rewrite length_app; simpl; lia).
    apply (IH (pre ++ [m1]) _ b1 (Hmp1 1 d Hd)); [by rewrite <- (assoc_L (++))|]. cbv zeta. rewrite E3, fmap_app, E1. cbn [fmap list_fmap].
    rewrite E2. intros b' Hmp' Hr' Hmg. apply HQ1; [exact Hmp'| |exact Hmg]. by rewrite Hr', <- (assoc_L (++)). }
  destruct (notifier reg) as [nt|]; wp_steps.
  - eapply wp_lift; [apply read_data_run; lia|].
    set (res := OnAttach nt (region_of (data b) m).2 (chInited m)) in *.
    change (region_of (data b) m).1.2 with (chInited m) in HQ. fold res in HQ.
    assert (Z.of_nat (length res.2) = mod_zSize m) as Hd by (unfold res; by rewrite OnAttach_length).
    wp_steps; [apply bool_decide_true, OnAttach_length|].
    eapply wp_lift; [apply write_data_run; lia|]. wp_steps.
    destruct (res.1 =? 0) eqn:E; cbn [negb]; wp_steps.
    + eapply wp_lift; [done|]. wp_steps. by eapply Hrest.
    + rewrite <- (set_region_same (length pre) m _ b Hm). apply HQ; [by apply Hmp1| |done].
      by apply set_region_regions.
  - cbn [Z.eqb negb]. wp_steps. eapply wp_lift; [exact Hb|]. wp_steps.
    rewrite <- (set_region_none (length pre) m 1 b Hm). by eapply Hrest.
Qed.

(** ** The store of a process *)

(** The modules of a block are registered, with the same sizes. *)
Definition known (b : ShareMemoryCenterDataFmt) (regs : list Reg) : Prop :=
  NoDup (szName <$> used b) /\
  Forall (fun m => exists r, r ∈ regs /\ reg_name r = szName m /\ reg_zSize r = mod_zSize m) (used b).

Lemma sizes_sum l : sizes l = foldr Z.add 0 (mod_zSize <$> l).
Proof. induction l as [|m l IH]; simpl; [done|]. by rewrite IH. Qed.
Lemma reg_sizes_sum (l : list Reg) : reg_sizes l = foldr Z.add 0 (reg_zSize <$> l).
Proof. unfold reg_sizes. induction l as [|m l IH]; simpl; [done|]. by rewrite IH. Qed.

Lemma sum_perm (l1 l2 : list Z) : l1 ≡ₚ l2 -> foldr Z.add 0 l1 = foldr Z.add 0 l2.
Proof. induction 1; simpl; lia. Qed.

Lemma reg_sizes_perm (l1 l2 : list Reg) : l1 ≡ₚ l2 -> reg_sizes l1 = reg_sizes l2.
Proof. unfold reg_sizes. induction 1; simpl; lia. Qed.
Lemma reg_sizes_app (l1 l2 : list Reg) : reg_sizes (l1 ++ l2) = reg_sizes l1 + reg_sizes l2.
Proof. unfold reg_sizes. induction l1; simpl; lia. Qed.

(** The regions of the block and the missing ones make up what is registered. *)
Lemma known_sizes b (regs : list Reg) : NoDup (reg_name <$> regs) -> known b regs ->
  sizes (used b) + reg_sizes (missing (regions b) regs) = reg_sizes regs /\
  (length (used b) + length (missing (regions b) regs) = length regs)%nat.
Proof.
  intros Hnd [Hndu Hk]. set (P := fun r : Reg => reg_name r ∉ region_name <$> regions b).
  pose proof (filter_app_complement P regs) as Hp. fold (missing (regions b) regs) in Hp.
  change (filter P regs) with (missing (regions b) regs) in Hp. set (found := filter (fun x => ~ P x) regs) in *.
  assert ((fun m => (szName m, mod_zSize m)) <$> used b ≡ₚ (fun r => (reg_name r, reg_zSize r)) <$> found) as Hu.
  { rewrite Forall_forall in Hk. apply NoDup_Permutation.
    - apply (NoDup_fmap_1 fst). rewrite <- list_fmap_compose. exact Hndu.
    - apply (NoDup_fmap_1 fst). rewrite <- list_fmap_compose. rewrite <- Hp, fmap_app in Hnd.
      by apply NoDup_app in Hnd as (_ & _ & Hnd).
    - intros [n z]. rewrite !list_elem_of_fmap. split.
      + intros (m & -> & Hm). destruct (Hk m Hm) as (r & Hr & En & Ez). exists r. split; [by rewrite En, Ez|].
        apply list_elem_of_filter. split; [|done]. intros HP. apply HP. rewrite region_names, En.
        by apply list_elem_of_fmap_2.
      + intros (r & -> & [HP Hr]%list_elem_of_filter). apply dec_stable in HP. rewrite region_names in HP.
        apply list_elem_of_fmap in HP as (m & En & Hm). exists m. split; [|done].
        destruct (Hk m Hm) as (r' & Hr' & En' & <-). rewrite <- En.
        enough (r = r') by congruence. apply (f_equal (fun n => FindReg n regs)) in En.
        rewrite <- En', !FindReg_elem in En by done. congruence. }
  assert (sizes (used b) = reg_sizes found /\ length (used b) = length found) as [-> ->].
  { split; [|apply Permutation_length in Hu; by rewrite !length_fmap in Hu].
    rewrite sizes_sum, reg_sizes_sum. apply sum_perm. apply (fmap_Permutation snd) in Hu.
    by rewrite <- !list_fmap_compose in Hu. }
  rewrite <- (Permutation_length Hp), length_app. split; [|lia].
  rewrite <- (reg_sizes_perm _ _ Hp), reg_sizes_app. lia.
Qed.

Lemma reg_sizes_zero (l : list Reg) : Forall reg_ok l -> reg_sizes l = 0 -> l = [].
Proof.
  intros [|r k (_ & _ & Hr) Hk]; [done|]. pose proof (reg_sizes_pos _ Hk). unfold reg_sizes in *. simpl. lia.
Qed.

(** What [Register] builds. *)
Record registered (c : Center) : Prop := {
  rg_names : NoDup (reg_name <$> m_vecModules c);
  rg_ok : Forall reg_ok (m_vecModules c);
  rg_total : m_zTotalSize c = reg_sizes (m_vecModules c);
  rg_size : FMT_SIZE + reg_sizes (m_vecModules c) < 2 ^ 64;
  rg_count : Z.of_nat (length (m_vecModules c)) <= RECOVERYSHM_MAX_MOUDLES
}.

Lemma registered_found (c : Center) : registered c ->
  Forall (fun r => FindReg (reg_name r) (m_vecModules c) = Some r) (m_vecModules c).
Proof. intros H. apply Forall_forall. intros r Hr. apply FindReg_elem; [apply H|done]. Qed.

(** A center with its block, once [Init] has mapped it. *)
Definition with_block (c : Center) (b : ShareMemoryCenterDataFmt) : Center :=
  c <| m_zTotalSize := u64 (m_zTotalSize c + FMT_SIZE) |> <| m_pFmtBase := Some b |>.

Lemma total_run (c : Center) : registered c -> u64 (m_zTotalSize c + FMT_SIZE) = FMT_SIZE + reg_sizes (m_vecModules c).
Proof.
  intros [_ Hok -> Hs _]. pose proof (reg_sizes_pos _ Hok). assert (0 <= FMT_SIZE) by (vm_compute; done).
  rewrite u64_small; lia.
Qed.

Lemma with_block_mapped (c : Center) b : registered c -> layout b ->
  FMT_SIZE + reg_sizes (m_vecModules c) <= FMT_SIZE + Z.of_nat (length (data b)) -> mapped (with_block c b) b.
Proof.
  intros Hr Hlo Hl. split; [done|done| |]; unfold with_block; simpl; rewrite total_run by done; [done|].
  destruct Hr. pose proof (reg_sizes_pos _ rg_ok0). assert (0 <= FMT_SIZE) by (vm_compute; done). lia.
Qed.

Lemma wp_AttachAllModules (c : Center) b Q :
  mapped c b -> let r := attach_regions (m_vecModules c) (regions b) in
  (forall b', mapped (c <| m_pFmtBase := Some b' |>) b' -> regions b' = r.2 -> Q r.1 (c <| m_pFmtBase := Some b' |>)) ->
  wp (AttachAllModules OnAttach) Q c.
Proof.
  intros Hmp r HQ. unfold AttachAllModules, fmt. wp_steps. eapply wp_lift; [apply Hmp|]. wp_steps.
  assert (Z.to_nat (modulesCount b) = length (used b)) as ->.
  { destruct Hmp as [_ [Hc Ht _ _ _ _] _ _]. unfold used. rewrite length_take. lia. }
  apply (wp_attach_modules [] (used b) c b Q Hmp eq_refl). intros b' Hmp' Hr _. by apply HQ.
Qed.

Lemma wp_append_attach (c : Center) b Q : registered c -> mapped (with_block c b) b -> known b (m_vecModules c) ->
  let r := attach_regions (m_vecModules c) (regions b ++ (fresh <$> missing (regions b) (m_vecModules c))) in
  (forall b', mapped (with_block c b') b' -> regions b' = r.2 -> Q r.1 (with_block c b')) ->
  wp AppendRegModules (fun _ => wp (AttachAllModules OnAttach) Q) (with_block c b).
Proof.
  intros Hreg Hmp Hk r HQ. destruct (known_sizes b _ (rg_names _ Hreg) Hk) as [Hs Hc].
  pose proof (lo_len _ (mp_layout _ _ Hmp)). pose proof (lo_count _ (mp_layout _ _ Hmp)). pose proof (lo_table _ (mp_layout _ _ Hmp)).
  assert (length (used b) = Z.to_nat (modulesCount b)) as Hlu by (unfold used; rewrite length_take; lia).
  pose proof (rg_count _ Hreg).
  unfold AppendRegModules. wp_steps. change (m_vecModules (with_block c b)) with (m_vecModules c).
  eapply wp_append_modules; [exact Hmp|apply Hreg|apply Hreg|exact (registered_found c Hreg)| | |].
  - unfold with_block. simpl. rewrite total_run by done. lia.
  - lia.
  - intros b1 Hmp1 Hr1 _. eapply wp_AttachAllModules; [exact Hmp1|]. rewrite Hr1. exact HQ.
Qed.

(** C24. A restart finds the shared memory as it was left. When there is a block of modules that are
    registered again, [Init] keeps their regions, adds a cleared region for every module that
    is new, and hands each to its notifier; the block stays well laid out. *)
Theorem Init_recovers (c : Center) Attach Create nattach b :
  registered c -> Attach (FMT_SIZE + reg_sizes (m_vecModules c)) = (0, Some b) -> 1 <= nattach ->
  magic b = of_str SHM_MAGIC -> layout b -> known b (m_vecModules c) ->
  reg_sizes (m_vecModules c) <= Z.of_nat (length (data b)) ->
  let r := attach_regions (m_vecModules c) (regions b ++ (fresh <$> missing (regions b) (m_vecModules c))) in
  exists b', Init OnAttach Attach Create nattach c = Some (r.1, with_block c b') /\ layout b' /\ regions b' = r.2.
Proof.
  intros Hreg Hat Hn Hmg Hlo Hk Hl r.
  assert (mapped (with_block c b) b) as Hmp by (apply with_block_mapped; [done..|lia]).
  cut (wp (Init OnAttach Attach Create nattach) (fun x c' => x = r.1 /\ exists b', c' = with_block c b' /\ layout b' /\ regions b' = r.2) c).
  { intros (x & c' & E & -> & b' & -> & H)%wp_run. by exists b'. }
  unfold Init. wp_steps. simpl. rewrite (total_run _ Hreg), Hat. wp_steps. cbn [Z.eqb negb].
  unfold Check. rewrite (proj2 (Z.leb_gt nattach 0)), (proj2 (Z.ltb_ge nattach 1)) by lia. cbn [andb orb]. unfold fmt. wp_steps.
  eapply wp_lift; [done|]. wp_steps. rewrite bool_decide_true by done. cbn [Z.eqb negb]. wp_steps. eapply wp_lift; [done|]. wp_steps.
  rewrite <- (total_run _ Hreg). fold (with_block c b).
  destruct (known_sizes b _ (rg_names _ Hreg) Hk) as [Hs Hc]. pose proof (lo_len _ Hlo) as Hlen.
  change (m_vecModules (with_block c b)) with (m_vecModules c).
  assert (Forall reg_ok (missing (regions b) (m_vecModules c))) as Hmok by (apply Forall_filter_2, Hreg).
  pose proof (reg_sizes_pos _ Hmok). destruct (Z.eqb_spec (dataLength b) (u64 (m_zTotalSize c + FMT_SIZE))) as [E|E];
    rewrite total_run in E by done; cbn [negb]; wp_steps.
  - eapply wp_AttachAllModules; [exact Hmp|]. intros b' Hmp' Hr'. subst r.
    rewrite (reg_sizes_zero _ Hmok), app_nil_r by lia. split; [done|]. exists b'. split; [done|]. split; [apply Hmp'|done].
  - rewrite (proj2 (Z.ltb_lt _ _)) by (rewrite total_run by done; lia). apply Z.ltb_lt.
    pose proof (lo_count _ Hlo). pose proof (lo_table _ Hlo).
    assert (length (used b) = Z.to_nat (modulesCount b)) as Hlu by (unfold used; rewrite length_take; lia).
    destruct (missing (regions b) (m_vecModules c)); [simpl in *; lia|simpl in *; lia].
  - apply wp_append_attach; [done..|]. intros b' Hmp' Hr'. split; [done|]. exists b'. split; [done|]. split; [apply Hmp'|done].
Qed.

(** ** A new block *)

(** The block that [InitRegModules] starts with. *)
Definition empty_block (d : bytes) : ShareMemoryCenterDataFmt :=
  mkShareMemoryCenterDataFmt (of_str SHM_MAGIC) (u64 FMT_SIZE) (u32 FMT_SIZE) 0
    (replicate (Z.to_nat RECOVERYSHM_MAX_MOUDLES) blank_module) d.

Lemma empty_block_layout d : layout (empty_block d).
Proof.
  split; try (vm_compute; done).
  - unfold empty_block. simpl. change (u64 FMT_SIZE) with FMT_SIZE. lia.
  - unfold empty_block. simpl modulesCount. rewrite drop_0. apply Forall_replicate. done.
Qed.

Lemma wp_InitRegModules (c : Center) b Q :
  FMT_SIZE <= m_zTotalSize c <= FMT_SIZE + Z.of_nat (length (data b)) -> m_pFmtBase c = Some b ->
  (forall d, length d = length (data b) -> wp AppendRegModules Q (c <| m_pFmtBase := Some (empty_block d) |>)) ->
  wp InitRegModules Q c.
Proof.
  intros Ht Hb HQ. unfold InitRegModules, fmt, put_fmt. wp_steps. eapply wp_lift; [exact Hb|]. wp_steps.
  eapply wp_lift; [apply write_data_run; [done|rewrite length_replicate; lia]|]. wp_steps.
  apply HQ. simpl. by rewrite length_inserts.
Qed.

Lemma missing_nil (l : list Reg) : missing [] l = l.
Proof. unfold missing. apply filter_every. apply Forall_forall. intros r _. apply not_elem_of_nil. Qed.

(** A first start makes a cleared region for every registered module, in the order of the
    registration, and hands each to its notifier. *)
Theorem Init_fresh (c : Center) Attach Create nattach blk b :
  registered c -> let total := FMT_SIZE + reg_sizes (m_vecModules c) in
  Attach total = (1, blk) -> Create total = (0, Some b) -> total <= FMT_SIZE + Z.of_nat (length (data b)) ->
  let r := attach_regions (m_vecModules c) (fresh <$> m_vecModules c) in
  exists b', Init OnAttach Attach Create nattach c = Some (r.1, with_block c b') /\ layout b' /\ regions b' = r.2.
Proof.
  intros Hreg total Hat Hcr Hl r. pose proof (reg_sizes_pos _ (rg_ok _ Hreg)).
  cut (wp (Init OnAttach Attach Create nattach) (fun x c' => x = r.1 /\ exists b', c' = with_block c b' /\ layout b' /\ regions b' = r.2) c).
  { intros (x & c' & E & -> & b' & -> & Hb')%wp_run. by exists b'. }
  unfold Init. wp_steps. simpl. rewrite (total_run _ Hreg). fold total. rewrite Hat. wp_steps. cbn [Z.eqb Pos.eqb negb]. rewrite Hcr.
  cbn [Z.eqb negb]. wp_steps. eapply wp_InitRegModules; [|done|].
  { simpl. lia. }
  intros d Hd.
  match goal with |- wp _ _ ?x => replace x with (with_block c (empty_block d)) by (unfold with_block; by rewrite total_run) end.
  apply wp_append_attach; [done| |by split; [apply NoDup_nil_2|apply Forall_nil_2]|].
  { apply with_block_mapped; [done|apply empty_block_layout|]. simpl. lia. }
  change (regions (empty_block d)) with (@nil Region). rewrite missing_nil. simpl.
  intros b' Hmp' Hr'. split; [done|]. exists b'. split; [done|]. split; [apply Hmp'|done].
Qed.

(** A module whose name does not fit the table keeps the process from starting: the region is
    stored under a shortened name, which is then not found among the registered ones. *)
Theorem long_name_fails (c : Center) Attach Create nattach blk b (r : Reg) :
  (forall cap s, 0 < cap -> strlen (STRNCPY cap s) < cap) ->
  m_vecModules c = [r] -> m_zTotalSize c = reg_zSize r -> 0 <= reg_zSize r -> FMT_SIZE + reg_zSize r < 2 ^ 64 ->
  c_str (reg_name r) = reg_name r -> 32 <= strlen (reg_name r) ->
  Attach (FMT_SIZE + reg_zSize r) = (1, blk) -> Create (FMT_SIZE + reg_zSize r) = (0, Some b) ->
  reg_zSize r <= Z.of_nat (length (data b)) ->
  exists b', Init OnAttach Attach Create nattach c = Some (-1, with_block c b').
Proof.
  intros Hstr Hv Ht Hz Hs Hcs Hlong Hat Hcr Hl. assert (0 <= FMT_SIZE) by (vm_compute; done).
  assert (u64 (m_zTotalSize c + FMT_SIZE) = FMT_SIZE + reg_zSize r) as Htot by (rewrite Ht, u64_small; lia).
  cut (wp (Init OnAttach Attach Create nattach) (fun x c' => x = -1 /\ exists b', c' = with_block c b') c).
  { intros (x & c' & E & -> & b' & ->)%wp_run. by exists b'. }
  unfold Init. wp_steps. simpl. rewrite Htot, Hat. wp_steps. cbn [Z.eqb Pos.eqb negb]. rewrite Hcr.
  cbn [Z.eqb negb]. wp_steps. eapply (wp_InitRegModules _ b); [simpl; lia|done|].
  intros d Hd.
  match goal with |- wp _ _ ?x => replace x with (with_block c (empty_block d)) by (unfold with_block; by rewrite Htot) end.
  assert (mapped (with_block c (empty_block d)) (empty_block d)) as Hmp.
  { split; [done|apply empty_block_layout| |]; unfold with_block; simpl; rewrite Htot; lia. }
  unfold AppendRegModules. wp_steps. change (m_vecModules (with_block c (empty_block d))) with (m_vecModules c). rewrite Hv.
  cbn [append_modules]. rewrite Hcs. wp_steps. eapply wp_FindModule; [done|apply empty_block_layout|].
  change (used (empty_block d)) with (@nil ShareMemoryModule). cbn [List.find]. wp_steps.
  eapply wp_AddModule; [exact Hmp| |done| |done|].
  { change (m_vecModules (with_block c (empty_block d))) with (m_vecModules c). rewrite Hv. simpl. by rewrite String.eqb_refl. }
  { unfold with_block. simpl. rewrite Htot. change (u64 FMT_SIZE) with FMT_SIZE. lia. }
  intros b1 Hmp1 Hr1 _ _ _. wp_steps. eapply wp_AttachAllModules; [exact Hmp1|]. rewrite Hr1.
  change (regions (empty_block d)) with (@nil Region). simpl.
  match goal with |- context [FindReg _ ?l] => change l with (m_vecModules c) end. rewrite Hv. simpl.
  destruct (String.eqb_spec (reg_name r) (STRNCPY 32 (c_str (reg_name r)))) as [E|_].
  - pose proof (Hstr 32 (c_str (reg_name r))). rewrite <- E in *. lia.
  - intros b' _ _. split; [done|]. by exists b'.
Qed.

(** The buffer of a module is its region. *)
Lemma GetModleBuffer_region (c : Center) b n ini d :
  mapped c b -> NoDup (region_name <$> regions b) -> (n, ini, d) ∈ regions b ->
  GetModleBuffer n c = Some (mkBuffer (Z.of_nat (length d)) (Z.of_nat (length d)) d, c).
Proof.
  intros Hmp Hnd Hin. rewrite region_names in Hnd.
  cut (wp (GetModleBuffer n) (fun x c' => x = mkBuffer (Z.of_nat (length d)) (Z.of_nat (length d)) d /\ c' = c) c).
  { intros (x & c' & E & -> & ->)%wp_run. exact E. }
  unfold regions in Hin. apply list_elem_of_fmap in Hin as (m & Em & Hm).
  unfold GetModleBuffer. wp_steps. eapply wp_FindModule; [apply Hmp..|].
  unfold region_of in Em. simplify_eq. pose proof (find_name (szName m) (used b)) as Hf. destruct (List.find _ _) as [m'|].
  2:{ exfalso. apply Hf. by apply list_elem_of_fmap_2. }
  destruct Hf as [Hm' En]. assert (m' = m) as ->.
  { apply list_elem_of_lookup in Hm as [i Hi]. apply list_elem_of_lookup in Hm' as [j Hj].
    assert (i = j) as ->; [|congruence]. eapply NoDup_lookup; [exact Hnd|..]; rewrite list_lookup_fmap.
    - by rewrite Hi.
    - by rewrite Hj; simpl; rewrite En. }
  destruct (laid_inside FMT_SIZE (used b) m) as (Ho & Hz & He); [apply Hmp|done|].
  pose proof (lo_len _ (mp_layout _ _ Hmp)). pose proof (lo_fits _ (mp_layout _ _ Hmp)).
  unfold fmt. wp_steps. eapply wp_lift; [apply Hmp|]. wp_steps. eapply wp_lift; [apply read_data_run; lia|]. wp_steps.
  split; [|done]. unfold region_of. simpl. rewrite length_take, length_drop. f_equal; lia.
Qed.

(** Registering modules one by one builds such a center. *)
Lemma Register_registered (c : Center) r : registered c -> reg_ok r -> reg_name r ∉ reg_name <$> m_vecModules c ->
  FMT_SIZE + reg_sizes (m_vecModules c) + reg_zSize r < 2 ^ 64 ->
  Z.of_nat (length (m_vecModules c)) < RECOVERYSHM_MAX_MOUDLES ->
  exists c', Register r c = Some (0, c') /\ registered c' /\ m_vecModules c' = m_vecModules c ++ [r] /\ m_pFmtBase c' = m_pFmtBase c.
Proof.
  intros [Hn Hok Ht Hs Hc] Hr Hnew Hs' Hc'. unfold Register, mbind, M_bind, gets, modify, mret, M_ret.
  pose proof (FindReg_spec (reg_name r) (m_vecModules c)) as Hf. destruct (FindReg _ _) as [x|].
  { exfalso. apply Hnew. destruct Hf as [Hx <-]. by apply list_elem_of_fmap_2. }
  eexists. split; [reflexivity|]. split; [|done]. pose proof (reg_sizes_pos _ Hok). pose proof Hr as (_ & _ & Hz).
  assert (0 <= FMT_SIZE) by (vm_compute; done). assert (reg_sizes [r] = reg_zSize r) as Hone by (unfold reg_sizes; simpl; lia).
  split; simpl.
  - rewrite fmap_app. apply NoDup_app. split; [done|]. split; [|apply NoDup_singleton].
    intros n Hn' ->%list_elem_of_singleton. done.
  - apply Forall_app. split; [done|]. by apply Forall_singleton.
  - rewrite reg_sizes_app, Hone, Ht, u64_small; lia.
  - rewrite reg_sizes_app, Hone. lia.
  - rewrite length_app. simpl. lia.
Qed.

End facts.

(** ** A block of two modules *)

Module ShmWitness.
Import CenterWitness.

(** A notifier that fills a new region with sevens and leaves an old one. *)
Definition OnAttach (_ : unit) (d : bytes) (ini : Z) : Z * bytes :=
  (0, if ini =? 0 then replicate (length d) 7 else d).
Lemma OnAttach_length nt d ini : length (OnAttach nt d ini).2 = length d.
Proof. unfold OnAttach. simpl. destruct (ini =? 0); [apply length_replicate|done]. Qed.

Definition task : ShareMemoryModuleReg unit := mkShareMemoryModuleReg "task" 4 (Some tt).
Definition rank : ShareMemoryModuleReg unit := mkShareMemoryModuleReg "rank" 2 (Some tt).
Definition center (l : list (ShareMemoryModuleReg unit)) : ShareMemoryCenter unit := mkShareMemoryCenter l None (reg_sizes l).

Lemma center_registered : registered (center [task; rank]).
Proof.
  split; [|repeat constructor| | |]; try (vm_compute; done).
  compute_done.
Qed.

(** What a process with one module has left. *)
Definition old : ShareMemoryCenterDataFmt :=
  mkShareMemoryCenterDataFmt (of_str SHM_MAGIC) (FMT_SIZE + 4) FMT_SIZE 1
    (mkShareMemoryModule "task" 1 FMT_SIZE 4 :: replicate 255 blank_module) [1; 2; 3; 4; 9; 9].

Lemma old_layout : layout old.
Proof.
  split; try (vm_compute; intuition congruence).
  compute_done.
Qed.

Lemma Init_recovers_witness : exists b',
  Init OnAttach (fun _ => (0, Some old)) (fun _ => (1, None)) 1 (center [task; rank]) = Some (0, with_block (center [task; rank]) b')
  /\ layout b' /\ regions b' = [("task", 1, [1; 2; 3; 4]); ("rank", 1, [7; 7])].
Proof.
  refine (Init_recovers OnAttach OnAttach_length (center [task; rank]) (fun _ => (0, Some old)) (fun _ => (1, None)) 1 old
            center_registered eq_refl _ eq_refl old_layout _ _).
  - lia.
  - split.
    + compute_done.
    + apply Forall_singleton. exists task. split; [left|done].
  - vm_compute. discriminate.
Defined.

Lemma Init_fresh_witness : exists b',
  Init OnAttach (fun _ => (1, None)) (fun _ => (0, Some old)) 0 (center [task; rank]) = Some (0, with_block (center [task; rank]) b')
  /\ layout b' /\ regions b' = [("task", 1, [7; 7; 7; 7]); ("rank", 1, [7; 7])].
Proof.
  refine (Init_fresh OnAttach OnAttach_length (center [task; rank]) (fun _ => (1, None)) (fun _ => (0, Some old)) 0 None old
            center_registered eq_refl eq_refl _).
  vm_compute. discriminate.
Defined.

Definition long : ShareMemoryModuleReg unit :=
  mkShareMemoryModuleReg "the_ranking_list_of_all_the_players" 2 (Some tt).

Lemma long_name_fails_witness : exists b',
  Init OnAttach (fun _ => (1, None)) (fun _ => (0, Some old)) 0 (center [long]) = Some (-1, with_block (center [long]) b').
Proof.
  refine (long_name_fails OnAttach OnAttach_length (center [long]) (fun _ => (1, None)) (fun _ => (0, Some old)) 0 None old long
            _ eq_refl eq_refl _ _ eq_refl _ eq_refl eq_refl _); try (vm_compute; done).
  - intros cap s Hcap. unfold STRNCPY, macro, strlen. pose proof (length_substring s (Z.to_nat (cap - 1))). lia.
Defined.

End ShmWitness.
