(* ===== verification/ResTableAgent.v ===== *)
(** * Resource tables ([datacenter/ResTableAgent.{h,cpp}])

    The game's constant data is in files, one message per file: a table, whose field
    [list] holds the entries. The agent reads all files of a directory and keeps, for each
    table, a map from the primary key of an entry to a pointer into the message.

    A pointer is the table it points into and the position in its list. Tables are
    owned by the map of raw tables: one that is replaced there is freed, and a
    pointer into it points nowhere. *)

From S2P Require Import Prelude CString Extern MetaSerializer.

(** ** Ordered maps

    [std::map] with integer keys, as its pairs in order. *)
Section ordered.
Context {V : Type}.

Fixpoint smap_find (k : Z) (m : list (Z * V)) : option V :=
  match m with
  | [] => None
  | (k', v) :: m => if k =? k' then Some v else smap_find k m
  end.

(** [m[k] = v]. *)
Fixpoint smap_set (k : Z) (v : V) (m : list (Z * V)) : list (Z * V) :=
  match m with
  | [] => [(k, v)]
  | (k', v') :: m' =>
      if k <? k' then (k, v) :: m else if k =? k' then (k, v) :: m' else (k', v') :: smap_set k v m'
  end.

(** The first pair whose key is not less than [k], and the first whose key is greater. *)
Fixpoint lower_bound (k : Z) (m : list (Z * V)) : option (Z * V) :=
  match m with
  | [] => None
  | (k', v) :: m => if k <=? k' then Some (k', v) else lower_bound k m
  end.
Fixpoint upper_bound (k : Z) (m : list (Z * V)) : option (Z * V) :=
  match m with
  | [] => None
  | (k', v) :: m => if k <? k' then Some (k', v) else upper_bound k m
  end.

End ordered.

(** ** The agent *)

Abbreviation Ptr := (Z * nat)%type.
Definition MAX_TABLE_FILE_SIZE : Z := 16 * 1024 * 1024.

(** [base/File.h]: the names in a directory ([None] is an error), the size of a file, and
    what a read of that many bytes gives. *)
Class FileLib := {
  ListFiles : string -> option (list string);
  GetFileSize : string -> Z;
  file_Read : string -> Z -> bytes
}.

Section ResTableAgent.
Context {R : Reflection} {B : BufferLib} {SU : StringUtil} {F : FileLib}.
(** [FieldSize] and [GetRepeatedMessage] of the field [list]. *)
Context (list_of : MetaObject -> list MetaObject).

Record ResTableAgent := mkResTableAgent {
  m_mpRawMetaResTable : gmap string Z;
  raw_tables : gmap Z MetaObject; next_raw : Z;
  m_mpAllNameTables : gmap string (list (Z * Ptr));
  m_strResDataDir : string;
  m_metaSeri : MetaSerializer;
  m_iLoadResNum : Z;
  m_mpNameCacheTable : gmap string (list Ptr)
}.
#[global] Instance eta_ResTableAgent : Eta ResTableAgent := fun r =>
  mkResTableAgent (m_mpRawMetaResTable r) (raw_tables r) (next_raw r) (m_mpAllNameTables r) (m_strResDataDir r)
    (m_metaSeri r) (m_iLoadResNum r) (m_mpNameCacheTable r).

(** The entry a pointer points to. *)
Definition entry (p : Ptr) (a : ResTableAgent) : option MetaObject :=
  t ← raw_tables a !! p.1; list_of t !! p.2.

(** The loop over the key fields: a field that is not there leaves [val] as it was. *)
Fixpoint key_fields (o : MetaObject) (pks : list string) (k val : Z) : option Z :=
  match pks with
  | [] => Some k
  | n :: pks =>
      r ← GetObjectFieldU32 o n val;
      key_fields o pks (Z.lor (u64 (Z.shiftl k 32)) (u32 r.2)) r.2
  end.

Definition GetResTableEntryKey (o : MetaObject) : M ResTableAgent Z :=
  a ← gets (fun a => a);
  match GetTypePrimaryKey (GetDescriptor_of o) (m_metaSeri a) with
  | None => crash
  | Some (pks, s) =>
      modify (fun a => a <| m_metaSeri := s |>);;
      assert (bool_decide (length pks <= 2)%nat);;
      lift (key_fields o pks 0 0)
  end.

(** The entries of the table [name] from position [j] on; [false] for a key that is there
    already. *)
Fixpoint load_entries (name : string) (h : Z) (j : nat) (l : list MetaObject) : M ResTableAgent bool :=
  match l with
  | [] => mret true
  | o :: l =>
      ulKey ← GetResTableEntryKey o;
      a ← gets (fun a => a);
      let resTable := default [] (m_mpAllNameTables a !! name) in
      match smap_find ulKey resTable with
      | Some _ => mret false
      | None =>
          modify (fun a => a <| m_mpAllNameTables ::= <[name := smap_set ulKey (h, j) resTable]> |>
                             <| m_iLoadResNum := i32 (m_iLoadResNum a + 1) |>);;
          load_entries name h (S j) l
      end
  end.

(** [m_mpRawMetaResTable[name] = ptr]: the table that was there is freed. *)
Definition raw_put (name : string) (t : MetaObject) (a : ResTableAgent) : ResTableAgent :=
  a <| m_mpRawMetaResTable ::= <[name := next_raw a]> |>
    <| raw_tables ::= fun m => <[next_raw a := t]>
         (match m_mpRawMetaResTable a !! name with Some h => delete h m | None => m end) |>
    <| next_raw ::= Z.succ |>.
Definition put_raw (name : string) (t : MetaObject) : M ResTableAgent Z :=
  a ← gets (fun a => a);
  modify (raw_put name t);;
  mret (next_raw a).

(** One file: [false] is the error. *)
Definition load_file (b : Buffer) (fname : string) : M ResTableAgent (bool * Buffer) :=
  a ← gets (fun a => a);
  let filePath := m_strResDataDir a +:+ "/" +:+ fname in
  let buffLen := GetFileSize filePath in
  if buffLen <=? 0 then mret (false, b)
  else
    let b := b <| iUsed := buffLen |> in
    strResTableType ← lift (head (SplitString fname "."));
    m ← lift (memcpy_at (iCap b) 0 (file_Read filePath buffLen) (pBuffer b));
    let b := b <| pBuffer := m |> in
    match UnPack ("res" +:+ "." +:+ strResTableType) b with
    | None => mret (false, b)
    | Some t =>
        h ← put_raw strResTableType t;
        lift (FindFieldByName (GetDescriptor_of t) "list");;
        modify (fun a => a <| m_mpAllNameTables ::= <[strResTableType := default [] (m_mpAllNameTables a !! strResTableType)]> |>);;
        r ← load_entries strResTableType h 0 (list_of t);
        mret (r, b)
    end.

Fixpoint load_files (b : Buffer) (files : list string) : M ResTableAgent Z :=
  match files with
  | [] => mret 0
  | f :: files =>
      r ← load_file b f;
      if r.1 : bool then load_files r.2 files else mret (-1)
  end.

Definition ReLoad : M ResTableAgent Z :=
  a ← gets (fun a => a);
  match ListFiles (m_strResDataDir a) with
  | None => mret (-1)
  | Some files =>
      modify (fun a => a <| m_mpAllNameTables := ∅ |> <| m_iLoadResNum := 0 |> <| m_mpNameCacheTable := ∅ |>
                         <| m_mpRawMetaResTable := ∅ |> <| raw_tables := ∅ |>);;
      match buffer_Create MAX_TABLE_FILE_SIZE with
      | None => mret (-1)
      | Some b => load_files b files
      end
  end.

Definition Init (pszResDataDir : string) (meta : MetaSerializer) : M ResTableAgent Z :=
  modify (fun a => a <| m_metaSeri := meta |> <| m_strResDataDir := pszResDataDir |>);;
  ReLoad.

(** The lookups: nothing for an unknown table. *)
Definition with_table (pszName : string) (o : MetaObject) (f : Z -> list (Z * Ptr) -> option Ptr) : M ResTableAgent (option Ptr) :=
  a ← gets (fun a => a);
  match m_mpAllNameTables a !! pszName with
  | None => mret None
  | Some t => ulKey ← GetResTableEntryKey o; mret (f ulKey t)
  end.
Definition Find (pszName : string) (o : MetaObject) : M ResTableAgent (option Ptr) :=
  with_table pszName o smap_find.
Definition LowerBound (pszName : string) (o : MetaObject) : M ResTableAgent (option Ptr) :=
  with_table pszName o (fun k t => snd <$> lower_bound k t).
Definition UpperBound (pszName : string) (o : MetaObject) : M ResTableAgent (option Ptr) :=
  with_table pszName o (fun k t => snd <$> upper_bound k t).

Definition GetAll (pszName : string) : M ResTableAgent (list Ptr) :=
  a ← gets (fun a => a);
  match m_mpNameCacheTable a !! pszName with
  | Some v => mret v
  | None =>
      let v := match m_mpAllNameTables a !! pszName with Some t => t.*2 | None => [] end in
      modify (fun a => a <| m_mpNameCacheTable ::= <[pszName := v]> |>);;
      mret v
  end.

(** [Random] with the number [rand] gave. *)
Definition Random (rand : Z) (pszName : string) : M ResTableAgent (option Ptr) :=
  vec ← GetAll pszName;
  match vec with
  | [] => mret None
  | _ => p ← lift (vec !! Z.to_nat (rand mod Z.of_nat (length vec))); mret (Some p)
  end.

End ResTableAgent.
Arguments ResTableAgent : clear implicits.
Arguments ResTableAgent {R}.

(** ** Ordered maps keep their order *)

Section ordered_facts.
Context {V : Type}.
Implicit Types m : list (Z * V).

Definition ordered m : Prop := StronglySorted Z.lt m.*1.

Lemma smap_set_keys k v m k' : k' ∈ (smap_set k v m).*1 -> k' = k \/ k' ∈ m.*1.
Proof.
  induction m as [|[k1 v1] m IH]; simpl; [by rewrite list_elem_of_singleton; left|].
  destruct (k <? k1); [|destruct (k =? k1) eqn:E]; simpl; rewrite !elem_of_cons; [tauto| |].
  - apply Z.eqb_eq in E as ->. tauto.
  - intros [?|?%IH]; tauto.
Qed.

Lemma smap_set_ordered k v m : ordered m -> ordered (smap_set k v m).
Proof.
  unfold ordered. induction m as [|[k1 v1] m IH]; simpl; intros Hs; [repeat constructor|].
  inversion Hs as [|? ? Hs' Hf]; subst. destruct (Z.ltb_spec k k1); simpl.
  - constructor; [done|]. constructor; [done|]. eapply Forall_impl; [exact Hf|]. simpl. lia.
  - destruct (Z.eqb_spec k k1) as [->|]; simpl; [by constructor|]. constructor; [by apply IH|].
    apply Forall_forall. intros k' [->|Hk']%smap_set_keys; [lia|]. by eapply Forall_forall.
Qed.

Lemma smap_set_perm k v m : smap_find k m = None -> smap_set k v m ≡ₚ (k, v) :: m.
Proof.
  induction m as [|[k1 v1] m IH]; simpl; intros Hf; [done|]. destruct (Z.eqb_spec k k1); [done|].
  destruct (k <? k1); [done|]. rewrite IH by done. by constructor.
Qed.

Lemma smap_find_spec k m : match smap_find k m with Some v => (k, v) ∈ m | None => k ∉ m.*1 end.
Proof.
  induction m as [|[k1 v1] m IH]; simpl; [apply not_elem_of_nil|]. destruct (Z.eqb_spec k k1) as [->|]; [left|].
  destruct (smap_find k m); [by right|]. rewrite not_elem_of_cons. by split.
Qed.

Lemma ordered_cons k v m : ordered ((k, v) :: m) -> ordered m /\ forall p, p ∈ m -> k < p.1.
Proof.
  intros Hs. inversion Hs as [|? ? Hs' Hf]; subst. split; [done|]. intros p Hp.
  rewrite Forall_forall in Hf. apply Hf. by apply list_elem_of_fmap_2.
Qed.

(** The first pair not below [k] is the least of them, and all others of the map are below. *)
Lemma bound_spec (ok : Z -> bool) m (f : list (Z * V) -> option (Z * V)) :
  (forall m, f m = match m with [] => None | (k', v) :: m => if ok k' then Some (k', v) else f m end) ->
  ordered m ->
  match f m with
  | Some p => p ∈ m /\ ok p.1 = true /\ forall q, q ∈ m -> ok q.1 = true -> p.1 <= q.1
  | None => forall q, q ∈ m -> ok q.1 = false
  end.
Proof.
  intros Hf. induction m as [|[k v] m IH]; intros Hs; rewrite Hf; [by intros q ?%elem_of_nil|].
  apply ordered_cons in Hs as [Hs Hlt]. destruct (ok k) eqn:Hk.
  - split; [left|]. split; [done|]. intros q [->|Hq]%elem_of_cons _; [done|]. apply Hlt in Hq. simpl. lia.
  - specialize (IH Hs). destruct (f m) as [p|].
    + destruct IH as (Hp & Ho & Hmin). split; [by right|]. split; [done|]. intros q [->|Hq]%elem_of_cons Hoq; [|by apply Hmin].
      simpl in Hoq. congruence.
    + intros q [->|Hq]%elem_of_cons; [done|]. by apply IH.
Qed.

End ordered_facts.

(** ** Keys *)

Section facts.
Context {R : Reflection} {B : BufferLib} {SU : StringUtil} {F : FileLib}.
Context (list_of : MetaObject -> list MetaObject).

(** The key of an entry, without the cache of primary keys. *)
Definition entry_key (o : MetaObject) : option Z :=
  let pks := primary_key (GetDescriptor_of o) in
  if bool_decide (length pks <= 2)%nat then key_fields o pks 0 0 else None.

Lemma lor_shift a b : 0 <= a < 2 ^ 32 -> 0 <= b < 2 ^ 32 -> Z.lor (u64 (Z.shiftl a 32)) b = a * 2 ^ 32 + b.
Proof. intros Ha Hb. rewrite Z.shiftl_mul_pow2, u64_small by lia. by apply lor_shift32. Qed.

(** An unsigned 32-bit field of an object. *)
Definition field_u32 (o : MetaObject) (n : string) : Prop :=
  (exists fd, FindFieldByName (GetDescriptor_of o) n = Some fd /\ cpp_type fd = CPPTYPE_UINT32) /\ 0 <= get_num o n < 2 ^ 32.

Lemma field_u32_run o n val : field_u32 o n -> GetObjectFieldU32 o n val = Some (0, get_num o n).
Proof.
  intros [(fd & Hf & Ht) _]. unfold GetObjectFieldU32, GetObjectField. by rewrite Hf, bool_decide_true.
Qed.

Lemma entry_key_one o n : primary_key (GetDescriptor_of o) = [n] -> field_u32 o n -> entry_key o = Some (get_num o n).
Proof.
  intros Hp Hn. pose proof Hn as [_ Hr]. unfold entry_key. rewrite Hp. simpl. rewrite field_u32_run by done. simpl.
  f_equal. by apply u32_small.
Qed.

Lemma entry_key_two o n1 n2 : primary_key (GetDescriptor_of o) = [n1; n2] -> field_u32 o n1 -> field_u32 o n2 ->
  entry_key o = Some (get_num o n1 * 2 ^ 32 + get_num o n2).
Proof.
  intros Hp H1 H2. pose proof H1 as [_ Hr1]. pose proof H2 as [_ Hr2]. unfold entry_key. rewrite Hp. simpl.
  rewrite field_u32_run by done. simpl. rewrite field_u32_run by done. simpl. rewrite !u32_small by lia.
  by rewrite lor_shift.
Qed.

(** The key of an entry with two key fields is the pair of them in one number: entries of a type
    have the same key exactly when they agree on both fields, and keys are ordered by the first
    field and then by the second. *)
Theorem entry_key_pair o o' n1 n2 :
  primary_key (GetDescriptor_of o) = [n1; n2] -> primary_key (GetDescriptor_of o') = [n1; n2] ->
  field_u32 o n1 -> field_u32 o n2 -> field_u32 o' n1 -> field_u32 o' n2 ->
  exists k k', entry_key o = Some k /\ entry_key o' = Some k' /\ 0 <= k < 2 ^ 64 /\
    (k = k' <-> get_num o n1 = get_num o' n1 /\ get_num o n2 = get_num o' n2) /\
    (k < k' <-> get_num o n1 < get_num o' n1 \/ get_num o n1 = get_num o' n1 /\ get_num o n2 < get_num o' n2).
Proof.
  intros Hp Hp' H1 H2 H1' H2'. exists (get_num o n1 * 2 ^ 32 + get_num o n2), (get_num o' n1 * 2 ^ 32 + get_num o' n2).
  destruct H1 as [? Hr1], H2 as [? Hr2], H1' as [? Hr1'], H2' as [? Hr2'].
  split; [by apply entry_key_two|]. split; [by apply entry_key_two|]. split_and!; lia.
Qed.

(** ** Loading *)

Lemma wp_key o k (a : ResTableAgent) Q :
  pooled (GetDescriptor_of o) -> KeyCache (m_metaSeri a) -> entry_key o = Some k ->
  (forall s, KeyCache s -> Q k (a <| m_metaSeri := s |>)) -> wp (GetResTableEntryKey o) Q a.
Proof.
  intros Hp Hc Hk HQ. unfold GetResTableEntryKey. wp_steps.
  destruct (wp_run _ _ _ (GetTypePrimaryKey_run _ _ Hp Hc)) as (pks & s & -> & -> & Hs).
  unfold entry_key in Hk. destruct (bool_decide _) eqn:E; [|done]. wp_steps; [done|].
  eapply wp_lift; [exact Hk|]. by apply HQ.
Qed.

(** What the directory holds: the pairs of keys and pointers of a table, and the entries that
    can be loaded. *)
Definition pairs (h : Z) (j : nat) (ks : list Z) : list (Z * Ptr) := imap (fun i k => (k, (h, j + i)%nat)) ks.
Definition keyed (l : list MetaObject) (ks : list Z) : Prop :=
  Forall2 (fun o k => pooled (GetDescriptor_of o) /\ entry_key o = Some k) l ks.

Lemma pairs_cons h j k ks : pairs h j (k :: ks) = (k, (h, j)) :: pairs h (S j) ks.
Proof.
  unfold pairs. simpl. f_equal; [by rewrite Nat.add_0_r|]. apply imap_ext. intros i x _. simpl. by rewrite Nat.add_succ_r.
Qed.

Lemma pairs_keys h j ks : (pairs h j ks).*1 = ks.
Proof. revert j. induction ks as [|k ks IH]; intros j; [done|]. rewrite pairs_cons. simpl. by rewrite IH. Qed.

(** An agent whose table [name] is [m], with what the loading changes besides. *)
Definition loaded (a : ResTableAgent) (name : string) (m : list (Z * Ptr)) (s : MetaSerializer) (n : Z) : ResTableAgent :=
  a <| m_mpAllNameTables ::= <[name := m]> |> <| m_metaSeri := s |> <| m_iLoadResNum := n |>.

Lemma loaded_loaded a name m s n m' s' n' : loaded (loaded a name m s n) name m' s' n' = loaded a name m' s' n'.
Proof. unfold loaded, setf. destruct a. simpl. unfold setf. simpl. by rewrite insert_insert_eq. Qed.

Lemma ordered_NoDup {V} (m : list (Z * V)) : ordered m -> NoDup m.*1.
Proof.
  unfold ordered. induction 1 as [|k l _ IH Hf]; constructor; [|done]. intros Hk. rewrite Forall_forall in Hf.
  apply Hf in Hk. lia.
Qed.

Lemma wp_load_entries name h j l ks m (a : ResTableAgent) Q :
  keyed l ks -> KeyCache (m_metaSeri a) -> m_mpAllNameTables a !! name = Some m -> ordered m ->
  (forall b m' s n, KeyCache s -> ordered m' ->
     (if b : bool then m' ≡ₚ m ++ pairs h j ks /\ NoDup (m.*1 ++ ks) else ~ NoDup (m.*1 ++ ks)) ->
     Q b (loaded a name m' s n)) ->
  wp (load_entries name h j l) Q a.
Proof.
  intros Hks. revert j m a. induction Hks as [|o k l ks [Hp Hk] _ IH]; intros j m a Hc Hm Ho HQ; cbn [load_entries].
  - wp_steps. replace a with (loaded a name m (m_metaSeri a) (m_iLoadResNum a))
      by (unfold loaded, setf; destruct a; simpl in *; unfold setf; simpl; by rewrite insert_id).
    apply HQ; [done|done|]. unfold pairs. simpl. rewrite !app_nil_r. split; [done|by apply ordered_NoDup].
  - wp_steps. eapply wp_key; [exact Hp|exact Hc|exact Hk|]. intros s Hs. wp_steps. simpl. rewrite Hm. simpl.
    pose proof (smap_find_spec k m) as Hf. destruct (smap_find k m) eqn:E.
    + wp_steps.
      replace (a <| m_metaSeri := s |>) with (loaded a name m s (m_iLoadResNum a))
        by (unfold loaded, setf; destruct a; simpl in *; unfold setf; simpl; by rewrite insert_id).
      apply HQ; [done|done|]. intros (_ & Hd & _)%NoDup_app. apply (Hd k); [|left].
      by apply (list_elem_of_fmap_2 fst) in Hf.
    + wp_steps. match goal with |- wp _ _ ?x => change x with (loaded a name (smap_set k (h, j) m) s (i32 (m_iLoadResNum a + 1))) end.
      eapply (IH (S j) (smap_set k (h, j) m)); [exact Hs|apply lookup_insert_eq|by apply smap_set_ordered|].
      intros b m' s' n' Hs' Ho' Hb. rewrite loaded_loaded. apply HQ; [done|done|].
      assert ((smap_set k (h, j) m).*1 ++ ks ≡ₚ m.*1 ++ k :: ks) as Hperm.
      { rewrite (fmap_Permutation fst _ _ (smap_set_perm k (h, j) m E)). simpl. by rewrite Permutation_middle. }
      destruct b; [|by rewrite <- Hperm]. rewrite Hperm in Hb. destruct Hb as [Hb ?]. split; [|done].
      rewrite Hb, (smap_set_perm k (h, j) m E), pairs_cons. simpl. by rewrite Permutation_middle.
Qed.

(** A file of the directory: its name, the name of its table, its message and the keys of the
    entries. *)
Record Table := mkTable { tb_file : string; tb_name : string; tb_msg : MetaObject; tb_keys : list Z }.

Record holds (dir : string) (T : Table) : Prop := {
  hd_size : 0 < GetFileSize (dir +:+ "/" +:+ tb_file T) <= MAX_TABLE_FILE_SIZE;
  hd_read : let path := dir +:+ "/" +:+ tb_file T in
    Z.of_nat (length (file_Read path (GetFileSize path))) = GetFileSize path;
  hd_name : head (SplitString (tb_file T) ".") = Some (tb_name T);
  hd_msg : let path := dir +:+ "/" +:+ tb_file T in
    exists o0, NewObject ("res" +:+ "." +:+ tb_name T) = Some o0 /\
      obj_parse o0 (file_Read path (GetFileSize path)) = Some (tb_msg T);
  hd_list : is_Some (FindFieldByName (GetDescriptor_of (tb_msg T)) "list");
  hd_keys : keyed (list_of (tb_msg T)) (tb_keys T)
}.

Lemma wp_load_file b T (a : ResTableAgent) Q :
  holds (m_strResDataDir a) T -> iCap b = MAX_TABLE_FILE_SIZE -> KeyCache (m_metaSeri a) ->
  let m := default [] (m_mpAllNameTables a !! tb_name T) in
  ordered m ->
  (forall ok b' m' s n, iCap b' = MAX_TABLE_FILE_SIZE -> KeyCache s -> ordered m' ->
     (if ok : bool then m' ≡ₚ m ++ pairs (next_raw a) 0 (tb_keys T) /\ NoDup (m.*1 ++ tb_keys T)
      else ~ NoDup (m.*1 ++ tb_keys T)) ->
     Q (ok, b') (loaded (raw_put (tb_name T) (tb_msg T) a) (tb_name T) m' s n)) ->
  wp (load_file list_of b (tb_file T)) Q a.
Proof.
  intros [Hs Hr Hn (o0 & Hnew & Hparse) [fd Hfd] Hks] Hcap Hc m Hm HQ. cbv zeta in Hr, Hparse. unfold load_file. wp_steps.
  set (path := m_strResDataDir a +:+ "/" +:+ tb_file T) in *. rewrite (proj2 (Z.leb_gt _ _)) by lia.
  wp_steps. eapply wp_lift; [exact Hn|]. wp_steps. eapply wp_lift.
  { unfold memcpy_at. simpl. rewrite Hcap, (proj2 (Z.leb_le _ _)) by lia. reflexivity. }
  unfold UnPack. rewrite Hnew. cbn [mbind option_bind]. unfold buffer_data. simpl.
  change (Z.to_nat 0) with 0%nat. rewrite resize_0. cbn [app].
  rewrite take_app_length' by lia. rewrite Hparse. unfold put_raw. wp_steps. eapply wp_lift; [exact Hfd|]. wp_steps.
  simpl. fold m.
  eapply (wp_load_entries _ _ _ _ (tb_keys T) m); [exact Hks|exact Hc|apply lookup_insert_eq|done|].
  intros ok m' s n Hs' Ho' Hok. wp_steps.
  match goal with |- Q _ (loaded ?x _ _ _ _) =>
    change x with (loaded (raw_put (tb_name T) (tb_msg T) a) (tb_name T) m (m_metaSeri a) (m_iLoadResNum a)) end.
  rewrite loaded_loaded. by apply HQ.
Qed.

(** The agent has the table: its map leads from the keys to the entries of the message. *)
Definition represents (a : ResTableAgent) (T : Table) : Prop :=
  exists h m, raw_tables a !! h = Some (tb_msg T) /\ m_mpAllNameTables a !! tb_name T = Some m /\
    ordered m /\ m ≡ₚ pairs h 0 (tb_keys T).

(** What holds while the files are read, the tables [done] being loaded. *)
Record loading (dir : string) (done : list Table) (a : ResTableAgent) : Prop := {
  ld_dir : m_strResDataDir a = dir;
  ld_cache : KeyCache (m_metaSeri a);
  ld_done : Forall (represents a) done;
  ld_next : forall h, next_raw a <= h -> raw_tables a !! h = None;
  ld_rest : forall n, n ∉ tb_name <$> done -> m_mpAllNameTables a !! n = None /\ m_mpRawMetaResTable a !! n = None;
  ld_all : m_mpNameCacheTable a = ∅
}.

Lemma loading_more dir done T a m s n :
  loading dir done a -> tb_name T ∉ tb_name <$> done -> KeyCache s -> ordered m -> m ≡ₚ pairs (next_raw a) 0 (tb_keys T) ->
  loading dir (done ++ [T]) (loaded (raw_put (tb_name T) (tb_msg T) a) (tb_name T) m s n).
Proof.
  intros [Hd Hc Hdone Hnext Hrest Hall] Hnew Hs Ho Hm. destruct (Hrest _ Hnew) as [Ht Hr].
  assert (raw_tables (raw_put (tb_name T) (tb_msg T) a) = <[next_raw a := tb_msg T]> (raw_tables a)) as Hraw.
  { unfold raw_put. simpl. by rewrite Hr. }
  split; unfold loaded; simpl; try done.
  - apply Forall_app. split.
    + rewrite Forall_forall in Hdone |- *. intros T' HT'. destruct (Hdone T' HT') as (h & m' & E1 & E2 & E3 & E4).
      exists h, m'. simpl. fold (raw_put (tb_name T) (tb_msg T) a). rewrite Hr. split_and!; [|..]; try done.
      * rewrite lookup_insert_ne; [done|]. intros <-. rewrite Hnext in E1; [done|lia].
      * rewrite lookup_insert_ne; [done|]. intros E. apply Hnew. rewrite E. by apply list_elem_of_fmap_2.
    + apply Forall_singleton. exists (next_raw a), m. simpl. rewrite Hr, !lookup_insert_eq. done.
  - intros h Hh. rewrite Hr, lookup_insert_ne by lia. apply Hnext. lia.
  - intros k Hk. rewrite fmap_app, not_elem_of_app in Hk. simpl in Hk. rewrite list_elem_of_singleton in Hk.
    destruct Hk as [Hk Hne]. rewrite !lookup_insert_ne by done. by apply Hrest.
Qed.

Lemma wp_load_files dir Ts b done a :
  Forall (holds dir) Ts -> NoDup (tb_name <$> done ++ Ts) -> iCap b = MAX_TABLE_FILE_SIZE -> loading dir done a ->
  wp (load_files list_of b (tb_file <$> Ts))
    (fun r a' => if decide (Forall (fun T => NoDup (tb_keys T)) Ts) then r = 0 /\ loading dir (done ++ Ts) a' else r = -1) a.
Proof.
  intros Hh. revert b done a. induction Hh as [|T Ts HT _ IH]; intros b done a Hnd Hcap Hl; cbn [fmap list_fmap load_files].
  - wp_steps. rewrite decide_True by constructor. by rewrite app_nil_r.
  - assert (tb_name T ∉ tb_name <$> done) as Hnew.
    { rewrite fmap_app in Hnd. apply NoDup_app in Hnd as (_ & Hnd & _). intros H. apply (Hnd _ H). left. }
    destruct (ld_rest _ _ _ Hl _ Hnew) as [Ht Hr]. wp_steps.
    eapply wp_load_file; [by rewrite (ld_dir _ _ _ Hl)|done|apply Hl| |].
    { rewrite Ht. constructor. }
    rewrite Ht. simpl. intros ok b' m s n Hcap' Hs Ho Hok. destruct ok.
    + destruct Hok as [Hm HndT]. eapply wp_mono; [apply (IH b' (done ++ [T]))|].
      * by rewrite <- (assoc_L (++)).
      * done.
      * by apply loading_more.
      * intros r a'. cbv beta. rewrite <- (assoc_L (++)). cbn [app].
        destruct (decide (Forall _ Ts)) as [H|H].
        -- by rewrite decide_True by (by constructor).
        -- rewrite decide_False; [done|]. by intros [_ ?]%Forall_cons.
    + wp_steps. rewrite decide_False; [done|]. by intros [? _]%Forall_cons.
Qed.

(** C25. Loading the tables of a directory. When no two entries of a table have the same key, [ReLoad]
    succeeds, and for every file there is a map in the order of the keys that leads to the
    entries of its message, and no other table; a key that occurs twice makes it fail. *)
Theorem ReLoad_tables (a : ResTableAgent) Ts b :
  ListFiles (m_strResDataDir a) = Some (tb_file <$> Ts) -> Forall (holds (m_strResDataDir a)) Ts ->
  NoDup (tb_name <$> Ts) -> buffer_Create MAX_TABLE_FILE_SIZE = Some b -> iCap b = MAX_TABLE_FILE_SIZE ->
  KeyCache (m_metaSeri a) ->
  exists r a', ReLoad list_of a = Some (r, a') /\
    if decide (Forall (fun T => NoDup (tb_keys T)) Ts)
    then r = 0 /\ Forall (represents a') Ts /\ KeyCache (m_metaSeri a') /\
         forall n, n ∉ tb_name <$> Ts -> m_mpAllNameTables a' !! n = None
    else r = -1.
Proof.
  intros Hf Hh Hnd Hb Hcap Hc. apply wp_run. unfold ReLoad. wp_steps. rewrite Hf. wp_steps. rewrite Hb.
  eapply wp_mono; [eapply (wp_load_files (m_strResDataDir a) Ts b []); [done..|]|].
  - by split.
  - intros r a'. cbv beta. destruct (decide _); [|done]. intros [-> [_ Hc' Hd _ Hr _]]. split; [done|]. split; [done|].
    split; [done|]. intros n Hn. by apply Hr.
Qed.

(** ** Lookups *)

Lemma pairs_elem h ks k p : (k, p) ∈ pairs h 0 ks <-> exists j, p = (h, j) /\ ks !! j = Some k.
Proof.
  unfold pairs. rewrite elem_of_lookup_imap. split.
  - intros (i & x & E & Hx). simplify_eq. by exists i.
  - intros (j & -> & Hj). by exists j, k.
Qed.

(** The pairs of a table's map are its entries with their keys. *)
Lemma table_pair a T h m k p :
  keyed (list_of (tb_msg T)) (tb_keys T) -> raw_tables a !! h = Some (tb_msg T) -> m ≡ₚ pairs h 0 (tb_keys T) ->
  (k, p) ∈ m -> exists e, entry list_of p a = Some e /\ e ∈ list_of (tb_msg T) /\ entry_key e = Some k.
Proof.
  intros Hk Hh Hm Hp. rewrite Hm, pairs_elem in Hp. destruct Hp as (j & -> & Hj).
  destruct (Forall2_lookup_r _ _ _ _ _ Hk Hj) as (e & He & _ & Hke). exists e. unfold entry. simpl. rewrite Hh. simpl.
  split; [done|]. split; [by eapply list_elem_of_lookup_2|done].
Qed.

Lemma table_entry T h m e :
  keyed (list_of (tb_msg T)) (tb_keys T) -> m ≡ₚ pairs h 0 (tb_keys T) -> e ∈ list_of (tb_msg T) ->
  exists k p, entry_key e = Some k /\ (k, p) ∈ m.
Proof.
  intros Hk Hm [j He]%list_elem_of_lookup. destruct (Forall2_lookup_l _ _ _ _ _ Hk He) as (k & Hj & _ & Hke).
  exists k, (h, j). split; [done|]. rewrite Hm, pairs_elem. by exists j.
Qed.

Lemma wp_with_table T h m o k f (a : ResTableAgent) Q :
  m_mpAllNameTables a !! tb_name T = Some m -> pooled (GetDescriptor_of o) -> KeyCache (m_metaSeri a) -> entry_key o = Some k ->
  (forall s, KeyCache s -> raw_tables a !! h = Some (tb_msg T) -> Q (f k m) (a <| m_metaSeri := s |>)) ->
  raw_tables a !! h = Some (tb_msg T) -> wp (with_table (tb_name T) o f) Q a.
Proof.
  intros Hm Hp Hc Hk HQ Hh. unfold with_table. wp_steps. rewrite Hm. wp_steps.
  eapply wp_key; [done..|]. intros s Hs. wp_steps. by apply HQ.
Qed.

(** The entry with the least of the keys that are [ok]. *)
Definition least_entry (a : ResTableAgent) (es : list MetaObject) (ok : Z -> bool) (r : option Ptr) : Prop :=
  match r with
  | Some p => exists e k, entry list_of p a = Some e /\ e ∈ es /\ entry_key e = Some k /\ ok k = true /\
                forall e2 k2, e2 ∈ es -> entry_key e2 = Some k2 -> ok k2 = true -> k <= k2
  | None => forall e2 k2, e2 ∈ es -> entry_key e2 = Some k2 -> ok k2 = false
  end.

(** C26. Lookups in a loaded table. [Find] gives the entry with the key of the object, or nothing when
    no entry has it; [LowerBound] and [UpperBound] give the entry with the least key that is not
    less, or greater, or nothing when there is none. *)
Theorem lookups_exact (a : ResTableAgent) T o k :
  represents a T -> keyed (list_of (tb_msg T)) (tb_keys T) -> KeyCache (m_metaSeri a) ->
  pooled (GetDescriptor_of o) -> entry_key o = Some k ->
  let es := list_of (tb_msg T) in
  (exists r a', Find (tb_name T) o a = Some (r, a') /\
     match r with
     | Some p => exists e, entry list_of p a' = Some e /\ e ∈ es /\ entry_key e = Some k
     | None => forall e, e ∈ es -> entry_key e <> Some k
     end) /\
  (exists r a', LowerBound (tb_name T) o a = Some (r, a') /\ least_entry a' es (fun k' => k <=? k') r) /\
  (exists r a', UpperBound (tb_name T) o a = Some (r, a') /\ least_entry a' es (fun k' => k <? k') r).
Proof.
  intros (h & m & Hh & Hm & Ho & Hperm) Hks Hc Hp Hk es.
  assert (forall (ok : Z -> bool) (f : list (Z * Ptr) -> option (Z * Ptr)), (forall m, f m = match m with [] => None | (k', v) :: m => if ok k' then Some (k', v) else f m end) ->
    forall s, least_entry (a <| m_metaSeri := s |>) es ok (snd <$> f m)) as Hleast.
  { intros ok f Hf s. pose proof (bound_spec ok m f Hf Ho) as Hb. destruct (f m) as [[k' p]|]; simpl in *.
    - destruct Hb as (Hin & Hok & Hmin). destruct (table_pair a T h m k' p) as (e & He & Hes & Hek); [done..|].
      exists e, k'. split_and!; [done..|]. intros e2 k2 He2 Hk2 Hok2.
      destruct (table_entry T h m e2) as (k3 & p3 & Hk3 & Hp3); [done..|]. simplify_eq. by apply (Hmin _ Hp3).
    - intros e2 k2 He2 Hk2. destruct (table_entry T h m e2) as (k3 & p3 & Hk3 & Hp3); [done..|]. simplify_eq.
      apply (Hb _ Hp3). }
  split_and!; apply wp_run; eapply wp_with_table; try done; intros s Hs _.
  - pose proof (smap_find_spec k m) as Hf. destruct (smap_find k m) as [p|].
    + exact (table_pair a T h m k p Hks Hh Hperm Hf).
    + intros e He E. destruct (table_entry T h m e) as (k3 & p3 & Hk3 & Hp3); [done..|]. simplify_eq.
      apply Hf. by apply (list_elem_of_fmap_2 fst) in Hp3.
  - apply (Hleast (fun k' => k <=? k')). intros [|[]]; done.
  - apply (Hleast (fun k' => k <? k')). intros [|[]]; done.
Qed.

Lemma StronglySorted_key {A} (f : A -> Z) (l : list A) :
  StronglySorted Z.lt (f <$> l) -> StronglySorted (fun x y => f x < f y) l.
Proof.
  induction l as [|x l IH]; simpl; intros Hs; [constructor|]. inversion Hs as [|? ? Hs' Hf]; subst.
  constructor; [by apply IH|]. rewrite Forall_fmap in Hf. exact Hf.
Qed.

Lemma omap_Forall2 {A X} (f : A -> option X) l k : Forall2 (fun x y => f x = Some y) l k -> omap f l = k /\ f <$> l = Some <$> k.
Proof. induction 1 as [|x y l k E _ [IH1 IH2]]; simpl; [done|]. rewrite E. split; f_equal; done. Qed.

(** [GetAll] gives every entry once, in the order of the keys, and the same again. *)
Theorem GetAll_in_order (a : ResTableAgent) T :
  represents a T -> keyed (list_of (tb_msg T)) (tb_keys T) -> m_mpNameCacheTable a !! tb_name T = None ->
  exists ps es a', GetAll (tb_name T) a = Some (ps, a') /\ (fun p => entry list_of p a') <$> ps = Some <$> es /\
    es ≡ₚ list_of (tb_msg T) /\ StronglySorted (fun e1 e2 => default 0 (entry_key e1) < default 0 (entry_key e2)) es /\
    GetAll (tb_name T) a' = Some (ps, a').
Proof.
  intros (h & m & Hh & Hm & Ho & Hperm) Hks Hc.
  assert (Forall (fun kp => exists e, entry list_of kp.2 a = Some e /\ entry_key e = Some kp.1) m) as Hall.
  { apply Forall_forall. intros [k p] Hp. destruct (table_pair a T h m k p) as (e & ? & _ & ?); [done..|]. by exists e. }
  apply Forall_exists_Forall2_l in Hall as [es Hes].
  destruct (omap_Forall2 (fun kp => entry list_of kp.2 a) m es) as [E1 E2].
  { eapply Forall2_impl; [exact Hes|]. by intros ? ? [? _]. }
  exists m.*2, es, (a <| m_mpNameCacheTable ::= <[tb_name T := m.*2]> |>). unfold GetAll, mbind, M_bind, gets, modify, mret, M_ret.
  rewrite Hc, Hm. simpl. rewrite lookup_insert_eq. split_and!; [done| | | |done].
  - rewrite <- list_fmap_compose. exact E2.
  - rewrite <- E1, Hperm. destruct (omap_Forall2 (fun kp => entry list_of kp.2 a) (pairs h 0 (tb_keys T)) (list_of (tb_msg T))) as [-> _]; [|done].
    pose proof (Forall2_length _ _ _ Hks) as Hlen. apply Forall2_same_length_lookup. split; [unfold pairs; by rewrite length_imap|].
    intros i [k p] e Hi He. unfold pairs in Hi. rewrite list_lookup_imap in Hi. apply fmap_Some in Hi as (x & Hx & E). simplify_eq.
    unfold entry. simpl. by rewrite Hh.
  - apply StronglySorted_key. replace ((fun e => default 0 (entry_key e)) <$> es) with m.*1; [exact Ho|].
    clear -Hes. induction Hes as [|kp e m es [_ E] _ IH]; simpl; [done|]. rewrite E. f_equal. exact IH.
Qed.

(** Two files of one table. When the directory has a second file with the same name up to the first
    dot, the second message replaces the first, which is freed; but the map keeps the entries of the
    first, and looking one of them up gives a pointer into memory that is gone. *)
Theorem same_name_dangles (a : ResTableAgent) T1 T2 b :
  ListFiles (m_strResDataDir a) = Some [tb_file T1; tb_file T2] ->
  holds (m_strResDataDir a) T1 -> holds (m_strResDataDir a) T2 -> tb_name T1 = tb_name T2 ->
  NoDup (tb_keys T1 ++ tb_keys T2) ->
  buffer_Create MAX_TABLE_FILE_SIZE = Some b -> iCap b = MAX_TABLE_FILE_SIZE -> KeyCache (m_metaSeri a) ->
  exists a', ReLoad list_of a = Some (0, a') /\
    forall o k, pooled (GetDescriptor_of o) -> entry_key o = Some k -> k ∈ tb_keys T1 ->
      exists p a2, Find (tb_name T1) o a' = Some (Some p, a2) /\ entry list_of p a2 = None.
Proof.
  intros Hf H1 H2 Hn Hnd Hb Hcap Hc. apply wp_run_ret. unfold ReLoad. wp_steps. rewrite Hf. wp_steps. rewrite Hb.
  cbn [load_files]. wp_steps. set (a0 := _ <| raw_tables := ∅ |>).
  eapply (wp_load_file b T1 a0); [exact H1|done|exact Hc|constructor|].
  intros ok b1 m1 s1 n1 Hcap1 Hs1 Ho1 Hok1. change (default [] (m_mpAllNameTables a0 !! tb_name T1)) with (@nil (Z * Ptr)) in Hok1.
  destruct ok; [|by destruct Hok1; apply NoDup_app in Hnd as (? & _)]. destruct Hok1 as [Hm1 _]. cbn [app] in Hm1.
  cbn [fst snd]. wp_steps. set (h1 := next_raw a0) in *. set (a1 := loaded _ _ m1 s1 n1).
  eapply (wp_load_file b1 T2 a1); [exact H2|done|exact Hs1|..].
  { rewrite <- Hn. simpl. by rewrite lookup_insert_eq. }
  assert (m_mpAllNameTables a1 !! tb_name T2 = Some m1) as -> by (rewrite <- Hn; apply lookup_insert_eq). cbn [default].
  assert (m1.*1 ≡ₚ tb_keys T1) as Hk1.
  { by rewrite Hm1, pairs_keys. }
  intros ok b2 m2 s2 n2 _ Hs2 Ho2 Hok2. destruct ok; [|by rewrite Hk1 in Hok2]. destruct Hok2 as [Hm2 _].
  cbn [fst snd]. wp_steps. split; [done|]. intros o k Hp Hk Hin.
  cut (wp (Find (tb_name T1) o) (fun r a2 => exists p, r = Some p /\ entry list_of p a2 = None)
         (loaded (raw_put (tb_name T2) (tb_msg T2) a1) (tb_name T2) m2 s2 n2)).
  { intros (r & a2 & E & p & -> & Hp2)%wp_run. by exists p, a2. }
  unfold Find, with_table. wp_steps. rewrite Hn at 1. simpl. rewrite lookup_insert_eq. wp_steps.
  eapply wp_key; [exact Hp|exact Hs2|exact Hk|]. intros s3 _. wp_steps.
  assert (k ∈ m2.*1) as Hkm.
  { rewrite Hm2, fmap_app, elem_of_app, Hk1. by left. }
  pose proof (smap_find_spec k m2) as Hfd. destruct (smap_find k m2) as [p|]; [|done]. exists p. split; [done|].
  rewrite Hm2, elem_of_app, Hm1 in Hfd. destruct Hfd as [(j & -> & _)%pairs_elem|(j & -> & Hj)%pairs_elem].
  - unfold entry. simpl. rewrite <- Hn, lookup_insert_eq, lookup_insert_ne by (unfold h1; simpl; lia). by rewrite lookup_delete_eq.
  - exfalso. apply NoDup_app in Hnd as (_ & Hd & _). apply (Hd k Hin). by eapply list_elem_of_lookup_2.
Qed.

End facts.

(** ** A directory of tables *)

Module ResWitness.
Import Reference.

Definition u32_field (n : string) : FieldDescriptor := mkFieldDescriptor n CPPTYPE_UINT32 "uint32" "" 0 true.
Definition task_desc : Descriptor :=
  mkDescriptor "Task" "res.Task" [u32_field "id"; u32_field "step"] [("_PrimaryKey", [u32_field "id"; u32_field "step"])].
Definition table_desc : Descriptor :=
  mkDescriptor "TaskTable" "res.TaskTable" [mkFieldDescriptor "list" CPPTYPE_MESSAGE "message" "res.Task" 0 false] [].

(** An object is a table with the ids of its entries, or an entry: step one of a task. *)
Inductive Obj := Tbl (ids : bytes) | Task (id : Z).
#[export] Instance refl : Reflection := {
  MetaObject := Obj;
  FindMessageTypeByName n :=
    if String.eqb n "res.Task" then Some task_desc else if String.eqb n "res.TaskTable" then Some table_desc else None;
  prototype_New d := Some (Tbl []);
  GetDescriptor_of o := match o with Tbl _ => table_desc | Task _ => task_desc end;
  HasField _ _ := true;
  get_num o n := match o with Tbl _ => 0 | Task i => if String.eqb n "id" then i else 1 end;
  get_str _ _ := "";
  get_msg o _ := o;
  set_num _ _ o := o;
  set_str _ _ o := o;
  set_msg _ _ o := o;
  IsInitialized _ := true;
  obj_ByteSize o := match o with Tbl l => Z.of_nat (length l) | Task _ => 0 end;
  obj_serialize o := match o with Tbl l => l | Task _ => [] end;
  obj_parse _ b := Some (Tbl b)
}.
Definition entries (o : @MetaObject refl) : list (@MetaObject refl) :=
  match o with Tbl l => Task <$> l | Task _ => [] end.

(** The directory has a table and an older copy of it. *)
#[export] Instance files : FileLib := {
  ListFiles dir := Some (if String.eqb dir "new" then ["TaskTable.bin"] else ["TaskTable.bin"; "TaskTable.old"]);
  GetFileSize path := 2;
  file_Read path _ := if String.eqb path "both/TaskTable.old" then [5; 9] else [7; 3]
}.

Definition agent (dir : string) : @ResTableAgent refl := mkResTableAgent ∅ ∅ 0 ∅ dir (MetaSerializer_Init.2) 0 ∅.
Definition key (i : Z) : Z := i * 2 ^ 32 + 1.
Definition table : Table := mkTable "TaskTable.bin" "TaskTable" (Tbl [7; 3]) [key 7; key 3].
Definition copy : Table := mkTable "TaskTable.old" "TaskTable" (Tbl [5; 9]) [key 5; key 9].

Lemma keyed_entries l : Forall (fun i => 0 <= i < 2 ^ 32) l -> keyed (entries (Tbl l)) (key <$> l).
Proof.
  induction 1 as [|i l Hi _ IH]; constructor; [|exact IH]. split; [reflexivity|].
  apply (@entry_key_two refl (Task i) "id" "step"); [done|split; [by eexists|done]|split; [by eexists|done]].
Qed.

Lemma table_holds dir : dir = "new" \/ dir = "both" -> holds entries dir table.
Proof.
  intros [-> | ->]; (split; [vm_compute; by split|done|done|by exists (Tbl [])|by eexists|]);
    apply (keyed_entries [7; 3]); repeat constructor; vm_compute; congruence.
Qed.
Lemma copy_holds : holds entries "both" copy.
Proof.
  split; [vm_compute; by split|done|done|by exists (Tbl [])|by eexists|].
  apply (keyed_entries [5; 9]); repeat constructor; vm_compute; congruence.
Qed.

Lemma ReLoad_tables_witness : exists a', ReLoad entries (agent "new") = Some (0, a') /\ represents a' table.
Proof.
  destruct (ReLoad_tables entries (agent "new") [table] (mkBuffer MAX_TABLE_FILE_SIZE 0 [])) as (r & a' & E & H).
  - reflexivity.
  - apply Forall_singleton, table_holds. by left.
  - apply NoDup_singleton.
  - reflexivity.
  - reflexivity.
  - exact KeyCache_Init.
  - destruct (decide _) as [_|n].
    + destruct H as (-> & Hr & _). exists a'. split; [exact E|]. exact (proj1 (Forall_singleton _ _) Hr).
    + exfalso. apply n. apply Forall_singleton. compute_done.
Defined.

Lemma entry_key_pair_witness : exists k k', @entry_key refl (Task 3) = Some k /\ @entry_key refl (Task 7) = Some k' /\ k < k'.
Proof.
  destruct (@entry_key_pair refl (Task 3) (Task 7) "id" "step") as (k & k' & E & E' & _ & _ & H).
  - reflexivity.
  - reflexivity.
  - split; [by eexists|vm_compute; intuition congruence].
  - split; [by eexists|vm_compute; intuition congruence].
  - split; [by eexists|vm_compute; intuition congruence].
  - split; [by eexists|vm_compute; intuition congruence].
  - exists k, k'. split; [exact E|]. split; [exact E'|]. apply H. left. vm_compute. reflexivity.
Defined.

(** The table loaded. *)
Definition full : @ResTableAgent refl :=
  agent "new" <| raw_tables := {[0 := Tbl [7; 3]]} |>
    <| m_mpAllNameTables := {["TaskTable" := [(key 3, (0, 1%nat)); (key 7, (0, 0%nat))]]} |>.
Lemma full_represents : represents full table.
Proof.
  exists 0, [(key 3, (0, 1%nat)); (key 7, (0, 0%nat))]. split_and!; [done|done| |].
  - unfold ordered. simpl. repeat constructor.
  - apply (Permutation_swap (key 7, (0, 0%nat)) (key 3, (0, 1%nat)) []).
Qed.

Lemma lookups_exact_witness : exists r a', LowerBound "TaskTable" (Task 5) full = Some (r, a') /\ is_Some r.
Proof.
  destruct (lookups_exact entries full table (Task 5) (key 5)) as (_ & (r & a' & E & H) & _).
  - exact full_represents.
  - apply (table_holds "new"). by left.
  - exact KeyCache_Init.
  - reflexivity.
  - reflexivity.
  - exists r, a'. split; [exact E|]. destruct r as [p|]; [by exists p|].
    specialize (H (Task 7) (key 7)). discriminate H.
    + left.
    + reflexivity.
Defined.

Lemma GetAll_in_order_witness : exists ps a', GetAll "TaskTable" full = Some (ps, a') /\ length ps = 2%nat.
Proof.
  destruct (GetAll_in_order entries full table) as (ps & es & a' & E & He & Hp & _).
  - exact full_represents.
  - apply (table_holds "new"). by left.
  - reflexivity.
  - exists ps, a'. split; [exact E|]. apply (f_equal length) in He. rewrite !length_fmap in He.
    apply Permutation_length in Hp. rewrite He. exact Hp.
Defined.

Lemma same_name_dangles_witness : exists a' p a2, ReLoad entries (agent "both") = Some (0, a') /\
  Find "TaskTable" (Task 7) a' = Some (Some p, a2) /\ entry entries p a2 = None.
Proof.
  destruct (same_name_dangles entries (agent "both") table copy (mkBuffer MAX_TABLE_FILE_SIZE 0 [])) as (a' & E & H).
  - reflexivity.
  - apply table_holds. by right.
  - exact copy_holds.
  - reflexivity.
  - compute_done.
  - reflexivity.
  - reflexivity.
  - exact KeyCache_Init.
  - destruct (H (Task 7) (key 7)) as (p & a2 & Ep & Hp); [reflexivity|reflexivity|left|].
    exists a', p, a2. split; [exact E|]. split; [exact Ep|exact Hp].
Defined.

End ResWitness.
