(* ===== verification/CacheAgent.v ===== *)
(** * Objects in the cache ([datacenter/CacheAgent.{h,cpp}])

    The agent keeps objects in Redis under a text of their type and primary
    key: it turns them into commands of the asynchronous client, with a head in
    front of the caller's callback data by which the reply is dispatched to the
    listener of the type. The objects it has read are shared pointers in a map:
    an object of the heap comes with its number of owners. *)

From S2P Require Import Prelude CString Extern ConfigCenter RedisAgent MetaSerializer DataCommon.

Definition DELIM1 : string := ":".
Definition DELIM2 : string := "&".
Definition GetMetaNameSpace : string := "db".

Section CacheAgent.
Context {C : CommonMacro} {R : Reflection} {B0 : BufferLib} {H : Type}.

(** The constructor leaves [redis] as it is in memory: [None] is a pointer
    that was never set, [Some false] is null, [Some true] the client. *)
Record CacheAgent := mkCacheAgent {
  serializer : option MetaSerializer;
  m_mpListener : gmap string (option H);
  redis : option bool;
  redis_instance : RedisAgent;
  objs : gmap Z (MetaObject * nat);
  next_obj : Z;
  m_mpGetObjects : gmap string (option Z)
}.
#[global] Instance eta_CacheAgent : Eta CacheAgent := fun r =>
  mkCacheAgent (serializer r) (m_mpListener r) (redis r) (redis_instance r) (objs r) (next_obj r) (m_mpGetObjects r).

Definition CacheAgent_new : CacheAgent := mkCacheAgent None ∅ None RedisAgent_new ∅ 1 ∅.

(** ** Objects *)

(** A new object with its first owner. *)
Definition new_object (o : MetaObject) : M CacheAgent Z :=
  a ← gets (fun a => a);
  modify (fun a => a <| objs ::= <[next_obj a := (o, 1%nat)]> |> <| next_obj ::= Z.succ |>);;
  mret (next_obj a).

(** An owner goes; the last one deletes the object. *)
Definition release (p : option Z) : M CacheAgent unit :=
  match p with
  | None => mret tt
  | Some h =>
      a ← gets (fun a => a);
      on ← lift (objs a !! h);
      modify (fun a => a <| objs ::= fun m => match on.2 with
                                              | S (S n) => <[h := (on.1, S n)]> m
                                              | _ => delete h m
                                              end |>)
  end.

(** A copy of a shared pointer is an owner more. *)
Definition share (p : option Z) : M CacheAgent (option Z) :=
  match p with
  | None => mret None
  | Some h =>
      a ← gets (fun a => a);
      on ← lift (objs a !! h);
      modify (fun a => a <| objs ::= <[h := (on.1, S on.2)]> |>);;
      mret (Some h)
  end.

(** [m_mpGetObjects[key] = ptr]. *)
Definition put_object (key : string) (h : Z) : M CacheAgent unit :=
  a ← gets (fun a => a);
  modify (fun a => a <| m_mpGetObjects ::= <[key := Some h]> |>);;
  release (mjoin (m_mpGetObjects a !! key)).

(** ** Keys *)

Definition on_serializer {A} (m : M MetaSerializer A) : M CacheAgent A :=
  a ← gets (fun a => a);
  s ← lift (serializer a);
  match m s with
  | Some (r, s) => modify (fun a => a <| serializer := Some s |>);; mret r
  | None => crash
  end.

(** The text of one key field: [None] for a type that is not supported. *)
Definition key_text (o : MetaObject) (field : FieldDescriptor) : option string :=
  match cpp_type field with
  | CPPTYPE_INT32 | CPPTYPE_INT64 | CPPTYPE_ENUM | CPPTYPE_UINT32 | CPPTYPE_UINT64 =>
      Some (snprintf 512 (print_d (get_num o (fd_name field))))
  | CPPTYPE_STRING => Some (snprintf 512 (c_str (get_str o (fd_name field))))
  | _ => None
  end.

(** The loop over the keys: a key that is not a field is dereferenced ([None]),
    one that is absent or of another type is an error ([Some None]). *)
Fixpoint key_loop (o : MetaObject) (i : nat) (pks : list string) (key : string) : option (option string) :=
  match pks with
  | [] => Some (Some key)
  | n :: pks =>
      let key := match i with O => key | S _ => key +:+ DELIM2 end in
      field ← FindFieldByName (GetDescriptor_of o) n;
      if negb (HasField o (fd_name field)) then Some None
      else
        match key_text o field with
        | None => Some None
        | Some t => key_loop o (S i) pks (key +:+ t)
        end
  end.

(** [GetObjectKey]: [None] is [-1]. *)
Definition GetObjectKey (o : MetaObject) : M CacheAgent (option string) :=
  pks ← on_serializer (GetTypePrimaryKey (GetDescriptor_of o));
  if bool_decide (pks = []) then mret None
  else lift (key_loop o 0 pks (GetTypeName o +:+ DELIM1)).

(** [FindObject(key)]: the test on the length gives up on every key but the
    empty one. *)
Definition FindObject_key (key : string) (a : CacheAgent) : option Z :=
  if negb (strlen key =? 0) then None else mjoin (m_mpGetObjects a !! key).

Definition FindObject (o : MetaObject) : M CacheAgent (option Z) :=
  key ← GetObjectKey o;
  match key with
  | None => mret None
  | Some key => gets (FindObject_key key)
  end.

(** [GetObjectPtr]: [operator[]] of the empty key makes a null entry. *)
Definition GetObjectPtr (o : MetaObject) : M CacheAgent (option Z) :=
  key ← GetObjectKey o;
  a ← gets (fun a => a);
  let at_empty :=
    modify (fun a => a <| m_mpGetObjects ::= <["" := mjoin (m_mpGetObjects a !! "")]> |>);;
    share (mjoin (m_mpGetObjects a !! "")) in
  match key with
  | None => at_empty
  | Some key => match m_mpGetObjects a !! key with Some p => share p | None => at_empty end
  end.

Definition FreeObject (key : string) : M CacheAgent unit :=
  a ← gets (fun a => a);
  modify (fun a => a <| m_mpGetObjects ::= delete key |>);;
  release (mjoin (m_mpGetObjects a !! key)).

(** ** Callback data *)

(** [CreateCallBack]: the buffer, or [None] for [-1]. *)
Definition CreateCallBack (type cmd : Z) (typeKey : string) (pCustomCB : option bytes) (pszObjKey : option string)
    : M CacheAgent (option bytes) :=
  let iObjKeyLen := match pszObjKey with Some k => strlen k | None => 0 end in
  let custom := default [] pCustomCB in
  if MAX_OBJ_KEY_SIZE <? iObjKeyLen then mret None
  else
    let mcb_size := if 0 <? iObjKeyLen then HEAD_SIZE + BODY_SIZE else HEAD_SIZE in
    let head := mkHead (u16 mcb_size) (u8 type) (u16 cmd)
                  (char_array MAX_TYPE_KEY_SIZE (STRNCPY MAX_TYPE_KEY_SIZE (c_str typeKey))) in
    let body := if 0 <? iObjKeyLen
                then char_array MAX_OBJ_KEY_SIZE (STRNCPY MAX_OBJ_KEY_SIZE (default "" pszObjKey)) else [] in
    match buffer_Create (Z.of_nat (length custom) + mcb_size) with
    | None => mret None
    | Some b =>
        m ← lift (memcpy_at (iCap b) 0 (head_bytes head ++ body) (pBuffer b));
        m ← (if 0 <? Z.of_nat (length custom) then lift (memcpy_at (iCap b) mcb_size custom m) else mret m);
        mret (Some (take (Z.to_nat (iCap b)) m))
    end.

Definition FreeCallBack (cb : Buffer) : Buffer := buffer_Destroy cb.

(** ** Operations *)

(** [redis->...]: the client must be set. *)
Definition on_client {A} (m : M RedisAgent A) : M CacheAgent A :=
  a ← gets (fun a => a);
  p ← lift (redis a);
  assert p;;
  zoom redis_instance (fun r a => a <| redis_instance := r |>) m.

Section Command.
(** As for [RedisAgent::Command]. *)
Context (async_ret : list RedisEvt -> Z) (rand now : Z).

Definition Get (o : MetaObject) (cb : bytes) : M CacheAgent Z :=
  key ← GetObjectKey o;
  match key with
  | None => mret (-1)
  | Some key =>
      ccb ← CreateCallBack CACHE_TYPE_KV CACHE_CMD_GET (GetTypeName o) (Some cb) None;
      match ccb with
      | None => mret (-1)
      | Some ccb =>
          ret ← on_client (RedisAgent.Get async_ret rand now key ccb);
          mret (if negb (ret =? 0) then -1 else 0)
      end
  end.

Definition Remove (o : MetaObject) (cb : bytes) : M CacheAgent Z :=
  key ← GetObjectKey o;
  match key with
  | None => mret (-1)
  | Some key =>
      ccb ← CreateCallBack CACHE_TYPE_KV CACHE_CMD_REMOVE (GetTypeName o) (Some cb) None;
      match ccb with
      | None => mret (-1)
      | Some ccb =>
          ret ← on_client (RedisAgent.Remove async_ret rand now key ccb);
          mret (if negb (ret =? 0) then -1 else 0)
      end
  end.

Definition Update (o : MetaObject) (cb : bytes) : M CacheAgent Z :=
  key ← GetObjectKey o;
  match key with
  | None => mret (-1)
  | Some key =>
      match buffer_Create (GetPackSize o) with
      | None => mret (-1)
      | Some buffer =>
          let '(ret, buffer) := Pack o buffer in
          if negb (ret =? 0) then mret (-1)
          else
            ccb ← CreateCallBack CACHE_TYPE_KV CACHE_CMD_UPDATE (GetTypeName o) (Some cb) None;
            match ccb with
            | None => mret (-1)
            | Some ccb =>
                ret ← on_client (RedisAgent.Update async_ret rand now key (buffer_data buffer) ccb);
                mret (if negb (ret =? 0) then -1 else ret)
            end
      end
  end.

End Command.

(** [AddListener]: the test by [operator[]] leaves a null entry. *)
Definition AddListener (typeName : string) (ptr : option H) : M CacheAgent Z :=
  a ← gets (fun a => a);
  match mjoin (m_mpListener a !! typeName) with
  | Some _ => mret (-1)
  | None => modify (fun a => a <| m_mpListener ::= <[typeName := ptr]> |>);; mret 0
  end.

Definition Destroy : M CacheAgent Z :=
  modify (fun a => a <| serializer := None |> <| redis := Some false |>);; mret 0.

End CacheAgent.
Arguments CacheAgent {R} H.

(** ** Replies

    A listener is called in the state [W] of the process, which holds the
    agent. *)
Section DispatchResult.
Context {R : Reflection} {H W : Type}.
Context (cache : W -> CacheAgent H) (put_cache : CacheAgent H -> W -> W) (listen : H -> DataCall -> M W Z).

Definition on_cache {A} (m : M (CacheAgent H) A) : M W A := zoom cache put_cache m.

(** The result code of a reply; [REDIS_REPLY_ERROR] is [6]. *)
Definition reply_result (reply : option AsyncReply) (timeout : bool) : Z :=
  match reply with
  | None => if timeout then DATA_TIME_OUT else DATA_OK
  | Some r =>
      match ar_type r with
      | REPLY_ERROR => DATA_REDIS_ERR_START + 6
      | REPLY_NIL => DATA_NO_EXISTS
      | _ => DATA_OK
      end
  end.

(** [DispatchResult]: an entry without a listener, and the type of no reply,
    are dereferenced. *)
Definition DispatchResult (mcb : Head) (reply : option AsyncReply) (ucb : bytes) (timeout : bool) : M W Z :=
  let ret := reply_result reply timeout in
  typeKey ← lift (cstr (szTypeKey mcb));
  w ← gets (fun w => w);
  match m_mpListener (cache w) !! typeKey with
  | None => mret (-1)
  | Some l =>
      if h_cmd mcb =? CACHE_CMD_GET then
        if negb (ret =? 0) then l ← lift l; listen l (OnGet ret None ucb)
        else
          r ← lift reply;
          if bool_decide (ar_type r = REPLY_STRING) then
            lift (serializer (cache w));;
            let len := Z.of_nat (length (ar_str r)) in
            match UnPack (c_str (GetMetaNameSpace +:+ "." +:+ typeKey)) (mkBuffer len len (ar_str r)) with
            | None => l ← lift l; listen l (OnGet DATA_UNPACK_ERROR None ucb)
            | Some obj =>
                h ← on_cache (new_object obj);
                key ← on_cache (GetObjectKey obj);
                key ← lift key;
                on_cache (put_object key h);;
                l ← lift l; listen l (OnGet DATA_OK (Some h) ucb)
            end
          else l ← lift l; listen l (OnGet DATA_INTERNAL_ERR None ucb)
      else if h_cmd mcb =? CACHE_CMD_UPDATE then l ← lift l; listen l (OnUpdate ret ucb)
      else if h_cmd mcb =? CACHE_CMD_INSERT then l ← lift l; listen l (OnInsert ret ucb)
      else if h_cmd mcb =? CACHE_CMD_REMOVE then l ← lift l; listen l (OnRemove ret ucb)
      else mret (-1)
  end.

(** [CachAgentRedisCommandListener::OnCommand]. *)
Definition CachAgentRedisCommandListener_OnCommand (reply : option AsyncReply) (cb : bytes) (timeout : bool)
    : M W Z :=
  head ← lift (read_head cb);
  assert (h_length head <=? Z.of_nat (length cb));;
  DispatchResult head reply (drop (Z.to_nat (h_length head)) cb) timeout;;
  mret 0.

(** The calls of the client's listener among the events of a run. *)
Fixpoint redis_calls (l : list RedisEvt) : M W unit :=
  match l with
  | [] => mret tt
  | ROnCommand reply cb timeout :: l =>
      CachAgentRedisCommandListener_OnCommand reply cb timeout;; redis_calls l
  | _ :: l => redis_calls l
  end.

(** A run of the client with the calls it makes. *)
Definition on_redis {A} (m : M RedisAgent A) : M W A :=
  w ← gets (fun w => w);
  a ← on_cache (zoom redis_instance (fun r a => a <| redis_instance := r |>) m);
  w' ← gets (fun w => w);
  redis_calls (drop (length (redis_trace (redis_instance (cache w)))) (redis_trace (redis_instance (cache w'))));;
  mret a.

(** [Init]: [connect] and [ev_loop] as for [RedisAgent::Init]. *)
Definition Init (ev_loop : nat -> M RedisAgent unit) (connect : RedisAddr -> option Z) (addrList : list RedisAddr)
    (seri : MetaSerializer) : M W Z :=
  ret ← on_redis (RedisAgent.Init ev_loop connect addrList);
  if negb (ret =? 0) then mret (-1)
  else on_cache (modify (fun a => a <| redis := Some true |> <| serializer := Some seri |>));; mret 0.

(** [Polling]: [now] and [k] as for [RedisAgent::Polling]. *)
Definition Polling (ev_loop : nat -> M RedisAgent unit) (iProcPerTick now : Z) (k : nat) : M W Z :=
  w ← gets (fun w => w);
  p ← lift (redis (cache w));
  if negb p then mret (-1)
  else on_redis (RedisAgent.Polling ev_loop iProcPerTick now k);; mret 0.

End DispatchResult.

(** ** Texts of keys *)

(** Texts without a separator are separated by it. *)
Lemma sep_inj c (s t x y : string) :
  free_of c s -> free_of c t -> s +:+ String c x = t +:+ String c y -> s = t /\ x = y.
Proof.
  unfold free_of. revert t. induction s as [|a s IH]; intros [|b t]; cbn [of_str]; rewrite ?not_elem_of_cons.
  - intros _ _ E. by injection E.
  - intros _ [Hb _] E. injection E as -> _. done.
  - intros [Ha _] _ E. injection E as -> _. done.
  - intros [_ Hs] [_ Ht] E. rewrite !app_cons_str in E. injection E as -> E.
    by destruct (IH t Hs Ht E) as [-> ->].
Qed.

Lemma key_loop_prefix `{Reflection} o i pks key r :
  key_loop o i pks key = Some (Some r) -> exists t, r = key +:+ t.
Proof.
  revert i key. induction pks as [|n pks IH]; intros i key E; cbn [key_loop] in E.
  - simplify_eq. exists "". by rewrite app_nil_str.
  - destruct (FindFieldByName _ n) as [fd|]; [|done]. cbn [mbind option_bind] in E.
    destruct (negb _); [done|]. destruct (key_text o fd) as [t|]; [|done].
    apply IH in E as (t' & ->). destruct i; rewrite ?app_assoc_str; eauto.
Qed.

(** ** Runs of the operations *)

(** The key of an object, without the serializer's cache. *)
Definition object_key `{Reflection} (o : MetaObject) : option (option string) :=
  let pks := primary_key (GetDescriptor_of o) in
  if bool_decide (pks = []) then Some None else key_loop o 0 pks (GetTypeName o +:+ DELIM1).

(** The callback data of a command on a key. *)
Definition callback_head (cmd : Z) (name : string) : Head :=
  mkHead HEAD_SIZE CACHE_TYPE_KV cmd (char_array MAX_TYPE_KEY_SIZE name).
Definition callback (cmd : Z) (name : string) (cb : bytes) : bytes := head_bytes (callback_head cmd name) ++ cb.

Lemma length_callback_head cmd name : length (head_bytes (callback_head cmd name)) = 21%nat.
Proof.
  rewrite length_head_bytes. pose proof (length_char_array MAX_TYPE_KEY_SIZE name ltac:(done)) as E.
  unfold callback_head, MAX_TYPE_KEY_SIZE in *. cbn [szTypeKey]. lia.
Qed.

Section runs.
Context {C : CommonMacro} {R : Reflection} {RL : ReflectionLaws} {B0 : BufferLib} {BL : BufferLaws} {H : Type}.
Hypothesis buffer_room : forall n, 0 <= n -> is_Some (buffer_Create n).
Implicit Types (a : CacheAgent H) (o : MetaObject) (name : string).

Lemma GetObjectKey_run o s a k :
  serializer a = Some s -> KeyCache s -> pooled (GetDescriptor_of o) -> object_key o = Some k ->
  wp (GetObjectKey o) (fun r a' => r = k /\ exists s', KeyCache s' /\ a' = a <| serializer := Some s' |>) a.
Proof.
  intros Hs Hc Hp Hk. unfold GetObjectKey, on_serializer. wp_steps. eapply wp_lift; [exact Hs|]. wp_steps.
  destruct (wp_run _ _ _ (GetTypePrimaryKey_run _ _ Hp Hc)) as (r & s' & E & -> & Hc'). rewrite E. wp_steps.
  unfold object_key in Hk. destruct (bool_decide_reflect (primary_key (GetDescriptor_of o) = [])) as [|_].
  - simplify_eq. wp_steps. eauto.
  - eapply wp_lift; [exact Hk|]. eauto.
Qed.

Lemma c_str_no_nul s : no_nul s -> c_str s = s.
Proof.
  unfold no_nul. induction s as [|x s IH]; simpl; [done|]. intros [Hx Hs]%not_elem_of_cons.
  destruct (Z.eqb_spec (byte_of x) 0); [congruence|]. by rewrite IH.
Qed.

Lemma resize_app_exact {A} (x : A) l l' n : length l = n -> resize n x (l ++ l') = l.
Proof. intros <-. rewrite resize_le by (rewrite length_app; lia). by rewrite take_app_length. Qed.

Lemma CreateCallBack_run cmd name cb a :
  0 <= cmd < 2 ^ 16 ->
  wp (CreateCallBack CACHE_TYPE_KV cmd name (Some cb) None)
     (fun r a' => r = Some (callback cmd (STRNCPY MAX_TYPE_KEY_SIZE (c_str name)) cb) /\ a' = a) a.
Proof.
  intros Hcmd. unfold CreateCallBack. cbn [from_option id].
  change (MAX_OBJ_KEY_SIZE <? 0) with false. change (0 <? 0) with false. cbv iota zeta.
  set (key := STRNCPY _ _).
  change (u16 HEAD_SIZE) with HEAD_SIZE. change (u8 CACHE_TYPE_KV) with CACHE_TYPE_KV.
  rewrite (u16_small cmd) by lia. change (mkHead _ _ _ _) with (callback_head cmd key).
  destruct (buffer_room (Z.of_nat (length cb) + HEAD_SIZE)) as [b Hb]; [unfold HEAD_SIZE, MAX_TYPE_KEY_SIZE; lia|].
  rewrite Hb. destruct (buffer_Create_cap _ _ Hb) as [Hcap _].
  pose proof (length_callback_head cmd key) as Hh.
  unfold HEAD_SIZE, MAX_TYPE_KEY_SIZE in Hcap. unfold callback. set (h := head_bytes _) in *. clearbody h.
  assert (memcpy_at (iCap b) 0 (h ++ []) (pBuffer b) = Some (h ++ drop 21 (pBuffer b))) as Hm.
  { unfold memcpy_at. rewrite app_nil_r, Hh. change (0 <=? 0) with true. cbn [andb].
    destruct (Z.leb_spec (0 + Z.of_nat 21) (iCap b)); [|lia]. by rewrite resize_0. }
  wp_steps. eapply wp_lift; [exact Hm|]. wp_steps.
  destruct (Z.ltb_spec 0 (Z.of_nat (length cb))) as [Hp|Hz].
  - eapply wp_lift; [|wp_steps; split; [|done]].
    + unfold memcpy_at, HEAD_SIZE, MAX_TYPE_KEY_SIZE. change (0 <=? 2 + 1 + 2 + 16) with true. cbn [andb].
      destruct (Z.leb_spec (2 + 1 + 2 + 16 + Z.of_nat (length cb)) (iCap b)); [|lia].
      rewrite resize_app_exact by (rewrite Hh; done). reflexivity.
    + rewrite (assoc_L (++)), take_app_length'; [done|]. rewrite length_app, Hh. lia.
  - assert (cb = []) as -> by (destruct cb; [done|simpl in Hz; lia]). wp_steps. split; [|done].
    rewrite app_nil_r, take_app_length'; [done|]. rewrite Hh. simpl in Hcap. lia.
Qed.

(** A command is sent with the callback data of its type. *)
Lemma on_client_Command async_ret rand now cb args a :
  redis a = Some true -> PoolInv (redis_instance a) -> redisCtxList (redis_instance a) <> [] ->
  async_ret (redis_trace (redis_instance a)) = 0 ->
  wp (on_client (Command async_ret rand now cb args)) (fun r a' => r = 0 /\
    exists i rcc, m_mpCallBackPool (redis_instance a) !! i = None
      /\ a' = a <| redis_instance := redis_instance a
                    <| redis_trace ::= fun l => l ++ [RSend (rc_ctx rcc) args i] |>
                    <| m_mpCallBackPool ::= <[i := mkRedisAgentCallBack cb (u32 now)]> |>
                    <| m_dwCallBackSeq := u32 (i + 1) |> |>) a.
Proof.
  intros Hr Hp Hne Ha. unfold on_client. wp_steps. eapply wp_lift; [exact Hr|]. wp_steps; [done|]. apply wp_zoom.
  eapply wp_mono; [by apply Command_run|]. intros r a' (-> & i & rcc & Hi & _ & ->). split; [done|]. eauto.
Qed.

End runs.

(** ** A reply reaches the dispatcher *)

Lemma cstr_callback cmd name cb : cstr (callback cmd name cb) = Some (String (of_byte 21) "").
Proof. reflexivity. Qed.

Lemma read_head_callback cmd name cb : read_head (callback cmd name cb) = Some (callback_head cmd name).
Proof. apply read_head_bytes. by apply length_char_array. Qed.

Lemma drop_callback cmd name cb : drop (Z.to_nat (h_length (callback_head cmd name))) (callback cmd name cb) = cb.
Proof. unfold callback. apply drop_app_length'. by rewrite length_callback_head. Qed.

Section replies.
Context {R : Reflection} {H W : Type}.
Context (cache : W -> CacheAgent H) (put_cache : CacheAgent H -> W -> W) (listen : H -> DataCall -> M W Z).
Hypothesis cache_put : forall a w, cache (put_cache a w) = a.

(** The state in which the listener of a command runs: the command is no longer
    in flight. *)
Definition answered (i : Z) (reply : option AsyncReply) (cb : bytes) (a : CacheAgent H) : CacheAgent H :=
  a <| redis_instance ::= fun r => r <| redis_trace ::= fun l => l ++ [ROnCommand reply cb false] |>
                                     <| m_mpCallBackPool ::= delete i |> |>.

Lemma listener_eq cmd name cb reply timeout w :
  CachAgentRedisCommandListener_OnCommand cache put_cache listen reply (callback cmd name cb) timeout w
  = (_ ← DispatchResult cache put_cache listen (callback_head cmd name) reply cb timeout; mret 0) w.
Proof.
  unfold CachAgentRedisCommandListener_OnCommand. rewrite read_head_callback. cbn [lift].
  unfold mbind at 1, M_bind at 1, mret at 1, M_ret at 1. unfold assert.
  destruct (Z.leb_spec (h_length (callback_head cmd name)) (Z.of_nat (length (callback cmd name cb)))) as [_|Hlt].
  - by rewrite drop_callback.
  - exfalso. unfold callback in Hlt. rewrite length_app, length_callback_head in Hlt.
    change (h_length (callback_head cmd name)) with 21 in Hlt. lia.
Qed.

(** The reply of a command that is in flight is the dispatch of its callback. *)
Lemma reply_eq cmd name cb t c reply i w :
  let r := redis_instance (cache w) in
  m_mpCallBackPool r !! i = Some (mkRedisAgentCallBack (callback cmd name cb) t) -> m_listener r = true ->
  on_redis cache put_cache listen (OnCommand c reply i) w
  = (_ ← DispatchResult cache put_cache listen (callback_head cmd name) reply cb false; mret tt)
      (put_cache (answered i reply (callback cmd name cb) (cache w)) w).
Proof.
  intros r Hi Hl. set (a := answered i reply (callback cmd name cb) (cache w)).
  assert (OnCommand c reply i r = Some (tt, redis_instance a)) as E.
  { unfold OnCommand, FindCallBack, mbind, M_bind, gets. rewrite Hi. cbn [cb_buf]. rewrite cstr_callback.
    cbn [lift]. unfold mret at 1, M_ret at 1. cbv iota beta. change (has_sub SELECTDB_CB _) with false. cbv iota.
    unfold listener_OnCommand, mbind, M_bind, gets. by rewrite Hl. }
  unfold on_redis. unfold mbind at 1, M_bind at 1, gets at 1.
  erewrite bind_run; [|unfold on_cache, zoom; fold r; rewrite E; reflexivity].
  unfold mbind at 1, M_bind at 1, gets at 1. change (cache w <| redis_instance := redis_instance a |>) with a.
  rewrite cache_put.
  change (redis_trace (redis_instance a)) with (redis_trace r ++ [ROnCommand reply (callback cmd name cb) false]).
  fold r. rewrite drop_app_length. cbn [redis_calls]. unfold mbind at 1 2, M_bind at 1 2. rewrite listener_eq.
  unfold mbind, M_bind. by destruct (DispatchResult _ _ _ _ _ _ _ _) as [[]|].
Qed.

Lemma reply_run cmd name cb t c reply i w Q :
  let r := redis_instance (cache w) in
  m_mpCallBackPool r !! i = Some (mkRedisAgentCallBack (callback cmd name cb) t) -> m_listener r = true ->
  wp (DispatchResult cache put_cache listen (callback_head cmd name) reply cb false) (fun _ => Q tt)
     (put_cache (answered i reply (callback cmd name cb) (cache w)) w) ->
  wp (on_redis cache put_cache listen (OnCommand c reply i)) Q w.
Proof.
  intros r Hi Hl HQ. unfold wp. erewrite reply_eq by done. by apply (wp_bind _ (fun _ => mret tt)).
Qed.

End replies.
