(* ===== verification/CacheStore.v ===== *)
(** * The cache agent as a store of objects

    The cache agent, its client and a Redis server together are a map from keys
    to objects; what happens to commands in flight when a connection breaks; and
    when the keys of two objects are distinct. *)

From stdpp Require Import functions.
From S2P Require Import Prelude CString Extern ConfigCenter RedisAgent MetaSerializer DataCommon CacheAgent.

(** ** The server

    The Redis server is outside the repository: [exec] runs a command, [kept]
    are the strings it keeps. *)
Class CacheServer := {
  server : Type;
  exec : list bytes -> server -> AsyncReply * server;
  kept : server -> gmap bytes bytes
}.

(** What the Redis documentation says of [GET], [SET] and [DEL]. *)
Class CacheServerLaws `{CacheServer} : Prop := {
  exec_GET_some : forall k v s, kept s !! k = Some v ->
    ar_type (exec [of_str "GET"; k] s).1 = REPLY_STRING /\ ar_str (exec [of_str "GET"; k] s).1 = v;
  exec_GET_none : forall k s, kept s !! k = None -> ar_type (exec [of_str "GET"; k] s).1 = REPLY_NIL;
  exec_GET_kept : forall k s, kept (exec [of_str "GET"; k] s).2 = kept s;
  exec_SET_type : forall k v s, ar_type (exec [of_str "SET"; k; v] s).1 = REPLY_STATUS;
  exec_SET_kept : forall k v s, kept (exec [of_str "SET"; k; v] s).2 = <[k := v]> (kept s);
  exec_DEL_type : forall k s, ar_type (exec [of_str "DEL"; k] s).1 = REPLY_INTEGER;
  exec_DEL_kept : forall k s, kept (exec [of_str "DEL"; k] s).2 = delete k (kept s)
}.

(** What a listener is told, with the object it is given. *)
Inductive Told {R : Reflection} (H : Type) :=
| TGet (l : H) (ret : Z) (obj : option MetaObject) (cb : bytes)
| TInsert (l : H) (ret : Z) (cb : bytes)
| TRemove (l : H) (ret : Z) (cb : bytes)
| TUpdate (l : H) (ret : Z) (cb : bytes).
Arguments TGet {R H}.
Arguments TInsert {R H}.
Arguments TRemove {R H}.
Arguments TUpdate {R H}.

Inductive Op {R : Reflection} :=
| OpGet (o : MetaObject) (cb : bytes)
| OpUpdate (o : MetaObject) (cb : bytes)
| OpRemove (o : MetaObject) (cb : bytes).

Definition op_obj {R : Reflection} (op : Op) : MetaObject :=
  match op with OpGet o _ | OpUpdate o _ | OpRemove o _ => o end.

(** A process with the agent, the servers its connections lead to, and listeners
    that write down what they are told. *)
Record World {R : Reflection} {S : CacheServer} (H : Type) := mkWorld {
  w_cache : CacheAgent H; w_log : list (Told H); w_srv : nat -> server
}.
Arguments mkWorld {R S H}.
Arguments w_cache {R S H}.
Arguments w_log {R S H}.
Arguments w_srv {R S H}.

Section world.
Context {C : CommonMacro} {R : Reflection} {B0 : BufferLib} {S : CacheServer} {H : Type}.

#[global] Instance eta_World : Eta (World H) := fun w => mkWorld (w_cache w) (w_log w) (w_srv w).

Definition put_cache (a : CacheAgent H) (w : World H) : World H := w <| w_cache := a |>.

Definition told (l : H) (c : DataCall) (w : World H) : list (Told H) :=
  match c with
  | OnGet ret p cb => [TGet l ret (h ← p; fst <$> objs (w_cache w) !! h) cb]
  | OnInsert ret cb => [TInsert l ret cb]
  | OnRemove ret cb => [TRemove l ret cb]
  | OnUpdate ret cb => [TUpdate l ret cb]
  | OnCreateTable _ _ => []
  end.

Definition note (l : H) (c : DataCall) : M (World H) Z :=
  modify (fun w => w <| w_log ::= fun t => t ++ told l c w |>);; mret 0.

(** An operation at a time and with a random number. *)
Definition run_op (async_ret : list RedisEvt -> Z) (rand now : Z) (op : Op) : M (CacheAgent H) Z :=
  match op with
  | OpGet o cb => Get async_ret rand now o cb
  | OpUpdate o cb => Update async_ret rand now o cb
  | OpRemove o cb => Remove async_ret rand now o cb
  end.

(** The server that a connection leads to. The client sends each command on a
    connection it picks with [rand()]. *)
Context (route : Z -> nat).

(** The server at the other end of the connection that the last command was
    sent on answers it there. *)
Definition answer : M (World H) unit :=
  w ← gets (fun w => w);
  match last (redis_trace (redis_instance (w_cache w))) with
  | Some (RSend c args i) =>
      let '(r, s) := exec args (w_srv w (route c)) in
      modify (fun w => w <| w_srv ::= <[route c := s]> |>);;
      on_redis w_cache put_cache note (OnCommand c (Some r) i)
  | _ => mret tt
  end.

(** Operations, each accepted and answered before the next; with the values of
    [rand()] and the times. *)
Definition one_op (async_ret : list RedisEvt -> Z) (rand now : Z) (op : Op) : M (World H) unit :=
  ret ← on_cache w_cache put_cache (run_op async_ret rand now op);
  assert (ret =? 0);;
  answer.

Fixpoint run_ops (async_ret : list RedisEvt -> Z) (ops : list (Op * (Z * Z))) : M (World H) unit :=
  match ops with
  | [] => mret tt
  | (op, (rand, now)) :: ops => one_op async_ret rand now op;; run_ops async_ret ops
  end.

(** *** The abstract cache *)

Definition key_of (o : MetaObject) : string := default "" (mjoin (object_key o)).

Definition spec_op (l : string -> H) (op : Op) (m : gmap string MetaObject) : Told H * gmap string MetaObject :=
  let k := key_of (op_obj op) in
  let l := l (GetTypeName (op_obj op)) in
  match op with
  | OpGet _ cb => (TGet l (match m !! k with Some _ => DATA_OK | None => DATA_NO_EXISTS end) (m !! k) cb, m)
  | OpUpdate o cb => (TUpdate l DATA_OK cb, <[k := o]> m)
  | OpRemove _ cb => (TRemove l DATA_OK cb, delete k m)
  end.

Fixpoint spec_ops (l : string -> H) (ops : list Op) (m : gmap string MetaObject)
    : list (Told H) * gmap string MetaObject :=
  match ops with
  | [] => ([], m)
  | op :: ops =>
      let '(t, m) := spec_op l op m in
      let '(ts, m) := spec_ops l ops m in
      (t :: ts, m)
  end.

(** *** The relation *)

(** An object of a type of the name space, with a key, whose name fits. *)
Record cacheable (o : MetaObject) : Prop := {
  c_desc : FindMessageTypeByName (GetMetaNameSpace +:+ "." +:+ GetTypeName o) = Some (GetDescriptor_of o);
  c_new : is_Some (prototype_New (GetDescriptor_of o));
  c_nul : no_nul (GetTypeName o);
  c_colon : free_of ":" (GetTypeName o);
  c_fits : strlen (GetTypeName o) < MAX_TYPE_KEY_SIZE;
  c_key : object_key o = Some (Some (key_of o))
}.

(** What is stored has its required fields. *)
Definition storable (op : Op) : Prop :=
  cacheable (op_obj op) /\ match op with OpUpdate o _ => IsInitialized o = true | _ => True end.

(** An agent in service. *)
Record Ready (l : string -> H) (names : list string) (a : CacheAgent H) : Prop := {
  r_ser : exists s, serializer a = Some s /\ KeyCache s;
  r_redis : redis a = Some true;
  r_pool : PoolInv (redis_instance a);
  r_ctx : redisCtxList (redis_instance a) <> [];
  r_listener : m_listener (redis_instance a) = true;
  r_names : forall n, n ∈ names -> m_mpListener a !! n = Some (Some (l n));
  r_objs : forall k h, m_mpGetObjects a !! k = Some (Some h) -> is_Some (objs a !! h) /\ h < next_obj a;
  r_inj : forall k k' h, m_mpGetObjects a !! k = Some (Some h) -> m_mpGetObjects a !! k' = Some (Some h) -> k = k'
}.

(** The server keeps the objects of the map, serialised. *)
Record Keeps (m : gmap string MetaObject) (s : server) : Prop := {
  k_kept : forall k, kept s !! of_str k = obj_serialize <$> m !! k;
  k_objs : forall k o, m !! k = Some o -> cacheable o /\ IsInitialized o = true /\ key_of o = k
}.

End world.

Section refinement.
Context {C : CommonMacro} {R : Reflection} {RL : ReflectionLaws} {B0 : BufferLib} {BL : BufferLaws}.
Context {S : CacheServer} {SL : CacheServerLaws} {H : Type}.
Hypothesis STRNCPY_fits : forall cap s, strlen s < cap -> STRNCPY cap s = s.
Hypothesis buffer_room : forall n, 0 <= n -> is_Some (buffer_Create n).
Context (async_ret : list RedisEvt -> Z).
Hypothesis async_ok : forall t, async_ret t = 0.
Context (l : string -> H) (names : list string).
Implicit Types (a : CacheAgent H) (w : World H) (o : MetaObject).

Lemma cacheable_pooled o : cacheable o -> pooled (GetDescriptor_of o).
Proof. intros Ho. unfold pooled. rewrite (pool_full_name _ _ (c_desc o Ho)). apply (c_desc o Ho). Qed.

Definition op_args (op : Op) : list bytes :=
  match op with
  | OpGet o _ => [of_str "GET"; of_str (key_of o)]
  | OpUpdate o _ => [of_str "SET"; of_str (key_of o); obj_serialize o]
  | OpRemove o _ => [of_str "DEL"; of_str (key_of o)]
  end.
Definition op_cmd (op : Op) : Z :=
  match op with OpGet _ _ => CACHE_CMD_GET | OpUpdate _ _ => CACHE_CMD_UPDATE | OpRemove _ _ => CACHE_CMD_REMOVE end.
Definition op_cb (op : Op) : bytes := match op with OpGet _ cb | OpUpdate _ cb | OpRemove _ cb => cb end.

(** The agent after the command of an operation was sent. *)
Definition sent (op : Op) (now : Z) (i c : Z) (s : MetaSerializer) a : CacheAgent H :=
  a <| serializer := Some s |>
    <| redis_instance ::= fun r =>
         r <| redis_trace ::= fun t => t ++ [RSend c (op_args op) i] |>
           <| m_mpCallBackPool ::=
                <[i := mkRedisAgentCallBack (callback (op_cmd op) (GetTypeName (op_obj op)) (op_cb op)) (u32 now)]> |>
           <| m_dwCallBackSeq := u32 (i + 1) |> |>.

Definition sent_by (op : Op) (now : Z) a (r : Z) (a' : CacheAgent H) : Prop :=
  r = 0 /\ exists i c s, KeyCache s /\ m_mpCallBackPool (redis_instance a) !! i = None /\ a' = sent op now i c s a.

(** The common end of the operations: the callback data, then the command. *)
Lemma command_run op rand now a s f :
  Ready l names a -> cacheable (op_obj op) -> KeyCache s ->
  f 0 = 0 ->
  wp (ccb ← CreateCallBack CACHE_TYPE_KV (op_cmd op) (GetTypeName (op_obj op)) (Some (op_cb op)) None;
      match ccb with
      | None => mret (-1)
      | Some ccb => ret ← on_client (Command async_ret rand now ccb (op_args op)); mret (f ret)
      end) (sent_by op now a) (a <| serializer := Some s |>).
Proof.
  intros Ha Ho Hs Hf. apply wp_bind.
  eapply wp_mono; [apply CreateCallBack_run; [done|by destruct op]|].
  intros r a' [-> ->]. rewrite (c_str_no_nul _ (c_nul _ Ho)), (STRNCPY_fits _ _ (c_fits _ Ho)). wp_steps. eapply wp_mono.
  { apply on_client_Command; destruct Ha; auto. }
  intros r a' (-> & i & rcc & Hi & ->). wp_steps. split; [done|]. by exists i, (rc_ctx rcc), s.
Qed.

Lemma run_op_run op rand now a :
  Ready l names a -> cacheable (op_obj op) -> wp (run_op async_ret rand now op) (sent_by op now a) a.
Proof.
  intros Ha Ho. pose proof (r_ser _ _ _ Ha) as (s & Hs & Hc). pose proof (cacheable_pooled _ Ho) as Hp.
  destruct op as [o cb|o cb|o cb]; cbn [run_op op_obj] in *; unfold Get, Update, Remove; apply wp_bind;
    (eapply wp_mono; [by eapply GetObjectKey_run; [..|apply c_key]|]); intros r a' (-> & s' & Hs' & ->).
  - by apply (command_run (OpGet o cb) _ _ _ _ (fun ret => if negb (ret =? 0) then -1 else 0)).
  - destruct (buffer_room (obj_ByteSize o)) as [b Hb]; [pose proof (length_obj_serialize o); lia|].
    unfold GetPackSize. rewrite Hb. destruct (buffer_Create_cap _ _ Hb) as [Hcap _]. unfold Pack, obj_SerializeToArray.
    destruct (Z.leb_spec (obj_ByteSize o) (iCap b)); [|lia]. cbn [Z.eqb negb].
    assert (buffer_data (b <| pBuffer := obj_serialize o |> <| iUsed := obj_ByteSize o |>) = obj_serialize o) as ->.
    { unfold buffer_data. cbn. apply take_ge. pose proof (length_obj_serialize o). lia. }
    by apply (command_run (OpUpdate o cb) _ _ _ _ (fun ret => if negb (ret =? 0) then -1 else ret)).
  - by apply (command_run (OpRemove o cb) _ _ _ _ (fun ret => if negb (ret =? 0) then -1 else 0)).
Qed.

(** *** Replies *)

(** Only the fields that [Ready] speaks of matter. *)
Lemma Ready_answered op now i c s r cb a :
  Ready l names a -> KeyCache s -> m_mpCallBackPool (redis_instance a) !! i = None ->
  Ready l names (answered i r cb (sent op now i c s a)).
Proof.
  intros [] Hs Hi. split; try done; [by eauto|]. destruct r_pool0 as [_ Hz]. split; cbn.
  - apply u32_bound.
  - by rewrite delete_insert_id.
Qed.

Lemma put_object_run k h a :
  Ready l names a -> is_Some (objs a !! h) -> h < next_obj a -> (forall k', m_mpGetObjects a !! k' <> Some (Some h)) ->
  wp (put_object k h) (fun _ a' => Ready l names a' /\ objs a' !! h = objs a !! h) a.
Proof.
  intros Ha Hh Hn Hf. unfold put_object. wp_steps.
  assert (forall a', (forall f, f <> h -> (exists k', k' <> k /\ m_mpGetObjects a !! k' = Some (Some f)) ->
      objs a' !! f = objs a !! f) -> objs a' !! h = objs a !! h ->
    a' = a <| m_mpGetObjects ::= <[k := Some h]> |> <| objs := objs a' |> -> Ready l names a') as Hgo.
  { intros a' Hk Hh' Ea'. destruct Ha. rewrite Ea'. split; try done; cbn.
    - intros k' h' [[<- [= <-]]|[Hne Hl]]%lookup_insert_Some.
      + by rewrite Hh'.
      + rewrite Hk by (eauto; intros ->; by eapply Hf). by apply r_objs0 in Hl.
    - intros k1 k2 f. rewrite !lookup_insert_Some. naive_solver. }
  destruct (m_mpGetObjects a !! k) as [[old|]|] eqn:Ek; cbn [mjoin option_join release].
  - destruct (r_objs _ _ _ Ha _ _ Ek) as [[on Hon] _].
    assert (old <> h) as Hold by (intros ->; by eapply Hf).
    wp_steps. eapply wp_lift; [exact Hon|]. wp_steps.
    set (a' := _ <| objs ::= _ |>).
    assert (forall f, f <> old -> objs a' !! f = objs a !! f) as Hsame.
    { intros f Hf'. subst a'. cbn. destruct on as [x [|[|n]]]; cbn; by simplify_map_eq. }
    split; [|by apply Hsame]. apply Hgo; [|by apply Hsame|done].
    intros f Hf' (k' & Hk' & Hl). apply Hsame. intros ->. apply Hk'. by eapply (r_inj _ _ _ Ha).
  - wp_steps. split; [|done]. by apply Hgo.
  - wp_steps. split; [|done]. by apply Hgo.
Qed.

Definition noted (t : Told H) w (w' : World H) : Prop :=
  Ready l names (w_cache w') /\ w_log w' = w_log w ++ [t] /\ w_srv w' = w_srv w.

(** The first steps of [DispatchResult]: the type's listener is found. *)
Lemma cstr_type o cmd : cacheable o -> cstr (szTypeKey (callback_head cmd (GetTypeName o))) = Some (GetTypeName o).
Proof. intros Ho. apply cstr_char_array; [by apply c_nul|by apply c_fits]. Qed.

Lemma dispatch_done op reply w :
  Ready l names (w_cache w) -> cacheable (op_obj op) -> GetTypeName (op_obj op) ∈ names ->
  op_cmd op <> CACHE_CMD_GET -> reply_result reply false = DATA_OK ->
  wp (DispatchResult w_cache put_cache note (callback_head (op_cmd op) (GetTypeName (op_obj op))) reply (op_cb op) false)
     (fun _ => noted (match op with
                      | OpGet _ cb => TGet (l (GetTypeName (op_obj op))) DATA_OK None cb
                      | OpUpdate _ cb => TUpdate (l (GetTypeName (op_obj op))) DATA_OK cb
                      | OpRemove _ cb => TRemove (l (GetTypeName (op_obj op))) DATA_OK cb
                      end) w) w.
Proof.
  intros Hw Ho Hin Hcmd Hr. unfold DispatchResult. wp_steps. eapply wp_lift; [by apply cstr_type|]. wp_steps.
  rewrite (r_names _ _ _ Hw _ Hin), Hr. destruct op as [o cb|o cb|o cb]; [done| |]; cbn; unfold note; wp_steps; done.
Qed.

Lemma dispatch_get_none o cb reply w :
  Ready l names (w_cache w) -> cacheable o -> GetTypeName o ∈ names -> ar_type reply = REPLY_NIL ->
  wp (DispatchResult w_cache put_cache note (callback_head CACHE_CMD_GET (GetTypeName o)) (Some reply) cb false)
     (fun _ => noted (TGet (l (GetTypeName o)) DATA_NO_EXISTS None cb) w) w.
Proof.
  intros Hw Ho Hin Hr. unfold DispatchResult. wp_steps. eapply wp_lift; [by apply cstr_type|]. wp_steps.
  rewrite (r_names _ _ _ Hw _ Hin). cbn [reply_result]. rewrite Hr. cbn. unfold note. wp_steps. done.
Qed.

(** [UnPack] of what the server keeps of an object. *)
Lemma UnPack_kept o :
  cacheable o -> IsInitialized o = true ->
  UnPack (c_str (GetMetaNameSpace +:+ "." +:+ GetTypeName o))
    (mkBuffer (Z.of_nat (length (obj_serialize o))) (Z.of_nat (length (obj_serialize o))) (obj_serialize o)) = Some o.
Proof.
  intros Ho Hinit. rewrite c_str_no_nul.
  - unfold UnPack, NewObject. rewrite (c_desc o Ho). destruct (c_new o Ho) as [o' Ho']. cbn. rewrite Ho'. cbn.
    unfold buffer_data. cbn. rewrite take_ge by lia. by eapply parse_serialize_obj.
  - pose proof (c_nul o Ho) as Hn. unfold no_nul. rewrite !of_str_app. rewrite !not_elem_of_app.
    split_and!; [..|done]; cbn; compute_done.
Qed.

Lemma dispatch_get_some o o1 cb reply w :
  Ready l names (w_cache w) -> cacheable o1 -> IsInitialized o1 = true -> GetTypeName o1 = GetTypeName o ->
  GetTypeName o ∈ names -> ar_type reply = REPLY_STRING -> ar_str reply = obj_serialize o1 ->
  wp (DispatchResult w_cache put_cache note (callback_head CACHE_CMD_GET (GetTypeName o)) (Some reply) cb false)
     (fun _ => noted (TGet (l (GetTypeName o)) DATA_OK (Some o1) cb) w) w.
Proof.
  intros Hw Ho Hinit <- Hin Hr Hstr. unfold DispatchResult. wp_steps. eapply wp_lift; [by apply cstr_type|]. wp_steps.
  rewrite (r_names _ _ _ Hw _ Hin). cbn [reply_result]. rewrite Hr. cbn [Z.eqb negb DATA_OK h_cmd callback_head].
  destruct (r_ser _ _ _ Hw) as (s & Hs & Hc). change (CACHE_CMD_GET =? CACHE_CMD_GET) with true. cbv iota. wp_steps.
  eapply wp_lift; [reflexivity|]. rewrite bool_decide_true by done. wp_steps. eapply wp_lift; [exact Hs|].
  rewrite Hstr, UnPack_kept by done. unfold on_cache, new_object. wp_steps.
  apply wp_zoom. wp_steps. set (a1 := _ <| next_obj ::= _ |>).
  apply wp_zoom. eapply wp_mono; [by apply (GetObjectKey_run o1 s); [|..|apply cacheable_pooled|apply c_key]|].
  intros r a2 (-> & s' & Hs' & ->). wp_steps. eapply wp_lift; [reflexivity|]. wp_steps. apply wp_zoom.
  eapply wp_mono; [apply (put_object_run (key_of o1) (next_obj (w_cache w))); cbn|].
  - destruct Hw. split; try done; cbn.
    + by eauto.
    + intros k h Hk. destruct (r_objs0 k h Hk) as [? ?]. rewrite lookup_insert_ne by lia. split; [done|lia].
  - by rewrite lookup_insert_eq.
  - lia.
  - intros k Hk. destruct (r_objs _ _ _ Hw _ _ Hk). lia.
  - intros [] a3 [Ha3 Hobj]. wp_steps. eapply wp_lift; [reflexivity|]. unfold note. wp_steps.
    split; [exact Ha3|]. split; [|reflexivity]. cbn. rewrite Hobj. cbn. by rewrite lookup_insert_eq.
Qed.

(** *** One operation *)

Lemma key_of_type o o' : cacheable o -> cacheable o' -> key_of o = key_of o' -> GetTypeName o = GetTypeName o'.
Proof.
  assert (forall o, cacheable o -> exists t, key_of o = GetTypeName o +:+ String ":" t) as Hk.
  { intros x Hx. pose proof (c_key x Hx) as E. unfold object_key in E.
    destruct (bool_decide _); [done|]. apply key_loop_prefix in E as (t & ->). exists t. apply app_assoc_str. }
  intros Ho Ho' E. destruct (Hk o Ho) as (t & Et). destruct (Hk o' Ho') as (t' & Et').
  rewrite Et, Et' in E. apply sep_inj in E as [? _]; auto using c_colon.
Qed.

Lemma answer_run route op now i c s w Q :
  let a := sent op now i c s (w_cache w) in
  let r := exec (op_args op) (w_srv w (route c)) in
  Ready l names (w_cache w) -> KeyCache s -> m_mpCallBackPool (redis_instance (w_cache w)) !! i = None ->
  (forall w', Ready l names (w_cache w') -> w_log w' = w_log w -> w_srv w' = <[route c := r.2]> (w_srv w) ->
    wp (DispatchResult w_cache put_cache note (callback_head (op_cmd op) (GetTypeName (op_obj op))) (Some r.1)
          (op_cb op) false) (fun _ => Q tt) w') ->
  wp (answer route) Q (put_cache a w).
Proof.
  intros a r Hw Hs Hi HQ. unfold answer. wp_steps.
  change (last _) with (last (redis_trace (redis_instance (w_cache w)) ++ [RSend c (op_args op) i])).
  rewrite last_snoc. change (w_srv (put_cache a w)) with (w_srv w). fold r. destruct r as [r s1]. wp_steps.
  eapply (reply_run w_cache put_cache note).
  - done.
  - apply lookup_insert_eq.
  - apply (r_listener _ _ _ Hw).
  - apply HQ; [|done|done]. by apply Ready_answered.
Qed.

(** The server follows the map. *)
Lemma Keeps_GET k m s : Keeps m s -> Keeps m (exec [of_str "GET"; of_str k] s).2.
Proof. intros [Hk Ho]. split; [|done]. intros k'. by rewrite exec_GET_kept. Qed.

Lemma Keeps_SET o m s :
  cacheable o -> IsInitialized o = true -> Keeps m s -> Keeps (<[key_of o := o]> m) (exec [of_str "SET"; of_str (key_of o); obj_serialize o] s).2.
Proof.
  intros Hc Hinit [Hk Ho]. split.
  - intros k. rewrite exec_SET_kept. destruct (decide (k = key_of o)) as [->|Hne]; [by rewrite !lookup_insert_eq|].
    rewrite !lookup_insert_ne by (try (intros E; apply (inj of_str) in E); congruence). done.
  - intros k o1 [[<- <-]|[_ E]]%lookup_insert_Some; [done|by apply Ho].
Qed.

Lemma Keeps_DEL k m s : Keeps m s -> Keeps (delete k m) (exec [of_str "DEL"; of_str k] s).2.
Proof.
  intros [Hk Ho]. split.
  - intros k'. rewrite exec_DEL_kept. destruct (decide (k' = k)) as [->|Hne]; [by rewrite !lookup_delete_eq|].
    rewrite !lookup_delete_ne by (try (intros E; apply (inj of_str) in E); congruence). done.
  - intros k' o1 [_ E]%lookup_delete_Some. by apply Ho.
Qed.

(** Every connection leads to one server. *)
Context (route : Z -> nat) (n0 : nat).
Hypothesis one_server : forall c, route c = n0.

(** One operation and its answer: what the abstract cache says. *)
Lemma op_refines op rand now m w :
  Ready l names (w_cache w) -> Keeps m (w_srv w n0) -> storable op -> GetTypeName (op_obj op) ∈ names ->
  wp (one_op route async_ret rand now op)
     (fun _ w' => Ready l names (w_cache w') /\ w_log w' = w_log w ++ [(spec_op l op m).1]
                  /\ Keeps (spec_op l op m).2 (w_srv w' n0)) w.
Proof.
  intros Hw Hm [Ho Hinit] Hin. unfold one_op, on_cache. wp_steps. apply wp_zoom.
  eapply wp_mono; [by apply run_op_run|]. intros r a' (-> & i & c & s & Hs & Hi & ->). wp_steps; [done|].
  apply answer_run; [done..|]. rewrite one_server. intros w' Hw' Hlog Hsrv. pose proof Hm as [Hk Hob].
  apply (f_equal (fun f => f n0)) in Hsrv. rewrite fn_lookup_insert in Hsrv.
  destruct op as [o cb|o cb|o cb]; cbn [op_obj op_args op_cmd op_cb spec_op fst snd] in *.
  - destruct (m !! key_of o) as [o1|] eqn:Em.
    + destruct (Hob _ _ Em) as (Ho1 & Hi1 & Hk1). pose proof (Hk (key_of o)) as Hget. rewrite Em in Hget.
      destruct (exec_GET_some _ _ _ Hget) as [Ht Hv].
      eapply wp_mono; [eapply (dispatch_get_some o o1); [done|done|done|by apply key_of_type|done|done|done]|].
      intros _ w2 (H1 & H2 & H3). rewrite H2, H3, Hlog, Hsrv. split_and!; [done|done|]. by apply Keeps_GET.
    + pose proof (Hk (key_of o)) as Hget. rewrite Em in Hget. apply exec_GET_none in Hget.
      eapply wp_mono; [by eapply (dispatch_get_none o)|].
      intros _ w2 (H1 & H2 & H3). rewrite H2, H3, Hlog, Hsrv. split_and!; [done|done|]. by apply Keeps_GET.
  - eapply wp_mono; [eapply (dispatch_done (OpUpdate o cb)); try done; cbn [reply_result]; by rewrite exec_SET_type|].
    intros _ w2 (H1 & H2 & H3). rewrite H2, H3, Hlog, Hsrv. split_and!; [done|done|]. by apply Keeps_SET.
  - eapply wp_mono; [eapply (dispatch_done (OpRemove o cb)); try done; cbn [reply_result]; by rewrite exec_DEL_type|].
    intros _ w2 (H1 & H2 & H3). rewrite H2, H3, Hlog, Hsrv. split_and!; [done|done|]. by apply Keeps_DEL.
Qed.

(** C16. The cache agent, its client and the server together are a map from keys to
    objects. When all connections of the client lead to one server, and for
    operations on objects of registered types, of which each is accepted by the
    client library and answered before the next, and whose stored objects have
    their required fields: every call of a listener is the one that the map
    calls for, an object read back is the one stored last under its key, the
    server keeps the objects of the map, and the agent stays in service. *)
Theorem cache_refines_map ops m w :
  Ready l names (w_cache w) -> Keeps m (w_srv w n0) ->
  Forall (fun op => storable op /\ GetTypeName (op_obj op) ∈ names) (ops.*1) ->
  exists w', run_ops route async_ret ops w = Some (tt, w') /\ w_log w' = w_log w ++ (spec_ops l (ops.*1) m).1
    /\ Keeps (spec_ops l (ops.*1) m).2 (w_srv w' n0) /\ Ready l names (w_cache w').
Proof.
  intros Hw Hm Hops. apply wp_run_unit. revert m w Hw Hm.
  induction ops as [|[op [rand now]] ops IH]; intros m w Hw Hm; cbn [run_ops spec_ops fmap list_fmap fst].
  { apply wp_ret. by rewrite app_nil_r. }
  apply Forall_cons in Hops as [[Ho Hin] Hops].
  apply wp_bind. eapply wp_mono; [by apply op_refines|]. intros [] w1 (Hw1 & Hlog & Hm1).
  destruct (spec_op l op m) as [t m1]. eapply wp_mono; [by apply (IH Hops m1)|].
  intros [] w2 (Hlog2 & Hm2 & Hw2). destruct (spec_ops l (ops.*1) m1) as [ts m2]. cbn [fst snd] in *.
  split_and!; [|done|done]. by rewrite Hlog2, Hlog, <- (assoc_L (++)).
Qed.

(** *** A connection that breaks *)

(** C38. A connection that breaks with a command in flight answers it without a
    reply. For a read the type of the reply is read through a null pointer; a
    write or a removal is reported done, although nothing says that the server
    has carried it out. *)
Theorem lost_connection op rand now c w :
  Ready l names (w_cache w) -> cacheable (op_obj op) -> GetTypeName (op_obj op) ∈ names ->
  exists a i c0, run_op async_ret rand now op (w_cache w) = Some (0, a)
    /\ last (redis_trace (redis_instance a)) = Some (RSend c0 (op_args op) i)
    /\ match op with
       | OpGet _ _ => on_redis w_cache put_cache note (OnCommand c None i) (put_cache a w) = None
       | OpUpdate o cb =>
           exists w', on_redis w_cache put_cache note (OnCommand c None i) (put_cache a w) = Some (tt, w')
             /\ w_log w' = w_log w ++ [TUpdate (l (GetTypeName o)) DATA_OK cb] /\ w_srv w' = w_srv w
       | OpRemove o cb =>
           exists w', on_redis w_cache put_cache note (OnCommand c None i) (put_cache a w) = Some (tt, w')
             /\ w_log w' = w_log w ++ [TRemove (l (GetTypeName o)) DATA_OK cb] /\ w_srv w' = w_srv w
       end.
Proof.
  intros Hw Ho Hin.
  destruct (wp_run _ _ _ (run_op_run op rand now (w_cache w) Hw Ho)) as (r & a & E & -> & i & c0 & s & Hs & Hi & ->).
  exists (sent op now i c0 s (w_cache w)), i, c0. split; [exact E|]. split; [apply last_snoc|].
  set (cb' := callback (op_cmd op) (GetTypeName (op_obj op)) (op_cb op)).
  set (w1 := put_cache (sent op now i c0 s (w_cache w)) w).
  set (w2 := put_cache (answered i None cb' (w_cache w1)) w1).
  assert (Ready l names (w_cache w2)) as Hw2 by (by apply Ready_answered).
  assert (on_redis w_cache put_cache note (OnCommand c None i) w1
    = (_ ← DispatchResult w_cache put_cache note (callback_head (op_cmd op) (GetTypeName (op_obj op))) None (op_cb op) false;
       mret tt) w2) as Ereply.
  { eapply reply_eq; [done|apply lookup_insert_eq|apply (r_listener _ _ _ Hw)]. }
  destruct op as [o cb|o cb|o cb]; rewrite Ereply.
  - unfold DispatchResult. cbn [op_obj op_cmd op_cb] in *. rewrite cstr_type by done. cbn [lift].
    unfold mbind, M_bind, mret, M_ret, gets. by rewrite (r_names _ _ _ Hw2 _ Hin).
  - apply wp_run_unit, wp_bind. eapply wp_mono; [by apply (dispatch_done (OpUpdate o cb))|]. by intros _ w' (_ & ? & ?).
  - apply wp_run_unit, wp_bind. eapply wp_mono; [by apply (dispatch_done (OpRemove o cb))|]. by intros _ w' (_ & ? & ?).
Qed.

(** *** Objects are not found *)

(** [FindObject] gives no object that is in the map: the key is never empty. *)
Theorem FindObject_blind o a :
  Ready l names a -> cacheable o ->
  exists a', FindObject o a = Some (None, a') /\ m_mpGetObjects a' = m_mpGetObjects a.
Proof.
  intros Ha Ho. apply wp_run_ret. destruct (r_ser _ _ _ Ha) as (s & Hs & Hc). unfold FindObject. wp_steps.
  eapply wp_mono; [by apply (GetObjectKey_run o s); [..|apply cacheable_pooled|apply c_key]|].
  intros r a' (-> & s' & _ & ->). wp_steps. split; [|done]. unfold FindObject_key.
  destruct (Z.eqb_spec (strlen (key_of o)) 0) as [E|]; [|done]. exfalso.
  pose proof (c_key o Ho) as Ek. unfold object_key in Ek. destruct (bool_decide _); [done|].
  apply key_loop_prefix in Ek as (t & Ek). rewrite Ek in E. unfold strlen in E.
  rewrite !length_app_str in E. cbn in E. lia.
Qed.

End refinement.

(** ** Distinct keys *)

Section keys.
Context {R : Reflection}.

(** A key field that prints in full and without the separator. *)
Definition plain_key (o : MetaObject) (n : string) : Prop :=
  exists fd, FindFieldByName (GetDescriptor_of o) n = Some fd /\ fd_name fd = n
    /\ match cpp_type fd with
       | CPPTYPE_INT32 | CPPTYPE_INT64 | CPPTYPE_ENUM | CPPTYPE_UINT32 | CPPTYPE_UINT64 =>
           - 2 ^ 63 <= get_num o n < 2 ^ 64
       | CPPTYPE_STRING => no_nul (get_str o n) /\ free_of "&" (get_str o n) /\ strlen (get_str o n) < 512
       | _ => False
       end.

Definition same_key (o o' : MetaObject) (n : string) : Prop :=
  forall fd, FindFieldByName (GetDescriptor_of o) n = Some fd ->
    if bool_decide (cpp_type fd = CPPTYPE_STRING) then get_str o n = get_str o' n else get_num o n = get_num o' n.

Lemma snprintf_num z : - 2 ^ 63 <= z < 2 ^ 64 -> snprintf 512 (print_d z) = print_d z.
Proof. intros Hz. apply snprintf_fits. pose proof (length_print_d_le 20 z ltac:(lia)). lia. Qed.

Lemma key_text_free o n fd t :
  plain_key o n -> FindFieldByName (GetDescriptor_of o) n = Some fd -> key_text o fd = Some t -> free_of "&" t.
Proof.
  intros (fd' & Hf & Hn & Hp) Hfd. rewrite Hf in Hfd. injection Hfd as <-. unfold key_text. rewrite Hn.
  destruct (cpp_type fd'); try done; intros [= <-];
    (rewrite snprintf_num by done; apply not_in_num; [apply all_num_print_d|done])
    || (destruct Hp as (Hz & Hs & Hl); rewrite c_str_no_nul by done; rewrite snprintf_fits; [done|]; unfold strlen in Hl; lia).
Qed.

Lemma key_text_inj o o' n fd t :
  GetDescriptor_of o = GetDescriptor_of o' -> plain_key o n -> plain_key o' n ->
  FindFieldByName (GetDescriptor_of o) n = Some fd -> key_text o fd = Some t -> key_text o' fd = Some t ->
  same_key o o' n.
Proof.
  intros Ed (fd1 & Hf1 & Hn1 & Hp1) (fd2 & Hf2 & Hn2 & Hp2) Hfd Ht Ht' fd' Hfd'. rewrite <- Ed in Hf2.
  rewrite Hfd in Hf1, Hf2, Hfd'. injection Hf1 as <-. injection Hf2 as <-. injection Hfd' as <-.
  unfold key_text in Ht, Ht'. rewrite Hn1 in Ht, Ht'.
  destruct (cpp_type fd); try done; cbn;
    (rewrite snprintf_num in Ht, Ht' by done; apply (inj (pretty : Z -> string)); unfold print_d in *; congruence)
    || (destruct Hp1 as (Hz & _ & Hl), Hp2 as (Hz' & _ & Hl'); unfold strlen in *;
        rewrite c_str_no_nul, snprintf_fits in Ht by (done || lia);
        rewrite c_str_no_nul, snprintf_fits in Ht' by (done || lia); congruence).
Qed.

(** The loop is a function of what it appends. *)
Fixpoint key_rest (o : MetaObject) (i : nat) (pks : list string) : option string :=
  match pks with
  | [] => Some ""
  | n :: pks =>
      fd ← FindFieldByName (GetDescriptor_of o) n;
      t ← key_text o fd;
      r ← key_rest o (S i) pks;
      Some (match i with O => "" | S _ => DELIM2 end +:+ t +:+ r)
  end.

Lemma key_loop_rest o i pks key k :
  key_loop o i pks key = Some (Some k) -> exists r, key_rest o i pks = Some r /\ k = key +:+ r.
Proof.
  revert i key. induction pks as [|n pks IH]; intros i key E; cbn [key_loop key_rest] in *.
  - simplify_eq. exists "". by rewrite app_nil_str.
  - destruct (FindFieldByName _ n) as [fd|]; [|done]. cbn [mbind option_bind] in *.
    destruct (negb _); [done|]. destruct (key_text o fd) as [t|]; [|done]. cbn [mbind option_bind].
    apply IH in E as (r & -> & ->). cbn [mbind option_bind]. eexists. split; [reflexivity|].
    destruct i; by rewrite ?app_assoc_str.
Qed.

Lemma key_rest_tail o i pks r : key_rest o (S i) pks = Some r -> pks = [] /\ r = "" \/ pks <> [] /\ exists x, r = String "&" x.
Proof.
  destruct pks as [|n pks]; cbn [key_rest]; [intros [= <-]; by left|].
  destruct (FindFieldByName _ n); [|done]. cbn [mbind option_bind]. destruct (key_text _ _); [|done].
  cbn [mbind option_bind]. destruct (key_rest _ _ _); [|done]. cbn [mbind option_bind]. intros [= <-].
  right. split; [done|]. by eexists.
Qed.

Lemma key_rest_inj o o' i pks r :
  GetDescriptor_of o = GetDescriptor_of o' -> Forall (plain_key o) pks -> Forall (plain_key o') pks ->
  key_rest o i pks = Some r -> key_rest o' i pks = Some r -> Forall (same_key o o') pks.
Proof.
  intros Ed. revert i r. induction pks as [|n pks IH]; intros i r Hp Hp'; [done|].
  apply Forall_cons in Hp as [Hn Hp]. apply Forall_cons in Hp' as [Hn' Hp']. cbn [key_rest]. rewrite <- Ed.
  destruct (FindFieldByName (GetDescriptor_of o) n) as [fd|] eqn:Hfd; [|done]. cbn [mbind option_bind].
  destruct (key_text o fd) as [t|] eqn:Et; [|done]. destruct (key_text o' fd) as [t'|] eqn:Et'; [|done].
  cbn [mbind option_bind]. destruct (key_rest o (S i) pks) as [x|] eqn:Ex; [|done].
  destruct (key_rest o' (S i) pks) as [x'|] eqn:Ex'; [|done]. cbn [mbind option_bind]. intros [= <-] [= E].
  apply (inj (String.append _)) in E.
  pose proof (key_text_free o n fd t Hn Hfd Et) as Hf. rewrite Ed in Hfd.
  pose proof (key_text_free o' n fd t' Hn' Hfd Et') as Hf'. rewrite <- Ed in Hfd.
  assert (t' = t /\ x' = x) as [-> ->].
  { destruct (key_rest_tail _ _ _ _ Ex) as [[-> ->]|[Hne (y & ->)]];
      destruct (key_rest_tail _ _ _ _ Ex') as [[? ->]|[? (y' & ->)]]; try done.
    - by rewrite !app_nil_str in E.
    - apply sep_inj in E as [-> ->]; done. }
  constructor; [by eapply key_text_inj|]. by eapply IH.
Qed.

(** Objects of a type whose keys print in full and without a [&] are kept apart:
    they have one key of the cache only if their key fields are equal. *)
Theorem object_key_inj o o' k :
  GetDescriptor_of o = GetDescriptor_of o' ->
  Forall (plain_key o) (primary_key (GetDescriptor_of o)) -> Forall (plain_key o') (primary_key (GetDescriptor_of o)) ->
  object_key o = Some (Some k) -> object_key o' = Some (Some k) ->
  Forall (same_key o o') (primary_key (GetDescriptor_of o)).
Proof.
  unfold object_key, GetTypeName. intros Ed Hp Hp' E E'. rewrite <- Ed in E'. destruct (bool_decide _); [done|].
  apply key_loop_rest in E as (r & Er & ->). apply key_loop_rest in E' as (r' & Er' & E).
  apply (inj (String.append _)) in E as <-. by eapply key_rest_inj.
Qed.

End keys.

(** ** A concrete cache *)

Module CacheWitness.
Import Reference SerializerWitness RedisWitness.
#[local] Existing Instance CenterWitness.macro.

#[export] Instance srv : CacheServer := {
  server := gmap bytes bytes;
  exec args s :=
    match args with
    | [c; k] =>
        if bool_decide (c = of_str "GET") then
          (match s !! k with Some v => mkAsyncReply REPLY_STRING 0 v | None => mkAsyncReply REPLY_NIL 0 [] end, s)
        else if bool_decide (c = of_str "DEL") then
          (mkAsyncReply REPLY_INTEGER (if bool_decide (is_Some (s !! k)) then 1 else 0) [], delete k s)
        else (mkAsyncReply REPLY_ERROR 0 [], s)
    | [c; k; v] =>
        if bool_decide (c = of_str "SET") then (mkAsyncReply REPLY_STATUS 0 (of_str "OK"), <[k := v]> s)
        else (mkAsyncReply REPLY_ERROR 0 [], s)
    | _ => (mkAsyncReply REPLY_ERROR 0 [], s)
    end;
  kept s := s
}.
#[export] Instance srv_laws : CacheServerLaws.
Proof.
  split; cbn; try done.
  - by intros k v s ->.
  - by intros k s ->.
Qed.

Definition role (n : string) : @MetaObject R :=
  set_msg "pack" (ReflectionRef.empty_obj pack_desc)
    (set_str "name" n (set_num "rid" 42 (ReflectionRef.empty_obj role_desc))).
Definition only_key (rid : Z) : @MetaObject R := set_num "rid" rid (ReflectionRef.empty_obj role_desc).

Definition agent : CacheAgent nat :=
  CacheAgent_new <| serializer := Some MetaSerializer_Init.2 |> <| redis := Some true |>
    <| redis_instance := a0 |> <| m_mpListener := {["Role" := Some 7%nat]} |>.
Definition w0 : World nat := mkWorld agent [] (fun _ => ∅).
Definition route (c : Z) : nat := 0%nat.
Definition names : list string := ["Role"].
Definition listener (n : string) : nat := 7%nat.

Lemma agent_ready : Ready listener names agent.
Proof.
  split; try done.
  - eexists. split; [reflexivity|]. exact KeyCache_Init.
  - intros n [->|[]%elem_of_nil]%elem_of_cons. reflexivity.
Qed.

Lemma nothing_kept : Keeps ∅ (w_srv w0 0%nat).
Proof. split; [done|]. intros k o E. by rewrite lookup_empty in E. Qed.

Lemma role_cacheable (n : string) : cacheable (role n).
Proof. split; try done; cbn; compute_done. Qed.
Lemma only_key_cacheable : cacheable (only_key 42).
Proof. split; try done; cbn; compute_done. Qed.

Lemma room n : 0 <= n -> is_Some (buffer_Create n).
Proof. intros _. by eexists. Qed.

Definition ops : list (Op * (Z * Z)) :=
  [(OpUpdate (role "Ann") [1], (3, 100)); (OpGet (only_key 42) [2], (8, 101));
   (OpRemove (only_key 42) [3], (1, 102)); (OpGet (only_key 42) [], (9, 103))].

Lemma cache_refines_map_witness :
  exists w', run_ops route async_ok ops w0 = Some (tt, w')
    /\ w_log w' = [TUpdate 7%nat DATA_OK [1]; TGet 7%nat DATA_OK (Some (role "Ann")) [2];
                   TRemove 7%nat DATA_OK [3]; TGet 7%nat DATA_NO_EXISTS None []].
Proof.
  destruct (cache_refines_map CenterWitness.STRNCPY_ok room async_ok (fun _ => eq_refl) listener names
    route 0%nat (fun _ => eq_refl) ops ∅ w0)
    as (w' & E & Hlog & _).
  - exact agent_ready.
  - exact nothing_kept.
  - assert (storable (OpUpdate (role "Ann") [1])) as H1 by (split; [apply role_cacheable|by vm_compute]).
    repeat (constructor; [split; [exact H1 || (split; [apply only_key_cacheable|exact I])|by left]|]). constructor.
  - exists w'. split; [exact E|]. rewrite Hlog. reflexivity.
Defined.

Lemma lost_connection_witness :
  exists a i, run_op async_ok 3 100 (OpUpdate (role "Ann") [1]) agent = Some (0, a)
    /\ exists w', on_redis w_cache put_cache note (OnCommand 7 None i) (put_cache a w0) = Some (tt, w')
       /\ w_log w' = [TUpdate 7%nat DATA_OK [1]] /\ w_srv w' 0%nat = ∅.
Proof.
  destruct (lost_connection CenterWitness.STRNCPY_ok room async_ok (fun _ => eq_refl) listener names
    (OpUpdate (role "Ann") [1]) 3 100 7 w0) as (a & i & c0 & E & _ & w' & Ew & Hlog & Hs).
  - exact agent_ready.
  - apply role_cacheable.
  - by left.
  - exists a, i. split; [exact E|]. exists w'. split; [exact Ew|]. split; [exact Hlog|]. by rewrite Hs.
Defined.

(** Two connections that lead to two servers do not make one map: the object
    stored on one is not found on the other. *)
Definition agent2 : CacheAgent nat :=
  agent <| redis_instance := a0 <| redisCtxList ::= fun l => l ++ [mkRedisClientContext (mkRedisAddr "127.0.0.2" 6379 0) 8 true] |> |>.

Example two_servers :
  (fun r => (fun t => match t with TGet l ret _ cb => (l, ret, cb) | TInsert l ret cb | TRemove l ret cb | TUpdate l ret cb => (l, ret, cb) end)
            <$> w_log r.2)
    <$> run_ops (fun c => Z.to_nat (c - 7)) async_ok
          [(OpUpdate (role "Ann") [1], (0, 100)); (OpGet (only_key 42) [2], (1, 101))] (mkWorld agent2 [] (fun _ => ∅))
  = Some [(7%nat, DATA_OK, [1]); (7%nat, DATA_NO_EXISTS, [2])].
Proof. vm_compute. reflexivity. Qed.

(** An agent that has read the role does not find it. *)
Definition holding : CacheAgent nat :=
  agent <| objs := {[1 := (role "Ann", 1%nat)]} |> <| next_obj := 2 |> <| m_mpGetObjects := {["Role:42" := Some 1]} |>.

Lemma holding_ready : Ready listener names holding.
Proof.
  destruct agent_ready. split; try done; change (m_mpGetObjects holding) with ({["Role:42" := Some 1]} : gmap string (option Z)).
  - intros k h [<- [= <-]]%lookup_singleton_Some. cbn. rewrite lookup_singleton_eq. split; [by eexists|lia].
  - intros k k' h [<- _]%lookup_singleton_Some [<- _]%lookup_singleton_Some. done.
Qed.

Lemma FindObject_blind_witness :
  exists a', FindObject (only_key 42) holding = Some (None, a') /\ m_mpGetObjects a' !! "Role:42" = Some (Some 1).
Proof.
  destruct (FindObject_blind (H := nat) listener names (only_key 42) holding) as (a' & E & Hm).
  - exact holding_ready.
  - exact only_key_cacheable.
  - exists a'. split; [exact E|]. rewrite Hm. reflexivity.
Defined.

Lemma object_key_inj_witness :
  object_key (role "Ann") = Some (Some "Role:42") /\ Forall (same_key (role "Ann") (only_key 42)) ["rid"].
Proof.
  split; [reflexivity|].
  apply (object_key_inj (role "Ann") (only_key 42) "Role:42").
  - reflexivity.
  - constructor; [|constructor]. eexists. split; [reflexivity|]. split; [reflexivity|]. by vm_compute.
  - constructor; [|constructor]. eexists. split; [reflexivity|]. split; [reflexivity|]. by vm_compute.
  - reflexivity.
  - reflexivity.
Defined.

(** With a [&] in a string key two objects share a key. *)
Definition pair_desc : Descriptor :=
  mkDescriptor "Pair" "db.Pair"
    [mkFieldDescriptor "a" CPPTYPE_STRING "string" "" 0 true; mkFieldDescriptor "b" CPPTYPE_STRING "string" "" 0 true]
    [("_PrimaryKey", [mkFieldDescriptor "a" CPPTYPE_UINT32 "uint32" "" 0 false; mkFieldDescriptor "b" CPPTYPE_UINT32 "uint32" "" 0 false])].
Definition pair_obj (a b : string) : @MetaObject R := set_str "b" b (set_str "a" a (ReflectionRef.empty_obj pair_desc)).

Example keys_collide : object_key (pair_obj "x&y" "z") = object_key (pair_obj "x" "y&z").
Proof. reflexivity. Qed.

End CacheWitness.
