(* ===== verification/AgentApp.v ===== *)
(** * The zone server process ([rgtd/zone/AgentApp.cpp])

    The zone server as an [App]: its configuration and its hooks. *)

From S2P Require Import Prelude CString Extern Config ConfigCenter TimerMgr EventCenter AppContext App GateServer.
From S2P Require Import RedisAgent ChannelMsgProxy MysqlMeta MysqlProxy MetaSerializer DBAgent DataCommon ZoneSession ClientMsg ZoneAgentMgr.
From S2P Require Import ShareMemoryCenter ResTableAgent CacheAgent.

(** ** Configuration *)

(** The defaults [OnGenerateDefaultConfig] adds. *)
Definition agent_default_kv : list (string * string) :=
  [("agent:gate:num", "1"); ("agent:gate#1:channel", "1"); ("agent:db:num", "1"); ("agent:db#1:ip", "127.0.0.1");
   ("agent:db#1:port", "3306"); ("agent:db#1:user", "root"); ("agent:db#1:passwd", "123456");
   ("agent:db#1:dbname", "rgtd"); ("agent:cache:num", "1"); ("agent:cache#1:ip", "127.0.0.1");
   ("agent:cache#1:port", "6379"); ("agent:cache#1:dbidx", "0"); ("agent:area:num", "5");
   ("agent:area:ids", "1 2 3 4 5"); ("console:port", "51000"); ("channel:num", "1");
   ("channel:local:addr", "tcp://127.0.0.1:51010"); ("channel:local:name", "agent:1");
   ("channel:info#1:addr", "-"); ("channel:info#1:name", "gate:1")].

(** [AgentContext]; the sets are in their order. *)
Record AgentContext := mkAgentContext {
  dbs : list MysqlProxyOption; caches : list RedisAddr; areas : list Z; gates : list Z
}.
#[global] Instance eta_AgentContext : Eta AgentContext := fun r => mkAgentContext (dbs r) (caches r) (areas r) (gates r).

Definition MysqlProxyOption_new : MysqlProxyOption := mkMysqlProxyOption "" 0 "" "" "" "" 0 0 0.

(** [std::set<uint32_t>::insert]. *)
Fixpoint zset_insert (x : Z) (l : list Z) : list Z :=
  match l with
  | [] => [x]
  | y :: l' => if x =? y then l else if x <? y then x :: l else y :: zset_insert x l'
  end.

Section AgentContext.
Context {I : IniLib} {SN : SplitNumLib}.

Definition AgentContext_OnGenerateDefaultConfig : M IniConfigParser unit := create_all agent_default_kv.

Definition item_key (kind : string) (i : nat) (field : string) : string :=
  snprintf 64 ("agent:" +:+ kind +:+ "#" +:+ print_d (Z.of_nat i + 1) +:+ ":" +:+ field).

(** The databases: one option is filled in again and again. *)
Fixpoint load_dbs (n i : nat) (mpo : MysqlProxyOption) (l : list MysqlProxyOption)
    : M IniConfigParser (MysqlProxyOption * list MysqlProxyOption) :=
  match n with
  | O => mret (mpo, l)
  | S n =>
      ip ← Config.GetConfigString (item_key "db" i "ip") None;
      port ← Config.GetConfigInt (item_key "db" i "port") 0;
      uname ← Config.GetConfigString (item_key "db" i "user") None;
      passwd ← Config.GetConfigString (item_key "db" i "passwd") None;
      dbname ← Config.GetConfigString (item_key "db" i "dbname") None;
      let mpo := mkMysqlProxyOption ip port uname passwd dbname (po_unisock mpo) (po_cliflag mpo)
                   (po_wait_timeout mpo) (po_intr_timeout mpo) in
      load_dbs n (S i) mpo (l ++ [mpo])
  end.

(** The caches: they are read, but what is stored is the last database again. *)
Fixpoint load_caches (n i : nat) (mpo : MysqlProxyOption) (l : list MysqlProxyOption)
    : M IniConfigParser (list MysqlProxyOption) :=
  match n with
  | O => mret l
  | S n =>
      ip ← Config.GetConfigString (item_key "cache" i "ip") None;
      port ← Config.GetConfigInt (item_key "cache" i "port") 0;
      dbidx ← Config.GetConfigInt (item_key "cache" i "dbidx") 0;
      load_caches n (S i) mpo (l ++ [mpo])
  end.

(** [n] elements of the array the numbers were split into: one that was not written, or
    that is behind the array, is undefined. *)
Fixpoint insert_areas (n i : nat) (area_num : list Z) (l : list Z) : option (list Z) :=
  match n with
  | O => Some l
  | S n => a ← area_num !! i; insert_areas n (S i) area_num (zset_insert (u32 a) l)
  end.

(** The gates: a channel [0] is an error. *)
Fixpoint load_gates (n i : nat) (l : list Z) : M IniConfigParser (bool * list Z) :=
  match n with
  | O => mret (true, l)
  | S n =>
      chid ← Config.GetConfigInt (item_key "gate" i "channel") 0;
      if chid =? 0 then mret (false, l) else load_gates n (S i) (zset_insert (u32 chid) l)
  end.

Definition AgentContext_OnInit : M IniConfigParser (Z * AgentContext) :=
  n ← Config.GetConfigInt "agent:gate:num" 0;
  r ← load_dbs (Z.to_nat n) 0 MysqlProxyOption_new [];
  n ← Config.GetConfigInt "agent:cache:num" 0;
  dbs ← load_caches (Z.to_nat n) 0 r.1 r.2;
  n ← Config.GetConfigInt "agent:area:num" 0;
  sValue ← Config.GetConfigString "agent:area:ids" None;
  areas ← lift (insert_areas (Z.to_nat n) 0 (take 128 (SplitNum sValue)) []);
  if bool_decide (areas = []) then mret (-1, mkAgentContext dbs [] areas [])
  else
    n ← Config.GetConfigInt "agent:gate:num" 0;
    r ← load_gates (Z.to_nat n) 0 [];
    mret (if (r.1 : bool) then 0 else -1, mkAgentContext dbs [] areas r.2).

(** ** What a configuration is read as *)

Definition cfg_num (p : IniConfigParser) (d : dictionary) (k : string) : Z := iniparser_getint d (real_key (root_key p) k) 0.
Definition cfg_text (p : IniConfigParser) (d : dictionary) (k : string) : string :=
  default "" (iniparser_getstring d (real_key (root_key p) k)).

Definition db_option (p : IniConfigParser) (d : dictionary) (i : nat) : MysqlProxyOption :=
  mkMysqlProxyOption (cfg_text p d (item_key "db" i "ip")) (cfg_num p d (item_key "db" i "port"))
    (cfg_text p d (item_key "db" i "user")) (cfg_text p d (item_key "db" i "passwd"))
    (cfg_text p d (item_key "db" i "dbname")) "" 0 0 0.

Lemma cfg_int_run p d k : ini_dic p = Some d -> Config.GetConfigInt k 0 p = Some (cfg_num p d k, p).
Proof. intros Hd. unfold Config.GetConfigInt, mbind, M_bind, gets, lift. by rewrite Hd. Qed.
Lemma cfg_text_run p d k : ini_dic p = Some d -> Config.GetConfigString k None p = Some (cfg_text p d k, p).
Proof. intros Hd. unfold Config.GetConfigString, mbind, M_bind, gets, lift. by rewrite Hd. Qed.

Lemma load_dbs_run p d n i mpo l :
  ini_dic p = Some d -> po_unisock mpo = "" -> po_cliflag mpo = 0 -> po_wait_timeout mpo = 0 -> po_intr_timeout mpo = 0 ->
  load_dbs n i mpo l p
  = Some ((default mpo (last (db_option p d <$> seq i n)), l ++ (db_option p d <$> seq i n)), p).
Proof.
  intros Hd. revert i mpo l. induction n as [|n IH]; intros i mpo l H1 H2 H3 H4; cbn [load_dbs].
  - by rewrite app_nil_r.
  - rewrite !(bind_run _ _ _ _ _ (cfg_text_run p d _ Hd)), !(bind_run _ _ _ _ _ (cfg_int_run p d _ Hd)).
    rewrite !(bind_run _ _ _ _ _ (cfg_text_run p d _ Hd)), H1, H2, H3, H4, IH by done.
    cbn [seq fmap list_fmap]. fold (db_option p d i). rewrite <- (assoc_L (++)). cbn [app]. do 3 f_equal.
    rewrite last_cons. by destruct (last _).
Qed.

Lemma load_caches_run p d n i mpo l :
  ini_dic p = Some d -> load_caches n i mpo l p = Some (l ++ replicate n mpo, p).
Proof.
  intros Hd. revert i l. induction n as [|n IH]; intros i l; cbn [load_caches replicate].
  - by rewrite app_nil_r.
  - rewrite !(bind_run _ _ _ _ _ (cfg_text_run p d _ Hd)), !(bind_run _ _ _ _ _ (cfg_int_run p d _ Hd)), IH.
    by rewrite <- (assoc_L (++)).
Qed.

Lemma insert_areas_short n i area_num l : (length area_num < i + n)%nat -> (i <= length area_num)%nat ->
  insert_areas n i area_num l = None.
Proof.
  revert i l. induction n as [|n IH]; intros i l Hn Hi; [lia|]. cbn [insert_areas].
  destruct (area_num !! i) as [a|] eqn:E; [|done]. apply lookup_lt_Some in E. apply IH; lia.
Qed.

End AgentContext.

Section context_facts.
Context {I : IniLib} {SN : SplitNumLib}.

(** The databases of the zone server's configuration. There are as many as there are gates,
    whatever [agent:db:num] says, and behind them one more copy of the last for every cache; the
    caches themselves are not kept. *)
Theorem AgentContext_dbs (p : IniConfigParser) d r c p' :
  ini_dic p = Some d -> AgentContext_OnInit p = Some ((r, c), p') ->
  let n := Z.to_nat (cfg_num p d "agent:gate:num") in
  let m := Z.to_nat (cfg_num p d "agent:cache:num") in
  let l := db_option p d <$> seq 0 n in
  dbs c = l ++ replicate m (default MysqlProxyOption_new (last l)) /\ caches c = [].
Proof.
  intros Hd HE n m l. unfold AgentContext_OnInit in HE.
  rewrite (bind_run _ _ _ _ _ (cfg_int_run p d _ Hd)) in HE. fold n in HE.
  rewrite (bind_run _ _ _ _ _ (load_dbs_run p d n 0 MysqlProxyOption_new [] Hd eq_refl eq_refl eq_refl eq_refl)) in HE.
  rewrite (bind_run _ _ _ _ _ (cfg_int_run p d _ Hd)) in HE. fold m l in HE. cbn [fst snd app] in HE.
  rewrite (bind_run _ _ _ _ _ (load_caches_run p d m 0 _ _ Hd)) in HE.
  rewrite (bind_run _ _ _ _ _ (cfg_int_run p d _ Hd)), (bind_run _ _ _ _ _ (cfg_text_run p d _ Hd)) in HE.
  unfold mbind at 1, M_bind at 1, lift in HE. destruct (insert_areas _ _ _ _) as [ar|]; [|done]. cbn [mret M_ret] in HE.
  destruct (bool_decide _); unfold mret, M_ret in HE; [by simplify_eq|].
  rewrite (bind_run _ _ _ _ _ (cfg_int_run p d _ Hd)) in HE. unfold mbind, M_bind in HE.
  destruct (load_gates _ _ _ p) as [[[ok g] p2]|]; [|done]. by simplify_eq/=.
Qed.

(** More areas announced than listed is undefined. When [agent:area:num] is greater than the
    number of ids, the loop reads elements of an array that nobody has written. *)
Theorem AgentContext_area_num (p : IniConfigParser) d :
  ini_dic p = Some d ->
  Z.of_nat (length (take 128 (SplitNum (cfg_text p d "agent:area:ids")))) < cfg_num p d "agent:area:num" ->
  AgentContext_OnInit p = None.
Proof.
  intros Hd Hn. unfold AgentContext_OnInit.
  rewrite (bind_run _ _ _ _ _ (cfg_int_run p d _ Hd)).
  rewrite (bind_run _ _ _ _ _ (load_dbs_run p d _ 0 MysqlProxyOption_new [] Hd eq_refl eq_refl eq_refl eq_refl)).
  rewrite (bind_run _ _ _ _ _ (cfg_int_run p d _ Hd)), (bind_run _ _ _ _ _ (load_caches_run p d _ 0 _ _ Hd)).
  rewrite (bind_run _ _ _ _ _ (cfg_int_run p d _ Hd)), (bind_run _ _ _ _ _ (cfg_text_run p d _ Hd)).
  rewrite insert_areas_short by lia. reflexivity.
Qed.

End context_facts.

(** ** The process

    The application holds the agents of the data layer next to the zone server. The database
    agent, the cache agent and the resource tables are given the same serializer; what it keeps is
    a cache of the types' keys, of which each has its copy here. *)

Section AgentApp.
Context {P : Type} {R : Reflection} {B0 : BufferLib} {T : MysqlText} {CM : CommonMacro}.
Context {SU : StringUtil} {F : FileLib} {H N : Type}.
Abbreviation W := (EventW (ZoneAgentMgr P)).

Record AgentApp := mkAgentApp {
  app_zone : W; app_cache : CacheAgent H; app_res : ResTableAgent; app_shm : ShareMemoryCenter N
}.
#[global] Instance eta_AgentApp : Eta AgentApp := fun r => mkAgentApp (app_zone r) (app_cache r) (app_res r) (app_shm r).

Definition put_cache (c : CacheAgent H) (a : AgentApp) : AgentApp := a <| app_cache := c |>.
Definition on_world {A} (m : M W A) : M AgentApp A := zoom app_zone (fun w a => a <| app_zone := w |>) m.

(** *** Starting the parts *)

(** The database thread takes requests as [Request_ret] says; [inited] and [started] are whether
    its [Init] and [Start] succeed. *)
Context (Request_ret : list MysqlRequest -> Z) (inited started : bool).
Definition AgentApp_StartDB : M AgentApp Z :=
  on_world (on_db (DBAgent.Init Request_ret MetaSerializer_Init.2 inited started true)).

(** The cache's listeners, and its event loop and connections as for [RedisAgent]. *)
Context (listen : H -> DataCall -> M AgentApp Z) (ev_loop : nat -> M RedisAgent unit) (connect : RedisAddr -> option Z).
Definition AgentApp_StartCache : M AgentApp Z :=
  CacheAgent.Init app_cache put_cache listen ev_loop connect [mkRedisAddr "127.0.0.1" 6379 0] MetaSerializer_Init.2.

(** The shared memory of ["agent.shm"]. *)
Context (OnAttach : N -> bytes -> Z -> Z * bytes) (Attach Create : Z -> Z * option ShareMemoryCenterDataFmt) (nattach : Z).
Definition AgentApp_StartShmCenter : M AgentApp Z :=
  zoom app_shm (fun s a => a <| app_shm := s |>) (ShareMemoryCenter.Init OnAttach Attach Create nattach).

(** The zone manager, with the areas and gates of the configuration; the results of the Lua library
    and the subscription of the channels are arguments, as for [ZoneAgentMgr::Init]. *)
Context (lua_Init lua_LoadFile lua_cs_handler_init : Z) (lua_cmds : list Z).
Context (SubscribeScatterMsg : list Z -> M P Z) (context : AgentContext).
Definition AgentApp_InitZoneMgr : M AgentApp Z :=
  on_world (ZoneAgentMgr.Init lua_Init lua_LoadFile lua_cs_handler_init lua_cmds SubscribeScatterMsg
              (areas context) (gates context)).

Definition AgentApp_InitScript : M AgentApp Z := mret 0.

(** The elements of a table's [list] field. *)
Context (list_of : MetaObject -> list MetaObject).
Definition AgentApp_InitResTable : M AgentApp Z :=
  zoom app_res (fun r a => a <| app_res := r |>) (ResTableAgent.Init list_of "../res" MetaSerializer_Init.2).

(** *** The hooks *)

(** [AgentApp::OnInit]; [co] is the result of the coroutine library. *)
Definition AgentApp_OnInit (co : Z) : M AgentApp Z :=
  if negb (co =? 0) then mret (-1)
  else if negb (MetaSerializer_Init.1 =? 0) then mret (-1)
  else
    ret ← AgentApp_InitResTable;
    if negb (ret =? 0) then mret (-1)
    else
      ret ← AgentApp_InitScript;
      if negb (ret =? 0) then mret (-1)
      else
        ret ← AgentApp_InitZoneMgr;
        mret (if negb (ret =? 0) then -1 else 0).

Definition AgentApp_OnStart : M AgentApp Z :=
  ret ← AgentApp_StartShmCenter;
  if negb (ret =? 0) then mret (-1)
  else
    ret ← AgentApp_StartDB;
    if negb (ret =? 0) then mret (-1)
    else
      ret ← AgentApp_StartCache;
      mret (if negb (ret =? 0) then -1 else 0).

Definition AgentApp_OnCtrl (cmdLine : list string) : M AgentApp string := mret "todo".
Definition AgentApp_OnTick (lElapseTime : Z) : M AgentApp Z := mret 0.

(** [AgentApp::OnPoll]: database, cache and channels are polled in this order; the time and the
    event loop's turn of the cache are arguments. *)
Definition AgentApp_OnPoll (PollDB PollChannels : Z -> M W Z) (now : Z) (k : nat) (iRecommendPollNum : Z) : M AgentApp Z :=
  on_world (PollDB iRecommendPollNum);;
  CacheAgent.Polling app_cache put_cache listen ev_loop iRecommendPollNum now k;;
  on_world (PollChannels 2);;
  mret 0.

Definition AgentApp_OnClosing (closingReason : Z) : M AgentApp Z := mret 0.

(** [AgentApp::OnDestroy]; [ZoneAgentMgr::Destroy] does nothing. *)
Definition AgentApp_OnDestroy : M AgentApp Z :=
  on_world (on_db DBAgent.Destroy);;
  zoom app_cache put_cache CacheAgent.Destroy;;
  mret 0.

Definition agent_hooks (co : Z) (PollDB PollChannels : Z -> M W Z) (now : Z) (k : nat) : AppHooks AgentApp :=
  mkAppHooks (AgentApp_OnInit co) AgentApp_OnStart AgentApp_OnCtrl AgentApp_OnTick
    (AgentApp_OnPoll PollDB PollChannels now k) AgentApp_OnClosing AgentApp_OnDestroy.

End AgentApp.
Arguments AgentApp P {R} H N.

(** ** A configuration *)

Module AgentWitness.
Import ConfigWitness.

(** The numbers of a text, separated by blanks. *)
#[export] Instance split : SplitNumLib := { SplitNum s := strtol <$> Reference.split_at " " s "" }.

Definition conf (areas : string) : gmap string string :=
  {[ "agent:gate:num" := "2"; "agent:db:num" := "1"; "agent:cache:num" := "1"; "agent:area:num" := "3";
     "agent:area:ids" := areas; "agent:gate#1:channel" := "5"; "agent:gate#2:channel" := "6";
     "agent:db#1:ip" := "10.0.0.1" ]}.
Definition parser (areas : string) : IniConfigParser := mkIni (CV "root" "" []) (Some (conf areas)).

Lemma AgentContext_dbs_witness :
  exists r c p', AgentContext_OnInit (parser "1 2 3") = Some ((r, c), p') /\ length (dbs c) = 3%nat.
Proof.
  destruct (AgentContext_OnInit (parser "1 2 3")) as [[[r c] p']|] eqn:E.
  - destruct (AgentContext_dbs (parser "1 2 3") (conf "1 2 3") r c p' eq_refl E) as [Hl _].
    exists r, c, p'. split; [reflexivity|]. rewrite Hl. vm_compute. reflexivity.
  - assert (match AgentContext_OnInit (parser "1 2 3") with Some _ => true | None => false end = true) as Hx
      by (vm_compute; reflexivity). rewrite E in Hx. discriminate.
Defined.

Lemma AgentContext_area_num_witness : AgentContext_OnInit (parser "1 2") = None.
Proof.
  apply (AgentContext_area_num (parser "1 2") (conf "1 2")).
  - reflexivity.
  - vm_compute. reflexivity.
Defined.

End AgentWitness.
